(* ===== verification/_CoqProject ===== *)
-Q . S2P
Prelude.v
NetworkUtil.v
Packet.v
RoutingInfo.v
TimeUtil.v
Logging.v
Real.v
Rounding.v
RandomDistribution.v
System.v
ModuleBase.v
Wire.v
Link.v
HostApi.v
Ethernet.v
Host.v
Runnable.v
TCPApplication.v
Assignments.v
Network.v
Process.v
Processes.v
TestEnv.v
Delivery.v
RouteTest.v
TestProg.v
SocketLayer.v
TestBench.v
TestBind.v
TestHandshake.v
TestClose.v
TestTransfer.v
TransferCorrect.v
EchoApp.v
EchoTest.v
EchoBed.v
