(* ===== verification/Prelude.v ===== *)
(** * KENSv3: a verification development

    KENSv3 is a network simulator for courses: hosts, switches, hubs and wires
    exchange messages in virtual time, applications run on threads of their own
    and call a socket interface, and a protocol module written by a student
    sits on top of IPv4.  This library models the simulator, the skeletons of
    the assignments and the tests that grade them, and proves that they do what
    they promise.

    ** The program and how its parts interact

    [System] (src/src/E/E_System.cpp) owns the clock, the queue of delayed
    messages and the set of runnables that are ready.  [System::run] wakes the
    ready runnables, then takes the earliest message, advances the clock,
    delivers the message to its module by a virtual call, returns the module's
    answer and the finished message, and starts again.  Modules react only
    through the scheduler's operations: they send and cancel messages, and make
    runnables ready.  [Wire], [Link] with its subclasses [Hub] and [Switch],
    and [Host] (src/src/Networking) are the modules.  A host passes packets
    between its own modules ([Ethernet], [IPv4], the assignment), serves the
    system calls of its applications and lets its modules set timers.  An
    application blocks in a system call until a module returns it.  The tests
    (src/app) build a network, launch applications that use sockets (KENS,
    echo) or modules that exchange routes (RIP, PWOSPF), run the system and
    check what the applications saw.

    ** Files

    - Prelude: machine integers with their wrap-around, the failure monad
      [Res] ([AssertFailed], [OutOfBounds], [NullDeref], ... are the ways a
      C++ run goes wrong), the tactics and the lemmas all files share.
    - NetworkUtil, Packet, RoutingInfo, TimeUtil, Logging: the classes of the
      same names; each operation of the source is one definition.
    - Real: [E::Real] as IEEE binary64 on the Standard Library's [spec_float].
      Rounding: what its operations do to values between two integers.
      RandomDistribution: the distributions on it, over a class
      [RandomEngine] for the C++ library's engine, [exp] and [log], and
      [RandomEngineLaws] for the range of a uniform draw.
    - System: the scheduler, generic in its modules.  The class [ModuleClass]
      holds the virtual methods of [Module]; [ModuleClassOk] states what the
      scheduler needs of them.  Its state is the record [System], with the
      queue, the active timers, the modules and the ready set.
    - ModuleBase: the message classes, the system call parameters, the
      application objects, and the methods of [Module] (E_Module.cpp).
    - Wire, Link (with [Hub] and [Switch]): the devices.  The class [LinkClass]
      is the virtual [packetArrived] of the subclasses of [Link].
    - HostApi: what a host module may call, as programs [HProg]; the class
      [HostModuleClass] is the virtual methods of a host module.
      Ethernet: the modules [Ethernet] and [IPv4] written in it.
    - Host: the class [Host]; [run_prog] interprets the programs of its
      modules, [exec] runs an application up to its next system call.
    - Runnable: the mutex and condition variable protocol between the
      scheduler and one application thread, as a transition system.
    - TCPApplication: the socket functions of applications.
    - Assignments: the skeletons of TCP, RIP, PWOSPF and Echo under src/app.
    - Network: wires, hubs, switches and hosts as the modules of one scheduler
      ([NetMod]); it discharges [ModuleClassOk] for them.
    - Process, Processes: whole runs of one application and of many, against
      the reference semantics [direct] of programs that sleep and read the time.
    - TestEnv: the environments of src/app/kens/testenv.hpp, built and run.
    - Delivery: the way of a segment from host to host, composed from the
      theorems on Ethernet, Host, Wire, Link and System.
    - RouteTest: testrip.cpp and testpwospf.cpp: the graphs and expected costs
      of the twenty environments, and the test bed [setupGraph] builds on the
      operations of Network and TestEnv.
    - TestProg: the applications of the KENS tests are interaction trees over
      the socket calls ([App]); [wp] and [wlp] are total and partial correctness
      against a [Layer] that says what a call may answer, [run_with] executes
      them on a concrete implementation.
      SocketLayer: the abstract socket layer the manual pages describe, its
      rules, and an executable implementation of it ([serve]).
    - TestBench: fixtures and hosts as the bodies of the tests see them.
      TestBind, TestHandshake, TestClose, TestTransfer: testopen.cpp and
      testbind.cpp; testhandshake.cpp; testclose.cpp; testtransfer.cpp and
      testcongestion.cpp.  TransferCorrect: the theorems on the last two.
    - EchoApp, EchoTest, EchoBed: testecho.cpp: the ownership of the arguments
      of its applications, its checks and tests, and its network.

    ** What the theorems show

    - Scheduler: every queued or sent message is processed once or is still
      queued, and the identifiers of pending messages stay unique
      ([run_processes_each_message_once]); each iteration processes a message,
      so a run that does not return goes on processing ([run_progress]); deliveries come in the order of
      (wake-up time, sending order) and the clock never goes back while no
      addition of times wraps ([run_total_order]); a cancelled message is never
      delivered ([cancelMessage_final]); every field keeps its 64-bit type
      ([scheduler_well_typed]).
    - Whole networks: a run keeps a network well formed: no module is
      rewired, and every message is delivered to a registered module that
      understands it ([network_run_safe]); the
      test environments establish and keep it ([test_environments_safe]); in
      any network that is otherwise idle a segment crosses both stacks, two
      wires and the switch, and reaches the other host unchanged at the
      computed time ([segment_delivered]); in the first test environment this
      happens while an application sleeps ([end_to_end_delivery]).
    - Devices: a wire refines a single-server queue per direction
      ([wire_refines_queue]); a link transmits the queued packets in order, one
      at a time ([check_queue_transmits]) and queues a packet within its
      limit ([sendPacket_safe]), the victim of an eviction being in the queue
      because a draw rounds to an integer of its range ([draw_in_range]); a
      switch and a hub forward to exactly the right ports, an unreliable switch
      with a packet unchanged or its payload damaged ([switch_forwards], [hub_floods]),
      at a rate that falls to exactly 0.01 ([corruption_rate_settles]).
    - Whole runs: an application ends with the outcome of the reference
      semantics, errors included ([run_application_direct]), and applications
      that run together on any hosts each end as they do alone
      ([processes_isolated]).
    - Hosts: system calls reach the interface of their namespace and are
      answered once; process identifiers and descriptors are fresh; sleeping
      and the time of day behave as documented; [cleanUp] releases all callers
      whose call reached a module.
    - Protocols: the IPv4 and Ethernet modules of a sender and a receiver are
      inverse to each other ([stack_transparent]); [one_sum] is the one's
      complement sum of RFC 1071, and a segment that carries its checksum
      verifies; route lookup is the longest prefix match with a prefix of at
      least one bit.
    - Threads: the application and the scheduler never run at the same time,
      and [wake] returns after at most 17 steps that are not spurious wake-ups
      ([runnable_mutual_exclusion], [wake_returns]); this justifies modelling
      [wake] as a sequential call in Host and System.  The destructor returns
      only for threads that have terminated ([destructor_joins_terminated]).
    - KENS tests: whether an application passes is decided by what the socket
      layer does: the tests of [bind] pass on every layer that follows the
      manual pages ([bind_tests_pass]), those of the handshake exactly when the
      expected number of connections is established ([handshake_tests_decide]),
      those of [close] exactly when the connection is there in time
      ([close_tests_decide]), and those of the transfer exactly when the bytes
      sent arrive ([transfer_tests_decide]).  All loops of the applications
      return on such layers, except that receivers never see an end of file
      reported as zero ([posix_end_of_file_hangs]).
    - Routing tests: the expected costs are the distances in the graphs
      ([expected_costs_are_distances]), and the test bed is the network the
      graph describes ([setupGraph_builds_graph]).
    - Echo tests: the documented protocol passes all of them in any order
      ([echo_tests_pass]); which tests can be passed ([echo_test_passable]);
      every host reaches every other ([echo_network_connected]), the
      invariants hold throughout ([echo_test_safe]), and the argument strings
      are freed exactly once ([echo_app_ownership]).
    - Flaws of the sources, as theorems: [accessors_overrun],
      [destroyed_copy_frees_live_id], [default_route_ignored],
      [queue_limit_one_asserts], [unserved_syscalls],
      [destructor_joins_terminated].

    ** Bounds and fuel

    [System::run] and its waking loop need not terminate (a module may always
    send again), so [run] takes fuel and gives [Err OutOfFuel] when it is used up;
    [run_progress] shows that fuel is only used up by processing messages, and
    more fuel never changes a result.  The searches for a free packet
    identifier, system call identifier or process id take the size of the set
    in use plus one as fuel, which is proved to be enough
    ([cyclic_search_total]).  The modules of a network may use any 64-bit delay
    ([T64]).  Times, sizes and identifiers are 64-bit and wrap;
    where a theorem needs that no sum of times wraps it says so as a bound on
    the delays or the clock.  The transmission delay is exact while its
    operands stay below 2^53, and so is a draw from a queue.  The runs of
    Process, Processes and Delivery are shown to end: [processes_isolated] needs
    as much fuel as the applications cause messages, plus three, and
    [segment_delivered] eleven for its ten messages.

    ** What is not modelled

    Log calls inside the components (Logging models the filters) and other
    printing, and the binary [TCPSolution] (the class [ExternalModule] is its interface in a
    network, [SocketLayer] what its sockets promise to the tests).  The
    applications of the KENS tests run on [SocketLayer], not on the threads of
    Host: the repository has no TCP module that would connect the two.  The C++
    library's random engines, its memory allocator, [malloc]ed and uninitialised
    memory, the iteration order of its hash tables, reference counts and type
    names are parameters.

    ** Plan

    Next: termination of runs of networks whose modules set no timers; the
    socket calls of the tests through Host with a reference TCP module that
    works on one host; a reference RIP module run on the routing test beds. *)

From stdpp Require Export base numbers list gmap strings.
From Stdlib Require Export ZArith Lia.

Declare Scope kens_scope.
Delimit Scope kens_scope with kens.
Global Open Scope Z_scope.

(** ** Machine integers

    An unsigned integer of [w] bits is a [Z]; every operation of the sources
    that may leave the range is followed by the wrap-around of its type. *)

Definition wrap (w x : Z) : Z := x mod 2 ^ w.

(** Addition and subtraction of [Time], [Size] and [UUID] values, which are
    [uint64_t] in E_Common.hpp. *)
Notation "a ⊞ b" := (wrap 64 (a + b)) (at level 50, left associativity) : kens_scope.
Notation "a ⊟ b" := (wrap 64 (a - b)) (at level 50, left associativity) : kens_scope.
Global Open Scope kens_scope.

(** [is_u w x]: [x] is a value of the unsigned type of width [w]. *)
Definition is_u (w x : Z) : Prop := 0 <= x < 2 ^ w.

#[global] Instance is_u_dec w x : Decision (is_u w x).
Proof. unfold is_u. apply _. Defined.

Definition byte_list (l : list Z) : Prop := Forall (is_u 8) l.

#[global] Instance byte_list_dec l : Decision (byte_list l).
Proof. unfold byte_list. apply _. Defined.

(** ** Failures of the C++ program

    A run of the program that violates an [assert], reads outside an object,
    reads an indeterminate value, dereferences a null pointer, or throws
    ([std::get], [std::any_cast], [dynamic_cast], [optional::value]) is an
    [Err] value; everything else is [Ok]. *)
Inductive Error :=
| AssertFailed (site : string)
| OutOfBounds
| Indeterminate
| NullDeref
| BadCast
| BadVariantAccess
| BadOptionalAccess
| BadAnyCast
| DivideByZero
| BadConversion
| OutOfFuel.  (* not a failure of the program: the model's bound on a loop *)

#[global] Instance Error_eq_dec : EqDecision Error.
Proof. solve_decision. Defined.

Inductive Res (A : Type) :=
| Ok (a : A)
| Err (e : Error).
Arguments Ok {A} a.
Arguments Err {A} e.

#[global] Instance Res_ret : MRet Res := fun A a => Ok a.
#[global] Instance Res_bind : MBind Res :=
  fun A B f m => match m with Ok a => f a | Err e => Err e end.
#[global] Instance Res_fmap : FMap Res :=
  fun A B f m => match m with Ok a => Ok (f a) | Err e => Err e end.

#[global] Instance Res_eq_dec `{EqDecision A} : EqDecision (Res A).
Proof. solve_decision. Defined.

(** [assert_that b site]: the [assert] macro (the library is built without
    [NDEBUG]). *)
Definition assert_that (b : bool) (site : string) : Res unit :=
  if b then Ok tt else Err (AssertFailed site).

Definition of_option {A} (e : Error) (o : option A) : Res A :=
  match o with Some a => Ok a | None => Err e end.

Definition is_ok {A} (r : Res A) : bool :=
  match r with Ok _ => true | Err _ => false end.

(** Left-to-right iteration of a failing step over a list. *)
Fixpoint foldM {A B} (f : B -> A -> Res A) (l : list B) (a : A) : Res A :=
  match l with
  | [] => Ok a
  | b :: l' => match f b a with Ok a' => foldM f l' a' | Err e => Err e end
  end.

(** The search loop that [Packet::allocatePacketUUID], the system call ids of
    [Host::messageReceived] and [Host::registerProcess] share:
    [do { if (free(c)) return c; c = next(c); } while (c != start)].
    [Ok None] is the exit through the loop condition. *)
Fixpoint cyclic_search (fuel : nat) (next : Z -> Z) (free : Z -> bool) (start c : Z)
  : Res (option Z) :=
  match fuel with
  | O => Err OutOfFuel
  | S fuel =>
      if free c then Ok (Some c)
      else let c' := next c in
           if c' =? start then Ok None else cyclic_search fuel next free start c'
  end.

(** ** Buffers *)

Definition slice {A} (off len : nat) (l : list A) : list A :=
  take len (drop off l).

Definition write_at {A} (off : nat) (bs buf : list A) : list A :=
  take off buf ++ bs ++ drop (off + length bs) buf.

Create HintDb kens discriminated.
#[export] Hint Constants Opaque : kens.
Create Rewrite HintDb kens.

(** ** Tactics *)

Ltac res_step :=
  match goal with
  | H : mbind _ (Ok _) = _ |- _ => cbn [mbind Res_bind] in H
  | H : mbind _ (Err _) = _ |- _ => cbn [mbind Res_bind] in H
  | H : mret _ = _ |- _ => unfold mret, Res_ret in H
  | H : Ok _ = Ok _ |- _ => injection H; clear H; intros; subst
  | H : Ok _ = Err _ |- _ => discriminate H
  | H : Err _ = Ok _ |- _ => discriminate H
  | H : Some _ = Some _ |- _ => injection H; clear H; intros; subst
  | H : Some _ = None |- _ => discriminate H
  | H : None = Some _ |- _ => discriminate H
  | H : (_, _) = (_, _) |- _ => injection H; clear H; intros; subst
  | H : mbind ?f ?m = Ok _ |- _ =>
      let E := fresh "E" in destruct m eqn:E
  | H : assert_that ?b _ = Ok _ |- _ =>
      let E := fresh "E" in unfold assert_that in H; destruct b eqn:E
  | H : of_option _ ?o = Ok _ |- _ =>
      let E := fresh "E" in unfold of_option in H; destruct o eqn:E
  | H : (let '(_, _) := ?p in _) = Ok _ |- _ =>
      let E := fresh "E" in destruct p eqn:E
  end.

(** [res_inv] inverts every hypothesis that says a failing computation
    returned a value. *)
Ltac res_inv := repeat (res_step; cbn [fst snd] in *).

(** [bool_to_prop] turns boolean integer tests into propositions. *)
Ltac bool_to_prop :=
  repeat match goal with
  | H : (_ && _)%bool = true |- _ => apply andb_true_iff in H as [? ?]
  | H : (_ || _)%bool = false |- _ => apply orb_false_iff in H as [? ?]
  | H : negb _ = true |- _ => apply negb_true_iff in H
  | H : negb _ = false |- _ => apply negb_false_iff in H
  | H : (_ =? _)%Z = true |- _ => apply Z.eqb_eq in H
  | H : (_ =? _)%Z = false |- _ => apply Z.eqb_neq in H
  | H : (_ <? _)%Z = true |- _ => apply Z.ltb_lt in H
  | H : (_ <? _)%Z = false |- _ => apply Z.ltb_ge in H
  | H : (_ <=? _)%Z = true |- _ => apply Z.leb_le in H
  | H : (_ <=? _)%Z = false |- _ => apply Z.leb_gt in H
  | H : (_ =? _)%nat = true |- _ => apply Nat.eqb_eq in H
  | H : (_ =? _)%nat = false |- _ => apply Nat.eqb_neq in H
  | H : (_ <? _)%nat = true |- _ => apply Nat.ltb_lt in H
  | H : (_ <? _)%nat = false |- _ => apply Nat.ltb_ge in H
  | H : (_ <=? _)%nat = true |- _ => apply Nat.leb_le in H
  | H : (_ <=? _)%nat = false |- _ => apply Nat.leb_gt in H
  | H : bool_decide _ = true |- _ => apply bool_decide_eq_true in H
  | H : bool_decide _ = false |- _ => apply bool_decide_eq_false in H
  | H : String.eqb _ _ = true |- _ => apply String.eqb_eq in H
  | H : String.eqb _ _ = false |- _ => apply String.eqb_neq in H
  end.

(** [eval_to_nat] computes the conversions of integer constants. *)
Ltac eval_to_nat :=
  repeat match goal with
  | |- context [Z.to_nat ?c] =>
      let v := eval vm_compute in (Z.to_nat c) in change (Z.to_nat c) with v
  end.

(** ** Lemmas on machine integers *)

Lemma wrap_range w x : 0 <= w -> is_u w (wrap w x).
Proof. intros. apply Z.mod_pos_bound. lia. Qed.

Lemma wrap_small w x : is_u w x -> wrap w x = x.
Proof. apply Z.mod_small. Qed.

(** [hash<std::pair<K, V>>] of E_Common.hpp, from the hashes of the parts.  It
    does not see the order of the parts. *)
Definition hash_pair (hk hv : Z) : Z := wrap 64 (hk * hv) ⊞ hk ⊞ hv.

Lemma hash_pair_product hk hv : hash_pair hk hv = wrap 64 ((hk + 1) * (hv + 1) - 1).
Proof.
  unfold hash_pair, wrap. rewrite Z.add_mod_idemp_l by lia. rewrite <- Z.add_assoc, Z.add_mod_idemp_l by lia. f_equal. lia.
Qed.

Lemma hash_pair_comm hk hv : hash_pair hk hv = hash_pair hv hk.
Proof. rewrite !hash_pair_product. f_equal. lia. Qed.

Lemma wrap_wrap w x : 0 <= w -> wrap w (wrap w x) = wrap w x.
Proof. intros. apply wrap_small, wrap_range; lia. Qed.


Lemma land_ones_wrap w x : 0 <= w -> Z.land x (2 ^ w - 1) = wrap w x.
Proof. intros. unfold wrap. rewrite <- Z.land_ones by lia. f_equal. rewrite Z.ones_equiv. lia. Qed.

Lemma byte_list_app l1 l2 : byte_list (l1 ++ l2) <-> byte_list l1 /\ byte_list l2.
Proof. apply Forall_app. Qed.

Lemma byte_list_cons b l : byte_list (b :: l) <-> is_u 8 b /\ byte_list l.
Proof. apply Forall_cons. Qed.

Lemma byte_list_nil : byte_list [].
Proof. constructor. Qed.

(** [solve_bytes] proves that a concrete list of bytes is one. *)
Ltac solve_bytes := apply (bool_decide_unpack _); vm_compute; reflexivity.

#[export] Hint Resolve wrap_range byte_list_nil : kens.

(** ** Lemmas on buffers *)

Section Buffers.
Context {A : Type}.
Implicit Types (l bs : list A) (P : A -> Prop).

Lemma length_slice off len l :
  (off + len <= length l)%nat -> length (slice off len l) = len.
Proof. intros. unfold slice. rewrite length_take, length_drop. lia. Qed.

Lemma length_write_at off bs l :
  (off + length bs <= length l)%nat -> length (write_at off bs l) = length l.
Proof.
  intros. unfold write_at. rewrite !length_app, length_take, length_drop. lia.
Qed.

Lemma lookup_slice off len l i :
  (i < len)%nat -> slice off len l !! i = l !! (off + i)%nat.
Proof. intros. unfold slice. by rewrite lookup_take_lt, lookup_drop. Qed.

Lemma lookup_write_at_in off bs l i :
  (off <= length l)%nat -> (off <= i < off + length bs)%nat ->
  write_at off bs l !! i = bs !! (i - off)%nat.
Proof.
  intros. unfold write_at.
  rewrite lookup_app_r by (rewrite length_take; lia).
  rewrite length_take, lookup_app_l by lia. f_equal. lia.
Qed.

Lemma lookup_write_at_out off bs l i :
  (off + length bs <= length l)%nat -> ~ (off <= i < off + length bs)%nat ->
  write_at off bs l !! i = l !! i.
Proof.
  intros. unfold write_at. destruct (decide (i < off)%nat).
  - rewrite lookup_app_l by (rewrite length_take; lia).
    by rewrite lookup_take_lt by lia.
  - rewrite lookup_app_r by (rewrite length_take; lia).
    rewrite length_take, lookup_app_r by lia.
    rewrite lookup_drop. f_equal. lia.
Qed.

Lemma slice_write_same off bs l :
  (off + length bs <= length l)%nat -> slice off (length bs) (write_at off bs l) = bs.
Proof.
  intros. unfold slice, write_at.
  rewrite drop_app_length' by (rewrite length_take; lia).
  by rewrite take_app_length.
Qed.

Lemma slice_write_other off len off' bs l :
  (off' + length bs <= length l)%nat ->
  (off + len <= off')%nat \/ (off' + length bs <= off)%nat ->
  slice off len (write_at off' bs l) = slice off len l.
Proof.
  intros Hl Hd. apply list_eq. intros i. destruct (decide (i < len)%nat).
  - rewrite !lookup_slice by lia. apply lookup_write_at_out; lia.
  - rewrite !lookup_ge_None_2; auto; unfold slice; rewrite length_take; lia.
Qed.

Lemma Forall_write_at P off bs l :
  Forall P bs -> Forall P l -> Forall P (write_at off bs l).
Proof. intros. unfold write_at. repeat apply Forall_app_2; auto using Forall_take, Forall_drop. Qed.

Lemma Forall_slice P off len l : Forall P l -> Forall P (slice off len l).
Proof. intros. unfold slice. auto using Forall_take, Forall_drop. Qed.

End Buffers.

#[export] Hint Resolve Forall_write_at Forall_slice : kens.
#[export] Hint Rewrite @length_slice @length_write_at using lia : kens.

(** ** Lemmas on failing computations *)

Lemma bind_Ok {A B} (f : A -> Res B) m b :
  (m ≫= f) = Ok b <-> exists a, m = Ok a /\ f a = Ok b.
Proof.
  split.
  - destruct m as [a|]; [eauto | discriminate].
  - intros (a & -> & H). exact H.
Qed.

Lemma foldM_inv {A B} (P : A -> Prop) (f : B -> A -> Res A) l a a' :
  (forall b x y, b ∈ l -> P x -> f b x = Ok y -> P y) ->
  P a -> foldM f l a = Ok a' -> P a'.
Proof.
  revert a. induction l as [|b l IH]; cbn; intros a Hf Ha Hr; res_inv; auto.
  destruct (f b a) as [x|] eqn:E; [|discriminate].
  apply (IH x); [|eapply Hf; eauto; left|done].
  intros. eapply Hf; eauto. by right.
Qed.

Lemma foldM_total {A B} (P : A -> Prop) (f : B -> A -> Res A) l a :
  (forall b x, b ∈ l -> P x -> exists y, f b x = Ok y /\ P y) ->
  P a -> exists a', foldM f l a = Ok a' /\ P a'.
Proof.
  revert a. induction l as [|b l IH]; cbn; intros a Hf Ha; [eauto|].
  destruct (Hf b a) as (y & -> & Hy); [left|done|].
  apply IH; auto. intros. apply Hf; auto. by right.
Qed.

Lemma foldM_app {A B} (f : B -> A -> Res A) l1 l2 a :
  foldM f (l1 ++ l2) a = (a' ← foldM f l1 a; foldM f l2 a').
Proof.
  revert a. induction l1 as [|b l1 IH]; intros a; [done|].
  cbn. destruct (f b a); [apply IH | done].
Qed.

(** ** The cyclic search

    [m] is the modulus of the counter ([2 ^ 64], or [65536] for process ids)
    and [used] the set of values the loop must avoid. *)
Section CyclicSearch.
Context (m : Z) (used : gset Z) (start : Z).
Hypothesis Hstart : 0 <= start < m.

Lemma cyclic_mod_add k : 0 <= k < m -> (start + k) mod m = if start + k <? m then start + k else start + k - m.
Proof.
  intros. destruct (_ <? m) eqn:E; bool_to_prop.
  - apply Z.mod_small. lia.
  - symmetry. apply Z.mod_unique with 1; lia.
Qed.

Lemma cyclic_mod_inj i j :
  0 <= i < m -> 0 <= j < m -> (start + i) mod m = (start + j) mod m -> i = j.
Proof.
  intros Hi Hj. rewrite !cyclic_mod_add by lia.
  destruct (start + i <? m) eqn:?, (start + j <? m) eqn:?; bool_to_prop; lia.
Qed.

Lemma cyclic_prefix_size (k : nat) :
  Z.of_nat k <= m ->
  (forall i, 0 <= i < Z.of_nat k -> (start + i) mod m ∈ used) -> (k <= size used)%nat.
Proof.
  intros Hk Hin.
  set (s := list_to_set ((fun i => (start + Z.of_nat i) mod m) <$> seq 0 k) : gset Z).
  assert (size s = k) as Hsize.
  { unfold s. rewrite size_list_to_set.
    - by rewrite length_fmap, length_seq.
    - apply NoDup_fmap_2_strong; [|apply NoDup_seq].
      intros i j Hi Hj E. apply elem_of_seq in Hi, Hj.
      apply cyclic_mod_inj in E; lia. }
  rewrite <- Hsize. apply subseteq_size. intros x Hx. unfold s in Hx.
  apply elem_of_list_to_set, list_elem_of_fmap in Hx as (i & -> & Hi).
  apply elem_of_seq in Hi. apply Hin. lia.
Qed.

Lemma cyclic_search_spec (fuel k : nat) :
  Z.of_nat k < m -> (size used < fuel + k)%nat ->
  (forall i, 0 <= i < Z.of_nat k -> (start + i) mod m ∈ used) ->
  match cyclic_search fuel (fun c => (c + 1) mod m) (fun c => bool_decide (c ∉ used))
          start ((start + Z.of_nat k) mod m) with
  | Ok (Some c) =>
      exists n, 0 <= n < m /\ c = (start + n) mod m /\ (c ∉ used) /\
                forall i, 0 <= i < n -> (start + i) mod m ∈ used
  | Ok None => forall x, 0 <= x < m -> x ∈ used
  | Err _ => False
  end.
Proof.
  revert k. induction fuel as [|fuel IH]; intros k Hk Hf Hin.
  - pose proof (cyclic_prefix_size k ltac:(lia) Hin). lia.
  - cbn [cyclic_search]. destruct (bool_decide (_ ∉ used)) eqn:E; bool_to_prop.
    + exists (Z.of_nat k). split; [lia|]. done.
    + assert ((start + Z.of_nat k) mod m ∈ used) as Hc
        by (destruct (decide ((start + Z.of_nat k) mod m ∈ used)); [done|contradiction]).
      assert (forall i, 0 <= i < Z.of_nat (S k) -> (start + i) mod m ∈ used) as Hin'.
      { intros i Hi. destruct (decide (i = Z.of_nat k)) as [->|]; [done | apply Hin; lia]. }
      assert (((start + Z.of_nat k) mod m + 1) mod m = (start + Z.of_nat (S k)) mod m) as ->.
      { rewrite Z.add_mod_idemp_l by lia. f_equal. lia. }
      destruct (_ =? start) eqn:Es; bool_to_prop.
      * assert (Z.of_nat (S k) = m) as Hm.
        { destruct (decide (Z.of_nat (S k) = m)) as [|Hne]; [done|].
          rewrite cyclic_mod_add in Es by lia. destruct (_ <? m) eqn:?; bool_to_prop; lia. }
        intros x Hx. replace x with ((start + (x - start) mod m) mod m).
        -- apply Hin'. pose proof (Z.mod_pos_bound (x - start) m). lia.
        -- rewrite Z.add_mod_idemp_r by lia.
           replace (start + (x - start)) with x by lia. apply Z.mod_small. lia.
      * apply IH; [|lia|done].
        destruct (decide (Z.of_nat (S k) = m)) as [Hm|]; [|lia].
        exfalso. apply Es. rewrite Hm. replace (start + m) with (start + 1 * m) by lia.
        rewrite Z.mod_add by lia. apply Z.mod_small. lia.
Qed.

(** With one more unit of fuel than there are used values, the loop returns:
    the first free value at or after [start] in cyclic order, or nothing when
    every value is used. *)
Lemma cyclic_search_total fuel :
  (size used < fuel)%nat ->
  match cyclic_search fuel (fun c => (c + 1) mod m) (fun c => bool_decide (c ∉ used)) start start with
  | Ok (Some c) =>
      exists n, 0 <= n < m /\ c = (start + n) mod m /\ (c ∉ used) /\
                forall i, 0 <= i < n -> (start + i) mod m ∈ used
  | Ok None => forall x, 0 <= x < m -> x ∈ used
  | Err _ => False
  end.
Proof.
  intros Hf. pose proof (cyclic_search_spec fuel 0) as H.
  rewrite Z.add_0_r, Z.mod_small in H by lia. apply H; [lia|lia|].
  intros i Hi. lia.
Qed.

End CyclicSearch.
