(* ===== verification/NetworkUtil.v ===== *)
(** * NetworkUtil: checksums and address/integer conversions

    Models src/Networking/E_NetworkUtil.cpp and
    include/E/Networking/E_NetworkUtil.hpp.  The Internet checksum loop
    [one_sum] keeps its 32-bit accumulator and its per-byte carry folding;
    the theorems relate it to the sum of big-endian 16-bit words modulo
    [65535] of RFC 1071.  [UINT64ToArray] and [arrayToUINT64] are the
    conversions the switch uses for its MAC table. *)

From S2P Require Import Prelude.

Module NetworkUtil.

(** ** Definitions *)

(** [sum = (sum & 0xFFFF) + (sum >> 16)] on [uint32_t]. *)
Definition carry_fold (sum : Z) : Z :=
  wrap 32 (Z.land sum 0xFFFF + Z.shiftr sum 16).

(** One iteration of the loop of [one_sum]: the state is [(upper, sum)]. *)
Definition one_sum_step (st : bool * Z) (b : Z) : bool * Z :=
  let '(upper, sum) := st in
  let sum := if upper then wrap 32 (sum + Z.shiftl b 8) else wrap 32 (sum + b) in
  (negb upper, carry_fold sum).

Definition one_sum (buffer : list Z) : Z :=
  let '(_, sum) := foldl one_sum_step (true, 0) buffer in
  wrap 16 (carry_fold sum).

(** The bytes of a [uint32_t] object and of [htons(x)] in memory, on the
    little-endian hosts the project builds for. *)
Definition u32_bytes (x : Z) : list Z :=
  [Z.land x 0xFF; Z.land (Z.shiftr x 8) 0xFF;
   Z.land (Z.shiftr x 16) 0xFF; Z.land (Z.shiftr x 24) 0xFF].

Definition htons_bytes (x : Z) : list Z :=
  [Z.land (Z.shiftr x 8) 0xFF; Z.land x 0xFF].

Definition IPPROTO_TCP : Z := 6.

(** [struct pseudoheader], packed: 12 bytes. *)
Record pseudoheader := {
  ph_source : Z;
  ph_destination : Z;
  ph_zero : Z;
  ph_protocol : Z;
  ph_length : Z;  (* the value before htons *)
}.

Definition pseudoheader_bytes (p : pseudoheader) : list Z :=
  u32_bytes (ph_source p) ++ u32_bytes (ph_destination p) ++
  [ph_zero p; ph_protocol p] ++ htons_bytes (wrap 16 (ph_length p)).

Definition tcp_sum (source dest : Z) (tcp_seg : list Z) : Z :=
  let length := Z.of_nat (length tcp_seg) in
  if length <? 20 then 0
  else
    let pheader := {| ph_source := source; ph_destination := dest; ph_zero := 0;
                      ph_protocol := IPPROTO_TCP; ph_length := length |} in
    let sum := one_sum (pseudoheader_bytes pheader) in
    let sum := wrap 32 (sum + one_sum tcp_seg) in
    let sum := carry_fold sum in
    wrap 16 sum.

Definition UINT64ToArray (N : nat) (val : Z) : list Z :=
  (fun k => Z.land (Z.shiftr val (8 * Z.of_nat k)) 0xFF) <$> seq 0 N.

Fixpoint arrayToUINT64_loop (k : Z) (array : list Z) (sum : Z) : Z :=
  match array with
  | [] => sum
  | b :: rest => arrayToUINT64_loop (k + 1) rest (sum ⊞ wrap 64 (Z.shiftl b (8 * k)))
  end.

Definition arrayToUINT64 (array : list Z) : Z := arrayToUINT64_loop 0 array 0.

(** ** The reference: sum of big-endian 16-bit words *)

Fixpoint word_sum (l : list Z) : Z :=
  match l with
  | [] => 0
  | [a] => a * 256
  | a :: b :: rest => a * 256 + b + word_sum rest
  end.

(** The representative of [s] modulo [65535] that one's complement addition
    produces: [0] only for [0], otherwise in [1..65535]. *)
Definition ones_rep (s : Z) : Z :=
  if s =? 0 then 0 else (s - 1) mod 65535 + 1.

(** The sum of the bytes of [l] weighted as [one_sum] does, starting on the
    upper half of a word when [upper]. *)
Fixpoint half_sum (upper : bool) (l : list Z) : Z :=
  match l with
  | [] => 0
  | b :: rest => (if upper then b * 256 else b) + half_sum (negb upper) rest
  end.

(** ** Lemmas on the reference *)

Lemma half_sum_word_sum l : half_sum true l = word_sum l.
Proof.
  assert (forall n l, (length l <= n)%nat -> half_sum true l = word_sum l) as H; [|by eapply H].
  intros n. induction n as [|n IH]; intros [|a [|b k]] Hl; cbn in *; try lia.
  rewrite IH; lia.
Qed.

Lemma half_sum_app u l1 l2 :
  half_sum u (l1 ++ l2) =
  half_sum u l1 + half_sum (if Nat.even (length l1) then u else negb u) l2.
Proof.
  revert u. induction l1 as [|a l1 IH]; intros u; [cbn; lia|].
  rewrite <- app_comm_cons. cbn [half_sum length]. rewrite IH.
  rewrite Nat.even_succ, <- Nat.negb_even.
  destruct (Nat.even (length l1)), u; cbn; lia.
Qed.

Lemma half_sum_nonneg u l : byte_list l -> 0 <= half_sum u l.
Proof.
  intros H. revert u. induction H as [|a l Ha Hl IH]; intros u; cbn; [lia|].
  specialize (IH (negb u)). unfold is_u in Ha. destruct u; lia.
Qed.

Lemma word_sum_nonneg l : byte_list l -> 0 <= word_sum l.
Proof. rewrite <- half_sum_word_sum. apply half_sum_nonneg. Qed.

Lemma word_sum_app l1 l2 :
  Nat.even (length l1) = true -> word_sum (l1 ++ l2) = word_sum l1 + word_sum l2.
Proof. intros H. rewrite <- !half_sum_word_sum, half_sum_app, H. lia. Qed.

Lemma ones_rep_range s : 0 <= s -> 0 <= ones_rep s <= 65535.
Proof.
  intros. unfold ones_rep. destruct (s =? 0) eqn:?; [lia|].
  pose proof (Z.mod_pos_bound (s - 1) 65535). lia.
Qed.

(** Characterisation used by every loop lemma below. *)
Lemma ones_rep_unique s r :
  0 <= s -> 0 <= r <= 65535 -> (exists k, s = r + k * 65535) -> (r = 0 <-> s = 0) ->
  r = ones_rep s.
Proof.
  intros Hs Hr [k ->] Hz. unfold ones_rep.
  destruct (_ =? 0) eqn:E; bool_to_prop; [lia|].
  replace (r + k * 65535 - 1) with (r - 1 + k * 65535) by lia.
  rewrite Z.mod_add by lia. rewrite Z.mod_small; lia.
Qed.

Lemma ones_rep_spec s :
  0 <= s -> (exists k, s = ones_rep s + k * 65535) /\ (ones_rep s = 0 <-> s = 0).
Proof.
  intros. unfold ones_rep. destruct (s =? 0) eqn:E; bool_to_prop.
  - split; [exists 0; lia | lia].
  - pose proof (Z.mod_pos_bound (s - 1) 65535). split; [|lia].
    exists ((s - 1) / 65535). pose proof (Z.div_mod (s - 1) 65535). lia.
Qed.

(** ** Lemmas on the loop *)

Lemma carry_fold_eq t :
  0 <= t < 131071 -> carry_fold t = if t <? 65536 then t else t - 65535.
Proof.
  intros H. unfold carry_fold. change 0xFFFF with (2 ^ 16 - 1).
  rewrite land_ones_wrap, Z.shiftr_div_pow2 by lia. unfold wrap.
  change (2 ^ 16) with 65536.
  destruct (t <? 65536) eqn:E; bool_to_prop.
  - rewrite (Z.mod_small t), (Z.div_small t), Z.mod_small; lia.
  - assert (t / 65536 = 1) as -> by (symmetry; apply Z.div_unique with (t - 65536); lia).
    assert (t mod 65536 = t - 65536) as -> by (symmetry; apply Z.mod_unique with 1; lia).
    rewrite Z.mod_small; lia.
Qed.

Lemma carry_fold_ones_rep s x :
  0 <= s -> 0 <= x <= 65535 -> carry_fold (ones_rep s + x) = ones_rep (s + x).
Proof.
  intros Hs Hx. pose proof (ones_rep_range s Hs).
  destruct (ones_rep_spec s Hs) as [[k Hk] Hz].
  rewrite carry_fold_eq by lia.
  apply ones_rep_unique; try lia; destruct (_ <? _) eqn:E; bool_to_prop; try lia.
  - exists k. lia.
  - exists (k + 1). lia.
Qed.

Lemma one_sum_step_rep u s b :
  0 <= s -> is_u 8 b ->
  one_sum_step (u, ones_rep s) b =
  (negb u, ones_rep (s + (if u then b * 256 else b))).
Proof.
  unfold is_u. intros Hs Hb. pose proof (ones_rep_range s Hs).
  unfold one_sum_step. f_equal.
  rewrite Z.shiftl_mul_pow2 by lia. change (2 ^ 8) with 256 in *.
  destruct u; rewrite wrap_small by (unfold is_u; lia);
    apply carry_fold_ones_rep; lia.
Qed.

Lemma one_sum_loop u s l :
  0 <= s -> byte_list l ->
  (foldl one_sum_step (u, ones_rep s) l).2 = ones_rep (s + half_sum u l).
Proof.
  intros Hs H. revert u s Hs. induction H as [|b l Hb Hl IH]; intros u s Hs.
  - cbn. f_equal. lia.
  - cbn [foldl half_sum]. rewrite one_sum_step_rep by done.
    rewrite IH; [f_equal; lia|]. unfold is_u in Hb. destruct u; lia.
Qed.

Lemma one_sum_rep l : byte_list l -> one_sum l = ones_rep (word_sum l).
Proof.
  intros H. unfold one_sum.
  pose proof (one_sum_loop true 0 l ltac:(lia) H) as E.
  change (ones_rep 0) with 0 in E. rewrite half_sum_word_sum in E.
  destruct (foldl one_sum_step (true, 0) l) as [u s]. cbn in E. subst s.
  rewrite Z.add_0_l. pose proof (word_sum_nonneg l H) as Hw.
  pose proof (ones_rep_range _ Hw).
  rewrite carry_fold_eq by lia.
  destruct (_ <? _) eqn:?; bool_to_prop; [|lia].
  apply wrap_small. unfold is_u. lia.
Qed.

Lemma one_sum_range l : byte_list l -> 0 <= one_sum l <= 65535.
Proof. intros H. rewrite one_sum_rep by done. apply ones_rep_range, word_sum_nonneg, H. Qed.

Lemma u8_land x : is_u 8 (Z.land x 0xFF).
Proof. change 0xFF with (2 ^ 8 - 1). rewrite land_ones_wrap by lia. apply wrap_range. lia. Qed.

Lemma u32_bytes_ok x : byte_list (u32_bytes x).
Proof. repeat constructor; apply u8_land. Qed.

Lemma htons_bytes_ok x : byte_list (htons_bytes x).
Proof. repeat constructor; apply u8_land. Qed.

Lemma htons_bytes_value x : is_u 16 x -> word_sum (htons_bytes x) = x.
Proof.
  intros Hx. unfold htons_bytes, word_sum. change 0xFF with (2 ^ 8 - 1).
  rewrite !land_ones_wrap, Z.shiftr_div_pow2 by lia. unfold wrap, is_u in *.
  change (2 ^ 8) with 256 in *. change (2 ^ 16) with 65536 in *.
  rewrite (Z.mod_small (x / 256)).
  - pose proof (Z.div_mod x 256). lia.
  - split; [apply Z.div_pos; lia | apply Z.div_lt_upper_bound; lia].
Qed.

#[export] Hint Resolve u32_bytes_ok htons_bytes_ok : kens.

(** Storing the one's complement of the sum in a zeroed, word-aligned field
    makes the sum of the whole buffer [0xFFFF]. *)
Lemma word_sum_field pre post x :
  Nat.even (length pre) = true -> is_u 16 x ->
  word_sum (pre ++ htons_bytes x ++ post) = word_sum (pre ++ [0; 0] ++ post) + x.
Proof.
  intros He Hx. rewrite !word_sum_app by done.
  rewrite htons_bytes_value by done. cbn. lia.
Qed.

Lemma one_sum_complement pre post :
  byte_list pre -> byte_list post -> Nat.even (length pre) = true ->
  one_sum (pre ++ htons_bytes (wrap 16 (Z.lnot (one_sum (pre ++ [0; 0] ++ post)))) ++ post) =
  0xFFFF.
Proof.
  intros Hpre Hpost He. set (z := pre ++ [0; 0] ++ post).
  assert (byte_list z) as Hz by (subst z; rewrite !byte_list_app; repeat split; [done | solve_bytes | done]).
  pose proof (one_sum_range z Hz) as Hr.
  assert (wrap 16 (Z.lnot (one_sum z)) = 65535 - one_sum z) as ->.
  { unfold wrap, Z.lnot. symmetry. apply Z.mod_unique with (-1); lia. }
  rewrite one_sum_rep by (rewrite !byte_list_app; auto with kens).
  rewrite word_sum_field by (auto; unfold is_u; lia). fold z.
  rewrite one_sum_rep in Hr |- * by done.
  pose proof (word_sum_nonneg z Hz) as Hw.
  destruct (ones_rep_spec _ Hw) as [[k Hk] Hz0].
  symmetry. apply ones_rep_unique; try lia. exists k. lia.
Qed.

(** ** The TCP checksum *)

Lemma pseudoheader_bytes_ok p :
  is_u 8 (ph_zero p) -> is_u 8 (ph_protocol p) -> byte_list (pseudoheader_bytes p).
Proof.
  intros. unfold pseudoheader_bytes.
  rewrite !byte_list_app, !byte_list_cons. auto 10 with kens.
Qed.

(** The pseudo header [tcp_sum] builds for a segment of [len] bytes. *)
Definition tcp_pseudo (source dest len : Z) : list Z :=
  pseudoheader_bytes {| ph_source := source; ph_destination := dest; ph_zero := 0;
                        ph_protocol := IPPROTO_TCP; ph_length := len |}.

Lemma tcp_pseudo_ok source dest len : byte_list (tcp_pseudo source dest len).
Proof. apply pseudoheader_bytes_ok; by apply (bool_decide_unpack _). Qed.

Lemma tcp_sum_rep source dest seg :
  byte_list seg -> (20 <= length seg)%nat ->
  tcp_sum source dest seg =
  ones_rep (word_sum (tcp_pseudo source dest (Z.of_nat (length seg))) + word_sum seg).
Proof.
  intros Hs Hl. unfold tcp_sum.
  destruct (_ <? 20) eqn:E; bool_to_prop; [lia|].
  fold (tcp_pseudo source dest (Z.of_nat (length seg))).
  set (ph := tcp_pseudo _ _ _). pose proof (tcp_pseudo_ok source dest (Z.of_nat (length seg))) as Hp.
  fold ph in Hp. rewrite !one_sum_rep by done.
  pose proof (word_sum_nonneg ph Hp). pose proof (word_sum_nonneg seg Hs).
  pose proof (ones_rep_range (word_sum ph) ltac:(done)).
  pose proof (ones_rep_range (word_sum seg) ltac:(done)).
  rewrite (wrap_small 32) by (unfold is_u; lia).
  rewrite carry_fold_ones_rep by lia.
  pose proof (ones_rep_range (word_sum ph + ones_rep (word_sum seg)) ltac:(lia)).
  rewrite wrap_small by (unfold is_u; lia).
  destruct (ones_rep_spec (word_sum seg) ltac:(lia)) as [[k Hk] ?].
  destruct (ones_rep_spec (word_sum ph + ones_rep (word_sum seg)) ltac:(lia)) as [[j Hj] ?].
  apply ones_rep_unique; try lia. exists (j + k). lia.
Qed.

Lemma tcp_sum_complement source dest pre post :
  byte_list pre -> byte_list post -> length pre = 16%nat -> (2 <= length post)%nat ->
  tcp_sum source dest
    (pre ++ htons_bytes (wrap 16 (Z.lnot (tcp_sum source dest (pre ++ [0; 0] ++ post)))) ++ post)
  = 0xFFFF.
Proof.
  intros Hpre Hpost Hl Hp. set (z := pre ++ [0; 0] ++ post).
  assert (byte_list z) as Hz by (subst z; rewrite !byte_list_app; repeat split; [done | solve_bytes | done]).
  assert (20 <= length z)%nat as Hlz by (subst z; rewrite !length_app, Hl; cbn; lia).
  set (c := wrap 16 (Z.lnot (tcp_sum source dest z))).
  rewrite tcp_sum_rep; cycle 1.
  { rewrite !byte_list_app; auto with kens. }
  { rewrite !length_app, Hl. cbn. lia. }
  replace (length (pre ++ htons_bytes c ++ post)) with (length z)
    by (subst z; rewrite !length_app; done).
  assert (tcp_sum source dest z =
          ones_rep (word_sum (tcp_pseudo source dest (Z.of_nat (length z))) + word_sum z)) as E
    by (by apply tcp_sum_rep).
  set (w := word_sum (tcp_pseudo source dest (Z.of_nat (length z)))) in *.
  assert (0 <= w) by apply word_sum_nonneg, tcp_pseudo_ok.
  pose proof (word_sum_nonneg z Hz). pose proof (ones_rep_range (w + word_sum z) ltac:(lia)).
  assert (c = 65535 - ones_rep (w + word_sum z)) as Hc.
  { subst c. rewrite E. unfold wrap, Z.lnot. symmetry. apply Z.mod_unique with (-1); lia. }
  rewrite word_sum_field by (first [by rewrite Hl | unfold is_u; lia]). fold z. rewrite Hc.
  destruct (ones_rep_spec (w + word_sum z) ltac:(lia)) as [[k Hk] ?].
  symmetry. apply ones_rep_unique; try lia. exists k. lia.
Qed.

(** ** Integer conversions *)

Lemma arrayToUINT64_loop_spec k l s :
  0 <= k -> byte_list l -> 8 * (k + Z.of_nat (length l)) <= 64 -> 0 <= s < 2 ^ (8 * k) ->
  exists t, arrayToUINT64_loop k l s = s + t * 2 ^ (8 * k) /\
            0 <= t < 2 ^ (8 * Z.of_nat (length l)) /\
            UINT64ToArray (length l) t = l.
Proof.
  intros Hk Hl. revert k s Hk. induction Hl as [|b l Hb Hl IH]; intros k s Hk Hn Hs.
  - exists 0. cbn. split; [lia|]. split; [lia | done].
  - cbn [length] in Hn. rewrite Nat2Z.inj_succ in Hn.
    assert (0 < 2 ^ (8 * k)) by (apply Z.pow_pos_nonneg; lia).
    assert (2 ^ (8 * (k + 1)) = 256 * 2 ^ (8 * k)) as E
      by (replace (8 * (k + 1)) with (8 + 8 * k) by lia; rewrite Z.pow_add_r; lia).
    assert (2 ^ (8 * (k + 1)) <= 2 ^ 64) by (apply Z.pow_le_mono_r; lia).
    unfold is_u in Hb. change (2 ^ 8) with 256 in Hb.
    cbn [arrayToUINT64_loop]. rewrite Z.shiftl_mul_pow2 by lia.
    rewrite (wrap_small 64 (b * _)) by (unfold is_u; nia).
    rewrite wrap_small by (unfold is_u; nia).
    destruct (IH (k + 1) (s + b * 2 ^ (8 * k))) as (t & Ht & Hr & Ha); [lia|lia|nia|].
    exists (b + t * 256). split; [rewrite Ht, E; lia|]. split.
    + cbn [length]. rewrite Nat2Z.inj_succ.
      replace (8 * Z.succ (Z.of_nat (length l))) with (8 + 8 * Z.of_nat (length l)) by lia.
      rewrite Z.pow_add_r by lia. change (2 ^ 8) with 256. nia.
    + unfold UINT64ToArray in *. cbn [length seq fmap list_fmap]. f_equal.
      * rewrite Z.mul_0_r, Z.shiftr_0_r. change 0xFF with (2 ^ 8 - 1).
        rewrite land_ones_wrap by lia. unfold wrap. change (2 ^ 8) with 256.
        rewrite Z.mod_add, Z.mod_small; lia.
      * rewrite <- seq_shift, <- list_fmap_compose. rewrite <- Ha at 2.
        apply list_fmap_ext. intros _ i _. cbn [compose]. f_equal.
        rewrite Nat2Z.inj_succ.
        replace (8 * Z.succ (Z.of_nat i)) with (8 + 8 * Z.of_nat i) by lia.
        rewrite <- Z.shiftr_shiftr by lia. f_equal.
        rewrite Z.shiftr_div_pow2 by lia. change (2 ^ 8) with 256.
        rewrite Z.div_add, Z.div_small; lia.
Qed.

Lemma arrayToUINT64_inv l :
  byte_list l -> (length l <= 8)%nat ->
  UINT64ToArray (length l) (arrayToUINT64 l) = l /\
  0 <= arrayToUINT64 l < 2 ^ (8 * Z.of_nat (length l)).
Proof.
  intros Hl Hn. unfold arrayToUINT64.
  destruct (arrayToUINT64_loop_spec 0 l 0) as (t & Ht & Hr & Ha); try done; [lia|].
  rewrite Ht, Z.mul_0_r, Z.pow_0_r, Z.mul_1_r, Z.add_0_l. done.
Qed.

Lemma arrayToUINT64_inj l1 l2 :
  byte_list l1 -> byte_list l2 -> length l1 = length l2 -> (length l1 <= 8)%nat ->
  arrayToUINT64 l1 = arrayToUINT64 l2 -> l1 = l2.
Proof.
  intros H1 H2 Hl Hn E.
  destruct (arrayToUINT64_inv l1 H1 Hn) as [<- _].
  rewrite Hl in Hn. destruct (arrayToUINT64_inv l2 H2 Hn) as [<- _]. congruence.
Qed.

(** ** Properties *)

(** C20: for every byte buffer, of even or odd length, the checksum loop
    [one_sum], with its 32-bit accumulator and a carry fold after each byte,
    returns the one's complement sum of the buffer's big-endian 16-bit words
    (an odd last byte is padded with zero): [0] only when every word is zero,
    otherwise the representative in [1..65535] of the sum modulo [65535]. *)
Theorem one_sum_is_ones_complement_sum buffer :
  byte_list buffer ->
  one_sum buffer = ones_rep (word_sum buffer) /\ 0 <= one_sum buffer <= 0xFFFF.
Proof. intros H. split; [by apply one_sum_rep | by apply one_sum_range]. Qed.

Lemma one_sum_is_ones_complement_sum_witness :
  byte_list [0x45; 0x00; 0xFF; 0xFF; 0x07] /\ one_sum [0x45; 0x00; 0xFF; 0xFF; 0x07] = 0x4C00.
Proof.
  assert (byte_list [0x45; 0x00; 0xFF; 0xFF; 0x07]) as H by (solve_bytes).
  split; [exact H|].
  destruct (one_sum_is_ones_complement_sum _ H) as [E _]. rewrite E. reflexivity.
Defined.

(** C21: a TCP segment of at least 20 bytes whose checksum field (bytes 16 and
    17) holds the complement of [tcp_sum] computed with that field zeroed, in
    network byte order, sums to [0xFFFF] under [tcp_sum] with the same source
    and destination: what a sender built with [tcp_sum] writes, a receiver
    that calls [tcp_sum] accepts. *)
Theorem tcp_sum_verifies source dest pre post :
  byte_list pre -> byte_list post -> length pre = 16%nat -> (2 <= length post)%nat ->
  tcp_sum source dest
    (pre ++ htons_bytes (wrap 16 (Z.lnot (tcp_sum source dest (pre ++ [0; 0] ++ post)))) ++ post)
  = 0xFFFF.
Proof. apply tcp_sum_complement. Qed.

Lemma tcp_sum_verifies_witness :
  tcp_sum 0x0700A8C0 0x0401000A
    (replicate 16 7 ++
     htons_bytes (wrap 16 (Z.lnot (tcp_sum 0x0700A8C0 0x0401000A
       (replicate 16 7 ++ [0; 0] ++ [1; 2; 3])))) ++ [1; 2; 3]) = 0xFFFF.
Proof.
  apply (tcp_sum_verifies 0x0700A8C0 0x0401000A (replicate 16 7) [1; 2; 3]);
    solve_bytes.
Defined.

(** [UINT64ToArray] and [arrayToUINT64] are inverse to each other on
    arrays of at most 8 bytes (IPv4 and MAC addresses), so distinct addresses
    get distinct integers in the switch's MAC table. *)
Theorem arrayToUINT64_roundtrip l1 l2 :
  byte_list l1 -> byte_list l2 -> length l1 = length l2 -> (length l1 <= 8)%nat ->
  UINT64ToArray (length l1) (arrayToUINT64 l1) = l1 /\ 0 <= arrayToUINT64 l1 < 2 ^ (8 * Z.of_nat (length l1)) /\
  (arrayToUINT64 l1 = arrayToUINT64 l2 <-> l1 = l2).
Proof.
  intros H1 H2 Hl Hn. destruct (arrayToUINT64_inv l1 H1 Hn) as [? ?].
  split; [done|]. split; [done|]. split; [by apply arrayToUINT64_inj | by intros ->].
Qed.

Lemma arrayToUINT64_roundtrip_witness :
  UINT64ToArray 6 (arrayToUINT64 [0xBC; 0xBC; 0xBC; 0xBC; 0xBC; 0xBD]) =
    [0xBC; 0xBC; 0xBC; 0xBC; 0xBC; 0xBD] /\ arrayToUINT64 [0xBC; 0xBC; 0xBC; 0xBC; 0xBC; 0xBD] <>
  arrayToUINT64 [0xBC; 0xBC; 0xBC; 0xBC; 0xBC; 0xBC].
Proof.
  destruct (arrayToUINT64_roundtrip [0xBC; 0xBC; 0xBC; 0xBC; 0xBC; 0xBD]
              [0xBC; 0xBC; 0xBC; 0xBC; 0xBC; 0xBC]) as (H1 & _ & H2);
    [solve_bytes .. |].
  split; [exact H1|]. intros E. apply H2 in E. discriminate E.
Defined.

End NetworkUtil.
