(* ===== verification/Packet.v ===== *)
(** * Packet: buffers and packet identifiers

    Models src/Networking/E_Packet.cpp and include/E/Networking/E_Packet.hpp.
    A packet is a byte buffer with an identifier; the identifiers in use are
    recorded in a static set and allocated by a wrapping 64-bit counter.  The
    constructors, assignments, [clone] and the destructor are separate
    operations on that static state, because the destructor of any copy
    releases the identifier its siblings still carry.  [readData] and
    [writeData] call [memcpy] with the requested length, so they are failing
    operations: the copy is out of bounds when the range overruns the buffer. *)

From S2P Require Import Prelude.

Module Packet.

(** ** State *)

(** The static members [packetUUIDSet] and [packetUUIDStart]. *)
Record Registry := mkRegistry {
  packetUUIDSet : gset Z;
  packetUUIDStart : Z;
}.

Record Packet := mkPacket {
  buffer : list Z;
  packetID : Z;
}.

#[global] Instance Packet_eq_dec : EqDecision Packet.
Proof. solve_decision. Defined.

Definition initial_registry : Registry := mkRegistry ∅ 0.

(** ** Identifiers *)

Definition next_uuid (c : Z) : Z := c ⊞ 1.

Definition allocatePacketUUID (r : Registry) : Res (Registry * Z) :=
  found ← cyclic_search (S (size (packetUUIDSet r))) next_uuid
            (fun c => bool_decide (c ∉ packetUUIDSet r))
            (packetUUIDStart r) (packetUUIDStart r);
  match found with
  | Some candidate =>
      Ok (mkRegistry ({[candidate]} ∪ packetUUIDSet r) (candidate ⊞ 1), candidate)
  | None => Err (AssertFailed "Packet::allocatePacketUUID")
  end.

Definition freePacketUUID (uuid : Z) (r : Registry) : Registry :=
  mkRegistry (packetUUIDSet r ∖ {[uuid]}) (packetUUIDStart r).

(** ** Constructors, assignments and the destructor *)

(** [Packet(UUID, size_t)]: a zero-filled buffer. *)
Definition Packet_with_id (uuid : Z) (size : nat) : Packet :=
  mkPacket (replicate size 0) uuid.

(** [Packet(size_t)]. *)
Definition Packet_new (size : nat) (r : Registry) : Res (Registry * Packet) :=
  '(r, uuid) ← allocatePacketUUID r;
  Ok (r, Packet_with_id uuid size).

(** [Packet(const Packet &)]. *)
Definition Packet_copy (other : Packet) : Packet :=
  mkPacket (buffer other) (packetID other).

(** [Packet(Packet &&)]: the new packet and what is left of the old one. *)
Definition Packet_move (other : Packet) : Packet * Packet :=
  (mkPacket (buffer other) (packetID other), mkPacket [] (packetID other)).

(** [operator=(const Packet &)] and [operator=(Packet &&)]: the packet that was
    assigned to, and for the latter what is left of the source.  The identifier
    of [this] is overwritten, not released. *)
Definition Packet_assign (this other : Packet) : Packet :=
  mkPacket (buffer other) (packetID other).

Definition Packet_move_assign (this other : Packet) : Packet * Packet :=
  (mkPacket (buffer other) (packetID other), mkPacket [] (packetID other)).

(** [~Packet()]. *)
Definition Packet_destroy (p : Packet) (r : Registry) : Registry :=
  freePacketUUID (packetID p) r.

Definition clone (p : Packet) (r : Registry) : Res (Registry * Packet) :=
  '(r, pkt) ← Packet_new (length (buffer p)) r;
  Ok (r, mkPacket (buffer p) (packetID pkt)).

(** ** Data access *)

(** [writeData(offset, data, length)] with [data] the [length] bytes at the
    source pointer; the result is the number of bytes reported as written. *)
Definition writeData (offset : nat) (data : list Z) (p : Packet) : Res (Packet * nat) :=
  let size := length (buffer p) in
  let actual_offset := Nat.min offset size in
  let actual_write := Nat.min (length data) (size - actual_offset) in
  if (actual_write =? 0)%nat then Ok (p, 0%nat)
  else if (actual_offset + length data <=? size)%nat
  then Ok (mkPacket (write_at actual_offset data (buffer p)) (packetID p), actual_write)
  else Err OutOfBounds.

(** [readData(offset, data, length)]: the bytes stored at the destination
    (none when nothing is copied) and the returned count. *)
Definition readData (offset : nat) (len : nat) (p : Packet) : Res (list Z * nat) :=
  let size := length (buffer p) in
  let actual_offset := Nat.min offset size in
  let actual_read := Nat.min len (size - actual_offset) in
  if (actual_read =? 0)%nat then Ok ([], 0%nat)
  else if (actual_offset + len <=? size)%nat
  then Ok (slice actual_offset len (buffer p), actual_read)
  else Err OutOfBounds.

(** [resize]: truncates, or extends with zero bytes. *)
Definition setSize (size : nat) (p : Packet) : Packet * nat :=
  let b := take size (buffer p) ++ replicate (size - length (buffer p)) 0 in
  (mkPacket b (packetID p), length b).

Definition getSize (p : Packet) : nat := length (buffer p).

Definition getUUID (p : Packet) : Z := packetID p.

Definition clearContext (p : Packet) : Packet := p.

(** ** How the sources call the accessors

    Callers read into an uninitialised local; using it when nothing was copied
    reads an indeterminate value. *)
Definition readInto (offset len : nat) (p : Packet) : Res (list Z) :=
  '(bs, n) ← readData offset len p;
  if (n =? 0)%nat then Err Indeterminate else Ok bs.

Definition readByte (offset : nat) (p : Packet) : Res Z :=
  bs ← readInto offset 1 p;
  of_option Indeterminate (head bs).

Definition writeInto (offset : nat) (data : list Z) (p : Packet) : Res Packet :=
  '(p, _) ← writeData offset data p;
  Ok p.

(** ** Lemmas *)

Definition registry_ok (r : Registry) : Prop := is_u 64 (packetUUIDStart r).

Lemma next_uuid_mod : next_uuid = fun c => (c + 1) mod 2 ^ 64.
Proof. reflexivity. Qed.

Lemma allocate_spec r :
  registry_ok r ->
  match allocatePacketUUID r with
  | Ok (r', uuid) =>
      (uuid ∉ packetUUIDSet r) /\ is_u 64 uuid /\
      packetUUIDSet r' = {[uuid]} ∪ packetUUIDSet r /\
      packetUUIDStart r' = wrap 64 (uuid + 1)
  | Err e =>
      e = AssertFailed "Packet::allocatePacketUUID" /\
      forall x, is_u 64 x -> x ∈ packetUUIDSet r
  end.
Proof.
  intros Hr. unfold allocatePacketUUID. rewrite next_uuid_mod.
  pose proof (cyclic_search_total (2 ^ 64) (packetUUIDSet r) (packetUUIDStart r) Hr
                (S (size (packetUUIDSet r))) ltac:(lia)) as H.
  destruct (cyclic_search _ _ _ _ _) as [[c|]|]; cbn; [|done|done].
  destruct H as (n & Hn & -> & Hfree & _). split; [done|]. split; [|done].
  apply Z.mod_pos_bound. lia.
Qed.

(** When the value under the counter is free, it is the one handed out. *)
Lemma allocate_first r :
  packetUUIDStart r ∉ packetUUIDSet r ->
  allocatePacketUUID r =
  Ok (mkRegistry ({[packetUUIDStart r]} ∪ packetUUIDSet r) (packetUUIDStart r ⊞ 1),
      packetUUIDStart r).
Proof.
  intros H. unfold allocatePacketUUID. cbn [cyclic_search].
  by rewrite bool_decide_eq_true_2 by done.
Qed.

Lemma clone_buffer p r r' q : clone p r = Ok (r', q) -> buffer q = buffer p.
Proof. unfold clone. intros H. res_inv. done. Qed.

Lemma writeData_in off data p :
  (off + length data <= getSize p)%nat -> data <> [] ->
  writeData off data p =
  Ok (mkPacket (write_at off data (buffer p)) (packetID p), length data).
Proof.
  unfold getSize. intros H Hd. unfold writeData.
  destruct data as [|d data]; [done|]. cbn [length] in *.
  rewrite !Nat.min_l by lia.
  replace (S (length data) =? 0)%nat with false by (symmetry; apply Nat.eqb_neq; lia).
  replace (_ <=? _)%nat with true by (symmetry; apply Nat.leb_le; lia). done.
Qed.

Lemma readData_in off len p :
  (off + len <= getSize p)%nat -> (0 < len)%nat ->
  readData off len p = Ok (slice off len (buffer p), len).
Proof.
  unfold getSize. intros H Hd. unfold readData.
  rewrite !Nat.min_l by lia.
  replace (len =? 0)%nat with false by (symmetry; apply Nat.eqb_neq; lia).
  replace (_ <=? _)%nat with true by (symmetry; apply Nat.leb_le; lia). done.
Qed.

Lemma readInto_in off len p :
  (off + len <= getSize p)%nat -> (0 < len)%nat ->
  readInto off len p = Ok (slice off len (buffer p)).
Proof.
  intros H Hd. unfold readInto. rewrite readData_in by done. cbn.
  by replace (len =? 0)%nat with false by (symmetry; apply Nat.eqb_neq; lia).
Qed.

Lemma writeInto_in off data p :
  (off + length data <= getSize p)%nat -> data <> [] ->
  writeInto off data p = Ok (mkPacket (write_at off data (buffer p)) (packetID p)).
Proof. intros. unfold writeInto. by rewrite writeData_in. Qed.

Lemma readByte_in off p :
  (off < getSize p)%nat ->
  exists b, buffer p !! off = Some b /\ readByte off p = Ok b.
Proof.
  intros H. destruct (lookup_lt_is_Some_2 (buffer p) off H) as [b Hb].
  exists b. split; [done|]. unfold readByte. rewrite readInto_in by lia. cbn.
  assert (slice off 1 (buffer p) !! 0%nat = Some b) as E
    by (rewrite lookup_slice by lia; by rewrite Nat.add_0_r).
  destruct (slice off 1 (buffer p)); [done|]. cbn in *. by simplify_eq.
Qed.

(** Writing into the middle part of a packet. *)
Lemma writeInto_mid pre h post i k data :
  data <> [] -> (k + length data <= length h)%nat ->
  writeInto (length pre + k) data (mkPacket (pre ++ h ++ post) i) =
  Ok (mkPacket (pre ++ write_at k data h ++ post) i).
Proof.
  intros Hd Hk. rewrite writeInto_in; [|unfold getSize; cbn; rewrite !length_app; lia|done].
  f_equal. f_equal. cbn [buffer]. unfold write_at.
  rewrite take_app_add, <- !app_assoc. f_equal. rewrite take_app_le by lia. f_equal. f_equal.
  rewrite <- Nat.add_assoc, drop_app_add. by rewrite drop_app_le by lia.
Qed.

Lemma readInto_mid pre h post i k len :
  (0 < len)%nat -> (k + len <= length h)%nat ->
  readInto (length pre + k) len (mkPacket (pre ++ h ++ post) i) = Ok (slice k len h).
Proof.
  intros Hl Hk. rewrite readInto_in; [|unfold getSize; cbn; rewrite !length_app; lia|done].
  f_equal. unfold slice. cbn [buffer]. rewrite drop_app_add, drop_app_le by lia.
  rewrite take_app_le; [done|]. rewrite length_drop. lia.
Qed.

Lemma readByte_mid pre h post i k b :
  h !! k = Some b -> readByte (length pre + k) (mkPacket (pre ++ h ++ post) i) = Ok b.
Proof.
  intros Hb. pose proof (lookup_lt_Some _ _ _ Hb). unfold readByte. rewrite readInto_mid by lia.
  cbn. unfold slice. destruct (drop k h) eqn:E; [apply (f_equal length) in E; rewrite length_drop in E; cbn in E; lia|].
  apply (f_equal (lookup 0%nat)) in E. rewrite lookup_drop, Nat.add_0_r in E. cbn in E |- *. by simplify_eq.
Qed.

(** ** Properties *)

(** C34: from a registry whose counter is a 64-bit value, the allocation loop
    always terminates; it returns an identifier that was not in use, records
    exactly that identifier and moves the counter just past it; it fails its
    assertion only when all [2 ^ 64] identifiers are in use. *)
Theorem allocatePacketUUID_fresh r :
  is_u 64 (packetUUIDStart r) ->
  match allocatePacketUUID r with
  | Ok (r', uuid) =>
      (uuid ∉ packetUUIDSet r) /\ is_u 64 uuid /\
      packetUUIDSet r' = {[uuid]} ∪ packetUUIDSet r /\
      packetUUIDStart r' = wrap 64 (uuid + 1)
  | Err e =>
      e = AssertFailed "Packet::allocatePacketUUID" /\
      forall x, is_u 64 x -> x ∈ packetUUIDSet r
  end.
Proof. apply allocate_spec. Qed.

Lemma allocatePacketUUID_fresh_witness :
  match allocatePacketUUID (mkRegistry {[2 ^ 64 - 1; 0; 1]} (2 ^ 64 - 1)) with
  | Ok (_, uuid) => uuid = 2 /\ uuid ∉ ({[2 ^ 64 - 1; 0; 1]} : gset Z)
  | Err _ => False
  end.
Proof.
  pose proof (allocatePacketUUID_fresh (mkRegistry {[2 ^ 64 - 1; 0; 1]} (2 ^ 64 - 1))
                ltac:(solve_bytes)) as H.
  assert (allocatePacketUUID (mkRegistry {[2 ^ 64 - 1; 0; 1]} (2 ^ 64 - 1)) =
          Ok (mkRegistry {[2; 2 ^ 64 - 1; 0; 1]} 3, 2)) as E by (vm_compute; reflexivity).
  rewrite E in H |- *. split; [reflexivity | apply H].
Defined.

(** a write that fits in the buffer reports its full length, keeps the
    size and identifier of the packet, is read back by [readData], and leaves
    every disjoint range of the packet unchanged. *)
Theorem writeData_readData off data p off' len' :
  (off + length data <= getSize p)%nat -> data <> [] ->
  exists p', writeData off data p = Ok (p', length data) /\
    getSize p' = getSize p /\ getUUID p' = getUUID p /\
    readData off (length data) p' = Ok (data, length data) /\
    ((off' + len' <= off \/ off + length data <= off')%nat ->
     readData off' len' p' = readData off' len' p).
Proof.
  intros H Hd. eexists. split; [by apply writeData_in|].
  assert (getSize (mkPacket (write_at off data (buffer p)) (packetID p)) = getSize p) as Hs
    by (by apply length_write_at).
  split; [done|]. split; [done|]. split.
  - rewrite readData_in; cbn [buffer]; rewrite ?Hs; auto.
    + by rewrite slice_write_same.
    + destruct data; [done | cbn; lia].
  - intros Hdis. unfold readData. unfold getSize in Hs. cbn [buffer] in *. rewrite Hs.
    destruct (_ =? 0)%nat eqn:E; [done|]. destruct (_ <=? _)%nat eqn:E2; [|done].
    bool_to_prop. rewrite slice_write_other; [done | done | lia].
Qed.

Lemma writeData_readData_witness :
  exists p', writeData 1 [7; 8] (mkPacket [0; 0; 0; 5] 9) = Ok (p', 2%nat) /\
    readData 1 2 p' = Ok ([7; 8], 2%nat) /\ readData 3 1 p' = Ok ([5], 1%nat).
Proof.
  destruct (writeData_readData 1 [7; 8] (mkPacket [0; 0; 0; 5] 9) 3 1)
    as (p' & H1 & _ & _ & H2 & H3); [cbn; lia | discriminate |].
  exists p'. split; [exact H1|]. split; [exact H2|]. rewrite H3 by (right; cbn; lia).
  reflexivity.
Defined.

(** C37: when a transfer starts inside the buffer and runs past its end, the
    accessors do not truncate it: both [memcpy] calls use the requested length
    and access bytes outside the buffer.  E_Packet.hpp documents that such a
    write is truncated. *)
Theorem accessors_overrun off len data p :
  (off < getSize p)%nat -> (getSize p < off + len)%nat -> length data = len ->
  writeData off data p = Err OutOfBounds /\ readData off len p = Err OutOfBounds.
Proof.
  unfold getSize. intros H1 H2 Hl. unfold writeData, readData. rewrite Hl.
  rewrite !(Nat.min_l off) by lia.
  replace (Nat.min len _ =? 0)%nat with false by (symmetry; apply Nat.eqb_neq; lia).
  by replace (_ <=? _)%nat with false by (symmetry; apply Nat.leb_gt; lia).
Qed.

Lemma accessors_overrun_witness :
  writeData 2 [1; 2; 3] (mkPacket [0; 0; 0; 0] 0) = Err OutOfBounds.
Proof.
  apply (accessors_overrun 2 3 [1; 2; 3] (mkPacket [0; 0; 0; 0] 0)); [cbn; lia | cbn; lia | reflexivity].
Defined.

(** C38: destroying a copy (or a moved-from packet) releases the identifier the
    original still carries, so the set of identifiers in use forgets a live
    packet; once the 64-bit counter comes back to that value, a new packet
    gets the identifier of the live one.  Assigning to a packet does the
    opposite: its old identifier stays in use after all objects are gone. *)
Theorem destroyed_copy_frees_live_id p r :
  getUUID p ∈ packetUUIDSet r ->
  let r' := Packet_destroy (Packet_copy p) r in
  getUUID p ∉ packetUUIDSet r' /\
  Packet_destroy (snd (Packet_move p)) r = r' /\
  (packetUUIDStart r = getUUID p -> forall n, exists r'' q,
     Packet_new n r' = Ok (r'', q) /\ getUUID q = getUUID p) /\
  (forall q, getUUID q <> getUUID p ->
     getUUID p ∈ packetUUIDSet (Packet_destroy q (Packet_destroy (Packet_assign p q) r)) /\
     let '(p', q') := Packet_move_assign p q in
     getUUID p ∈ packetUUIDSet (Packet_destroy q' (Packet_destroy p' r))).
Proof.
  intros H r'. split; [subst r'; cbn; set_solver|]. split; [done|].
  split; [|intros q Hq; cbn; unfold getUUID in *; set_solver].
  intros Hs n. unfold Packet_new. rewrite allocate_first.
  - cbn. do 2 eexists. split; [done|]. done.
  - subst r'. cbn. rewrite Hs. set_solver.
Qed.

Lemma destroyed_copy_frees_live_id_witness :
  exists r'' q,
    Packet_new 3 (Packet_destroy (Packet_copy (mkPacket [1] 5)) (mkRegistry {[5]} 5)) = Ok (r'', q) /\
    getUUID q = 5.
Proof.
  destruct (destroyed_copy_frees_live_id (mkPacket [1] 5) (mkRegistry {[5]} 5)) as (_ & _ & H & _).
  { apply (bool_decide_unpack _). vm_compute. reflexivity. }
  exact (H eq_refl 3%nat).
Defined.

End Packet.
Export Packet.
