(* ===== verification/RoutingInfo.v ===== *)
(** * RoutingInfo: addresses, ARP and routing tables of a host

    Models src/Networking/E_RoutingInfo.cpp and
    include/E/Networking/E_RoutingInfo.hpp.  The four tables are vectors
    scanned from the front, as in the code; [getRoutingTable] is the
    byte-and-mask prefix comparison of the source, proved equal to a longest
    prefix match on 32-bit addresses.  [RoutingInfoInterface] only forwards to
    the host's [RoutingInfo], so its operations are these definitions. *)

From S2P Require Import Prelude.

Module RoutingInfo.

(** ** State *)

(** [ipv4_t] and [mac_t] are [std::array<uint8_t, N>]: lists of 4 and 6 bytes. *)
Definition ipv4_ok (ip : list Z) : Prop := length ip = 4%nat /\ byte_list ip.
Definition mac_ok (mac : list Z) : Prop := length mac = 6%nat /\ byte_list mac.

#[global] Instance ipv4_ok_dec ip : Decision (ipv4_ok ip).
Proof. unfold ipv4_ok. apply _. Defined.
#[global] Instance mac_ok_dec mac : Decision (mac_ok mac).
Proof. unfold mac_ok. apply _. Defined.

Record mac_entry := mkMac { me_mac : list Z; me_port : Z }.
Record ip_entry := mkIp { ie_ip : list Z; ie_port : Z }.
Record arp_entry := mkArp { ae_ip : list Z; ae_mac : list Z }.
Record route_entry := mkRoute { ip_mask : list Z; prefix : Z; re_port : Z }.

Record RoutingInfo := mkRoutingInfo {
  mac_vector : list mac_entry;
  ip_vector : list ip_entry;
  arp_vector : list arp_entry;
  route_vector : list route_entry;
}.

(** The default constructor. *)
Definition empty_info : RoutingInfo := mkRoutingInfo [] [] [] [].

(** ** Operations *)

Definition setIPAddr (ip : list Z) (port : Z) (r : RoutingInfo) : RoutingInfo :=
  mkRoutingInfo (mac_vector r) (ip_vector r ++ [mkIp ip port]) (arp_vector r) (route_vector r).

Definition setMACAddr (mac : list Z) (port : Z) (r : RoutingInfo) : RoutingInfo :=
  mkRoutingInfo (mac_vector r ++ [mkMac mac port]) (ip_vector r) (arp_vector r) (route_vector r).

Definition setARPTable (mac ip : list Z) (r : RoutingInfo) : RoutingInfo :=
  mkRoutingInfo (mac_vector r) (ip_vector r) (arp_vector r ++ [mkArp ip mac]) (route_vector r).

Definition setRoutingTable (mask : list Z) (prefix port : Z) (r : RoutingInfo) : RoutingInfo :=
  mkRoutingInfo (mac_vector r) (ip_vector r) (arp_vector r)
    (route_vector r ++ [mkRoute mask prefix port]).

(** The range-for loops with an early return. *)
Fixpoint find_first {A B} (test : A -> bool) (get : A -> B) (l : list A) : option B :=
  match l with
  | [] => None
  | e :: rest => if test e then Some (get e) else find_first test get rest
  end.

Definition getIPAddr (port : Z) (r : RoutingInfo) : option (list Z) :=
  find_first (fun e => ie_port e =? port) ie_ip (ip_vector r).

Definition getMACAddr (port : Z) (r : RoutingInfo) : option (list Z) :=
  find_first (fun e => me_port e =? port) me_mac (mac_vector r).

Definition getARPTable (ipv4 : list Z) (r : RoutingInfo) : option (list Z) :=
  find_first (fun e => bool_decide (ipv4 = ae_ip e)) ae_mac (arp_vector r).

(** The test of one routing entry: whole bytes first, then the remaining bits
    under the mask [full]; indexing a [std::array] out of range is an error. *)
Definition byte_loop (ip_addr mask : list Z) (n : nat) : Res bool :=
  foldM (fun k matches =>
           a ← of_option OutOfBounds (ip_addr !! k);
           b ← of_option OutOfBounds (mask !! k);
           Ok (if negb (a =? b) then false else matches))
        (seq 0 n) true.

Definition mask_full (remaining : Z) : Z :=
  let remove := 8 - remaining in
  let full := wrap 8 (Z.shiftr 0xFF remove) in
  wrap 8 (Z.shiftl full remove).

Definition entry_matches (ip_addr : list Z) (e : route_entry) : Res bool :=
  matches ← byte_loop ip_addr (ip_mask e) (Z.to_nat (Z.quot (prefix e) 8));
  let remaining := Z.rem (prefix e) 8 in
  if 0 <? remaining then
    let full := mask_full remaining in
    a ← of_option OutOfBounds (ip_addr !! Z.to_nat (Z.quot (prefix e) 8));
    b ← of_option OutOfBounds (ip_mask e !! Z.to_nat (Z.quot (prefix e) 8));
    Ok (if negb (Z.land a full =? Z.land b full) then false else matches)
  else Ok matches.

(** The loop over [route_vector] with state [(current_prefix, selected_port)]. *)
Definition route_step (ip_addr : list Z) (e : route_entry) (st : Z * Z) : Res (Z * Z) :=
  let '(current_prefix, selected_port) := st in
  matches ← entry_matches ip_addr e;
  if (matches && (current_prefix <? prefix e))%bool
  then Ok (prefix e, re_port e)
  else Ok (current_prefix, selected_port).

Definition getRoutingTable (ip_addr : list Z) (r : RoutingInfo) : Res Z :=
  '(_, selected_port) ← foldM (route_step ip_addr) (route_vector r) (0, 0);
  Ok selected_port.

(** ** The reference: prefixes of 32-bit addresses *)

Fixpoint be_value (l : list Z) : Z :=
  match l with
  | [] => 0
  | b :: rest => b * 2 ^ (8 * Z.of_nat (length rest)) + be_value rest
  end.

(** The first [p] of 32 bits of the two addresses agree. *)
Definition prefix_match (p : Z) (x y : list Z) : bool :=
  Z.shiftr (be_value x) (32 - p) =? Z.shiftr (be_value y) (32 - p).

(** Prefix comparison byte by byte, the middle layer between the code and
    [prefix_match]. *)
Fixpoint bytes_match (p : Z) (x y : list Z) : bool :=
  match x, y with
  | a :: x', b :: y' =>
      if 8 <=? p then (a =? b) && bytes_match (p - 8) x' y'
      else Z.shiftr a (8 - p) =? Z.shiftr b (8 - p)
  | _, _ => true
  end.

(** ** Lemmas *)

Lemma be_value_range l : byte_list l -> 0 <= be_value l < 2 ^ (8 * Z.of_nat (length l)).
Proof.
  induction 1 as [|b l Hb Hl IH]; [cbn; lia|].
  cbn [be_value length]. rewrite Nat2Z.inj_succ. unfold is_u in Hb.
  replace (8 * Z.succ (Z.of_nat (length l))) with (8 + 8 * Z.of_nat (length l)) by lia.
  rewrite Z.pow_add_r by lia. nia.
Qed.

Lemma div_split a M t k :
  0 <= k -> 0 <= t < M -> (exists c, M = c * 2 ^ k /\ 0 < c) ->
  (a * M + t) / 2 ^ k = a * (M / 2 ^ k) + t / 2 ^ k /\ 0 <= t / 2 ^ k < M / 2 ^ k.
Proof.
  intros Hk Ht (c & -> & Hc). assert (0 < 2 ^ k) by lia.
  rewrite Z.div_mul by lia. split.
  - replace (a * (c * 2 ^ k) + t) with (t + a * c * 2 ^ k) by lia.
    rewrite Z.div_add; lia.
  - split; [apply Z.div_pos; lia | apply Z.div_lt_upper_bound; lia].
Qed.

Lemma bytes_match_value p x y :
  byte_list x -> byte_list y -> length x = length y ->
  0 <= p <= 8 * Z.of_nat (length x) ->
  bytes_match p x y = true <->
  Z.shiftr (be_value x) (8 * Z.of_nat (length x) - p) =
  Z.shiftr (be_value y) (8 * Z.of_nat (length y) - p).
Proof.
  intros Hx. revert p y. induction Hx as [|a x Ha Hx IH]; intros p y Hy Hl Hp.
  - destruct y; [|done]. done.
  - destruct y as [|b y]; [done|]. apply byte_list_cons in Hy as [Hb Hy].
    injection Hl as Hl. pose proof (be_value_range x Hx) as Rx.
    pose proof (be_value_range y Hy) as Ry. rewrite <- Hl in Ry. cbn [length bytes_match be_value].
    rewrite !Nat2Z.inj_succ, <- Hl. set (n := Z.of_nat (length x)) in *.
    cbn [length] in Hp. rewrite Nat2Z.inj_succ in Hp. fold n in Hp.
    unfold is_u in Ha, Hb.
    destruct (8 <=? p) eqn:E; bool_to_prop.
    + rewrite andb_true_iff, Z.eqb_eq, IH by (auto; lia).
      rewrite !Z.shiftr_div_pow2, <- Hl by lia. fold n.
      replace (8 * Z.succ n - p) with (8 * n - (p - 8)) by lia.
      assert (exists c, 2 ^ (8 * n) = c * 2 ^ (8 * n - (p - 8)) /\ 0 < c) as Hc.
      { exists (2 ^ (p - 8)). rewrite <- Z.pow_add_r by lia. split; [f_equal; lia | lia]. }
      destruct (div_split a (2 ^ (8 * n)) (be_value x) (8 * n - (p - 8))) as [-> ?]; [lia|lia|done|].
      destruct (div_split b (2 ^ (8 * n)) (be_value y) (8 * n - (p - 8))) as [-> ?]; [lia|lia|done|].
      split; [intros [-> ->]; done|]. intros HE.
      assert (a = b) by nia. subst b. split; [done | lia].
    + rewrite Z.eqb_eq, !Z.shiftr_div_pow2 by lia.
      replace (8 * Z.succ n - p) with (8 * n + (8 - p)) by lia.
      rewrite Z.pow_add_r, <- !Z.div_div by lia.
      rewrite !Z.div_add_l, !(Z.div_small (be_value _)), !Z.add_0_r by lia. done.
Qed.

(** [x & full] keeps the high [remaining] bits: checked on all bytes. *)
Lemma mask_full_spec r a b :
  0 < r < 8 -> is_u 8 a -> is_u 8 b ->
  (Z.land a (mask_full r) =? Z.land b (mask_full r)) =
  (Z.shiftr a (8 - r) =? Z.shiftr b (8 - r)).
Proof.
  assert (forallb (fun r => forallb (fun a =>
            Z.land a (mask_full r) =? Z.shiftl (Z.shiftr a (8 - r)) (8 - r)) (seqZ 0 256))
            (seqZ 1 7) = true) as Hall by (vm_compute; reflexivity).
  intros Hr Ha Hb. rewrite forallb_forall in Hall.
  assert (forall x, is_u 8 x -> Z.land x (mask_full r) = Z.shiftr x (8 - r) * 2 ^ (8 - r)) as H.
  { intros x Hx. specialize (Hall r). rewrite forallb_forall in Hall.
    rewrite <- Z.shiftl_mul_pow2 by lia. apply Z.eqb_eq, Hall.
    - apply list_elem_of_In, elem_of_seqZ. lia.
    - apply list_elem_of_In, elem_of_seqZ. unfold is_u in Hx. lia. }
  rewrite !H by done. assert (0 < 2 ^ (8 - r)) by lia.
  apply eq_bool_prop_intro. rewrite !Is_true_true, !Z.eqb_eq. split; [nia | congruence].
Qed.

Lemma bytes_cases p :
  0 <= p <= 32 -> exists q r, p = 8 * q + r /\ 0 <= q <= 4 /\ 0 <= r < 8.
Proof.
  intros. exists (p / 8), (p mod 8). pose proof (Z.div_mod p 8). pose proof (Z.mod_pos_bound p 8).
  assert (p / 8 < 5) by (apply Z.div_lt_upper_bound; lia).
  assert (0 <= p / 8) by (apply Z.div_pos; lia). lia.
Qed.

Lemma bytes_match_ge p a x b y :
  8 <= p -> bytes_match p (a :: x) (b :: y) = ((a =? b) && bytes_match (p - 8) x y)%bool.
Proof. intros. cbn [bytes_match]. by replace (8 <=? p) with true by (symmetry; apply Z.leb_le; lia). Qed.

Lemma bytes_match_lt p a x b y :
  p < 8 -> bytes_match p (a :: x) (b :: y) = (Z.shiftr a (8 - p) =? Z.shiftr b (8 - p)).
Proof. intros. cbn [bytes_match]. by replace (8 <=? p) with false by (symmetry; apply Z.leb_gt; lia). Qed.

Lemma bytes_match_zero a x b y :
  is_u 8 a -> is_u 8 b -> bytes_match 0 (a :: x) (b :: y) = true.
Proof.
  unfold is_u. intros. rewrite bytes_match_lt, Z.eqb_eq, !Z.shiftr_div_pow2 by lia.
  rewrite !Z.div_small; lia.
Qed.

Lemma entry_matches_ok ip e :
  ipv4_ok ip -> ipv4_ok (ip_mask e) -> 0 <= prefix e <= 32 ->
  entry_matches ip e = Ok (prefix_match (prefix e) ip (ip_mask e)).
Proof.
  intros [Li Bi] [Lm Bm] Hp.
  assert (prefix_match (prefix e) ip (ip_mask e) = bytes_match (prefix e) ip (ip_mask e)) as ->.
  { apply eq_bool_prop_intro. unfold prefix_match.
    rewrite !Is_true_true, Z.eqb_eq, bytes_match_value by (auto; lia). by rewrite Li, Lm. }
  destruct e as [mask p port]. cbn [prefix ip_mask] in *. unfold entry_matches.
  cbn [prefix ip_mask]. destruct (bytes_cases p Hp) as (q & r & -> & Hq & Hr).
  destruct ip as [|a0 [|a1 [|a2 [|a3 [|]]]]]; try discriminate Li.
  destruct mask as [|b0 [|b1 [|b2 [|b3 [|]]]]]; try discriminate Lm.
  rewrite !byte_list_cons in Bi, Bm. destruct Bi as (?&?&?&?&_), Bm as (?&?&?&?&_).
  assert (Z.quot (8 * q + r) 8 = q) as ->. { symmetry. apply Z.quot_unique with r; lia. }
  assert (Z.rem (8 * q + r) 8 = r) as ->. { symmetry. apply Z.rem_unique with q; lia. }
  assert (q = 0 \/ q = 1 \/ q = 2 \/ q = 3 \/ (q = 4 /\ r = 0)) as Hc by lia.
  destruct (0 <? r) eqn:Er; bool_to_prop.
  - destruct Hc as [->|[->|[->|[->|[-> ->]]]]]; [..|lia];
      eval_to_nat; unfold byte_loop; cbn -[Z.land mask_full Z.shiftr Z.sub Z.add Z.mul Z.leb bytes_match];
      rewrite mask_full_spec by (done || lia); rewrite ?bytes_match_ge, bytes_match_lt by lia;
      repeat match goal with
        |- context [Z.shiftr _ (8 - (?e + ?f))] => replace (e + f) with r by lia
      | |- context [Z.shiftr _ (8 - (?e - ?f))] => replace (e - f) with r by lia
      end;
      repeat match goal with |- context [(?a =? ?b)%Z] => destruct (a =? b) end; done.
  - assert (r = 0) as -> by lia.
    destruct Hc as [->|[->|[->|[->|[-> _]]]]];
      eval_to_nat; unfold byte_loop; cbn -[Z.shiftr Z.sub Z.add Z.mul Z.leb bytes_match]; rewrite ?bytes_match_ge by lia;
      try match goal with
        |- context [bytes_match ?e (_ :: _) _] => replace e with 0 by lia; rewrite bytes_match_zero by done
      end; cbn [bytes_match];
      repeat match goal with |- context [(?a =? ?b)%Z] => destruct (a =? b) end; done.
Qed.

(** The loop keeps the best entry seen so far. *)
Definition best_so_far (ip : list Z) (seen : list route_entry) (st : Z * Z) : Prop :=
  (st = (0, 0) /\ forall e, e ∈ seen -> prefix_match (prefix e) ip (ip_mask e) = true -> prefix e <= 0) \/
  (exists l1 e l2, seen = l1 ++ e :: l2 /\ st = (prefix e, re_port e) /\ 0 < prefix e /\
     prefix_match (prefix e) ip (ip_mask e) = true /\
     (forall e', e' ∈ l1 -> prefix_match (prefix e') ip (ip_mask e') = true -> prefix e' < prefix e) /\
     (forall e', e' ∈ l2 -> prefix_match (prefix e') ip (ip_mask e') = true -> prefix e' <= prefix e)).

Definition table_ok (l : list route_entry) : Prop :=
  Forall (fun e => ipv4_ok (ip_mask e) /\ 0 <= prefix e <= 32) l.

#[global] Instance table_ok_dec l : Decision (table_ok l).
Proof. unfold table_ok. apply _. Defined.

Lemma best_so_far_bound ip seen st e :
  best_so_far ip seen st -> e ∈ seen -> prefix_match (prefix e) ip (ip_mask e) = true ->
  prefix e <= fst st.
Proof.
  intros [[-> H]|(l1 & b & l2 & -> & -> & _ & _ & H1 & H2)] Hin Hm; cbn; [auto|].
  apply elem_of_app in Hin as [Hin|Hin]; [specialize (H1 e Hin Hm); lia|].
  apply elem_of_cons in Hin as [->|Hin]; [lia | auto].
Qed.

Lemma route_step_best ip seen st e :
  ipv4_ok ip -> ipv4_ok (ip_mask e) -> 0 <= prefix e <= 32 -> best_so_far ip seen st ->
  exists st', route_step ip e st = Ok st' /\ best_so_far ip (seen ++ [e]) st'.
Proof.
  intros Hip Hm Hp Hb. unfold route_step. destruct st as [cur port].
  rewrite entry_matches_ok by done. cbn [mbind Res_bind].
  destruct (prefix_match _ _ _ && _)%bool eqn:E.
  - bool_to_prop. eexists. split; [done|]. right. exists seen, e, [].
    split; [done|]. split; [done|].
    assert (0 <= cur) by (destruct Hb as [[[= -> ->] _]|(?&?&?&_&[= -> ->]&?&_)]; lia).
    split; [lia|]. split; [done|]. split; [|intros ? []%not_elem_of_nil].
    intros e' Hin Hm'. pose proof (best_so_far_bound _ _ _ _ Hb Hin Hm'). cbn in *. lia.
  - eexists. split; [done|].
    assert (prefix_match (prefix e) ip (ip_mask e) = true -> prefix e <= cur) as Hle.
    { intros Hm'. rewrite Hm' in E. cbn in E. bool_to_prop. lia. }
    destruct Hb as [[[= -> ->] H]|(l1 & b & l2 & -> & [= -> ->] & ? & ? & H1 & H2)].
    + left. split; [done|]. intros e' [Hin | ->%list_elem_of_singleton]%elem_of_app; auto.
    + right. exists l1, b, (l2 ++ [e]). rewrite <- app_assoc. split_and!; auto.
      intros e' [Hin | ->%list_elem_of_singleton]%elem_of_app; auto.
Qed.

Lemma route_loop_best ip l seen st :
  ipv4_ok ip -> table_ok l -> best_so_far ip seen st ->
  exists st', foldM (route_step ip) l st = Ok st' /\ best_so_far ip (seen ++ l) st'.
Proof.
  intros Hip Hl. revert seen st. induction Hl as [|e l [Hm Hp] Hl IH]; intros seen st Hb.
  - rewrite app_nil_r. eexists. split; [done | done].
  - destruct (route_step_best ip seen st e) as (st' & E & Hb'); auto.
    cbn. rewrite E. destruct (IH _ _ Hb') as (st'' & ? & H). exists st''.
    split; [done|]. by rewrite <- app_assoc in H.
Qed.

Lemma entry_matches_nonneg_irrelevant ip e cur port :
  ipv4_ok ip -> ipv4_ok (ip_mask e) -> prefix e = 0 -> 0 <= cur ->
  route_step ip e (cur, port) = Ok (cur, port).
Proof.
  intros Hip Hm Hp Hc. unfold route_step. rewrite entry_matches_ok by (auto; lia). cbn.
  rewrite Hp. replace (cur <? 0) with false by (symmetry; apply Z.ltb_ge; lia).
  by rewrite andb_false_r.
Qed.

(** ** Properties *)

(** C25: for a table of well-formed entries (four-byte masks, prefix lengths
    from 0 to 32) the lookup never fails and is a longest prefix match on the
    32-bit addresses: the result is the port of a matching entry whose prefix
    is positive and maximal among all matching entries, the first such entry
    in the table; it is port 0 when no entry of positive length matches. *)
Theorem getRoutingTable_longest_prefix ip r :
  ipv4_ok ip -> table_ok (route_vector r) ->
  exists port, getRoutingTable ip r = Ok port /\
  ((port = 0 /\ forall e, e ∈ route_vector r ->
      prefix_match (prefix e) ip (ip_mask e) = true -> prefix e <= 0) \/
   (exists l1 e l2, route_vector r = l1 ++ e :: l2 /\ port = re_port e /\ 0 < prefix e /\
      prefix_match (prefix e) ip (ip_mask e) = true /\
      (forall e', e' ∈ l1 -> prefix_match (prefix e') ip (ip_mask e') = true -> prefix e' < prefix e) /\
      (forall e', e' ∈ l2 -> prefix_match (prefix e') ip (ip_mask e') = true -> prefix e' <= prefix e))).
Proof.
  intros Hip Ht. unfold getRoutingTable.
  destruct (route_loop_best ip (route_vector r) [] (0, 0)) as (st & -> & Hb); auto.
  { left. split; [done|]. intros e []%not_elem_of_nil. }
  cbn [app] in Hb. destruct st as [cur port]. exists port. split; [done|].
  destruct Hb as [[[= -> ->] H]|(l1 & b & l2 & -> & [= -> ->] & ? & ? & H1 & H2)]; [by left|].
  right. exists l1, b, l2. done.
Qed.

Lemma getRoutingTable_longest_prefix_witness :
  exists port,
    getRoutingTable [10; 0; 1; 4]
      (mkRoutingInfo [] [] [] [mkRoute [10; 0; 0; 0] 16 1; mkRoute [10; 0; 1; 0] 22 2;
                               mkRoute [10; 0; 2; 0] 24 3]) = Ok port /\ port = 2.
Proof.
  destruct (getRoutingTable_longest_prefix [10; 0; 1; 4]
      (mkRoutingInfo [] [] [] [mkRoute [10; 0; 0; 0] 16 1; mkRoute [10; 0; 1; 0] 22 2;
                               mkRoute [10; 0; 2; 0] 24 3])) as (port & E & _); [solve_bytes ..|].
  exists port. split; [exact E|]. vm_compute in E. congruence.
Defined.

(** an entry of prefix length 0 (a default route) never affects the
    result: the lookup gives the same port with and without it, so a default
    route to a port other than 0 is ignored. *)
Theorem default_route_ignored ip l1 e l2 macs ips arps :
  ipv4_ok ip -> table_ok (l1 ++ e :: l2) -> prefix e = 0 ->
  getRoutingTable ip (mkRoutingInfo macs ips arps (l1 ++ e :: l2)) =
  getRoutingTable ip (mkRoutingInfo macs ips arps (l1 ++ l2)).
Proof.
  intros Hip Ht He. unfold getRoutingTable. cbn [route_vector].
  apply Forall_app in Ht as [Ht1 Ht2]. apply Forall_cons in Ht2 as [[Hm Hp] Ht2].
  rewrite !foldM_app. destruct (route_loop_best ip l1 [] (0, 0)) as (st & -> & Hb); auto.
  { left. split; [done|]. intros x []%not_elem_of_nil. }
  cbn [mbind Res_bind foldM]. destruct st as [cur port].
  rewrite entry_matches_nonneg_irrelevant; auto.
  destruct Hb as [[[= -> ->] _]|(?&?&?&_&[= -> ->]&?&_)]; lia.
Qed.

Lemma default_route_ignored_witness :
  getRoutingTable [8; 8; 8; 8] (mkRoutingInfo [] [] [] ([] ++ mkRoute [0; 0; 0; 0] 0 1 :: [])) = Ok 0.
Proof.
  rewrite (default_route_ignored [8; 8; 8; 8] [] (mkRoute [0; 0; 0; 0] 0 1) [] [] [] []);
    [reflexivity | solve_bytes | solve_bytes | reflexivity].
Defined.

End RoutingInfo.
Export RoutingInfo.
