(* ===== verification/TimeUtil.v ===== *)
(** * TimeUtil: units of the virtual clock

    Models src/E/E_TimeUtil.cpp and include/E/E_TimeUtil.hpp.  [Time] and
    [Size] are 64-bit unsigned integers in nanoseconds, so [makeTime] wraps
    and [getTime] truncates. *)

From S2P Require Import Prelude.
From stdpp Require Import pretty.
Local Open Scope Z_scope.

Module TimeUtil.

(** ** Definitions *)

Inductive TimeUnit := NSEC | USEC | MSEC | SEC | MINUTE | HOUR | DAY | NONE.

#[global] Instance TimeUnit_eq_dec : EqDecision TimeUnit.
Proof. solve_decision. Defined.

Definition stringToTimeUnit (unit : string) : Res TimeUnit :=
  if (String.eqb unit "nsec" || String.eqb unit "NSEC")%bool then Ok NSEC
  else if (String.eqb unit "usec" || String.eqb unit "USEC")%bool then Ok USEC
  else if (String.eqb unit "msec" || String.eqb unit "MSEC")%bool then Ok MSEC
  else if (String.eqb unit "sec" || String.eqb unit "SEC")%bool then Ok SEC
  else if (String.eqb unit "minute" || String.eqb unit "MINUTE")%bool then Ok MINUTE
  else if (String.eqb unit "hour" || String.eqb unit "HOUR")%bool then Ok HOUR
  else if (String.eqb unit "day" || String.eqb unit "DAY")%bool then Ok DAY
  else Err (AssertFailed "TimeUtil::stringToTimeUnit").

Definition timeUnitToString (unit : TimeUnit) : Res string :=
  match unit with
  | NSEC => Ok "NSEC"
  | USEC => Ok "USEC"
  | MSEC => Ok "MSEC"
  | SEC => Ok "SEC"
  | MINUTE => Ok "MINUTE"
  | HOUR => Ok "HOUR"
  | DAY => Ok "DAY"
  | NONE => Err (AssertFailed "TimeUtil::timeUnitToString")
  end.

(** The [switch] enters at the label of [unit] and falls through to the end:
    the factors multiplied are those from that label on. *)
Definition multiplier_cases : list (TimeUnit * Z) :=
  [(DAY, 24); (HOUR, 60); (MINUTE, 60); (SEC, 1000); (MSEC, 1000); (USEC, 1000)].

Fixpoint fall_from (unit : TimeUnit) (cases : list (TimeUnit * Z)) : list Z :=
  match cases with
  | [] => []
  | (label, _) :: rest =>
      if bool_decide (label = unit) then snd <$> cases else fall_from unit rest
  end.

Definition getMultiplier (unit : TimeUnit) : Z :=
  foldl (fun multiplier f => wrap 64 (multiplier * f)) 1 (fall_from unit multiplier_cases).

Definition makeTime (time : Z) (unit : TimeUnit) : Z :=
  wrap 64 (time * getMultiplier unit).

Definition getTime (time : Z) (unit : TimeUnit) : Z :=
  time / getMultiplier unit.

(** [printTime] repeats the fall-through switch and prints the quotient with
    [PRIu64]. *)
Definition printTime (time : Z) (unit : TimeUnit) : string :=
  let multiplier :=
    foldl (fun multiplier f => wrap 64 (multiplier * f)) 1 (fall_from unit multiplier_cases) in
  pretty (time / multiplier).

(** ** Lemmas *)

Lemma getMultiplier_values :
  getMultiplier NSEC = 1 /\ getMultiplier USEC = 10 ^ 3 /\ getMultiplier MSEC = 10 ^ 6 /\
  getMultiplier SEC = 10 ^ 9 /\ getMultiplier MINUTE = 60 * 10 ^ 9 /\
  getMultiplier HOUR = 3600 * 10 ^ 9 /\ getMultiplier DAY = 86400 * 10 ^ 9 /\
  getMultiplier NONE = 1.
Proof. vm_compute. tauto. Qed.

Lemma getMultiplier_bounds unit : 1 <= getMultiplier unit <= 86400 * 10 ^ 9.
Proof. destruct unit; vm_compute; split; discriminate. Qed.

Lemma getTime_makeTime t unit :
  0 <= t -> t * getMultiplier unit < 2 ^ 64 -> getTime (makeTime t unit) unit = t.
Proof.
  intros Ht Hb. unfold getTime, makeTime. pose proof (getMultiplier_bounds unit).
  rewrite wrap_small by (unfold is_u; nia). apply Z.div_mul. lia.
Qed.

(** ** Properties *)

(** times converted to nanoseconds and back are unchanged as long as the
    product fits in 64 bits, which holds for every value up to 213503 days in
    any unit; a nanosecond time converted to a unit and back is rounded down
    by less than one unit; unit names survive printing and parsing. *)
Theorem time_conversions t unit :
  is_u 64 t ->
  (t <= 213503 -> getTime (makeTime t unit) unit = t) /\
  (t * getMultiplier unit < 2 ^ 64 -> getTime (makeTime t unit) unit = t) /\
  0 <= t - makeTime (getTime t unit) unit < getMultiplier unit /\
  (unit <> NONE -> (timeUnitToString unit ≫= stringToTimeUnit) = Ok unit).
Proof.
  intros Ht. pose proof (getMultiplier_bounds unit) as Hm. unfold is_u in Ht.
  split; [intros; apply getTime_makeTime; nia|].
  split; [intros; apply getTime_makeTime; lia|]. split.
  - unfold makeTime, getTime. pose proof (Z.div_mod t (getMultiplier unit)).
    pose proof (Z.mod_pos_bound t (getMultiplier unit)).
    assert (0 <= t / getMultiplier unit) by (apply Z.div_pos; lia).
    rewrite wrap_small by (unfold is_u; nia). lia.
  - destruct unit; try done; intros; reflexivity.
Qed.

Lemma time_conversions_witness : getTime (makeTime 213503 DAY) DAY = 213503.
Proof. destruct (time_conversions 213503 DAY) as [H _]; [solve_bytes|]. apply H. lia. Defined.

End TimeUtil.
Export TimeUtil.
