(* ===== verification/Logging.v ===== *)
(** * Logging: the filters of Log and NetworkLog

    Models src/E/E_Log.cpp, include/E/E_Log.hpp,
    src/Networking/E_NetworkLog.cpp and include/E/Networking/E_NetworkLog.hpp.
    Formatting is [printf]'s; the model takes the formatted message and gives
    the text written to standard output, so it states which messages are
    printed. *)

From S2P Require Import Prelude.
From stdpp Require Import pretty.
Local Open Scope Z_scope.

Definition nl : string := String (Ascii.ascii_of_nat 10) EmptyString.
Definition tab : string := String (Ascii.ascii_of_nat 9) EmptyString.

Module Log.

Inductive LOG_LEVEL := ERR | WARN | LOG | INFO | DEBUG | LEVEL_COUNT.

Definition level_value (l : LOG_LEVEL) : Z :=
  match l with ERR => 0 | WARN => 1 | LOG => 2 | INFO => 3 | DEBUG => 4 | LEVEL_COUNT => 5 end.

Definition LEVEL_STR : list string := ["ERR"; "WARN"; "LOG"; "INFO"; "DEBUG"].

(** The macro [LOG_LEVEL] is [WARN] unless the build overrides it. *)
Definition defaultLevel : Z := level_value WARN.

Record Log := mkLog { level : Z }.

Definition Log_default : Log := mkLog defaultLevel.
Definition Log_with (level : Z) : Log := mkLog level.

(** [print_log(level, format, ...)] with the message already formatted. *)
Definition print_log (l : Log) (lvl : Z) (message : string) : Res string :=
  if level l <? lvl then Ok ""
  else if lvl <? 0 then Err OutOfBounds
  else
    name ← of_option OutOfBounds (LEVEL_STR !! Z.to_nat lvl);
    Ok ("[" ++ name ++ "] " ++ message ++ nl)%string.

End Log.

Module NetworkLog.

Inductive LOG_LEVEL :=
| PACKET_TO_MODULE | PACKET_FROM_MODULE | PACKET_TO_HOST | PACKET_FROM_HOST
| PACKET_ALLOC | PACKET_CLONE | PACKET_FREE | PACKET_QUEUE | PACKET_DROPPED
| SYSCALL_RAISED | SYSCALL_FINISHED | SYSCALL_BLOCKED | SYSCALL_UNBLOCKED | SYSCALL_ERROR
| APPLICATION_RETRUN | MODULE_ERROR | PROTOCOL_ERROR | PROTOCOL_WARNING | TCP_LOG
| LEVEL_COUNT.

Definition level_value (l : LOG_LEVEL) : Z :=
  match l with
  | PACKET_TO_MODULE => 0 | PACKET_FROM_MODULE => 1 | PACKET_TO_HOST => 2
  | PACKET_FROM_HOST => 3 | PACKET_ALLOC => 4 | PACKET_CLONE => 5 | PACKET_FREE => 6
  | PACKET_QUEUE => 7 | PACKET_DROPPED => 8 | SYSCALL_RAISED => 9 | SYSCALL_FINISHED => 10
  | SYSCALL_BLOCKED => 11 | SYSCALL_UNBLOCKED => 12 | SYSCALL_ERROR => 13
  | APPLICATION_RETRUN => 14 | MODULE_ERROR => 15 | PROTOCOL_ERROR => 16
  | PROTOCOL_WARNING => 17 | TCP_LOG => 18 | LEVEL_COUNT => 19
  end.

Definition defaultLevel : Z := 0.

Record NetworkLog := mkNetworkLog { level : Z }.

Definition NetworkLog_default : NetworkLog := mkNetworkLog defaultLevel.
Definition NetworkLog_with (level : Z) : NetworkLog := mkNetworkLog level.

(** [vprint_log]: the test [(1UL << level) & this->level] and the time stamp. *)
Definition vprint_log (l : NetworkLog) (lvl time : Z) (message : string) : Res string :=
  if 64 <=? lvl then Err BadConversion
  else if Z.land (wrap 64 (Z.shiftl 1 lvl)) (level l) =? 0 then Ok ""
  else Ok ("Time[" ++ pretty time ++ "]" ++ tab ++ message ++ nl)%string.

Definition print_log (l : NetworkLog) (lvl time : Z) (message : string) : Res string :=
  vprint_log l lvl time message.

Definition prints (l : NetworkLog) (lvl : LOG_LEVEL) : bool :=
  negb (Z.land (wrap 64 (Z.shiftl 1 (level_value lvl))) (level l) =? 0).

Lemma shift_land_testbit n k :
  0 <= k < 64 -> (Z.land (wrap 64 (Z.shiftl 1 k)) n =? 0) = negb (Z.testbit n k).
Proof.
  intros Hk. rewrite Z.shiftl_1_l.
  rewrite wrap_small by (split; [lia | apply Z.pow_lt_mono_r; lia]).
  destruct (Z.testbit n k) eqn:E; cbn.
  - apply Z.eqb_neq. intros H. apply (f_equal (fun x => Z.testbit x k)) in H.
    rewrite Z.land_spec, Z.pow2_bits_true, E, Z.bits_0 in H by lia. done.
  - apply Z.eqb_eq. apply Z.bits_inj'. intros i Hi. rewrite Z.land_spec, Z.bits_0.
    destruct (decide (i = k)) as [->|]; [by rewrite E, andb_false_r|].
    by rewrite Z.pow2_bits_false by lia.
Qed.

(** ** Properties *)

(** a message of level [lvl] is written exactly when bit [lvl] of the
    log's level is set; nothing is written under the default level; and the
    level argument is a bit index, not a mask: a log whose level is set to
    [TCP_LOG], as the header documents, drops TCP_LOG messages and prints the
    PACKET_FROM_MODULE and PACKET_ALLOC ones. *)
Theorem network_log_filter l lvl time message :
  (exists out, print_log l (level_value lvl) time message = Ok out /\
     (out = ""%string <-> Z.testbit (level l) (level_value lvl) = false)) /\
  print_log NetworkLog_default (level_value lvl) time message = Ok ""%string /\
  prints (NetworkLog_with (level_value TCP_LOG)) TCP_LOG = false /\
  prints (NetworkLog_with (level_value TCP_LOG)) PACKET_FROM_MODULE = true /\
  prints (NetworkLog_with (level_value TCP_LOG)) PACKET_ALLOC = true.
Proof.
  assert (0 <= level_value lvl < 64) as Hl by (destruct lvl; cbn; lia).
  split; [|split; [|split_and!; vm_compute; reflexivity]].
  - unfold print_log, vprint_log.
    replace (64 <=? level_value lvl) with false by (symmetry; apply Z.leb_gt; lia).
    rewrite shift_land_testbit by done.
    destruct (Z.testbit (level l) (level_value lvl)); cbn; eexists; (split; [done|]); done.
  - unfold print_log, vprint_log. cbn [level NetworkLog_default].
    replace (64 <=? level_value lvl) with false by (symmetry; apply Z.leb_gt; lia).
    by rewrite Z.land_0_r.
Qed.

End NetworkLog.
