(* ===== verification/Real.v ===== *)
(** * Real: the double precision arithmetic of the sources

    [E::Real] is [double] (include/E/E_Common.hpp).  Values are the Standard
    Library's [spec_float] at precision 53 and exponent bound 1024, that is
    IEEE 754 binary64, so every computation with [Real] below is executable
    and rounds as the program does.  The main result is that the transmission
    delay [(Real)size * 8 * 1000000000 / (Real)bps], converted to [Time], is
    the exact integer quotient while the operands stay below [2 ^ 53]. *)

From S2P Require Import Prelude.
From Stdlib Require Import SpecFloat.

Module Real.

(** ** Definitions *)

Definition prec : Z := 53.
Definition emax : Z := 1024.

Definition Real := spec_float.

Definition Radd : Real -> Real -> Real := SFadd prec emax.
Definition Rsub : Real -> Real -> Real := SFsub prec emax.
Definition Rmul : Real -> Real -> Real := SFmul prec emax.
Definition Rdiv : Real -> Real -> Real := SFdiv prec emax.
Definition Rsqrt : Real -> Real := SFsqrt prec emax.
Definition Rltb : Real -> Real -> bool := SFltb.

(** Conversion of an integer to [double], rounding to nearest even. *)
Definition Real_of_Z (z : Z) : Real := binary_normalize prec emax z 0 false.

(** Conversion of a [double] to [uint64_t]: truncation, undefined when the
    truncated value is not representable. *)
Definition Real_to_u64 (x : Real) : Res Z :=
  match x with
  | S754_zero _ => Ok 0
  | S754_finite s m e =>
      let t := if 0 <=? e then Zpos m * 2 ^ e else Zpos m / 2 ^ (- e) in
      if s then (if t =? 0 then Ok 0 else Err BadConversion)
      else if t <? 2 ^ 64 then Ok t else Err BadConversion
  | _ => Err BadConversion
  end.

(** [floor]: for the non-negative finite values of the sources the result of
    [floor] converts to the same integer as the value itself. *)
Definition floor_to_u64 (x : Real) : Res Z := Real_to_u64 x.

(** The expression
    [((Real)size * 8 * (1000 * 1000 * 1000UL)) / (Real)bps] converted to
    [Time], guarded by [bps != 0]. *)
Definition trans_delay (size bps : Z) : Res Z :=
  if bps =? 0 then Ok 0
  else Real_to_u64
         (Rdiv (Rmul (Rmul (Real_of_Z size) (Real_of_Z 8)) (Real_of_Z (1000 * 1000 * 1000)))
               (Real_of_Z bps)).

(** ** Digits *)

Lemma digits2_pos_bounds p : 2 ^ (Zpos (digits2_pos p) - 1) <= Zpos p < 2 ^ Zpos (digits2_pos p).
Proof.
  induction p as [p IH|p IH|]; cbn [digits2_pos]; [| |cbn; lia];
    rewrite Pos2Z.inj_succ; unfold Z.succ;
    replace (Zpos (digits2_pos p) + 1 - 1) with (Zpos (digits2_pos p) - 1 + 1) by lia;
    rewrite !Z.pow_add_r by lia; change (2 ^ 1) with 2; lia.
Qed.

Lemma Zdigits2_bounds v : 0 < v -> 2 ^ (Zdigits2 v - 1) <= v < 2 ^ Zdigits2 v /\ 0 < Zdigits2 v.
Proof. destruct v as [|p|p]; try lia. intros _. split; [apply digits2_pos_bounds | cbn; lia]. Qed.

Lemma pow2_sandwich a b v : 0 <= a -> 0 < b -> 2 ^ a <= v -> v < 2 ^ b -> a < b.
Proof. intros. apply (Z.pow_lt_mono_r_iff 2); lia. Qed.

Lemma Zdigits2_unique v k : 0 < k -> 2 ^ (k - 1) <= v < 2 ^ k -> Zdigits2 v = k.
Proof.
  intros Hk Hv. assert (0 < 2 ^ (k - 1)) by lia.
  destruct (Zdigits2_bounds v) as [Hb Hd]; [lia|].
  pose proof (pow2_sandwich (k - 1) (Zdigits2 v) v). 
  pose proof (pow2_sandwich (Zdigits2 v - 1) k v). lia.
Qed.

Lemma Zdigits2_shift v k : 0 < v -> 0 <= k -> Zdigits2 (v * 2 ^ k) = Zdigits2 v + k.
Proof.
  intros Hv Hk. destruct (Zdigits2_bounds v Hv) as [Hb Hd].
  apply Zdigits2_unique; [lia|].
  replace (Zdigits2 v + k - 1) with (Zdigits2 v - 1 + k) by lia.
  rewrite !Z.pow_add_r by lia. assert (0 < 2 ^ k) by lia. nia.
Qed.

Lemma Zdigits2_le v k : 0 < v -> 0 < k -> v < 2 ^ k -> Zdigits2 v <= k.
Proof.
  intros Hv Hk Hlt. destruct (Zdigits2_bounds v Hv) as [Hb Hd].
  pose proof (pow2_sandwich (Zdigits2 v - 1) k v). lia.
Qed.

(** ** Shifting and rounding *)

Lemma iter_pos_nat {A} (f : A -> A) p x : iter_pos f p x = Nat.iter (Pos.to_nat p) f x.
Proof.
  revert x. induction p as [p IH|p IH|]; intros x; cbn [iter_pos].
  - rewrite !IH, Pos2Nat.inj_xI.
    replace (S (2 * Pos.to_nat p)) with (Pos.to_nat p + (Pos.to_nat p + 1))%nat by lia.
    by rewrite !Nat.iter_add.
  - rewrite !IH, Pos2Nat.inj_xO.
    replace (2 * Pos.to_nat p)%nat with (Pos.to_nat p + Pos.to_nat p)%nat by lia.
    by rewrite Nat.iter_add.
  - done.
Qed.

Lemma shr_1_spec m r s :
  0 <= m -> shr_1 (Build_shr_record m r s) = Build_shr_record (m / 2) (Z.odd m) (r || s).
Proof.
  intros Hm. destruct m as [|p|p]; [done| |lia].
  rewrite <- Z.div2_div. destruct p; done.
Qed.

Lemma shr_iter_exact n X :
  0 <= X -> Nat.iter n shr_1 (Build_shr_record (X * 2 ^ Z.of_nat n) false false) =
            Build_shr_record X false false.
Proof.
  intros HX. revert X HX. induction n as [|n IH]; intros X HX.
  - cbn. f_equal. lia.
  - rewrite Nat.iter_succ_r. rewrite shr_1_spec by nia.
    rewrite Nat2Z.inj_succ, Z.pow_succ_r by lia.
    replace (X * (2 * 2 ^ Z.of_nat n)) with (X * 2 ^ Z.of_nat n * 2) by lia.
    rewrite Z.div_mul by lia. rewrite Z.odd_mul, andb_false_r. by apply IH.
Qed.

Lemma shr_exact X e n :
  0 <= X -> 0 <= n ->
  shr (Build_shr_record (X * 2 ^ n) false false) e n = (Build_shr_record X false false, e + n).
Proof.
  intros HX Hn. destruct n as [|p|p]; [|  |lia].
  - cbn. f_equal; [f_equal; lia | lia].
  - unfold shr. rewrite iter_pos_nat. f_equal.
    rewrite <- (positive_nat_Z p). by apply shr_iter_exact.
Qed.

Lemma fexp_eq d : -1021 <= d -> fexp prec emax d = d - 53.
Proof. intros. unfold fexp, emin, prec, emax. lia. Qed.

(** A mantissa of 53 digits is left alone. *)
Lemma shr_fexp_normal X e :
  2 ^ 52 <= X < 2 ^ 53 -> -1021 <= 53 + e ->
  shr_fexp prec emax X e loc_Exact = (Build_shr_record X false false, e).
Proof.
  intros HX He. unfold shr_fexp. rewrite (Zdigits2_unique X 53) by lia.
  rewrite fexp_eq by lia. replace (53 + e - 53 - e) with 0 by lia. done.
Qed.

(** The normal form of an integer [0 < v < 2 ^ 53]. *)
Definition mant (v : Z) : Z := v * 2 ^ (53 - Zdigits2 v).
Definition R (v : Z) : Real := S754_finite false (Z.to_pos (mant v)) (Zdigits2 v - 53).

Lemma mant_range v : 0 < v < 2 ^ 53 -> 2 ^ 52 <= mant v < 2 ^ 53 /\ 1 <= Zdigits2 v <= 53.
Proof.
  intros Hv. destruct (Zdigits2_bounds v) as [Hb Hd]; [lia|].
  pose proof (Zdigits2_le v 53 ltac:(lia) ltac:(lia) ltac:(lia)) as Hle.
  split; [|lia]. unfold mant.
  replace 52 with (Zdigits2 v - 1 + (53 - Zdigits2 v)) by lia.
  replace (2 ^ 53) with (2 ^ (Zdigits2 v + (53 - Zdigits2 v))) by (f_equal; lia).
  rewrite !Z.pow_add_r by lia. assert (0 < 2 ^ (53 - Zdigits2 v)) by lia. nia.
Qed.

Lemma binary_round_aux_normal X e :
  2 ^ 52 <= X < 2 ^ 53 -> -1021 <= 53 + e -> e <= 971 ->
  binary_round_aux prec emax false X e loc_Exact = S754_finite false (Z.to_pos X) e.
Proof.
  intros HX He He'. unfold binary_round_aux. rewrite shr_fexp_normal by done.
  cbn [shr_m loc_of_shr_record round_nearest_even]. rewrite shr_fexp_normal by done.
  cbn [shr_m]. destruct X as [|p|p]; try lia.
  replace (e <=? emax - prec) with true by (symmetry; apply Z.leb_le; unfold emax, prec; lia).
  done.
Qed.

Lemma Pos_iter_xO m d : Zpos (Pos.iter xO m d) = Zpos m * 2 ^ Zpos d.
Proof.
  revert m. induction d as [|d IH] using Pos.peano_ind; intros m; [cbn; lia|].
  rewrite Pos.iter_succ, Pos2Z.inj_succ, Z.pow_succ_r by lia.
  rewrite (Pos2Z.inj_xO (Pos.iter _ _ _)), IH. lia.
Qed.

Lemma Real_of_Z_exact v : 0 < v < 2 ^ 53 -> Real_of_Z v = R v.
Proof.
  intros Hv. destruct (mant_range v Hv) as [Hm Hd].
  unfold Real_of_Z, R. destruct v as [|p|p]; try lia.
  unfold binary_normalize, binary_round, shl_align. change (Zpos (digits2_pos p)) with (Zdigits2 (Zpos p)).
  rewrite Z.add_0_r, fexp_eq by lia. rewrite Z.sub_0_r. unfold mant in *.
  destruct (Zdigits2 (Zpos p) - 53) as [|d|d] eqn:E; [| lia |].
  - replace (53 - Zdigits2 (Zpos p)) with 0 in * by lia.
    rewrite Z.pow_0_r, Z.mul_1_r in *. apply binary_round_aux_normal; lia.
  - replace (53 - Zdigits2 (Zpos p)) with (Zpos d) in * by lia.
    rewrite <- Pos_iter_xO in *. rewrite binary_round_aux_normal by lia. done.
Qed.

Lemma Rmul_exact v w :
  0 < v < 2 ^ 53 -> 0 < w < 2 ^ 53 -> v * w < 2 ^ 53 -> Rmul (R v) (R w) = R (v * w).
Proof.
  intros Hv Hw Hvw. destruct (mant_range v Hv) as [Mv Dv]. destruct (mant_range w Hw) as [Mw Dw].
  assert (0 < v * w < 2 ^ 53) as Hz by nia. destruct (mant_range _ Hz) as [Mz Dz].
  destruct (Zdigits2_bounds v) as [Bv _]; [lia|]. destruct (Zdigits2_bounds w) as [Bw _]; [lia|].
  destruct (Zdigits2_bounds (v * w)) as [Bz _]; [lia|].
  assert (Zdigits2 v + Zdigits2 w - 2 < Zdigits2 (v * w)) as Hd.
  { apply (pow2_sandwich _ _ (v * w)); try lia.
    replace (Zdigits2 v + Zdigits2 w - 2) with (Zdigits2 v - 1 + (Zdigits2 w - 1)) by lia.
    rewrite Z.pow_add_r by lia. assert (0 < 2 ^ (Zdigits2 w - 1)) by lia. nia. }
  unfold Rmul, R. cbn [SFmul xorb]. rewrite Pos2Z.inj_mul, !Z2Pos.id by lia.
  set (n := Zdigits2 (v * w) + 53 - Zdigits2 v - Zdigits2 w).
  assert (mant v * mant w = mant (v * w) * 2 ^ n) as ->.
  { unfold mant.
    transitivity (v * w * 2 ^ (53 - Zdigits2 v + (53 - Zdigits2 w))).
    - rewrite Z.pow_add_r by lia. lia.
    - rewrite <- (Z.mul_assoc (v * w) (2 ^ (53 - Zdigits2 (v * w)))), <- Z.pow_add_r by lia.
      f_equal. f_equal. lia. }
  unfold binary_round_aux, shr_fexp at 1. rewrite Zdigits2_shift by lia.
  rewrite (Zdigits2_unique (mant (v * w)) 53) by lia.
  rewrite fexp_eq by lia.
  replace (53 + n + (Zdigits2 v - 53 + (Zdigits2 w - 53)) - 53 -
             (Zdigits2 v - 53 + (Zdigits2 w - 53))) with n by lia.
  cbn [shr_record_of_loc]. rewrite shr_exact by lia.
  cbn [shr_m loc_of_shr_record round_nearest_even].
  replace (Zdigits2 v - 53 + (Zdigits2 w - 53) + n) with (Zdigits2 (v * w) - 53) by lia.
  rewrite shr_fexp_normal by lia. cbn [shr_m].
  destruct (mant (v * w)) as [|p|p]; try lia.
  replace (Zdigits2 (v * w) - 53 <=? emax - prec) with true
    by (symmetry; apply Z.leb_le; unfold emax, prec; lia). done.
Qed.

(** ** Division *)

(** Rounding [a * 2 ^ K / b] up to the next integer does not reach the next
    multiple of [2 ^ K] when [a + b < 2 ^ 53]. *)
Lemma rounded_quotient a b K M :
  0 < a -> 0 < b -> 0 <= K -> a + b < 2 ^ 53 ->
  2 ^ 52 <= a * 2 ^ K / b ->
  (M = a * 2 ^ K / b \/ (M = a * 2 ^ K / b + 1 /\ b <= 2 * (a * 2 ^ K mod b))) ->
  M / 2 ^ K = a / b.
Proof.
  intros Ha Hb HK Hab Hq HM. set (A := a * 2 ^ K) in *. set (q := A / b) in *.
  assert (0 < 2 ^ K) as HK0 by lia.
  assert (A = b * q + A mod b) as HA by (apply Z.div_mod; lia).
  pose proof (Z.mod_pos_bound A b Hb) as Hr.
  assert (q / 2 ^ K = a / b) as Hfloor.
  { unfold q, A. rewrite Z.div_div, Z.mul_comm, (Z.mul_comm b), Z.div_mul_cancel_l; lia. }
  destruct HM as [-> | [-> Hup]]; [done|].
  pose proof (Z.div_mod q (2 ^ K)) as Hqd. pose proof (Z.mod_pos_bound q (2 ^ K)) as Hqm.
  destruct (decide (q mod 2 ^ K = 2 ^ K - 1)) as [Htop|Hnot].
  - exfalso. set (c := q / 2 ^ K + 1). assert (q + 1 = c * 2 ^ K) as Hc by lia.
    (* the distance to the next multiple is at least one unit of [1 / b] *)
    assert (c * b - a >= 1) as Hgap.
    { assert (2 ^ K * (c * b - a) > 0) by (unfold A in *; nia). nia. }
    assert (2 * 2 ^ K * (c * b - a) <= b) as Hhalf by (unfold A in *; nia).
    assert (c * b <= a + b) as Hcb.
    { unfold c. rewrite Hfloor. pose proof (Z.mul_div_le a b Hb). lia. }
    assert (2 ^ 53 <= c * (2 * 2 ^ K)) by (change (2 ^ 53) with (2 * 2 ^ 52); lia).
    assert (2 * 2 ^ K <= b) by nia. nia.
  - rewrite <- Hfloor. symmetry. apply Z.div_unique with (q mod 2 ^ K + 1); lia.
Qed.

(** The rounding step either keeps the mantissa or adds one, and adds one only
    when the discarded part is at least a half. *)
Lemma round_shr_0 q m2 r :
  0 < m2 -> 0 <= r < m2 ->
  let rec := shr_record_of_loc q (new_location m2 r) in
  let M := round_nearest_even (shr_m rec) (loc_of_shr_record rec) in
  M = q \/ (M = q + 1 /\ m2 <= 2 * r).
Proof.
  intros Hm Hr. unfold new_location, new_location_even, new_location_odd.
  destruct (Z.even m2), (r =? 0) eqn:E0; cbn; try (left; done); bool_to_prop.
  - destruct (Z.compare_spec (2 * r) m2); cbn; auto; [|right; lia].
    destruct (Z.even q); [by left | right; lia].
  - destruct (Z.compare_spec (2 * r + 1) m2); cbn; auto. right. lia.
Qed.

Lemma round_shr_1 q m2 r :
  0 <= q -> 0 < m2 -> 0 <= r < m2 ->
  let rec := shr_1 (shr_record_of_loc q (new_location m2 r)) in
  let M := round_nearest_even (shr_m rec) (loc_of_shr_record rec) in
  M = q / 2 \/ (M = q / 2 + 1 /\ Z.odd q = true).
Proof.
  intros Hq Hm Hr.
  destruct (shr_record_of_loc q (new_location m2 r)) as [m r0 s0] eqn:E.
  assert (m = q) as ->.
  { destruct (new_location m2 r) as [|[]]; cbn in E; congruence. }
  rewrite shr_1_spec by done. cbn. destruct (Z.odd q), (r0 || s0)%bool; cbn; auto.
  destruct (Z.even (q / 2)); auto.
Qed.

(** What follows the first rounding: mantissas of 53 digits and [2 ^ 53]. *)
Lemma second_shr M e :
  2 ^ 52 <= M <= 2 ^ 53 -> -1021 <= 53 + e -> e <= 970 ->
  exists m e', (let '(mrs'', e'') := shr_fexp prec emax M e loc_Exact in
     match shr_m mrs'' with
     | Z0 => S754_zero false
     | Zpos m => if e'' <=? emax - prec then S754_finite false m e'' else S754_infinity false
     | _ => S754_nan
     end) = S754_finite false m e' /\
    ((Zpos m = M /\ e' = e) \/ (M = 2 ^ 53 /\ Zpos m = 2 ^ 52 /\ e' = e + 1)).
Proof.
  intros HM He He'. destruct (decide (M = 2 ^ 53)) as [->|].
  - unfold shr_fexp. rewrite (Zdigits2_unique (2 ^ 53) 54) by lia. rewrite fexp_eq by lia.
    replace (54 + e - 53 - e) with 1 by lia. change (2 ^ 53) with (2 ^ 52 * 2 ^ 1) at 1.
    cbn [shr_record_of_loc]. rewrite shr_exact by lia. cbn [shr_m].
    change (2 ^ 52) with (Zpos (2 ^ 52)%positive) at 1. cbv iota.
    replace (e + 1 <=? emax - prec) with true
      by (symmetry; apply Z.leb_le; unfold emax, prec; lia).
    do 2 eexists. split; [done|]. right. done.
  - rewrite shr_fexp_normal by lia. cbn [shr_m]. destruct M as [|p|p]; try lia.
    replace (e <=? emax - prec) with true
      by (symmetry; apply Z.leb_le; unfold emax, prec; lia).
    do 2 eexists. split; [done|]. left. done.
Qed.

(** [a * 2 ^ i / (b * 2 ^ j)] in lowest terms. *)
Lemma scaled_div a b i j :
  0 < b -> 0 <= j <= i ->
  (a * 2 ^ i) / (b * 2 ^ j) = a * 2 ^ (i - j) / b /\
  (a * 2 ^ i) mod (b * 2 ^ j) = (a * 2 ^ (i - j) mod b) * 2 ^ j.
Proof.
  intros Hb Hij. assert (0 < 2 ^ j) by lia.
  replace (2 ^ i) with (2 ^ (i - j) * 2 ^ j) by (rewrite <- Z.pow_add_r by lia; f_equal; lia).
  rewrite Z.mul_assoc. split; [apply Z.div_mul_cancel_r; lia | apply Z.mul_mod_distr_r; lia].
Qed.

(** The mantissa after the first rounding of the quotient, and its exponent
    [- K]. *)
Definition first_rounding (a b M K : Z) : Prop :=
  (let '(mrs', e') := shr_fexp prec emax (mant a * 2 ^ 53 / mant b) (Zdigits2 a - Zdigits2 b - 53)
                        (new_location (mant b) (mant a * 2 ^ 53 mod mant b)) in
   (round_nearest_even (shr_m mrs') (loc_of_shr_record mrs'), e')) = (M, - K) /\
  0 <= K <= 106 /\ 2 ^ 52 <= M <= 2 ^ 53 /\ M / 2 ^ K = a / b.

Lemma first_rounding_53 a b :
  0 < a -> 0 < b -> a + b < 2 ^ 53 -> 2 ^ 52 <= mant a * 2 ^ 53 / mant b < 2 ^ 53 -> exists M K, first_rounding a b M K.
Proof.
  intros Ha Hb Hab Hq. destruct (mant_range a ltac:(lia)) as [Ma Da]. destruct (mant_range b ltac:(lia)) as [Mb Db].
  unfold first_rounding, shr_fexp. set (q := mant a * 2 ^ 53 / mant b) in *. set (r := mant a * 2 ^ 53 mod mant b) in *.
  assert (0 <= r < mant b) as Hr by (apply Z.mod_pos_bound; lia).
  rewrite (Zdigits2_unique q 53), fexp_eq by lia.
  replace (53 + (Zdigits2 a - Zdigits2 b - 53) - 53 - (Zdigits2 a - Zdigits2 b - 53)) with 0 by lia.
  cbn [shr]. set (K := 53 - Zdigits2 a + Zdigits2 b).
  destruct (round_shr_0 q (mant b) r) as [E|[E Hup]]; [lia|done| |];
    rewrite E; eexists _, K; (split; [f_equal; lia|]); (split; [lia|]); (split; [lia|]);
    destruct (scaled_div a b (53 - Zdigits2 a + 53) (53 - Zdigits2 b)) as [Ed Em]; try lia;
    replace (53 - Zdigits2 a + 53 - (53 - Zdigits2 b)) with K in * by lia;
    rewrite Z.pow_add_r, Z.mul_assoc in Ed, Em by lia; fold (mant a) (mant b) in Ed, Em;
    fold q in Ed; fold r in Em.
  - apply (rounded_quotient a b K); try lia.
  - apply (rounded_quotient a b K); try lia. right. split; [lia|].
    assert (0 < 2 ^ (53 - Zdigits2 b)) by lia. unfold mant in Hup. nia.
Qed.

Lemma first_rounding_54 a b :
  0 < a -> 0 < b -> a + b < 2 ^ 53 -> 2 ^ 53 <= mant a * 2 ^ 53 / mant b < 2 ^ 54 -> exists M K, first_rounding a b M K.
Proof.
  intros Ha Hb Hab Hq. destruct (mant_range a ltac:(lia)) as [Ma Da]. destruct (mant_range b ltac:(lia)) as [Mb Db].
  unfold first_rounding, shr_fexp. set (q := mant a * 2 ^ 53 / mant b) in *. set (r := mant a * 2 ^ 53 mod mant b) in *.
  assert (0 <= r < mant b) as Hr by (apply Z.mod_pos_bound; lia).
  rewrite (Zdigits2_unique q 54), fexp_eq by lia.
  replace (54 + (Zdigits2 a - Zdigits2 b - 53) - 53 - (Zdigits2 a - Zdigits2 b - 53)) with 1 by lia.
  cbn [shr iter_pos]. set (K := 52 - Zdigits2 a + Zdigits2 b).
  assert (2 ^ 52 <= q / 2 < 2 ^ 53) as Hq2
    by (split; [apply Z.div_le_lower_bound | apply Z.div_lt_upper_bound]; lia).
  destruct (scaled_div a b (53 - Zdigits2 a + 53) (54 - Zdigits2 b)) as [Ed Em]; try lia.
  replace (53 - Zdigits2 a + 53 - (54 - Zdigits2 b)) with K in * by lia.
  rewrite Z.pow_add_r, Z.mul_assoc in Ed, Em by lia. fold (mant a) in Ed, Em.
  assert (b * 2 ^ (54 - Zdigits2 b) = mant b * 2) as E2.
  { unfold mant. replace (54 - Zdigits2 b) with (53 - Zdigits2 b + 1) by lia.
    rewrite Z.pow_add_r by lia. lia. }
  rewrite E2 in Ed, Em. rewrite <- Z.div_div in Ed by lia. fold q in Ed.
  rewrite Z.rem_mul_r in Em by lia. fold q r in Em.
  assert (0 <= K) by (pose proof (Z.pow_le_mono_r 2 K 0); destruct (Z.lt_ge_cases K 0); [|done];
    rewrite (Z.pow_neg_r 2 K) in Ed by lia; rewrite Z.mul_0_r, Z.div_0_l in Ed by lia; lia).
  destruct (round_shr_1 q (mant b) r) as [E|[E Hodd]]; [lia|lia|done| |];
    rewrite E; eexists _, K; (split; [f_equal; lia|]); (split; [lia|]); (split; [lia|]).
  - apply (rounded_quotient a b K); try lia.
  - apply (rounded_quotient a b K); try lia. right. split; [lia|].
    rewrite Zmod_odd, Hodd in Em. assert (0 < 2 ^ (54 - Zdigits2 b)) by lia. nia.
Qed.

(** The value of a mantissa [M] with exponent [- K], after a last shift. *)
Lemma scaled_value M K m e v :
  0 <= K -> v < 2 ^ 53 -> M / 2 ^ K = v ->
  (Zpos m = M /\ e = - K) \/ (M = 2 ^ 53 /\ Zpos m = 2 ^ 52 /\ e = - K + 1) ->
  (0 <= e /\ v = Zpos m * 2 ^ e) \/ (e < 0 /\ v = Zpos m / 2 ^ (- e)).
Proof.
  intros HK Hfl Hval [[Em ->]|(E53 & Em & ->)].
  - destruct (decide (K = 0)) as [->|].
    + left. split; [lia|]. rewrite <- Hval, Em. cbn. rewrite Z.div_1_r. lia.
    + right. split; [lia|]. by rewrite Em, Z.opp_involutive.
  - destruct (decide (K = 0)) as [->|].
    + exfalso. cbn in Hval. rewrite Z.div_1_r in Hval. lia.
    + destruct (decide (K = 1)) as [->|].
      * left. split; [lia|]. rewrite <- Hval, Em, E53. reflexivity.
      * right. split; [lia|]. rewrite <- Hval, Em, E53.
        replace (- (- K + 1)) with (K - 1) by lia.
        replace K with (K - 1 + 1) at 1 by lia. rewrite Z.pow_add_r by lia.
        change (2 ^ 53) with (2 ^ 52 * 2 ^ 1). rewrite Z.div_mul_cancel_r; lia.
Qed.

(** The core of the division on normalised operands. *)
Lemma div_core a b :
  0 < a < 2 ^ 53 -> 0 < b < 2 ^ 53 ->
  SFdiv_core_binary prec emax (mant a) (Zdigits2 a - 53) (mant b) (Zdigits2 b - 53) =
  (mant a * 2 ^ 53 / mant b, Zdigits2 a - Zdigits2 b - 53,
   new_location (mant b) (mant a * 2 ^ 53 mod mant b)) /\
  2 ^ 52 <= mant a * 2 ^ 53 / mant b < 2 ^ 54.
Proof.
  intros Ha Hb. destruct (mant_range a Ha) as [Ma Da]. destruct (mant_range b Hb) as [Mb Db].
  split.
  - unfold SFdiv_core_binary.
    rewrite (Zdigits2_unique (mant a) 53), (Zdigits2_unique (mant b) 53) by lia.
    rewrite fexp_eq by lia.
    rewrite Z.min_l by lia.
    replace (Zdigits2 a - 53 - (Zdigits2 b - 53) -
      (53 + (Zdigits2 a - 53) - (53 + (Zdigits2 b - 53)) - 53)) with 53 by lia.
    rewrite Z.shiftl_mul_pow2 by lia.
    destruct (Z.div_eucl (mant a * 2 ^ 53) (mant b)) as [q r] eqn:E.
    unfold Z.div, Z.modulo. rewrite E. cbn [fst snd]. f_equal. f_equal. lia.
  - split; [apply Z.div_le_lower_bound | apply Z.div_lt_upper_bound]; lia.
Qed.

Lemma Real_to_u64_finite m e t :
  (0 <= e /\ t = Zpos m * 2 ^ e) \/ (e < 0 /\ t = Zpos m / 2 ^ (- e)) -> t < 2 ^ 64 ->
  Real_to_u64 (S754_finite false m e) = Ok t.
Proof.
  intros H Ht. unfold Real_to_u64.
  destruct H as [[He ->]|[He ->]];
    [replace (0 <=? e) with true by (symmetry; apply Z.leb_le; lia)
    |replace (0 <=? e) with false by (symmetry; apply Z.leb_gt; lia)];
    by replace (_ <? 2 ^ 64) with true by (symmetry; apply Z.ltb_lt; lia).
Qed.

Lemma Rdiv_floor a b :
  0 < a -> 0 < b -> a + b < 2 ^ 53 -> Real_to_u64 (Rdiv (R a) (R b)) = Ok (a / b).
Proof.
  intros Ha Hb Hab. assert (0 < a < 2 ^ 53) as Ha' by lia. assert (0 < b < 2 ^ 53) as Hb' by lia.
  destruct (mant_range a Ha') as [Ma Da]. destruct (mant_range b Hb') as [Mb Db].
  destruct (div_core a b Ha' Hb') as [Hcore Hq].
  unfold Rdiv, R. cbn [SFdiv xorb]. rewrite !Z2Pos.id by lia. rewrite Hcore.
  assert (a / b < 2 ^ 53) as Hfl by (apply Z.div_lt_upper_bound; nia).
  assert (exists M K, first_rounding a b M K) as (M & K & Hround & HK & HM & Hval).
  { destruct (Z.lt_ge_cases (mant a * 2 ^ 53 / mant b) (2 ^ 53)); [apply first_rounding_53 | apply first_rounding_54]; lia. }
  unfold binary_round_aux. destruct (shr_fexp prec emax _ _ _) as [mrs' e'].
  injection Hround as HM' ->. rewrite HM'.
  destruct (second_shr M (- K)) as (m & e'' & -> & Hm); [lia|lia|lia|].
  apply Real_to_u64_finite; [|lia]. apply (scaled_value M K); [lia|done|done|done].
Qed.

(** The delay expression of [Wire] and [Link] is exact integer division. *)
Lemma trans_delay_exact size bps :
  0 < size -> 0 < bps -> size * 8 * 10 ^ 9 + bps < 2 ^ 53 ->
  trans_delay size bps = Ok (size * 8 * 10 ^ 9 / bps).
Proof.
  intros Hs Hb Hlt. unfold trans_delay. replace (bps =? 0) with false by (symmetry; apply Z.eqb_neq; lia).
  rewrite !Real_of_Z_exact by lia. rewrite Rmul_exact by lia. rewrite Rmul_exact by lia.
  rewrite Rdiv_floor by lia. done.
Qed.

Lemma trans_delay_zero bps : 0 < bps < 2 ^ 53 -> trans_delay 0 bps = Ok 0.
Proof.
  intros Hb. unfold trans_delay. replace (bps =? 0) with false by (symmetry; apply Z.eqb_neq; lia).
  rewrite (Real_of_Z_exact bps) by lia. done.
Qed.

Lemma Real_to_u64_range x t : Real_to_u64 x = Ok t -> is_u 64 t.
Proof.
  unfold Real_to_u64, is_u. destruct x as [| | |b m e]; try discriminate; intros H; res_inv; [lia|].
  set (v := if 0 <=? e then _ else _) in H.
  assert (0 <= v) by (unfold v; destruct (0 <=? e) eqn:E; bool_to_prop;
    [apply Z.mul_nonneg_nonneg; lia | apply Z.div_pos; lia]).
  destruct b; [destruct (v =? 0) | destruct (v <? 2 ^ 64) eqn:Ev]; res_inv; bool_to_prop; lia.
Qed.

Lemma trans_delay_range size bps t : trans_delay size bps = Ok t -> is_u 64 t.
Proof.
  unfold trans_delay. destruct (bps =? 0); [intros; res_inv; done | apply Real_to_u64_range].
Qed.

End Real.
Export Real.
