(* ===== verification/Rounding.v ===== *)
(** * Rounding: bounds that survive rounding

    Every operation of binary64 rounds to nearest, so a result never crosses a
    representable number that the exact value does not cross.  [within lo hi x]
    says that [x] lies between two integers below [2 ^ 53]; the lemmas carry it
    through the conversions, the square root, products, sums and differences
    of the sources (src/E/E_RandomDistribution.cpp), for subnormal values too. *)

From S2P Require Import Prelude Real.
From Stdlib Require Import SpecFloat.
Local Open Scope Z_scope.

Module Rounding.

(** [lo <= x <= hi], for a finite [x] whose exponent is not positive. *)
Definition within (lo hi : Z) (x : Real) : Prop :=
  match x with
  | S754_zero _ => lo <= 0 <= hi
  | S754_finite false m e => e <= 0 /\ lo * 2 ^ (- e) <= Zpos m <= hi * 2 ^ (- e)
  | _ => False
  end.

(** ** Shifting *)

Lemma shr_m_iter n r : 0 <= shr_m r -> shr_m (Nat.iter n shr_1 r) = shr_m r / 2 ^ Z.of_nat n.
Proof.
  revert r. induction n as [|n IH]; intros [m b s] Hm; [cbn; by rewrite Z.div_1_r|].
  rewrite Nat.iter_succ_r, shr_1_spec by done. rewrite IH by (apply Z.div_pos; cbn in *; lia).
  cbn [shr_m]. rewrite Z.div_div by lia. f_equal. rewrite Nat2Z.inj_succ, Z.pow_succ_r; lia.
Qed.

Lemma shr_m_of_loc m l : shr_m (shr_record_of_loc m l) = m.
Proof. by destruct l as [|[]]. Qed.

Lemma shr_m_shr m l e n :
  0 <= m -> 0 <= n -> shr_m (shr (shr_record_of_loc m l) e n).1 = m / 2 ^ n /\
  (shr (shr_record_of_loc m l) e n).2 = e + n.
Proof.
  intros Hm Hn. destruct n as [|p|p]; [|  |lia]; cbn [shr fst snd].
  - rewrite shr_m_of_loc, Z.div_1_r. lia.
  - rewrite iter_pos_nat, shr_m_iter; rewrite shr_m_of_loc; [|done]. by rewrite positive_nat_Z.
Qed.

(** A location that is not exact comes from the operand or from lost digits. *)
Lemma shr_inexact m l e n H :
  0 <= H -> 0 <= n -> m = H * 2 ^ n -> loc_of_shr_record (shr (shr_record_of_loc m l) e n).1 <> loc_Exact ->
  l <> loc_Exact.
Proof.
  intros HH Hn -> Hl ->. apply Hl. cbn [shr_record_of_loc]. rewrite shr_exact by done. done.
Qed.

Lemma round_cases m l :
  round_nearest_even m l = m \/ (round_nearest_even m l = m + 1 /\ l <> loc_Exact).
Proof. destruct l as [|[]]; cbn; [by left|destruct (Z.even m); [by left|by right]|by left|by right]. Qed.

(** ** The rounding function *)

Lemma Zdigits2_bound m k : 0 <= m < 2 ^ k -> 0 <= k -> Zdigits2 m <= k /\ m < 2 ^ Zdigits2 m /\ 0 <= Zdigits2 m.
Proof.
  intros Hm Hk. destruct (decide (m = 0)) as [->|]; [cbn; lia|].
  assert (0 < k) by (destruct (decide (k = 0)) as [->|]; [cbn in Hm|]; lia).
  destruct (Zdigits2_bounds m); [lia|]. pose proof (Zdigits2_le m k). lia.
Qed.

(** The shift of [shr_fexp]: to the exponent [e], which is in range, and to 53
    digits at most. *)
Lemma shr_fexp_shift mx ex lx :
  0 <= mx < 2 ^ (53 - ex) -> ex <= 0 ->
  exists n, 0 <= n /\ -1074 <= ex + n <= 0 /\ mx / 2 ^ n < 2 ^ 53 /\
    (shr_fexp prec emax mx ex lx).2 = ex + n /\ shr_m (shr_fexp prec emax mx ex lx).1 = mx / 2 ^ n /\
    forall H, 0 <= H -> mx = H * 2 ^ n -> loc_of_shr_record (shr_fexp prec emax mx ex lx).1 <> loc_Exact -> lx <> loc_Exact.
Proof.
  intros Hm He. destruct (Zdigits2_bound mx (53 - ex) Hm) as (Hd & Hlt & Hd0); [lia|]. unfold shr_fexp.
  set (f := fexp prec emax (Zdigits2 mx + ex) - ex).
  assert (f = Z.max (Zdigits2 mx - 53) (-1074 - ex)) as Ef by (unfold f, fexp, emin, prec, emax; lia).
  exists (Z.max 0 f). replace (shr (shr_record_of_loc mx lx) ex f) with (shr (shr_record_of_loc mx lx) ex (Z.max 0 f)).
  2:{ destruct f; [done|done|]. done. }
  destruct (shr_m_shr mx lx ex (Z.max 0 f)) as [E1 E2]; [lia|lia|].
  split; [lia|]. split; [lia|]. split; [|split; [done|split; [done|]]].
  - apply Z.div_lt_upper_bound; [lia|]. rewrite <- Z.pow_add_r by lia.
    eapply Z.lt_le_trans; [exact Hlt|]. apply Z.pow_le_mono_r; lia.
  - intros H HH Hx. apply (shr_inexact mx lx ex _ H); done || lia.
Qed.

(** The mantissa and exponent after the first rounding. *)
Lemma first_round mx ex lx lo hi :
  0 <= mx -> ex <= 0 -> 0 <= lo -> hi < 2 ^ 53 -> lo * 2 ^ (- ex) <= mx <= hi * 2 ^ (- ex) ->
  (lx <> loc_Exact -> mx < hi * 2 ^ (- ex)) ->
  exists M e, (let '(mrs, e) := shr_fexp prec emax mx ex lx in
               (round_nearest_even (shr_m mrs) (loc_of_shr_record mrs), e)) = (M, e) /\
    -1074 <= e <= 0 /\ M <= 2 ^ 53 /\ lo * 2 ^ (- e) <= M <= hi * 2 ^ (- e).
Proof.
  intros Hm He Hlo Hhi Hx Hin. assert (mx < 2 ^ (53 - ex)) as Hlt.
  { replace (53 - ex) with (53 + - ex) by lia. rewrite Z.pow_add_r by lia. nia. }
  destruct (shr_fexp_shift mx ex lx) as (n & Hn & Hr & Hdig & E2 & E1 & Hloc); [lia|lia|].
  destruct (shr_fexp prec emax mx ex lx) as [mrs e]. cbn [fst snd] in *. subst e. rewrite E1.
  assert (2 ^ (- ex) = 2 ^ (- (ex + n)) * 2 ^ n) as Ep by (rewrite <- Z.pow_add_r by lia; f_equal; lia).
  rewrite Ep, !Z.mul_assoc in Hx, Hin. set (L := lo * 2 ^ (- (ex + n))) in *. set (H := hi * 2 ^ (- (ex + n))) in *.
  assert (0 < 2 ^ n) by lia. assert (L <= mx / 2 ^ n <= H) as Hq.
  { split; [apply Z.div_le_lower_bound; lia|]. rewrite <- (Z.div_mul H (2 ^ n)) by lia. apply Z.div_le_mono; lia. }
  eexists _, _. split; [reflexivity|]. split; [lia|].
  destruct (round_cases (mx / 2 ^ n) (loc_of_shr_record mrs)) as [->|[-> Hne]]; [lia|].
  destruct (decide (mx / 2 ^ n = H)) as [EH|]; [|lia]. exfalso.
  assert (mx = H * 2 ^ n) as Emx by (pose proof (Z.mul_div_le mx (2 ^ n)); nia).
  assert (0 <= H) by (rewrite <- EH; apply Z.div_pos; lia).
  pose proof (Hin (Hloc H ltac:(lia) Emx Hne)). lia.
Qed.

(** The second normalisation does not change the value. *)
Lemma second_round M e lo hi :
  0 <= M <= 2 ^ 53 -> -1074 <= e <= 0 -> hi < 2 ^ 53 -> 0 <= lo -> lo * 2 ^ (- e) <= M <= hi * 2 ^ (- e) ->
  within lo hi (let '(mrs, e) := shr_fexp prec emax M e loc_Exact in
     match shr_m mrs with
     | Z0 => S754_zero false
     | Zpos m => if e <=? emax - prec then S754_finite false m e else S754_infinity false
     | _ => S754_nan
     end).
Proof.
  intros HM He Hhi Hlo Hx. assert (forall e, e <= 0 -> (e <=? emax - prec) = true) as Hle
    by (intros; apply Z.leb_le; unfold emax, prec; lia).
  destruct (decide (M = 2 ^ 53)) as [->|].
  - assert (e < 0) by (destruct (decide (e = 0)) as [->|]; [cbn in Hx|]; lia).
    unfold shr_fexp. rewrite (Zdigits2_unique (2 ^ 53) 54), fexp_eq by lia.
    replace (54 + e - 53 - e) with 1 by lia. cbn [shr_record_of_loc].
    change (2 ^ 53) with (2 ^ 52 * 2 ^ 1). rewrite shr_exact by lia. cbn [shr_m].
    change (2 ^ 52) with (Zpos (2 ^ 52)%positive). cbv iota. rewrite Hle by lia. cbn [within]. split; [lia|].
    replace (- e) with (- (e + 1) + 1) in Hx by lia. rewrite Z.pow_add_r in Hx by lia. lia.
  - destruct (Zdigits2_bound M 53) as (Hd & _ & Hd0); [lia|lia|]. unfold shr_fexp.
    set (f := fexp prec emax (Zdigits2 M + e) - e).
    assert (f <= 0) by (unfold f, fexp, emin, prec, emax; lia).
    replace (shr (shr_record_of_loc M loc_Exact) e f) with (Build_shr_record M false false, e) by (destruct f; [done|lia|done]).
    cbn [shr_m]. destruct M as [|m|m]; [|rewrite Hle by lia; cbn; lia|lia]. cbn. nia.
Qed.

Lemma round_within mx ex lx lo hi :
  0 <= mx -> ex <= 0 -> 0 <= lo -> hi < 2 ^ 53 -> lo * 2 ^ (- ex) <= mx <= hi * 2 ^ (- ex) ->
  (lx <> loc_Exact -> mx < hi * 2 ^ (- ex)) -> within lo hi (binary_round_aux prec emax false mx ex lx).
Proof.
  intros Hm He Hlo Hhi Hx Hin. destruct (first_round mx ex lx lo hi) as (M & e & E & He' & HM & Hx'); try done.
  unfold binary_round_aux. destruct (shr_fexp prec emax mx ex lx) as [mrs e']. injection E as -> ->.
  apply second_round; try done. nia.
Qed.

(** ** The operations *)

Lemma within_of_Z v : 0 <= v < 2 ^ 53 -> within v v (Real_of_Z v).
Proof.
  intros Hv. destruct (decide (v = 0)) as [->|]; [cbn; lia|]. rewrite Real_of_Z_exact by lia.
  destruct (mant_range v) as [Hm Hd]; [lia|]. unfold R. cbn [within]. split; [lia|].
  rewrite Z2Pos.id by lia. unfold mant. replace (- (Zdigits2 v - 53)) with (53 - Zdigits2 v) by lia. lia.
Qed.

Lemma within_nonneg lo hi x : within lo hi x -> 0 <= hi.
Proof. destruct x as [| | |[] m e]; cbn; try done; [lia|]. intros [He Hx]. assert (0 < 2 ^ (- e)) by lia. nia. Qed.

Lemma within_mono lo hi lo' hi' x : within lo hi x -> lo' <= lo -> hi <= hi' -> within lo' hi' x.
Proof. destruct x as [| | |[] m e]; cbn; try done; [lia|]. intros [He Hx] ??. assert (0 < 2 ^ (- e)) by lia. nia. Qed.

Lemma sqrt_core a b m e :
  e <= 0 -> 0 <= a -> 0 <= b -> a * a * 2 ^ (- e) <= Zpos m <= b * b * 2 ^ (- e) ->
  exists q e' l, SFsqrt_core_binary prec emax (Zpos m) e = (q, e', l) /\ 0 <= q /\ e' <= 0 /\
    a * 2 ^ (- e') <= q <= b * 2 ^ (- e') /\ (l <> loc_Exact -> q < b * 2 ^ (- e')).
Proof.
  intros He Ha Hb Hx. unfold SFsqrt_core_binary. set (e' := Z.min _ (Z.div2 e)).
  assert (2 * e' <= e) as He' by (pose proof (Z.div2_odd e); unfold e'; destruct (Z.odd e); cbn [Z.b2z] in *; lia).
  set (s := e - 2 * e').
  replace (match s with Z0 => Zpos m | Zpos _ => Z.shiftl (Zpos m) s | Zneg _ => 0 end) with (Zpos m * 2 ^ s).
  2:{ destruct s eqn:E; [rewrite Z.pow_0_r; lia| |lia]. rewrite Z.shiftl_mul_pow2 by lia. done. }
  assert (2 ^ (- e') * 2 ^ (- e') = 2 ^ (- e) * 2 ^ s) as Ep by (rewrite <- !Z.pow_add_r by lia; f_equal; lia).
  assert (0 < 2 ^ s) by lia. set (m' := Zpos m * 2 ^ s) in *. set (P := 2 ^ (- e')) in *.
  assert (a * P * (a * P) <= m' <= b * P * (b * P)) as Hm by (unfold m'; nia).
  pose proof (Z.sqrtrem_spec m' ltac:(unfold m'; lia)) as Hs. pose proof (Z.sqrtrem_sqrt m') as Hq.
  destruct (Z.sqrtrem m') as [q r]. cbn [fst] in Hq. destruct Hs as [Hs Hr].
  assert (0 <= q) by (rewrite Hq; apply Z.sqrt_nonneg).
  assert (0 < P) by (unfold P; lia). eexists q, e', _. split; [reflexivity|]. split; [done|]. split; [lia|].
  fold P. assert (0 <= a * P) as HA by nia. assert (0 <= b * P) as HB by nia.
  revert Hm HA HB. generalize (a * P) (b * P). intros A B Hm HA HB.
  split; [|intros Hl; assert (r <> 0) by (intros ->; by apply Hl); apply Z.square_lt_simpl_nonneg; lia].
  split; [apply Z.lt_succ_r|]; apply Z.square_lt_simpl_nonneg || apply Z.square_le_simpl_nonneg; lia.
Qed.

Lemma Rsqrt_within a b x :
  0 <= a -> 0 <= b < 2 ^ 53 -> within (a * a) (b * b) x -> within a b (Rsqrt x).
Proof.
  intros Ha Hb. destruct x as [| | |[] m e]; try done; [cbn; nia|]. intros [He Hx].
  destruct (sqrt_core a b m e) as (q & e' & l & E & Hq & He' & Hq' & Hl); try done; try lia.
  unfold Rsqrt, SFsqrt. rewrite E. apply round_within; done || lia.
Qed.

Lemma Rmul_within a b c d x y :
  0 <= a -> 0 <= c -> b * d < 2 ^ 53 -> within a b x -> within c d y -> within (a * c) (b * d) (Rmul x y).
Proof.
  intros Ha Hc Hbd Hx Hy. pose proof (within_nonneg _ _ _ Hx). pose proof (within_nonneg _ _ _ Hy).
  destruct x as [| | |[] mx ex], y as [| | |[] my ey]; try done; cbn [within] in Hx, Hy; try (cbn; nia).
  destruct Hx as [Hex Hx], Hy as [Hey Hy]. apply round_within; try done; try lia.
  replace (- (ex + ey)) with (- ex + - ey) by lia. rewrite Z.pow_add_r, Pos2Z.inj_mul by lia.
  assert (0 < 2 ^ (- ex)) by lia. assert (0 < 2 ^ (- ey)) by lia.
  replace (a * c * (2 ^ (- ex) * 2 ^ (- ey))) with (a * 2 ^ (- ex) * (c * 2 ^ (- ey))) by lia.
  replace (b * d * (2 ^ (- ex) * 2 ^ (- ey))) with (b * 2 ^ (- ex) * (d * 2 ^ (- ey))) by lia.
  split; apply Z.mul_le_mono_nonneg; lia.
Qed.

(** *** Sums *)

Lemma binary_round_within m e lo hi :
  e <= 0 -> 0 <= lo -> hi < 2 ^ 53 -> lo * 2 ^ (- e) <= Zpos m <= hi * 2 ^ (- e) ->
  within lo hi (binary_round prec emax false m e).
Proof.
  intros He Hlo Hhi Hx. unfold binary_round, shl_align.
  destruct (fexp prec emax (Zpos (digits2_pos m) + e) - e) as [|p|p] eqn:E; try (apply round_within; done || lia).
  replace (fexp prec emax _) with (e - Zpos p) by lia. rewrite Pos_iter_xO. apply round_within; try done; try lia.
  replace (- (e - Zpos p)) with (- e + Zpos p) by lia. rewrite Z.pow_add_r by lia.
  assert (0 < 2 ^ Zpos p) by lia. nia.
Qed.

Lemma shl_align_value m e e' : e' <= e -> Zpos (fst (shl_align m e e')) = Zpos m * 2 ^ (e - e').
Proof.
  intros He. unfold shl_align. destruct (e' - e) as [|p|p] eqn:E; [|lia|]; cbn [fst].
  - replace (e - e') with 0 by lia. lia.
  - rewrite Pos_iter_xO. f_equal. f_equal. lia.
Qed.

(** A mantissa brought to a smaller exponent keeps its bounds. *)
Lemma align_within a b m e e' :
  e <= 0 -> e' <= e -> a * 2 ^ (- e) <= Zpos m <= b * 2 ^ (- e) ->
  a * 2 ^ (- e') <= Zpos (fst (shl_align m e e')) <= b * 2 ^ (- e').
Proof.
  intros He He' Hx. rewrite shl_align_value by done.
  replace (- e') with (- e + (e - e')) by lia. rewrite Z.pow_add_r by lia. assert (0 < 2 ^ (e - e')) by lia. nia.
Qed.

Lemma normalize_within M e lo hi :
  e <= 0 -> 0 <= lo -> 0 <= hi < 2 ^ 53 -> lo * 2 ^ (- e) <= M <= hi * 2 ^ (- e) ->
  within lo hi (binary_normalize prec emax M e false).
Proof.
  intros He Hlo Hhi Hx. assert (0 < 2 ^ (- e)) by lia. destruct M as [|m|m]; cbn [binary_normalize]; [|apply binary_round_within; lia|nia].
  cbn. nia.
Qed.

Lemma Radd_within a b c d x y :
  0 <= a -> 0 <= c -> b + d < 2 ^ 53 -> within a b x -> within c d y -> within (a + c) (b + d) (Radd x y).
Proof.
  intros Ha Hc Hbd Hx Hy. pose proof (within_nonneg _ _ _ Hx). pose proof (within_nonneg _ _ _ Hy).
  destruct x as [[]| | |[] mx ex], y as [[]| | |[] my ey]; try done; cbn [within] in Hx, Hy; try (cbn; nia).
  destruct Hx as [Hex Hx], Hy as [Hey Hy]. unfold Radd. cbn [SFadd cond_Zopp].
  apply normalize_within; try lia.
  pose proof (align_within a b mx ex (Z.min ex ey)). pose proof (align_within c d my ey (Z.min ex ey)). lia.
Qed.

Lemma Rsub_within a b c d x y :
  0 <= a - d -> b < 2 ^ 53 -> 0 <= c -> within a b x -> within c d y -> within (a - d) (b - c) (Rsub x y).
Proof.
  intros Had Hb Hc Hx Hy. pose proof (within_nonneg _ _ _ Hx). pose proof (within_nonneg _ _ _ Hy).
  assert (c <= d) by (destruct y as [| | |[] m e]; try done; cbn in Hy; [lia|]; assert (0 < 2 ^ (- e)) by lia; nia).
  assert (a <= b) by (destruct x as [| | |[] m e]; try done; cbn in Hx; [lia|]; assert (0 < 2 ^ (- e)) by lia; nia).
  destruct x as [[]| | |[] mx ex], y as [[]| | |[] my ey]; try done; cbn [within] in Hx, Hy; try (cbn; nia).
  destruct Hx as [Hex Hx], Hy as [Hey Hy]. unfold Rsub. cbn [SFsub cond_Zopp].
  apply normalize_within; try lia.
  pose proof (align_within a b mx ex (Z.min ex ey)). pose proof (align_within c d my ey (Z.min ex ey)). lia.
Qed.

(** Truncation of a value between two integers. *)
Lemma floor_within lo hi x :
  0 <= lo -> hi < 2 ^ 53 -> within lo hi x -> exists i, floor_to_u64 x = Ok i /\ lo <= i <= hi.
Proof.
  intros Hlo Hhi. destruct x as [| | |[] m e]; try done; [intros; exists 0; done|]. intros [He Hx].
  set (t := Zpos m / 2 ^ (- e)). assert (0 < 2 ^ (- e)) by lia.
  assert (lo <= t <= hi) as Ht.
  { split; [apply Z.div_le_lower_bound; lia|]. apply Z.div_le_upper_bound; lia. }
  exists t. split; [|done]. apply Real_to_u64_finite; [|lia]. destruct (decide (e = 0)) as [->|].
  - left. split; [done|]. unfold t. cbn. rewrite Z.div_1_r. lia.
  - right. split; [lia | done].
Qed.

End Rounding.
Export Rounding.
