(* ===== verification/RandomDistribution.v ===== *)
(** * RandomDistribution: the generators behind drops and corruption

    Models src/E/E_RandomDistribution.cpp and
    include/E/E_RandomDistribution.hpp.  [std::default_random_engine],
    [std::uniform_real_distribution], [exp] and [log] are implementation
    defined, so they are the parameters of the class [RandomEngine]; what the
    sources compute from their results is modelled exactly, in binary64. *)

From S2P Require Import Prelude Real Rounding.
From Stdlib Require Import SpecFloat.

(** The library functions the sources call: a draw of
    [std::uniform_real_distribution<Real>(min, max)] on an engine state, the
    seeding constructor of the engine, and [libm]'s [exp] and [log]. *)
Class RandomEngine := {
  engine : Type;
  engine_seed : Z -> engine;
  uniform_real : Real -> Real -> engine -> Real * engine;
  libm_exp : Real -> Real;
  libm_log : Real -> Real;
}.

(** What the standard promises of [std::uniform_real_distribution<Real>(lo, hi)]:
    a draw is not below [lo] and not above [hi]. *)
Class RandomEngineLaws `{RE : RandomEngine} : Prop := {
  uniform_real_range lo hi g :
    0 <= lo <= hi -> hi < 2 ^ 53 -> within lo hi (fst (uniform_real (Real_of_Z lo) (Real_of_Z hi) g));
}.

Module RandomDistribution.
Section WithEngine.
Context {RE : RandomEngine}.

(** The subclasses of [RandomDistribution]. *)
Inductive Distribution :=
| UniformDistribution
| MinDistribution
| MaxDistribution
| ExpDistribution (averageLocation : Real)
| LinearDistribution.

Definition Rone : Real := Real_of_Z 1.
Definition Rzero : Real := Real_of_Z 0.

(** [std::min(a, b)] is [b < a ? b : a]. *)
Definition Rmin (a b : Real) : Real := if Rltb b a then b else a.

Definition nextDistribution (d : Distribution) (min max : Real) (g : engine) : Real * engine :=
  match d with
  | UniformDistribution => uniform_real min max g
  | MinDistribution => (min, g)
  | MaxDistribution => (max, g)
  | ExpDistribution averageLocation =>
      let lambda := Rdiv Rone (Rmul (Rsub max min) averageLocation) in
      let '(x, g) := uniform_real (libm_exp (SFopp (Rdiv Rone averageLocation))) Rone g in
      (Rmin (Radd min (Rdiv (SFopp (libm_log x)) lambda)) max, g)
  | LinearDistribution =>
      let '(uniform, g) := uniform_real Rzero Rone g in
      (Radd min (Rmul (Rsub max min) (Rsqrt uniform)), g)
  end.

(** The first loop of [distribute]: the drawn values and their sum. *)
Fixpoint draw_loop (d : Distribution) (count : nat) (total : Real) (g : engine)
  (temp : list Real) (sum : Real) : list Real * Real * engine :=
  match count with
  | O => (temp, sum, g)
  | S count =>
      let '(val, g) := nextDistribution d Rzero total g in
      draw_loop d count total g (temp ++ [val]) (Radd sum val)
  end.

Definition distribute (d : Distribution) (count : nat) (total : Real) (g : engine)
  : list Real * engine :=
  let '(temp, sum, g) := draw_loop d count total g [] Rzero in
  let regulation := Rdiv total sum in
  ((fun item => Rmul item regulation) <$> temp, g).

(** ** Lemmas *)

Lemma draw_loop_min count total g temp :
  draw_loop MinDistribution count total g temp Rzero =
  (temp ++ replicate count Rzero, Rzero, g).
Proof.
  revert temp. induction count as [|n IH]; intros temp; cbn [draw_loop nextDistribution].
  - by rewrite app_nil_r.
  - change (Radd Rzero Rzero) with Rzero. rewrite IH, <- app_assoc. done.
Qed.

Lemma draw_loop_length d count total g temp sum :
  length (draw_loop d count total g temp sum).1.1 = (length temp + count)%nat.
Proof.
  revert g temp sum. induction count as [|n IH]; intros g temp sum; cbn [draw_loop]; [cbn; lia|].
  destruct (nextDistribution _ _ _ _) as [v g']. rewrite IH, length_app. cbn. lia.
Qed.

(** Draws stay between the bounds they are asked for, after all roundings;
    [ExpDistribution] is not among them because it depends on [libm]. *)
Definition closed_form (d : Distribution) : bool :=
  match d with ExpDistribution _ => false | _ => true end.

Lemma draw_within {RL : RandomEngineLaws} d lo hi g :
  closed_form d = true -> 0 <= lo <= hi -> hi < 2 ^ 53 ->
  within lo hi (fst (nextDistribution d (Real_of_Z lo) (Real_of_Z hi) g)).
Proof.
  intros Hd Hlo Hhi. pose proof (within_of_Z lo ltac:(lia)) as Hl. pose proof (within_of_Z hi ltac:(lia)) as Hh.
  destruct d; cbn [nextDistribution fst] in *; [apply uniform_real_range; lia| | |done|].
  1: eapply within_mono; [exact Hl|lia|lia].
  1: eapply within_mono; [exact Hh|lia|lia].
  pose proof (uniform_real_range 0 1 g ltac:(lia) ltac:(lia)) as Hu.
  change (Real_of_Z 0) with Rzero in Hu. change (Real_of_Z 1) with Rone in Hu.
  destruct (uniform_real Rzero Rone g) as [u g']. cbn [fst] in *.
  assert (within 0 1 (Rsqrt u)) as Hs by (apply Rsqrt_within; [lia..|exact Hu]).
  assert (within (hi - lo) (hi - lo) (Rsub (Real_of_Z hi) (Real_of_Z lo))) as Hw by (apply Rsub_within; done || lia).
  pose proof (Rmul_within (hi - lo) (hi - lo) 0 1 _ _ ltac:(lia) ltac:(lia) ltac:(lia) Hw Hs) as Hm.
  pose proof (Radd_within lo lo ((hi - lo) * 0) ((hi - lo) * 1) _ _ ltac:(lia) ltac:(lia) ltac:(lia) Hl Hm) as Ha.
  eapply within_mono; [exact Ha|lia|lia].
Qed.

(** ** Properties *)

(** C36: a draw of the uniform, minimum, maximum and linear distributions
    between two integers below [2 ^ 53], computed in double precision with all
    its roundings, converts to an integer between the two (both included, so
    that the clamp in [Link::sendPacket] is needed). *)
Theorem draw_in_range {RL : RandomEngineLaws} d lo hi g :
  closed_form d = true -> 0 <= lo <= hi -> hi < 2 ^ 53 ->
  exists i, floor_to_u64 (fst (nextDistribution d (Real_of_Z lo) (Real_of_Z hi) g)) = Ok i /\ lo <= i <= hi.
Proof. intros Hd Hlo Hhi. apply floor_within; [lia..|]. by apply draw_within. Qed.


(** [distribute] always returns [count] shares; with [MinDistribution]
    every share of a positive total is NaN, because the drawn sum is zero and
    the code divides by it. *)
Theorem distribute_shares d count total g v :
  length (fst (distribute d count total g)) = count /\
  (total = Real_of_Z v -> 0 < v < 2 ^ 53 ->
   fst (distribute MinDistribution count total g) = replicate count S754_nan).
Proof.
  split.
  - unfold distribute. pose proof (draw_loop_length d count total g [] Rzero) as H.
    destruct (draw_loop _ _ _ _ _ _) as [[temp sum] g']. cbn in *. by rewrite length_fmap.
  - intros -> Hv. unfold distribute. rewrite draw_loop_min. cbn [app fst].
    rewrite Real_of_Z_exact by done. unfold R. cbn [Rdiv SFdiv Rzero Real_of_Z binary_normalize].
    rewrite fmap_replicate. done.
Qed.

End WithEngine.

(** An engine that always draws the lower end of the range. *)
Definition low_engine : RandomEngine := {|
  engine := unit;
  engine_seed _ := tt;
  uniform_real a _ g := (a, g);
  libm_exp x := x;
  libm_log x := x;
|}.

Lemma low_engine_laws : RandomEngineLaws (RE := low_engine).
Proof. constructor. intros lo hi g Hlo Hhi. cbn. eapply within_mono; [apply within_of_Z|..]; lia. Qed.

Lemma draw_in_range_witness :
  exists i, floor_to_u64 (fst (nextDistribution (RE := low_engine) LinearDistribution (Real_of_Z 2) (Real_of_Z 5) tt)) = Ok i /\
    2 <= i <= 5.
Proof.
  apply (draw_in_range (RE := low_engine) (RL := low_engine_laws) LinearDistribution 2 5 tt); [reflexivity|lia|lia].
Defined.

End RandomDistribution.
Export RandomDistribution.
