(* ===== verification/System.v ===== *)
(** * System: the discrete-event scheduler

    Models src/E/E_System.cpp, src/E/E_Module.cpp and their headers
    include/E/E_System.hpp and include/E/E_Module.hpp: the virtual clock, the
    queue of delayed messages, message identifiers, cancellation, the set of
    ready runnables and the main loop [run].

    The scheduler is generic in the module objects [Mod], the messages [Msg],
    the runnable identities [Rid] and the static and heap data of the program
    that the scheduler itself never touches ([Env]).  Virtual calls go through the class
    [ModuleClass]; what the scheduler's theorems need of the modules is that
    they change the scheduler only through its own operations, which is the
    class [ModuleClassOk] (the callbacks' results are reachable by [sys_op]).

    A [TimerContainer] is shared by [timerQueue] and [activeTimer].  The only
    field written after construction is [canceled], through [activeTimer]; the
    model keeps the object in the queue and lets [activeTimer] name it by its
    unique id, so cancelling updates the queued object in place. *)

From S2P Require Import Prelude.
From stdpp Require Import sorting relations.
Local Open Scope Z_scope.

(** [Runnable::State]. *)
Inductive RState := CREATED | STARTING | READY | RUNNING | WAITING | TERMINATED.

#[global] Instance RState_eq_dec : EqDecision RState.
Proof. solve_decision. Defined.

(** The iteration order of [std::unordered_set<std::shared_ptr<Runnable>>] is
    unspecified: where a new element goes is a parameter. *)
Class UnorderedSet (Rid : Type) := { bucket_pos : Rid -> list Rid -> nat }.

Module System.
Section System.
Context {Mod Msg Rid Env : Type} `{EqDecision Rid} {US : UnorderedSet Rid}.

(** ** State *)

Record TimerContainer := mkTimer {
  tc_from : Z;
  tc_to : Z;
  canceled : bool;
  wakeup : Z;
  message : Msg;
  uuid : Z;
}.

Record System := mkSystem {
  runnableReady : list Rid;
  currentID : Z;
  currentTime : Z;
  registeredModule : gmap Z Mod;
  timerQueue : list TimerContainer;
  activeTimer : gset Z;
  activeUUID : gset Z;
  currentUUID : Z;
  nextModuleID : Z;  (* the static local of newModuleID *)
  statics : Env;  (* the program's other static and heap data *)
}.

(** [System::System()]. *)
Definition System_init (e : Env) : System := mkSystem [] 0 0 ∅ [] ∅ ∅ 0 1 e.

Definition set_ready (l : list Rid) (s : System) : System :=
  mkSystem l (currentID s) (currentTime s) (registeredModule s) (timerQueue s)
    (activeTimer s) (activeUUID s) (currentUUID s) (nextModuleID s) (statics s).
Definition set_time (t : Z) (s : System) : System :=
  mkSystem (runnableReady s) (currentID s) t (registeredModule s) (timerQueue s)
    (activeTimer s) (activeUUID s) (currentUUID s) (nextModuleID s) (statics s).
Definition set_modules (m : gmap Z Mod) (s : System) : System :=
  mkSystem (runnableReady s) (currentID s) (currentTime s) m (timerQueue s)
    (activeTimer s) (activeUUID s) (currentUUID s) (nextModuleID s) (statics s).
Definition set_queue (q : list TimerContainer) (s : System) : System :=
  mkSystem (runnableReady s) (currentID s) (currentTime s) (registeredModule s) q
    (activeTimer s) (activeUUID s) (currentUUID s) (nextModuleID s) (statics s).
Definition set_active (t u : gset Z) (c : Z) (s : System) : System :=
  mkSystem (runnableReady s) (currentID s) (currentTime s) (registeredModule s) (timerQueue s)
    t u c (nextModuleID s) (statics s).
Definition set_nextModuleID (n : Z) (s : System) : System :=
  mkSystem (runnableReady s) (currentID s) (currentTime s) (registeredModule s) (timerQueue s)
    (activeTimer s) (activeUUID s) (currentUUID s) n (statics s).
Definition set_statics (e : Env) (s : System) : System :=
  mkSystem (runnableReady s) (currentID s) (currentTime s) (registeredModule s) (timerQueue s)
    (activeTimer s) (activeUUID s) (currentUUID s) (nextModuleID s) e.

(** ** The priority queue *)

(** [TimerContainerLess]: [a] has lower priority than [b]. *)
Definition TimerContainerLess (a b : TimerContainer) : bool :=
  if negb (wakeup a =? wakeup b) then wakeup b <? wakeup a
  else uuid b <? uuid a.

(** [std::priority_queue] as the list of its elements in pop order:
    [top] is the head, [pop] the tail. *)
Fixpoint pq_push (c : TimerContainer) (q : list TimerContainer) : list TimerContainer :=
  match q with
  | [] => [c]
  | d :: q' => if TimerContainerLess d c then c :: q else d :: pq_push c q'
  end.

(** ** Operations *)

Definition getCurrentTime (s : System) : Z := currentTime s.

Definition isRegistered (m : Z) (s : System) : bool := bool_decide (is_Some (registeredModule s !! m)).

Definition allocateUUID (s : System) : Res (System * Z) :=
  let candidate := currentUUID s ⊞ 1 in
  if bool_decide (candidate ∉ activeUUID s)
  then Ok (set_active (activeTimer s) ({[candidate]} ∪ activeUUID s) candidate s, candidate)
  else Err (AssertFailed "System::allocateUUID").

Definition deallocateUUID (candidate : Z) (s : System) : System * bool :=
  if bool_decide (candidate ∉ activeUUID s) then (s, false)
  else (set_active (activeTimer s) (activeUUID s ∖ {[candidate]}) (currentUUID s) s, true).

Definition sendMessage (from to : Z) (m : Msg) (timeAfter : Z) (s : System)
  : Res (System * Z) :=
  '(s, uuid) ← allocateUUID s;
  let container := mkTimer from to false (getCurrentTime s ⊞ timeAfter) m uuid in
  let s := set_active ({[uuid]} ∪ activeTimer s) (activeUUID s) (currentUUID s) s in
  let s := set_queue (pq_push container (timerQueue s)) s in
  Ok (s, uuid).

(** [iter->second->canceled = true] on the container named [id]. *)
Definition mark_canceled (id : Z) (c : TimerContainer) : TimerContainer :=
  if uuid c =? id
  then mkTimer (tc_from c) (tc_to c) true (wakeup c) (message c) (uuid c)
  else c.

Definition cancelMessage (messageID : Z) (s : System) : System * bool :=
  if bool_decide (messageID ∈ activeTimer s)
  then (set_queue (mark_canceled messageID <$> timerQueue s) s, true)
  else (s, false).

(** [addRunnable] after its assertions (the caller provides the state). *)
Definition addRunnable (r : Rid) (state : RState) (s : System) : Res System :=
  _ ← assert_that (bool_decide (state = READY)) "System::addRunnable";
  if bool_decide (r ∈ runnableReady s) then Ok s
  else
    let k := Nat.min (bucket_pos r (runnableReady s)) (length (runnableReady s)) in
    Ok (set_ready (take k (runnableReady s) ++ r :: drop k (runnableReady s)) s).

Definition delRunnable (r : Rid) (s : System) : System :=
  set_ready (filter (fun x => x <> r) (runnableReady s)) s.

Definition newModuleID (s : System) : System * Z :=
  (set_nextModuleID (nextModuleID s ⊞ 1) s, nextModuleID s).

Definition addModule (m : Mod) (s : System) : Res (System * Z) :=
  let '(s, id) := newModuleID s in
  _ ← assert_that (bool_decide (registeredModule s !! id = None)) "System::addModule";
  Ok (set_modules (<[id := m]> (registeredModule s)) s, id).

(** ** Virtual calls *)

(** The callbacks of [Module] and [Runnable::wake], dispatched on the module
    (or runnable) identity. *)
Class ModuleClass := {
  messageReceived : Z -> Z -> Msg -> System -> Res (System * option Msg);
  messageFinished : Z -> Z -> Msg -> option Msg -> System -> Res System;
  messageCancelled : Z -> Z -> Msg -> System -> Res System;
  wake : Rid -> System -> Res (System * RState);
}.

(** [registeredModule[id]->...]: a missing id yields a null pointer. *)
Definition deref (id : Z) (s : System) : Res Mod := of_option NullDeref (registeredModule s !! id).

Section Run.
Context {MC : ModuleClass}.

(** One pass of the inner [for] loop over the ready set. *)
Definition wake_one (r : Rid) (s : System) : Res System :=
  '(s, next) ← wake r s;
  if bool_decide (next <> READY) then Ok (delRunnable r s) else Ok s.

Definition wake_pass (s : System) : Res System := foldM wake_one (runnableReady s) s.

(** [while (!runnableReady.empty())]. *)
Fixpoint wake_loop (fuel : nat) (s : System) : Res System :=
  match runnableReady s with
  | [] => Ok s
  | _ =>
      match fuel with
      | O => Err OutOfFuel
      | S fuel => s ← wake_pass s; wake_loop fuel s
      end
  end.

(** The body of the main loop for the popped container. *)
Definition process (c : TimerContainer) (s : System) : Res System :=
  let s := set_time (wakeup c) s in
  s ← (if negb (canceled c) then
         _ ← deref (tc_to c) s;
         '(s, ret) ← messageReceived (tc_to c) (tc_from c) (message c) s;
         _ ← deref (tc_from c) s;
         s ← messageFinished (tc_from c) (tc_to c) (message c) ret s;
         match ret with
         | Some m => _ ← deref (tc_to c) s; messageFinished (tc_to c) (tc_to c) m None s
         | None => Ok s
         end
       else
         _ ← deref (tc_from c) s;
         messageCancelled (tc_from c) (tc_to c) (message c) s);
  Ok (set_active (activeTimer s ∖ {[uuid c]}) (activeUUID s ∖ {[uuid c]}) (currentUUID s) s).

(** [run(till)].  The second component of the result is a ghost: the
    containers processed, in order. *)
Fixpoint run (fuel : nat) (till : Z) (s : System) : Res (System * list TimerContainer) :=
  match fuel with
  | O => Err OutOfFuel
  | S fuel =>
      s ← wake_loop fuel s;
      match timerQueue s with
      | [] => Ok (s, [])
      | top :: rest =>
          if (negb (till =? 0) && (till <? wakeup top))%bool then Ok (s, [])
          else
            s ← process top (set_queue rest s);
            '(s, log) ← run fuel till s;
            Ok (s, top :: log)
      end
  end.

End Run.

(** ** What modules may do to the scheduler

    [T] bounds the delays the modules use. *)

Inductive sys_op (T : Z) : System -> System -> Prop :=
| op_send from to m after s s' u :
    0 <= after <= T -> sendMessage from to m after s = Ok (s', u) -> sys_op T s s'
| op_cancel u s : sys_op T s (fst (cancelMessage u s))
| op_add r st s s' : addRunnable r st s = Ok s' -> sys_op T s s'
| op_del r s : sys_op T s (delRunnable r s)
| op_modules m s : dom m = dom (registeredModule s) -> sys_op T s (set_modules m s)
| op_statics e s : sys_op T s (set_statics e s).

Definition sys_ops (T : Z) : System -> System -> Prop := rtc (sys_op T).

(** The interface between the scheduler and the modules. *)
Class ModuleClassOk (MC : ModuleClass) (T : Z) := {
  received_ops to from m s s' r : messageReceived to from m s = Ok (s', r) -> sys_ops T s s';
  finished_ops from to m r s s' : messageFinished from to m r s = Ok s' -> sys_ops T s s';
  cancelled_ops from to m s s' : messageCancelled from to m s = Ok s' -> sys_ops T s s';
  wake_ops r s s' st : wake r s = Ok (s', st) -> sys_ops T s s';
  (** A runnable that has run is waiting or terminated, and running it does
      not make other runnables ready (see [Runnable]). *)
  wake_not_ready r s s' st : wake r s = Ok (s', st) -> st <> READY;
  wake_ready_set r s s' st : wake r s = Ok (s', st) -> runnableReady s' = runnableReady s;
}.

(** ** Invariant of the queue

    [cur] holds the identifier of the container being processed, if any. *)

Definition tc_lt (a b : TimerContainer) : Prop :=
  wakeup a < wakeup b \/ (wakeup a = wakeup b /\ uuid a < uuid b).

Definition uuids (q : list TimerContainer) : list Z := uuid <$> q.

Record queue_inv (cur : gset Z) (s : System) : Prop := {
  qi_sorted : StronglySorted tc_lt (timerQueue s);
  qi_nodup : NoDup (uuids (timerQueue s));
  qi_timer : activeTimer s = activeUUID s;
  qi_active : activeUUID s = list_to_set (uuids (timerQueue s)) ∪ cur;
  qi_cur : forall u, u ∈ cur -> u ∉ uuids (timerQueue s);
  qi_counter : is_u 64 (currentUUID s);
}.

(** The [n] identifiers allocated after the counter value [c]. *)
Definition ids (c : Z) (n : nat) : list Z := (fun i => c ⊞ Z.of_nat i) <$> seq 1 n.

(** *** The priority queue *)

Lemma TimerContainerLess_lt a b : TimerContainerLess a b = true <-> tc_lt b a.
Proof.
  unfold TimerContainerLess, tc_lt.
  destruct (wakeup a =? wakeup b) eqn:E; cbn; bool_to_prop; rewrite Z.ltb_lt; lia.
Qed.

Lemma TimerContainerLess_ge a b :
  uuid a <> uuid b -> TimerContainerLess a b = false -> tc_lt a b.
Proof.
  unfold TimerContainerLess, tc_lt. intros Hne.
  destruct (wakeup a =? wakeup b) eqn:E; cbn; intros; bool_to_prop; lia.
Qed.

Lemma tc_lt_trans a b c : tc_lt a b -> tc_lt b c -> tc_lt a c.
Proof. unfold tc_lt. lia. Qed.

Lemma pq_push_perm c q : pq_push c q ≡ₚ c :: q.
Proof.
  induction q as [|d q IH]; cbn; [done|]. destruct (TimerContainerLess d c); [done|].
  rewrite IH. apply Permutation_swap.
Qed.

Lemma pq_push_sorted c q :
  uuid c ∉ uuids q -> StronglySorted tc_lt q -> StronglySorted tc_lt (pq_push c q).
Proof.
  unfold uuids. induction q as [|d q IH]; cbn [pq_push fmap list_fmap]; intros Hn Hs.
  - repeat constructor.
  - apply not_elem_of_cons in Hn as [Hne Hn].
    apply StronglySorted_inv in Hs as [Hs Hd].
    destruct (TimerContainerLess d c) eqn:E.
    + apply TimerContainerLess_lt in E. constructor; [by constructor|]. constructor; [done|].
      eapply Forall_impl; [exact Hd|]. intros x Hx. cbn. by eapply tc_lt_trans.
    + constructor; [by apply IH|]. rewrite pq_push_perm. constructor; [|done].
      apply TimerContainerLess_ge; [congruence | done].
Qed.

(** *** Identifiers *)

Lemma length_ids c n : length (ids c n) = n.
Proof. unfold ids. by rewrite length_fmap, length_seq. Qed.

Lemma ids_S c n : ids c (S n) = (c ⊞ 1) :: ids (c ⊞ 1) n.
Proof.
  unfold ids. cbn [seq fmap list_fmap]. f_equal.
  rewrite <- (seq_shift n 1), <- list_fmap_compose.
  apply list_fmap_ext. intros _ i _. cbn [compose]. unfold wrap.
  rewrite Z.add_mod_idemp_l by lia. f_equal. lia.
Qed.

Lemma ids_app c n m : ids c (n + m) = ids c n ++ ids (c ⊞ Z.of_nat n) m.
Proof.
  revert c. induction n as [|n IH]; intros c.
  - cbn. unfold ids. apply list_fmap_ext. intros _ i _. cbn [compose]. unfold wrap.
    rewrite Z.add_0_r, Z.add_mod_idemp_l by lia. done.
  - cbn [Nat.add]. rewrite !ids_S, IH. cbn [app]. f_equal. f_equal. f_equal.
    unfold wrap. rewrite Z.add_mod_idemp_l by lia. f_equal. lia.
Qed.

Lemma ids_nowrap c n u :
  0 <= c -> c + Z.of_nat n < 2 ^ 64 -> u ∈ ids c n <-> c < u <= c + Z.of_nat n.
Proof.
  intros Hc Hn. unfold ids. rewrite list_elem_of_fmap. split.
  - intros (i & -> & Hi). apply elem_of_seq in Hi. rewrite wrap_small by (unfold is_u; lia). lia.
  - intros Hu. exists (Z.to_nat (u - c)). rewrite elem_of_seq, wrap_small by (unfold is_u; lia). lia.
Qed.

Lemma ids_NoDup c n : 0 <= c -> c + Z.of_nat n < 2 ^ 64 -> NoDup (ids c n).
Proof.
  intros Hc Hn. apply NoDup_fmap_2_strong; [|apply NoDup_seq].
  intros i j Hi Hj. apply elem_of_seq in Hi, Hj. rewrite !wrap_small by (unfold is_u; lia). lia.
Qed.

(** *** Operations and the invariant *)

Lemma sendMessage_inv from to m after s s' u :
  sendMessage from to m after s = Ok (s', u) ->
  (u ∉ activeUUID s) /\ u = currentUUID s ⊞ 1 /\ currentUUID s' = u /\
  timerQueue s' = pq_push (mkTimer from to false (currentTime s ⊞ after) m u) (timerQueue s) /\
  activeTimer s' = {[u]} ∪ activeTimer s /\ activeUUID s' = {[u]} ∪ activeUUID s /\
  currentTime s' = currentTime s /\ runnableReady s' = runnableReady s /\
  registeredModule s' = registeredModule s.
Proof.
  unfold sendMessage, allocateUUID. intros H. res_inv.
  destruct (bool_decide _) eqn:Eb; [|discriminate]. res_inv. bool_to_prop. done.
Qed.

Lemma mark_canceled_uuid id c : uuid (mark_canceled id c) = uuid c.
Proof. unfold mark_canceled. by destruct (_ =? _). Qed.

Lemma mark_canceled_wakeup id c : wakeup (mark_canceled id c) = wakeup c.
Proof. unfold mark_canceled. by destruct (_ =? _). Qed.

Lemma uuids_mark id q : uuids (mark_canceled id <$> q) = uuids q.
Proof.
  unfold uuids. rewrite <- list_fmap_compose. apply list_fmap_ext.
  intros _ c _. apply mark_canceled_uuid.
Qed.

Lemma sorted_mark id q :
  StronglySorted tc_lt q -> StronglySorted tc_lt (mark_canceled id <$> q).
Proof.
  induction 1 as [|c q Hs IH Hc]; cbn; constructor; [done|].
  apply Forall_fmap. eapply Forall_impl; [exact Hc|]. intros d Hd. unfold compose, tc_lt in *.
  by rewrite !mark_canceled_uuid, !mark_canceled_wakeup.
Qed.

Lemma no_send (q : list TimerContainer) c :
  is_u 64 c -> exists n, uuids q ≡ₚ uuids q ++ ids c n /\ c = c ⊞ Z.of_nat n.
Proof. intros H. exists 0%nat. cbn. by rewrite app_nil_r, Z.add_0_r, wrap_small. Qed.

(** What one operation does to the queue. *)
Lemma sys_op_queue T cur s s' :
  sys_op T s s' -> queue_inv cur s ->
  queue_inv cur s' /\ currentTime s' = currentTime s /\
  exists n, uuids (timerQueue s') ≡ₚ uuids (timerQueue s) ++ ids (currentUUID s) n /\
            currentUUID s' = currentUUID s ⊞ Z.of_nat n.
Proof.
  intros Hop [Hs Hn Ht Ha Hc Hw]. destruct Hop as [from to m after s s' u Hd Hsend|u s|r st s s' Hadd|r s|m s Hm|e s].
  - destruct (sendMessage_inv _ _ _ _ _ _ _ Hsend) as (Hfresh & Hu & Hcu & Hq & Hat & Hau & Htime & _ & _).
    set (c := mkTimer from to false _ m u) in *.
    assert (u ∉ uuids (timerQueue s)) as Hnew by (rewrite Ha in Hfresh; set_solver).
    assert (uuids (timerQueue s') ≡ₚ u :: uuids (timerQueue s)) as Hp
      by (rewrite Hq; unfold uuids; by rewrite pq_push_perm).
    split; [|split; [done|]].
    + constructor.
      * rewrite Hq. by apply pq_push_sorted.
      * rewrite Hp. by constructor.
      * rewrite Hat, Hau, Ht. done.
      * rewrite Hau, Ha. rewrite Hp. cbn. set_solver.
      * intros x Hx. rewrite Hp. apply not_elem_of_cons. split; [|auto].
        intros ->. apply Hfresh. rewrite Ha. set_solver.
      * rewrite Hcu, Hu. apply wrap_range. lia.
    + exists 1%nat. split; [|by rewrite Hcu]. rewrite Hp. change (ids (currentUUID s) 1) with [currentUUID s ⊞ 1].
      rewrite <- Hu. by rewrite Permutation_app_comm.
  - unfold cancelMessage. destruct (bool_decide _); cbn [fst].
    + split; [|split; [done|]].
      * constructor; cbn; rewrite ?uuids_mark; auto using sorted_mark.
      * exists 0%nat. cbn. rewrite uuids_mark, Z.add_0_r, wrap_small by done. by rewrite app_nil_r.
    + split; [done|]. split; [done|]. by apply no_send.
  - unfold addRunnable in Hadd. res_inv. destruct (bool_decide (r ∈ _)); res_inv;
      (split; [done|]); (split; [done|]); by apply no_send.
  - split; [done|]. split; [done|]. by apply no_send.
  - split; [done|]. split; [done|]. by apply no_send.
  - split; [done|]. split; [done|]. by apply no_send.
Qed.

Lemma sys_ops_queue T cur s s' :
  sys_ops T s s' -> queue_inv cur s ->
  queue_inv cur s' /\ currentTime s' = currentTime s /\
  exists n, uuids (timerQueue s') ≡ₚ uuids (timerQueue s) ++ ids (currentUUID s) n /\
            currentUUID s' = currentUUID s ⊞ Z.of_nat n.
Proof.
  unfold sys_ops. induction 1 as [s|s s1 s' Hop Hops IH]; intros Hi.
  - split; [done|]. split; [done|]. apply no_send, Hi.
  - destruct (sys_op_queue _ _ _ _ Hop Hi) as (Hi1 & Ht1 & n1 & Hp1 & Hc1).
    destruct (IH Hi1) as (Hi2 & Ht2 & n2 & Hp2 & Hc2).
    split; [done|]. split; [congruence|]. exists (n1 + n2)%nat. split.
    + by rewrite Hp2, Hp1, <- app_assoc, Hc1, ids_app.
    + rewrite Hc2, Hc1. unfold wrap. rewrite Z.add_mod_idemp_l by lia. f_equal. lia.
Qed.

(** *** The main loop *)

Section RunFacts.
Context {MC : ModuleClass} {T : Z} {MCok : ModuleClassOk MC T}.

Lemma deref_ok id s m : deref id s = Ok m -> registeredModule s !! id = Some m.
Proof. unfold deref. intros H. res_inv. done. Qed.

Lemma process_ops c s s' :
  process c s = Ok s' ->
  exists s1, sys_ops T (set_time (wakeup c) s) s1 /\
    s' = set_active (activeTimer s1 ∖ {[uuid c]}) (activeUUID s1 ∖ {[uuid c]}) (currentUUID s1) s1.
Proof.
  unfold process. intros H. res_inv.
  match goal with H : (if _ then _ else _) = Ok ?x |- _ => rename H into Hb; exists x end.
  split; [|done]. destruct (negb (canceled c)).
  - res_inv.
    repeat match goal with
    | H : messageReceived _ _ _ _ = Ok _ |- _ => apply received_ops in H
    | H : messageFinished _ _ _ _ _ = Ok _ |- _ => apply finished_ops in H
    end.
    destruct o as [m|]; res_inv.
    + match goal with H : messageFinished _ _ _ _ _ = Ok _ |- _ => apply finished_ops in H end.
      etrans; [eassumption|]. by etrans.
    + by etrans.
  - res_inv. by eapply cancelled_ops.
Qed.

Lemma delRunnable_ops r s : sys_ops T s (delRunnable r s).
Proof. apply rtc_once. constructor. Qed.

Lemma wake_one_ops r s s' :
  wake_one r s = Ok s' ->
  sys_ops T s s' /\ runnableReady s' = filter (fun x => x <> r) (runnableReady s).
Proof.
  unfold wake_one. intros H. res_inv.
  match goal with H : wake _ _ = Ok _ |- _ => rename H into Hw end.
  pose proof (wake_not_ready _ _ _ _ Hw). pose proof (wake_ready_set _ _ _ _ Hw) as Hr.
  rewrite bool_decide_eq_true_2 in H by done. res_inv. split.
  - etrans; [by eapply wake_ops | apply delRunnable_ops].
  - cbn. by rewrite Hr.
Qed.

Lemma filter_out_foldM (l : list Rid) s s' :
  foldM wake_one l s = Ok s' ->
  sys_ops T s s' /\ forall x, x ∈ runnableReady s' <-> (x ∈ runnableReady s /\ x ∉ l).
Proof.
  revert s. induction l as [|r l IH]; cbn; intros s H; res_inv.
  - split; [done|]. set_solver.
  - destruct (wake_one r s) as [s1|] eqn:E; [|discriminate].
    apply wake_one_ops in E as [Ho Hr]. destruct (IH _ H) as [Ho' Hx]. split; [by etrans|].
    intros x. rewrite Hx, Hr, list_elem_of_filter, not_elem_of_cons. tauto.
Qed.

Lemma wake_pass_ops s s' : wake_pass s = Ok s' -> sys_ops T s s' /\ runnableReady s' = [].
Proof.
  unfold wake_pass. intros H. apply filter_out_foldM in H as [Ho Hx]. split; [done|].
  destruct (runnableReady s') as [|x l] eqn:E; [done|].
  assert (x ∈ runnableReady s /\ x ∉ runnableReady s) as [? ?]; [|contradiction].
  apply Hx. left.
Qed.

Lemma wake_loop_ops fuel s s' : wake_loop fuel s = Ok s' -> sys_ops T s s' /\ runnableReady s' = [].
Proof.
  revert s. induction fuel as [|fuel IH]; intros s; cbn [wake_loop];
    destruct (runnableReady s) eqn:E; intros H; res_inv; try (by split; [constructor|]).
  match goal with H : wake_pass _ = Ok _ |- _ => apply wake_pass_ops in H as [Ho _] end.
  destruct (IH _ H) as [Ho' Hr]. split; [by etrans | done].
Qed.

(** Popping the top of the queue. *)
Lemma pop_inv s top rest :
  queue_inv ∅ s -> timerQueue s = top :: rest -> queue_inv {[uuid top]} (set_queue rest s).
Proof.
  intros [Hs Hn Ht Ha Hc Hw] Hq. rewrite Hq in *. cbn [uuids fmap list_fmap] in *.
  apply StronglySorted_inv in Hs as [Hs _]. apply NoDup_cons in Hn as [Hnin Hn].
  constructor; cbn; auto.
  - rewrite Ha. cbn. set_solver.
  - set_solver.
Qed.

Lemma set_time_inv cur t s : queue_inv cur s -> queue_inv cur (set_time t s).
Proof. intros [? ? ? ? ? ?]. by constructor. Qed.

Lemma finish_inv u s :
  queue_inv {[u]} s ->
  queue_inv ∅ (set_active (activeTimer s ∖ {[u]}) (activeUUID s ∖ {[u]}) (currentUUID s) s).
Proof.
  intros [Hs Hn Ht Ha Hc Hw]. constructor; cbn; auto.
  - by rewrite Ht.
  - rewrite Ha. specialize (Hc u). set_solver.
  - set_solver.
Qed.

Lemma process_queue c s s' :
  queue_inv {[uuid c]} s -> process c s = Ok s' ->
  queue_inv ∅ s' /\ currentTime s' = wakeup c /\
  exists n, uuids (timerQueue s') ≡ₚ uuids (timerQueue s) ++ ids (currentUUID s) n /\
            currentUUID s' = currentUUID s ⊞ Z.of_nat n.
Proof.
  intros Hi Hp. apply process_ops in Hp as (s1 & Hops & ->).
  destruct (sys_ops_queue _ _ _ _ Hops (set_time_inv _ (wakeup c) _ Hi)) as (Hi1 & Ht & n & Hq & Hc).
  split; [by apply finish_inv|]. split; [done|]. by exists n.
Qed.

(** One iteration of the main loop. *)
Lemma run_S fuel till s s' log :
  queue_inv ∅ s -> run (S fuel) till s = Ok (s', log) ->
  exists s1, sys_ops T s s1 /\ runnableReady s1 = [] /\ queue_inv ∅ s1 /\
  ((s' = s1 /\ log = [] /\
    (timerQueue s1 = [] \/ exists c q, timerQueue s1 = c :: q /\ till <> 0 /\ till < wakeup c)) \/
   (exists top rest s2 log', timerQueue s1 = top :: rest /\ (till <> 0 -> wakeup top <= till) /\
      log = top :: log' /\ queue_inv {[uuid top]} (set_queue rest s1) /\
      process top (set_queue rest s1) = Ok s2 /\ queue_inv ∅ s2 /\ run fuel till s2 = Ok (s', log'))).
Proof.
  intros Hi H. cbn [run] in H.
  destruct (wake_loop fuel s) as [s1|] eqn:Ew; [|discriminate]. cbn [mbind Res_bind] in H.
  apply wake_loop_ops in Ew as [Hops Hr].
  destruct (sys_ops_queue _ _ _ _ Hops Hi) as (Hi1 & _).
  exists s1. split; [done|]. split; [done|]. split; [done|].
  destruct (timerQueue s1) as [|top rest] eqn:Eq; [res_inv; left; auto|].
  destruct (_ && _)%bool eqn:Etill; res_inv.
  - bool_to_prop. left. split; [done|]. split; [done|]. right. eauto.
  - right. pose proof (pop_inv _ _ _ Hi1 Eq) as Hpop.
    match goal with H : process _ _ = Ok _ |- _ => pose proof (process_queue _ _ _ Hpop H) as (Hi2 & _) end.
    do 4 eexists. split; [done|]. split; [|split_and!; eauto].
    intros Ht. apply andb_false_iff in Etill as [E'|E']; bool_to_prop; [congruence | lia].
Qed.

(** Every message is accounted for: what was processed and what is left is
    what was queued and what was sent. *)
Lemma run_queue fuel till s s' log :
  queue_inv ∅ s -> run fuel till s = Ok (s', log) ->
  queue_inv ∅ s' /\ runnableReady s' = [] /\
  (timerQueue s' = [] \/ exists c q, timerQueue s' = c :: q /\ till <> 0 /\ till < wakeup c) /\
  exists n, uuids log ++ uuids (timerQueue s') ≡ₚ uuids (timerQueue s) ++ ids (currentUUID s) n /\
            currentUUID s' = currentUUID s ⊞ Z.of_nat n.
Proof.
  revert s s' log. induction fuel as [|fuel IH]; intros s s' log Hi H; [discriminate|].
  destruct (run_S _ _ _ _ _ Hi H) as (s1 & Hops & Hr & Hi1 & Hcase).
  destruct (sys_ops_queue _ _ _ _ Hops Hi) as (_ & _ & n1 & Hp1 & Hc1).
  destruct Hcase as [(-> & -> & Hend)|(top & rest & s2 & log' & Eq & _ & -> & Hpop & Hproc & Hi2 & Hrun)];
    [by eauto 10|].
  apply (process_queue _ _ _ Hpop) in Hproc as (_ & _ & n2 & Hp2 & Hc2).
  apply (IH _ _ _ Hi2) in Hrun as (Hi3 & Hr3 & Hend & n3 & Hp3 & Hc3).
  split; [done|]. split; [done|]. split; [done|]. exists (n1 + n2 + n3)%nat.
  cbn [timerQueue set_queue currentUUID] in *. rewrite Eq in Hp1.
  assert (currentUUID s2 = currentUUID s ⊞ Z.of_nat (n1 + n2)) as Hc12.
  { rewrite Hc2, Hc1. unfold wrap. rewrite Z.add_mod_idemp_l by lia. f_equal. lia. }
  split.
  - rewrite !ids_app, <- Hc12, <- Hc1. cbn [uuids fmap list_fmap app] in *. unfold uuids in *.
    rewrite Hp3, Hp2. rewrite !app_assoc, <- Hp1. done.
  - rewrite Hc3, Hc12. unfold wrap. rewrite Z.add_mod_idemp_l by lia. f_equal. lia.
Qed.

(** *** Order of delivery

    [ordered k s]: every queued container comes after the key [k], a pair of
    a time (the current one) and an identifier already handed out. *)

Definition key_lt (k : Z * Z) (c : TimerContainer) : Prop :=
  fst k < wakeup c \/ (fst k = wakeup c /\ snd k < uuid c).

Definition ordered (k : Z * Z) (s : System) : Prop :=
  currentTime s = fst k /\ 0 <= fst k /\ snd k <= currentUUID s /\
  Forall (fun c => key_lt k c /\ uuid c <= currentUUID s) (timerQueue s).

(** How far the identifier counter will move, read off the queue lengths. *)
Definition grown (s s' : System) : Z :=
  Z.of_nat (length (timerQueue s')) - Z.of_nat (length (timerQueue s)).

Lemma queue_length q q' c n : uuids q' ≡ₚ uuids q ++ ids c n -> length q' = (length q + n)%nat.
Proof.
  intros H. apply Permutation_length in H. unfold uuids in H.
  by rewrite length_app, !length_fmap, length_ids in H.
Qed.

Lemma sys_ops_grown cur s s' :
  sys_ops T s s' -> queue_inv cur s ->
  0 <= grown s s' /\ (currentUUID s + grown s s' < 2 ^ 64 -> currentUUID s' = currentUUID s + grown s s').
Proof.
  intros Hops Hi. destruct (sys_ops_queue _ _ _ _ Hops Hi) as (_ & _ & n & Hp & Hc).
  apply queue_length in Hp. unfold grown. split; [lia|]. intros Hb. rewrite Hc.
  pose proof (qi_counter _ _ Hi) as Hw. unfold is_u in Hw. rewrite wrap_small by (unfold is_u; lia). lia.
Qed.

(** If the counter does not wrap over a whole run, it does not wrap in any of
    the parts of its first iteration. *)
Lemma run_S_bounds fuel till s s1 s2 s' top rest log' :
  queue_inv ∅ s -> sys_ops T s s1 -> timerQueue s1 = top :: rest ->
  queue_inv {[uuid top]} (set_queue rest s1) -> process top (set_queue rest s1) = Ok s2 ->
  queue_inv ∅ s2 -> run fuel till s2 = Ok (s', log') ->
  currentUUID s + Z.of_nat (length (top :: log')) + grown s s' < 2 ^ 64 ->
  currentUUID s + grown s s1 < 2 ^ 64 /\
  currentUUID s1 + grown (set_queue rest s1) s2 < 2 ^ 64 /\
  currentUUID s2 + Z.of_nat (length log') + grown s2 s' < 2 ^ 64.
Proof.
  intros Hi Hops Eq Hpop Hproc Hi2 Hrun Hc.
  destruct (sys_ops_grown _ _ _ Hops Hi) as [Hg1 Hu1].
  apply process_ops in Hproc as (s3 & Hops3 & E2).
  destruct (sys_ops_grown _ _ _ Hops3 (set_time_inv _ _ _ Hpop)) as [Hg2 Hu2].
  pose proof (run_queue _ _ _ _ _ Hi2 Hrun) as (_ & _ & _ & n3 & Hp3 & _).
  apply Permutation_length in Hp3. unfold uuids in Hp3.
  rewrite !length_app, length_ids, !length_fmap in Hp3. subst s2. unfold grown in *.
  cbn [timerQueue set_time set_queue set_active currentUUID length] in *. rewrite Eq in *.
  cbn [length] in *. lia.
Qed.

Lemma sys_op_ordered cur k s s' :
  sys_op T s s' -> queue_inv cur s -> ordered k s ->
  currentUUID s + grown s s' < 2 ^ 64 -> fst k + T < 2 ^ 64 -> ordered k s'.
Proof.
  intros Hop Hi (Ht & H0 & Hu & Hall) Hc HT.
  destruct Hop as [from to m after s s' u Hd Hsend|u s|r st s s' Hadd|r s|m s Hm|e s].
  - destruct (sendMessage_inv _ _ _ _ _ _ _ Hsend) as (Hfresh & Eu & Hcu & Hq & _ & _ & Htime & _ & _).
    unfold grown in Hc. rewrite Hq, pq_push_perm in Hc. cbn [length] in Hc.
    pose proof (qi_counter _ _ Hi) as Hw. unfold is_u in Hw.
    assert (u = currentUUID s + 1) as Eu' by (rewrite Eu; apply wrap_small; unfold is_u; lia).
    split; [congruence|]. split; [done|]. split; [lia|]. rewrite Hq, pq_push_perm. constructor.
    + unfold key_lt. cbn. rewrite wrap_small by (unfold is_u; lia). lia.
    + eapply Forall_impl; [exact Hall|]. cbn. intros c [? ?]. split; [done | lia].
  - unfold cancelMessage. destruct (bool_decide _); cbn [fst]; [|done].
    repeat split; auto. cbn. apply Forall_fmap. eapply Forall_impl; [exact Hall|].
    intros c [? ?]. unfold key_lt, compose in *. by rewrite mark_canceled_uuid, mark_canceled_wakeup.
  - unfold addRunnable in Hadd. res_inv. destruct (bool_decide (r ∈ _)); res_inv; done.
  - done.
  - done.
  - done.
Qed.

Lemma sys_ops_ordered cur k s s' :
  sys_ops T s s' -> queue_inv cur s -> ordered k s ->
  currentUUID s + grown s s' < 2 ^ 64 -> fst k + T < 2 ^ 64 -> ordered k s'.
Proof.
  unfold sys_ops. induction 1 as [s|s s1 s' Hop Hops IH]; intros Hi Ho Hc HT; [done|].
  destruct (sys_op_queue _ _ _ _ Hop Hi) as (Hi1 & _ & n1 & Hp1 & Hc1).
  destruct (sys_ops_queue _ _ _ _ Hops Hi1) as (_ & _ & n2 & Hp2 & _).
  apply queue_length in Hp1, Hp2. unfold grown in *. pose proof (qi_counter _ _ Hi) as Hw. unfold is_u in Hw.
  assert (currentUUID s1 = currentUUID s + Z.of_nat n1) as E
    by (rewrite Hc1; apply wrap_small; unfold is_u; lia).
  apply IH; auto; [|lia]. eapply sys_op_ordered; eauto. unfold grown. lia.
Qed.

(** Dispatching the top moves the key to it. *)
Lemma pop_ordered k s top rest :
  ordered k s -> queue_inv ∅ s -> timerQueue s = top :: rest ->
  ordered (wakeup top, uuid top) (set_time (wakeup top) (set_queue rest s)) /\ key_lt k top.
Proof.
  intros (Ht & H0 & Hu & Hall) Hi Hq. rewrite Hq in Hall.
  apply Forall_cons in Hall as [[Hk Hle] Hall]. split; [|done].
  pose proof (qi_sorted _ _ Hi) as Hs. rewrite Hq in Hs. apply StronglySorted_inv in Hs as [_ Hs].
  split; [done|]. split; [unfold key_lt in Hk; cbn; lia|]. split; [done|]. cbn.
  apply Forall_forall. intros c Hc. rewrite Forall_forall in Hs, Hall.
  split; [|apply Hall; done]. apply (Hs c Hc).
Qed.

Lemma key_lt_sorted k log :
  StronglySorted tc_lt log -> (forall c, head log = Some c -> key_lt k c) -> Forall (key_lt k) log.
Proof.
  intros Hs Hh. destruct log as [|c log]; [constructor|].
  apply StronglySorted_inv in Hs as [_ Hs]. specialize (Hh c eq_refl). constructor; [done|].
  eapply Forall_impl; [exact Hs|]. unfold tc_lt, key_lt in *. intros d. lia.
Qed.

Lemma run_ordered fuel till k s s' log :
  queue_inv ∅ s -> ordered k s -> run fuel till s = Ok (s', log) ->
  currentUUID s + Z.of_nat (length log) + grown s s' < 2 ^ 64 ->
  till <> 0 -> fst k <= till -> till + T < 2 ^ 64 ->
  StronglySorted tc_lt log /\ Forall (key_lt k) log /\ Forall (fun c => wakeup c <= till) log /\
  currentTime s' = default (fst k) (wakeup <$> last log).
Proof.
  revert k s s' log. induction fuel as [|fuel IH]; intros k s s' log Hi Ho H Hc Htill Hk HT; [discriminate|].
  destruct (run_S _ _ _ _ _ Hi H) as (s1 & Hops & Hr & Hi1 & Hcase).
  destruct (sys_ops_queue _ _ _ _ Hops Hi) as (_ & Ht1 & _).
  destruct Hcase as [(-> & -> & _)|(top & rest & s2 & log' & Eq & Hle & -> & Hpop & Hproc & Hi2 & Hrun)].
  { split; [constructor|]. repeat split; try constructor. rewrite Ht1. apply Ho. }
  destruct (run_S_bounds _ _ _ _ _ _ _ _ _ Hi Hops Eq Hpop Hproc Hi2 Hrun Hc) as (B1 & B2 & B3).
  assert (ordered k s1) as Ho1 by (eapply sys_ops_ordered; eauto; lia).
  destruct (pop_ordered _ _ _ _ Ho1 Hi1 Eq) as [Ho2 Hkt]. specialize (Hle Htill).
  assert (ordered (wakeup top, uuid top) s2) as Ho3.
  { apply process_ops in Hproc as (s3 & Hops3 & ->).
    assert (ordered (wakeup top, uuid top) s3) as Ho3; [|destruct Ho3 as (?&?&?&?); by repeat split].
    eapply sys_ops_ordered; [exact Hops3 | by apply set_time_inv | done | exact B2 | cbn; lia]. }
  destruct (IH _ _ _ _ Hi2 Ho3 Hrun) as (Hs & Hkl & Hb & Hlast); cbn [fst]; try lia.
  split; [constructor; [done|]; exact Hkl|]. split.
  { constructor; [done|]. eapply Forall_impl; [exact Hkl|]. unfold key_lt in *. cbn. intros d. lia. }
  split; [by constructor; auto|]. rewrite Hlast.
  destruct log' as [|d l']; [done|]. change (last (top :: d :: l')) with (last (d :: l')).
  destruct (last (d :: l')) eqn:El; [done|]. by apply last_None in El.
Qed.

(** *** Cancellation *)

Definition all_canceled (u : Z) (s : System) : Prop :=
  0 <= u <= currentUUID s /\ Forall (fun c => uuid c = u -> canceled c = true) (timerQueue s).

Lemma mark_canceled_keep id c : canceled c = true -> canceled (mark_canceled id c) = true.
Proof. unfold mark_canceled. by destruct (_ =? _). Qed.

Lemma sys_ops_canceled cur u s s' :
  sys_ops T s s' -> queue_inv cur s -> all_canceled u s ->
  currentUUID s + grown s s' < 2 ^ 64 -> all_canceled u s'.
Proof.
  unfold sys_ops. induction 1 as [s|s s1 s' Hop Hops IH]; intros Hi Ho Hc; [done|].
  destruct (sys_op_queue _ _ _ _ Hop Hi) as (Hi1 & _ & n1 & Hp1 & Hc1).
  destruct (sys_ops_queue _ _ _ _ Hops Hi1) as (_ & _ & n2 & Hp2 & _).
  apply queue_length in Hp1, Hp2. unfold grown in *. pose proof (qi_counter _ _ Hi) as Hw. unfold is_u in Hw.
  assert (currentUUID s1 = currentUUID s + Z.of_nat n1) as E
    by (rewrite Hc1; apply wrap_small; unfold is_u; lia).
  apply IH; auto; [|lia]. destruct Ho as [Hu Hall].
  destruct Hop as [from to m after s s1 u' Hd Hsend|u' s|r st s s1 Hadd|r s|m s Hm|e s]; try done.
  - destruct (sendMessage_inv _ _ _ _ _ _ _ Hsend) as (_ & Eu & Hcu & Hq & _).
    rewrite Hq, pq_push_perm in Hp1. cbn [length] in Hp1.
    split; [lia|]. rewrite Hq, pq_push_perm. constructor; [cbn; lia | done].
  - unfold cancelMessage. destruct (bool_decide _); cbn [fst]; [|done].
    split; [done|]. cbn. apply Forall_fmap. eapply Forall_impl; [exact Hall|].
    intros c Hc'. unfold compose. rewrite mark_canceled_uuid. auto using mark_canceled_keep.
  - unfold addRunnable in Hadd. res_inv. destruct (bool_decide (r ∈ _)); res_inv; done.
Qed.

Lemma run_canceled fuel till u s s' log :
  queue_inv ∅ s -> all_canceled u s -> run fuel till s = Ok (s', log) ->
  currentUUID s + Z.of_nat (length log) + grown s s' < 2 ^ 64 ->
  Forall (fun c => uuid c = u -> canceled c = true) log.
Proof.
  revert s s' log. induction fuel as [|fuel IH]; intros s s' log Hi Ho H Hc; [discriminate|].
  destruct (run_S _ _ _ _ _ Hi H) as (s1 & Hops & Hr & Hi1 & Hcase).
  destruct Hcase as [(-> & -> & _)|(top & rest & s2 & log' & Eq & Hle & -> & Hpop & Hproc & Hi2 & Hrun)];
    [constructor|].
  destruct (run_S_bounds _ _ _ _ _ _ _ _ _ Hi Hops Eq Hpop Hproc Hi2 Hrun Hc) as (B1 & B2 & B3).
  assert (all_canceled u s1) as [Hu1 Hall1] by (eapply sys_ops_canceled; eauto).
  rewrite Eq in Hall1. apply Forall_cons in Hall1 as [Htop Hall1].
  constructor; [done|]. eapply IH; eauto.
  apply process_ops in Hproc as (s3 & Hops3 & ->).
  assert (all_canceled u s3) as Ho3; [|destruct Ho3; by split].
  eapply sys_ops_canceled; [exact Hops3 | by apply set_time_inv | by split | exact B2].
Qed.

(** More fuel does not change the result of a run. *)
Lemma wake_loop_fuel fuel fuel' s s' :
  (fuel <= fuel')%nat -> wake_loop fuel s = Ok s' -> wake_loop fuel' s = Ok s'.
Proof.
  revert fuel' s. induction fuel as [|fuel IH]; intros [|fuel'] s Hf; cbn [wake_loop]; auto; try lia.
  - destruct (runnableReady s); [done | discriminate].
  - destruct (runnableReady s); [done|]. destruct (wake_pass s); cbn; [apply IH; lia | done].
Qed.

Lemma run_fuel fuel fuel' till s r :
  (fuel <= fuel')%nat -> run fuel till s = Ok r -> run fuel' till s = Ok r.
Proof.
  revert fuel' s r. induction fuel as [|fuel IH]; intros [|fuel'] s r Hf; cbn [run]; try (discriminate || lia).
  destruct (wake_loop fuel s) as [s1|] eqn:E; [|discriminate].
  rewrite (wake_loop_fuel fuel fuel' s s1 ltac:(lia) E). cbn [mbind Res_bind].
  destruct (timerQueue s1) as [|top rest]; [done|]. destruct (_ && _)%bool; [done|].
  destruct (process top (set_queue rest s1)) as [s2|]; cbn [mbind Res_bind]; [|done].
  destruct (run fuel till s2) as [r2|] eqn:E2; [|discriminate].
  by rewrite (IH fuel' s2 r2 ltac:(lia) E2).
Qed.

(** *** Rounds of the main loop

    Neither loop of [run] need end: modules may send for ever.  [round] is one
    complete iteration of the main loop, so that executions that do not return
    can be spoken of. *)

Inductive round (till : Z) (s : System) (top : TimerContainer) (s2 : System) : Prop :=
| round_intro s1 rest :
    wake_pass s = Ok s1 -> timerQueue s1 = top :: rest -> (till <> 0 -> wakeup top <= till) ->
    process top (set_queue rest s1) = Ok s2 -> round till s top s2.

Inductive rounds (till : Z) : System -> list TimerContainer -> System -> Prop :=
| rounds_nil s : rounds till s [] s
| rounds_cons s top s1 log s2 :
    round till s top s1 -> rounds till s1 log s2 -> rounds till s (top :: log) s2.

(** A callback of a module or the code of a runnable fails in the iteration
    that starts in [s]. *)
Definition callback_fails (till : Z) (e : Error) (s : System) : Prop :=
  wake_pass s = Err e \/
  exists s1 top rest, wake_pass s = Ok s1 /\ timerQueue s1 = top :: rest /\
    (till <> 0 -> wakeup top <= till) /\ process top (set_queue rest s1) = Err e.

(** Waking a runnable makes no other one ready, so the waking loop makes at
    most one pass. *)
Lemma wake_loop_pass fuel s : wake_loop (S fuel) s = wake_pass s.
Proof.
  cbn [wake_loop]. destruct (runnableReady s) eqn:E.
  - unfold wake_pass. by rewrite E.
  - destruct (wake_pass s) as [s1|] eqn:Ew; [|done]. cbn.
    apply wake_pass_ops in Ew as [_ Hr]. destruct fuel; cbn; by rewrite Hr.
Qed.

Lemma not_later till (c : TimerContainer) :
  (negb (till =? 0) && (till <? wakeup c))%bool = false -> till <> 0 -> wakeup c <= till.
Proof. intros [E|E]%andb_false_iff ?; bool_to_prop; [congruence | lia]. Qed.

Lemma round_queue till s top s2 :
  queue_inv ∅ s -> round till s top s2 ->
  queue_inv ∅ s2 /\ exists n, uuid top :: uuids (timerQueue s2) ≡ₚ uuids (timerQueue s) ++ ids (currentUUID s) n /\
    currentUUID s2 = currentUUID s ⊞ Z.of_nat n.
Proof.
  intros Hi [s1 rest Hw Hq _ Hp]. apply wake_pass_ops in Hw as [Hops _].
  destruct (sys_ops_queue _ _ _ _ Hops Hi) as (Hi1 & _ & n1 & Hp1 & Hc1).
  destruct (process_queue _ _ _ (pop_inv _ _ _ Hi1 Hq) Hp) as (Hi2 & _ & n2 & Hp2 & Hc2).
  cbn [timerQueue set_queue currentUUID] in *. split; [done|]. exists (n1 + n2)%nat.
  rewrite Hq in Hp1. split.
  - rewrite ids_app, <- Hc1. cbn [uuids fmap list_fmap app] in *. unfold uuids in *.
    rewrite Hp2, app_assoc, <- Hp1. done.
  - rewrite Hc2, Hc1. unfold wrap. rewrite Z.add_mod_idemp_l by lia. f_equal. lia.
Qed.

Lemma rounds_queue till s log s' :
  queue_inv ∅ s -> rounds till s log s' ->
  queue_inv ∅ s' /\ exists n, uuids log ++ uuids (timerQueue s') ≡ₚ uuids (timerQueue s) ++ ids (currentUUID s) n /\
    currentUUID s' = currentUUID s ⊞ Z.of_nat n.
Proof.
  intros Hi Hr. induction Hr as [s|s top s1 log s2 Hr _ IH].
  - split; [done|]. exists 0%nat. cbn. rewrite app_nil_r, Z.add_0_r.
    split; [done|]. symmetry. apply wrap_small, Hi.
  - destruct (round_queue _ _ _ _ Hi Hr) as (Hi1 & n1 & Hp1 & Hc1).
    destruct (IH Hi1) as (Hi2 & n2 & Hp2 & Hc2). split; [done|]. exists (n1 + n2)%nat. split.
    + rewrite ids_app, <- Hc1. cbn [uuids fmap list_fmap app] in *. unfold uuids in *.
      rewrite Hp2, !app_assoc, <- Hp1. done.
    + rewrite Hc2, Hc1. unfold wrap. rewrite Z.add_mod_idemp_l by lia. f_equal. lia.
Qed.

(** Fuel is used up by iterations only. *)
Lemma run_cases n till s :
  (exists s' log s0, run (S n) till s = Ok (s', log) /\ rounds till s log s0 /\ wake_pass s0 = Ok s') \/
  (exists s' log e, run (S n) till s = Err e /\ rounds till s log s' /\ callback_fails till e s') \/
  (exists s' log, rounds till s log s' /\ length log = n).
Proof.
  revert s. induction n as [|n IH]; intros s.
  { right. right. exists s, []. split; [constructor | done]. }
  destruct (wake_pass s) as [s1|e] eqn:Ew.
  2: { right. left. exists s, [], e. split; [|split; [constructor | by left]].
       cbn [run]. by rewrite wake_loop_pass, Ew. }
  assert (run (S (S n)) till s = match timerQueue s1 with
    | [] => Ok (s1, [])
    | top :: rest => if (negb (till =? 0) && (till <? wakeup top))%bool then Ok (s1, []) else
        s ← process top (set_queue rest s1); '(s, log) ← run (S n) till s; Ok (s, top :: log) end) as ->.
  { cbn [run]. by rewrite wake_loop_pass, Ew. }
  destruct (timerQueue s1) as [|top rest] eqn:Eq; [left; exists s1, [], s; eauto using rounds_nil|].
  destruct (_ && _)%bool eqn:Et; [left; exists s1, [], s; eauto using rounds_nil|].
  pose proof (not_later _ _ Et) as Hle.
  destruct (process top (set_queue rest s1)) as [s2|e] eqn:Ep; cbn [mbind Res_bind].
  2: { right. left. exists s, [], e. split; [done|]. split; [constructor|]. right. eauto 10. }
  assert (round till s top s2) as Hr by (econstructor; eauto).
  destruct (IH s2) as [(s' & log & s0 & -> & Hrs & Hw)|[(s' & log & e & -> & Hrs & Hf)|(s' & log & Hrs & <-)]].
  - left. exists s', (top :: log), s0. eauto using rounds.
  - right. left. exists s', (top :: log), e. eauto using rounds.
  - right. right. exists s', (top :: log). eauto using rounds.
Qed.

(** The identifiers of a run are distinct while the counter does not wrap. *)
Lemma run_ids_distinct s c n :
  queue_inv ∅ s -> c = currentUUID s -> c + Z.of_nat n < 2 ^ 64 ->
  Forall (fun x => uuid x <= c) (timerQueue s) -> NoDup (uuids (timerQueue s) ++ ids c n).
Proof.
  intros Hi -> Hn Hle. pose proof (qi_counter _ _ Hi) as Hw. unfold is_u in Hw.
  apply NoDup_app. split; [apply Hi|]. split; [|apply ids_NoDup; lia].
  intros u Hu Hin. apply ids_nowrap in Hin; [|lia|lia].
  apply list_elem_of_fmap in Hu as (x & -> & Hx). rewrite Forall_forall in Hle.
  specialize (Hle x Hx). lia.
Qed.

(** ** Properties *)

(** C1: for any modules that act on the scheduler only through its own
    operations, a run that returns leaves the queue invariant in place (sorted
    queue, distinct identifiers, [activeTimer] and [activeUUID] equal to the
    queued identifiers), leaves no runnable ready, stops only on an empty
    queue or a next event later than [till], and loses or duplicates nothing:
    the processed and the still queued messages are exactly the initially
    queued ones and the [n] sent during the run; while the identifier counter
    does not wrap, no message is processed twice; and more fuel gives the same
    result. *)
Theorem run_processes_each_message_once fuel till s s' log :
  queue_inv ∅ s -> run fuel till s = Ok (s', log) ->
  queue_inv ∅ s' /\ runnableReady s' = [] /\
  (timerQueue s' = [] \/ exists c q, timerQueue s' = c :: q /\ till <> 0 /\ till < wakeup c) /\
  (exists n, uuids log ++ uuids (timerQueue s') ≡ₚ uuids (timerQueue s) ++ ids (currentUUID s) n /\
     currentUUID s' = currentUUID s ⊞ Z.of_nat n /\
     (currentUUID s + Z.of_nat n < 2 ^ 64 ->
      Forall (fun c => uuid c <= currentUUID s) (timerQueue s) ->
      NoDup (uuids log ++ uuids (timerQueue s')))) /\
  (forall fuel', (fuel <= fuel')%nat -> run fuel' till s = Ok (s', log)).
Proof.
  intros Hi H. destruct (run_queue _ _ _ _ _ Hi H) as (Hi' & Hr & Hend & n & Hp & Hc).
  split; [done|]. split; [done|]. split; [done|]. split.
  - exists n. split; [done|]. split; [done|]. intros Hn Hle. rewrite Hp.
    by apply run_ids_distinct.
  - intros fuel' Hf. by eapply run_fuel.
Qed.

(** C5: events are totally ordered: when delays are at most [T] and
    [till + T] fits in 64 bits, the containers processed by [run(till)] are
    strictly increasing in (wake-up time, identifier), so the clock never goes
    back and messages due at the same time are delivered in the order they
    were sent; none is later than [till]; and the clock ends at the time of
    the last one. *)
Theorem run_total_order fuel till s s' log :
  queue_inv ∅ s -> run fuel till s = Ok (s', log) ->
  0 <= currentTime s <= till -> till <> 0 -> till + T < 2 ^ 64 ->
  Forall (fun c => currentTime s <= wakeup c /\ 0 <= uuid c <= currentUUID s) (timerQueue s) ->
  currentUUID s + Z.of_nat (length log) + grown s s' < 2 ^ 64 ->
  StronglySorted tc_lt log /\
  Forall (fun c => currentTime s <= wakeup c <= till) log /\
  currentTime s' = default (currentTime s) (wakeup <$> last log).
Proof.
  intros Hi H Ht H0 HT Hall Hb.
  assert (ordered (currentTime s, -1) s) as Ho.
  { pose proof (qi_counter _ _ Hi) as Hw. unfold is_u in Hw. split; [done|]. split; [cbn; lia|].
    split; [cbn; lia|]. eapply Forall_impl; [exact Hall|]. unfold key_lt. cbn. intros c. lia. }
  destruct (run_ordered _ _ _ _ _ _ Hi Ho H) as (Hs & Hk & Hle & Hlast); cbn; try lia.
  split; [done|]. split; [|done]. apply Forall_forall. intros c Hc.
  rewrite Forall_forall in Hk, Hle. specialize (Hk c Hc). specialize (Hle c Hc).
  unfold key_lt in Hk. cbn in *. lia.
Qed.


(** C6: the scheduler makes progress: for every bound [n], [run] either
    returns, having processed exactly the logged messages one per iteration,
    or fails with the error of a callback in the iteration that follows the
    logged ones, or has processed [n] messages; in each case nothing is lost or
    duplicated so far.  In particular, when callbacks do not fail and at most
    [n] messages are ever processed, [n + 2] units of fuel suffice for [run] to
    return. *)
Theorem run_progress n till s :
  queue_inv ∅ s ->
  (exists s' log, rounds till s log s' /\ queue_inv ∅ s' /\
    (exists k, uuids log ++ uuids (timerQueue s') ≡ₚ uuids (timerQueue s) ++ ids (currentUUID s) k) /\
    ((exists s1, run (S n) till s = Ok (s1, log) /\ wake_pass s' = Ok s1) \/
     (exists e, run (S n) till s = Err e /\ callback_fails till e s') \/
     length log = n)) /\
  ((forall log s', rounds till s log s' ->
      (length log <= n)%nat /\ forall e, ~ callback_fails till e s') ->
   exists s' log, run (S (S n)) till s = Ok (s', log)).
Proof.
  intros Hi. split.
  - destruct (run_cases n till s) as [(s1 & log & s' & Hrun & Hr & Hw)|[(s' & log & e & Hrun & Hr & Hf)|(s' & log & Hr & Hn)]];
      destruct (rounds_queue _ _ _ _ Hi Hr) as (Hi' & k & Hp & _); exists s', log; eauto 10.
  - intros Hall. destruct (run_cases (S n) till s) as [(s1 & log & s' & Hrun & _)|[(s' & log & e & _ & Hr & Hf)|(s' & log & Hr & Hn)]].
    + eauto.
    + by destruct (Hall _ _ Hr) as [_ []%(fun H => H e)].
    + destruct (Hall _ _ Hr) as [Hle _]. lia.
Qed.

(** *** Widths

    The unsigned 64-bit fields stay in range whatever delays and callbacks are
    used, and the ready set has no duplicates. *)

Definition typed_container (c : TimerContainer) : Prop := is_u 64 (wakeup c) /\ is_u 64 (uuid c).

Record well_typed (s : System) : Prop := {
  wt_time : is_u 64 (currentTime s);
  wt_counter : is_u 64 (currentUUID s);
  wt_next : is_u 64 (nextModuleID s);
  wt_modules : forall id, is_Some (registeredModule s !! id) -> is_u 64 id;
  wt_timers : forall u, u ∈ activeTimer s -> is_u 64 u;
  wt_uuids : forall u, u ∈ activeUUID s -> is_u 64 u;
  wt_queue : Forall typed_container (timerQueue s);
  wt_ready : NoDup (runnableReady s);
}.

Lemma init_typed e : well_typed (System_init e).
Proof. constructor; cbn; try done; try set_solver; [intros id [x Hx]; by rewrite lookup_empty in Hx | apply NoDup_nil_2]. Qed.

Lemma sendMessage_typed from to m after s s' u :
  sendMessage from to m after s = Ok (s', u) -> well_typed s -> well_typed s' /\ is_u 64 u.
Proof.
  unfold sendMessage, allocateUUID. intros H [W1 W2 W3 W4 W5 W6 W7 W8]. res_inv.
  destruct (bool_decide _) eqn:Eb; [|discriminate]. res_inv.
  assert (is_u 64 (currentUUID s ⊞ 1)) as Hu by (apply wrap_range; lia). split; [|done].
  constructor; cbn; try done.
  - set_solver.
  - set_solver.
  - rewrite pq_push_perm. constructor; [|done]. split; cbn; [apply wrap_range; lia | done].
Qed.

Lemma cancelMessage_typed u s : well_typed s -> well_typed (fst (cancelMessage u s)).
Proof.
  intros [W1 W2 W3 W4 W5 W6 W7 W8]. unfold cancelMessage. destruct (bool_decide _); constructor; cbn; try done.
  apply Forall_fmap. eapply Forall_impl; [exact W7|]. intros c. unfold compose, typed_container.
  by rewrite mark_canceled_uuid, mark_canceled_wakeup.
Qed.

Lemma addRunnable_typed r st s s' : addRunnable r st s = Ok s' -> well_typed s -> well_typed s'.
Proof.
  unfold addRunnable. intros H [W1 W2 W3 W4 W5 W6 W7 W8]. res_inv. destruct (bool_decide (r ∈ _)) eqn:E; res_inv.
  - by constructor.
  - bool_to_prop. constructor; cbn; try done. set (k := Nat.min _ _).
    rewrite <- (take_drop k (runnableReady s)) in W8, E.
    rewrite <- Permutation_middle. by constructor.
Qed.

Lemma delRunnable_typed r s : well_typed s -> well_typed (delRunnable r s).
Proof. intros [W1 W2 W3 W4 W5 W6 W7 W8]. constructor; cbn; try done. by apply NoDup_filter. Qed.

Lemma addModule_typed m s s' id : addModule m s = Ok (s', id) -> well_typed s -> well_typed s' /\ is_u 64 id.
Proof.
  unfold addModule, newModuleID. intros H [W1 W2 W3 W4 W5 W6 W7 W8]. res_inv. split; [|done].
  constructor; cbn; try done.
  - apply wrap_range. lia.
  - intros id' Hid. destruct (decide (id' = nextModuleID s)) as [->|Hne]; [done|]. rewrite lookup_insert_ne in Hid by done.
    by apply W4.
Qed.

Lemma sys_op_typed s s' : sys_op T s s' -> well_typed s -> well_typed s'.
Proof.
  intros [from to m after s0 s0' u _ Hs|u s0|r st s0 s0' Hadd|r s0|m s0 Hm|e s0] W.
  - by eapply sendMessage_typed.
  - by apply cancelMessage_typed.
  - by eapply addRunnable_typed.
  - by apply delRunnable_typed.
  - destruct W. constructor; cbn; try done. intros id Hid%elem_of_dom. rewrite Hm in Hid. by apply elem_of_dom in Hid; auto.
  - by destruct W; constructor.
Qed.

Lemma sys_ops_typed s s' : sys_ops T s s' -> well_typed s -> well_typed s'.
Proof. unfold sys_ops. induction 1; eauto using sys_op_typed. Qed.

Lemma process_typed c s s' : process c s = Ok s' -> typed_container c -> well_typed s -> well_typed s'.
Proof.
  intros (s1 & Hops & ->)%process_ops [Hw Hu] W. apply sys_ops_typed in Hops as [W1 W2 W3 W4 W5 W6 W7 W8].
  - constructor; cbn; try done; set_solver.
  - destruct W. by constructor.
Qed.

Lemma run_typed fuel till s s' log :
  run fuel till s = Ok (s', log) -> well_typed s -> well_typed s' /\ Forall typed_container log.
Proof.
  revert s s' log. induction fuel as [|fuel IH]; intros s s' log H W; [discriminate|]. cbn [run] in H.
  destruct (wake_loop fuel s) as [s1|] eqn:Ew; [|discriminate]. cbn [mbind Res_bind] in H.
  apply wake_loop_ops in Ew as [Hops _]. pose proof (sys_ops_typed _ _ Hops W) as W1.
  destruct (timerQueue s1) as [|top rest] eqn:Eq; [by res_inv|]. destruct (_ && _)%bool; [by res_inv|].
  pose proof (wt_queue _ W1) as Wq. rewrite Eq in Wq. apply Forall_cons in Wq as [Wt Wr].
  destruct (process top (set_queue rest s1)) as [s2|] eqn:Ep; [|discriminate]. cbn [mbind Res_bind] in H.
  destruct (run fuel till s2) as [[s3 log']|] eqn:Er; [|discriminate]. res_inv.
  apply process_typed in Ep; [|done|destruct W1; by constructor].
  destruct (IH _ _ _ Er Ep) as [W3 Wl]. split; [done|]. by constructor.
Qed.


End RunFacts.

End System.
Arguments System : clear implicits.
Arguments TimerContainer : clear implicits.
Arguments ModuleClass : clear implicits.
End System.

(** ** A concrete pair of modules

    Two modules bounce a counter: a positive message is answered by one that
    is smaller by one, five time units later.  They are the instance on which
    the theorems above are applied. *)
Module PingPong.
Import System.

#[local] Instance us : UnorderedSet Z := {| bucket_pos _ _ := 0%nat |}.

Definition received (to from m : Z) (s : System unit Z Z unit) : Res (System unit Z Z unit * option Z) :=
  if 0 <? m then '(s, _) ← sendMessage to from (m - 1) 5 s; Ok (s, None) else Ok (s, None).

#[local] Instance mc : ModuleClass unit Z Z unit := {|
  messageReceived := received;
  messageFinished _ _ _ _ s := Ok s;
  messageCancelled _ _ _ s := Ok s;
  wake _ s := Ok (s, WAITING);
|}.

#[local] Instance mc_ok : ModuleClassOk mc 5.
Proof.
  constructor; cbn; unfold received; intros; try (by res_inv; constructor); try (by res_inv).
  destruct (0 <? m); res_inv; [|constructor].
  apply rtc_once. eapply op_send; [|eassumption]. lia.
Qed.

Definition start : System unit Z Z unit :=
  mkSystem [] 0 0 {[1 := tt; 2 := tt]}
    [mkTimer 1 2 false 10 2 1; mkTimer 2 1 false 10 0 2] {[1; 2]} {[1; 2]} 2 3 tt.

Lemma start_inv : queue_inv ∅ start.
Proof.
  constructor; cbn.
  - repeat constructor; cbn; lia.
  - by apply (bool_decide_unpack _).
  - done.
  - by apply (bool_decide_unpack _).
  - set_solver.
  - done.
Qed.

Definition result : Res (list (Z * Z * Z)) :=
  match run 9 100 start with
  | Ok (_, log) => Ok (map (fun c => (wakeup c, uuid c, message c)) log)
  | Err e => Err e
  end.

Example result_value : result = Ok [(10, 1, 2); (10, 2, 0); (15, 3, 1); (20, 4, 0)].
Proof. vm_compute. reflexivity. Qed.

Lemma run_processes_each_message_once_witness :
  exists s' log, run 9 100 start = Ok (s', log) /\ timerQueue s' = [] /\
    exists n, uuids log ++ [] ≡ₚ [1; 2] ++ ids 2 n.
Proof.
  destruct (run 9 100 start) as [[s' log]|] eqn:E; [|vm_compute in E; discriminate].
  destruct (run_processes_each_message_once 9 100 start s' log start_inv E)
    as (_ & _ & _ & (n & Hp & _) & _).
  exists s', log. split; [reflexivity|].
  assert (timerQueue s' = []) as Hq by (vm_compute in E; by simplify_eq).
  split; [exact Hq|]. exists n. rewrite Hq in Hp. exact Hp.
Defined.

Lemma run_total_order_witness :
  exists s' log, run 9 100 start = Ok (s', log) /\ StronglySorted tc_lt log /\ currentTime s' = 20.
Proof.
  destruct (run 9 100 start) as [[s' log]|] eqn:E; [|vm_compute in E; discriminate].
  destruct (run_total_order 9 100 start s' log start_inv E) as (Hs & _ & _);
    [cbn; lia | lia | lia | repeat constructor; cbn; lia | | ].
  { vm_compute in E. simplify_eq. vm_compute. reflexivity. }
  exists s', log. split; [reflexivity|]. split; [exact Hs|]. vm_compute in E. by simplify_eq.
Defined.

Lemma start_typed : well_typed start.
Proof.
  constructor; cbn; try done; try set_solver.
  - intros id [x Hx]. apply lookup_insert_Some in Hx as [[<- _]|[_ Hx]]; [done|].
    by apply lookup_singleton_Some in Hx as [<- _].
  - intros u Hu. assert (u = 1 \/ u = 2) as [-> | ->] by set_solver; done.
  - intros u Hu. assert (u = 1 \/ u = 2) as [-> | ->] by set_solver; done.
  - repeat constructor; done.
  - apply NoDup_nil_2.
Qed.



(** The next round from a concrete state, by computation. *)
Ltac next_round H :=
  let Hr := fresh "Hr" in let Hrs := fresh "Hrs" in
  let Hw := fresh "Hw" in let Hq := fresh "Hq" in let Hp := fresh "Hp" in
  inversion H as [? | ? ? ? ? ? Hr Hrs]; subst; clear H;
  [ split; [cbn; lia | intros e [Hw|(? & ? & ? & Hw & Hq & _ & Hp)];
      vm_compute in Hw; simplify_eq; vm_compute in Hq; simplify_eq; vm_compute in Hp; discriminate]
  | destruct Hr as [? ? Hw Hq _ Hp]; vm_compute in Hw; simplify_eq;
    vm_compute in Hq; simplify_eq; vm_compute in Hp; simplify_eq; rename Hrs into H ].

Lemma start_rounds log s' :
  rounds 100 start log s' -> (length log <= 4)%nat /\ forall e, ~ callback_fails 100 e s'.
Proof. intros H. do 5 next_round H. Qed.

Lemma run_progress_witness : exists s' log, run 6 100 start = Ok (s', log).
Proof. destruct (run_progress 4 100 start start_inv) as [_ H]. apply H. exact start_rounds. Defined.

End PingPong.
