(* ===== verification/ModuleBase.v ===== *)
(** * ModuleBase: messages, processes and the methods of Module

    Models include/E/E_Module.hpp and src/E/E_Module.cpp, and the data that
    crosses module boundaries: the message classes of Wire, Link and Host, the
    system-call parameters of include/E/Networking/E_Host.hpp, and the
    application objects that run on their own threads.

    All classes derived from [Module::MessageBase] form one inductive type, so
    [typeid] and [dynamic_cast] are pattern matching. *)

From S2P Require Import Prelude Packet System.
From stdpp Require Import relations.
Local Open Scope Z_scope.

(** ** System calls *)

Inductive SystemCall :=
| SOCKET | CLOSE | READ | WRITE | CONNECT | LISTEN | ACCEPT | BIND
| GETSOCKNAME | GETPEERNAME
| NSLEEP | GETTIMEOFDAY.

#[global] Instance SystemCall_eq_dec : EqDecision SystemCall.
Proof. solve_decision. Defined.

(** [std::variant<void *, int8_t, ..., uint64_t>]: one constructor per
    alternative; a pointer is its address, [0] is [nullptr]. *)
Inductive Param :=
| P_ptr (a : Z)
| P_int8 (v : Z) | P_int16 (v : Z) | P_int32 (v : Z) | P_int64 (v : Z)
| P_uint8 (v : Z) | P_uint16 (v : Z) | P_uint32 (v : Z) | P_uint64 (v : Z).

(** [std::get<int>], [std::get<uint64_t>] and [std::get<void *>]. *)
Definition get_int (p : Param) : Res Z :=
  match p with P_int32 v => Ok v | _ => Err BadVariantAccess end.
Definition get_uint64 (p : Param) : Res Z :=
  match p with P_uint64 v => Ok v | _ => Err BadVariantAccess end.
Definition get_ptr (p : Param) : Res Z :=
  match p with P_ptr a => Ok a | _ => Err BadVariantAccess end.

(** The array has [max_param = 3] elements. *)
Record SystemCallParameter := mkParam {
  syscallNumber : SystemCall;
  params : Param * Param * Param;
}.

Definition param0 (p : SystemCallParameter) : Param := fst (fst (params p)).
Definition param1 (p : SystemCallParameter) : Param := snd (fst (params p)).
Definition param2 (p : SystemCallParameter) : Param := snd (params p).

(** A default-constructed variant holds its first alternative. *)
Definition unset : Param := P_ptr 0.

(** [std::any] timer payloads: the UUID that [DefaultSystemCall] stores, or a
    value of another type. *)
Inductive Any :=
| any_uuid (u : Z)
| any_other (type_name : string) (data : list Z).

(** [std::any_cast<UUID>]. *)
Definition any_cast_uuid (a : Any) : Res Z :=
  match a with any_uuid u => Ok u | any_other _ _ => Err BadAnyCast end.

(** ** Messages *)

(** [Wire::MessageType]. *)
Inductive WireMessageType := PACKET_TO_PORT | PACKET_FROM_PORT.

#[global] Instance WireMessageType_eq_dec : EqDecision WireMessageType.
Proof. solve_decision. Defined.

(** The classes derived from [MessageBase]: [Module::EmptyMessage],
    [Wire::Message], [Link::Message] (whose only type is [CHECK_QUEUE]) and
    [Host::Syscall], [Host::Return], [Host::PacketPass], [Host::Timer]. *)
Inductive Message :=
| EmptyMessage
| WireMessage (type : WireMessageType) (packet : Packet)
| CheckQueue (wireID : Z)
| Syscall (pid : Z) (param : SystemCallParameter)
| Return (pid : Z) (returnValue : Z)
| PacketPass (from to : option string) (packet : Packet)
| Timer (from : string) (payload : Any).

(** ** Applications

    What an application thread does between two interactions with the
    simulator: return from [E_Main], raise a system call and continue with its
    result, read the virtual clock, or read a [struct timeval] it owns. *)
Inductive Program :=
| Finish (returnValue : Z)
| DoSyscall (param : SystemCallParameter) (k : Z -> Program)
| DoGetTime (k : Z -> Program)
| DoLoadTimeval (addr : Z) (k : Z * Z -> Program).

(** A [SystemCallApplication]: its host's module id, [pid], [syscallRet], the
    [state] of its [Runnable] base and the code its thread runs when woken, as
    a function of [syscallRet]. *)
Record Application := mkApp {
  app_host : Z;
  app_pid : Z;
  syscallRet : Z;
  app_state : RState;
  app_code : Z -> Program;
}.

(** ** Static and heap data outside the scheduler

    The packet registry, the application objects (by object identity) and the
    [struct timeval] objects (by address, as seconds and microseconds). *)
Record Env := mkEnv {
  registry : Registry;
  applications : gmap Z Application;
  timevals : gmap Z (Z * Z);
}.

Definition initial_env : Env := mkEnv initial_registry ∅ ∅.

Module ModuleBase.
Import System.
Section ModuleBase.
Context {Mod : Type} {US : UnorderedSet Z}.
Abbreviation Sys := (System Mod Message Z Env).

(** [Module::sendMessage], [sendMessageSelf] and [cancelMessage], with [id]
    the module's own identifier. *)
Definition module_sendMessage (id to : Z) (m : Message) (timeAfter : Z) (s : Sys) : Res (Sys * Z) :=
  sendMessage id to m timeAfter s.

Definition sendMessageSelf (id : Z) (m : Message) (timeAfter : Z) (s : Sys) : Res (Sys * Z) :=
  module_sendMessage id id m timeAfter s.

Definition module_cancelMessage (timer : Z) (s : Sys) : Sys * bool := cancelMessage timer s.

Definition module_getCurrentTime (s : Sys) : Z := getCurrentTime s.

(** A caller that ignores the returned identifier. *)
Definition post (id to : Z) (m : Message) (timeAfter : Z) (s : Sys) : Res Sys :=
  '(s, _) ← module_sendMessage id to m timeAfter s; Ok s.

(** [EmptyMessage::operator==] after [dynamic_cast<EmptyMessage &>]: what the
    [messageFinished] of Wire, Link and Host assert about the response. *)
Definition assert_empty (response : Message) : Res unit :=
  match response with EmptyMessage => Ok tt | _ => Err BadCast end.

(** The response [run] passes to [messageFinished]. *)
Definition response_of (ret : option Message) : Message := default EmptyMessage ret.

(** ** Packet objects in the registry *)

Definition set_registry (r : Registry) (s : Sys) : Sys :=
  set_statics (mkEnv r (applications (statics s)) (timevals (statics s))) s.

Definition new_packet (size : nat) (s : Sys) : Res (Sys * Packet) :=
  '(r, q) ← Packet_new size (registry (statics s)); Ok (set_registry r s, q).

Definition clone_packet (p : Packet) (s : Sys) : Res (Sys * Packet) :=
  '(r, q) ← clone p (registry (statics s)); Ok (set_registry r s, q).

Definition destroy_packet (p : Packet) (s : Sys) : Sys :=
  set_registry (Packet_destroy p (registry (statics s))) s.

(** The destructor of a message: [Packet]s inside it are destroyed. *)
Definition destroy_message (m : Message) (s : Sys) : Sys :=
  match m with
  | WireMessage _ p | PacketPass _ _ p => destroy_packet p s
  | _ => s
  end.

(** [Module::getModuleName] is the (demangled) name the compiler gives the
    dynamic type: a parameter.  [System::getModuleName] looks a module up. *)
Definition getModuleName (type_name : Mod -> string) (moduleID : Z) (s : Sys) : string :=
  match registeredModule s !! moduleID with
  | Some m => type_name m
  | None => "Nill"
  end.

(** [System::~System]: the containers are released with their messages, then
    every module must be referenced by the system only ([use_count] is the
    reference count of its [std::shared_ptr]), or the program aborts. *)
Definition System_destroy (use_count : Z -> Z) (s : Sys) : Res Sys :=
  let s := set_active ∅ (activeUUID s) (currentUUID s) s in
  let s := set_queue [] (foldl (fun s c => destroy_message (message c) s) s (timerQueue s)) in
  if forallb (fun id => use_count id =? 1) (fst <$> map_to_list (registeredModule s)) then Ok s
  else Err (AssertFailed "System::~System").

(** ** What these operations do to the scheduler *)

Lemma post_inv id to m after s s' :
  post id to m after s = Ok s' ->
  let u := currentUUID s ⊞ 1 in
  (u ∉ activeUUID s) /\ currentUUID s' = u /\
  timerQueue s' = pq_push (mkTimer id to false (currentTime s ⊞ after) m u) (timerQueue s) /\
  activeTimer s' = {[u]} ∪ activeTimer s /\ activeUUID s' = {[u]} ∪ activeUUID s /\
  currentTime s' = currentTime s /\ registeredModule s' = registeredModule s /\
  runnableReady s' = runnableReady s /\ statics s' = statics s.
Proof.
  unfold post, module_sendMessage, sendMessage, allocateUUID, getCurrentTime. intros H.
  destruct (bool_decide _) eqn:E; res_inv; bool_to_prop. cbn. done.
Qed.

(** Identifiers above the counter are unused while the counter does not wrap. *)
Definition ids_below (s : Sys) : Prop :=
  0 <= currentUUID s /\ forall u, u ∈ activeUUID s -> u <= currentUUID s.

Lemma post_total id to m after (s : Sys) :
  ids_below s -> currentUUID s + 1 < 2 ^ 64 ->
  exists s', post id to m after s = Ok s' /\ ids_below s' /\ currentUUID s' = currentUUID s + 1.
Proof.
  intros [H0 Hb] Hc. unfold post, module_sendMessage, sendMessage, allocateUUID.
  assert (currentUUID s ⊞ 1 = currentUUID s + 1) as E by (apply wrap_small; unfold is_u; lia).
  rewrite E. rewrite bool_decide_eq_true_2 by (intros Hin; apply Hb in Hin; lia).
  eexists. split; [reflexivity|]. split; [|done]. split; cbn; [lia|].
  intros u Hu. apply elem_of_union in Hu as [->%elem_of_singleton|Hu]; [lia|]. apply Hb in Hu. lia.
Qed.

Lemma post_ops T id to m after s s' :
  0 <= after <= T -> post id to m after s = Ok s' -> sys_ops T s s'.
Proof.
  unfold post, module_sendMessage. intros Ha H. res_inv.
  apply rtc_once. by eapply op_send.
Qed.

(** Delays are taken modulo [2 ^ 64], so [2 ^ 64 - 1] bounds every delay. *)
Lemma sendMessage_op from to m after (s s' : Sys) u :
  sendMessage from to m after s = Ok (s', u) -> sys_ops (2 ^ 64 - 1) s s'.
Proof.
  intros H. apply rtc_once. eapply (op_send _ from to m (wrap 64 after) _ _ u).
  - pose proof (wrap_range 64 after ltac:(lia)) as Hr. unfold is_u in Hr. lia.
  - rewrite <- H. unfold sendMessage. destruct (allocateUUID s) as [[s1 u1]|]; [|done].
    cbn [mbind Res_bind]. unfold wrap. by rewrite Z.add_mod_idemp_r by lia.
Qed.

Lemma post_op id to m after (s s' : Sys) : post id to m after s = Ok s' -> sys_ops (2 ^ 64 - 1) s s'.
Proof. unfold post, module_sendMessage. intros H. res_inv. by eapply sendMessage_op. Qed.

Lemma set_registry_ops T r s : sys_ops T s (set_registry r s).
Proof. apply rtc_once, op_statics. Qed.

Lemma destroy_packet_ops T p s : sys_ops T s (destroy_packet p s).
Proof. apply set_registry_ops. Qed.

Lemma destroy_message_ops T m s : sys_ops T s (destroy_message m s).
Proof. destruct m; cbn; try apply rtc_refl; apply destroy_packet_ops. Qed.

Lemma clone_packet_ops T p s s' q : clone_packet p s = Ok (s', q) -> sys_ops T s s'.
Proof. unfold clone_packet. intros H. res_inv. apply set_registry_ops. Qed.

Lemma new_packet_inv n s s' q : new_packet n s = Ok (s', q) -> exists r, s' = set_registry r s.
Proof. unfold new_packet. intros H. res_inv. by eexists. Qed.

Lemma new_packet_ops T n s s' q : new_packet n s = Ok (s', q) -> sys_ops T s s'.
Proof. intros [r ->]%new_packet_inv. apply set_registry_ops. Qed.

Lemma sys_ops_trans T s1 s2 s3 : sys_ops (Mod:=Mod) (Msg:=Message) (Rid:=Z) (Env:=Env) T s1 s2 ->
  sys_ops T s2 s3 -> sys_ops T s1 s3.
Proof. unfold sys_ops. intros. by etrans. Qed.

Lemma clone_packet_inv p s s' q :
  clone_packet p s = Ok (s', q) ->
  buffer q = buffer p /\ exists r, s' = set_registry r s.
Proof.
  unfold clone_packet, clone, Packet_new. intros H. res_inv. split; [done|]. by eexists.
Qed.

(** *** Room for [n] more messages and one more packet *)

Definition live (n : Z) (s : Sys) : Prop :=
  ids_below s /\ currentUUID s + n < 2 ^ 64 /\ registry_ok (registry (statics s)).

Definition has_free_id (s : Sys) : Prop :=
  exists x, is_u 64 x /\ x ∉ packetUUIDSet (registry (statics s)).

Definition room (n : Z) (s : Sys) : Prop := live n s /\ has_free_id s.

Lemma live_le n n' s : n' <= n -> live n s -> live n' s.
Proof. intros Hn (H1 & H2 & H3). split; [done|]. split; [lia | done]. Qed.

Lemma post_live n id to m after s :
  live n s -> 1 <= n -> exists s', post id to m after s = Ok s' /\ live (n - 1) s'.
Proof.
  intros (Hi & Hc & Hr) Hn. destruct (post_total id to m after s Hi) as (s' & E & Hi' & Hc'); [lia|].
  exists s'. split; [done|]. destruct (post_inv _ _ _ _ _ _ E) as (_ & _ & _ & _ & _ & _ & _ & _ & Hst).
  split; [done|]. split; [lia|]. by rewrite Hst.
Qed.

Lemma destroy_live n p s : live n s -> live n (destroy_packet p s).
Proof. intros (Hi & Hc & Hr). split; [exact Hi|]. split; [exact Hc | exact Hr]. Qed.

Lemma destroy_room n p s : live n s -> is_u 64 (packetID p) -> room n (destroy_packet p s).
Proof.
  intros Hl Hp. split; [by apply destroy_live|]. exists (packetID p). split; [done|].
  unfold destroy_packet, Packet_destroy, freePacketUUID. cbn. set_solver.
Qed.

Lemma clone_room n p s :
  room n s -> exists r q, clone_packet p s = Ok (set_registry r s, q) /\
    buffer q = buffer p /\ is_u 64 (packetID q) /\ live n (set_registry r s).
Proof.
  intros [(Hi & Hc & Hr) (x & Hx & Hfree)]. pose proof (allocate_spec _ Hr) as Ha.
  unfold clone_packet, clone, Packet_new.
  destruct (allocatePacketUUID (registry (statics s))) as [[r u]|e].
  - destruct Ha as (_ & Hu & _ & Hst). cbn. eexists _, _. split; [reflexivity|].
    split; [done|]. split; [done|]. split; [done|]. split; [done|]. cbn.
    unfold registry_ok. rewrite Hst. apply wrap_range. lia.
  - destruct Ha as [_ Ha]. by apply Ha in Hx.
Qed.

(** *** The destructor *)

Definition packet_of (m : Message) : option Packet :=
  match m with WireMessage _ p | PacketPass _ _ p => Some p | _ => None end.

Definition pending_ids (q : list (TimerContainer Message)) : list Z :=
  omap (fun c => packetID <$> packet_of (message c)) q.

Lemma destroy_queue q (s : Sys) :
  let s' := foldl (fun s c => destroy_message (message c) s) s q in
  registeredModule s' = registeredModule s /\
  packetUUIDSet (registry (statics s')) = packetUUIDSet (registry (statics s)) ∖ list_to_set (pending_ids q).
Proof.
  revert s. induction q as [|c q IH]; intros s; cbn [foldl]; [split; [done|]; cbn; set_solver|].
  destruct (IH (destroy_message (message c) s)) as [E1 E2]. cbn zeta in *. rewrite E1, E2.
  unfold pending_ids. cbn [omap list_omap]. destruct (message c); cbn; split; done || set_solver.
Qed.

(** Destroying a system whose modules are not shared succeeds, whatever is
    still queued, and releases exactly the identifiers of the packets on their
    way; a module that is referenced elsewhere aborts the program. *)
Lemma System_destroy_releases use_count (s : Sys) :
  ((forall id, is_Some (registeredModule s !! id) -> use_count id = 1) ->
   exists s', System_destroy use_count s = Ok s' /\ timerQueue s' = [] /\
     packetUUIDSet (registry (statics s')) =
       packetUUIDSet (registry (statics s)) ∖ list_to_set (pending_ids (timerQueue s))) /\
  (forall id, is_Some (registeredModule s !! id) -> use_count id <> 1 ->
   System_destroy use_count s = Err (AssertFailed "System::~System")).
Proof.
  unfold System_destroy. set (s0 := set_active ∅ _ _ s).
  destruct (destroy_queue (timerQueue s) s0) as [E1 E2]. cbn zeta in *. set (s1 := foldl _ s0 _) in *.
  change (registeredModule (set_queue [] s1)) with (registeredModule s1). rewrite E1. change (registeredModule s0) with (registeredModule s).
  split.
  - intros H. replace (forallb _ _) with true; [eexists; split; [reflexivity|]; done|]. symmetry. apply forallb_forall.
    intros id [[i m] [-> Hin%elem_of_map_to_list]]%list_elem_of_In%list_elem_of_fmap. apply Z.eqb_eq, H. by eexists.
  - intros id [m Hm] Hne. replace (forallb _ _) with false; [done|]. symmetry. apply not_true_is_false.
    rewrite forallb_forall. intros H. apply Hne, Z.eqb_eq, H. apply list_elem_of_In, list_elem_of_fmap.
    exists (id, m). split; [done|]. by apply elem_of_map_to_list.
Qed.

End ModuleBase.
End ModuleBase.
Export ModuleBase.

#[export] Hint Resolve post_ops set_registry_ops destroy_packet_ops destroy_message_ops
  clone_packet_ops : kens.
