(* ===== verification/Wire.v ===== *)
(** * Wire: the two-ended delay line

    Models src/Networking/E_Wire.cpp and include/E/Networking/E_Wire.hpp.  A
    wire forwards each packet to its other end after the transmission delay of
    the packet (size over data rate, computed in binary64) and the propagation
    delay; with the speed limit on, a packet waits for the transmissions that
    are under way in its direction.  The abstract specification is a
    single-server queue per direction ([departures]). *)

From S2P Require Import Prelude Packet Real System ModuleBase.
From stdpp Require Import sorting relations.
Local Open Scope Z_scope.

Module Wire.
Import System.

Record Wire := mkWire {
  connected : Z * Z;
  nextAvailable : Z * Z;
  propagationDelay : Z;
  bps : Z;
  limit_speed : bool;
}.

(** Indexing the two-element arrays; index [1] is [true]. *)
Definition at_end {A} (i : bool) (p : A * A) : A := if i then snd p else fst p.
Definition set_end {A} (i : bool) (v : A) (p : A * A) : A * A :=
  if i then (fst p, v) else (v, snd p).

(** The default arguments of the constructor. *)
Definition default_propagationDelay : Z := 1000000.
Definition default_bps : Z := 1000000000.

Section Wire.
Context {Mod : Type} {US : UnorderedSet Z}.
Abbreviation Sys := (System Mod Message Z Env).

(** ** Operations *)

Definition Wire_new (left right propagationDelay bps : Z) (limit_speed : bool) (s : Sys) : Wire :=
  mkWire (left, right) (getCurrentTime s, getCurrentTime s) propagationDelay bps limit_speed.

Definition setSpeedLimit (do_limit : bool) (w : Wire) : Wire :=
  mkWire (connected w) (nextAvailable w) (propagationDelay w) (bps w) do_limit.
Definition setWireSpeed (b : Z) (w : Wire) : Wire :=
  mkWire (connected w) (nextAvailable w) (propagationDelay w) b (limit_speed w).
Definition getWireSpeed (w : Wire) : Z := bps w.
Definition setPropagationDelay (d : Z) (w : Wire) : Wire :=
  mkWire (connected w) (nextAvailable w) d (bps w) (limit_speed w).

(** The end a packet from [from] goes to; [None] when [from] is at neither end
    or the other end is not connected. *)
Definition destination (from : Z) (w : Wire) : option bool :=
  let d := if fst (connected w) =? from then Some true
           else if snd (connected w) =? from then Some false
           else None in
  match d with
  | Some i => if at_end i (connected w) =? 0 then None else Some i
  | None => None
  end.

Definition messageReceived (id from : Z) (m : Message) (w : Wire) (s : Sys) : Res (Wire * Sys) :=
  match m with
  | WireMessage type packet =>
      _ ← assert_that (bool_decide (type = PACKET_TO_PORT)) "Wire::messageReceived";
      match destination from w with
      | None => Ok (w, s)
      | Some d =>
          let current_time := getCurrentTime s in
          delay ← trans_delay (Z.of_nat (getSize packet)) (bps w);
          let available_time := at_end d (nextAvailable w) in
          let available_time := if available_time <? current_time then current_time
                                else available_time in
          let available_time := available_time ⊞ delay in
          let w := mkWire (connected w) (set_end d available_time (nextAvailable w))
                     (propagationDelay w) (bps w) (limit_speed w) in
          let fromWireMessage := WireMessage PACKET_FROM_PORT (Packet_copy packet) in
          s ← (if limit_speed w
               then post id (at_end d (connected w)) fromWireMessage
                      ((available_time ⊞ propagationDelay w) ⊟ current_time) s
               else post id (at_end d (connected w)) fromWireMessage (propagationDelay w) s);
          Ok (w, s)
      end
  | _ => Err BadCast
  end.

Definition nextSendAvailable (me : Z) (w : Wire) : Res Z :=
  match destination me w with
  | None => Err (AssertFailed "Wire::nextSendAvailable")
  | Some d => Ok (at_end d (nextAvailable w))
  end.

(** The message is owned by the callee, so it is destroyed on return. *)
Definition messageFinished (to : Z) (m : Message) (response : Message) (s : Sys) : Res Sys :=
  _ ← assert_empty response; Ok (destroy_message m s).

Definition messageCancelled (to : Z) (m : Message) (s : Sys) : Res Sys :=
  Ok (destroy_message m s).

(** ** Specification: a single-server queue

    Packets of the given sizes arrive at the given times in one direction; the
    line is free from [avail] on.  A packet departs [size * 8 / bps] seconds
    (rounded down to nanoseconds) after the line is free for it. *)
Definition transmission (bps : Z) (p : Packet) : Z := Z.of_nat (getSize p) * 8 * 10 ^ 9 / bps.

Fixpoint departures (bps avail : Z) (arrivals : list (Z * Packet)) : list (Z * Packet) :=
  match arrivals with
  | [] => []
  | (t, p) :: rest =>
      let d := Z.max t avail + transmission bps p in
      (d, p) :: departures bps d rest
  end.

(** The wire's handler driven by a sequence of arrivals from one end: the
    clock is advanced to each arrival time and the message is delivered.  The
    result also lists the wake-up times and packets of the messages posted. *)
Definition arrive (id from : Z) (a : Z * Packet) (st : Wire * Sys) : Res (Wire * Sys) :=
  messageReceived id from (WireMessage PACKET_TO_PORT (snd a)) (fst st) (set_time (fst a) (snd st)).

(** The messages posted for a list of departures, in order of arrival. *)
Definition postings (id to prop c : Z) (ds : list (Z * Packet)) : list (TimerContainer Message) :=
  imap (fun i dp => mkTimer id to false (fst dp + prop) (WireMessage PACKET_FROM_PORT (snd dp))
                      (c + 1 + Z.of_nat i)) ds.

(** ** Lemmas *)

Lemma at_set_end {A} i (v : A) p : at_end i (set_end i v p) = v.
Proof. by destruct i. Qed.

Lemma transmission_exact (b : Z) (p : Packet) :
  0 < b -> Z.of_nat (getSize p) * 8 * 10 ^ 9 + b < 2 ^ 53 ->
  trans_delay (Z.of_nat (getSize p)) b = Ok (transmission b p) /\ 0 <= transmission b p.
Proof.
  intros Hb Hs. split; [|apply Z.div_pos; lia]. unfold transmission.
  destruct (decide (getSize p = 0%nat)) as [->|]; [|apply trans_delay_exact; lia].
  cbn [Z.of_nat]. rewrite Z.mul_0_l, Z.div_0_l by lia. apply trans_delay_zero. lia.
Qed.

Lemma destination_connected from w d a b c l :
  destination from w = Some d -> destination from (mkWire (connected w) a b c l) = Some d.
Proof. done. Qed.

(** One arrival on a speed-limited wire. *)
Lemma arrive_step id from d t p w s :
  destination from w = Some d -> limit_speed w = true -> 0 < bps w ->
  Z.of_nat (getSize p) * 8 * 10 ^ 9 + bps w < 2 ^ 53 ->
  0 <= t -> 0 <= propagationDelay w ->
  let dep := Z.max t (at_end d (nextAvailable w)) + transmission (bps w) p in
  dep + propagationDelay w < 2 ^ 64 ->
  ids_below s -> currentUUID s + 1 < 2 ^ 64 ->
  exists s', arrive id from (t, p) (w, s) =
    Ok (mkWire (connected w) (set_end d dep (nextAvailable w)) (propagationDelay w) (bps w) true, s') /\
    ids_below s' /\ currentUUID s' = currentUUID s + 1 /\
    timerQueue s' = pq_push (mkTimer id (at_end d (connected w)) false (dep + propagationDelay w)
      (WireMessage PACKET_FROM_PORT p) (currentUUID s + 1)) (timerQueue s).
Proof.
  intros Hd Hl Hb Hs Ht Hp dep Hdep Hids Hc.
  destruct (transmission_exact _ _ Hb Hs) as [Etr Htr].
  unfold arrive, messageReceived. cbn [fst snd]. rewrite Hd, Etr. cbn [assert_that bool_decide mbind Res_bind].
  rewrite bool_decide_eq_true_2 by done. cbn [assert_that mbind Res_bind].
  set (av := if _ <? _ then _ else _).
  assert (av = Z.max t (at_end d (nextAvailable w))) as ->.
  { unfold av. cbn. destruct (_ <? t) eqn:E; bool_to_prop; lia. }
  fold dep. rewrite (wrap_small 64 dep) by (unfold is_u; lia).
  rewrite Hl. cbn [bps propagationDelay limit_speed connected].
  rewrite (wrap_small 64 (dep + _)) by (unfold is_u; lia). cbn [getCurrentTime currentTime set_time].
  rewrite wrap_small by (unfold is_u; lia).
  destruct (post_total id (at_end d (connected w)) (WireMessage PACKET_FROM_PORT (Packet_copy p))
    (dep + propagationDelay w - t) (set_time t s)) as (s' & E & Hids' & Hc'); [done|done|].
  rewrite E. cbn [mbind Res_bind]. exists s'. split; [done|]. split; [done|]. split; [done|].
  destruct (post_inv _ _ _ _ _ _ E) as (_ & _ & Hq & _). rewrite Hq. cbn [currentTime set_time currentUUID timerQueue].
  rewrite (wrap_small 64 (currentUUID s + 1)) by (destruct Hids; unfold is_u; lia).
  rewrite wrap_small by (unfold is_u; lia). destruct p. f_equal. f_equal. lia.
Qed.

Lemma departures_lower b avail l :
  0 < b -> Forall (fun dp => avail <= fst dp) (departures b avail l).
Proof.
  intros Hb. revert avail. induction l as [|[t p] l IH]; intros avail; cbn; constructor; cbn.
  - assert (0 <= transmission b p) by (apply Z.div_pos; lia). lia.
  - eapply Forall_impl; [apply IH|]. cbn. intros [d q] H. cbn in *.
    assert (0 <= transmission b p) by (apply Z.div_pos; lia). lia.
Qed.

(** Departures leave in the order of arrival, at least one transmission time
    apart, and never before the packet has been transmitted. *)
Lemma departures_fifo b avail l :
  0 < b ->
  StronglySorted (fun x y => fst x <= fst y) (departures b avail l) /\
  Forall2 (fun a dp => snd a = snd dp /\ fst a + transmission b (snd a) <= fst dp) l (departures b avail l).
Proof.
  intros Hb. revert avail. induction l as [|[t p] l IH]; intros avail; cbn; [split; constructor|].
  destruct (IH (Z.max t avail + transmission b p)) as [Hs Hf]. split; constructor; cbn; auto.
  - apply departures_lower. done.
  - split; [done|]. lia.
Qed.

(** ** Properties *)

(** C7: with the speed limit on, a wire is a FIFO single-server queue in each
    direction: any sequence of arrivals from one end (at times and sizes that
    do not overflow) is accepted, and the messages it posts are, in order of
    arrival, exactly the departures of the abstract queue delayed by the
    propagation delay and addressed to the other end; departure times are
    non-decreasing and each is at least the exact transmission time
    [size * 8 * 10^9 / bps] after the packet's arrival. *)
Theorem wire_refines_queue id from d w s arrivals :
  destination from w = Some d -> limit_speed w = true -> 0 < bps w -> 0 <= propagationDelay w ->
  Forall (fun a => 0 <= fst a /\ Z.of_nat (getSize (snd a)) * 8 * 10 ^ 9 + bps w < 2 ^ 53) arrivals ->
  let ds := departures (bps w) (at_end d (nextAvailable w)) arrivals in
  Forall (fun dp => fst dp + propagationDelay w < 2 ^ 64) ds ->
  ids_below s -> currentUUID s + Z.of_nat (length arrivals) < 2 ^ 64 ->
  (exists w' s', foldM (arrive id from) arrivals (w, s) = Ok (w', s') /\
    timerQueue s' ≡ₚ postings id (at_end d (connected w)) (propagationDelay w) (currentUUID s) ds
                     ++ timerQueue s) /\
  StronglySorted (fun x y => fst x <= fst y) ds /\
  Forall2 (fun a dp => snd a = snd dp /\ fst a + transmission (bps w) (snd a) <= fst dp) arrivals ds.
Proof.
  intros Hd Hl Hb Hp Hall ds Hds Hids Hc. split; [|by apply departures_fifo].
  revert w s Hd Hl Hb Hp Hall ds Hds Hids Hc.
  induction arrivals as [|[t p] l IH]; intros w s Hd Hl Hb Hp Hall ds Hds Hids Hc.
  - exists w, s. split; [done|]. done.
  - apply Forall_cons in Hall as [[Ht Hsz] Hall]. cbn in Ht, Hsz, ds, Hc. unfold ds in Hds. cbn in Hds.
    apply Forall_cons in Hds as [Hd1 Hds]. cbn in Hd1.
    destruct (arrive_step id from d t p w s) as (s1 & E1 & Hids1 & Hc1 & Hq1); auto; [lia|].
    set (w1 := mkWire _ _ _ _ _) in E1.
    destruct (IH w1 s1) as (w' & s' & E & Hq); auto.
    { unfold w1. cbn. by rewrite at_set_end. }
    { lia. }
    exists w', s'. cbn [foldM]. rewrite E1. split; [exact E|].
    rewrite Hq, Hq1, pq_push_perm. unfold w1. cbn [bps nextAvailable propagationDelay connected].
    rewrite at_set_end. unfold postings, ds. cbn [departures imap app]. rewrite Hc1.
    rewrite <- Permutation_middle. apply reflexive_eq. cbn [app]. f_equal.
    + cbn [fst snd Z.of_nat]. by rewrite Z.add_0_r.
    + f_equal. apply imap_ext. intros i x _. cbn. f_equal. lia.
Qed.

(** every other branch of the wire: without the speed limit the delay is
    the propagation delay alone; a packet from a module at neither end, or
    towards an unconnected end, is dropped without effect; a message that is
    not a wire message, or travels the wrong way, is a failure; and the posted
    message always goes to the other end. *)
Theorem wire_branches id from type packet w s w' s' :
  messageReceived id from (WireMessage type packet) w s = Ok (w', s') ->
  type = PACKET_TO_PORT /\
  match destination from w with
  | None => w' = w /\ s' = s
  | Some d =>
      connected w' = connected w /\ propagationDelay w' = propagationDelay w /\ bps w' = bps w /\
      at_end (negb d) (nextAvailable w') = at_end (negb d) (nextAvailable w) /\
      (connected w = if d then (from, at_end d (connected w)) else (at_end d (connected w), from)) /\
      at_end d (connected w) <> 0 /\
      exists c, timerQueue s' = pq_push c (timerQueue s) /\
        tc_from c = id /\ tc_to c = at_end d (connected w) /\ canceled c = false /\
        message c = WireMessage PACKET_FROM_PORT packet /\
        (limit_speed w = false -> wakeup c = currentTime s ⊞ propagationDelay w)
  end.
Proof.
  unfold messageReceived. intros H. res_inv. bool_to_prop. split; [done|].
  destruct (destination from w) as [d|] eqn:Ed; res_inv; [|done].
  cbn [limit_speed connected propagationDelay] in *.
  assert (exists after, post id (at_end d (connected w)) (WireMessage PACKET_FROM_PORT (Packet_copy packet)) after s = Ok s' /\
    (limit_speed w = false -> after = propagationDelay w)) as (after & Hpost & Hafter)
    by (destruct (limit_speed w); res_inv; eexists; split; eauto; discriminate).
  destruct (post_inv _ _ _ _ _ _ Hpost) as (_ & _ & Hq & _).
  repeat (split; [done|]). split; [by destruct d|]. unfold destination in Ed.
  destruct (fst (connected w) =? from) eqn:Ef; [|destruct (snd (connected w) =? from) eqn:Es; [|done]];
    (destruct (at_end _ _ =? 0) eqn:Ez; [done|]); bool_to_prop; simplify_eq;
    (split; [by destruct (connected w)|]); (split; [done|]);
    eexists; (split; [exact Hq|]); cbn; repeat (split; [done|]);
    (split; [by destruct packet|]); intros Hl; by rewrite Hafter.
Qed.

End Wire.

(** *** Instances *)

#[local] Instance unordered : UnorderedSet Z := {| bucket_pos _ _ := 0%nat |}.

Definition ex_wire : Wire := mkWire (1, 2) (0, 0) 1000 (10 ^ 9) true.
Definition ex_sys : System unit Message Z Env := System_init initial_env.
Definition ex_arrivals : list (Z * Packet) :=
  [(0, mkPacket (replicate 100 7) 0); (10, mkPacket (replicate 50 9) 1)].

Lemma wire_refines_queue_witness :
  exists w' s', foldM (arrive 3 1) ex_arrivals (ex_wire, ex_sys) = Ok (w', s') /\
    timerQueue s' ≡ₚ postings 3 2 1000 0 (departures (10 ^ 9) 0 ex_arrivals) ++ [].
Proof.
  destruct (wire_refines_queue 3 1 true ex_wire ex_sys ex_arrivals) as [H _];
    [reflexivity | reflexivity | reflexivity | discriminate | | | | vm_compute; reflexivity | exact H].
  - repeat constructor; vm_compute; congruence.
  - repeat constructor; vm_compute; congruence.
  - split; [discriminate|]. intros u Hu. exfalso. cbn in Hu. set_solver.
Defined.

Lemma wire_branches_witness :
  exists w' s', messageReceived 3 1 (WireMessage PACKET_TO_PORT (mkPacket [1; 2] 0)) ex_wire ex_sys = Ok (w', s') /\
    PACKET_TO_PORT = PACKET_TO_PORT /\ bps w' = 10 ^ 9.
Proof.
  destruct (messageReceived 3 1 (WireMessage PACKET_TO_PORT (mkPacket [1; 2] 0)) ex_wire ex_sys)
    as [[w' s']|] eqn:E; [|vm_compute in E; discriminate].
  destruct (wire_branches 3 1 PACKET_TO_PORT (mkPacket [1; 2] 0) ex_wire ex_sys w' s' E) as [Ht Hm].
  exists w', s'. split; [reflexivity|]. split; [exact Ht|]. apply Hm.
Defined.

End Wire.
