(* ===== verification/Link.v ===== *)
(** * Link: output queues, packet capture and the devices built on them

    Models src/Networking/E_Link.cpp, E_Hub.cpp, E_Switch.cpp and their
    headers under include/E/Networking.  A link keeps one output queue per
    wire; a self-message [CHECK_QUEUE] per non-empty queue transmits the head
    packet when the line is free and re-arms itself.  [packetArrived] is
    virtual: the class [LinkClass] is the interface between [Link] and its
    subclasses [Hub] and [Switch].

    [outputQueue[w]] and [nextAvailable[w]] insert an empty queue and time [0]
    for a new key; a missing key of the maps below stands for those values.
    The three temporaries of one packet in the [CHECK_QUEUE] handler share one
    identifier and nothing is allocated between their destructors, so their
    destruction is one operation on the registry. *)

From S2P Require Import Prelude NetworkUtil Packet TimeUtil Real Rounding RandomDistribution System ModuleBase.
From stdpp Require Import sorting relations.
Import NetworkUtil.
Local Open Scope Z_scope.

Module Link.
Import System RandomDistribution.

Section Link.
Context {RE : RandomEngine} {RL : RandomEngineLaws}.

Record Link := mkLink {
  ports : list Z;                       (* NetworkModule::ports *)
  nextAvailable : gmap Z Z;
  outputQueue : gmap Z (list Packet);
  bps : Z;
  max_queue_length : Z;
  pcap_enabled : bool;
  snaplen : Z;
  pcap_file : list Z;                   (* the bytes written to the log file *)
  rand_dist : engine;                   (* the engine of the LinearDistribution *)
}.

(** [Link::Link]; the engine is seeded by [rand()]. *)
Definition Link_new (seed : Z) : Link :=
  mkLink [] ∅ ∅ 1000000000 0 false 65535 [] (engine_seed seed).

Definition setLinkSpeed (b : Z) (l : Link) : Link :=
  mkLink (ports l) (nextAvailable l) (outputQueue l) b (max_queue_length l) (pcap_enabled l)
    (snaplen l) (pcap_file l) (rand_dist l).
Definition setQueueSize (n : Z) (l : Link) : Link :=
  mkLink (ports l) (nextAvailable l) (outputQueue l) (bps l) n (pcap_enabled l)
    (snaplen l) (pcap_file l) (rand_dist l).

(** [NetworkModule::connectWire] and [getPortCount]. *)
Definition connectWire (wireID : Z) (l : Link) : Link * Z :=
  (mkLink (ports l ++ [wireID]) (nextAvailable l) (outputQueue l) (bps l) (max_queue_length l)
     (pcap_enabled l) (snaplen l) (pcap_file l) (rand_dist l), Z.of_nat (length (ports l))).
Definition getPortCount (l : Link) : nat := length (ports l).

Definition queue_of (w : Z) (l : Link) : list Packet := default [] (outputQueue l !! w).
Definition avail_of (w : Z) (l : Link) : Z := default 0 (nextAvailable l !! w).

Definition set_port_queue (w : Z) (q : list Packet) (l : Link) : Link :=
  mkLink (ports l) (nextAvailable l) (<[w := q]> (outputQueue l)) (bps l) (max_queue_length l)
    (pcap_enabled l) (snaplen l) (pcap_file l) (rand_dist l).
Definition set_port_avail (w t : Z) (l : Link) : Link :=
  mkLink (ports l) (<[w := t]> (nextAvailable l)) (outputQueue l) (bps l) (max_queue_length l)
    (pcap_enabled l) (snaplen l) (pcap_file l) (rand_dist l).
Definition set_rand (g : engine) (l : Link) : Link :=
  mkLink (ports l) (nextAvailable l) (outputQueue l) (bps l) (max_queue_length l)
    (pcap_enabled l) (snaplen l) (pcap_file l) g.
Definition pcap_write (bs : list Z) (l : Link) : Link :=
  mkLink (ports l) (nextAvailable l) (outputQueue l) (bps l) (max_queue_length l)
    (pcap_enabled l) (snaplen l) (pcap_file l ++ bs) (rand_dist l).

(** ** Packet capture *)

(** [struct pcap_packet_header]: the fields are [uint32_t], stored in the
    byte order of a little-endian host. *)
Record pcap_packet_header := mkPcapHeader {
  ts_sec : Z;
  ts_usec : Z;
  incl_len : Z;
  orig_len : Z;
}.

Definition pcap_packet_header_bytes (h : pcap_packet_header) : list Z :=
  u32_bytes (ts_sec h) ++ u32_bytes (ts_usec h) ++ u32_bytes (incl_len h) ++ u32_bytes (orig_len h).

Record pcap_file_header := mkPcapFile {
  magic : Z;
  version_major : Z;
  version_minor : Z;
  thiszone : Z;
  sigfigs : Z;
  file_snaplen : Z;
  linktype : Z;
}.

Definition u16_bytes (x : Z) : list Z := [Z.land x 0xFF; Z.land (Z.shiftr x 8) 0xFF].

Definition pcap_file_header_bytes (h : pcap_file_header) : list Z :=
  u32_bytes (magic h) ++ u16_bytes (version_major h) ++ u16_bytes (version_minor h) ++
  u32_bytes (thiszone h) ++ u32_bytes (sigfigs h) ++ u32_bytes (file_snaplen h) ++
  u32_bytes (linktype h).

(** [open] truncates the file, so the header is its whole content. *)
Definition enablePCAPLogging (snap : Z) (l : Link) : Link :=
  if negb (pcap_enabled l) then
    mkLink (ports l) (nextAvailable l) (outputQueue l) (bps l) (max_queue_length l) true snap
      (pcap_file_header_bytes (mkPcapFile 0xa1b23c4d 2 4 0 0 (wrap 32 snap) 1)) (rand_dist l)
  else l.

(** The [if (pcap_enabled)] block of the [CHECK_QUEUE] handler. *)
Definition pcap_header_for (current_time : Z) (p : Packet) (l : Link) : pcap_packet_header :=
  mkPcapHeader (wrap 32 (getTime current_time SEC))
    (wrap 32 (getTime current_time NSEC mod 1000000000))
    (wrap 32 (Z.min (snaplen l) (Z.of_nat (getSize p)))) (wrap 32 (Z.of_nat (getSize p))).

Definition pcap_log (current_time : Z) (p : Packet) (l : Link) : Res Link :=
  if pcap_enabled l then
    let h := pcap_header_for current_time p l in
    let n := Z.to_nat (incl_len h) in
    '(bs, _) ← readData 0 n p;
    Ok (pcap_write (pcap_packet_header_bytes h ++ bs ++ replicate (n - length bs) 0) l)
  else Ok l.

Definition wait_until (avail_time current_time : Z) : Z :=
  if current_time <? avail_time then avail_time ⊟ current_time else 0.

(** ** Operations on the scheduler *)

Section Ops.
Context {Mod : Type} {US : UnorderedSet Z}.
Abbreviation Sys := (System Mod Message Z Env).

(** The eviction of [sendPacket]: the queue without the packet at a random
    index in its second half, and that packet. *)
Definition evict (q : list Packet) (l : Link) : Res (list Packet * option Packet * Link) :=
  let min_drop := max_queue_length l / 2 in
  let max_drop := max_queue_length l in
  let '(r, g) := nextDistribution LinearDistribution (Real_of_Z min_drop) (Real_of_Z max_drop)
                   (rand_dist l) in
  index ← floor_to_u64 r;
  let index := if max_queue_length l <=? index then max_queue_length l - 1 else index in
  if index <? Z.of_nat (length q)
  then Ok (delete (Z.to_nat index) q, q !! Z.to_nat index, set_rand g l)
  else Ok (q, None, set_rand g l).

Definition sendPacket (id port : Z) (packet : Packet) (l : Link) (s : Sys) : Res (Link * Sys) :=
  let current_queue := queue_of port l in
  let current_time := getCurrentTime s in
  let avail_time := avail_of port l in
  '(current_queue, toBeRemoved, l) ←
    (if (negb (max_queue_length l =? 0) && (max_queue_length l <=? Z.of_nat (length current_queue)))%bool
     then evict current_queue l else Ok (current_queue, None, l));
  let s := match toBeRemoved with Some p => destroy_packet p s | None => s end in
  _ ← assert_that ((max_queue_length l =? 0) || (Z.of_nat (length current_queue) <? max_queue_length l))
        "Link::sendPacket";
  let current_queue := current_queue ++ [Packet_copy packet] in
  let l := set_port_queue port current_queue l in
  if (length current_queue =? 1)%nat
  then s ← post id id (CheckQueue port) (wait_until avail_time current_time) s; Ok (l, s)
  else Ok (l, s).

(** The [CHECK_QUEUE] branch of [messageReceived]. *)
Definition check_queue (id wireID : Z) (l : Link) (s : Sys) : Res (Link * Sys) :=
  match queue_of wireID l with
  | [] => Err (AssertFailed "Link::messageReceived")
  | packet :: current_queue =>
      let current_time := getCurrentTime s in
      if avail_of wireID l <=? current_time then
        let l := set_port_queue wireID current_queue l in
        delay ← trans_delay (Z.of_nat (getSize packet)) (bps l);
        let avail_time := current_time ⊞ delay in
        let l := set_port_avail wireID avail_time l in
        l ← pcap_log current_time packet l;
        s ← post id wireID (WireMessage PACKET_TO_PORT packet) delay s;
        s ← match current_queue with
            | [] => Ok s
            | _ =>
                let wait_time := wait_until avail_time current_time in
                _ ← assert_that (wait_time =? delay) "Link::messageReceived(wait)";
                post id id (CheckQueue wireID) wait_time s
            end;
        Ok (l, destroy_packet packet s)
      else Ok (l, s)
  end.

(** The subclasses of [Link]. *)
Class LinkClass (L : Type) := {
  base : L -> Link;
  set_base : Link -> L -> L;
  packetArrived : Z -> Z -> Packet -> L -> Sys -> Res (L * Sys);
}.

Definition messageReceived {L} `{LinkClass L} (id from : Z) (m : Message) (o : L) (s : Sys)
  : Res (L * Sys) :=
  match m with
  | WireMessage _ packet => packetArrived id from packet o s
  | CheckQueue wireID =>
      '(l, s) ← check_queue id wireID (base o) s;
      Ok (set_base l o, s)
  | _ => Ok (o, s)
  end.

Definition messageFinished (to : Z) (m : Message) (response : Message) (s : Sys) : Res Sys :=
  _ ← assert_empty response; Ok (destroy_message m s).

Definition messageCancelled (to : Z) (m : Message) (s : Sys) : Res Sys :=
  Ok (destroy_message m s).

(** ** Hub *)

Record Hub := mkHub { hub_link : Link }.

(** The body of the loop over the ports. *)
Definition hub_port (id inWireID : Z) (packet : Packet) (port : Z) (st : Hub * Sys) : Res (Hub * Sys) :=
  let '(h, s) := st in
  if negb (inWireID =? port) then
    '(s, newPacket) ← clone_packet packet s;
    '(l, s) ← sendPacket id port newPacket (hub_link h) s;
    Ok (mkHub l, destroy_packet newPacket s)
  else Ok (h, s).

Definition hub_packetArrived (id inWireID : Z) (packet : Packet) (h : Hub) (s : Sys) : Res (Hub * Sys) :=
  foldM (hub_port id inWireID packet) (ports (hub_link h)) (h, s).

#[global] Instance HubClass : LinkClass Hub := {|
  base := hub_link;
  set_base l _ := mkHub l;
  packetArrived := hub_packetArrived;
|}.

(** ** Switch *)

Record Switch := mkSwitch {
  sw_link : Link;
  mac_table : gmap Z (gset Z);
  dist : engine;
  unreliable : bool;
  drop_base : Real;
  drop_base_diff : Real;
  drop_base_limit : Real;
  drop_base_final : Real;
}.

(** A decimal literal [n / d] of the sources, rounded to nearest. *)
Definition lit (n d : Z) : Real := Rdiv (Real_of_Z n) (Real_of_Z d).

Definition Switch_new (seed1 seed2 : Z) (unreliable : bool) : Switch :=
  mkSwitch (Link_new seed1) ∅ (engine_seed seed2) unreliable
    (Real_of_Z 1) (lit 1 10) (lit 15 100) (lit 1 100).

Definition set_sw_link (l : Link) (w : Switch) : Switch :=
  mkSwitch l (mac_table w) (dist w) (unreliable w) (drop_base w) (drop_base_diff w)
    (drop_base_limit w) (drop_base_final w).
Definition set_sw_drop (g : engine) (b : Real) (w : Switch) : Switch :=
  mkSwitch (sw_link w) (mac_table w) g (unreliable w) b (drop_base_diff w)
    (drop_base_limit w) (drop_base_final w).

(** [ports[port]] is not checked: an index out of range is a failure. *)
Definition addMACEntry (port : nat) (mac : list Z) (w : Switch) : Res Switch :=
  let mac_int := arrayToUINT64 mac in
  wireID ← of_option OutOfBounds (ports (sw_link w) !! port);
  Ok (mkSwitch (sw_link w) (<[wireID := {[mac_int]} ∪ default ∅ (mac_table w !! wireID)]> (mac_table w))
        (dist w) (unreliable w) (drop_base w) (drop_base_diff w) (drop_base_limit w) (drop_base_final w)).

(** The random decision of the loop body: whether this copy is corrupted. *)
Definition drop_decision (w : Switch) : bool * Switch :=
  if unreliable w then
    let '(val, g) := nextDistribution UniformDistribution Rzero Rone (dist w) in
    let b := if Rltb (drop_base w) (drop_base_limit w) then drop_base_final w
             else Rsub (drop_base w) (drop_base_diff w) in
    (Rltb val b, set_sw_drop g b w)
  else (false, w).

(** The corruption of [packetArrived]: overwrite the first four payload bytes
    of a TCP segment, or its checksum field when there is no payload. *)
Definition corrupt (p : Packet) : Res Packet :=
  if (14 + 20 + 20 + 4 <=? getSize p)%nat then
    data ← readInto 54 4 p;
    writeInto 54 (u32_bytes (if bool_decide (data = u32_bytes 0xEEEEEEEE) then 0xEEEEEEEF else 0xEEEEEEEE)) p
  else if (14 + 20 + 20 <=? getSize p)%nat then
    checksum ← readInto 50 2 p;
    writeInto 50 (u16_bytes (if bool_decide (checksum = u16_bytes 0xEEEE) then 0xEEEF else 0xEEEE)) p
  else Ok p.

Definition mac_broadcast : list Z := [0xFF; 0xFF; 0xFF; 0xFF; 0xFF; 0xFF].

Definition mac_match (mac_int wireID : Z) (w : Switch) : bool :=
  (mac_int =? arrayToUINT64 mac_broadcast) ||
  match mac_table w !! wireID with
  | Some macs => bool_decide (mac_int ∈ macs)
  | None => false
  end.

(** The body of the first loop; the boolean is [found]. *)
Definition switch_port (id inWireID mac_int : Z) (packet : Packet) (wireID : Z)
  (st : bool * Switch * Sys) : Res (bool * Switch * Sys) :=
  let '(found, w, s) := st in
  if negb (inWireID =? wireID) then
    if mac_match mac_int wireID w then
      let '(drop, w) := drop_decision w in
      '(s, newPacket) ← clone_packet packet s;
      newPacket ← (if drop then corrupt newPacket else Ok newPacket);
      '(l, s) ← sendPacket id wireID newPacket (sw_link w) s;
      Ok (true, set_sw_link l w, destroy_packet newPacket s)
    else Ok (found, w, s)
  else Ok (found, w, s).

(** The body of the second loop, for an unknown destination. *)
Definition flood_port (id inWireID : Z) (packet : Packet) (wireID : Z) (st : Switch * Sys)
  : Res (Switch * Sys) :=
  let '(w, s) := st in
  if negb (inWireID =? wireID) then
    '(s, newPacket) ← clone_packet packet s;
    '(l, s) ← sendPacket id wireID newPacket (sw_link w) s;
    Ok (set_sw_link l w, destroy_packet newPacket s)
  else Ok (w, s).

Definition switch_packetArrived (id inWireID : Z) (packet : Packet) (w : Switch) (s : Sys)
  : Res (Switch * Sys) :=
  mac ← readInto 0 6 packet;
  let mac_int := arrayToUINT64 mac in
  '(found, w, s) ← foldM (switch_port id inWireID mac_int packet) (ports (sw_link w)) (false, w, s);
  if negb found then foldM (flood_port id inWireID packet) (ports (sw_link w)) (w, s)
  else Ok (w, s).

#[global] Instance SwitchClass : LinkClass Switch := {|
  base := sw_link;
  set_base l w := set_sw_link l w;
  packetArrived := switch_packetArrived;
|}.

(** ** Lemmas: the parts of a link *)

Lemma queue_of_set w q l w' :
  queue_of w' (set_port_queue w q l) = if w =? w' then q else queue_of w' l.
Proof.
  unfold queue_of, set_port_queue. cbn. destruct (w =? w') eqn:E; bool_to_prop; subst.
  - by rewrite lookup_insert_eq.
  - by rewrite lookup_insert_ne.
Qed.

Lemma avail_of_set w t l w' :
  avail_of w' (set_port_avail w t l) = if w =? w' then t else avail_of w' l.
Proof.
  unfold avail_of, set_port_avail. cbn. destruct (w =? w') eqn:E; bool_to_prop; subst.
  - by rewrite lookup_insert_eq.
  - by rewrite lookup_insert_ne.
Qed.

(** ** Invariant of the output queues

    For every wire: the queue does not exceed its limit, and a [CHECK_QUEUE]
    is scheduled exactly when the queue is not empty, once, uncancelled, and
    not before the line is free. *)

Definition is_check (id w : Z) (c : TimerContainer Message) : bool :=
  (tc_to c =? id) && match message c with CheckQueue w' => w' =? w | _ => false end.

Definition checks (id w : Z) (q : list (TimerContainer Message)) : list (TimerContainer Message) :=
  filter (fun c => is_check id w c = true) q.

Definition armed (id : Z) (l : Link) (q : list (TimerContainer Message)) (w : Z) : Prop :=
  match queue_of w l with
  | [] => checks id w q = []
  | _ :: _ => exists c, checks id w q = [c] /\ canceled c = false /\ avail_of w l <= wakeup c
  end.

Record link_inv (id : Z) (l : Link) (s : Sys) : Prop := {
  li_time : is_u 64 (currentTime s);
  li_max : 0 <= max_queue_length l;
  li_avail w : is_u 64 (avail_of w l);
  li_bound w : max_queue_length l <> 0 -> Z.of_nat (length (queue_of w l)) <= max_queue_length l;
  li_armed w : armed id l (timerQueue s) w;
}.

Lemma checks_push id w c q :
  checks id w (pq_push c q) ≡ₚ if is_check id w c then c :: checks id w q else checks id w q.
Proof.
  unfold checks. rewrite pq_push_perm. rewrite filter_cons.
  destruct (decide _) as [->|Hn]; [done|]. by rewrite (not_true_is_false _ Hn).
Qed.

Lemma checks_push_other id w c q :
  is_check id w c = false -> checks id w (pq_push c q) ≡ₚ checks id w q.
Proof. intros H. rewrite checks_push. by rewrite H. Qed.

(** The scheduling state of a wire depends on its queue, its line and its
    pending checks only. *)
Lemma armed_ext id l l' q q' w :
  queue_of w l' = queue_of w l -> avail_of w l' = avail_of w l ->
  checks id w q' ≡ₚ checks id w q -> armed id l q w -> armed id l' q' w.
Proof.
  unfold armed. intros -> -> Hp. destruct (queue_of w l).
  - intros E. rewrite E in Hp. by apply Permutation_nil_r in Hp.
  - intros (c & E & Hc). rewrite E in Hp. apply Permutation_singleton_r in Hp. eauto.
Qed.

(** *** [sendPacket] *)

(** The random position of an eviction. *)
Lemma linear_draw lo hi g :
  0 <= lo <= hi -> hi < 2 ^ 53 ->
  exists i, floor_to_u64 (fst (nextDistribution LinearDistribution (Real_of_Z lo) (Real_of_Z hi) g)) = Ok i /\ lo <= i <= hi.
Proof. intros Hlo Hhi. apply floor_within; [lia..|]. by apply draw_within. Qed.

(** The queue after a possible eviction. *)
Lemma make_room id port l (s : Sys) :
  link_inv id l s -> max_queue_length l <> 1 ->
  max_queue_length l < 2 ^ 53 ->
  let q := queue_of port l in
  exists q0 removed g,
    (if (negb (max_queue_length l =? 0) && (max_queue_length l <=? Z.of_nat (length q)))%bool
     then evict q l else Ok (q, None, l)) = Ok (q0, removed, set_rand g l) /\
    sublist q0 q /\ (q = [] <-> q0 = []) /\
    (max_queue_length l <> 0 ->
     Z.of_nat (length q0) = Z.min (Z.of_nat (length q)) (max_queue_length l - 1)) /\
    (max_queue_length l = 0 -> q0 = q).
Proof.
  intros Hi Hm Hd q. pose proof (li_max _ _ _ Hi) as H0. pose proof (li_bound _ _ _ Hi port) as Hb. fold q in Hb.
  destruct (max_queue_length l =? 0) eqn:E0; cbn [negb andb]; bool_to_prop.
  { exists q, None, (rand_dist l). split; [by destruct l|]. done. }
  destruct (_ <=? _) eqn:Ef; bool_to_prop.
  2:{ exists q, None, (rand_dist l). split; [by destruct l|]. repeat split; try done. lia. }
  specialize (Hb E0). assert (0 <= max_queue_length l / 2 <= max_queue_length l) as Hhalf
    by (split; [apply Z.div_pos|apply Z.div_le_upper_bound]; lia).
  destruct (linear_draw (max_queue_length l / 2) (max_queue_length l) (rand_dist l) Hhalf Hd) as (i & Ei & Hmin & _).
  assert (1 <= max_queue_length l / 2) by (apply Z.div_le_lower_bound; lia).
  unfold evict. destruct (nextDistribution _ _ _ _) as [r g]. cbn [fst] in Ei. rewrite Ei.
  cbn [mbind Res_bind]. set (j := if _ <=? i then _ else i).
  assert (1 <= j < Z.of_nat (length q)) as Hj.
  { unfold j. destruct (_ <=? i) eqn:Ej; bool_to_prop; lia. }
  replace (j <? _) with true by (symmetry; apply Z.ltb_lt; lia).
  assert (length (delete (Z.to_nat j) q) = (length q - 1)%nat) as Hlen.
  { rewrite length_delete; [done|]. apply lookup_lt_is_Some. lia. }
  eexists _, _, g. split; [reflexivity|]. split; [apply sublist_delete|].
  split; [|split; [lia | done]]. split; intros E; rewrite E in *; cbn in *; [lia|].
  destruct q as [|? [|? ?]]; cbn in *; lia.
Qed.

(** Waking at [wait_until] is waking when the line is free, or now. *)
Lemma wait_until_time avail now :
  is_u 64 avail -> is_u 64 now -> now ⊞ wait_until avail now = Z.max avail now.
Proof.
  unfold is_u, wait_until. intros. destruct (_ <? _) eqn:E; bool_to_prop.
  - rewrite (wrap_small 64 (_ - _)) by (unfold is_u; lia). rewrite wrap_small by (unfold is_u; lia). lia.
  - rewrite wrap_small by (unfold is_u; lia). lia.
Qed.

(** The invariant after the queue of one wire is replaced by a queue within
    the bound for which a check is scheduled as it should be. *)
Lemma link_inv_update id port q l l' (s s' : Sys) :
  link_inv id l s -> is_u 64 (currentTime s') ->
  max_queue_length l' = max_queue_length l ->
  (forall w, queue_of w l' = if port =? w then q else queue_of w l) ->
  (forall w, w <> port -> avail_of w l' = avail_of w l) -> is_u 64 (avail_of port l') ->
  (max_queue_length l <> 0 -> Z.of_nat (length q) <= max_queue_length l) ->
  armed id l' (timerQueue s') port ->
  (forall w, w <> port -> checks id w (timerQueue s') ≡ₚ checks id w (timerQueue s)) ->
  link_inv id l' s'.
Proof.
  intros [Ht0 Hmx Hav0 Hbd Har] Ht Hm Hq Hav Hp Hlen Hport Hother. constructor.
  - done.
  - by rewrite Hm.
  - intros w. destruct (decide (w = port)) as [->|Hne]; [done|]. rewrite Hav by done. apply Hav0.
  - intros w. rewrite Hm, Hq. destruct (port =? w); auto.
  - intros w. destruct (decide (w = port)) as [->|Hne]; [done|].
    eapply armed_ext; [|by apply Hav|by apply Hother|apply Har].
    rewrite Hq. by replace (port =? w) with false by (symmetry; apply Z.eqb_neq; lia).
Qed.

Lemma check_message id w m after to (s s' : Sys) :
  post id to m after s = Ok s' ->
  checks id w (timerQueue s') ≡ₚ
  if is_check id w (mkTimer id to false (currentTime s ⊞ after) m (currentUUID s ⊞ 1))
  then mkTimer id to false (currentTime s ⊞ after) m (currentUUID s ⊞ 1) :: checks id w (timerQueue s)
  else checks id w (timerQueue s).
Proof. intros E. destruct (post_inv _ _ _ _ _ _ E) as (_ & _ & -> & _). apply checks_push. Qed.

(** Posting a check for a wire that has none. *)
Lemma post_check_armed id port l after t (s s' : Sys) :
  post id id (CheckQueue port) after s = Ok s' -> checks id port (timerQueue s) = [] ->
  queue_of port l <> [] -> currentTime s ⊞ after = t -> avail_of port l <= t ->
  armed id l (timerQueue s') port /\
  (forall w, w <> port -> checks id w (timerQueue s') ≡ₚ checks id w (timerQueue s)).
Proof.
  intros E Hnone Hq Ht Hav. split.
  - unfold armed. destruct (queue_of port l); [done|].
    exists (mkTimer id id false (currentTime s ⊞ after) (CheckQueue port) (currentUUID s ⊞ 1)).
    split; [|split; [reflexivity|]].
    + apply Permutation_singleton_r. rewrite (check_message _ port _ _ _ _ _ E), Hnone.
      unfold is_check. cbn. by rewrite !Z.eqb_refl.
    + cbn. by rewrite Ht.
  - intros w Hne. rewrite (check_message _ w _ _ _ _ _ E). unfold is_check. cbn.
    replace (port =? w) with false by (symmetry; apply Z.eqb_neq; lia). by rewrite andb_false_r.
Qed.

Lemma sendPacket_ok n id port packet l (s : Sys) :
  link_inv id l s -> live n s -> 1 <= n -> max_queue_length l <> 1 ->
  max_queue_length l < 2 ^ 53 ->
  exists l' s' q0, sendPacket id port packet l s = Ok (l', s') /\ link_inv id l' s' /\ live (n - 1) s' /\
    ports l' = ports l /\ max_queue_length l' = max_queue_length l /\
    queue_of port l' = q0 ++ [packet] /\ sublist q0 (queue_of port l) /\
    (max_queue_length l = 0 -> q0 = queue_of port l) /\
    (max_queue_length l <> 0 ->
     Z.of_nat (length q0) = Z.min (Z.of_nat (length (queue_of port l))) (max_queue_length l - 1)) /\
    (forall w, w <> port -> queue_of w l' = queue_of w l).
Proof.
  intros Hi Hlive Hn Hm Hd.
  destruct (make_room id port l s Hi Hm Hd) as (q0 & removed & g & E & Hsub & Hnil & Hlen & Hinf).
  unfold sendPacket. rewrite E. cbn [mbind Res_bind].
  replace (_ || _)%bool with true; cycle 1.
  { symmetry. apply orb_true_iff. cbn. destruct (decide (max_queue_length l = 0)) as [->|Hz]; [by left|].
    right. specialize (Hlen Hz). apply Z.ltb_lt. lia. }
  cbn [assert_that mbind Res_bind].
  set (s1 := match removed with Some p => destroy_packet p s | None => s end).
  assert (live n s1) as Hlive1 by (unfold s1; destruct removed; [by apply destroy_live | done]).
  assert (currentTime s1 = currentTime s /\ timerQueue s1 = timerQueue s) as [Ht1 Hq1] by (by destruct removed).
  replace (Packet_copy packet) with packet by (by destruct packet).
  set (l1 := set_port_queue port (q0 ++ [packet]) (set_rand g l)).
  assert (forall w, queue_of w l1 = if port =? w then q0 ++ [packet] else queue_of w l) as Hq
    by (intros w; exact (queue_of_set port (q0 ++ [packet]) (set_rand g l) w)).
  assert (queue_of port l1 = q0 ++ [packet]) as Hqp by (rewrite Hq; by rewrite Z.eqb_refl).
  assert (forall w, w <> port -> queue_of w l1 = queue_of w l) as Hqo.
  { intros w Hne. rewrite Hq. by replace (port =? w) with false by (symmetry; apply Z.eqb_neq; lia). }
  assert (max_queue_length l <> 0 -> Z.of_nat (length (q0 ++ [packet])) <= max_queue_length l) as Hbound.
  { intros Hz. rewrite length_app. cbn [length]. specialize (Hlen Hz). lia. }
  pose proof (li_armed _ _ _ Hi port) as Har. unfold armed in Har.
  pose proof (li_avail _ _ _ Hi port) as Hav. pose proof (li_time _ _ _ Hi) as Hti.
  destruct (decide (q0 = [])) as [E0|E0].
  - rewrite (proj2 Hnil E0) in Har. replace (length _ =? 1)%nat with true by (by subst q0).
    destruct (post_live n id id (CheckQueue port) (wait_until (avail_of port l) (getCurrentTime s)) s1)
      as (s' & Ep & Hlive'); [done|lia|]. rewrite Ep. cbn [mbind Res_bind]. exists l1, s', q0. split; [done|].
    destruct (post_check_armed id port l1 _ (Z.max (avail_of port l) (currentTime s)) _ _ Ep) as [Har' Hoth].
    { by rewrite Hq1. } { rewrite Hqp. by destruct q0. } { rewrite Ht1. by apply wait_until_time. }
    { change (avail_of port l1) with (avail_of port l). lia. }
    destruct (post_inv _ _ _ _ _ _ Ep) as (_ & _ & _ & _ & _ & Htime & _).
    split; [|done]. eapply link_inv_update; try done; [by rewrite Htime, Ht1|].
    intros w Hw. rewrite Hoth by done. by rewrite Hq1.
  - replace (length _ =? 1)%nat with false; cycle 1.
    { symmetry. apply Nat.eqb_neq. rewrite length_app. destruct q0; [done|]. cbn. lia. }
    exists l1, s1, q0. split; [done|]. split; [|split; [by eapply live_le; [|exact Hlive1]; lia|done]].
    eapply link_inv_update; try done; [by rewrite Ht1| |intros; by rewrite Hq1].
    unfold armed. rewrite Hqp, Hq1. destruct q0; [done|]. cbn [app].
    destruct (queue_of port l) as [|] eqn:Eq; [|done]. by rewrite (proj1 Hnil eq_refl) in E0.
Qed.

(** *** [CHECK_QUEUE] *)

Lemma pcap_log_total now p l :
  0 <= snaplen l -> exists bs, pcap_log now p l = Ok (pcap_write bs l).
Proof.
  intros Hs. unfold pcap_log. destruct (pcap_enabled l) eqn:E.
  - set (n := Z.to_nat _). assert (n <= getSize p)%nat as Hn.
    { unfold n, pcap_header_for. cbn [incl_len]. unfold wrap.
      pose proof (Z.mod_le (Z.min (snaplen l) (Z.of_nat (getSize p))) (2 ^ 32)). lia. }
    destruct (decide (n = 0%nat)) as [E0|].
    + unfold readData. rewrite E0, Nat.min_0_l. cbn. eauto.
    + rewrite readData_in by lia. cbn. eauto.
  - exists []. unfold pcap_write. rewrite app_nil_r. by destruct l.
Qed.

(** The check that comes due finds a packet and a free line. *)
Lemma due_check id w l c rest (s : Sys) :
  link_inv id l s -> timerQueue s = c :: rest -> is_check id w c = true ->
  checks id w rest = [] /\ avail_of w l <= wakeup c /\ (exists p q, queue_of w l = p :: q) /\
  (forall w', w' <> w -> checks id w' rest = checks id w' (timerQueue s)).
Proof.
  intros Hi Hq Hc. pose proof (li_armed _ _ _ Hi w) as Har. unfold armed in Har. rewrite Hq in *.
  assert (checks id w (c :: rest) = c :: checks id w rest) as Ec.
  { unfold checks. by rewrite filter_cons_True. }
  rewrite Ec in Har. destruct (queue_of w l) as [|p q]; [done|].
  destruct Har as (c' & E & _ & Hav). injection E as <- Hnone. split; [done|]. split; [done|]. split; [by eexists _, _|].
  intros w' Hne. unfold checks. rewrite filter_cons_False; [done|].
  unfold is_check in *. intros E'. apply andb_true_iff in Hc as [_ Hc], E' as [_ E'].
  destruct (message c); try done. bool_to_prop. congruence.
Qed.

(** The second half of the handler: a new check when packets remain. *)
Lemma rearm_ok n id w l q now delay (s : Sys) :
  live n s -> 1 <= n -> currentTime s = now -> 0 <= now -> 0 <= delay -> now + delay < 2 ^ 64 ->
  queue_of w l = q -> avail_of w l = now + delay -> checks id w (timerQueue s) = [] ->
  exists s', match q with
    | [] => Ok s
    | _ => _ ← assert_that (wait_until (now + delay) now =? delay) "Link::messageReceived(wait)";
           post id id (CheckQueue w) (wait_until (now + delay) now) s
    end = Ok s' /\ live (n - 1) s' /\ currentTime s' = now /\
    (forall m, m ∈ timerQueue s -> m ∈ timerQueue s') /\ armed id l (timerQueue s') w /\
    (forall w', w' <> w -> checks id w' (timerQueue s') ≡ₚ checks id w' (timerQueue s)).
Proof.
  intros Hl Hn Ht H0 Hd Hov Hq Hav Hnone. destruct q as [|p q].
  - exists s. split; [done|]. split; [eapply live_le; [|done]; lia|]. split; [done|]. split; [done|].
    split; [|done]. unfold armed. by rewrite Hq.
  - assert (wait_until (now + delay) now = delay) as ->.
    { unfold wait_until. destruct (_ <? _) eqn:E; bool_to_prop; [|lia].
      rewrite wrap_small by (unfold is_u; lia). lia. }
    rewrite Z.eqb_refl. cbn [assert_that mbind Res_bind].
    destruct (post_live n id id (CheckQueue w) delay s) as (s' & E & Hl'); [done|lia|].
    exists s'. split; [done|]. split; [done|].
    destruct (post_inv _ _ _ _ _ _ E) as (_ & _ & Hq' & _ & _ & Ht' & _). split; [congruence|].
    split; [intros m Hm; rewrite Hq', pq_push_perm; by right|].
    apply (post_check_armed id w l delay (now + delay) _ _ E); auto; [by rewrite Hq| |lia].
    rewrite Ht. apply wrap_small. unfold is_u. lia.
Qed.

(** The transmission half of the handler: from the packet taken off the queue
    to the message on the wire. *)
Lemma check_queue_ok n id w l c rest p q delay (s : Sys) :
  link_inv id l s -> live n s -> 2 <= n -> 0 <= snaplen l ->
  timerQueue s = c :: rest -> is_check id w c = true -> 0 <= wakeup c ->
  queue_of w l = p :: q -> trans_delay (Z.of_nat (getSize p)) (bps l) = Ok delay ->
  wakeup c + delay < 2 ^ 64 ->
  exists l' s' u, check_queue id w l (set_time (wakeup c) (set_queue rest s)) = Ok (l', s') /\
    link_inv id l' s' /\ live (n - 2) s' /\ ports l' = ports l /\
    queue_of w l' = q /\ avail_of w l' = wakeup c + delay /\
    (forall w', w' <> w -> queue_of w' l' = queue_of w' l) /\
    mkTimer id w false (wakeup c + delay) (WireMessage PACKET_TO_PORT p) u ∈ timerQueue s'.
Proof.
  intros Hi Hlive Hn Hsnap Hq Hc H0 Hpq Hdel Hov.
  destruct (due_check _ _ _ _ _ _ Hi Hq Hc) as (Hnone & Hav & _ & Hoth).
  pose proof (trans_delay_range _ _ _ Hdel) as Hdr. unfold is_u in Hdr.
  unfold check_queue. rewrite Hpq. cbn [getCurrentTime currentTime set_time set_queue].
  replace (avail_of w l <=? wakeup c) with true by (symmetry; apply Z.leb_le; lia).
  change (bps (set_port_queue w q l)) with (bps l). rewrite Hdel. cbn [mbind Res_bind].
  rewrite (wrap_small 64 (wakeup c + delay)) by (unfold is_u; lia).
  set (l1 := set_port_avail w (wakeup c + delay) (set_port_queue w q l)).
  destruct (pcap_log_total (wakeup c) p l1) as [bs Ebs]; [done|]. rewrite Ebs. cbn [mbind Res_bind].
  set (l2 := pcap_write bs l1). set (s0 := set_time (wakeup c) (set_queue rest s)).
  destruct (post_live n id w (WireMessage PACKET_TO_PORT p) delay s0) as (s1 & E1 & Hl1); [done|lia|].
  rewrite E1. cbn [mbind Res_bind]. destruct (post_inv _ _ _ _ _ _ E1) as (_ & _ & Hq1 & _ & _ & Ht1 & _).
  assert (forall w', checks id w' (timerQueue s1) ≡ₚ checks id w' rest) as Hch1.
  { intros w'. rewrite Hq1. apply checks_push_other. unfold is_check. cbn. by rewrite andb_false_r. }
  set (m := mkTimer id w false (wakeup c + delay) (WireMessage PACKET_TO_PORT p) (currentUUID s ⊞ 1)).
  assert (m ∈ timerQueue s1) as Hm1.
  { rewrite Hq1, pq_push_perm. cbn. rewrite wrap_small by (unfold is_u; lia). left. }
  assert (forall w', queue_of w' l2 = if w =? w' then q else queue_of w' l) as Hql
    by (intros w'; exact (queue_of_set w q l w')).
  assert (avail_of w l2 = wakeup c + delay) as Hal.
  { transitivity (if w =? w then wakeup c + delay else avail_of w l); [|by rewrite Z.eqb_refl].
    exact (avail_of_set w (wakeup c + delay) (set_port_queue w q l) w). }
  assert (forall w', w' <> w -> avail_of w' l2 = avail_of w' l) as Hao.
  { intros w' Hne. transitivity (if w =? w' then wakeup c + delay else avail_of w' l);
      [exact (avail_of_set w (wakeup c + delay) (set_port_queue w q l) w')|].
    by replace (w =? w') with false by (symmetry; apply Z.eqb_neq; lia). }
  destruct (rearm_ok (n - 1) id w l2 q (wakeup c) delay s1) as (s2 & E2 & Hl2 & Ht2 & Hm2 & Har2 & Hch2);
    try done; try lia.
  { rewrite Hql. by rewrite Z.eqb_refl. }
  { specialize (Hch1 w). rewrite Hnone in Hch1. by apply Permutation_nil_r in Hch1. }
  rewrite E2. cbn [mbind Res_bind].
  exists l2, (destroy_packet p s2), (currentUUID s ⊞ 1). split; [done|].
  split; [|split; [apply destroy_live; eapply live_le; [|done]; lia|]].
  - eapply (link_inv_update id w q l l2); try done.
    + cbn. rewrite Ht2. unfold is_u. lia.
    + rewrite Hal. unfold is_u. lia.
    + intros Hz. pose proof (li_bound _ _ _ Hi w Hz) as Hb. rewrite Hpq in Hb. cbn [length] in Hb. lia.
    + intros w' Hne. cbn. rewrite (Hch2 w' Hne), (Hch1 w'). by rewrite Hoth.
  - split; [done|]. split; [by rewrite Hql, Z.eqb_refl|]. split; [done|]. split; [|by apply Hm2].
    intros w' Hne. rewrite Hql. by replace (w =? w') with false by (symmetry; apply Z.eqb_neq; lia).
Qed.

(** *** Broadcasting to several ports *)

(** The queue [q'] is [q] with a packet at its end whose content satisfies [P]; a queue that
    was full under the limit [max] has lost one packet and kept the order. *)
Definition appended (max : Z) (P : list Z -> Prop) (q q' : list Packet) : Prop :=
  exists q0 p, q' = q0 ++ [p] /\ P (buffer p) /\ sublist q0 q /\ (max = 0 -> q0 = q) /\
    (max <> 0 -> Z.of_nat (length q0) = Z.min (Z.of_nat (length q)) (max - 1)).

(** A packet with content [P] is appended to every selected queue; the others
    are untouched. *)
Definition forwarded (sel : Z -> bool) (P : list Z -> Prop) (l0 l1 : Link) : Prop :=
  max_queue_length l1 = max_queue_length l0 /\
  forall w, if sel w then appended (max_queue_length l0) P (queue_of w l0) (queue_of w l1)
            else queue_of w l1 = queue_of w l0.

Definition in_ports (sel : Z -> bool) (ps : list Z) (w : Z) : bool := bool_decide (w ∈ ps) && sel w.

(** Everything a loop over the ports needs of a state and preserves. *)
Record ready (n id : Z) (l : Link) (s : Sys) : Prop := {
  rd_inv : link_inv id l s;
  rd_room : room n s;
  rd_limit : max_queue_length l <> 1 /\ max_queue_length l < 2 ^ 53;
}.

(** One iteration for a selected port: clone, send, destroy. *)
Lemma forward_one n id port p l (s : Sys) (f : Packet -> Res Packet) (P : list Z -> Prop) :
  ready n id l s -> 1 <= n ->
  (forall q, buffer q = buffer p -> exists q', f q = Ok q' /\ P (buffer q') /\ packetID q' = packetID q) ->
  exists l' s', ('(s, q) ← clone_packet p s; q ← f q;
                 '(l, s) ← sendPacket id port q l s; Ok (l, destroy_packet q s)) = Ok (l', s') /\
    ready (n - 1) id l' s' /\ ports l' = ports l /\
    forwarded (fun w => w =? port) P l l'.
Proof.
  intros [Hi Hr [Hm Hm2]] Hn Hf. destruct (clone_room n p s Hr) as (r & q & E & Hb & Hid & Hl).
  rewrite E. cbn [mbind Res_bind]. destruct (Hf q Hb) as (q' & Ef & Hb' & Hid'). rewrite Ef. cbn [mbind Res_bind].
  destruct (sendPacket_ok n id port q' l (set_registry r s)) as (l' & s' & q0 & E' & Hi' & Hl' & Hp & Hm' & Hq & Hsub & Hinf & Hlen & Ho);
    [by destruct Hi | done | lia | lia | lia |].
  rewrite E'. cbn [mbind Res_bind]. eexists _, _. split; [reflexivity|]. split.
  - split; [by destruct Hi'| |by rewrite Hm']. apply destroy_room; [done|]. by rewrite Hid'.
  - split; [done|]. split; [done|]. intros w. destruct (w =? port) eqn:Ew; bool_to_prop; [|by apply Ho].
    subst w. by exists q0, q'.
Qed.

Lemma forwarded_step sel P ps port l0 l1 l2 :
  forwarded (fun w => (w =? port) && sel w) P l0 l1 -> port ∉ ps ->
  forwarded (in_ports sel ps) P l1 l2 -> forwarded (in_ports sel (port :: ps)) P l0 l2.
Proof.
  intros [M1 H1] Hn [M2 H2]. split; [congruence|]. intros w. specialize (H1 w). specialize (H2 w). rewrite M1 in H2.
  unfold in_ports in *. destruct (w =? port) eqn:Ew; bool_to_prop.
  - subst w. rewrite (bool_decide_eq_false_2 (port ∈ ps)) in H2 by done. cbn in H1, H2. rewrite H2.
    by rewrite bool_decide_eq_true_2 by (left).
  - cbn in H1. rewrite H1 in H2. rewrite (bool_decide_ext (w ∈ port :: ps) (w ∈ ps)); [done|].
    rewrite elem_of_cons. naive_solver.
Qed.

Lemma forwarded_none sel P l : (forall w, sel w = false) -> forwarded sel P l l.
Proof. intros H. split; [done|]. intros w. by rewrite H. Qed.

Lemma forwarded_ext sel sel' P l l' :
  (forall w, sel w = sel' w) -> forwarded sel P l l' -> forwarded sel' P l l'.
Proof. intros H [Hm Hf]. split; [done|]. intros w. rewrite <- H. apply Hf. Qed.

Lemma forwarded_mono sel (P P' : list Z -> Prop) l l' :
  (forall b, P b -> P' b) -> forwarded sel P l l' -> forwarded sel P' l l'.
Proof.
  intros H [Hm Hf]. split; [done|]. intros w. specialize (Hf w). destruct (sel w); [|done].
  destruct Hf as (q0 & p & E & Hp & Hr). exists q0, p. auto.
Qed.

(** The loop over the ports, for an object [O] that contains the link: each
    port is either skipped or gets one copy. *)
Lemma port_loop {O} (link : O -> Link) (body : Z -> O * Sys -> Res (O * Sys)) (sel : Z -> bool)
    (K : O -> Prop) (P : list Z -> Prop) id ps :
  NoDup ps ->
  (forall n port o s, K o -> ready n id (link o) s -> 1 <= n ->
     exists o' s', body port (o, s) = Ok (o', s') /\ K o' /\ ready (n - 1) id (link o') s' /\
       ports (link o') = ports (link o) /\
       forwarded (fun w => (w =? port) && sel w) P (link o) (link o')) ->
  forall n o s, K o -> ready n id (link o) s -> Z.of_nat (length ps) <= n ->
  exists o' s', foldM body ps (o, s) = Ok (o', s') /\ K o' /\
    ready (n - Z.of_nat (length ps)) id (link o') s' /\
    ports (link o') = ports (link o) /\
    forwarded (in_ports sel ps) P (link o) (link o').
Proof.
  intros Hnd Hbody. induction ps as [|port ps IH]; intros n o s HK Hr Hn; cbn [foldM length] in *.
  - exists o, s. split; [done|]. split; [done|]. split; [by rewrite Z.sub_0_r|]. split; [done|].
    by apply forwarded_none.
  - apply NoDup_cons in Hnd as [Hnin Hnd].
    destruct (Hbody n port o s HK Hr ltac:(lia)) as (o1 & s1 & E1 & HK1 & Hr1 & Hp1 & Hf1). rewrite E1.
    destruct (IH Hnd (n - 1) o1 s1 HK1 Hr1 ltac:(lia)) as (o2 & s2 & E2 & HK2 & Hr2 & Hp2 & Hf2).
    exists o2, s2. split; [done|]. split; [done|].
    split; [by replace (n - Z.of_nat (S (length ps))) with (n - 1 - Z.of_nat (length ps)) by lia|].
    split; [congruence|]. by eapply forwarded_step.
Qed.

Lemma ready_le n n' id l s : n' <= n -> ready n id l s -> ready n' id l s.
Proof. intros Hn [Hi [Hl Hf] Hm]. split; [done| |done]. split; [by eapply live_le | done]. Qed.

(** A loop body that clones, possibly edits and sends is [forward_one]. *)
Lemma hub_port_ok id inWireID p n port h (s : Sys) :
  ready n id (hub_link h) s -> 1 <= n ->
  exists h' s', hub_port id inWireID p port (h, s) = Ok (h', s') /\
    ready (n - 1) id (hub_link h') s' /\ ports (hub_link h') = ports (hub_link h) /\
    forwarded (fun w => (w =? port) && negb (inWireID =? w)) (eq (buffer p)) (hub_link h) (hub_link h').
Proof.
  intros Hr Hn. unfold hub_port. destruct (inWireID =? port) eqn:E; cbn [negb]; bool_to_prop.
  - exists h, s. split; [done|]. split; [by eapply ready_le; [|exact Hr]; lia|]. split; [done|].
    apply forwarded_none. intros w. subst. destruct (w =? port) eqn:Ew; bool_to_prop; subst; [|done].
    by rewrite Z.eqb_refl.
  - destruct (forward_one n id port p (hub_link h) s Ok (eq (buffer p)) Hr Hn) as (l' & s' & E1 & Hr' & Hp & Hf).
    { intros q Hq. by exists q. }
    exists (mkHub l'), s'. split.
    + destruct (clone_packet p s) as [[s1 q]|]; cbn in E1 |- *; [|discriminate].
      destruct (sendPacket id port q (hub_link h) s1) as [[l1 s2]|]; cbn in E1 |- *; [|discriminate].
      by simplify_eq.
    + split; [done|]. split; [done|]. eapply forwarded_ext; [|exact Hf]. intros w. cbn.
      destruct (w =? port) eqn:Ew; bool_to_prop; [|done]. subst.
      by replace (inWireID =? port) with false by (symmetry; apply Z.eqb_neq; lia).
Qed.

(** *** The switch *)

(** The ports a switch sends a packet to in its first loop. *)
Definition known (inWireID mac_int : Z) (w : Switch) (port : Z) : bool :=
  negb (inWireID =? port) && mac_match mac_int port w.

(** What [corrupt] does to the content of a packet. *)
Definition corrupted (b : list Z) : list Z :=
  match corrupt (mkPacket b 0) with Ok p => buffer p | Err _ => b end.

Lemma corrupt_content q : exists q', corrupt q = Ok q' /\ buffer q' = corrupted (buffer q) /\ packetID q' = packetID q.
Proof.
  unfold corrupted, corrupt, getSize. cbn [buffer]. change (14 + 20 + 20 + 4)%nat with 58%nat. change (14 + 20 + 20)%nat with 54%nat.
  destruct (58 <=? length (buffer q))%nat eqn:E58; bool_to_prop.
  - rewrite !readInto_in by (unfold getSize; cbn [buffer]; lia). cbn [mbind Res_bind buffer]. set (v := u32_bytes _).
    rewrite !writeInto_in by (unfold v, getSize; cbn [buffer length u32_bytes u16_bytes]; done || lia). by eexists.
  - destruct (54 <=? length (buffer q))%nat eqn:E54; bool_to_prop; [|by exists q].
    rewrite !readInto_in by (unfold getSize; cbn [buffer]; lia). cbn [mbind Res_bind buffer]. set (v := u16_bytes _).
    rewrite !writeInto_in by (unfold v, getSize; cbn [buffer length u32_bytes u16_bytes]; done || lia). by eexists.
Qed.

(** A damaged TCP segment: only the first four bytes of its payload change, or
    its checksum when it has no payload, and they do change; a packet too short
    for a segment is not damaged. *)
Definition damaged (b b' : list Z) : Prop :=
  length b' = length b /\ ((length b < 54)%nat -> b' = b) /\
  ((54 <= length b)%nat -> b' <> b) /\
  forall i, b' !! i <> b !! i -> if (58 <=? length b)%nat then (54 <= i < 58)%nat else (50 <= i < 52)%nat.

Lemma write_damages (b : list Z) pos v n :
  length v = n -> (pos + n <= length b)%nat -> slice pos n b <> v ->
  length (write_at pos v b) = length b /\ write_at pos v b <> b /\
  forall i, write_at pos v b !! i <> b !! i -> (pos <= i < pos + n)%nat.
Proof.
  intros <- Hn Hv. split; [by rewrite length_write_at|]. split.
  - intros E. apply Hv. rewrite <- E. apply slice_write_same. lia.
  - intros i Hi. destruct (decide (pos <= i < pos + length v)%nat) as [|Hout]; [done|]. exfalso. apply Hi.
    apply lookup_write_at_out; lia.
Qed.

Lemma corrupted_damaged b : damaged b (corrupted b).
Proof.
  unfold corrupted, corrupt, getSize. cbn [buffer]. change (14 + 20 + 20 + 4)%nat with 58%nat. change (14 + 20 + 20)%nat with 54%nat.
  unfold damaged. destruct (58 <=? length b)%nat eqn:E58; bool_to_prop.
  - rewrite readInto_in by (unfold getSize; cbn [buffer]; lia). cbn [mbind Res_bind buffer]. set (v := u32_bytes _).
    rewrite writeInto_in by (unfold v, getSize; cbn [buffer length u32_bytes u16_bytes]; done || lia). cbn [buffer].
    destruct (write_damages b 54 v 4) as (H1 & H2 & H3); [done|lia| |by split; [|split; [lia|]]].
    unfold v. case_bool_decide as Hd; [by rewrite Hd|done].
  - destruct (54 <=? length b)%nat eqn:E54; bool_to_prop; [|by split; [|split; [|split; [lia|]]]].
    rewrite readInto_in by (unfold getSize; cbn [buffer]; lia). cbn [mbind Res_bind buffer]. set (v := u16_bytes _).
    rewrite writeInto_in by (unfold v, getSize; cbn [buffer length u32_bytes u16_bytes]; done || lia). cbn [buffer].
    destruct (write_damages b 50 v 2) as (H1 & H2 & H3); [done|lia| |by split; [|split; [lia|]]].
    unfold v. case_bool_decide as Hd; [by rewrite Hd|done].
Qed.

(** What a switch may send: the packet, or, when it is unreliable, the
    corrupted packet. *)
Definition sent_as (w : Switch) (p : Packet) (b : list Z) : Prop :=
  b = buffer p \/ (unreliable w = true /\ b = corrupted (buffer p)).

(** The probability that the next copy is corrupted, from the last one. *)
Definition next_rate (w : Switch) (b : Real) : Real :=
  if Rltb b (drop_base_limit w) then drop_base_final w else Rsub b (drop_base_diff w).

(** What stays the same while a switch works. *)
Record like (w0 w : Switch) : Prop := {
  lk_unreliable : unreliable w = unreliable w0;
  lk_table : mac_table w = mac_table w0;
  lk_rate b : next_rate w b = next_rate w0 b;
}.

Lemma known_like inWireID mac_int w0 w port :
  like w0 w -> known inWireID mac_int w port = known inWireID mac_int w0 port.
Proof. intros [_ H _]. unfold known, mac_match. by rewrite H. Qed.

(** The number of random decisions for [n] copies. *)
Definition decisions (w : Switch) (n : nat) : nat := if unreliable w then n else 0.

Lemma drop_decision_spec w0 w d w1 :
  like w0 w -> drop_decision w = (d, w1) ->
  like w0 w1 /\ sw_link w1 = sw_link w /\ (d = true -> unreliable w0 = true) /\
  drop_base w1 = Nat.iter (decisions w0 1) (next_rate w0) (drop_base w).
Proof.
  intros Hl. pose proof Hl as [H1 H2 H3]. unfold drop_decision, decisions. rewrite H1. destruct (unreliable w0) eqn:Eu.
  - destruct (nextDistribution _ _ _ _) as [v g]. intros [= <- <-]. split; [constructor; [by rewrite Eu|done|done]|]. split; [done|].
    split; [done|]. exact (H3 (drop_base w)).
  - intros [= <- <-]. done.
Qed.

Lemma switch_port_ok id inWireID mac_int p w0 n port f w (s : Sys) :
  like w0 w -> ready n id (sw_link w) s -> 1 <= n ->
  exists w' s', switch_port id inWireID mac_int p port (f, w, s) =
      Ok (f || known inWireID mac_int w0 port, w', s') /\
    like w0 w' /\ ready (n - 1) id (sw_link w') s' /\
    ports (sw_link w') = ports (sw_link w) /\
    drop_base w' = Nat.iter (decisions w0 (if known inWireID mac_int w0 port then 1 else 0)) (next_rate w0) (drop_base w) /\
    forwarded (fun x => (x =? port) && known inWireID mac_int w0 x) (sent_as w0 p) (sw_link w) (sw_link w').
Proof.
  intros Hlike Hr Hn. pose proof (known_like inWireID mac_int w0 w port Hlike) as Ek.
  assert (forall x, (x =? port) && known inWireID mac_int w0 x = (x =? port) && known inWireID mac_int w port) as Hk.
  { intros x. destruct (x =? port) eqn:E; bool_to_prop; [|done]. by subst. }
  unfold switch_port. destruct (known inWireID mac_int w0 port) eqn:E0; unfold known in Ek, Hk.
  2:{ exists w, s. rewrite orb_false_r. split; [by destruct (negb _), (mac_match mac_int port w)|]. split; [done|].
      split; [eapply ready_le; [|exact Hr]; lia|]. split; [done|]. split; [unfold decisions; by destruct (unreliable w0)|].
      apply forwarded_none. intros x. rewrite Hk, Ek. apply andb_false_r. }
  apply andb_true_iff in Ek as [E1 E2]. rewrite E1, E2 in *. destruct (drop_decision w) as [d w1] eqn:Ed.
  destruct (drop_decision_spec w0 w d w1 Hlike Ed) as (Hl1 & Esw & Hdrop & Hrate). rewrite <- Esw in Hr.
  destruct (forward_one n id port p (sw_link w1) s (fun q => if d then corrupt q else Ok q) (sent_as w0 p) Hr Hn)
    as (l' & s' & E & Hr' & Hp & Hf).
  { intros q Hq. destruct d; [|exists q; split; [done|]; split; [by left|done]].
    destruct (corrupt_content q) as (q' & Ec & Hb & Hid). exists q'. split; [done|]. split; [|done]. right. rewrite Hb, Hq. auto. }
  exists (set_sw_link l' w1), s'. rewrite orb_true_r. split.
  - destruct (clone_packet p s) as [[s1 q]|]; cbn in E |- *; [|discriminate].
    destruct (if d then corrupt q else Ok q) as [q'|]; cbn in E |- *; [|discriminate].
    destruct (sendPacket id port q' (sw_link w1) s1) as [[l1 s2]|]; cbn in E |- *; [|discriminate]. by simplify_eq.
  - split; [by destruct Hl1|]. split; [done|]. split; [cbn; by rewrite Hp, Esw|]. split; [exact Hrate|]. rewrite <- Esw.
    eapply forwarded_ext; [|exact Hf]. intros x. cbn. by rewrite Hk, andb_true_r.
Qed.

Lemma flood_port_ok id inWireID p n port w (s : Sys) :
  ready n id (sw_link w) s -> 1 <= n ->
  exists w' s', flood_port id inWireID p port (w, s) = Ok (w', s') /\ drop_base w' = drop_base w /\
    ready (n - 1) id (sw_link w') s' /\ ports (sw_link w') = ports (sw_link w) /\
    forwarded (fun x => (x =? port) && negb (inWireID =? x)) (eq (buffer p)) (sw_link w) (sw_link w').
Proof.
  intros Hr Hn. destruct (hub_port_ok id inWireID p n port (mkHub (sw_link w)) s Hr Hn) as (h' & s' & E & Hr' & Hp & Hf).
  exists (set_sw_link (hub_link h') w), s'. split; [|done].
  unfold flood_port. unfold hub_port in E. cbn [hub_link] in E. destruct (negb _).
  - destruct (clone_packet p s) as [[s1 q]|]; cbn in E |- *; [|discriminate].
    destruct (sendPacket id port q (sw_link w) s1) as [[l1 s2]|]; cbn in E |- *; [|discriminate]. by simplify_eq.
  - simplify_eq. cbn. by destruct w.
Qed.

Lemma decisions_add w n m : decisions w (n + m) = (decisions w n + decisions w m)%nat.
Proof. unfold decisions. by destruct (unreliable w). Qed.

(** The number of ports that know an address. *)
Definition known_count (inWireID mac_int : Z) (w : Switch) (ps : list Z) : nat :=
  length (filter (fun x => known inWireID mac_int w x = true) ps).

Lemma known_count_cons inWireID mac_int w x ps :
  known_count inWireID mac_int w (x :: ps) =
  ((if known inWireID mac_int w x then 1 else 0) + known_count inWireID mac_int w ps)%nat.
Proof. unfold known_count. rewrite filter_cons. destruct (known inWireID mac_int w x); by case_decide. Qed.

(** The first loop with its [found] flag. *)
Lemma switch_loop_ok id inWireID mac_int p w0 ps n f w (s : Sys) :
  NoDup ps -> like w0 w -> ready n id (sw_link w) s -> Z.of_nat (length ps) <= n ->
  exists w' s', foldM (switch_port id inWireID mac_int p) ps (f, w, s) =
      Ok (f || existsb (known inWireID mac_int w0) ps, w', s') /\
    like w0 w' /\ ready (n - Z.of_nat (length ps)) id (sw_link w') s' /\
    ports (sw_link w') = ports (sw_link w) /\
    drop_base w' = Nat.iter (decisions w0 (known_count inWireID mac_int w0 ps)) (next_rate w0) (drop_base w) /\
    forwarded (in_ports (known inWireID mac_int w0) ps) (sent_as w0 p) (sw_link w) (sw_link w').
Proof.
  intros Hnd. revert n f w s. induction ps as [|port ps IH]; intros n f w s Hlike Hr Hn; cbn [foldM length existsb] in *.
  - exists w, s. rewrite orb_false_r, Z.sub_0_r. do 4 (split; [done|]). split; [|by apply forwarded_none].
    unfold decisions. by destruct (unreliable w0).
  - apply NoDup_cons in Hnd as [Hnin Hnd].
    destruct (switch_port_ok id inWireID mac_int p w0 n port f w s Hlike Hr ltac:(lia)) as (w1 & s1 & -> & Hl1 & Hr1 & Hp1 & Hd1 & Hf1).
    destruct (IH Hnd (n - 1) (f || known inWireID mac_int w0 port)%bool w1 s1 Hl1 Hr1 ltac:(lia))
      as (w2 & s2 & -> & Hl2 & Hr2 & Hp2 & Hd2 & Hf2).
    exists w2, s2. rewrite orb_assoc. split; [done|]. split; [done|].
    split; [by replace (n - Z.of_nat (S (length ps))) with (n - 1 - Z.of_nat (length ps)) by lia|].
    split; [congruence|]. split; [|by eapply forwarded_step].
    rewrite known_count_cons, Nat.add_comm, decisions_add, Nat.iter_add, <- Hd1. exact Hd2.
Qed.

(** The ports a frame is addressed to, by its destination address [dst]: those
    with an entry for it, and all for the broadcast address, but not the one it
    comes from. *)
Definition addressed (inWireID : Z) (dst : list Z) (w : Switch) (port : Z) : bool :=
  negb (inWireID =? port) &&
  (bool_decide (dst = replicate 6 255) || bool_decide (arrayToUINT64 dst ∈ default ∅ (mac_table w !! port))).

Lemma existsb_ext {A} (f g : A -> bool) l : (forall x, f x = g x) -> existsb f l = existsb g l.
Proof. intros H. induction l as [|x l IH]; [done|]. cbn. by rewrite H, IH. Qed.

Lemma known_addressed inWireID dst w port :
  byte_list dst -> length dst = 6%nat -> known inWireID (arrayToUINT64 dst) w port = addressed inWireID dst w port.
Proof.
  intros Hb Hl. unfold known, addressed, mac_match. f_equal. f_equal.
  - apply eq_true_iff_eq. rewrite Z.eqb_eq, bool_decide_eq_true. split; [|by intros ->].
    intros E. apply arrayToUINT64_inj in E; [exact E|done|by apply (bool_decide_unpack _)|done|lia].
  - by destruct (mac_table w !! port).
Qed.

Lemma switch_forwards_known id inWireID p w (s : Sys) :
  ready (2 * Z.of_nat (length (ports (sw_link w)))) id (sw_link w) s -> NoDup (ports (sw_link w)) ->
  (6 <= getSize p)%nat ->
  let mac_int := arrayToUINT64 (slice 0 6 (buffer p)) in
  let any_known := existsb (known inWireID mac_int w) (ports (sw_link w)) in
  exists w' s', messageReceived id inWireID (WireMessage PACKET_FROM_PORT p) w s = Ok (w', s') /\
    link_inv id (sw_link w') s' /\
    forwarded (fun x => bool_decide (x ∈ ports (sw_link w)) && negb (inWireID =? x) &&
                        (negb any_known || mac_match mac_int x w))
      (if (any_known && unreliable w)%bool then fun b => b = buffer p \/ b = corrupted (buffer p) else eq (buffer p))
      (sw_link w) (sw_link w') /\
    drop_base w' = Nat.iter (decisions w (known_count inWireID mac_int w (ports (sw_link w)))) (next_rate w) (drop_base w).
Proof.
  intros Hr Hnd Hsz mac_int any_known. unfold messageReceived, packetArrived, SwitchClass, switch_packetArrived.
  rewrite readInto_in by lia. cbn [mbind Res_bind]. fold mac_int.
  destruct (switch_loop_ok id inWireID mac_int p w (ports (sw_link w)) _ false w s Hnd ltac:(done) Hr ltac:(lia))
    as (w1 & s1 & E1 & Hl1 & Hr1 & Hp1 & Hd1 & Hf1).
  rewrite E1. cbn [mbind Res_bind orb]. fold any_known. destruct any_known eqn:Ek; cbn [negb orb andb].
  - exists w1, s1. split; [done|]. split; [apply Hr1|]. split; [|exact Hd1].
    eapply forwarded_ext; [|eapply forwarded_mono; [|exact Hf1]].
    + intros x. unfold in_ports, known. by rewrite andb_assoc.
    + intros b [->|[Hu ->]]; [|rewrite Hu; by right]. destruct (unreliable w); [by left|done].
  - rewrite Hp1.
    destruct (port_loop sw_link (flood_port id inWireID p) (fun x => negb (inWireID =? x)) (fun o => drop_base o = drop_base w1)
      (eq (buffer p)) id (ports (sw_link w)) Hnd) with (n := Z.of_nat (length (ports (sw_link w)))) (o := w1) (s := s1)
      as (w2 & s2 & E2 & Hd2 & Hr2 & _ & Hf2); auto; [|eapply ready_le; [|exact Hr1]; lia|lia|].
    { intros n port o s0 Hd Hr0 Hn. destruct (flood_port_ok id inWireID p n port o s0 Hr0 Hn) as (o' & s' & ? & Ho & ? & ? & ?).
      exists o', s'. split; [done|]. split; [congruence|done]. }
    exists w2, s2. split; [done|]. split; [apply Hr2|]. split; [|by rewrite Hd2].
    destruct Hf1 as [M1 Hf1], Hf2 as [M2 Hf2].
    split; [congruence|]. intros x. specialize (Hf1 x). specialize (Hf2 x). rewrite M1 in Hf2.
    assert (in_ports (known inWireID mac_int w) (ports (sw_link w)) x = false) as E.
    { apply not_true_is_false. unfold in_ports. rewrite andb_true_iff, bool_decide_eq_true. intros [Hin Hk].
      assert (any_known = true); [|congruence]. apply existsb_exists. exists x. split; [by apply list_elem_of_In | done]. }
    rewrite E in Hf1. rewrite Hf1 in Hf2. by rewrite andb_true_r.
Qed.


(** *** Reading a capture file back *)

Definition le32 (l : list Z) : option (Z * list Z) :=
  match l with
  | a :: b :: c :: d :: l => Some (a + 256 * b + 65536 * c + 16777216 * d, l)
  | _ => None
  end.

(** A reader of one record: its header, its data and the rest of the file. *)
Definition parse_record (l : list Z) : option (pcap_packet_header * list Z * list Z) :=
  '(sec, l) ← le32 l;
  '(nsec, l) ← le32 l;
  '(incl, l) ← le32 l;
  '(orig, l) ← le32 l;
  if (Z.to_nat incl <=? length l)%nat
  then Some (mkPcapHeader sec nsec incl orig, take (Z.to_nat incl) l, drop (Z.to_nat incl) l)
  else None.

Lemma le32_u32_bytes x rest : is_u 32 x -> le32 (u32_bytes x ++ rest) = Some (x, rest).
Proof.
  intros [H0 H1]. unfold le32, u32_bytes. cbn [app]. f_equal. f_equal.
  change 0xFF with (Z.ones 8). rewrite !Z.land_ones, !Z.shiftr_div_pow2 by lia.
  change (2 ^ 8) with 256. change (2 ^ 16) with (256 * 256). change (2 ^ 24) with (256 * (256 * 256)).
  rewrite <- !Z.div_div by lia.
  pose proof (Z.div_mod x 256 ltac:(lia)). pose proof (Z.div_mod (x / 256) 256 ltac:(lia)).
  pose proof (Z.div_mod (x / 256 / 256) 256 ltac:(lia)).
  assert (0 <= x / 256 / 256 / 256 < 256).
  { rewrite !Z.div_div by lia. split; [apply Z.div_pos; lia | apply Z.div_lt_upper_bound; lia]. }
  rewrite (Z.mod_small (x / 256 / 256 / 256)) by lia. lia.
Qed.

Lemma parse_header h l :
  is_u 32 (ts_sec h) -> is_u 32 (ts_usec h) -> is_u 32 (incl_len h) -> is_u 32 (orig_len h) ->
  (Z.to_nat (incl_len h) <= length l)%nat ->
  parse_record (pcap_packet_header_bytes h ++ l) =
  Some (h, take (Z.to_nat (incl_len h)) l, drop (Z.to_nat (incl_len h)) l).
Proof.
  intros H1 H2 H3 H4 Hl. unfold parse_record, pcap_packet_header_bytes. rewrite <- !app_assoc.
  do 4 (rewrite le32_u32_bytes by done; cbn [mbind option_bind]).
  replace (_ <=? _)%nat with true by (symmetry; apply Nat.leb_le; lia). by destruct h.
Qed.

(** Overwriting a field with one of two values, whichever differs from its
    content. *)
Lemma overwrite_field (o : nat) (d b1 b2 : list Z) (p : Packet) :
  length b1 = length d -> length b2 = length d -> b1 <> b2 -> d <> [] ->
  (o + length d <= getSize p)%nat -> slice o (length d) (buffer p) = d ->
  exists p', writeInto o (if bool_decide (d = b1) then b2 else b1) p = Ok p' /\
    getSize p' = getSize p /\ packetID p' = packetID p /\ buffer p' <> buffer p /\
    forall i, ~ (o <= i < o + length d)%nat -> buffer p' !! i = buffer p !! i.
Proof.
  intros H1 H2 Hne Hnil Hsz Hsl. set (v := if bool_decide (d = b1) then b2 else b1).
  assert (length v = length d /\ v <> d) as [Hv1 Hv2].
  { unfold v. destruct (bool_decide _) eqn:E; bool_to_prop; split; congruence. }
  assert (v <> []) by (destruct v; [by destruct d | done]).
  eexists. split; [apply writeInto_in; [lia | done]|]. unfold getSize in *. cbn [buffer packetID].
  split; [by rewrite length_write_at by lia|]. split; [done|]. split.
  - intros E. apply Hv2. rewrite <- (slice_write_same o v (buffer p)) by lia. by rewrite E, Hv1.
  - intros i Hi. apply lookup_write_at_out; lia.
Qed.

(** ** Properties *)

(** C9: queueing a packet on a link never fails its assertions and keeps the
    invariant of the output queues (bounded queues; a check scheduled exactly
    for the non-empty ones, once, and not before the line is free), for any
    queue limit below [2 ^ 53] but one packet, with the random position
    computed in double precision as the code does; the new packet is last; nothing is dropped
    while the queue is unlimited or not full; a full queue loses exactly one
    packet and keeps the order of the rest; other wires are untouched. *)
Theorem sendPacket_safe id port packet l (s : Sys) :
  link_inv id l s -> live 1 s -> max_queue_length l <> 1 ->
  max_queue_length l < 2 ^ 53 ->
  exists l' s' q0, sendPacket id port packet l s = Ok (l', s') /\ link_inv id l' s' /\
    queue_of port l' = q0 ++ [packet] /\ sublist q0 (queue_of port l) /\
    (max_queue_length l = 0 -> q0 = queue_of port l) /\
    (max_queue_length l <> 0 ->
     Z.of_nat (length q0) = Z.min (Z.of_nat (length (queue_of port l))) (max_queue_length l - 1)) /\
    (forall w, w <> port -> queue_of w l' = queue_of w l).
Proof.
  intros Hi Hl Hm Hd.
  destruct (sendPacket_ok 1 id port packet l s Hi Hl ltac:(lia) Hm Hd)
    as (l' & s' & q0 & E & Hi' & _ & _ & _ & H1 & H2 & H3 & H4 & H5).
  exists l', s', q0. done.
Qed.

(** C8: a due [CHECK_QUEUE] always makes progress: in any state that
    satisfies the invariant, the handler finds the queue non-empty and the
    line free, sends the head packet to the wire with exactly its transmission
    delay, marks the line busy until then, and leaves a state that again
    satisfies the invariant (in particular the next check is armed when
    packets remain); none of its assertions fails. *)
Theorem check_queue_transmits id w l c rest (s : Sys) :
  link_inv id l s -> live 2 s -> 0 <= snaplen l ->
  timerQueue s = c :: rest -> is_check id w c = true -> 0 <= wakeup c ->
  (forall p, p ∈ queue_of w l -> exists delay,
     trans_delay (Z.of_nat (getSize p)) (bps l) = Ok delay /\ wakeup c + delay < 2 ^ 64) ->
  exists l' s' p q delay u,
    check_queue id w l (set_time (wakeup c) (set_queue rest s)) = Ok (l', s') /\
    link_inv id l' s' /\ queue_of w l = p :: q /\ queue_of w l' = q /\
    trans_delay (Z.of_nat (getSize p)) (bps l) = Ok delay /\
    avail_of w l' = wakeup c + delay /\
    (mkTimer id w false (wakeup c + delay) (WireMessage PACKET_TO_PORT p) u ∈ timerQueue s') /\
    (forall w', w' <> w -> queue_of w' l' = queue_of w' l).
Proof.
  intros Hi Hl Hs Hq Hc H0 Hd. destruct (due_check _ _ _ _ _ _ Hi Hq Hc) as (_ & _ & (p & q & Hpq) & _).
  destruct (Hd p) as (delay & Hdel & Hov); [rewrite Hpq; left|].
  destruct (check_queue_ok 2 id w l c rest p q delay s Hi Hl ltac:(lia) Hs Hq Hc H0 Hpq Hdel Hov)
    as (l' & s' & u & E & Hi' & _ & _ & H1 & H2 & H3 & H4).
  exists l', s', p, q, delay, u. done.
Qed.

(** a hub repeats: an arriving packet is appended, byte for byte and
    exactly once, to the queue of every port except the one it came from, and
    the queues keep their invariant. *)
Theorem hub_floods id inWireID p h (s : Sys) :
  ready (Z.of_nat (length (ports (hub_link h)))) id (hub_link h) s -> NoDup (ports (hub_link h)) ->
  exists h' s', messageReceived id inWireID (WireMessage PACKET_FROM_PORT p) h s = Ok (h', s') /\
    link_inv id (hub_link h') s' /\
    forwarded (fun w => bool_decide (w ∈ ports (hub_link h)) && negb (inWireID =? w)) (eq (buffer p))
      (hub_link h) (hub_link h').
Proof.
  intros Hr Hnd. unfold messageReceived, packetArrived, HubClass, hub_packetArrived.
  destruct (port_loop hub_link (hub_port id inWireID p) (fun w => negb (inWireID =? w)) (fun _ => True)
    (eq (buffer p)) id (ports (hub_link h)) Hnd) with (n := Z.of_nat (length (ports (hub_link h)))) (o := h) (s := s)
    as (h' & s' & E & _ & Hr' & _ & Hf); auto; [|lia|].
  { intros n port o s0 _ Hr0 Hn. destruct (hub_port_ok id inWireID p n port o s0 Hr0 Hn) as (o' & s' & ? & ? & ? & ?).
    exists o', s'. done. }
  exists h', s'. split; [done|]. split; [apply Hr' | exact Hf].
Qed.

(** C10: a switch forwards by destination address: a packet goes exactly once
    to the ports (other than the one it came from) that registered its
    destination address, to all of them when the address is the broadcast
    address, and is flooded to all of them when no port knows the address; it
    never returns to the port it came from.  A reliable switch and a flooding
    one send the packet byte for byte, an unreliable one sends it
    unchanged or damaged, after one random decision per copy, which lowers the
    rate of corruption.  The queues may be limited: a full one makes room by losing one
    packet. *)
Theorem switch_forwards id inWireID p w (s : Sys) :
  ready (2 * Z.of_nat (length (ports (sw_link w)))) id (sw_link w) s -> NoDup (ports (sw_link w)) ->
  (6 <= getSize p)%nat -> byte_list (buffer p) ->
  let dest := addressed inWireID (slice 0 6 (buffer p)) w in
  let any := existsb dest (ports (sw_link w)) in
  exists w' s', messageReceived id inWireID (WireMessage PACKET_FROM_PORT p) w s = Ok (w', s') /\
    link_inv id (sw_link w') s' /\
    forwarded (fun x => bool_decide (x ∈ ports (sw_link w)) && (if any then dest x else negb (inWireID =? x)))
      (if (any && unreliable w)%bool then fun b => b = buffer p \/ damaged (buffer p) b else eq (buffer p))
      (sw_link w) (sw_link w') /\
    drop_base w' = Nat.iter (decisions w (length (filter (fun x => dest x = true) (ports (sw_link w))))) (next_rate w) (drop_base w).
Proof.
  intros Hr Hnd Hsz Hb dest any. destruct (switch_forwards_known id inWireID p w s Hr Hnd Hsz) as (w' & s' & E & Hi & Hf & Hd).
  assert (forall x, known inWireID (arrayToUINT64 (slice 0 6 (buffer p))) w x = dest x) as Ek.
  { intros x. apply known_addressed; [by apply Forall_slice|]. unfold getSize in Hsz. rewrite length_slice; lia. }
  assert (existsb (known inWireID (arrayToUINT64 (slice 0 6 (buffer p))) w) (ports (sw_link w)) = any) as Ea.
  { by apply existsb_ext. }
  exists w', s'. split; [done|]. split; [done|]. split.
  - rewrite Ea in Hf. eapply forwarded_ext; [|eapply forwarded_mono; [|exact Hf]].
    + intros x. rewrite <- Ek. unfold known. rewrite <- andb_assoc. f_equal. destruct any; cbn [negb orb]; [done|]. by rewrite andb_true_r.
    + intros b. destruct (any && unreliable w)%bool; [|done]. intros [->| ->]; [by left|right; apply corrupted_damaged].
  - rewrite Hd. f_equal. f_equal. unfold known_count. f_equal. apply list_filter_iff. intros x. by rewrite Ek.
Qed.

(** the rate of corruption of a new unreliable switch falls from copy to
    copy: the [n]-th decision compares its draw with a rate that is
    [1 - n / 10], up to one percent of rounding, for the first nine decisions,
    and exactly the double [0.01] from the tenth on; each rate is below the one
    before until then.  A copy is corrupted exactly when the draw is below. *)
Theorem corruption_rate_settles seed1 seed2 :
  let w := Switch_new seed1 seed2 true in
  let rate n := Nat.iter n (next_rate w) (drop_base w) in
  (forall n, (1 <= n <= 9)%nat ->
     Rltb (lit (100 - 10 * Z.of_nat n - 1) 100) (rate n) = true /\
     Rltb (rate n) (lit (100 - 10 * Z.of_nat n + 1) 100) = true) /\
  (forall n, (n < 10)%nat -> Rltb (rate (S n)) (rate n) = true) /\
  (forall n, (10 <= n)%nat -> rate n = lit 1 100) /\
  (forall w1, like w w1 -> drop_decision w1 =
     let '(val, g) := nextDistribution UniformDistribution Rzero Rone (dist w1) in
     (Rltb val (next_rate w (drop_base w1)), set_sw_drop g (next_rate w (drop_base w1)) w1)).
Proof.
  intros w rate. assert (forall n, rate n = Nat.iter n (fun b => if Rltb b (lit 15 100) then lit 1 100 else Rsub b (lit 1 10)) (Real_of_Z 1)) as E.
  { intros n. reflexivity. }
  split; [|split; [|split]].
  - intros n Hn. rewrite E. do 10 (destruct n as [|n]; [first [lia | vm_compute; split; reflexivity]|]). lia.
  - intros n Hn. rewrite !E. do 10 (destruct n as [|n]; [vm_compute; reflexivity|]). lia.
  - intros n Hn. replace n with (n - 10 + 10)%nat by lia. rewrite E, Nat.iter_add.
    set (f := fun b => _). set (x := Nat.iter 10 f _).
    induction (n - 10)%nat as [|m IH]; [vm_compute; reflexivity|].
    change (Nat.iter (S m) f x) with (f (Nat.iter m f x)). rewrite IH. vm_compute. reflexivity.
  - intros w1 [H1 H2 H3]. unfold drop_decision. rewrite H1. change (unreliable w) with true. cbv iota.
    destruct (nextDistribution _ _ _ _) as [v g]. by rewrite <- !H3.
Qed.

(** a packet capture can be read back: each transmitted packet appends
    to the log one record whose header holds the virtual time split into
    seconds and nanoseconds, the captured length [min(snaplen, size)] and the
    original length, followed by exactly that prefix of the packet. *)
Theorem pcap_record_roundtrip now p l rest :
  pcap_enabled l = true -> 0 <= snaplen l -> 0 <= now < 2 ^ 32 * 10 ^ 9 -> Z.of_nat (getSize p) < 2 ^ 32 ->
  exists l' rec h, pcap_log now p l = Ok l' /\ pcap_file l' = pcap_file l ++ rec /\
    parse_record (rec ++ rest) = Some (h, take (Z.to_nat (incl_len h)) (buffer p), rest) /\
    ts_sec h * 10 ^ 9 + ts_usec h = now /\ 0 <= ts_usec h < 10 ^ 9 /\
    incl_len h = Z.min (snaplen l) (Z.of_nat (getSize p)) /\ orig_len h = Z.of_nat (getSize p).
Proof.
  intros Hen Hs Hnow Hsz. unfold pcap_log. rewrite Hen. set (h := pcap_header_for now p l).
  assert (getTime now SEC = now / 10 ^ 9 /\ getTime now NSEC = now) as [E1 E2].
  { unfold getTime. destruct getMultiplier_values as (-> & _ & _ & -> & _). split; [done|]. apply Z.div_1_r. }
  assert (is_u 32 (now / 10 ^ 9)).
  { split; [apply Z.div_pos; lia | apply Z.div_lt_upper_bound; lia]. }
  assert (0 <= now mod 10 ^ 9 < 10 ^ 9) by (apply Z.mod_pos_bound; lia).
  assert (ts_sec h = now / 10 ^ 9 /\ ts_usec h = now mod 10 ^ 9) as [Es En].
  { unfold h, pcap_header_for. cbn [ts_sec ts_usec]. rewrite E1, E2. change 1000000000 with (10 ^ 9).
    rewrite !wrap_small; [done| unfold is_u; lia | done]. }
  assert (incl_len h = Z.min (snaplen l) (Z.of_nat (getSize p)) /\ orig_len h = Z.of_nat (getSize p)) as [Ei Eo].
  { unfold h, pcap_header_for. cbn [incl_len orig_len]. rewrite !wrap_small by (unfold is_u; lia). done. }
  set (n := Z.to_nat (incl_len h)).
  assert (n <= getSize p)%nat as Hn by (unfold n; rewrite Ei; lia).
  assert (exists k, readData 0 n p = Ok (take n (buffer p), k)) as [k Ek].
  { destruct (decide (n = 0%nat)) as [->|]; [|rewrite readData_in by lia; by eexists].
    unfold readData. rewrite Nat.min_0_l. cbn. by eexists. }
  rewrite Ek. cbn [mbind Res_bind]. eexists _, _, h. split; [reflexivity|]. split; [reflexivity|].
  assert (length (take n (buffer p)) = n) as Hlen by (rewrite length_take; unfold getSize in Hn; lia).
  rewrite Hlen, Nat.sub_diag, app_nil_r, <- app_assoc. split; [|split; [|split; [by rewrite En | done]]].
  - rewrite parse_header.
    + fold n. rewrite <- Hlen at 1. rewrite take_app_length. rewrite <- Hlen at 2. by rewrite drop_app_length.
    + by rewrite Es.
    + rewrite En. unfold is_u. lia.
    + rewrite Ei. unfold is_u. lia.
    + rewrite Eo. unfold is_u. lia.
    + fold n. rewrite length_app. lia.
  - rewrite Es, En. pose proof (Z.div_mod now (10 ^ 9) ltac:(lia)). lia.
Qed.

(** the corruption an unreliable switch applies to a TCP segment never
    fails, keeps the packet's size and identifier, always changes the packet,
    and changes nothing outside the first four payload bytes (or, without
    payload, the checksum field); shorter frames pass unchanged. *)
Theorem corrupt_changes_segment p :
  exists p', corrupt p = Ok p' /\ getSize p' = getSize p /\ packetID p' = packetID p /\
    if (54 <=? getSize p)%nat then
      buffer p' <> buffer p /\
      let '(off, len) := if (58 <=? getSize p)%nat then (54, 4)%nat else (50, 2)%nat in
      forall i, ~ (off <= i < off + len)%nat -> buffer p' !! i = buffer p !! i
    else p' = p.
Proof.
  unfold corrupt. change (14 + 20 + 20 + 4)%nat with 58%nat. change (14 + 20 + 20)%nat with 54%nat.
  destruct (58 <=? getSize p)%nat eqn:E58; bool_to_prop.
  - replace (54 <=? getSize p)%nat with true by (symmetry; apply Nat.leb_le; lia).
    rewrite readInto_in by lia. cbn [mbind Res_bind]. set (d := slice 54 4 (buffer p)).
    assert (length d = 4%nat) as Hd by (apply length_slice; unfold getSize in *; lia).
    destruct (overwrite_field 54 d (u32_bytes 0xEEEEEEEE) (u32_bytes 0xEEEEEEEF) p) as (p' & E & Hp);
      rewrite ?Hd; try done; try lia; [by destruct d|]. rewrite Hd in Hp. exists p'.
    split; [|destruct Hp as (? & ? & ? & ?); done]. rewrite <- E. f_equal. by destruct (bool_decide _).
  - destruct (54 <=? getSize p)%nat eqn:E54; bool_to_prop; [|by exists p].
    rewrite readInto_in by lia. cbn [mbind Res_bind]. set (d := slice 50 2 (buffer p)).
    assert (length d = 2%nat) as Hd by (apply length_slice; unfold getSize in *; lia).
    destruct (overwrite_field 50 d (u16_bytes 0xEEEE) (u16_bytes 0xEEEF) p) as (p' & E & Hp);
      rewrite ?Hd; try done; try lia; [by destruct d|]. rewrite Hd in Hp. exists p'.
    split; [|destruct Hp as (? & ? & ? & ?); done]. rewrite <- E. f_equal. by destruct (bool_decide _).
Qed.

(** [sendPacket] on an empty queue, and on a full queue of limit one. *)
Lemma sendPacket_empty id port p l (s : Sys) :
  queue_of port l = [] -> 0 <= max_queue_length l ->
  sendPacket id port p l s =
  (s ← post id id (CheckQueue port) (wait_until (avail_of port l) (getCurrentTime s)) s;
   Ok (set_port_queue port [p] l, s)).
Proof.
  intros Hq Hm. unfold sendPacket. rewrite Hq. cbn [length].
  replace (negb _ && _)%bool with false; cycle 1.
  { symmetry. destruct (max_queue_length l =? 0) eqn:E; bool_to_prop; [done|]. cbn [negb andb]. apply Z.leb_gt. lia. }
  cbn [mbind Res_bind length].
  replace (_ || _)%bool with true; cycle 1.
  { symmetry. destruct (max_queue_length l =? 0) eqn:E; bool_to_prop; [done|]. apply Z.ltb_lt. cbn. lia. }
  cbn [assert_that mbind Res_bind app length Nat.eqb]. by destruct p.
Qed.

Lemma sendPacket_limit_one id port p1 p2 l (s : Sys) r g i :
  max_queue_length l = 1 -> queue_of port l = [p1] ->
  nextDistribution LinearDistribution (Real_of_Z 0) (Real_of_Z 1) (rand_dist l) = (r, g) ->
  floor_to_u64 r = Ok i ->
  sendPacket id port p2 l s =
  (s ← post id id (CheckQueue port) (wait_until (avail_of port l) (getCurrentTime s)) (destroy_packet p1 s);
   Ok (set_port_queue port [p2] (set_rand g l), s)).
Proof.
  intros Hm Hq Hd Hf. assert (0 <= i) by (apply Real_to_u64_range in Hf; unfold is_u in Hf; lia).
  unfold sendPacket. rewrite Hq, Hm.
  replace (negb _ && _)%bool with true by reflexivity.
  assert (evict [p1] l = Ok ([], Some p1, set_rand g l)) as ->.
  { unfold evict. rewrite Hm. change (1 / 2) with 0. rewrite Hd, Hf. cbn [mbind Res_bind].
    replace (if 1 <=? i then 1 - 1 else i) with 0 by (destruct (1 <=? i) eqn:Ei; bool_to_prop; lia). done. }
  cbn [mbind Res_bind]. change (max_queue_length (set_rand g l)) with (max_queue_length l). rewrite Hm.
  cbn [assert_that mbind Res_bind app length Nat.eqb Z.eqb Z.of_nat Z.ltb Z.compare orb]. by destruct p2.
Qed.

(** C39: a queue limit of one packet is unusable: when a second packet is
    queued behind one that still waits, eviction empties the queue, a second
    [CHECK_QUEUE] is scheduled, and after the first check has sent the packet
    the other one fails the assertion that the queue is not empty. *)
Theorem queue_limit_one_asserts id port p1 p2 l (s : Sys) delay :
  link_inv id l s -> live 4 s -> max_queue_length l = 1 -> queue_of port l = [] ->
  avail_of port l <= currentTime s -> 0 <= snaplen l ->
  trans_delay (Z.of_nat (getSize p2)) (bps l) = Ok delay ->
  exists l1 s1 l2 s2 l3 s3,
    sendPacket id port p1 l s = Ok (l1, s1) /\ sendPacket id port p2 l1 s1 = Ok (l2, s2) /\
    queue_of port l2 = [p2] /\ length (checks id port (timerQueue s2)) = 2%nat /\
    check_queue id port l2 s2 = Ok (l3, s3) /\
    forall s4 : Sys, check_queue id port l3 s4 = Err (AssertFailed "Link::messageReceived").
Proof.
  intros Hi Hl Hm Hq Hav Hsn Hdel.
  destruct (linear_draw 0 1 (rand_dist l) ltac:(lia) ltac:(lia)) as (i & Hfl & _).
  pose proof (li_armed _ _ _ Hi port) as Har. unfold armed in Har. rewrite Hq in Har.
  set (l1 := set_port_queue port [p1] l). set (wt := wait_until (avail_of port l) (getCurrentTime s)).
  destruct (post_live 4 id id (CheckQueue port) wt s) as (s1 & E1 & Hl1); [done|lia|].
  destruct (post_inv _ _ _ _ _ _ E1) as (_ & _ & _ & _ & _ & Ht1 & _).
  assert (sendPacket id port p1 l s = Ok (l1, s1)) as Es1.
  { rewrite sendPacket_empty by (done || lia). fold wt. by rewrite E1. }
  assert (queue_of port l1 = [p1]) as Hq1 by (unfold l1; rewrite queue_of_set; by rewrite Z.eqb_refl).
  destruct (nextDistribution LinearDistribution (Real_of_Z 0) (Real_of_Z 1) (rand_dist l)) as [r g] eqn:Ed.
  set (l2 := set_port_queue port [p2] (set_rand g l1)).
  destruct (post_live 3 id id (CheckQueue port) (wait_until (avail_of port l1) (getCurrentTime s1)) (destroy_packet p1 s1))
    as (s2 & E2 & Hl2); [by apply destroy_live|lia|].
  destruct (post_inv _ _ _ _ _ _ E2) as (_ & _ & _ & _ & _ & Ht2 & _).
  assert (sendPacket id port p2 l1 s1 = Ok (l2, s2)) as Es2.
  { rewrite (sendPacket_limit_one id port p1 p2 l1 s1 r g i Hm Hq1 Ed Hfl). by rewrite E2. }
  assert (queue_of port l2 = [p2]) as Hq2 by (unfold l2; rewrite queue_of_set; by rewrite Z.eqb_refl).
  assert (exists l3 s3, check_queue id port l2 s2 = Ok (l3, s3) /\ queue_of port l3 = []) as (l3 & s3 & E3 & Hq3).
  { unfold check_queue. rewrite Hq2. unfold getCurrentTime. change (avail_of port l2) with (avail_of port l).
    rewrite Ht2. cbn [destroy_packet currentTime set_registry set_statics]. rewrite Ht1.
    replace (_ <=? _) with true by (symmetry; apply Z.leb_le; lia).
    change (bps _) with (bps l). rewrite Hdel. cbn [mbind Res_bind].
    match goal with |- context [pcap_log ?t ?p ?l] => destruct (pcap_log_total t p l Hsn) as [bs ->] end.
    cbn [mbind Res_bind]. destruct (post_live 2 id port (WireMessage PACKET_TO_PORT p2) delay s2) as (s3 & E3 & _); [done|lia|].
    rewrite E3. cbn [mbind Res_bind]. eexists _, _. split; [reflexivity|].
    transitivity (if port =? port then @nil Packet else queue_of port l2); [exact (queue_of_set port [] l2 port)|].
    by rewrite Z.eqb_refl. }
  exists l1, s1, l2, s2, l3, s3. split; [done|]. split; [done|]. split; [done|]. split; [|split; [done|]].
  - pose proof (Permutation_length (check_message _ port _ _ _ _ _ E1)) as L1.
    pose proof (Permutation_length (check_message _ port _ _ _ _ _ E2)) as L2.
    unfold is_check in L1, L2. cbn [tc_to message] in L1, L2.
    change (timerQueue (destroy_packet p1 s1)) with (timerQueue s1) in L2. rewrite !Z.eqb_refl in L1, L2. cbn [andb length] in L1, L2.
    rewrite Har in L1. cbn [length] in L1. lia.
  - intros s4. unfold check_queue. by rewrite Hq3.
Qed.

End Ops.
End Link.

(** *** Instances

    An engine that always draws the lower end of the range. *)

#[local] Existing Instances low_engine low_engine_laws.

#[local] Instance unordered : UnorderedSet Z := {| bucket_pos _ _ := 0%nat |}.

Abbreviation Sys := (System unit Message Z Env).

Definition ex_sys : Sys := System_init initial_env.
Definition ex_link (max : Z) : Link := mkLink [11; 12; 13] ∅ ∅ (10 ^ 9) max false 65535 [] tt.
Definition pkt (n : Z) : Packet := mkPacket (replicate 14 n) n.

Lemma ex_inv max : 0 <= max -> link_inv 5 (ex_link max) ex_sys.
Proof. intros H. by constructor. Qed.

Lemma ex_room n : n < 2 ^ 64 -> room n ex_sys.
Proof.
  intros H. split; [split; [split; [done|]; intros u Hu; exfalso; cbn in Hu; set_solver|]; split; [exact H | done]|].
  exists 0. split; [done|]. cbn. set_solver.
Qed.

Lemma sendPacket_safe_witness :
  exists l' s', sendPacket 5 11 (pkt 1) (ex_link 4) ex_sys = Ok (l', s') /\ link_inv 5 l' s'.
Proof.
  destruct (sendPacket_safe 5 11 (pkt 1) (ex_link 4) ex_sys) as (l' & s' & q0 & E & Hi & _);
    [apply ex_inv; lia | apply ex_room; lia | done | cbn; lia | exists l', s'; split; [exact E | exact Hi]].
Defined.

(** A state with one packet queued and its check at the head of the queue. *)
Definition ex_queued : Link * Sys :=
  match sendPacket 5 11 (pkt 1) (ex_link 0) ex_sys with Ok r => r | Err _ => (ex_link 0, ex_sys) end.

Definition ex_check : TimerContainer Message := mkTimer 5 5 false 0 (CheckQueue 11) 1.

Lemma ex_queued_ok : link_inv 5 (fst ex_queued) (snd ex_queued) /\ live 2 (snd ex_queued).
Proof.
  destruct (sendPacket_ok 3 5 11 (pkt 1) (ex_link 0) ex_sys) as (l' & s' & q0 & E & Hi & Hl & _);
    [apply ex_inv; lia | apply ex_room; lia | lia | done | done |].
  unfold ex_queued. rewrite E. done.
Qed.

Lemma check_queue_transmits_witness :
  exists l' s', check_queue 5 11 (fst ex_queued) (set_time 0 (set_queue [] (snd ex_queued))) = Ok (l', s') /\
    link_inv 5 l' s' /\ avail_of 11 l' = 112.
Proof.
  destruct (check_queue_transmits 5 11 (fst ex_queued) ex_check [] (snd ex_queued))
    as (l' & s' & p & q & delay & u & E & Hi & Hq & _ & Hd & Ha & _);
    [apply ex_queued_ok | apply ex_queued_ok | vm_compute; discriminate | vm_compute; reflexivity
    | vm_compute; reflexivity | vm_compute; discriminate | |].
  - intros p Hp. assert (p = pkt 1) as ->.
    { change (queue_of 11 (fst ex_queued)) with [pkt 1] in Hp. by apply list_elem_of_singleton in Hp. }
    exists 112. split; [vm_compute; reflexivity | vm_compute; reflexivity].
  - exists l', s'. split; [exact E|]. split; [exact Hi|]. rewrite Ha.
    change (queue_of 11 (fst ex_queued)) with [pkt 1] in Hq. injection Hq as <- <-.
    vm_compute in Hd. injection Hd as <-. reflexivity.
Defined.

Lemma ex_ready n max : n < 2 ^ 64 -> 0 <= max < 2 ^ 53 -> max <> 1 -> ready n 5 (ex_link max) ex_sys.
Proof. intros Hn Hm H1. split; [apply ex_inv; lia | by apply ex_room | split; cbn; lia]. Qed.

Lemma hub_floods_witness :
  exists h' s', messageReceived 5 11 (WireMessage PACKET_FROM_PORT (pkt 1)) (mkHub (ex_link 0)) ex_sys = Ok (h', s') /\
    map buffer (queue_of 12 (hub_link h')) = [buffer (pkt 1)] /\ map buffer (queue_of 11 (hub_link h')) = [].
Proof.
  destruct (hub_floods 5 11 (pkt 1) (mkHub (ex_link 0)) ex_sys) as (h' & s' & E & _ & Hf);
    [apply ex_ready; [reflexivity | lia | lia] | by apply (bool_decide_unpack _) |].
  destruct Hf as [_ Hf]. exists h', s'. split; [exact E|]. split.
  - destruct (Hf 12) as (q0 & q & Eq & Hq & _ & H0 & _). rewrite Eq, (H0 eq_refl). transitivity [buffer q]; [reflexivity | by rewrite <- Hq].
  - specialize (Hf 11). cbn in Hf. rewrite Hf. reflexivity.
Defined.

Definition ex_switch : Switch :=
  mkSwitch (ex_link 16) {[12 := {[arrayToUINT64 [1; 1; 1; 1; 1; 1]]}]} tt false Rone Rone Rone Rone.

Lemma switch_forwards_witness :
  exists w' s', messageReceived 5 11 (WireMessage PACKET_FROM_PORT (pkt 1)) ex_switch ex_sys = Ok (w', s') /\
    map buffer (queue_of 12 (sw_link w')) = [buffer (pkt 1)] /\ map buffer (queue_of 13 (sw_link w')) = [].
Proof.
  destruct (switch_forwards 5 11 (pkt 1) ex_switch ex_sys) as (w' & s' & E & _ & Hf & _);
    [apply ex_ready; [reflexivity | lia | lia] | by apply (bool_decide_unpack _) | cbn; lia | by apply (bool_decide_unpack _) |].
  destruct Hf as [_ Hf]. exists w', s'. split; [exact E|]. split.
  - destruct (Hf 12) as (q0 & q & Eq & Hq & Hs & _). apply sublist_nil_r in Hs. rewrite Eq, Hs. cbn in Hq |- *. by rewrite <- Hq.
  - specialize (Hf 13). cbn in Hf. rewrite Hf. reflexivity.
Defined.

Lemma pcap_record_roundtrip_witness :
  exists l' rec h, pcap_log 5000000007 (pkt 1) (enablePCAPLogging 10 (ex_link 0)) = Ok l' /\
    parse_record (rec ++ []) = Some (h, take (Z.to_nat (incl_len h)) (buffer (pkt 1)), []) /\ incl_len h = 10.
Proof.
  destruct (pcap_record_roundtrip 5000000007 (pkt 1) (enablePCAPLogging 10 (ex_link 0)) [])
    as (l' & rec & h & E & _ & Hp & _ & _ & Hi & _); [reflexivity | cbn; lia | lia | cbn; lia |].
  exists l', rec, h. split; [exact E|]. split; [exact Hp|]. exact Hi.
Defined.

Lemma queue_limit_one_asserts_witness :
  exists l3 (s3 : Sys), check_queue 5 11 l3 s3 = Err (AssertFailed "Link::messageReceived").
Proof.
  destruct (queue_limit_one_asserts 5 11 (pkt 1) (pkt 2) (ex_link 1) ex_sys 112)
    as (l1 & s1 & l2 & s2 & l3 & s3 & _ & _ & _ & _ & _ & H);
    [apply ex_inv; lia | apply ex_room; lia | reflexivity | reflexivity | vm_compute; discriminate | vm_compute; discriminate
    | vm_compute; reflexivity |].
  exists l3, s3. exact (H s3).
Defined.

End Link.
