(* ===== verification/HostApi.v ===== *)
(** * HostApi: what code running inside a host can do

    Models the interfaces of include/E/Networking/E_Host.hpp that host modules
    program against: [HostModule] (packets), [TimerModule] (timers,
    include/E/Networking/E_TimerModule.hpp and src/E/E_TimerModule.cpp),
    [SystemCallInterface] (system calls and file descriptors) and
    [RoutingInfoInterface] (the host's tables).  A callback of a host module is
    a program [HProg] over these calls; Host.v interprets the calls on the
    host's state.  The virtual methods of the modules are the class
    [HostModuleClass]. *)

From S2P Require Import Prelude Packet RoutingInfo ModuleBase.

(** ** Programs over the host's interface *)

Inductive HProg (A : Type) : Type :=
| HRet (a : A)
| HErr (e : Error)
| HSendPacket (toModule : string) (packet : Packet) (k : HProg A)
| HGetCurrentTime (k : Z -> HProg A)
| HGetWireSpeed (port_num : Z) (k : Z -> HProg A)
| HGetPortCount (k : Z -> HProg A)
| HReturnSystemCall (syscallUUID val : Z) (k : HProg A)
| HCreateFileDescriptor (processID : Z) (k : Z -> HProg A)
| HRemoveFileDescriptor (processID fd : Z) (k : HProg A)
| HAddTimer (payload : Any) (timeAfter : Z) (k : Z -> HProg A)
| HCancelTimer (key : Z) (k : HProg A)
| HRouting (k : RoutingInfo -> HProg A)
| HSetRouting (r : RoutingInfo) (k : HProg A)
| HStoreTimeval (addr sec usec : Z) (k : HProg A)
| HNewPacket (size : nat) (k : Packet -> HProg A)
| HClonePacket (packet : Packet) (k : Packet -> HProg A)
| HDestroyPacket (packet : Packet) (k : HProg A).
Arguments HRet {A}.
Arguments HErr {A}.
Arguments HSendPacket {A}.
Arguments HGetCurrentTime {A}.
Arguments HGetWireSpeed {A}.
Arguments HGetPortCount {A}.
Arguments HReturnSystemCall {A}.
Arguments HCreateFileDescriptor {A}.
Arguments HRemoveFileDescriptor {A}.
Arguments HAddTimer {A}.
Arguments HCancelTimer {A}.
Arguments HRouting {A}.
Arguments HSetRouting {A}.
Arguments HStoreTimeval {A}.
Arguments HNewPacket {A}.
Arguments HClonePacket {A}.
Arguments HDestroyPacket {A}.

Fixpoint hbind {A B} (p : HProg A) (f : A -> HProg B) : HProg B :=
  match p with
  | HRet a => f a
  | HErr e => HErr e
  | HSendPacket m q k => HSendPacket m q (hbind k f)
  | HGetCurrentTime k => HGetCurrentTime (fun t => hbind (k t) f)
  | HGetWireSpeed n k => HGetWireSpeed n (fun t => hbind (k t) f)
  | HGetPortCount k => HGetPortCount (fun t => hbind (k t) f)
  | HReturnSystemCall u v k => HReturnSystemCall u v (hbind k f)
  | HCreateFileDescriptor p k => HCreateFileDescriptor p (fun t => hbind (k t) f)
  | HRemoveFileDescriptor p d k => HRemoveFileDescriptor p d (hbind k f)
  | HAddTimer a t k => HAddTimer a t (fun u => hbind (k u) f)
  | HCancelTimer u k => HCancelTimer u (hbind k f)
  | HRouting k => HRouting (fun r => hbind (k r) f)
  | HSetRouting r k => HSetRouting r (hbind k f)
  | HStoreTimeval a s u k => HStoreTimeval a s u (hbind k f)
  | HNewPacket n k => HNewPacket n (fun p => hbind (k p) f)
  | HClonePacket p k => HClonePacket p (fun q => hbind (k q) f)
  | HDestroyPacket p k => HDestroyPacket p (hbind k f)
  end.

#[global] Instance HProg_ret : MRet HProg := fun A a => HRet a.
#[global] Instance HProg_bind : MBind HProg := fun A B f p => hbind p f.

(** A computation of the language itself inside a callback. *)
Definition lift {A} (r : Res A) : HProg A :=
  match r with Ok a => HRet a | Err e => HErr e end.

Module HostApi.

(** ** The calls, by the names of the sources *)

(** [HostModule::sendPacket], [getCurrentTime], [getWireSpeed],
    [getPortCount]. *)
Definition sendPacket (toModule : string) (packet : Packet) : HProg unit :=
  HSendPacket toModule packet (HRet tt).
Definition getCurrentTime : HProg Z := HGetCurrentTime HRet.
Definition getWireSpeed (port_num : Z) : HProg Z := HGetWireSpeed port_num HRet.
Definition getPortCount : HProg Z := HGetPortCount HRet.

(** The packets a module makes and destroys: [Packet(size)], [clone] and the
    destructor. *)
Definition newPacket (size : nat) : HProg Packet := HNewPacket size HRet.
Definition clonePacket (packet : Packet) : HProg Packet := HClonePacket packet HRet.
Definition destroyPacket (packet : Packet) : HProg unit := HDestroyPacket packet (HRet tt).

(** [SystemCallInterface::returnSystemCall], [createFileDescriptor],
    [removeFileDescriptor]. *)
Definition returnSystemCall (syscallUUID val : Z) : HProg unit :=
  HReturnSystemCall syscallUUID val (HRet tt).
Definition createFileDescriptor (processID : Z) : HProg Z := HCreateFileDescriptor processID HRet.
Definition removeFileDescriptor (processID fd : Z) : HProg unit :=
  HRemoveFileDescriptor processID fd (HRet tt).

(** [TimerModule::addTimer], [cancelTimer]. *)
Definition addTimer (payload : Any) (timeAfter : Z) : HProg Z := HAddTimer payload timeAfter HRet.
Definition cancelTimer (key : Z) : HProg unit := HCancelTimer key (HRet tt).

(** [RoutingInfoInterface]: the four queries and the two updates that are
    defined in E_RoutingInfo.cpp. *)
Definition getIPAddr (port : Z) : HProg (option (list Z)) :=
  HRouting (fun r => HRet (RoutingInfo.getIPAddr port r)).
Definition getMACAddr (port : Z) : HProg (option (list Z)) :=
  HRouting (fun r => HRet (RoutingInfo.getMACAddr port r)).
Definition getARPTable (ipv4 : list Z) : HProg (option (list Z)) :=
  HRouting (fun r => HRet (RoutingInfo.getARPTable ipv4 r)).
Definition getRoutingTable (ip_addr : list Z) : HProg Z :=
  HRouting (fun r => lift (RoutingInfo.getRoutingTable ip_addr r)).
Definition setARPTable (mac ipv4 : list Z) : HProg unit :=
  HRouting (fun r => HSetRouting (RoutingInfo.setARPTable mac ipv4 r) (HRet tt)).
Definition setRoutingTable (mask : list Z) (prefix port : Z) : HProg unit :=
  HRouting (fun r => HSetRouting (RoutingInfo.setRoutingTable mask prefix port r) (HRet tt)).

End HostApi.

(** ** Packet traces

    The packets a callback sends when it only sends packets and reads the
    routing tables [r]; other calls are outside this reading of a program. *)
Fixpoint trace {A} (r : RoutingInfo) (p : HProg A) : Res (list (string * Packet) * A) :=
  match p with
  | HRet a => Ok ([], a)
  | HErr e => Err e
  | HSendPacket m q k =>
      match trace r k with Ok (l, a) => Ok ((m, q) :: l, a) | Err e => Err e end
  | HRouting k => trace r (k r)
  | _ => Err BadCast
  end.

Lemma trace_lift {A B} r (c : Res A) (f : A -> HProg B) a :
  c = Ok a -> trace r (lift c ≫= f) = trace r (f a).
Proof. by intros ->. Qed.

(** ** Host modules

    The objects [addHostModule] accepts and their virtual methods.  An object
    may be a [HostModule] (it has a host module name), a [TimerModule] (a timer
    name) and a [SystemCallInterface] (a domain and a protocol).  A callback
    returns the object's new state. *)
Class HostModuleClass (O : Type) := {
  hostModuleName : O -> option string;
  timerModuleName : O -> option string;
  namespace : O -> option (Z * Z);
  packetArrived : O -> string -> Packet -> HProg O;
  systemCallback : O -> Z -> Z -> SystemCallParameter -> HProg O;
  timerCallback : O -> Any -> HProg O;
  initialize : O -> HProg O;
  finalize : O -> HProg O;
  diagnose : O -> Any -> HProg (O * Any);
  DefaultSystemCall : O;  (* the object the Host constructor adds *)
}.

(** The defaults of the virtual methods: [initialize] and [finalize] do
    nothing, [diagnose] returns the integer [0]. *)
Definition default_initialize {O} (o : O) : HProg O := HRet o.
Definition default_finalize {O} (o : O) : HProg O := HRet o.
Definition default_diagnose {O} (o : O) (_ : Any) : HProg (O * Any) := HRet (o, any_other "int" [0]).

(** ** Results of programs

    [returns P p]: whatever the calls answer, a result of [p] satisfies [P]. *)
Fixpoint returns {A} (P : A -> Prop) (p : HProg A) : Prop :=
  match p with
  | HRet a => P a
  | HErr _ => True
  | HSendPacket _ _ k | HReturnSystemCall _ _ k | HRemoveFileDescriptor _ _ k
  | HCancelTimer _ k | HSetRouting _ k | HStoreTimeval _ _ _ k | HDestroyPacket _ k => returns P k
  | HGetCurrentTime k | HGetPortCount k => forall t, returns P (k t)
  | HGetWireSpeed _ k | HCreateFileDescriptor _ k | HAddTimer _ _ k => forall t, returns P (k t)
  | HRouting k => forall r, returns P (k r)
  | HNewPacket _ k | HClonePacket _ k => forall p, returns P (k p)
  end.

Lemma returns_bind_with {A B} (Q : A -> Prop) (P : B -> Prop) (p : HProg A) (f : A -> HProg B) :
  returns Q p -> (forall a, Q a -> returns P (f a)) -> returns P (p ≫= f).
Proof. intros Hp Hf. induction p; cbn in *; intros; auto; by apply H, Hp. Qed.

Lemma returns_any {A} (p : HProg A) : returns (fun _ => True) p.
Proof. induction p; cbn; auto. Qed.

Lemma returns_bind {A B} (P : B -> Prop) (p : HProg A) (f : A -> HProg B) :
  (forall a, returns P (f a)) -> returns P (p ≫= f).
Proof. intros Hf. eapply returns_bind_with; [apply returns_any | auto]. Qed.

(** A module keeps the name its timers are registered under. *)
Class StableNames (O : Type) `{HostModuleClass O} := {
  stable_packet o from p : returns (fun o' => timerModuleName o' = timerModuleName o) (packetArrived o from p);
  stable_syscall o u pid param :
    returns (fun o' => timerModuleName o' = timerModuleName o) (systemCallback o u pid param);
  stable_timer o payload : returns (fun o' => timerModuleName o' = timerModuleName o) (timerCallback o payload);
  stable_initialize o : returns (fun o' => timerModuleName o' = timerModuleName o) (initialize o);
  stable_finalize o : returns (fun o' => timerModuleName o' = timerModuleName o) (finalize o);
}.
