(* ===== verification/Ethernet.v ===== *)
(** * Ethernet and IPv4: the link and network layers of a host

    Models src/Networking/Ethernet/E_Ethernet.cpp and
    src/Networking/IPv4/E_IPv4.cpp with their headers: the two modules'
    [packetArrived], as programs over the host interface. *)

From S2P Require Import Prelude NetworkUtil Packet RoutingInfo ModuleBase HostApi.
Import NetworkUtil.

Module Ethernet.
Import HostApi.

Definition ip_broadcasts : list (list Z) := [[255; 255; 255; 255]; [224; 0; 0; 5]; [224; 0; 0; 6]].
Definition mac_broadcast : list Z := [0xFF; 0xFF; 0xFF; 0xFF; 0xFF; 0xFF].

(** The branch for packets from the network: dispatch on the ether type. *)
Definition from_host (packet : Packet) : HProg unit :=
  first_byte ← lift (readByte 12 packet);
  second_byte ← lift (readByte 13 packet);
  if (first_byte =? 0x08) && (second_byte =? 0x00) then sendPacket "IPv4" packet
  else if (first_byte =? 0x86) && (second_byte =? 0xDD) then sendPacket "IPv6" packet
  else HErr (AssertFailed "Ethernet::packetArrived").

(** Writing the addresses: destination then source. *)
Definition write_macs (dst src : list Z) (packet : Packet) : HProg Packet :=
  packet ← lift (writeInto 0 dst packet);
  lift (writeInto 6 src packet).

(** The branch for packets from IPv4; [None] when the packet is dropped. *)
Definition from_ipv4 (packet : Packet) : HProg unit :=
  packet ← lift (writeInto 12 [0x08] packet);
  packet ← lift (writeInto 13 [0x00] packet);
  dst_ip ← lift (readInto 30 4 packet);
  if bool_decide (dst_ip ∈ ip_broadcasts) then
    src_ip ← lift (readInto 26 4 packet);
    port ← getRoutingTable src_ip;
    src ← getMACAddr port;
    match src with
    | None => HRet tt
    | Some src =>
        packet ← write_macs mac_broadcast src packet;
        sendPacket "Host" packet
    end
  else
    port ← getRoutingTable dst_ip;
    src ← getMACAddr port;
    dst ← getARPTable dst_ip;
    match src, dst with
    | None, _ => HRet tt
    | Some _, None => HRet tt
    | Some src, Some dst =>
        packet ← write_macs dst src packet;
        sendPacket "Host" packet
    end.

Definition from_ipv6 (packet : Packet) : HProg unit :=
  packet ← lift (writeInto 12 [0x86] packet);
  packet ← lift (writeInto 13 [0xDD] packet);
  sendPacket "Host" packet.

Definition packetArrived (fromModule : string) (packet : Packet) : HProg unit :=
  if String.eqb fromModule "Host" then from_host packet
  else if String.eqb fromModule "IPv4" then from_ipv4 packet
  else if String.eqb fromModule "IPv6" then from_ipv6 packet
  else HRet tt.

(** ** Specification: address resolution

    The destination and source MAC addresses of an outgoing IPv4 packet;
    [None] when the packet is dropped. *)
Definition resolve (r : RoutingInfo) (dst_ip src_ip : list Z) : Res (option (list Z * list Z)) :=
  if bool_decide (dst_ip ∈ ip_broadcasts) then
    port ← RoutingInfo.getRoutingTable src_ip r;
    Ok (src ← RoutingInfo.getMACAddr port r; Some (mac_broadcast, src))
  else
    port ← RoutingInfo.getRoutingTable dst_ip r;
    Ok (src ← RoutingInfo.getMACAddr port r;
        dst ← RoutingInfo.getARPTable dst_ip r; Some (dst, src)).

(** The MAC addresses of the tables are [mac_t] values. *)
Definition macs_ok (r : RoutingInfo) : Prop :=
  Forall (fun e => length (me_mac e) = 6%nat) (mac_vector r) /\
  Forall (fun e => length (ae_mac e) = 6%nat) (arp_vector r).

Lemma find_first_Forall {A B} (P : B -> Prop) (test : A -> bool) (get : A -> B) l b :
  Forall (fun a => P (get a)) l -> find_first test get l = Some b -> P b.
Proof.
  induction 1 as [|a l Ha Hl IH]; cbn; [done|]. destruct (test a); [by intros [= <-] | done].
Qed.

Lemma resolve_macs r dst_ip src_ip dst src :
  macs_ok r -> resolve r dst_ip src_ip = Ok (Some (dst, src)) -> length dst = 6%nat /\ length src = 6%nat.
Proof.
  intros [Hm Ha] H. unfold resolve in H. destruct (bool_decide _); res_inv;
    destruct (RoutingInfo.getMACAddr _ r) as [m|] eqn:Em; cbn in H; try discriminate;
    assert (length m = 6%nat) by (by eapply (find_first_Forall (fun x => length x = 6%nat)) in Em).
  - by simplify_eq.
  - destruct (RoutingInfo.getARPTable dst_ip r) as [d|] eqn:Ed; cbn in H; [|discriminate].
    assert (length d = 6%nat) by (by eapply (find_first_Forall (fun x => length x = 6%nat)) in Ed).
    by simplify_eq.
Qed.

(** ** Lemmas *)

Lemma write_ethertype (b : list Z) i :
  (14 <= length b)%nat -> forall x y,
  (p ← writeInto 12 [x] (mkPacket b i); writeInto 13 [y] p) = Ok (mkPacket (take 12 b ++ [x; y] ++ drop 14 b) i).
Proof.
  intros Hb x y. assert (b = take 12 b ++ slice 12 2 b ++ drop 14 b) as E.
  { unfold slice. rewrite <- (take_drop 12 b) at 1. f_equal. rewrite <- (take_drop 2 (drop 12 b)) at 1. by rewrite drop_drop. }
  assert (length (take 12 b) = 12%nat) as Hp by (rewrite length_take; lia).
  assert (length (slice 12 2 b) = 2%nat) as Hs by (apply length_slice; lia).
  set (pre := take 12 b) in *. set (h := slice 12 2 b) in *. set (post := drop 14 b) in *. rewrite E.
  do 2 (destruct h as [|? h]; [done|]). destruct h; [|done].
  pose proof (writeInto_mid pre [z; z0] post i 0 [x] ltac:(done) ltac:(cbn; lia)) as W1.
  rewrite Hp in W1. change (12 + 0)%nat with 12%nat in W1. rewrite W1. cbn [mbind Res_bind].
  pose proof (writeInto_mid pre (write_at 0 [x] [z; z0]) post i 1 [y] ltac:(done) ltac:(cbn; lia)) as W2.
  rewrite Hp in W2. exact W2.
Qed.

Lemma write_macs_spec r dst src (h rest : list Z) i :
  length dst = 6%nat -> length src = 6%nat -> length h = 12%nat ->
  trace r (p ← write_macs dst src (mkPacket (h ++ rest) i); sendPacket "Host" p) =
  Ok ([("Host", mkPacket ((dst ++ src) ++ rest) i)], tt).
Proof.
  intros Hd Hs Hh. unfold write_macs.
  assert (dst <> []) by (by destruct dst). assert (src <> []) by (by destruct src).
  assert (writeInto 0 dst (mkPacket (h ++ rest) i) = Ok (mkPacket ((dst ++ drop 6 h) ++ rest) i)) as ->.
  { replace 0%nat with (length (@nil Z) + 0)%nat by done.
    pose proof (writeInto_mid [] h rest i 0 dst) as E. cbn [app] in E. rewrite E by (done || lia).
    unfold write_at. cbn [take app Nat.add]. by rewrite Hd. }
  cbn [lift mbind HProg_bind hbind].
  assert (writeInto 6 src (mkPacket ((dst ++ drop 6 h) ++ rest) i) = Ok (mkPacket ((dst ++ src) ++ rest) i)) as ->; [|done].
  pose proof (writeInto_mid dst (drop 6 h) rest i 0 src) as E. rewrite Nat.add_0_r, Hd in E.
  rewrite <- app_assoc, E by (done || rewrite length_drop; lia). unfold write_at. cbn [take app Nat.add].
  rewrite Hs. rewrite (drop_ge (drop 6 h)) by (rewrite length_drop; lia). by rewrite app_nil_r, app_assoc.
Qed.

Lemma slice_skip off len (x y : list Z) :
  (length x <= off)%nat -> slice off len (x ++ y) = slice (off - length x) len y.
Proof. intros H. unfold slice. by rewrite drop_app_ge. Qed.

Lemma slice_typed off len (b : list Z) x y :
  (14 <= off)%nat -> (14 <= length b)%nat ->
  slice off len (take 12 b ++ [x; y] ++ drop 14 b) = slice off len b.
Proof.
  intros Ho Hb. rewrite app_assoc, slice_skip by (rewrite length_app, length_take; cbn [length]; lia).
  rewrite length_app, length_take. cbn [length]. rewrite Nat.min_l by lia. unfold slice. rewrite drop_drop.
  by replace (14 + (off - (12 + 2)))%nat with off by lia.
Qed.

(** The branch for packets from IPv4 follows [resolve]. *)
Lemma from_ipv4_spec r b i :
  (34 <= length b)%nat -> macs_ok r ->
  trace r (from_ipv4 (mkPacket b i)) =
  match resolve r (slice 30 4 b) (slice 26 4 b) with
  | Ok (Some (dst, src)) => Ok ([("Host", mkPacket (dst ++ src ++ [0x08; 0x00] ++ drop 14 b) i)], tt)
  | Ok None => Ok ([], tt)
  | Err e => Err e
  end.
Proof.
  intros Hb Hm. pose proof (write_ethertype b i ltac:(lia) 0x08 0x00) as E.
  destruct (writeInto 12 [8] (mkPacket b i)) as [p1|] eqn:E1; [|done]. cbn [mbind Res_bind] in E.
  unfold from_ipv4. rewrite E1. cbn [lift mbind HProg_bind hbind]. rewrite E. cbn [lift mbind HProg_bind hbind].
  set (b1 := take 12 b ++ [8; 0] ++ drop 14 b).
  assert (34 <= length b1)%nat as Hb1 by (unfold b1; rewrite !length_app, length_take, length_drop; cbn [length]; lia).
  assert (forall off len, (14 <= off)%nat -> (off + len <= 34)%nat -> (0 < len)%nat ->
    readInto off len (mkPacket b1 i) = Ok (slice off len b)) as Hrd.
  { intros off len Ho Hl H0. rewrite readInto_in; [|unfold getSize; cbn [buffer]; lia|done]. f_equal. cbn [buffer].
    unfold b1. apply slice_typed; lia. }
  rewrite !Hrd by lia. cbn [lift mbind HProg_bind hbind].
  pose proof (fun d s => resolve_macs r (slice 30 4 b) (slice 26 4 b) d s Hm) as Hlen. unfold resolve in *.
  destruct (bool_decide _).
  - destruct (RoutingInfo.getRoutingTable _ r) as [port|] eqn:Er; cbn; rewrite Er; cbn [lift trace mbind Res_bind]; [|done].
    cbn. destruct (RoutingInfo.getMACAddr port r) as [src|] eqn:Es; [|done].
    cbn [mbind Res_bind] in Hlen. rewrite Es in Hlen. destruct (Hlen _ _ eq_refl) as [H1 H2].
    cbn [mbind option_bind]. rewrite (app_assoc mac_broadcast). apply write_macs_spec; auto. rewrite length_take. lia.
  - destruct (RoutingInfo.getRoutingTable _ r) as [port|] eqn:Er; cbn; rewrite Er; cbn [lift trace mbind Res_bind]; [|done].
    cbn. destruct (RoutingInfo.getMACAddr port r) as [src|] eqn:Es; [|done].
    destruct (RoutingInfo.getARPTable _ r) as [dst|] eqn:Ed; [|done].
    cbn [mbind Res_bind] in Hlen. rewrite Es in Hlen. destruct (Hlen _ _ eq_refl) as [H1 H2].
    cbn [mbind option_bind]. rewrite (app_assoc dst). apply write_macs_spec; auto. rewrite length_take. lia.
Qed.

Lemma from_host_spec r dst src (rest : list Z) i :
  length dst = 6%nat -> length src = 6%nat ->
  let p := mkPacket (dst ++ src ++ [0x08; 0x00] ++ rest) i in
  trace r (packetArrived "Host" p) = Ok ([("IPv4", p)], tt).
Proof.
  intros Hd Hsr p. change (packetArrived "Host" p) with (from_host p). unfold from_host.
  assert (forall k b, [8; 0] !! k = Some b -> readByte (12 + k) p = Ok b) as Hrb.
  { intros k b Hk. unfold p. rewrite (app_assoc dst).
    replace 12%nat with (length (dst ++ src)) by (rewrite length_app; lia). by apply readByte_mid. }
  pose proof (Hrb 0%nat 8 eq_refl) as R0. pose proof (Hrb 1%nat 0 eq_refl) as R1. cbn [Nat.add] in R0, R1.
  rewrite R0. cbn [lift mbind HProg_bind hbind]. by rewrite R1.
Qed.

(** ** Properties *)

(** the Ethernet layer of a host: a packet from IPv4 leaves through the
    host with the resolved destination and source addresses and the IPv4 ether
    type in front of an unchanged IP packet, or is dropped when a table has no
    entry; and every Ethernet layer that receives such a frame from the network
    hands it unchanged to IPv4. *)
Theorem ethernet_send_receive r p :
  (34 <= getSize p)%nat -> macs_ok r ->
  match resolve r (slice 30 4 (buffer p)) (slice 26 4 (buffer p)) with
  | Ok (Some (dst, src)) =>
      exists p', trace r (packetArrived "IPv4" p) = Ok ([("Host", p')], tt) /\
        buffer p' = dst ++ src ++ [0x08; 0x00] ++ drop 14 (buffer p) /\
        getSize p' = getSize p /\ packetID p' = packetID p /\
        forall r', trace r' (packetArrived "Host" p') = Ok ([("IPv4", p')], tt)
  | Ok None => trace r (packetArrived "IPv4" p) = Ok ([], tt)
  | Err e => trace r (packetArrived "IPv4" p) = Err e
  end.
Proof.
  intros Hs Hm. destruct p as [b i]. unfold getSize in *. cbn [buffer packetID] in *.
  change (packetArrived "IPv4" (mkPacket b i)) with (from_ipv4 (mkPacket b i)). rewrite from_ipv4_spec by done.
  destruct (resolve _ _ _) as [[[dst src]|]|] eqn:E; [|done|done].
  destruct (resolve_macs _ _ _ _ _ Hm E) as [Hd Hsr].
  eexists. split; [reflexivity|]. cbn [buffer packetID]. split; [done|].
  split; [rewrite !length_app, length_drop, Hd, Hsr; cbn; lia|]. split; [done|]. intros r'.
  by apply from_host_spec.
Qed.

(** *** An instance *)

Definition ex_info : RoutingInfo :=
  mkRoutingInfo [mkMac [2; 0; 0; 0; 0; 1] 0] [mkIp [10; 0; 0; 1] 0] [mkArp [10; 0; 0; 2] [2; 0; 0; 0; 0; 2]]
    [mkRoute [10; 0; 0; 0] 24 0].
Definition ex_packet : Packet :=
  mkPacket (replicate 26 0 ++ [10; 0; 0; 1] ++ [10; 0; 0; 2] ++ [1; 2; 3; 4]) 9.

Lemma ethernet_send_receive_witness :
  exists p', trace ex_info (packetArrived "IPv4" ex_packet) = Ok ([("Host", p')], tt) /\
    take 6 (buffer p') = [2; 0; 0; 0; 0; 2].
Proof.
  pose proof (ethernet_send_receive ex_info ex_packet ltac:(vm_compute; lia)
    ltac:(split; repeat constructor)) as H.
  assert (resolve ex_info (slice 30 4 (buffer ex_packet)) (slice 26 4 (buffer ex_packet)) =
          Ok (Some ([2; 0; 0; 0; 0; 2], [2; 0; 0; 0; 0; 1]))) as E by (vm_compute; reflexivity).
  rewrite E in H. destruct H as (p' & H1 & H2 & _). exists p'. split; [exact H1|]. rewrite H2. reflexivity.
Defined.

End Ethernet.

Module IPv4.
Import HostApi.

Record IPv4 := mkIPv4 { identification : Z }.
Definition IPv4_new : IPv4 := mkIPv4 0.

Definition ip_start : nat := 14.

(** The branch for packets from Ethernet: verify the header checksum and
    dispatch on the protocol field. *)
Definition from_ethernet (packet : Packet) : HProg unit :=
  first_byte ← lift (readByte 12 packet);
  second_byte ← lift (readByte 13 packet);
  _ ← lift (assert_that ((first_byte =? 0x08) && (second_byte =? 0x00)) "IPv4::packetArrived");
  ip_header_buffer ← lift (readInto ip_start 20 packet);
  let checksum := one_sum ip_header_buffer in
  if negb (checksum =? 0xFFFF) && negb (checksum =? 0) then HRet tt
  else
    protocol ← lift (readByte (ip_start + 9) packet);
    if protocol =? 0x06 then sendPacket "TCP" packet
    else if protocol =? 0x11 then sendPacket "UDP" packet
    else if protocol =? 0x59 then sendPacket "OSPF" packet
    else HRet tt.

Definition proto_of (fromModule : string) : Z :=
  let proto := 0 in
  let proto := if String.eqb fromModule "TCP" then 0x06 else proto in
  let proto := if String.eqb fromModule "UDP" then 0x11 else proto in
  if String.eqb fromModule "OSPF" then 0x59 else proto.

(** The header fields the sender writes, byte by byte. *)
Definition write_header (proto id : Z) (packet : Packet) : Res Packet :=
  packet ← writeInto (ip_start + 0) [wrap 8 (Z.shiftl 4 4 + 5)] packet;
  packet ← writeInto (ip_start + 1) [0] packet;
  _ ← assert_that (ip_start + 20 <=? getSize packet)%nat "IPv4::packetArrived(size)";
  let size := wrap 16 (Z.of_nat (getSize packet - ip_start)) in
  packet ← writeInto (ip_start + 2) [Z.shiftr size 8] packet;
  packet ← writeInto (ip_start + 3) [Z.land size 0xFF] packet;
  packet ← writeInto (ip_start + 4) [Z.shiftr id 8] packet;
  packet ← writeInto (ip_start + 5) [Z.land id 0xFF] packet;
  packet ← writeInto (ip_start + 6) [Z.shiftl 1 6] packet;
  packet ← writeInto (ip_start + 7) [0] packet;
  packet ← writeInto (ip_start + 8) [64] packet;
  packet ← writeInto (ip_start + 9) [proto] packet;
  packet ← writeInto (ip_start + 10) [0] packet;
  writeInto (ip_start + 11) [0] packet.

(** The checksum: the complement of the sum over the header, stored in
    network byte order. *)
Definition write_checksum (packet : Packet) : Res Packet :=
  ip_header_buffer ← readInto ip_start 20 packet;
  let checksum := wrap 16 (Z.lnot (one_sum ip_header_buffer)) in
  writeInto (ip_start + 10) (htons_bytes checksum) packet.

Definition from_transport (fromModule : string) (packet : Packet) (m : IPv4) : HProg IPv4 :=
  let cur_id := identification m in
  packet ← lift (write_header (proto_of fromModule) cur_id packet);
  packet ← lift (write_checksum packet);
  _ ← sendPacket "Ethernet" packet;
  HRet (mkIPv4 (wrap 16 (cur_id + 1))).

Definition packetArrived (fromModule : string) (packet : Packet) (m : IPv4) : HProg IPv4 :=
  if String.eqb fromModule "Ethernet" then _ ← from_ethernet packet; HRet m
  else if String.eqb fromModule "TCP" || String.eqb fromModule "UDP" || String.eqb fromModule "OSPF"
  then from_transport fromModule packet m
  else HErr (AssertFailed "IPv4::packetArrived(from)").

(** ** Lemmas *)

(** The 20 header bytes of a sent packet, before the checksum is stored:
    [tl] are the addresses the transport layer wrote. *)
Definition header (proto id len : Z) (tl : list Z) (c : list Z) : list Z :=
  [0x45; 0; Z.shiftr len 8; Z.land len 0xFF; Z.shiftr id 8; Z.land id 0xFF; 0x40; 0; 64; proto] ++ c ++ tl.

Lemma write_header_spec pre h post i proto id :
  length pre = 14%nat -> length h = 20%nat ->
  write_header proto id (mkPacket (pre ++ h ++ post) i) =
  Ok (mkPacket (pre ++ header proto id (wrap 16 (Z.of_nat (20 + length post))) (drop 12 h) [0; 0] ++ post) i).
Proof.
  intros Hpre Hh. do 20 (destruct h as [|? h]; [done|]). destruct h; [|done].
  unfold write_header, ip_start. rewrite <- Hpre.
  do 2 (rewrite writeInto_mid by (done || cbn; lia); cbn [mbind Res_bind]).
  replace (_ <=? _)%nat with true; cycle 1.
  { symmetry. apply Nat.leb_le. unfold getSize. cbn [buffer]. rewrite !length_app. cbn. lia. }
  cbn [assert_that mbind Res_bind].
  assert (forall l, length l = 20%nat ->
    (getSize (mkPacket (pre ++ l ++ post) i) - length pre = 20 + length post)%nat) as Hsz.
  { intros l Hl. unfold getSize. cbn [buffer]. rewrite !length_app. lia. }
  rewrite Hsz by reflexivity.
  do 9 (rewrite writeInto_mid by (done || cbn; lia); cbn [mbind Res_bind]).
  rewrite writeInto_mid by (done || cbn; lia). rewrite Hpre. done.
Qed.

Lemma write_checksum_spec pre proto id len tl post i :
  length pre = 14%nat -> length tl = 8%nat ->
  let c := htons_bytes (wrap 16 (Z.lnot (one_sum (header proto id len tl [0; 0])))) in
  write_checksum (mkPacket (pre ++ header proto id len tl [0; 0] ++ post) i) =
  Ok (mkPacket (pre ++ header proto id len tl c ++ post) i).
Proof.
  intros Hpre Htl c. do 8 (destruct tl as [|? tl]; [done|]). destruct tl; [|done].
  unfold write_checksum, ip_start. rewrite <- Hpre. replace (length pre) with (length pre + 0)%nat at 1 by lia.
  rewrite readInto_mid by (cbn; lia). cbn [mbind Res_bind].
  rewrite writeInto_mid by (done || cbn; lia). rewrite Hpre. done.
Qed.

Lemma header_bytes proto id len tl :
  is_u 8 proto -> is_u 16 id -> is_u 16 len -> byte_list tl ->
  byte_list [0x45; 0; Z.shiftr len 8; Z.land len 0xFF; Z.shiftr id 8; Z.land id 0xFF; 0x40; 0; 64; proto] /\
  byte_list tl.
Proof.
  intros Hp Hi Hl Ht. split; [|done].
  assert (forall x, is_u 16 x -> is_u 8 (Z.shiftr x 8)) as Hsh.
  { intros x [H0 H1]. unfold is_u. rewrite Z.shiftr_div_pow2 by lia.
    split; [apply Z.div_pos; lia | apply Z.div_lt_upper_bound; lia]. }
  repeat apply Forall_cons_2; auto using u8_land; try (unfold is_u; lia).
Qed.

(** A header with its checksum sums to negative zero. *)
Lemma header_verifies proto id len tl :
  is_u 8 proto -> is_u 16 id -> is_u 16 len -> byte_list tl ->
  one_sum (header proto id len tl (htons_bytes (wrap 16 (Z.lnot (one_sum (header proto id len tl [0; 0])))))) = 0xFFFF.
Proof. intros Hp Hi Hl Ht. destruct (header_bytes proto id len tl) as [Ha Hb]; auto. by apply one_sum_complement. Qed.

Definition transports : list string := ["TCP"; "UDP"; "OSPF"].

(** What IPv4 sends down for a packet from a transport module. *)
Lemma from_transport_spec r fromModule m pre h post i :
  fromModule ∈ transports -> length pre = 14%nat -> length h = 20%nat ->
  let hd c := header (proto_of fromModule) (identification m) (wrap 16 (Z.of_nat (20 + length post))) (drop 12 h) c in
  let c := htons_bytes (wrap 16 (Z.lnot (one_sum (hd [0; 0])))) in
  trace r (packetArrived fromModule (mkPacket (pre ++ h ++ post) i) m) =
  Ok ([("Ethernet", mkPacket (pre ++ hd c ++ post) i)], mkIPv4 (wrap 16 (identification m + 1))).
Proof.
  intros Hf Hpre Hh hd c.
  assert (packetArrived fromModule (mkPacket (pre ++ h ++ post) i) m =
          from_transport fromModule (mkPacket (pre ++ h ++ post) i) m) as ->.
  { apply list_elem_of_In in Hf. destruct Hf as [<-|[<-|[<-|[]]]]; done. }
  unfold from_transport. erewrite trace_lift by (by apply write_header_spec).
  erewrite trace_lift by (apply write_checksum_spec; [done|]; rewrite length_drop; lia). done.
Qed.

(** What IPv4 does with a frame whose header sums to negative zero. *)
Lemma from_ethernet_spec r fromModule m pre proto id len tl c post i :
  fromModule ∈ transports -> proto = proto_of fromModule ->
  length pre = 14%nat -> pre !! 12%nat = Some 0x08 -> pre !! 13%nat = Some 0x00 ->
  length tl = 8%nat -> length c = 2%nat -> one_sum (header proto id len tl c) = 0xFFFF ->
  let q := mkPacket (pre ++ header proto id len tl c ++ post) i in
  trace r (packetArrived "Ethernet" q m) = Ok ([(fromModule, q)], m).
Proof.
  intros Hf -> Hpre H12 H13 Htl Hc Hsum q.
  do 2 (destruct c as [|? c]; [done|]). destruct c; [|done].
  do 8 (destruct tl as [|? tl]; [done|]). destruct tl; [|done].
  change (packetArrived "Ethernet" q m) with (_ ← from_ethernet q; HRet m). unfold from_ethernet.
  assert (readByte 12 q = Ok 0x08) as -> by (apply (readByte_mid [] pre _ i 12); done).
  assert (readByte 13 q = Ok 0x00) as -> by (apply (readByte_mid [] pre _ i 13); done).
  cbn [lift mbind HProg_bind hbind assert_that andb Z.eqb Pos.eqb].
  assert (readInto ip_start 20 q = Ok (header (proto_of fromModule) id len [z1; z2; z3; z4; z5; z6; z7; z8] [z; z0])) as ->.
  { replace ip_start with (length pre + 0)%nat by (by rewrite Hpre).
    unfold q. rewrite readInto_mid by (cbn; lia). done. }
  cbn [lift mbind HProg_bind hbind]. rewrite Hsum. cbn [negb andb Z.eqb Pos.eqb].
  assert (readByte (ip_start + 9) q = Ok (proto_of fromModule)) as ->.
  { unfold ip_start. rewrite <- Hpre. apply readByte_mid. done. }
  cbn [lift mbind HProg_bind hbind].
  apply list_elem_of_In in Hf. destruct Hf as [<-|[<-|[<-|[]]]]; done.
Qed.

Lemma proto_of_byte fromModule : fromModule ∈ transports -> is_u 8 (proto_of fromModule).
Proof. intros Hf. apply list_elem_of_In in Hf. destruct Hf as [<-|[<-|[<-|[]]]]; by vm_compute. Qed.

(** Splitting a frame at its IP header. *)
Lemma split_frame (b : list Z) :
  (34 <= length b)%nat ->
  b = take 14 b ++ slice 14 20 b ++ drop 34 b /\ length (take 14 b) = 14%nat /\ length (slice 14 20 b) = 20%nat.
Proof.
  intros H. split; [|split; [rewrite length_take; lia | apply length_slice; lia]].
  unfold slice. rewrite <- (take_drop 14 b) at 1. f_equal.
  rewrite <- (take_drop 20 (drop 14 b)) at 1. by rewrite drop_drop.
Qed.

Lemma ipv4_encap r fromModule m p :
  fromModule ∈ transports -> byte_list (buffer p) -> (34 <= getSize p)%nat -> is_u 16 (identification m) ->
  exists p', trace r (packetArrived fromModule p m) =
      Ok ([("Ethernet", p')], mkIPv4 ((identification m + 1) mod 65536)) /\
    getSize p' = getSize p /\ packetID p' = packetID p /\
    take 14 (buffer p') = take 14 (buffer p) /\ drop 26 (buffer p') = drop 26 (buffer p) /\
    buffer p' !! 23%nat = Some (proto_of fromModule) /\
    slice 16 2 (buffer p') = htons_bytes ((Z.of_nat (getSize p) - 14) mod 65536) /\
    (forall r' m' q, drop 14 (buffer q) = drop 14 (buffer p') -> (14 <= length (buffer q))%nat ->
       buffer q !! 12%nat = Some 0x08 -> buffer q !! 13%nat = Some 0x00 ->
       trace r' (packetArrived "Ethernet" q m') = Ok ([(fromModule, q)], m')).
Proof.
  intros Hf Hb Hs Hid. destruct p as [b i]. unfold getSize in *. cbn [buffer packetID] in *.
  destruct (split_frame b Hs) as (Eb & Hpre & Hh). set (pre := take 14 b) in *. set (h := slice 14 20 b) in *.
  set (post := drop 34 b) in *. clearbody pre h post. subst b. apply byte_list_app in Hb as [_ Hb]. apply byte_list_app in Hb as [Hb _].
  set (hd := header (proto_of fromModule) (identification m) (wrap 16 (Z.of_nat (20 + length post))) (drop 12 h)).
  set (c := htons_bytes (wrap 16 (Z.lnot (one_sum (hd [0; 0]))))).
  assert (length (hd c) = 20%nat) as Hhd by (cbn; rewrite length_drop; lia).
  exists (mkPacket (pre ++ hd c ++ post) i). cbn [buffer packetID].
  split; [by apply from_transport_spec|]. split; [rewrite !length_app; lia|]. split; [done|].
  rewrite !take_app_length' by done. split; [done|]. split.
  { replace 26%nat with (length pre + 12)%nat by lia. rewrite !drop_app_add, !drop_app_le by lia. done. }
  split; [rewrite lookup_app_r by lia; by rewrite Hpre|]. split.
  { unfold slice. rewrite drop_app_ge, Hpre by lia. cbn [drop Nat.sub hd header app take].
    unfold htons_bytes, wrap. rewrite !length_app, Hh, Hpre.
    replace (Z.of_nat (14 + (20 + length post)) - 14) with (Z.of_nat (20 + length post)) by lia.
    f_equal. change 0xFF with (Z.ones 8). rewrite Z.land_ones, !Z.shiftr_div_pow2 by lia. change 65536 with (2 ^ 16).
    symmetry. apply Z.mod_small. pose proof (Z.mod_pos_bound (Z.of_nat (20 + length post)) (2 ^ 16) ltac:(lia)).
    split; [apply Z.div_pos; lia | apply Z.div_lt_upper_bound; lia]. }
  intros r' m' [bq iq] Hq Hlq H12 H13. cbn [buffer] in *. rewrite drop_app_length' in Hq by done.
  rewrite <- (take_drop 14 bq), Hq.
  apply from_ethernet_spec; auto.
  - rewrite length_take. lia.
  - by rewrite lookup_take_lt by lia.
  - by rewrite lookup_take_lt by lia.
  - rewrite length_drop. lia.
  - apply header_verifies; [by apply proto_of_byte | done | apply wrap_range; lia | by apply Forall_drop].
Qed.

(** ** Properties *)

(** IPv4 encapsulation is undone by IPv4 reception: a packet of at least
    34 bytes handed down by TCP, UDP or OSPF is sent to Ethernet with the same
    size, with its addresses and payload untouched, the protocol number of its
    sender and the total length in its header, and any host that receives a
    frame with those bytes from the IP header on and the IPv4 ether type
    accepts its checksum and delivers it to the module of the same name; the
    identification counter advances modulo [2 ^ 16]. *)
Theorem ipv4_send_receive r fromModule m p :
  fromModule ∈ transports -> byte_list (buffer p) -> (34 <= getSize p)%nat -> is_u 16 (identification m) ->
  exists p', trace r (packetArrived fromModule p m) =
      Ok ([("Ethernet", p')], mkIPv4 ((identification m + 1) mod 65536)) /\
    getSize p' = getSize p /\ packetID p' = packetID p /\
    take 14 (buffer p') = take 14 (buffer p) /\ drop 26 (buffer p') = drop 26 (buffer p) /\
    buffer p' !! 23%nat = Some (proto_of fromModule) /\
    slice 16 2 (buffer p') = htons_bytes ((Z.of_nat (getSize p) - 14) mod 65536) /\
    (forall r' m' q, drop 14 (buffer q) = drop 14 (buffer p') -> (14 <= length (buffer q))%nat ->
       buffer q !! 12%nat = Some 0x08 -> buffer q !! 13%nat = Some 0x00 ->
       trace r' (packetArrived "Ethernet" q m') = Ok ([(fromModule, q)], m')).
Proof. apply ipv4_encap. Qed.

Lemma ipv4_send_receive_witness :
  exists p', trace Ethernet.ex_info (packetArrived "UDP" Ethernet.ex_packet (mkIPv4 65535)) =
      Ok ([("Ethernet", p')], mkIPv4 0) /\ buffer p' !! 23%nat = Some 0x11.
Proof.
  destruct (ipv4_send_receive Ethernet.ex_info "UDP" (mkIPv4 65535) Ethernet.ex_packet)
    as (p' & H1 & _ & _ & _ & _ & H2 & _);
    [solve_bytes | solve_bytes | vm_compute; lia | solve_bytes |].
  exists p'. split; [exact H1 | exact H2].
Defined.

End IPv4.

(** ** The two layers together *)
Module Stack.

(** What the stacks of a sender and a receiver do with a packet. *)
Lemma stack_path r r' fromModule m m' p dst src :
  fromModule ∈ IPv4.transports -> byte_list (buffer p) -> (34 <= getSize p)%nat ->
  is_u 16 (IPv4.identification m) -> Ethernet.macs_ok r ->
  Ethernet.resolve r (slice 30 4 (buffer p)) (slice 26 4 (buffer p)) = Ok (Some (dst, src)) ->
  exists p1 p2 m1,
    trace r (IPv4.packetArrived fromModule p m) = Ok ([("Ethernet", p1)], m1) /\
    trace r (Ethernet.packetArrived "IPv4" p1) = Ok ([("Host", p2)], tt) /\
    (forall q, buffer q = buffer p2 ->
       trace r' (Ethernet.packetArrived "Host" q) = Ok ([("IPv4", q)], tt) /\
       trace r' (IPv4.packetArrived "Ethernet" q m') = Ok ([(fromModule, q)], m')) /\
    getSize p2 = getSize p /\ take 12 (buffer p2) = dst ++ src /\
    drop 26 (buffer p2) = drop 26 (buffer p) /\ packetID p1 = packetID p /\ packetID p2 = packetID p.
Proof.
  intros Hf Hb Hs Hid Hm Hres.
  destruct (IPv4.ipv4_encap r fromModule m p Hf Hb Hs Hid) as ([b1 i1] & E1 & Hs1 & Hi1 & _ & Hd1 & _ & _ & Hrec).
  unfold getSize in *. cbn [buffer] in *.
  destruct (Ethernet.resolve_macs _ _ _ _ _ Hm Hres) as [Hdl Hsl].
  assert (forall off len, (26 <= off)%nat -> slice off len b1 = slice off len (buffer p)) as Hsli.
  { intros off len Ho. unfold slice. replace off with (26 + (off - 26))%nat by lia. by rewrite <- !drop_drop, Hd1. }
  set (p2 := mkPacket (dst ++ src ++ [8; 0] ++ drop 14 b1) i1).
  exists (mkPacket b1 i1), p2, (IPv4.mkIPv4 ((IPv4.identification m + 1) mod 65536)).
  split; [done|]. split.
  { change (Ethernet.packetArrived "IPv4" ?q) with (Ethernet.from_ipv4 q).
    rewrite Ethernet.from_ipv4_spec by (done || lia). by rewrite !Hsli, Hres by lia. }
  assert (drop 14 (buffer p2) = drop 14 b1) as Hd2.
  { unfold p2. cbn [buffer]. rewrite !app_assoc, <- app_assoc with (n := drop 14 b1).
    rewrite app_assoc, drop_app_length'; [done|]. rewrite !length_app, Hdl, Hsl. done. }
  split.
  { intros [b2 i2] Hq. cbn [buffer] in Hq. subst b2. split; [by apply Ethernet.from_host_spec|].
    apply Hrec; [done| | |]; unfold p2; cbn [buffer].
    - rewrite !length_app, Hdl, Hsl. cbn. lia.
    - rewrite !lookup_app_r by (rewrite ?Hdl, ?Hsl; lia). by rewrite Hdl, Hsl.
    - rewrite !lookup_app_r by (rewrite ?Hdl, ?Hsl; lia). by rewrite Hdl, Hsl. }
  split; [unfold p2; cbn [buffer]; rewrite !length_app, length_drop, Hdl, Hsl; cbn; lia|]. split.
  - unfold p2. cbn [buffer]. rewrite app_assoc, take_app_length'; [done|]. rewrite length_app. lia.
  - split; [|by split]. replace 26%nat with (14 + 12)%nat by lia. rewrite <- !drop_drop, Hd2. rewrite !drop_drop. exact Hd1.
Qed.

(** C13: the network stack is transparent to the transport modules: a packet
    of at least 34 bytes that TCP, UDP or OSPF hands to IPv4 on one host
    becomes, through IPv4 and Ethernet, a frame for the resolved destination
    address; when that frame reaches another host, its Ethernet and IPv4 hand
    it to the module of the same name, with the IP addresses and everything
    after them exactly as they were sent. *)
Theorem stack_transparent r r' fromModule m m' p dst src :
  fromModule ∈ IPv4.transports -> byte_list (buffer p) -> (34 <= getSize p)%nat ->
  is_u 16 (IPv4.identification m) -> Ethernet.macs_ok r ->
  Ethernet.resolve r (slice 30 4 (buffer p)) (slice 26 4 (buffer p)) = Ok (Some (dst, src)) ->
  exists p1 p2 m1,
    trace r (IPv4.packetArrived fromModule p m) = Ok ([("Ethernet", p1)], m1) /\
    trace r (Ethernet.packetArrived "IPv4" p1) = Ok ([("Host", p2)], tt) /\
    trace r' (Ethernet.packetArrived "Host" p2) = Ok ([("IPv4", p2)], tt) /\
    trace r' (IPv4.packetArrived "Ethernet" p2 m') = Ok ([(fromModule, p2)], m') /\
    getSize p2 = getSize p /\ take 12 (buffer p2) = dst ++ src /\
    drop 26 (buffer p2) = drop 26 (buffer p).
Proof.
  intros Hf Hb Hs Hid Hm Hres. destruct (stack_path r r' fromModule m m' p dst src) as (p1 & p2 & m1 & T1 & T2 & Hq & H); [done..|].
  exists p1, p2, m1. destruct (Hq p2 eq_refl). naive_solver.
Qed.

Lemma stack_transparent_witness :
  exists p1 p2 m1,
    trace Ethernet.ex_info (IPv4.packetArrived "TCP" Ethernet.ex_packet IPv4.IPv4_new) = Ok ([("Ethernet", p1)], m1) /\
    trace empty_info (IPv4.packetArrived "Ethernet" p2 (IPv4.mkIPv4 7)) = Ok ([("TCP", p2)], IPv4.mkIPv4 7).
Proof.
  destruct (stack_transparent Ethernet.ex_info empty_info "TCP" IPv4.IPv4_new (IPv4.mkIPv4 7) Ethernet.ex_packet
    [2; 0; 0; 0; 0; 2] [2; 0; 0; 0; 0; 1]) as (p1 & p2 & m1 & H1 & _ & _ & H2 & _);
    [solve_bytes | solve_bytes | vm_compute; lia | solve_bytes | split; repeat constructor | vm_compute; reflexivity |].
  exists p1, p2, m1. split; [exact H1 | exact H2].
Defined.

End Stack.
