(* ===== verification/Host.v ===== *)
(** * Host: system calls, processes, file descriptors and packet passing

    Models src/Networking/E_Host.cpp and include/E/Networking/E_Host.hpp
    (classes [Host], [Host::DefaultSystemCall], [HostModule],
    [SystemCallInterface], [SystemCallApplication]).

    The host modules of a host are objects of a type [Obj] with the interface
    [HostModuleClass]; they live in a store [objects] because the three maps of
    the host share them.  [run_prog] interprets the calls of a module's
    callback on the host and the scheduler.  Applications are objects of the
    program's heap ([applications] of ModuleBase), shared between
    [processInfoMap] and the scheduler's ready set.

    [print_log] only writes to the standard output and is left out; Logging.v
    models the filter itself. *)

From S2P Require Import Prelude Packet RoutingInfo TimeUtil System ModuleBase Wire HostApi.
From stdpp Require Import sorting relations.
Local Open Scope Z_scope.

(** What a host reads of other modules: the speed of a wire
    ([NetworkSystem::getWireSpeed], which casts to [Wire]), and what an
    application reads of its host: whether it is running. *)
Class ModuleView (Mod : Type) := {
  as_wire : Mod -> option Wire.Wire;
  host_running : Mod -> option bool;
}.

(** The iteration order of [std::unordered_map<UUID, int>]. *)
Class UnorderedMap := {
  map_order : gmap Z Z -> list Z;
  map_order_perm m : map_order m ≡ₚ elements (dom m);
}.

(** ** DefaultSystemCall *)
Module DefaultSyscall.
Import HostApi.

Definition EINVAL : Z := 22.

(** [SystemCallInterface(0, 0, host)], [TimerModule("DefaultSyscall", host)]. *)
Definition domain_protocol : Z * Z := (0, 0).
Definition timer_name : string := "DefaultSyscall".

Definition timerCallback (payload : Any) : HProg unit :=
  syscallUUID ← lift (any_cast_uuid payload);
  returnSystemCall syscallUUID 0.

Definition systemCallback (syscallUUID pid : Z) (param : SystemCallParameter) : HProg unit :=
  match syscallNumber param with
  | NSLEEP =>
      t ← lift (get_uint64 (param0 param));
      _ ← addTimer (any_uuid syscallUUID) t;
      HRet tt
  | GETTIMEOFDAY =>
      curTime ← getCurrentTime;
      tv ← lift (get_ptr (param0 param));
      tz ← lift (get_ptr (param1 param));
      let usec := getTime curTime USEC in
      if negb (tz =? 0) then returnSystemCall syscallUUID (- EINVAL)
      else HStoreTimeval tv (usec / 1000000) (usec mod 1000000) (returnSystemCall syscallUUID 0)
  | _ => HErr (AssertFailed "DefaultSystemCall::systemCallback")
  end.

End DefaultSyscall.

Module Host.
Import System.

Definition MAX_FD : Z := 65536.
Definition MAX_PID : Z := 65536.

(** ** State *)

Record ProcessInfo := mkProc {
  application : Z;  (* the object identity of the application *)
  fdToDomain : gmap Z (Z * Z);
}.

Section Host.
Context {Obj : Type} {HMC : HostModuleClass Obj}.

Record Host := mkHost {
  ports : list Z;
  routing : RoutingInfo;
  pidStart : Z;
  syscallIDStart : Z;
  running : bool;
  objects : gmap Z Obj;
  interfaceMap : gmap (Z * Z) Z;
  hostModuleMap : gmap string Z;
  timerModuleMap : gmap string Z;
  processInfoMap : gmap Z ProcessInfo;
  syscallMap : gmap Z Z;
}.

Definition set_ports (p : list Z) (h : Host) : Host :=
  mkHost p (routing h) (pidStart h) (syscallIDStart h) (running h) (objects h) (interfaceMap h)
    (hostModuleMap h) (timerModuleMap h) (processInfoMap h) (syscallMap h).
Definition set_routing (r : RoutingInfo) (h : Host) : Host :=
  mkHost (ports h) r (pidStart h) (syscallIDStart h) (running h) (objects h) (interfaceMap h)
    (hostModuleMap h) (timerModuleMap h) (processInfoMap h) (syscallMap h).
Definition set_running (b : bool) (h : Host) : Host :=
  mkHost (ports h) (routing h) (pidStart h) (syscallIDStart h) b (objects h) (interfaceMap h)
    (hostModuleMap h) (timerModuleMap h) (processInfoMap h) (syscallMap h).
Definition set_modules (o : gmap Z Obj) (i : gmap (Z * Z) Z) (m t : gmap string Z) (h : Host) : Host :=
  mkHost (ports h) (routing h) (pidStart h) (syscallIDStart h) (running h) o i m t
    (processInfoMap h) (syscallMap h).
Definition set_object (oid : Z) (o : Obj) (h : Host) : Host :=
  set_modules (<[oid := o]> (objects h)) (interfaceMap h) (hostModuleMap h) (timerModuleMap h) h.
Definition set_processes (start : Z) (p : gmap Z ProcessInfo) (h : Host) : Host :=
  mkHost (ports h) (routing h) start (syscallIDStart h) (running h) (objects h) (interfaceMap h)
    (hostModuleMap h) (timerModuleMap h) p (syscallMap h).
Definition set_syscalls (start : Z) (m : gmap Z Z) (h : Host) : Host :=
  mkHost (ports h) (routing h) (pidStart h) start (running h) (objects h) (interfaceMap h)
    (hostModuleMap h) (timerModuleMap h) (processInfoMap h) m.

(** A key that is not in use, for a new heap object. *)
Definition new_key {A} (m : gmap Z A) : Z := 1 + foldr Z.max 0 (fst <$> map_to_list m).

(** ** Installing modules *)

(** [insert(...).second] of a map, asserted. *)
Definition insert_new {K A} `{Countable K} (k : K) (a : A) (m : gmap K A) (site : string) : Res (gmap K A) :=
  match m !! k with
  | None => Ok (<[k := a]> m)
  | Some _ => Err (AssertFailed site)
  end.

Definition addHostModule (o : Obj) (h : Host) : Res Host :=
  let oid := new_key (objects h) in
  mods ← match hostModuleName o with
         | Some n => insert_new n oid (hostModuleMap h) "Host::addHostModule"
         | None => Ok (hostModuleMap h)
         end;
  timers ← match timerModuleName o with
           | Some n => insert_new n oid (timerModuleMap h) "Host::addHostModule"
           | None => Ok (timerModuleMap h)
           end;
  ifaces ← match namespace o with
           | Some n => insert_new n oid (interfaceMap h) "Host::addHostModule"
           | None => Ok (interfaceMap h)
           end;
  Ok (set_modules (<[oid := o]> (objects h)) ifaces mods timers h).

(** [Host::Host]. *)
Definition Host_new : Res Host :=
  h ← addHostModule DefaultSystemCall (mkHost [] empty_info 0 0 false ∅ ∅ ∅ ∅ ∅ ∅);
  Ok (set_running true h).

Definition isRunning (h : Host) : bool := running h.

(** [NetworkModule::connectWire]. *)
Definition connectWire (wireID : Z) (h : Host) : Host * Z :=
  (set_ports (ports h ++ [wireID]) h, Z.of_nat (length (ports h))).

(** ** File descriptors *)

(** The loop of [createFileDescriptor] over the sorted keys of [fdToDomain]. *)
Fixpoint fd_loop (keys : list Z) (current : Z) : Z :=
  match keys with
  | k :: keys => if k =? current then fd_loop keys (current + 1) else current
  | [] => current
  end.

Definition sorted_keys (m : gmap Z (Z * Z)) : list Z := merge_sort Z.le (elements (dom m)).

Definition createFileDescriptor (domain protocol processID : Z) (h : Host) : Res (Host * Z) :=
  match processInfoMap h !! processID with
  | None => Err (AssertFailed "Host::createFileDescriptor")
  | Some procInfo =>
      let current := fd_loop (sorted_keys (fdToDomain procInfo)) 3 in
      if MAX_FD <=? current then Ok (h, -1)
      else Ok (set_processes (pidStart h)
                 (<[processID := mkProc (application procInfo)
                      (match fdToDomain procInfo !! current with
                       | None => <[current := (domain, protocol)]> (fdToDomain procInfo)
                       | Some _ => fdToDomain procInfo  (* insert keeps an existing entry *)
                       end)]> (processInfoMap h)) h, current)
  end.

Definition removeFileDescriptor (processID fd : Z) (h : Host) : Host :=
  match processInfoMap h !! processID with
  | None => h
  | Some procInfo =>
      set_processes (pidStart h)
        (<[processID := mkProc (application procInfo) (delete fd (fdToDomain procInfo))]> (processInfoMap h)) h
  end.

(** ** Operations on the scheduler *)

Section Ops.
Context {Mod : Type} {MV : ModuleView Mod} {US : UnorderedSet Z} {UM : UnorderedMap}.
Abbreviation Sys := (System Mod Message Z Env).

Definition set_app (a : Z) (app : Application) (s : Sys) : Sys :=
  set_statics (mkEnv (registry (statics s)) (<[a := app]> (applications (statics s))) (timevals (statics s))) s.

Definition get_app (a : Z) (s : Sys) : Res Application :=
  of_option NullDeref (applications (statics s) !! a).

(** [sendPacket(portIndex, packet)]: to the wire at a port. *)
Definition sendPacket (id : Z) (portIndex : nat) (packet : Packet) (h : Host) (s : Sys) : Res Sys :=
  _ ← assert_that (portIndex <? length (ports h))%nat "Host::sendPacket";
  if negb (running h) then Ok s
  else
    portID ← of_option OutOfBounds (ports h !! portIndex);
    post id portID (WireMessage PACKET_TO_PORT (Packet_copy packet)) 0 s.

(** The loop that selects the port whose MAC address is the packet's source;
    the ports before [k] did not match. *)
Fixpoint find_port (my_mac : list Z) (k : nat) (remaining : nat) (r : RoutingInfo) : Res nat :=
  match remaining with
  | O => Ok 0%nat
  | S remaining =>
      port_mac ← of_option BadOptionalAccess (getMACAddr (Z.of_nat k) r);
      if bool_decide (my_mac = port_mac) then Ok k else find_port my_mac (S k) remaining r
  end.

Definition sendPacketToModule (id : Z) (fromModule : option string) (toModule : string)
  (packet : Packet) (h : Host) (s : Sys) : Res Sys :=
  if String.eqb toModule "Host" then
    my_mac ← readInto 6 6 packet;
    selected_port ← find_port my_mac 0 (length (ports h)) (routing h);
    sendPacket id selected_port packet h s
  else
    match hostModuleMap h !! toModule with
    | None => Ok s
    | Some _ => post id id (PacketPass fromModule (Some toModule) (Packet_copy packet)) 0 s
    end.

Definition addTimer (id : Z) (fromModule : string) (payload : Any) (timeAfter : Z) (s : Sys) : Res (Sys * Z) :=
  sendMessageSelf id (Timer fromModule payload) timeAfter s.

Definition cancelTimer (key : Z) (s : Sys) : Sys := fst (module_cancelMessage key s).

Definition issueSystemCall (id pid : Z) (param : SystemCallParameter) (s : Sys) : Res Sys :=
  post id id (Syscall pid param) 0 s.

Definition exitProcess (id pid returnValue : Z) (s : Sys) : Res Sys :=
  post id id (Return pid returnValue) 0 s.

(** [SystemCallApplication::returnSyscall], with [Runnable::ready]. *)
Definition returnSyscall (retVal : Z) (app : Application) : Res Application :=
  _ ← assert_that (bool_decide (app_state app = WAITING)) "Runnable::ready";
  Ok (mkApp (app_host app) (app_pid app) retVal READY (app_code app)).

Definition returnSystemCall (syscallUUID val : Z) (h : Host) (s : Sys) : Res (Host * Sys) :=
  match syscallMap h !! syscallUUID with
  | None => Ok (h, s)
  | Some pid =>
      procInfo ← of_option NullDeref (processInfoMap h !! pid);
      app ← get_app (application procInfo) s;
      app ← returnSyscall val app;
      let s := set_app (application procInfo) app s in
      s ← addRunnable (application procInfo) (app_state app) s;
      Ok (set_syscalls (syscallIDStart h) (delete syscallUUID (syscallMap h)) h, s)
  end.

(** [NetworkSystem::getWireSpeed] through [Host::getWireSpeed]; [ports[i]] is
    not checked. *)
Definition getWireSpeed (port_num : Z) (h : Host) (s : Sys) : Res Z :=
  wireID ← (if 0 <=? port_num then of_option OutOfBounds (ports h !! Z.to_nat port_num) else Err OutOfBounds);
  m ← of_option NullDeref (registeredModule s !! wireID);
  w ← of_option BadCast (as_wire m);
  Ok (Wire.getWireSpeed w).

(** ** Callbacks of host modules *)

(** The attributes a module's calls use: its names and its namespace. *)
Record Self := mkSelf {
  self_name : option string;
  self_timer : option string;
  self_namespace : option (Z * Z);
}.

Definition self_of (o : Obj) : Self := mkSelf (hostModuleName o) (timerModuleName o) (namespace o).

Definition store_timeval (addr sec usec : Z) (s : Sys) : Res Sys :=
  if addr =? 0 then Err NullDeref
  else match timevals (statics s) !! addr with
       | None => Err OutOfBounds
       | Some _ => Ok (set_statics (mkEnv (registry (statics s)) (applications (statics s))
                                      (<[addr := (sec, usec)]> (timevals (statics s)))) s)
       end.

Fixpoint run_prog {A} (id : Z) (self : Self) (p : HProg A) (h : Host) (s : Sys) : Res (A * Host * Sys) :=
  match p with
  | HRet a => Ok (a, h, s)
  | HErr e => Err e
  | HSendPacket toModule packet k =>
      name ← of_option BadCast (self_name self);
      s ← sendPacketToModule id (Some name) toModule packet h s;
      run_prog id self k h s
  | HGetCurrentTime k => run_prog id self (k (getCurrentTime s)) h s
  | HGetWireSpeed port k => v ← getWireSpeed port h s; run_prog id self (k v) h s
  | HGetPortCount k => run_prog id self (k (Z.of_nat (length (ports h)))) h s
  | HReturnSystemCall u v k =>
      '(h, s) ← returnSystemCall u v h s; run_prog id self k h s
  | HCreateFileDescriptor pid k =>
      ns ← of_option BadCast (self_namespace self);
      '(h, fd) ← createFileDescriptor (fst ns) (snd ns) pid h;
      run_prog id self (k fd) h s
  | HRemoveFileDescriptor pid fd k => run_prog id self k (removeFileDescriptor pid fd h) s
  | HAddTimer payload t k =>
      name ← of_option BadCast (self_timer self);
      '(s, u) ← addTimer id name payload t s;
      run_prog id self (k u) h s
  | HCancelTimer key k => run_prog id self k h (cancelTimer key s)
  | HRouting k => run_prog id self (k (routing h)) h s
  | HSetRouting r k => run_prog id self k (set_routing r h) s
  | HStoreTimeval a sec usec k => s ← store_timeval a sec usec s; run_prog id self k h s
  | HNewPacket size k => '(s, q) ← new_packet size s; run_prog id self (k q) h s
  | HClonePacket packet k => '(s, q) ← clone_packet packet s; run_prog id self (k q) h s
  | HDestroyPacket packet k => run_prog id self k h (destroy_packet packet s)
  end.

(** A virtual call on a module object. *)
Definition call_object (id oid : Z) (f : Obj -> HProg Obj) (h : Host) (s : Sys) : Res (Host * Sys) :=
  o ← of_option NullDeref (objects h !! oid);
  '(o', h, s) ← run_prog id (self_of o) (f o) h s;
  Ok (set_object oid o' h, s).

(** [hostModuleMap[name]->initialize()] and [finalize()]: a missing name is a
    null pointer. *)
Definition initializeHostModule (id : Z) (name : string) (h : Host) (s : Sys) : Res (Host * Sys) :=
  oid ← of_option NullDeref (hostModuleMap h !! name);
  call_object id oid initialize h s.

Definition finalizeHostModule (id : Z) (name : string) (h : Host) (s : Sys) : Res (Host * Sys) :=
  oid ← of_option NullDeref (hostModuleMap h !! name);
  call_object id oid finalize h s.

Definition diagnoseHostModule (id : Z) (name : string) (arg : Any) (h : Host) (s : Sys)
  : Res (Any * Host * Sys) :=
  oid ← of_option NullDeref (hostModuleMap h !! name);
  o ← of_option NullDeref (objects h !! oid);
  '(r, h, s) ← run_prog id (self_of o) (diagnose o arg) h s;
  Ok (snd r, set_object oid (fst r) h, s).

(** ** Messages *)

(** The namespace a system call is dispatched to. *)
Definition syscall_namespace (param : SystemCallParameter) (procInfo : ProcessInfo) : Res (Z * Z) :=
  match syscallNumber param with
  | SOCKET =>
      domain ← get_int (param0 param);
      protocol ← get_int (param2 param);
      Ok (domain, protocol)
  | NSLEEP | GETTIMEOFDAY => Ok (0, 0)
  | _ =>
      fd ← get_int (param0 param);
      of_option (AssertFailed "Host::messageReceived(fd)") (fdToDomain procInfo !! fd)
  end.

Definition next_syscall_id (c : Z) : Z := c ⊞ 1.

(** The search loop for an unused system call id. *)
Definition allocate_syscall (pid : Z) (h : Host) : Res (Host * Z) :=
  found ← cyclic_search (S (size (dom (syscallMap h)))) next_syscall_id
            (fun c => bool_decide (c ∉ dom (syscallMap h))) (syscallIDStart h) (syscallIDStart h);
  match found with
  | Some c => Ok (set_syscalls (c ⊞ 1) (<[c := pid]> (syscallMap h)) h, c)
  | None => Err (AssertFailed "Host::messageReceived(syscallID)")
  end.

Definition receive_syscall (id pid : Z) (param : SystemCallParameter) (h : Host) (s : Sys) : Res (Host * Sys) :=
  _ ← assert_that (negb (pid =? -1)) "Host::messageReceived(pid)";
  procInfo ← of_option (AssertFailed "Host::messageReceived(process)") (processInfoMap h !! pid);
  app ← get_app (application procInfo) s;
  _ ← assert_that (pid =? app_pid app) "Host::messageReceived(app)";
  ns ← syscall_namespace param procInfo;
  match interfaceMap h !! ns with
  | None => Ok (h, s)
  | Some oid =>
      '(h, curSyscallID) ← allocate_syscall pid h;
      call_object id oid (fun o => systemCallback o curSyscallID pid param) h s
  end.

Definition receive_return (id pid : Z) (h : Host) (s : Sys) : Res (Host * Sys) :=
  procInfo ← of_option (AssertFailed "Host::messageReceived(return)") (processInfoMap h !! pid);
  app ← get_app (application procInfo) s;
  _ ← assert_that (bool_decide (map_Forall (fun _ p => p <> app_pid app) (syscallMap h)))
        "Host::messageReceived(pending)";
  Ok (set_processes (pidStart h) (delete pid (processInfoMap h)) h, delRunnable (application procInfo) s).

Definition messageReceived (id from : Z) (m : Message) (h : Host) (s : Sys) : Res (Host * Sys) :=
  match m with
  | WireMessage type packet =>
      _ ← assert_that (bool_decide (type = PACKET_FROM_PORT)) "Host::messageReceived(type)";
      if running h then s ← sendPacketToModule id None "Ethernet" packet h s; Ok (h, s)
      else Ok (h, s)
  | PacketPass from to packet =>
      if running h then
        to ← of_option BadOptionalAccess to;
        oid ← of_option NullDeref (hostModuleMap h !! to);
        call_object id oid (fun o => packetArrived o (default "Host" from) packet) h s
      else Ok (h, s)
  | Syscall pid param => receive_syscall id pid param h s
  | Timer from payload =>
      oid ← of_option NullDeref (timerModuleMap h !! from);
      call_object id oid (fun o => timerCallback o payload) h s
  | Return pid _ => receive_return id pid h s
  | _ => Err (AssertFailed "Host::messageReceived")
  end.

Definition messageFinished (to : Z) (m : Message) (response : Message) (s : Sys) : Res Sys :=
  _ ← assert_empty response; Ok (destroy_message m s).

Definition messageCancelled (to : Z) (m : Message) (s : Sys) : Res Sys := Ok (destroy_message m s).

(** ** Processes *)

(** The search loop of [registerProcess]; it counts modulo [MAX_FD]. *)
Definition registerProcess (a : Z) (h : Host) (s : Sys) : Res (Host * Sys * Z) :=
  found ← cyclic_search (S (size (dom (processInfoMap h)))) (fun c => (c + 1) mod MAX_FD)
            (fun c => bool_decide (c ∉ dom (processInfoMap h))) (pidStart h) (pidStart h);
  match found with
  | Some current =>
      app ← get_app a s;
      let s := set_app a (mkApp (app_host app) current (syscallRet app) (app_state app) (app_code app)) s in
      Ok (set_processes ((current + 1) mod MAX_PID) (<[current := mkProc a ∅]> (processInfoMap h)) h, s, current)
  | None => Ok (h, s, -1)
  end.

(** [addApplication]: a new application object whose [E_Main] is [main]. *)
Definition addApplication (id : Z) (main : Program) (h : Host) (s : Sys) : Res (Host * Sys * Z) :=
  let a := new_key (applications (statics s)) in
  registerProcess a h (set_app a (mkApp id (-1) 0 CREATED (fun _ => main)) s).

(** [Runnable::start]: the thread runs [pre_main] and reports [READY]. *)
Definition start (app : Application) : Res Application :=
  _ ← assert_that (bool_decide (app_state app = CREATED)) "Runnable::start";
  Ok (mkApp (app_host app) (app_pid app) (syscallRet app) READY (app_code app)).

Definition launchApplication (pid : Z) (h : Host) (s : Sys) : Res Sys :=
  procInfo ← of_option (AssertFailed "Host::launchApplication") (processInfoMap h !! pid);
  app ← get_app (application procInfo) s;
  _ ← assert_that (app_pid app =? pid) "Host::launchApplication(pid)";
  app ← start app;
  addRunnable (application procInfo) (app_state app) (set_app (application procInfo) app s).

Definition cleanUp (h : Host) (s : Sys) : Res (Host * Sys * Z) :=
  let h := set_running false h in
  let syscall_to_wakeup := map_order (syscallMap h) in
  '(h, s) ← foldM (fun u '(h, s) => returnSystemCall u (-1) h s) syscall_to_wakeup (h, s);
  Ok (h, s, Z.of_nat (length syscall_to_wakeup)).

(** ** The application thread

    What an application does from the moment it is woken until it waits or
    ends; [E_Syscall] returns [-1] at once on a host that is not running. *)
Fixpoint exec (p : Program) (app : Application) (s : Sys) : Res (Application * Sys) :=
  match p with
  | Finish v =>
      s ← exitProcess (app_host app) (app_pid app) v s;
      Ok (mkApp (app_host app) (app_pid app) (syscallRet app) TERMINATED (app_code app), s)
  | DoSyscall param k =>
      m ← of_option NullDeref (registeredModule s !! app_host app);
      b ← of_option BadCast (host_running m);
      if negb b then exec (k (-1)) app s
      else
        s ← issueSystemCall (app_host app) (app_pid app) param s;
        Ok (mkApp (app_host app) (app_pid app) (-1) WAITING k, s)
  | DoGetTime k => exec (k (getCurrentTime s)) app s
  | DoLoadTimeval addr k =>
      tv ← of_option OutOfBounds (timevals (statics s) !! addr);
      exec (k tv) app s
  end.

(** [Runnable::wake] of an application. *)
Definition wake (a : Z) (s : Sys) : Res (Sys * RState) :=
  app ← get_app a s;
  _ ← assert_that (bool_decide (app_state app = READY)) "Runnable::wake";
  '(app, s) ← exec (app_code app (syscallRet app)) app s;
  Ok (set_app a app s, app_state app).

(** ** Lemmas: file descriptors *)

Lemma fd_loop_spec keys c :
  StronglySorted Z.le keys -> NoDup keys -> Forall (Z.le c) keys ->
  let r := fd_loop keys c in
  c <= r /\ (r ∉ keys) /\ forall x, c <= x < r -> x ∈ keys.
Proof.
  revert c. induction keys as [|k keys IH]; intros c Hs Hn Hc; cbn [fd_loop].
  - split; [lia|]. split; [apply not_elem_of_nil | lia].
  - apply StronglySorted_inv in Hs as [Hs Hk]. apply NoDup_cons in Hn as [Hnin Hn].
    apply Forall_cons in Hc as [Hck Hc]. destruct (k =? c) eqn:E; bool_to_prop.
    + subst k. destruct (IH (c + 1) Hs Hn) as (H1 & H2 & H3).
      { apply Forall_forall. intros x Hx. rewrite Forall_forall in Hk. specialize (Hk x Hx).
        assert (x <> c) by (intros ->; contradiction). lia. }
      split; [lia|]. split; [apply not_elem_of_cons; split; [lia | done]|].
      intros x Hx. destruct (decide (x = c)) as [->|]; [left|]. right. apply H3. lia.
    + split; [lia|]. split; [|lia]. intros Hin. apply elem_of_cons in Hin as [->|Hin]; [lia|].
      rewrite Forall_forall in Hk. specialize (Hk c Hin). lia.
Qed.

Lemma sorted_keys_spec m :
  StronglySorted Z.le (sorted_keys m) /\ NoDup (sorted_keys m) /\ forall x, x ∈ sorted_keys m <-> x ∈ dom m.
Proof.
  unfold sorted_keys. pose proof (merge_sort_Permutation Z.le (elements (dom m))) as Hp.
  split; [apply StronglySorted_merge_sort; [apply _ | intros x y; lia]|].
  split; [rewrite Hp; apply NoDup_elements|]. intros x. rewrite Hp. apply elem_of_elements.
Qed.

(** Descriptors start at 3: the first three are never handed out. *)
Definition fds_ok (p : ProcessInfo) : Prop := forall fd, fd ∈ dom (fdToDomain p) -> 3 <= fd.

Lemma first_free_fd p :
  fds_ok p ->
  let fd := fd_loop (sorted_keys (fdToDomain p)) 3 in
  3 <= fd /\ fdToDomain p !! fd = None /\ forall x, 3 <= x < fd -> x ∈ dom (fdToDomain p).
Proof.
  intros Hok fd. destruct (sorted_keys_spec (fdToDomain p)) as (Hs & Hn & Hin).
  destruct (fd_loop_spec _ 3 Hs Hn) as (H1 & H2 & H3).
  { apply Forall_forall. intros x Hx. apply Hok. by apply Hin. }
  split; [done|]. split; [apply not_elem_of_dom; intros Hd; apply H2; by apply Hin|].
  intros x Hx. apply Hin. by apply H3.
Qed.

(** ** Lemmas: what the host does to the scheduler *)

Abbreviation T64 := (2 ^ 64 - 1).

Lemma sendPacketToModule_ops id from to p h (s s' : Sys) :
  sendPacketToModule id from to p h s = Ok s' -> sys_ops T64 s s'.
Proof.
  unfold sendPacketToModule, sendPacket. intros H. destruct (String.eqb to "Host").
  - res_inv. destruct (negb (running h)); res_inv; [apply rtc_refl | by eapply post_op].
  - destruct (hostModuleMap h !! to); res_inv; [by eapply post_op | apply rtc_refl].
Qed.

Lemma set_app_ops T a app (s : Sys) : sys_ops T s (set_app a app s).
Proof. apply rtc_once, op_statics. Qed.

Lemma addRunnable_ops T a st (s s' : Sys) : addRunnable a st s = Ok s' -> sys_ops T s s'.
Proof. intros H. apply rtc_once. by eapply op_add. Qed.

Lemma returnSystemCall_ops u v h h' (s s' : Sys) :
  returnSystemCall u v h s = Ok (h', s') -> sys_ops T64 s s'.
Proof.
  unfold returnSystemCall. intros H. destruct (syscallMap h !! u); res_inv; [|apply rtc_refl].
  eapply sys_ops_trans; [apply set_app_ops | by eapply addRunnable_ops].
Qed.

Lemma store_timeval_ops T a x y (s s' : Sys) : store_timeval a x y s = Ok s' -> sys_ops T s s'.
Proof.
  unfold store_timeval. destruct (a =? 0); [discriminate|].
  destruct (timevals (statics s) !! a); intros H; res_inv. apply rtc_once, op_statics.
Qed.

Lemma run_prog_ops {A} id self (p : HProg A) h (s : Sys) r h' s' :
  run_prog id self p h s = Ok (r, h', s') -> sys_ops T64 s s'.
Proof.
  revert h s. induction p; cbn [run_prog]; intros h0 s0 Hrun; res_inv; eauto using rtc_refl.
  all: try (eapply sys_ops_trans; [|by eauto]);
    eauto using sendPacketToModule_ops, returnSystemCall_ops, store_timeval_ops, new_packet_ops, clone_packet_ops, destroy_packet_ops.
  all: match goal with
       | Ht : addTimer _ _ _ _ _ = Ok _ |- _ => exact (sendMessage_op _ _ _ _ _ _ _ Ht)
       | |- sys_ops _ _ (cancelTimer _ _) => apply rtc_once, op_cancel
       | _ => apply rtc_refl
       end.
Qed.

Lemma call_object_ops id oid f h h' (s s' : Sys) :
  call_object id oid f h s = Ok (h', s') -> sys_ops T64 s s'.
Proof. unfold call_object. intros H. res_inv. by eapply run_prog_ops. Qed.

(** The host acts on the scheduler only through its operations. *)
Lemma messageReceived_ops id from m h h' (s s' : Sys) :
  messageReceived id from m h s = Ok (h', s') -> sys_ops T64 s s'.
Proof.
  unfold messageReceived, receive_syscall, receive_return. intros H. destruct m; try discriminate.
  - res_inv. destruct (running h); res_inv; [by eapply sendPacketToModule_ops | apply rtc_refl].
  - res_inv. destruct (interfaceMap h !! _); res_inv; [by eapply call_object_ops | apply rtc_refl].
  - res_inv. apply rtc_once, op_del.
  - destruct (running h); res_inv; [by eapply call_object_ops | apply rtc_refl].
  - res_inv. by eapply call_object_ops.
Qed.

(** A thread that was woken ends waiting or terminated, and does not touch
    the ready set. *)
Lemma exec_spec p app (s : Sys) app' s' :
  exec p app s = Ok (app', s') ->
  sys_ops T64 s s' /\ runnableReady s' = runnableReady s /\
  (app_state app' = WAITING \/ app_state app' = TERMINATED).
Proof.
  revert s. induction p as [v|param k IH|k IH|a k IH]; cbn [exec]; intros s H; res_inv; eauto.
  - unfold exitProcess in *. split; [by eapply post_op|]. destruct (post_inv _ _ _ _ _ _ E) as (_&_&_&_&_&_&_&?&_). auto.
  - destruct (negb _); res_inv; [by eauto|]. unfold issueSystemCall in *. split; [by eapply post_op|].
    match goal with Hp : post _ _ _ _ _ = Ok _ |- _ => destruct (post_inv _ _ _ _ _ _ Hp) as (_&_&_&_&_&_&_&?&_) end. auto.
Qed.

Lemma wake_spec a (s s' : Sys) st :
  wake a s = Ok (s', st) ->
  sys_ops T64 s s' /\ runnableReady s' = runnableReady s /\ st <> READY.
Proof.
  unfold wake. intros H. res_inv. destruct (exec_spec _ _ _ _ _ E1) as (Hops & Hr & Hst).
  split; [eapply sys_ops_trans; [done | apply set_app_ops]|]. split; [done|]. destruct Hst; congruence.
Qed.

(** ** Invariant of blocked system calls

    Every pending system call belongs to a registered process whose
    application waits for it, no process has two, and processes do not share
    application objects. *)
Record blocked_inv (h : Host) (s : Sys) : Prop := {
  bi_waiting u pid : syscallMap h !! u = Some pid ->
    exists p app, processInfoMap h !! pid = Some p /\ applications (statics s) !! application p = Some app /\
      app_pid app = pid /\ app_state app = WAITING;
  bi_one u1 u2 pid : syscallMap h !! u1 = Some pid -> syscallMap h !! u2 = Some pid -> u1 = u2;
  bi_distinct pid1 pid2 p1 p2 : processInfoMap h !! pid1 = Some p1 -> processInfoMap h !! pid2 = Some p2 ->
    application p1 = application p2 -> pid1 = pid2;
}.

Lemma addRunnable_ready a (s : Sys) :
  exists s', addRunnable a READY s = Ok s' /\ (a ∈ runnableReady s') /\ statics s' = statics s /\
    (forall b, b ∈ runnableReady s -> b ∈ runnableReady s').
Proof.
  unfold addRunnable. rewrite (bool_decide_eq_true_2 (READY = READY)) by done. cbn [assert_that mbind Res_bind].
  destruct (bool_decide (a ∈ _)) eqn:E; bool_to_prop.
  - by exists s.
  - eexists. split; [reflexivity|]. cbn. set (k := Nat.min _ _). split; [apply elem_of_app; right; left|].
    split; [done|]. intros b Hb. rewrite <- (take_drop k (runnableReady s)) in Hb.
    apply elem_of_app in Hb as [Hb|Hb]; apply elem_of_app; [by left | right; by right].
Qed.

(** Returning a pending system call. *)
Lemma returnSystemCall_pending u v pid h (s : Sys) :
  blocked_inv h s -> syscallMap h !! u = Some pid ->
  exists p app s', processInfoMap h !! pid = Some p /\
    applications (statics s) !! application p = Some app /\
    let h' := set_syscalls (syscallIDStart h) (delete u (syscallMap h)) h in
    returnSystemCall u v h s = Ok (h', s') /\ blocked_inv h' s' /\
    applications (statics s') =
      <[application p := mkApp (app_host app) pid v READY (app_code app)]> (applications (statics s)) /\
    (application p ∈ runnableReady s') /\
    (forall b, b ∈ runnableReady s -> b ∈ runnableReady s').
Proof.
  intros Hi Hu. destruct (bi_waiting _ _ Hi u pid Hu) as (p & app & Hp & Ha & Hpid & Hst).
  set (app' := mkApp (app_host app) (app_pid app) v READY (app_code app)).
  destruct (addRunnable_ready (application p) (set_app (application p) app' s)) as (s' & E & Hin & Hstat & Hkeep).
  exists p, app, s'. split; [done|]. split; [done|]. intros h'. split.
  { unfold returnSystemCall, get_app, returnSyscall. rewrite Hu, Hp. cbn [of_option mbind Res_bind].
    rewrite Ha. cbn [of_option mbind Res_bind]. rewrite Hst. rewrite bool_decide_eq_true_2 by done.
    cbn [assert_that mbind Res_bind app_state]. unfold app' in E. rewrite E. done. }
  assert (applications (statics s') = <[application p := app']> (applications (statics s))) as Eapps by (by rewrite Hstat).
  split; [|split; [rewrite Eapps; unfold app'; by rewrite Hpid | done]].
  constructor; cbn [syscallMap processInfoMap h' set_syscalls].
  - intros u2 pid2 H2. apply lookup_delete_Some in H2 as [Hne H2].
    destruct (bi_waiting _ _ Hi u2 pid2 H2) as (p2 & app2 & Hp2 & Ha2 & Hpid2 & Hst2).
    exists p2, app2. split; [done|]. split; [|done]. rewrite Eapps.
    rewrite lookup_insert_ne; [done|]. intros Eq.
    assert (pid = pid2) as -> by (by eapply (bi_distinct _ _ Hi)).
    apply Hne. by eapply (bi_one _ _ Hi).
  - intros u1 u2 pid0 H1 H2. apply lookup_delete_Some in H1 as [_ H1], H2 as [_ H2]. by eapply (bi_one _ _ Hi).
  - apply (bi_distinct _ _ Hi).
Qed.

(** Returning a list of pending system calls, as [cleanUp] does. *)
Lemma return_all us v h (s : Sys) :
  blocked_inv h s -> NoDup us -> (forall u, u ∈ us -> is_Some (syscallMap h !! u)) ->
  exists h' s', foldM (fun u '(h, s) => returnSystemCall u v h s) us (h, s) = Ok (h', s') /\
    blocked_inv h' s' /\ processInfoMap h' = processInfoMap h /\ running h' = running h /\
    (forall u, syscallMap h' !! u = if bool_decide (u ∈ us) then None else syscallMap h !! u) /\
    (forall b, b ∈ runnableReady s -> b ∈ runnableReady s') /\
    (forall a, (forall u pid p, u ∈ us -> syscallMap h !! u = Some pid -> processInfoMap h !! pid = Some p ->
        application p <> a) -> applications (statics s') !! a = applications (statics s) !! a) /\
    forall u pid p, u ∈ us -> syscallMap h !! u = Some pid -> processInfoMap h !! pid = Some p ->
      (application p ∈ runnableReady s') /\
      exists app, applications (statics s') !! application p = Some app /\
        app_pid app = pid /\ app_state app = READY /\ syscallRet app = v.
Proof.
  revert h s. induction us as [|u us IH]; intros h s Hi Hn Hall; cbn [foldM].
  { exists h, s. do 4 (split; [done|]). split; [|split; [done|split; [done|]]].
    - intros u. rewrite bool_decide_eq_false_2; [done | apply not_elem_of_nil].
    - intros u pid p Hu. by apply not_elem_of_nil in Hu. }
  apply NoDup_cons in Hn as [Hnin Hn]. destruct (Hall u (list_elem_of_here _ _)) as [pid Hu].
  destruct (returnSystemCall_pending u v pid h s Hi Hu) as (p & app & s1 & Hp & Ha & E & Hi1 & Eapps & Hin & Hkeep).
  rewrite E. set (h1 := set_syscalls _ _ h) in *.
  destruct (IH h1 s1 Hi1 Hn) as (h' & s' & E' & Hi' & Hproc & Hrun & Hmap & Hkeep' & Hother & Hall').
  { intros u2 Hu2. unfold h1. cbn. rewrite lookup_delete_ne by (intros ->; contradiction). apply Hall. by right. }
  exists h', s'. split; [done|]. split; [done|]. split; [done|]. split; [done|]. split; [|split; [auto|split]].
  - intros u2. rewrite Hmap. unfold h1. cbn. destruct (decide (u2 = u)) as [->|Hne].
    + rewrite (bool_decide_eq_true_2 (u ∈ u :: us)) by apply list_elem_of_here. rewrite lookup_delete_eq. by destruct (bool_decide _).
    + rewrite lookup_delete_ne by done. rewrite (bool_decide_ext (u2 ∈ u :: us) (u2 ∈ us)); [done|].
      rewrite elem_of_cons. naive_solver.
  - intros a Hna. rewrite Hother.
    + rewrite Eapps, lookup_insert_ne; [done|]. eapply Hna; [left | done | done].
    + intros u2 pid2 p2 Hu2 Hm2 Hp2. unfold h1 in Hm2. cbn in Hm2. apply lookup_delete_Some in Hm2 as [_ Hm2].
      eapply Hna; [by right | done | done].
  - intros u2 pid2 p2 Hu2 Hm2 Hp2. apply elem_of_cons in Hu2 as [->|Hu2].
    + rewrite Hu in Hm2. simplify_eq. split; [auto|]. rewrite Hother.
      * rewrite Eapps, lookup_insert_eq. by eexists.
      * intros u3 pid3 p3 Hu3 Hm3 Hp3 Eq. unfold h1 in Hm3. cbn in Hm3. apply lookup_delete_Some in Hm3 as [Hne Hm3].
        assert (pid3 = pid2) as -> by (by eapply (bi_distinct _ _ Hi)).
        apply Hne. by eapply (bi_one _ _ Hi).
    + eapply Hall'; [done| |done]. unfold h1. cbn. rewrite lookup_delete_ne by (intros ->; contradiction). done.
Qed.

Lemma allocate_syscall_spec pid h :
  is_u 64 (syscallIDStart h) ->
  match allocate_syscall pid h with
  | Ok (h', u) => syscallMap h !! u = None /\ is_u 64 u /\
      h' = set_syscalls (u ⊞ 1) (<[u := pid]> (syscallMap h)) h
  | Err e => e = AssertFailed "Host::messageReceived(syscallID)" /\
      forall u, is_u 64 u -> is_Some (syscallMap h !! u)
  end.
Proof.
  intros Hs. unfold allocate_syscall.
  pose proof (cyclic_search_total (2 ^ 64) (dom (syscallMap h)) (syscallIDStart h) Hs
    (S (size (dom (syscallMap h)))) ltac:(lia)) as H.
  change next_syscall_id with (fun c => (c + 1) mod 2 ^ 64).
  destruct (cyclic_search _ _ _ _ _) as [[c|]|]; cbn; [| |done].
  - destruct H as (n & Hn & -> & Hfree & _). split; [by apply not_elem_of_dom|]. split; [|done].
    apply Z.mod_pos_bound. lia.
  - split; [done|]. intros u Hu. apply elem_of_dom. by apply H.
Qed.

(** What the theorems on the built-in system calls need of the object type:
    its [DefaultSystemCall] behaves as the class of that name. *)
Class DefaultLaws := {
  default_system u pid param :
    systemCallback DefaultSystemCall u pid param =
    (_ ← DefaultSyscall.systemCallback u pid param; HRet DefaultSystemCall);
  default_timer payload :
    timerCallback DefaultSystemCall payload =
    (_ ← DefaultSyscall.timerCallback payload; HRet DefaultSystemCall);
  default_timer_name : timerModuleName DefaultSystemCall = Some DefaultSyscall.timer_name;
}.

(** The object registered for the built-in system calls and its timers. *)
Definition default_installed (oid : Z) (h : Host) : Prop :=
  interfaceMap h !! (0, 0) = Some oid /\ timerModuleMap h !! DefaultSyscall.timer_name = Some oid /\
  objects h !! oid = Some DefaultSystemCall.

(** A process that is registered and may raise system calls. *)
Definition process_ok (pid : Z) (p : ProcessInfo) (app : Application) (h : Host) (s : Sys) : Prop :=
  pid <> -1 /\ processInfoMap h !! pid = Some p /\
  applications (statics s) !! application p = Some app /\ app_pid app = pid.

(** Everything [receive_syscall] does before the virtual call. *)
Lemma receive_syscall_dispatch id pid p app param ns oid h (s : Sys) :
  process_ok pid p app h s -> syscall_namespace param p = Ok ns -> interfaceMap h !! ns = Some oid ->
  is_u 64 (syscallIDStart h) -> (exists u, is_u 64 u /\ syscallMap h !! u = None) ->
  exists u, is_u 64 u /\ syscallMap h !! u = None /\
    receive_syscall id pid param h s =
    call_object id oid (fun o => systemCallback o u pid param)
      (set_syscalls (u ⊞ 1) (<[u := pid]> (syscallMap h)) h) s.
Proof.
  intros (Hpid & Hp & Ha & Happ) Hns Hif Hstart (u0 & Hu0 & Hfree).
  unfold receive_syscall, get_app. replace (negb (pid =? -1)) with true
    by (symmetry; apply negb_true_iff, Z.eqb_neq; lia).
  cbn [assert_that mbind Res_bind]. rewrite Hp. cbn [of_option mbind Res_bind]. rewrite Ha.
  cbn [of_option mbind Res_bind]. rewrite Happ, Z.eqb_refl. cbn [assert_that mbind Res_bind].
  rewrite Hns. cbn [mbind Res_bind]. rewrite Hif. pose proof (allocate_syscall_spec pid h Hstart) as H.
  destruct (allocate_syscall pid h) as [[h1 u]|].
  - destruct H as (H1 & H2 & ->). exists u. done.
  - destruct H as [_ H]. apply H in Hu0. rewrite Hfree in Hu0. by destruct Hu0.
Qed.

(** Recording the call an application has just blocked on. *)
Lemma blocked_insert u pid p app st h (s s' : Sys) :
  blocked_inv h s -> process_ok pid p app h s -> app_state app = WAITING ->
  (forall u, syscallMap h !! u <> Some pid) -> applications (statics s') = applications (statics s) ->
  blocked_inv (set_syscalls st (<[u := pid]> (syscallMap h)) h) s'.
Proof.
  intros [H1 H2 H3] (_ & Hp & Ha & Happ) Hst Hno Es. constructor; cbn [syscallMap processInfoMap set_syscalls].
  - intros u' pid' H. rewrite Es. apply lookup_insert_Some in H as [[<- <-]|[_ H]]; [|by eapply H1].
    by exists p, app.
  - intros u1 u2 pid' E1 E2. apply lookup_insert_Some in E1 as [[<- <-]|[Hn1 E1]], E2 as [[<- E2]|[Hn2 E2]]; try done.
    + by apply Hno in E2.
    + subst. by apply Hno in E1.
    + by eapply H2.
  - exact H3.
Qed.

(** The caller [pid] has its answer [v]: its application is ready with it, and
    the other applications are those of [s]. *)
Definition answered (pid : Z) (p : ProcessInfo) (app : Application) (v : Z) (s s' : Sys) : Prop :=
  (application p ∈ runnableReady s') /\
  applications (statics s') =
    <[application p := mkApp (app_host app) pid v READY (app_code app)]> (applications (statics s)).

Lemma returnSystemCall_answers u v pid p app h (s : Sys) :
  blocked_inv h s -> syscallMap h !! u = Some pid -> process_ok pid p app h s ->
  exists h' s', returnSystemCall u v h s = Ok (h', s') /\ answered pid p app v s s' /\
    syscallMap h' = delete u (syscallMap h) /\ timevals (statics s') = timevals (statics s).
Proof.
  intros Hi Hu (_ & Hp & Ha & _).
  destruct (returnSystemCall_pending u v pid h s Hi Hu) as (p' & app' & s' & Hp' & Ha' & E & _ & Eapps & Hin & _).
  rewrite Hp in Hp'. injection Hp' as <-. rewrite Ha in Ha'. injection Ha' as <-.
  eexists _, s'. split; [exact E|]. split; [by split|]. split; [done|].
  unfold returnSystemCall in E. rewrite Hu, Hp in E. cbn [of_option mbind Res_bind] in E. res_inv.
  unfold addRunnable in E2. res_inv. by destruct (bool_decide (application p ∈ _)); res_inv.
Qed.

(** ** Properties *)

(** C33: descriptor allocation is the smallest free descriptor from 3 up: the
    new descriptor is free, every smaller one is in use, it is bound to the
    interface's domain and protocol (so later calls on it are dispatched
    there), nothing else of the process or of other processes changes, and
    removing it restores the table; only when that descriptor would reach
    65536 does the call fail, with [-1] and no change. *)
Theorem createFileDescriptor_smallest domain protocol pid p h :
  processInfoMap h !! pid = Some p -> fds_ok p ->
  exists fd, 3 <= fd /\ fdToDomain p !! fd = None /\ (forall x, 3 <= x < fd -> x ∈ dom (fdToDomain p)) /\
    if fd <? MAX_FD then
      exists h' p', createFileDescriptor domain protocol pid h = Ok (h', fd) /\
        processInfoMap h' !! pid = Some p' /\ fds_ok p' /\ application p' = application p /\
        fdToDomain p' = <[fd := (domain, protocol)]> (fdToDomain p) /\
        (forall x y, syscall_namespace (mkParam READ (P_int32 fd, x, y)) p' = Ok (domain, protocol)) /\
        (forall pid', pid' <> pid -> processInfoMap h' !! pid' = processInfoMap h !! pid') /\
        (exists p'', processInfoMap (removeFileDescriptor pid fd h') !! pid = Some p'' /\ fdToDomain p'' = fdToDomain p)
    else createFileDescriptor domain protocol pid h = Ok (h, -1).
Proof.
  intros Hp Hok. destruct (first_free_fd p Hok) as (H1 & H2 & H3).
  exists (fd_loop (sorted_keys (fdToDomain p)) 3). set (fd := fd_loop _ 3) in *.
  split; [done|]. split; [done|]. split; [done|].
  unfold createFileDescriptor. rewrite Hp. cbn [of_option]. fold fd. rewrite H2.
  destruct (fd <? MAX_FD) eqn:E; bool_to_prop.
  - replace (MAX_FD <=? fd) with false by (symmetry; apply Z.leb_gt; lia).
    eexists _, _. split; [reflexivity|]. cbn [processInfoMap set_processes]. rewrite lookup_insert_eq.
    split; [reflexivity|]. cbn [fdToDomain application]. split; [|split; [done|split; [done|split; [|split]]]].
    + intros x Hx. cbn in Hx. rewrite dom_insert in Hx. apply elem_of_union in Hx as [->%elem_of_singleton|Hx]; [done | by apply Hok].
    + intros x y. unfold syscall_namespace. cbn [syscallNumber param0 params fst get_int mbind Res_bind fdToDomain].
      by rewrite lookup_insert_eq.
    + intros pid' Hne. by rewrite lookup_insert_ne.
    + unfold removeFileDescriptor. cbn [processInfoMap set_processes]. rewrite lookup_insert_eq.
      cbn [processInfoMap set_processes fdToDomain]. rewrite lookup_insert_eq.
      eexists. split; [reflexivity|]. cbn [fdToDomain]. by rewrite delete_insert_id.
  - by replace (MAX_FD <=? fd) with true by (symmetry; apply Z.leb_le; lia).
Qed.

(** a system call is dispatched exactly once, to the module that owns its
    namespace (the arguments of [socket], the descriptor's namespace for calls
    on a descriptor, the built-in namespace for sleeping and time), under an
    identifier that was not in use and is recorded for the calling process. *)
Theorem syscall_dispatch id from pid p app param ns oid h (s : Sys) :
  process_ok pid p app h s -> syscall_namespace param p = Ok ns -> interfaceMap h !! ns = Some oid ->
  is_u 64 (syscallIDStart h) -> (exists u, is_u 64 u /\ syscallMap h !! u = None) ->
  exists u, is_u 64 u /\ syscallMap h !! u = None /\
    messageReceived id from (Syscall pid param) h s =
    call_object id oid (fun o => systemCallback o u pid param)
      (set_syscalls (u ⊞ 1) (<[u := pid]> (syscallMap h)) h) s.
Proof. apply receive_syscall_dispatch. Qed.

(** C12: returning a system call unblocks exactly its caller, exactly once:
    from a state in which pending calls belong to waiting applications, the
    caller becomes ready with the returned value and enters the ready set, the
    call is no longer pending, every other application is untouched, the
    invariant holds again, and a second return of the same call does nothing. *)
Theorem returnSystemCall_unblocks_once u v v' pid h (s : Sys) :
  blocked_inv h s -> syscallMap h !! u = Some pid ->
  exists p app h' s', processInfoMap h !! pid = Some p /\
    applications (statics s) !! application p = Some app /\
    returnSystemCall u v h s = Ok (h', s') /\ blocked_inv h' s' /\
    syscallMap h' = delete u (syscallMap h) /\
    applications (statics s') =
      <[application p := mkApp (app_host app) pid v READY (app_code app)]> (applications (statics s)) /\
    (application p ∈ runnableReady s') /\
    returnSystemCall u v' h' s' = Ok (h', s').
Proof.
  intros Hi Hu. destruct (returnSystemCall_pending u v pid h s Hi Hu) as (p & app & s' & Hp & Ha & E & Hi' & Eapps & Hin & _).
  eexists p, app, _, s'. split; [done|]. split; [done|]. split; [exact E|]. split; [done|]. split; [done|].
  split; [done|]. split; [done|]. unfold returnSystemCall. cbn [syscallMap set_syscalls]. by rewrite lookup_delete_eq.
Qed.

(** C30: [cleanUp] stops the host and releases every blocked application: it
    never fails, reports the number of pending calls, leaves none, and each of
    their callers is ready, in the ready set, with result [-1]; applications
    that were not in a system call are untouched. *)
Theorem cleanUp_releases_all h (s : Sys) :
  blocked_inv h s ->
  exists h' s', cleanUp h s = Ok (h', s', Z.of_nat (size (syscallMap h))) /\
    running h' = false /\ syscallMap h' = ∅ /\ processInfoMap h' = processInfoMap h /\
    (forall u pid p, syscallMap h !! u = Some pid -> processInfoMap h !! pid = Some p ->
      (application p ∈ runnableReady s') /\
      exists app, applications (statics s') !! application p = Some app /\
        app_pid app = pid /\ app_state app = READY /\ syscallRet app = -1) /\
    (forall a, (forall u pid p, syscallMap h !! u = Some pid -> processInfoMap h !! pid = Some p -> application p <> a) ->
      applications (statics s') !! a = applications (statics s) !! a).
Proof.
  intros Hi. set (h0 := set_running false h). pose proof (map_order_perm (syscallMap h)) as Hperm.
  assert (forall u, u ∈ map_order (syscallMap h) <-> is_Some (syscallMap h !! u)) as Hin.
  { intros u. rewrite Hperm, elem_of_elements. apply elem_of_dom. }
  destruct (return_all (map_order (syscallMap h)) (-1) h0 s) as (h' & s' & E & _ & Hproc & Hrun & Hmap & _ & Hother & Hall).
  { by destruct Hi. } { rewrite Hperm. apply NoDup_elements. } { intros u Hu. by apply Hin. }
  exists h', s'. split.
  { unfold cleanUp. fold h0. change (syscallMap h0) with (syscallMap h). rewrite E. cbn [mbind Res_bind].
    rewrite (Permutation_length Hperm). do 2 f_equal. rewrite <- size_dom. done. }
  split; [done|]. split.
  { apply map_eq. intros u. rewrite Hmap, lookup_empty. destruct (bool_decide _) eqn:Eu; [done|]. bool_to_prop.
    destruct (syscallMap h !! u) eqn:El; [|done]. exfalso. apply Eu, Hin. by rewrite El. }
  split; [done|]. split.
  - intros u pid p Hu Hp. apply (Hall u pid p); [apply Hin; by rewrite Hu | done | done].
  - intros a Ha. apply Hother. intros u pid p _ Hu Hp. by eapply Ha.
Qed.

(** sleeping: [NSLEEP] of [t] nanoseconds records a pending call and
    posts one timer message due exactly [t] later; when the host receives that
    message while the call is pending, the caller becomes ready with result
    [0] and the call is no longer pending. *)
Theorem nsleep_returns_after {DL : DefaultLaws} id from pid p app t x y oid h (s : Sys) :
  process_ok pid p app h s -> default_installed oid h -> is_u 64 (syscallIDStart h) ->
  (exists u, is_u 64 u /\ syscallMap h !! u = None) ->
  ids_below s -> currentUUID s + 1 < 2 ^ 64 ->
  exists u h' s', messageReceived id from (Syscall pid (mkParam NSLEEP (P_uint64 t, x, y))) h s = Ok (h', s') /\
    syscallMap h' = <[u := pid]> (syscallMap h) /\ processInfoMap h' = processInfoMap h /\
    applications (statics s') = applications (statics s) /\
    timerQueue s' = pq_push (mkTimer id id false (currentTime s ⊞ t)
      (Timer DefaultSyscall.timer_name (any_uuid u)) (currentUUID s + 1)) (timerQueue s) /\
    forall from' h2 p2 app2 s2, default_installed oid h2 -> blocked_inv h2 s2 ->
      syscallMap h2 !! u = Some pid -> process_ok pid p2 app2 h2 s2 ->
      exists h3 s3, messageReceived id from' (Timer DefaultSyscall.timer_name (any_uuid u)) h2 s2 = Ok (h3, s3) /\
        answered pid p2 app2 0 s2 s3 /\ syscallMap h3 = delete u (syscallMap h2).
Proof.
  intros Hp (Hif & Htm & Hobj) Hstart Hfree Hids Hc.
  destruct (receive_syscall_dispatch id pid p app (mkParam NSLEEP (P_uint64 t, x, y)) (0, 0) oid h s Hp eq_refl Hif Hstart Hfree)
    as (u & Hu & Hnone & E).
  destruct (post_total id id (Timer DefaultSyscall.timer_name (any_uuid u)) t s Hids Hc) as (s' & Es & _ & _).
  set (h1 := set_syscalls (u ⊞ 1) (<[u := pid]> (syscallMap h)) h) in *.
  exists u, (set_object oid DefaultSystemCall h1), s'. split; [|split; [done|split; [done|]]].
  - change (messageReceived id from (Syscall pid ?q) h s) with (receive_syscall id pid q h s). rewrite E.
    unfold call_object. change (objects h1) with (objects h). rewrite Hobj. cbn [of_option mbind Res_bind].
    rewrite default_system. cbn [DefaultSyscall.systemCallback syscallNumber param0 params fst get_uint64 lift mbind HProg_bind hbind HostApi.addTimer].
    cbn [run_prog self_of self_timer]. rewrite default_timer_name. cbn [of_option mbind Res_bind].
    unfold addTimer, sendMessageSelf. unfold post in Es.
    destruct (module_sendMessage id id _ t s) as [[s1 u1]|]; [|discriminate]. cbn [mbind Res_bind] in Es |- *. by simplify_eq.
  - destruct (post_inv _ _ _ _ _ _ Es) as (_ & _ & Hq & _ & _ & _ & _ & _ & Hst). split; [by rewrite Hst|].
    split; [rewrite Hq; rewrite (wrap_small 64 (currentUUID s + 1)) by (destruct Hids; unfold is_u; lia); done|].
    intros from' h2 p2 app2 s2 (Hif2 & Htm2 & Hobj2) Hi2 Hu2 Hp2.
    destruct (returnSystemCall_answers u 0 pid p2 app2 h2 s2 Hi2 Hu2 Hp2) as (h3 & s3 & Er & Hans & Hm & _).
    exists (set_object oid DefaultSystemCall h3), s3. split; [|done].
    cbn [messageReceived]. rewrite Htm2.
    cbn [of_option mbind Res_bind]. unfold call_object. rewrite Hobj2. cbn [of_option mbind Res_bind].
    rewrite default_timer. cbn [DefaultSyscall.timerCallback any_cast_uuid lift mbind HProg_bind hbind HostApi.returnSystemCall].
    cbn [run_prog]. rewrite Er. done.
Qed.

(** [GETTIMEOFDAY] answers at once: without a time zone it stores the
    virtual clock in microseconds, split into seconds and a remainder below
    one million, and returns [0]; with a time zone it returns [-EINVAL] and
    stores nothing; in both cases the caller is ready again and no call stays
    pending. *)
Theorem gettimeofday_stores {DL : DefaultLaws} id from pid p app tv tz x oid h (s : Sys) :
  process_ok pid p app h s -> default_installed oid h -> is_u 64 (syscallIDStart h) ->
  (exists u, is_u 64 u /\ syscallMap h !! u = None) -> blocked_inv h s -> app_state app = WAITING ->
  (forall u, syscallMap h !! u <> Some pid) -> tv <> 0 -> is_Some (timevals (statics s) !! tv) ->
  exists h' s', messageReceived id from (Syscall pid (mkParam GETTIMEOFDAY (P_ptr tv, P_ptr tz, x))) h s = Ok (h', s') /\
    syscallMap h' = syscallMap h /\
    answered pid p app (if tz =? 0 then 0 else - DefaultSyscall.EINVAL) s s' /\
    timevals (statics s') =
      if tz =? 0
      then <[tv := (currentTime s / 1000 / 1000000, currentTime s / 1000 mod 1000000)]> (timevals (statics s))
      else timevals (statics s).
Proof.
  intros Hp (Hif & Htm & Hobj) Hstart Hfree Hi Hst Hno Htv [tv0 Htv0].
  destruct (receive_syscall_dispatch id pid p app (mkParam GETTIMEOFDAY (P_ptr tv, P_ptr tz, x)) (0, 0) oid h s Hp eq_refl Hif Hstart Hfree)
    as (u & Hu & Hnone & E).
  set (h1 := set_syscalls (u ⊞ 1) (<[u := pid]> (syscallMap h)) h) in *.
  set (val := if tz =? 0 then 0 else - DefaultSyscall.EINVAL).
  set (tvs := if tz =? 0 then _ else timevals (statics s)).
  set (s1 := if tz =? 0 then set_statics (mkEnv (registry (statics s)) (applications (statics s)) tvs) s else s).
  assert (applications (statics s1) = applications (statics s)) as Es1 by (unfold s1; by destruct (tz =? 0)).
  assert (timevals (statics s1) = tvs) as Et1 by (unfold s1, tvs; by destruct (tz =? 0)).
  assert (blocked_inv h1 s1) as Hi1 by (by eapply blocked_insert).
  assert (process_ok pid p app h1 s1) as Hp1 by (destruct Hp as (? & ? & ? & ?); repeat split; try done; by rewrite Es1).
  destruct (returnSystemCall_answers u val pid p app h1 s1 Hi1 (lookup_insert_eq _ _ _) Hp1) as (h2 & s2 & Er & Hans & Hm & Htvs).
  exists (set_object oid DefaultSystemCall h2), s2. split; [|split; [|split]].
  - change (messageReceived id from (Syscall pid ?q) h s) with (receive_syscall id pid q h s). rewrite E.
    unfold call_object. change (objects h1) with (objects h). rewrite Hobj. cbn [of_option mbind Res_bind].
    rewrite default_system.
    cbn [DefaultSyscall.systemCallback syscallNumber HostApi.getCurrentTime mbind HProg_bind hbind param0 param1 params fst snd get_ptr lift].
    unfold val, s1, tvs in *. destruct (tz =? 0); cbn [negb].
    + cbn [mbind HProg_bind hbind HostApi.returnSystemCall run_prog]. unfold store_timeval.
      replace (tv =? 0) with false by (symmetry; apply Z.eqb_neq; lia). cbn [run_prog]. rewrite Htv0. cbn [mbind Res_bind].
      unfold getTime. destruct getMultiplier_values as (_ & -> & _). change (10 ^ 3) with 1000.
      change (getCurrentTime s) with (currentTime s). rewrite Er. done.
    + cbn [mbind HProg_bind hbind HostApi.returnSystemCall run_prog]. rewrite Er. done.
  - change (syscallMap (set_object oid DefaultSystemCall h2)) with (syscallMap h2). rewrite Hm. unfold h1. cbn.
    by rewrite delete_insert_id.
  - destruct Hans as [Ha1 Ha2]. split; [done|]. by rewrite Ha2, Es1.
  - by rewrite Htvs, Et1.
Qed.

(** C40: requests that no module can serve: [socket] on a namespace without an
    interface is dropped, leaving the caller blocked with no pending call that
    [cleanUp] could release, and any call on a descriptor the process does not
    own stops the simulation with a failed assertion instead of an error. *)
Theorem unserved_syscalls id from pid p app h (s : Sys) domain protocol x :
  process_ok pid p app h s -> blocked_inv h s -> app_state app = WAITING ->
  (forall u, syscallMap h !! u <> Some pid) ->
  (interfaceMap h !! (domain, protocol) = None ->
   messageReceived id from (Syscall pid (mkParam SOCKET (P_int32 domain, x, P_int32 protocol))) h s = Ok (h, s) /\
   forall h' s' n, cleanUp h s = Ok (h', s', n) -> applications (statics s') !! application p = Some app) /\
  (forall call fd y, call ∉ [SOCKET; NSLEEP; GETTIMEOFDAY] -> fdToDomain p !! fd = None ->
   messageReceived id from (Syscall pid (mkParam call (P_int32 fd, x, y))) h s =
   Err (AssertFailed "Host::messageReceived(fd)")).
Proof.
  intros (Hpid & Hp & Ha & Happ) Hi Hst Hno.
  assert (forall param, receive_syscall id pid param h s =
    (ns ← syscall_namespace param p;
     match interfaceMap h !! ns with
     | None => Ok (h, s)
     | Some oid => '(h, u) ← allocate_syscall pid h; call_object id oid (fun o => systemCallback o u pid param) h s
     end)) as Hrec.
  { intros param. unfold receive_syscall, get_app. replace (negb (pid =? -1)) with true
      by (symmetry; apply negb_true_iff, Z.eqb_neq; lia).
    cbn [assert_that mbind Res_bind]. rewrite Hp. cbn [of_option mbind Res_bind]. rewrite Ha.
    cbn [of_option mbind Res_bind]. rewrite Happ, Z.eqb_refl. done. }
  split.
  - intros Hif. split; [cbn [messageReceived]; rewrite Hrec; cbn; by rewrite Hif|]. intros h' s' n Hc.
    set (h0 := set_running false h). pose proof (map_order_perm (syscallMap h)) as Hperm.
    destruct (return_all (map_order (syscallMap h)) (-1) h0 s) as (h1 & s1 & E & _ & _ & _ & _ & _ & Hother & _).
    { by destruct Hi. } { rewrite Hperm. apply NoDup_elements. }
    { intros u Hu. rewrite Hperm, elem_of_elements in Hu. by apply elem_of_dom in Hu. }
    unfold cleanUp in Hc. fold h0 in Hc. change (syscallMap h0) with (syscallMap h) in Hc. rewrite E in Hc.
    cbn [mbind Res_bind] in Hc. injection Hc as <- <- <-. rewrite Hother; [done|].
    intros u pid' p' _ Hu Hp' Eq. apply (Hno u). change (syscallMap h0) with (syscallMap h) in Hu.
    by rewrite (bi_distinct _ _ Hi pid pid' p p' Hp Hp' (eq_sym Eq)).
  - intros call fd y Hcall Hfd. cbn [messageReceived]. rewrite Hrec.
    destruct call; first [exfalso; apply Hcall; by apply (bool_decide_unpack _) | cbn; by rewrite Hfd].
Qed.

(** registering a process gives it the first free identifier from the
    host's cursor on, modulo 65536, records its application under it with no
    open descriptor, stores the identifier in the application, and changes no
    other process; it reports [-1] only when all 65536 identifiers are taken. *)
Theorem registerProcess_fresh a app h (s : Sys) :
  0 <= pidStart h < MAX_PID -> applications (statics s) !! a = Some app ->
  exists h' s' pid, registerProcess a h s = Ok (h', s', pid) /\
  ((pid = -1 /\ h' = h /\ s' = s /\ forall x, 0 <= x < MAX_PID -> is_Some (processInfoMap h !! x)) \/
   (0 <= pid < MAX_PID /\ processInfoMap h !! pid = None /\
    (exists k, 0 <= k < MAX_PID /\ pid = (pidStart h + k) mod MAX_PID /\
       forall i, 0 <= i < k -> is_Some (processInfoMap h !! ((pidStart h + i) mod MAX_PID))) /\
    processInfoMap h' = <[pid := mkProc a ∅]> (processInfoMap h) /\
    applications (statics s') =
      <[a := mkApp (app_host app) pid (syscallRet app) (app_state app) (app_code app)]> (applications (statics s)))).
Proof.
  intros Hs Ha. unfold registerProcess. unfold MAX_PID in *.
  pose proof (cyclic_search_total MAX_FD (dom (processInfoMap h)) (pidStart h) Hs
    (S (size (dom (processInfoMap h)))) ltac:(lia)) as H.
  destruct (cyclic_search _ _ _ _ _) as [[c|]|]; [| |done].
  - destruct H as (n & Hn & -> & Hfree & Hused). unfold get_app. cbn [mbind Res_bind]. rewrite Ha.
    eexists _, _, _. split; [reflexivity|]. right. split; [apply Z.mod_pos_bound; done|].
    split; [by apply not_elem_of_dom|]. split; [|done]. exists n. split; [done|]. split; [done|].
    intros i Hi. apply elem_of_dom. by apply Hused.
  - cbn [mbind Res_bind]. eexists _, _, _. split; [reflexivity|]. left. repeat (split; [done|]).
    intros x Hx. apply elem_of_dom. by apply H.
Qed.

End Ops.
End Host.
Arguments Host : clear implicits.

(** *** Instances: a host with the built-in system calls only *)

#[local] Instance only_default : HostModuleClass unit := {|
  hostModuleName _ := None;
  timerModuleName _ := Some DefaultSyscall.timer_name;
  namespace _ := Some DefaultSyscall.domain_protocol;
  packetArrived o _ _ := HRet o;
  systemCallback o u pid param := _ ← DefaultSyscall.systemCallback u pid param; HRet o;
  timerCallback o payload := _ ← DefaultSyscall.timerCallback payload; HRet o;
  initialize := default_initialize;
  finalize := default_finalize;
  diagnose := default_diagnose;
  DefaultSystemCall := tt;
|}.

#[local] Instance only_default_laws : DefaultLaws.
Proof. by constructor. Qed.

#[local] Instance no_wires : ModuleView unit := {| as_wire _ := None; host_running _ := Some true |}.
#[local] Instance unordered : UnorderedSet Z := {| bucket_pos _ _ := 0%nat |}.
#[local] Instance unordered_map : UnorderedMap.
Proof. refine {| map_order m := elements (dom m) |}. done. Defined.

Abbreviation Sys := (System unit Message Z Env).

(** One process, waiting in a system call that was just raised. *)
Definition ex_app : Application := mkApp 5 0 (-1) WAITING Finish.
Definition ex_proc : ProcessInfo := mkProc 1 {[3 := (2, 6)]}.
Definition ex_sys : Sys := System_init (mkEnv initial_registry {[1 := ex_app]} {[64 := (0, 0)]}).
Definition ex_host : Host unit :=
  mkHost [] empty_info 1 0 true {[1 := tt]} {[(0, 0) := 1]} ∅ {["DefaultSyscall" := 1]} {[0 := ex_proc]} ∅.
Definition ex_blocked : Host unit := set_syscalls 8 {[7 := 0]} ex_host.

Example ex_new_host : Host_new (Obj := unit) =
  Ok (mkHost [] empty_info 0 0 true {[1 := tt]} {[(0, 0) := 1]} ∅ {["DefaultSyscall" := 1]} ∅ ∅).
Proof. vm_compute. reflexivity. Qed.

Lemma ex_process_ok : process_ok 0 ex_proc ex_app ex_host ex_sys.
Proof. by repeat split. Qed.

Lemma ex_default_installed : default_installed 1 ex_host.
Proof. by repeat split. Qed.

Lemma ex_free : exists u, is_u 64 u /\ syscallMap ex_host !! u = None.
Proof. exists 0. by split. Qed.

Lemma ex_ids_below : ids_below ex_sys.
Proof. split; [done|]. intros u Hu. exfalso. cbn in Hu. set_solver. Qed.

Lemma ex_processes pid p : processInfoMap ex_host !! pid = Some p -> pid = 0 /\ p = ex_proc.
Proof. intros H. cbn in H. apply lookup_singleton_Some in H as [<- <-]. done. Qed.

Lemma ex_blocked_inv : blocked_inv ex_blocked ex_sys.
Proof.
  constructor.
  - intros u pid H. cbn in H. apply lookup_singleton_Some in H as [<- <-]. by exists ex_proc, ex_app.
  - intros u1 u2 pid H1 H2. cbn in H1, H2. apply lookup_singleton_Some in H1 as [<- _], H2 as [<- _]. done.
  - intros pid1 pid2 p1 p2 H1 H2 _. apply ex_processes in H1 as [-> _], H2 as [-> _]. done.
Qed.

Lemma ex_unblocked_inv : blocked_inv ex_host ex_sys.
Proof.
  constructor; cbn; try (intros; by rewrite lookup_empty in *; simplify_eq).
  intros pid1 pid2 p1 p2 H1 H2 _. apply ex_processes in H1 as [-> _], H2 as [-> _]. done.
Qed.

Lemma createFileDescriptor_smallest_witness :
  exists h', createFileDescriptor 2 6 0 ex_host = Ok (h', 4).
Proof.
  destruct (createFileDescriptor_smallest 2 6 0 ex_proc ex_host) as (fd & H3 & Hn & Hall & Hif); [reflexivity | |].
  - intros fd Hfd. unfold ex_proc in Hfd. cbn in Hfd. rewrite dom_singleton in Hfd. apply elem_of_singleton in Hfd. lia.
  - assert (fd = 4) as ->.
    { unfold ex_proc in Hn, Hall. cbn [fdToDomain] in Hn, Hall.
      destruct (decide (fd = 3)) as [->|]; [discriminate Hn|]. destruct (decide (4 < fd)); [|lia].
      specialize (Hall 4 ltac:(lia)). rewrite dom_singleton in Hall. apply elem_of_singleton in Hall. lia. }
    destruct Hif as (h' & p' & H & _). exists h'. exact H.
Defined.

Definition ex_sleep : SystemCallParameter := mkParam NSLEEP (P_uint64 500, unset, unset).

Lemma syscall_dispatch_witness :
  exists u, syscallMap ex_host !! u = None /\
    messageReceived 5 5 (Syscall 0 ex_sleep) ex_host ex_sys =
    call_object 5 1 (fun o => systemCallback o u 0 ex_sleep) (set_syscalls (u ⊞ 1) (<[u := 0]> ∅) ex_host) ex_sys.
Proof.
  destruct (syscall_dispatch 5 5 0 ex_proc ex_app ex_sleep (0, 0) 1 ex_host ex_sys) as (u & _ & H1 & H2);
    [exact ex_process_ok | reflexivity | reflexivity | solve_bytes | exact ex_free |].
  exists u. split; [exact H1 | exact H2].
Defined.

Lemma returnSystemCall_unblocks_once_witness :
  exists h' s', returnSystemCall 7 42 ex_blocked ex_sys = Ok (h', s') /\ returnSystemCall 7 1 h' s' = Ok (h', s').
Proof.
  destruct (returnSystemCall_unblocks_once 7 42 1 0 ex_blocked ex_sys) as (p & app & h' & s' & _ & _ & H1 & _ & _ & _ & _ & H2);
    [exact ex_blocked_inv | reflexivity |].
  exists h', s'. split; [exact H1 | exact H2].
Defined.

Lemma cleanUp_releases_all_witness :
  exists h' s', cleanUp ex_blocked ex_sys = Ok (h', s', 1) /\ syscallMap h' = ∅.
Proof.
  destruct (cleanUp_releases_all ex_blocked ex_sys) as (h' & s' & H1 & _ & H2 & _); [exact ex_blocked_inv|].
  exists h', s'. split; [exact H1 | exact H2].
Defined.

Lemma nsleep_returns_after_witness :
  exists u h' s', messageReceived 5 5 (Syscall 0 ex_sleep) ex_host ex_sys = Ok (h', s') /\
    timerQueue s' = [mkTimer 5 5 false 500 (Timer "DefaultSyscall" (any_uuid u)) 1].
Proof.
  destruct (nsleep_returns_after 5 5 0 ex_proc ex_app 500 unset unset 1 ex_host ex_sys) as (u & h' & s' & H1 & _ & _ & _ & H2 & _);
    [exact ex_process_ok | exact ex_default_installed | solve_bytes | exact ex_free | exact ex_ids_below | reflexivity |].
  exists u, h', s'. split; [exact H1 | exact H2].
Defined.

Lemma gettimeofday_stores_witness :
  exists h' s', messageReceived 5 5 (Syscall 0 (mkParam GETTIMEOFDAY (P_ptr 64, P_ptr 0, unset))) ex_host ex_sys = Ok (h', s') /\
    syscallMap h' = ∅.
Proof.
  destruct (gettimeofday_stores 5 5 0 ex_proc ex_app 64 0 unset 1 ex_host ex_sys) as (h' & s' & H1 & H2 & _);
    [exact ex_process_ok | exact ex_default_installed | solve_bytes | exact ex_free | exact ex_unblocked_inv | reflexivity
    | intros u; cbn; by rewrite lookup_empty | discriminate | by exists (0, 0) |].
  exists h', s'. split; [exact H1 | exact H2].
Defined.

Lemma unserved_syscalls_witness :
  messageReceived 5 5 (Syscall 0 (mkParam SOCKET (P_int32 2, unset, P_int32 17))) ex_host ex_sys = Ok (ex_host, ex_sys) /\
  messageReceived 5 5 (Syscall 0 (mkParam CLOSE (P_int32 9, unset, unset))) ex_host ex_sys =
    Err (AssertFailed "Host::messageReceived(fd)").
Proof.
  destruct (unserved_syscalls 5 5 0 ex_proc ex_app ex_host ex_sys 2 17 unset) as [H1 H2];
    [exact ex_process_ok | exact ex_unblocked_inv | reflexivity | intros u; cbn; by rewrite lookup_empty |].
  split; [apply H1; reflexivity|]. apply H2; [by apply (bool_decide_unpack _) | reflexivity].
Defined.

Lemma registerProcess_fresh_witness :
  exists h' s' pid, registerProcess 1 ex_host ex_sys = Ok (h', s', pid).
Proof.
  destruct (registerProcess_fresh 1 ex_app ex_host ex_sys) as (h' & s' & pid & H & _);
    [by split | reflexivity |].
  exists h', s', pid. exact H.
Defined.

End Host.
