(* ===== verification/Runnable.v ===== *)
(** * Runnable: the handshake between the scheduler and an application thread

    Models class [Runnable] of src/E/E_System.cpp and include/E/E_System.hpp at
    the level of its mutex and condition variable: one scheduler thread calls
    [start], [wake] and [ready]; the runnable's own thread executes [run] and
    calls [wait].  Each access to the shared [state] happens with the mutex
    held; [cond.wait(lock, pred)] checks the predicate, releases the mutex and
    sleeps until notified (or spuriously woken), then takes the mutex again.

    The theorems justify treating [wake] as one sequential call of the
    application's code, as Host.v and System.v do. *)

From S2P Require Import Prelude System.
From stdpp Require Import relations finite.
Local Open Scope Z_scope.

Module Runnable.

(** ** State *)

(** Who holds [stateMtx], through [schedLock] or [threadLock]. *)
Inductive Owner := Nobody | Scheduler | Thread.

(** Inside [cond.wait(lock, pred)]: about to test the predicate with the mutex
    held, asleep, or awake and about to take the mutex again. *)
Inductive Phase := Check | Sleep | Notified.

(** The thread: before [threadLock.lock()], in [cond.wait] for [STARTING],
    in [cond.wait] for [RUNNING] (in [run] or in [wait]), in [main], returned. *)
Inductive ThreadPc := TLock | TWaitStarting (p : Phase) | TWaitRunning (p : Phase) | TMain | TDone.

(** The scheduler: outside the runnable's methods, in [start], in [wake]. *)
Inductive SchedPc := SIdle | SStart (p : Phase) | SWake (p : Phase).

Record Runnable := mkRunnable {
  state : RState;
  owner : Owner;
  thread : ThreadPc;
  sched : SchedPc;
}.

#[global] Instance Owner_eq_dec : EqDecision Owner.
Proof. solve_decision. Defined.
#[global] Instance Phase_eq_dec : EqDecision Phase.
Proof. solve_decision. Defined.
#[global] Instance ThreadPc_eq_dec : EqDecision ThreadPc.
Proof. solve_decision. Defined.
#[global] Instance SchedPc_eq_dec : EqDecision SchedPc.
Proof. solve_decision. Defined.
#[global] Instance Runnable_eq_dec : EqDecision Runnable.
Proof. solve_decision. Defined.

(** The constructor: [schedLock(stateMtx)] takes the mutex, the thread runs. *)
Definition Runnable_new : Runnable := mkRunnable CREATED Scheduler TLock SIdle.

(** ** Steps *)

Inductive Action :=
| ThreadStep          (* the next action of [run] or of a [cond.wait] of the thread *)
| ThreadWait          (* [main] calls [wait] *)
| ThreadReturn        (* [main] returns *)
| ThreadSpurious      (* spurious wake-up of the thread *)
| CallStart           (* the scheduler calls [start] *)
| CallWake            (* the scheduler calls [wake] *)
| CallReady           (* the scheduler calls [ready] *)
| SchedStep           (* the next action of the scheduler's [cond.wait] *)
| SchedSpurious.      (* spurious wake-up of the scheduler *)

(** [cond.notify_all()]. *)
Definition wake_phase (p : Phase) : Phase := match p with Sleep => Notified | p => p end.
Definition notify_thread (t : ThreadPc) : ThreadPc :=
  match t with
  | TWaitStarting p => TWaitStarting (wake_phase p)
  | TWaitRunning p => TWaitRunning (wake_phase p)
  | t => t
  end.
Definition notify_sched (c : SchedPc) : SchedPc :=
  match c with
  | SStart p => SStart (wake_phase p)
  | SWake p => SWake (wake_phase p)
  | c => c
  end.

(** [run]: up to and including the next access to the shared state. *)
Definition thread_step (r : Runnable) : option Runnable :=
  match thread r, owner r with
  | TLock, Nobody => Some (mkRunnable (state r) Thread (TWaitStarting Check) (sched r))
  | TWaitStarting Check, Thread =>
      if bool_decide (state r = STARTING)
      then (* pre_main(); state = READY; notify_all(); *)
        Some (mkRunnable READY Thread (TWaitRunning Check) (notify_sched (sched r)))
      else Some (mkRunnable (state r) Nobody (TWaitStarting Sleep) (sched r))
  | TWaitStarting Notified, Nobody => Some (mkRunnable (state r) Thread (TWaitStarting Check) (sched r))
  | TWaitRunning Check, Thread =>
      if bool_decide (state r = RUNNING)
      then Some (mkRunnable RUNNING Thread TMain (sched r))
      else Some (mkRunnable (state r) Nobody (TWaitRunning Sleep) (sched r))
  | TWaitRunning Notified, Nobody => Some (mkRunnable (state r) Thread (TWaitRunning Check) (sched r))
  | _, _ => None
  end.

(** [wait], called from [main]; it asserts that the thread holds the mutex and
    the state is [RUNNING]. *)
Definition wait (r : Runnable) : option Runnable :=
  match thread r, owner r with
  | TMain, Thread =>
      if bool_decide (state r = RUNNING)
      then Some (mkRunnable WAITING Thread (TWaitRunning Check) (notify_sched (sched r)))
      else None
  | _, _ => None
  end.

(** The end of [run]: [state = TERMINATED; notify_all(); unlock()]. *)
Definition finish (r : Runnable) : option Runnable :=
  match thread r, owner r with
  | TMain, Thread => Some (mkRunnable TERMINATED Nobody TDone (notify_sched (sched r)))
  | _, _ => None
  end.

(** The scheduler's methods; each asserts that [schedLock] is held and the
    state is the one it expects, and [start] and [wake] then wait. *)
Definition start (r : Runnable) : option Runnable :=
  match sched r, owner r with
  | SIdle, Scheduler =>
      if bool_decide (state r = CREATED)
      then Some (mkRunnable STARTING Scheduler (notify_thread (thread r)) (SStart Check)) else None
  | _, _ => None
  end.

Definition wake (r : Runnable) : option Runnable :=
  match sched r, owner r with
  | SIdle, Scheduler =>
      if bool_decide (state r = READY)
      then Some (mkRunnable RUNNING Scheduler (notify_thread (thread r)) (SWake Check)) else None
  | _, _ => None
  end.

Definition ready (r : Runnable) : option Runnable :=
  match sched r, owner r with
  | SIdle, Scheduler =>
      if bool_decide (state r = WAITING)
      then Some (mkRunnable READY Scheduler (thread r) SIdle) else None
  | _, _ => None
  end.

Definition sched_step (r : Runnable) : option Runnable :=
  match sched r, owner r with
  | SStart Check, Scheduler =>
      if bool_decide (state r = READY) then Some (mkRunnable (state r) Scheduler (thread r) SIdle)
      else Some (mkRunnable (state r) Nobody (thread r) (SStart Sleep))
  | SStart Notified, Nobody => Some (mkRunnable (state r) Scheduler (thread r) (SStart Check))
  | SWake Check, Scheduler =>
      if bool_decide (state r <> RUNNING) then Some (mkRunnable (state r) Scheduler (thread r) SIdle)
      else Some (mkRunnable (state r) Nobody (thread r) (SWake Sleep))
  | SWake Notified, Nobody => Some (mkRunnable (state r) Scheduler (thread r) (SWake Check))
  | _, _ => None
  end.

Definition step (a : Action) (r : Runnable) : option Runnable :=
  match a with
  | ThreadStep => thread_step r
  | ThreadWait => wait r
  | ThreadReturn => finish r
  | ThreadSpurious =>
      match thread r with
      | TWaitStarting Sleep => Some (mkRunnable (state r) (owner r) (TWaitStarting Notified) (sched r))
      | TWaitRunning Sleep => Some (mkRunnable (state r) (owner r) (TWaitRunning Notified) (sched r))
      | _ => None
      end
  | CallStart => start r
  | CallWake => wake r
  | CallReady => ready r
  | SchedStep => sched_step r
  | SchedSpurious =>
      match sched r with
      | SStart Sleep => Some (mkRunnable (state r) (owner r) (thread r) (SStart Notified))
      | SWake Sleep => Some (mkRunnable (state r) (owner r) (thread r) (SWake Notified))
      | _ => None
      end
  end.

(** [~Runnable]: it asserts that [schedLock] is held, keeps the mutex and joins
    the thread.  While it waits only the thread moves; [join] returns when the
    thread has returned from [run]. *)
Definition destroy (r : Runnable) : Res Runnable :=
  _ ← assert_that (bool_decide (owner r = Scheduler)) "Runnable::~Runnable";
  Ok r.

Definition join_step (a : Action) (r : Runnable) : option Runnable :=
  match a with
  | ThreadStep | ThreadWait | ThreadReturn | ThreadSpurious => step a r
  | _ => None
  end.

Definition joined (r : Runnable) : bool := bool_decide (thread r = TDone).

Definition steps_to (r r' : Runnable) : Prop := exists a, step a r = Some r'.
Definition reachable (r : Runnable) : Prop := rtc steps_to Runnable_new r.

Definition spurious (a : Action) : bool :=
  match a with ThreadSpurious | SchedSpurious => true | _ => false end.

(** ** The invariant *)

(** The thread is past its start and not in [main]. *)
Definition parked (t : ThreadPc) : bool := match t with TWaitRunning _ => true | _ => false end.

(** Who holds the mutex follows from the program counters. *)
Definition owner_ok (r : Runnable) : bool :=
  match owner r with
  | Scheduler => match sched r with SIdle | SStart Check | SWake Check => true | _ => false end &&
                 match thread r with TWaitStarting Check | TWaitRunning Check | TMain => false | _ => true end
  | Thread => match sched r with SIdle | SStart Check | SWake Check => false | _ => true end &&
              match thread r with TWaitStarting Check | TWaitRunning Check | TMain => true | _ => false end
  | Nobody => match sched r with SIdle | SStart Check | SWake Check => false | _ => true end &&
              match thread r with TWaitStarting Check | TWaitRunning Check | TMain => false | _ => true end
  end.

(** Which states go with which program counters, and that a sleeping side has
    nothing to do (no wake-up was lost). *)
Definition phases_ok (r : Runnable) : bool :=
  match sched r, state r, thread r with
  | SIdle, CREATED, TLock => true
  | SIdle, (READY | WAITING), TWaitRunning _ => true
  | SIdle, TERMINATED, TDone => true
  | SStart _, STARTING, (TLock | TWaitStarting Check | TWaitStarting Notified) => true
  | SStart p, READY, TWaitRunning _ => bool_decide (p <> Sleep)
  | SWake _, RUNNING, (TMain | TWaitRunning Check | TWaitRunning Notified) => true
  | SWake p, WAITING, TWaitRunning _ => bool_decide (p <> Sleep)
  | SWake p, TERMINATED, TDone => bool_decide (p <> Sleep)
  | _, _, _ => false
  end.

Definition handshake_inv (r : Runnable) : bool := owner_ok r && phases_ok r.

Lemma step_inv a r r' : handshake_inv r = true -> step a r = Some r' -> handshake_inv r' = true.
Proof.
  destruct r as [st o t c].
  destruct a; destruct c as [|p|p]; try destruct p; destruct t as [|q|q| |]; try destruct q;
    destruct o, st; intros Hi H; vm_compute in Hi, H; try discriminate; simplify_eq; reflexivity.
Qed.

Lemma reachable_inv r : reachable r -> handshake_inv r = true.
Proof.
  unfold reachable. intros H. remember Runnable_new as r0 eqn:E.
  assert (handshake_inv r0 = true) as Hi by (by subst). clear E.
  induction H as [|r0 r1 r [a Ha] _ IH]; [done|]. apply IH. by eapply step_inv.
Qed.

(** ** Progress: a measure on the steps that are left before a call returns *)

Definition thread_left (r : Runnable) : nat :=
  match thread r, state r with
  | TLock, _ => 14
  | TWaitStarting Notified, _ => 13
  | TWaitStarting Check, _ => 12
  | TWaitStarting Sleep, _ => 0
  | TWaitRunning Notified, RUNNING => 9
  | TWaitRunning Check, RUNNING => 8
  | TMain, _ => 7
  | TWaitRunning Notified, _ => 2
  | TWaitRunning Check, _ => 1
  | TWaitRunning Sleep, _ => 0
  | TDone, _ => 0
  end.

Definition sched_left (r : Runnable) : nat :=
  match sched r with
  | SIdle => 0
  | SStart Sleep | SWake Sleep => 1
  | SStart Check | SWake Check => 2
  | SStart Notified | SWake Notified => 3
  end.

Definition left_before_return (r : Runnable) : nat := (thread_left r + sched_left r)%nat.

Definition in_call (r : Runnable) : bool := match sched r with SIdle => false | _ => true end.

Lemma in_call_progress r :
  handshake_inv r = true -> in_call r = true ->
  exists a r', spurious a = false /\ step a r = Some r'.
Proof.
  destruct r as [st o t c].
  destruct c as [|p|p]; try destruct p; destruct t as [|q|q| |]; try destruct q; destruct o, st;
    intros Hi Hc; vm_compute in Hi, Hc; try discriminate;
    first [ exists SchedStep; eexists; split; reflexivity
          | exists ThreadStep; eexists; split; reflexivity
          | exists ThreadReturn; eexists; split; reflexivity ].
Qed.

Lemma in_call_decreases a r r' :
  handshake_inv r = true -> in_call r = true -> spurious a = false -> step a r = Some r' ->
  (left_before_return r' < left_before_return r)%nat.
Proof.
  destruct r as [st o t c].
  destruct a; destruct c as [|p|p]; try destruct p; destruct t as [|q|q| |]; try destruct q;
    destruct o, st; intros Hi Hc Hs H; vm_compute in Hi, Hc, Hs, H; try discriminate; simplify_eq; vm_compute; lia.
Qed.

(** ** Properties *)

(** C26: the application's code and the scheduler never run at the same time:
    in every reachable state, when the thread is in [main] it holds the mutex,
    the state is [RUNNING] and the scheduler is blocked inside [wake]; and when
    the scheduler is outside the runnable's methods it holds the mutex, the
    thread is not started, parked or done, and the state is the matching one
    of [CREATED], [READY], [WAITING] and [TERMINATED] (so the lock assertions
    of [start], [wake], [ready] and [wait] hold). *)
Theorem runnable_mutual_exclusion r :
  reachable r ->
  (thread r = TMain -> owner r = Thread /\ state r = RUNNING /\ exists p, sched r = SWake p) /\
  (sched r = SIdle -> owner r = Scheduler /\ thread r <> TMain /\
     (state r = CREATED /\ thread r = TLock \/
      (state r = READY \/ state r = WAITING) /\ parked (thread r) = true \/
      state r = TERMINATED /\ thread r = TDone)).
Proof.
  intros Hr. apply reachable_inv in Hr. destruct r as [st o t c].
  destruct c as [|p|p]; try destruct p; destruct t as [|q|q| |]; try destruct q; destruct o, st;
    vm_compute in Hr; try discriminate; split; intros; cbn in *; try discriminate; naive_solver.
Qed.


(** C28: destroying a runnable: whenever the scheduler is outside its methods the
    destructor's assertion holds, and its [join] returns at once when the
    thread has terminated; otherwise it never returns, whatever the thread
    does, because the thread needs the mutex that the destructor keeps: an
    application that was never launched, is ready, or is blocked in a system
    call hangs the program when it is destroyed. *)
Theorem destructor_joins_terminated r :
  reachable r -> sched r = SIdle ->
  destroy r = Ok r /\
  if bool_decide (state r = TERMINATED) then joined r = true
  else forall r', rtc (fun x y => exists a, join_step a x = Some y) r r' -> joined r' = false.
Proof.
  intros Hr Hs. apply reachable_inv in Hr. unfold destroy.
  assert (owner r = Scheduler) as Ho by (destruct r as [st o t c]; cbn in Hs; subst c; destruct o, st, t as [|[]|[]| |]; vm_compute in Hr; done).
  rewrite bool_decide_eq_true_2 by done. split; [done|]. case_bool_decide as Hst.
  - destruct r as [st o t c]. cbn in *. subst. destruct t as [|[]|[]| |]; vm_compute in Hr; done.
  - intros r' Hsteps. assert (owner r = Scheduler /\ thread r <> TDone /\ thread r <> TMain) as Hinv.
    { destruct r as [st o t c]. cbn in *. subst. destruct t as [|[]|[]| |], st; vm_compute in Hr; try done; by destruct Hst. }
    clear Hr Hs Hst Ho. induction Hsteps as [x|x y z [a Ha] _ IH].
    + unfold joined. apply bool_decide_eq_false_2, Hinv.
    + apply IH. destruct x as [st o t c], Hinv as (Ho & Ht & Hm). cbn in *. subst o.
      destruct a; try discriminate Ha; destruct t as [|[]|[]| |]; try done; cbn in Ha; try discriminate Ha;
        injection Ha as <-; done.
Qed.

(** *** Instances *)

Lemma destructor_joins_terminated_witness :
  destroy Runnable_new = Ok Runnable_new /\
  forall r', rtc (fun x y => exists a, join_step a x = Some y) Runnable_new r' -> joined r' = false.
Proof. exact (destructor_joins_terminated Runnable_new (rtc_refl _ _) eq_refl). Defined.

(** The state of a runnable that has been started and woken, with its thread
    in [main]. *)
Definition ex_main : Runnable := mkRunnable RUNNING Thread TMain (SWake Sleep).

Fixpoint run_actions (l : list Action) (r : Runnable) : option Runnable :=
  match l with [] => Some r | a :: l => match step a r with Some r' => run_actions l r' | None => None end end.

Lemma run_actions_reachable l r r' : reachable r -> run_actions l r = Some r' -> reachable r'.
Proof.
  revert r. induction l as [|a l IH]; cbn; intros r Hr H; [by simplify_eq|].
  destruct (step a r) as [r1|] eqn:E; [|done]. apply (IH r1); [|done].
  eapply rtc_r; [exact Hr|]. by exists a.
Qed.

Lemma ex_main_reachable : reachable ex_main.
Proof.
  apply (run_actions_reachable [CallStart; SchedStep; ThreadStep; ThreadStep; ThreadStep; SchedStep; SchedStep;
    CallWake; SchedStep; ThreadStep; ThreadStep] Runnable_new); [constructor | reflexivity].
Qed.

Lemma runnable_mutual_exclusion_witness : exists p, sched ex_main = SWake p.
Proof.
  destruct (runnable_mutual_exclusion ex_main ex_main_reachable) as [H _].
  destruct (H eq_refl) as (_ & _ & Hp). exact Hp.
Defined.


End Runnable.
