(* ===== verification/TCPApplication.v ===== *)
(** * TCPApplication: the socket interface of applications

    Models src/Networking/TCP/E_TCPApplication.cpp: each function packs its
    arguments into a [SystemCallParameter] and raises the system call; the
    sleeping functions convert their unit by 64-bit multiplications.  A
    function is a program transformer: it continues with the call's result. *)

From S2P Require Import Prelude Packet ModuleBase.

Module TCPApplication.

(** Conversion to [int] of an unsigned value: modulo [2 ^ 32], two's
    complement. *)
Definition to_int (x : Z) : Z :=
  let y := wrap 32 x in if y <? 2 ^ 31 then y else y - 2 ^ 32.

(** ** Parameters of the system calls *)

Definition socket_param (domain type__unused protocol : Z) : SystemCallParameter :=
  mkParam SOCKET (P_int32 domain, P_int32 type__unused, P_int32 protocol).
Definition close_param (fd : Z) : SystemCallParameter := mkParam CLOSE (P_int32 fd, unset, unset).
Definition bind_param (sockfd addr addrlen : Z) : SystemCallParameter :=
  mkParam BIND (P_int32 sockfd, P_ptr addr, P_int32 (to_int addrlen)).
Definition getsockname_param (sockfd addr addrlen : Z) : SystemCallParameter :=
  mkParam GETSOCKNAME (P_int32 sockfd, P_ptr addr, P_ptr addrlen).
Definition getpeername_param (sockfd addr addrlen : Z) : SystemCallParameter :=
  mkParam GETPEERNAME (P_int32 sockfd, P_ptr addr, P_ptr addrlen).
Definition read_param (fd buf count : Z) : SystemCallParameter :=
  mkParam READ (P_int32 fd, P_ptr buf, P_int32 (to_int count)).
Definition write_param (fd buf count : Z) : SystemCallParameter :=
  mkParam WRITE (P_int32 fd, P_ptr buf, P_int32 (to_int count)).
Definition connect_param (sockfd addr addrlen : Z) : SystemCallParameter :=
  mkParam CONNECT (P_int32 sockfd, P_ptr addr, P_int32 (to_int addrlen)).
Definition listen_param (sockfd backlog : Z) : SystemCallParameter :=
  mkParam LISTEN (P_int32 sockfd, P_int32 backlog, unset).
Definition accept_param (sockfd addr addrlen : Z) : SystemCallParameter :=
  mkParam ACCEPT (P_int32 sockfd, P_ptr addr, P_ptr addrlen).
Definition nsleep_param (nanosleep : Z) : SystemCallParameter :=
  mkParam NSLEEP (P_uint64 nanosleep, unset, unset).
Definition gettimeofday_param (tv tz : Z) : SystemCallParameter :=
  mkParam GETTIMEOFDAY (P_ptr tv, P_ptr tz, unset).

(** ** The functions *)

Definition socket (domain type__unused protocol : Z) (k : Z -> Program) : Program :=
  DoSyscall (socket_param domain type__unused protocol) k.
Definition close (fd : Z) (k : Z -> Program) : Program := DoSyscall (close_param fd) k.
Definition bind (sockfd addr addrlen : Z) (k : Z -> Program) : Program :=
  DoSyscall (bind_param sockfd addr addrlen) k.
Definition getsockname (sockfd addr addrlen : Z) (k : Z -> Program) : Program :=
  DoSyscall (getsockname_param sockfd addr addrlen) k.
Definition getpeername (sockfd addr addrlen : Z) (k : Z -> Program) : Program :=
  DoSyscall (getpeername_param sockfd addr addrlen) k.
Definition read (fd buf count : Z) (k : Z -> Program) : Program := DoSyscall (read_param fd buf count) k.
Definition write (fd buf count : Z) (k : Z -> Program) : Program := DoSyscall (write_param fd buf count) k.
Definition connect (sockfd addr addrlen : Z) (k : Z -> Program) : Program :=
  DoSyscall (connect_param sockfd addr addrlen) k.
Definition listen (sockfd backlog : Z) (k : Z -> Program) : Program := DoSyscall (listen_param sockfd backlog) k.
Definition accept (sockfd addr addrlen : Z) (k : Z -> Program) : Program :=
  DoSyscall (accept_param sockfd addr addrlen) k.

Definition nsleep (nanosleep : Z) (k : Z -> Program) : Program := DoSyscall (nsleep_param nanosleep) k.
Definition usleep (microsleep : Z) (k : Z -> Program) : Program := nsleep (wrap 64 (1000 * microsleep)) k.
Definition msleep (millisleep : Z) (k : Z -> Program) : Program := usleep (wrap 64 (1000 * millisleep)) k.
Definition sleep (sleep : Z) (k : Z -> Program) : Program := msleep (wrap 64 (1000 * sleep)) k.

Definition gettimeofday (tv tz : Z) (k : Z -> Program) : Program := DoSyscall (gettimeofday_param tv tz) k.

Definition is_int (x : Z) : Prop := - 2 ^ 31 <= x < 2 ^ 31.

Lemma to_int_small x : 0 <= x < 2 ^ 31 -> to_int x = x.
Proof.
  intros H. unfold to_int. rewrite wrap_small by (unfold is_u; lia).
  by replace (x <? 2 ^ 31) with true by (symmetry; apply Z.ltb_lt; lia).
Qed.

Lemma wrap_mul_1000 x : wrap 64 (1000 * wrap 64 x) = wrap 64 (1000 * x).
Proof. unfold wrap. by rewrite Z.mul_mod_idemp_r by lia. Qed.

(** ** Properties *)

(** the arguments of the socket functions reach the system call handler
    with the types it reads them with ([std::get] of [int], pointer or
    [uint64_t]), unchanged as long as lengths and counts are below [2 ^ 31];
    and sleeping for [s] seconds, milliseconds or microseconds raises one
    [NSLEEP] of exactly that many nanoseconds modulo [2 ^ 64]. *)
Theorem arguments_reach_handler fd buf n s k :
  (forall count, 0 <= count < 2 ^ 31 ->
     get_int (param0 (read_param fd buf count)) = Ok fd /\ get_ptr (param1 (read_param fd buf count)) = Ok buf /\
     get_int (param2 (read_param fd buf count)) = Ok count /\
     get_int (param2 (write_param fd buf count)) = Ok count /\
     get_int (param2 (connect_param fd buf count)) = Ok count /\
     get_int (param2 (bind_param fd buf count)) = Ok count) /\
  get_ptr (param2 (accept_param fd buf n)) = Ok n /\ get_int (param1 (listen_param fd n)) = Ok n /\
  get_ptr (param1 (getsockname_param fd buf n)) = Ok buf /\ get_ptr (param2 (getpeername_param fd buf n)) = Ok n /\
  get_int (param0 (close_param fd)) = Ok fd /\ get_uint64 (param0 (nsleep_param n)) = Ok n /\
  (exists t, usleep s k = DoSyscall (nsleep_param t) k /\ t = (s * 10 ^ 3) mod 2 ^ 64) /\
  (exists t, msleep s k = DoSyscall (nsleep_param t) k /\ t = (s * 10 ^ 6) mod 2 ^ 64) /\
  (exists t, sleep s k = DoSyscall (nsleep_param t) k /\ t = (s * 10 ^ 9) mod 2 ^ 64).
Proof.
  split; [intros count Hc; cbn; by rewrite (to_int_small count Hc)|]. do 6 (split; [done|]).
  split; [|split]; eexists; (split; [reflexivity|]).
  - unfold wrap. by replace (s * 10 ^ 3) with (1000 * s) by lia.
  - rewrite wrap_mul_1000. unfold wrap. by replace (s * 10 ^ 6) with (1000 * (1000 * s)) by lia.
  - rewrite wrap_mul_1000. unfold wrap. replace (s * 10 ^ 9) with (1000 * 1000 * (1000 * s)) by lia.
    rewrite Z.mul_assoc. by rewrite Z.mul_mod_idemp_r by lia.
Qed.

Lemma arguments_reach_handler_witness :
  get_int (param2 (read_param 4 64 1024)) = Ok 1024 /\
  exists t, sleep 3 Finish = DoSyscall (nsleep_param t) Finish /\ t = 3000000000.
Proof.
  destruct (arguments_reach_handler 4 64 0 3 Finish) as (H1 & _ & _ & _ & _ & _ & _ & _ & _ & (t & H2 & H3)).
  split; [apply (H1 1024); lia|]. exists t. split; [exact H2 | exact H3].
Defined.

End TCPApplication.
