(* ===== verification/Assignments.v ===== *)
(** * Assignments: the protocol modules and applications of app/

    Models the skeletons a host is completed with: [TCPAssignment]
    (app/kens/TCPAssignment.cpp), [RIPAssignment] (app/rip/RIPAssignment.cpp),
    [PWOSPFAssignment] (app/pwospf/PWOSPFAssignment.cpp) with the packed
    message structures of their headers and the link cost, and the command
    line of [EchoAssignment] (app/echo/EchoAssignment.cpp).

    [TCPSolution] is a binary without source: the class [ExternalModule] is the
    interface of such a module.  [HostObject] is the type of all objects
    [addHostModule] is called with, an instance of [HostModuleClass]. *)

From Stdlib Require Import Ascii.
From S2P Require Import Prelude Packet RoutingInfo System ModuleBase Wire HostApi Ethernet Host.
Local Open Scope Z_scope.

(** ** Packed structures

    A packed structure is the concatenation of its members, each in the
    machine's little-endian order; a layout is the list of member sizes. *)
Module Packed.

Fixpoint le_bytes (n : nat) (v : Z) : list Z :=
  match n with
  | O => []
  | S n => v mod 256 :: le_bytes n (v / 256)
  end.

Fixpoint le_value (bs : list Z) : Z :=
  match bs with
  | [] => 0
  | b :: bs => b + 256 * le_value bs
  end.

Definition store (layout : list nat) (vs : list Z) : list Z :=
  concat (zip_with le_bytes layout vs).

Fixpoint load (layout : list nat) (bs : list Z) : option (list Z * list Z) :=
  match layout with
  | [] => Some ([], bs)
  | n :: layout =>
      if (length bs <? n)%nat then None
      else '(vs, rest) ← load layout (drop n bs); Some (le_value (take n bs) :: vs, rest)
  end.

Definition sizeof (layout : list nat) : nat := sum_list layout.

(** The values fit the members. *)
Definition fits (layout : list nat) (vs : list Z) : Prop :=
  Forall2 (fun n v => 0 <= v < 256 ^ Z.of_nat n) layout vs.

(** A flexible array of structures: all of the remaining bytes. *)
Definition store_array (layout : list nat) (es : list (list Z)) : list Z := concat (store layout <$> es).

Fixpoint load_array (fuel : nat) (layout : list nat) (bs : list Z) : option (list (list Z)) :=
  match bs, fuel with
  | [], _ => Some []
  | _, O => None
  | _, S fuel =>
      '(vs, rest) ← load layout bs;
      es ← load_array fuel layout rest;
      Some (vs :: es)
  end.

Lemma length_le_bytes n v : length (le_bytes n v) = n.
Proof. revert v. induction n as [|n IH]; intros v; [done|]. cbn. by rewrite IH. Qed.

Lemma le_bytes_byte n v : byte_list (le_bytes n v).
Proof.
  revert v. induction n as [|n IH]; intros v; cbn; [constructor|]. constructor; [|apply IH].
  pose proof (Z.mod_pos_bound v 256). unfold is_u. lia.
Qed.

Lemma le_value_bytes n v : 0 <= v < 256 ^ Z.of_nat n -> le_value (le_bytes n v) = v.
Proof.
  revert v. induction n as [|n IH]; intros v Hv; [cbn in *; lia|].
  cbn [le_bytes le_value]. rewrite Nat2Z.inj_succ, Z.pow_succ_r in Hv by lia.
  rewrite IH; [pose proof (Z.div_mod v 256); lia|].
  split; [apply Z.div_pos; lia | apply Z.div_lt_upper_bound; lia].
Qed.

Lemma length_store layout vs : fits layout vs -> length (store layout vs) = sizeof layout.
Proof.
  induction 1 as [|n v layout vs Hv _ IH]; [done|]. unfold store in *. cbn.
  by rewrite length_app, length_le_bytes, IH.
Qed.

Lemma load_store layout vs rest : fits layout vs -> load layout (store layout vs ++ rest) = Some (vs, rest).
Proof.
  induction 1 as [|n v layout vs Hv _ IH]; [done|]. unfold store in *. cbn [zip_with concat load].
  rewrite <- app_assoc. set (tl := concat _ ++ rest) in *.
  assert ((length (le_bytes n v ++ tl) <? n)%nat = false) as ->
    by (apply Nat.ltb_ge; rewrite length_app, length_le_bytes; lia).
  rewrite drop_app_length', take_app_length' by (by rewrite length_le_bytes).
  rewrite IH. cbn [mbind option_bind]. by rewrite le_value_bytes.
Qed.

Lemma load_store_array layout es fuel :
  (0 < sizeof layout)%nat -> Forall (fits layout) es -> (length es <= fuel)%nat ->
  load_array fuel layout (store_array layout es) = Some es.
Proof.
  intros Hl He. revert fuel. induction He as [|e es He _ IH]; intros fuel Hf; [by destruct fuel|].
  destruct fuel as [|fuel]; [cbn in Hf; lia|]. unfold store_array in *. cbn [fmap list_fmap concat].
  pose proof (length_store _ _ He) as Hlen. destruct (store layout e ++ _) as [|b bs] eqn:E.
  - apply (f_equal length) in E. rewrite length_app in E. cbn in E. lia.
  - cbn [load_array]. rewrite <- E, load_store by done. cbn [mbind option_bind].
    rewrite IH by (cbn in Hf; lia). done.
Qed.

Lemma length_store_array layout es :
  Forall (fits layout) es -> length (store_array layout es) = (length es * sizeof layout)%nat.
Proof.
  induction 1 as [|e es He _ IH]; [done|]. unfold store_array in *. cbn [fmap list_fmap concat length].
  rewrite length_app, length_store by done. rewrite IH. lia.
Qed.

End Packed.

(** ** Link costs (the same definitions in RIPAssignment.hpp and
    PWOSPFAssignment.hpp) *)
Module LinkCost.

Definition MaxCost : Z := 20.

(** [std::lcm]; the recursion ends at [1]. *)
Fixpoint calc_cost_lcm (a : nat) : Z :=
  match a with
  | O => 0  (* not reached from a positive argument *)
  | S O => 1
  | S (S _ as a') => wrap 64 (Z.lcm (Z.of_nat a) (calc_cost_lcm a'))
  end.

Definition CostLCM : Z := calc_cost_lcm (Z.to_nat MaxCost).

(** [linkCost]: [CostLCM / getWireSpeed(port_num)], an integer division. *)
Definition linkCost (port_num : Z) : HProg Z :=
  bps ← HostApi.getWireSpeed port_num;
  if bps =? 0 then HErr DivideByZero else HRet (CostLCM / bps).

End LinkCost.

(** ** RIP *)
Module RIP.
Import Packed.

Record rip_header_t := mkRipHeader { command : Z; version : Z; zero_0 : Z }.

Record rip_entry_t := mkRipEntry {
  address_family : Z;
  zero_1 : Z;
  ip_addr : Z;
  zero_2 : Z;
  zero_3 : Z;
  metric : Z;
}.

Record rip_t := mkRip { header : rip_header_t; entries : list rip_entry_t }.

Definition header_layout : list nat := [1; 1; 2]%nat.
Definition entry_layout : list nat := [2; 2; 4; 4; 4; 4]%nat.

Definition header_values (h : rip_header_t) : list Z := [command h; version h; zero_0 h].
Definition entry_values (e : rip_entry_t) : list Z :=
  [address_family e; zero_1 e; ip_addr e; zero_2 e; zero_3 e; metric e].

Definition header_of (vs : list Z) : option rip_header_t :=
  match vs with [a; b; c] => Some (mkRipHeader a b c) | _ => None end.
Definition entry_of (vs : list Z) : option rip_entry_t :=
  match vs with [a; b; c; d; e; f] => Some (mkRipEntry a b c d e f) | _ => None end.

(** The bytes of a message in memory, and a message read from a buffer. *)
Definition rip_bytes (r : rip_t) : list Z :=
  store header_layout (header_values (header r)) ++ store_array entry_layout (entry_values <$> entries r).

Definition rip_of_bytes (bs : list Z) : option rip_t :=
  '(vs, rest) ← load header_layout bs;
  es ← load_array (length rest) entry_layout rest;
  es ← mapM entry_of es;
  h ← header_of vs;
  Some (mkRip h es).

Definition rip_ok (r : rip_t) : Prop :=
  fits header_layout (header_values (header r)) /\
  Forall (fun e => fits entry_layout (entry_values e)) (entries r).

(** [RIPAssignment]: a host module and a timer module named UDP. *)
Definition module_name : string := "UDP".

(** [ripQuery] of the skeleton: [-1] as a [Size]. *)
Definition ripQuery (ipv4 : list Z) : Z := wrap 64 (-1).

(** [std::any_cast<ipv4_t>]. *)
Definition any_cast_ipv4 (a : Any) : Res (list Z) :=
  match a with
  | any_other t d => if String.eqb t "ipv4_t" then Ok d else Err BadAnyCast
  | any_uuid _ => Err BadAnyCast
  end.

Definition diagnose (param : Any) : HProg Any :=
  ip ← lift (any_cast_ipv4 param); HRet (any_other "Size" [ripQuery ip]).

Definition packetArrived (fromModule : string) (packet : Packet) : HProg unit := HRet tt.
Definition timerCallback (payload : Any) : HProg unit := HRet tt.
Definition initialize : HProg unit := HRet tt.
Definition finalize : HProg unit := HRet tt.

End RIP.

(** ** PWOSPF *)
Module PWOSPF.
Import Packed.

Definition AreaID : Z := 1.
Definition LSUInt : Z := 30.
Definition TTLInitial : Z := 16.
Definition SubnetMask : list Z := [255; 255; 255; 0].
Definition HelloInt : Z := 60.

Record pwospf_header_t := mkHeader {
  version : Z;
  type : Z;
  length : Z;
  router_id : Z;
  area_id : Z;
  checksum : Z;
  authtype : Z;
  authentication : Z;
}.

Record pwospf_hello_t := mkHello {
  hello_header : pwospf_header_t;
  network_mask : Z;
  hello_int : Z;
  padding : Z;
}.

Record pwospf_lsu_entry_t := mkLsuEntry { subnet : Z; mask : Z; entry_router_id : Z; cost : Z }.

Record pwospf_lsu_t := mkLsu {
  lsu_header : pwospf_header_t;
  sequence : Z;
  ttl : Z;
  num_advertisements : Z;
  entries : list pwospf_lsu_entry_t;
}.

Definition header_layout : list nat := [1; 1; 2; 4; 4; 2; 2; 8]%nat.
Definition hello_layout : list nat := (header_layout ++ [4; 2; 2])%nat.
Definition lsu_entry_layout : list nat := [4; 4; 4; 4]%nat.
Definition lsu_layout : list nat := (header_layout ++ [2; 2; 4])%nat.

Definition header_values (h : pwospf_header_t) : list Z :=
  [version h; type h; length h; router_id h; area_id h; checksum h; authtype h; authentication h].
Definition hello_values (h : pwospf_hello_t) : list Z :=
  header_values (hello_header h) ++ [network_mask h; hello_int h; padding h].
Definition lsu_entry_values (e : pwospf_lsu_entry_t) : list Z :=
  [subnet e; mask e; entry_router_id e; cost e].
Definition lsu_values (l : pwospf_lsu_t) : list Z :=
  header_values (lsu_header l) ++ [sequence l; ttl l; num_advertisements l].

Definition hello_of (vs : list Z) : option pwospf_hello_t :=
  match vs with
  | [a; b; c; d; e; f; g; h; m; i; p] => Some (mkHello (mkHeader a b c d e f g h) m i p)
  | _ => None
  end.
Definition lsu_entry_of (vs : list Z) : option pwospf_lsu_entry_t :=
  match vs with [a; b; c; d] => Some (mkLsuEntry a b c d) | _ => None end.
Definition lsu_of (es : list pwospf_lsu_entry_t) (vs : list Z) : option pwospf_lsu_t :=
  match vs with
  | [a; b; c; d; e; f; g; h; q; t; n] => Some (mkLsu (mkHeader a b c d e f g h) q t n es)
  | _ => None
  end.

Definition hello_bytes (h : pwospf_hello_t) : list Z := store hello_layout (hello_values h).
Definition hello_of_bytes (bs : list Z) : option pwospf_hello_t :=
  '(vs, _) ← load hello_layout bs; hello_of vs.

Definition lsu_bytes (l : pwospf_lsu_t) : list Z :=
  store lsu_layout (lsu_values l) ++ store_array lsu_entry_layout (lsu_entry_values <$> entries l).
Definition lsu_of_bytes (bs : list Z) : option pwospf_lsu_t :=
  '(vs, rest) ← load lsu_layout bs;
  es ← load_array (List.length rest) lsu_entry_layout rest;
  es ← mapM lsu_entry_of es;
  lsu_of es vs.

Definition hello_ok (h : pwospf_hello_t) : Prop := fits hello_layout (hello_values h).
Definition lsu_ok (l : pwospf_lsu_t) : Prop :=
  fits lsu_layout (lsu_values l) /\ Forall (fun e => fits lsu_entry_layout (lsu_entry_values e)) (entries l).

Definition module_name : string := "OSPF".

Definition pwospfQuery (ipv4 : list Z) : Z := wrap 64 (-1).

Definition diagnose (param : Any) : HProg Any :=
  ip ← lift (RIP.any_cast_ipv4 param); HRet (any_other "Size" [pwospfQuery ip]).

Definition packetArrived (fromModule : string) (packet : Packet) : HProg unit := HRet tt.
Definition timerCallback (payload : Any) : HProg unit := HRet tt.
Definition initialize : HProg unit := HRet tt.
Definition finalize : HProg unit := HRet tt.

End PWOSPF.

(** ** TCP *)
Module TCPAssignment.

Definition AF_INET : Z := 2.
Definition IPPROTO_TCP : Z := 6.

(** [HostModule("TCP")], [SystemCallInterface(AF_INET, IPPROTO_TCP)],
    [TimerModule("TCP")]. *)
Definition module_name : string := "TCP".
Definition domain_protocol : Z * Z := (AF_INET, IPPROTO_TCP).

(** The skeleton's dispatch: the socket calls are accepted and left
    unanswered, any other call is an assertion failure. *)
Definition systemCallback (syscallUUID pid : Z) (param : SystemCallParameter) : HProg unit :=
  match syscallNumber param with
  | SOCKET | CLOSE | READ | WRITE | CONNECT | LISTEN | ACCEPT | BIND | GETSOCKNAME | GETPEERNAME => HRet tt
  | NSLEEP | GETTIMEOFDAY => HErr (AssertFailed "TCPAssignment::systemCallback")
  end.

Definition packetArrived (fromModule : string) (packet : Packet) : HProg unit := HRet tt.
Definition timerCallback (payload : Any) : HProg unit := HRet tt.
Definition initialize : HProg unit := HRet tt.
Definition finalize : HProg unit := HRet tt.

End TCPAssignment.

(** ** Host objects *)

(** A host module whose source is not available, with its virtual methods. *)
Class ExternalModule (X : Type) := {
  ext_hostModuleName : X -> option string;
  ext_timerModuleName : X -> option string;
  ext_namespace : X -> option (Z * Z);
  ext_packetArrived : X -> string -> Packet -> HProg X;
  ext_systemCallback : X -> Z -> Z -> SystemCallParameter -> HProg X;
  ext_timerCallback : X -> Any -> HProg X;
  ext_initialize : X -> HProg X;
  ext_finalize : X -> HProg X;
  ext_diagnose : X -> Any -> HProg (X * Any);
}.

Class ExternalStable (X : Type) `{ExternalModule X} := {
  ext_stable_packet x from p :
    returns (fun x' => ext_timerModuleName x' = ext_timerModuleName x) (ext_packetArrived x from p);
  ext_stable_syscall x u pid param :
    returns (fun x' => ext_timerModuleName x' = ext_timerModuleName x) (ext_systemCallback x u pid param);
  ext_stable_timer x payload :
    returns (fun x' => ext_timerModuleName x' = ext_timerModuleName x) (ext_timerCallback x payload);
  ext_stable_initialize x :
    returns (fun x' => ext_timerModuleName x' = ext_timerModuleName x) (ext_initialize x);
  ext_stable_finalize x :
    returns (fun x' => ext_timerModuleName x' = ext_timerModuleName x) (ext_finalize x);
}.

Inductive HostObject (X : Type) :=
| DefaultObject
| EthernetObject
| IPv4Object (m : IPv4.IPv4)
| TCPAssignmentObject
| RIPAssignmentObject
| PWOSPFAssignmentObject
| ExternalObject (x : X).
Arguments DefaultObject {X}.
Arguments EthernetObject {X}.
Arguments IPv4Object {X}.
Arguments TCPAssignmentObject {X}.
Arguments RIPAssignmentObject {X}.
Arguments PWOSPFAssignmentObject {X}.
Arguments ExternalObject {X}.

Module HostObject.
Section HostObject.
Context {X : Type} {EX : ExternalModule X}.
Abbreviation Obj := (HostObject X).

(** A method of a class without state. *)
Definition keep (o : Obj) (p : HProg unit) : HProg Obj := _ ← p; HRet o.

(** A virtual method the object's class does not have. *)
Definition no_method {A} : HProg A := HErr BadCast.

Definition hostModuleName (o : Obj) : option string :=
  match o with
  | DefaultObject => None
  | EthernetObject => Some "Ethernet"
  | IPv4Object _ => Some "IPv4"
  | TCPAssignmentObject => Some TCPAssignment.module_name
  | RIPAssignmentObject => Some RIP.module_name
  | PWOSPFAssignmentObject => Some PWOSPF.module_name
  | ExternalObject x => ext_hostModuleName x
  end.

Definition timerModuleName (o : Obj) : option string :=
  match o with
  | DefaultObject => Some DefaultSyscall.timer_name
  | EthernetObject | IPv4Object _ => None
  | TCPAssignmentObject => Some TCPAssignment.module_name
  | RIPAssignmentObject => Some RIP.module_name
  | PWOSPFAssignmentObject => Some PWOSPF.module_name
  | ExternalObject x => ext_timerModuleName x
  end.

Definition namespace (o : Obj) : option (Z * Z) :=
  match o with
  | DefaultObject => Some DefaultSyscall.domain_protocol
  | TCPAssignmentObject => Some TCPAssignment.domain_protocol
  | ExternalObject x => ext_namespace x
  | _ => None
  end.

Definition packetArrived (o : Obj) (from : string) (p : Packet) : HProg Obj :=
  match o with
  | DefaultObject => no_method
  | EthernetObject => keep o (Ethernet.packetArrived from p)
  | IPv4Object m => m ← IPv4.packetArrived from p m; HRet (IPv4Object m)
  | TCPAssignmentObject => keep o (TCPAssignment.packetArrived from p)
  | RIPAssignmentObject => keep o (RIP.packetArrived from p)
  | PWOSPFAssignmentObject => keep o (PWOSPF.packetArrived from p)
  | ExternalObject x => x ← ext_packetArrived x from p; HRet (ExternalObject x)
  end.

Definition systemCallback (o : Obj) (u pid : Z) (param : SystemCallParameter) : HProg Obj :=
  match o with
  | DefaultObject => keep o (DefaultSyscall.systemCallback u pid param)
  | TCPAssignmentObject => keep o (TCPAssignment.systemCallback u pid param)
  | ExternalObject x => x ← ext_systemCallback x u pid param; HRet (ExternalObject x)
  | _ => no_method
  end.

Definition timerCallback (o : Obj) (payload : Any) : HProg Obj :=
  match o with
  | DefaultObject => keep o (DefaultSyscall.timerCallback payload)
  | TCPAssignmentObject => keep o (TCPAssignment.timerCallback payload)
  | RIPAssignmentObject => keep o (RIP.timerCallback payload)
  | PWOSPFAssignmentObject => keep o (PWOSPF.timerCallback payload)
  | ExternalObject x => x ← ext_timerCallback x payload; HRet (ExternalObject x)
  | EthernetObject | IPv4Object _ => no_method
  end.

Definition initialize (o : Obj) : HProg Obj :=
  match o with
  | TCPAssignmentObject => keep o TCPAssignment.initialize
  | RIPAssignmentObject => keep o RIP.initialize
  | PWOSPFAssignmentObject => keep o PWOSPF.initialize
  | ExternalObject x => x ← ext_initialize x; HRet (ExternalObject x)
  | _ => default_initialize o
  end.

Definition finalize (o : Obj) : HProg Obj :=
  match o with
  | TCPAssignmentObject => keep o TCPAssignment.finalize
  | RIPAssignmentObject => keep o RIP.finalize
  | PWOSPFAssignmentObject => keep o PWOSPF.finalize
  | ExternalObject x => x ← ext_finalize x; HRet (ExternalObject x)
  | _ => default_finalize o
  end.

Definition diagnose (o : Obj) (param : Any) : HProg (Obj * Any) :=
  match o with
  | RIPAssignmentObject => r ← RIP.diagnose param; HRet (o, r)
  | PWOSPFAssignmentObject => r ← PWOSPF.diagnose param; HRet (o, r)
  | ExternalObject x => '(x, r) ← ext_diagnose x param; HRet (ExternalObject x, r)
  | _ => default_diagnose o param
  end.

#[global] Instance HostObject_class : HostModuleClass Obj := {|
  HostApi.hostModuleName := hostModuleName;
  HostApi.timerModuleName := timerModuleName;
  HostApi.namespace := namespace;
  HostApi.packetArrived := packetArrived;
  HostApi.systemCallback := systemCallback;
  HostApi.timerCallback := timerCallback;
  HostApi.initialize := initialize;
  HostApi.finalize := finalize;
  HostApi.diagnose := diagnose;
  DefaultSystemCall := DefaultObject;
|}.

(** The object of the [Host] constructor satisfies what the theorems on the
    built-in system calls ask for. *)
#[global] Instance HostObject_laws : Host.DefaultLaws.
Proof. constructor; done. Qed.

(** The objects keep their timer names if the external ones do. *)
#[global] Instance HostObject_stable {ES : ExternalStable X} : StableNames Obj.
Proof.
  constructor.
  - intros [] from p; try (by apply returns_bind); try done.
    eapply returns_bind_with; [apply ext_stable_packet | done].
  - intros [] u pid param; try (by apply returns_bind); try done.
    eapply returns_bind_with; [apply ext_stable_syscall | done].
  - intros [] payload; try (by apply returns_bind); try done.
    eapply returns_bind_with; [apply ext_stable_timer | done].
  - intros []; try (by apply returns_bind); try done.
    eapply returns_bind_with; [apply ext_stable_initialize | done].
  - intros []; try (by apply returns_bind); try done.
    eapply returns_bind_with; [apply ext_stable_finalize | done].
Qed.

End HostObject.
End HostObject.

(** A module type without objects, for hosts without external modules. *)
#[global] Instance no_external : ExternalModule Empty_set := {|
  ext_hostModuleName (x : Empty_set) := match x with end;
  ext_timerModuleName (x : Empty_set) := match x with end;
  ext_namespace (x : Empty_set) := match x with end;
  ext_packetArrived (x : Empty_set) := match x with end;
  ext_systemCallback (x : Empty_set) := match x with end;
  ext_timerCallback (x : Empty_set) := match x with end;
  ext_initialize (x : Empty_set) := match x with end;
  ext_finalize (x : Empty_set) := match x with end;
  ext_diagnose (x : Empty_set) := match x with end;
|}.

#[global] Instance no_external_stable : ExternalStable Empty_set.
Proof. constructor; intros []. Qed.

(** ** Echo *)
Module Echo.

(** What [Main] prints. *)
Inductive Printed := Usage (program : string) | WrongPort.

(** [EchoAssignment]: the reference to the table of answers. *)
Record EchoAssignment := mkEcho { answers : gmap string string }.

Definition submitAnswer (ip answer : string) (e : EchoAssignment) : EchoAssignment :=
  mkEcho (<[ip := answer]> (answers e)).

(** The skeletons return at once. *)
Definition serverMain (bind_ip : string) (port : Z) (server_hello : string) : Program := Finish 0.
Definition clientMain (server_ip : string) (port : Z) (command : string) : Program := Finish 0.

(** [atoi]: white space, an optional sign, decimal digits; a value outside
    [int] is undefined. *)
Definition is_space (c : Ascii.ascii) : bool :=
  let n := Z.of_nat (Ascii.nat_of_ascii c) in (n =? 32) || ((9 <=? n) && (n <=? 13)).
Definition digit (c : Ascii.ascii) : option Z :=
  let n := Z.of_nat (Ascii.nat_of_ascii c) in
  if (48 <=? n) && (n <=? 57) then Some (n - 48) else None.

Fixpoint digits (acc : Z) (s : string) : Z :=
  match s with
  | String.String c s => match digit c with Some d => digits (10 * acc + d) s | None => acc end
  | String.EmptyString => acc
  end.

Definition signed (s : string) : Z :=
  match s with
  | String.String c s' =>
      if bool_decide (c = "-"%char) then - digits 0 s'
      else if bool_decide (c = "+"%char) then digits 0 s'
      else digits 0 s
  | String.EmptyString => 0
  end.

Fixpoint atoi_value (s : string) : Z :=
  match s with
  | String.String c s' => if is_space c then atoi_value s' else signed s
  | String.EmptyString => 0
  end.

Definition atoi (s : string) : Res Z :=
  let v := atoi_value s in
  if (- 2 ^ 31 <=? v) && (v <? 2 ^ 31) then Ok v else Err Indeterminate.

(** [Main], with [argc] the length of [argv]. *)
Definition Main (argv : list string) : Res (list Printed * Program) :=
  match argv with
  | [] => Ok ([], Finish 1)
  | [program; mode; ip; port; text] =>
      port ← atoi port;
      let out := if port =? 0 then [WrongPort; Usage program] else [] in
      match mode with
      | String.String c _ =>
          if bool_decide (c = "c"%char) then Ok (out, clientMain ip port text)
          else if bool_decide (c = "s"%char) then Ok (out, serverMain ip port text)
          else Ok (out ++ [Usage program], Finish 1)
      | String.EmptyString => Ok (out ++ [Usage program], Finish 1)
      end
  | program :: _ => Ok ([Usage program], Finish 1)
  end.

Definition E_Main (argv : list string) : Res (list Printed * Program) := Main argv.

End Echo.

(** ** Properties *)

Module Assignments.
Import Host LinkCost.

(** Every cost up to [MaxCost] divides [CostLCM]. *)
Lemma cost_exact c : 1 <= c <= MaxCost -> CostLCM / (CostLCM / c) = c /\ CostLCM / c <> 0.
Proof.
  intros Hc.
  assert (Forall (fun c => CostLCM / (CostLCM / c) = c /\ CostLCM / c <> 0) (Z.of_nat <$> seq 1 20)) as H
    by solve_bytes.
  rewrite Forall_forall in H. apply H. apply list_elem_of_fmap. exists (Z.to_nat c).
  split; [lia|]. apply elem_of_seq. unfold MaxCost in Hc. lia.
Qed.

Lemma mapM_of {A} (to : A -> list Z) (rd : list Z -> option A) (l : list A) :
  (forall a, rd (to a) = Some a) -> mapM rd (to <$> l) = Some l.
Proof. intros H. induction l as [|a l IH]; [done|]. cbn. by rewrite H, IH. Qed.

(** Loading a header followed by a flexible array. *)
Lemma load_message {A B} hl el (hv : list Z) (es : list A) (vals : A -> list Z) (rd : list Z -> option A)
  (k : list Z -> list A -> option B) :
  Packed.fits hl hv -> Forall (fun e => Packed.fits el (vals e)) es -> (0 < Packed.sizeof el)%nat ->
  (forall e, rd (vals e) = Some e) ->
  (let bs := Packed.store hl hv ++ Packed.store_array el (vals <$> es) in
   ('(vs, rest) ← Packed.load hl bs;
    es ← Packed.load_array (length rest) el rest;
    es ← mapM rd es; k vs es) = k hv es /\
   length bs = (Packed.sizeof hl + length es * Packed.sizeof el)%nat).
Proof.
  intros Hh He Hs Hrd bs. assert (Forall (Packed.fits el) (vals <$> es)) as He' by (by apply Forall_fmap).
  pose proof (Packed.length_store_array el _ He') as Hl. rewrite length_fmap in Hl. split.
  - unfold bs. rewrite Packed.load_store by done. cbn [mbind option_bind].
    rewrite Packed.load_store_array; [|done|done|rewrite Hl, length_fmap; nia].
    cbn [mbind option_bind]. by rewrite mapM_of.
  - unfold bs. rewrite length_app, Hl. by rewrite Packed.length_store.
Qed.

Section LinkCost.
Context {Obj : Type} {HMC : HostModuleClass Obj} {Mod : Type} {MV : ModuleView Mod} {US : UnorderedSet Z}.
Abbreviation Sys := (System.System Mod Message Z Env).

Lemma linkCost_run id self n wireID m w h (s : Sys) :
  Host.ports h !! n = Some wireID -> System.registeredModule s !! wireID = Some m -> as_wire m = Some w ->
  Host.run_prog (Obj := Obj) id self (linkCost (Z.of_nat n)) h s =
    if Wire.bps w =? 0 then Err DivideByZero else Ok (CostLCM / Wire.bps w, h, s).
Proof.
  intros Hp Hm Hw. unfold linkCost, HostApi.getWireSpeed. cbn [mbind HProg_bind hbind Host.run_prog].
  unfold Host.getWireSpeed. replace (0 <=? Z.of_nat n) with true by (symmetry; apply Z.leb_le; lia).
  rewrite Nat2Z.id, Hp. cbn [of_option mbind Res_bind]. rewrite Hm. cbn [of_option mbind Res_bind].
  rewrite Hw. cbn [of_option mbind Res_bind]. by destruct (Wire.getWireSpeed w =? 0) eqn:E; unfold Wire.getWireSpeed in E; rewrite E.
Qed.

(** C35: the cost of a link is the cost its wire's speed was made from: on a
    wire of speed [CostLCM / c] with [1 <= c <= MaxCost], [linkCost] returns
    exactly [c] and changes nothing.  A wire faster than [CostLCM] (the default
    gigabit wire is) costs [0], and a wire of speed [0] makes the division
    fail. *)
Theorem linkCost_exact id self n wireID m w h (s : Sys) :
  Host.ports h !! n = Some wireID -> System.registeredModule s !! wireID = Some m -> as_wire m = Some w ->
  let cost := Host.run_prog (Obj := Obj) id self (linkCost (Z.of_nat n)) h s in
  (forall c, 1 <= c <= MaxCost -> Wire.bps w = CostLCM / c -> cost = Ok (c, h, s)) /\
  (CostLCM < Wire.bps w -> cost = Ok (0, h, s)) /\
  (Wire.bps w = 0 -> cost = Err DivideByZero).
Proof.
  intros Hp Hm Hw. cbn zeta. rewrite (linkCost_run id self n wireID m w h s Hp Hm Hw). split; [|split].
  - intros c Hc ->. destruct (cost_exact c Hc) as [H1 H2]. by rewrite (proj2 (Z.eqb_neq _ _) H2), H1.
  - intros Hb. assert (0 < CostLCM) by (vm_compute; done). rewrite (proj2 (Z.eqb_neq _ _)) by lia.
    rewrite Z.div_small by lia. done.
  - by intros ->.
Qed.

End LinkCost.

(** the messages of the routing protocols survive a trip through a
    packet: reading the bytes of a RIP message or of a PWOSPF hello or link
    state update gives the message back, with as many entries as follow its
    header, and the messages have the sizes of the protocols (4 + 20 n, 32 and
    32 + 16 n bytes). *)
Theorem messages_roundtrip r h l :
  RIP.rip_ok r -> PWOSPF.hello_ok h -> PWOSPF.lsu_ok l ->
  RIP.rip_of_bytes (RIP.rip_bytes r) = Some r /\
  length (RIP.rip_bytes r) = (4 + 20 * length (RIP.entries r))%nat /\
  PWOSPF.hello_of_bytes (PWOSPF.hello_bytes h) = Some h /\ length (PWOSPF.hello_bytes h) = 32%nat /\
  PWOSPF.lsu_of_bytes (PWOSPF.lsu_bytes l) = Some l /\
  length (PWOSPF.lsu_bytes l) = (32 + 16 * length (PWOSPF.entries l))%nat.
Proof.
  intros [Hr1 Hr2] Hh [Hl1 Hl2].
  destruct (load_message RIP.header_layout RIP.entry_layout _ _ RIP.entry_values RIP.entry_of
    (fun vs es => h ← RIP.header_of vs; Some (RIP.mkRip h es)) Hr1 Hr2) as [Er Hlr]; [cbn; lia | by intros [] |].
  destruct (load_message PWOSPF.lsu_layout PWOSPF.lsu_entry_layout _ _ PWOSPF.lsu_entry_values PWOSPF.lsu_entry_of
    (fun vs es => PWOSPF.lsu_of es vs) Hl1 Hl2) as [El Hll]; [cbn; lia | by intros [] |].
  split; [|split; [|split; [|split; [|split]]]].
  - unfold RIP.rip_of_bytes, RIP.rip_bytes. rewrite Er. by destruct r as [[] ?].
  - unfold RIP.rip_bytes. rewrite Hlr. cbn. lia.
  - unfold PWOSPF.hello_of_bytes, PWOSPF.hello_bytes. rewrite <- (app_nil_r (Packed.store _ _)).
    rewrite Packed.load_store by done. by destruct h as [[] ? ? ?].
  - unfold PWOSPF.hello_bytes. by rewrite Packed.length_store.
  - unfold PWOSPF.lsu_of_bytes, PWOSPF.lsu_bytes. rewrite El. by destruct l as [[] ? ? ? ?].
  - unfold PWOSPF.lsu_bytes. rewrite Hll. cbn. lia.
Qed.

(** ** Witnesses *)

Definition ex_wire (speed : Z) : Wire.Wire := Wire.mkWire (1, 2) (0, 0) 1000 speed true.

#[local] Instance wire_view : ModuleView Wire.Wire := {|
  as_wire := Some;
  host_running _ := None;
|}.

Definition ex_host : Host.Host (HostObject Empty_set) :=
  Host.mkHost [7] empty_info 0 0 true ∅ ∅ ∅ ∅ ∅ ∅.
#[local] Instance ex_order : UnorderedSet Z := {| bucket_pos _ _ := 0%nat |}.
Definition ex_sys (speed : Z) : System.System Wire.Wire Message Z Env :=
  System.set_modules {[7 := ex_wire speed]} (System.System_init initial_env).

Lemma linkCost_exact_witness :
  Host.run_prog 1 (Host.mkSelf (Some "UDP") (Some "UDP") None) (linkCost 0) ex_host (ex_sys (CostLCM / 7)) =
    Ok (7, ex_host, ex_sys (CostLCM / 7)) /\
  Host.run_prog 1 (Host.mkSelf (Some "UDP") (Some "UDP") None) (linkCost 0) ex_host (ex_sys (10 ^ 9)) =
    Ok (0, ex_host, ex_sys (10 ^ 9)).
Proof.
  split.
  - apply (linkCost_exact 1 (Host.mkSelf (Some "UDP") (Some "UDP") None) 0 7 (ex_wire (CostLCM / 7)) (ex_wire (CostLCM / 7)));
      [reflexivity | reflexivity | reflexivity | unfold MaxCost; lia | reflexivity].
  - apply (linkCost_exact 1 (Host.mkSelf (Some "UDP") (Some "UDP") None) 0 7 (ex_wire (10 ^ 9)) (ex_wire (10 ^ 9)));
      reflexivity.
Defined.

Definition ex_rip : RIP.rip_t :=
  RIP.mkRip (RIP.mkRipHeader 2 1 0) [RIP.mkRipEntry 512 0 0x0A000104 0 0 0x07000000; RIP.mkRipEntry 512 0 1 0 0 2].
Definition ex_header : PWOSPF.pwospf_header_t := PWOSPF.mkHeader 2 1 0x2000 7 PWOSPF.AreaID 0xABCD 0 0.
Definition ex_hello : PWOSPF.pwospf_hello_t := PWOSPF.mkHello ex_header 0x00FFFFFF PWOSPF.HelloInt 0.
Definition ex_lsu : PWOSPF.pwospf_lsu_t :=
  PWOSPF.mkLsu ex_header 1 PWOSPF.TTLInitial 1 [PWOSPF.mkLsuEntry 1 0x00FFFFFF 9 20].

Lemma messages_roundtrip_witness :
  RIP.rip_ok ex_rip /\ PWOSPF.hello_ok ex_hello /\ PWOSPF.lsu_ok ex_lsu /\
  RIP.rip_of_bytes (RIP.rip_bytes ex_rip) = Some ex_rip /\ length (RIP.rip_bytes ex_rip) = 44%nat.
Proof.
  assert (RIP.rip_ok ex_rip) as H1 by (unfold RIP.rip_ok, Packed.fits; solve_bytes).
  assert (PWOSPF.hello_ok ex_hello) as H2 by (unfold PWOSPF.hello_ok, Packed.fits; solve_bytes).
  assert (PWOSPF.lsu_ok ex_lsu) as H3 by (unfold PWOSPF.lsu_ok, Packed.fits; solve_bytes).
  destruct (messages_roundtrip ex_rip ex_hello ex_lsu H1 H2 H3) as (E1 & E2 & _).
  do 3 (split; [done|]). split; [exact E1 | exact E2].
Defined.

End Assignments.
