(* ===== verification/Network.v ===== *)
(** * Network: modules composed into a network

    Models include/E/Networking/E_Networking.hpp and
    src/Networking/E_Networking.cpp ([NetworkModule], [NetworkSystem]) and the
    dynamic dispatch of the scheduler: the registered modules are wires, hubs,
    switches and hosts, and this file provides the scheduler's interface
    [ModuleClass] for them, the hosts' view of the other modules [ModuleView],
    and the obligations [ModuleClassOk] of the scheduler's theorems.

    [net_inv] is the invariant of a network: ports and wires agree, messages
    are addressed to registered modules that understand them, applications
    belong to registered hosts. *)

From S2P Require Import Prelude NetworkUtil Packet RoutingInfo TimeUtil RandomDistribution.
From S2P Require Import System ModuleBase Wire Link HostApi Host.
From stdpp Require Import sorting relations.
Local Open Scope Z_scope.

Module Network.
Import System.

Section Network.
Context {RE : RandomEngine} {Obj : Type} {HMC : HostModuleClass Obj}.

(** The classes of registered modules. *)
Inductive NetMod :=
| NWire (w : Wire.Wire)
| NHub (h : Link.Hub)
| NSwitch (w : Link.Switch)
| NHost (h : Host.Host Obj).

(** [dynamic_cast<Wire &>] and [Host::isRunning]. *)
#[global] Instance NetMod_view : ModuleView NetMod := {|
  as_wire m := match m with NWire w => Some w | _ => None end;
  host_running m := match m with NHost h => Some (Host.isRunning h) | _ => None end;
|}.

Context {US : UnorderedSet Z} {UM : UnorderedMap}.
Abbreviation Sys := (System NetMod Message Z Env).

(** The new state of a module. *)
Definition store (id : Z) (m : NetMod) (s : Sys) : Sys := set_modules (<[id := m]> (registeredModule s)) s.

(** ** Virtual calls *)

Definition received (to from : Z) (m : Message) (s : Sys) : Res (Sys * option Message) :=
  o ← deref to s;
  match o with
  | NWire w => '(w, s) ← Wire.messageReceived to from m w s; Ok (store to (NWire w) s, None)
  | NHub h => '(h, s) ← Link.messageReceived to from m h s; Ok (store to (NHub h) s, None)
  | NSwitch w => '(w, s) ← Link.messageReceived to from m w s; Ok (store to (NSwitch w) s, None)
  | NHost h => '(h, s) ← Host.messageReceived to from m h s; Ok (store to (NHost h) s, None)
  end.

Definition finished (from to : Z) (m : Message) (response : option Message) (s : Sys) : Res Sys :=
  o ← deref from s;
  match o with
  | NWire _ => Wire.messageFinished to m (response_of response) s
  | NHub _ | NSwitch _ => Link.messageFinished to m (response_of response) s
  | NHost _ => Host.messageFinished to m (response_of response) s
  end.

Definition cancelled (from to : Z) (m : Message) (s : Sys) : Res Sys :=
  o ← deref from s;
  match o with
  | NWire _ => Wire.messageCancelled to m s
  | NHub _ | NSwitch _ => Link.messageCancelled to m s
  | NHost _ => Host.messageCancelled to m s
  end.

#[global] Instance NetMod_class : ModuleClass NetMod Message Z Env := {|
  messageReceived := received;
  messageFinished := finished;
  messageCancelled := cancelled;
  wake := Host.wake;
|}.

(** ** NetworkModule and NetworkSystem *)

Definition ports_of (m : NetMod) : list Z :=
  match m with
  | NWire _ => []
  | NHub h => Link.ports (Link.hub_link h)
  | NSwitch w => Link.ports (Link.sw_link w)
  | NHost h => Host.ports h
  end.

(** [NetworkModule::connectWire]; a wire is not a [NetworkModule]. *)
Definition connectWire (moduleID : Z) (m : NetMod) : Res (NetMod * Z) :=
  match m with
  | NWire _ => Err BadCast
  | NHub h => let '(l, p) := Link.connectWire moduleID (Link.hub_link h) in Ok (NHub (Link.mkHub l), p)
  | NSwitch w => let '(l, p) := Link.connectWire moduleID (Link.sw_link w) in Ok (NSwitch (Link.set_sw_link l w), p)
  | NHost h => let '(h, p) := Host.connectWire moduleID h in Ok (NHost h, p)
  end.

Definition connect (id moduleID : Z) (s : Sys) : Res (Sys * Z) :=
  m ← deref id s;
  '(m, p) ← connectWire moduleID m;
  Ok (store id m s, p).

Definition addWire (left right propagationDelay bps : Z) (limit_speed : bool) (s : Sys)
  : Res (Sys * (Z * (Z * Z))) :=
  '(s, wire) ← addModule (NWire (Wire.Wire_new left right propagationDelay bps limit_speed s)) s;
  '(s, left_port_id) ← connect left wire s;
  '(s, right_port_id) ← connect right wire s;
  Ok (s, (wire, (left_port_id, right_port_id))).

Definition getWireSpeed (moduleID : Z) (s : Sys) : Res Z :=
  m ← deref moduleID s;
  w ← of_option BadCast (as_wire m);
  Ok (Wire.getWireSpeed w).

(** ** What the callbacks do

    The modules act on the scheduler by sending messages that satisfy [G],
    cancelling, changing the ready set, and changing static data without
    moving an application to another host. *)

Definition same_hosts (e e' : Env) : Prop :=
  forall a app', applications e' !! a = Some app' ->
    exists app, applications e !! a = Some app /\ app_host app' = app_host app.

Inductive net_op (G : Z -> Z -> Message -> Prop) : Sys -> Sys -> Prop :=
| no_send from to m after s s' u :
    G from to m -> sendMessage from to m after s = Ok (s', u) -> net_op G s s'
| no_cancel u s : net_op G s (fst (cancelMessage u s))
| no_add r st s s' : addRunnable r st s = Ok s' -> net_op G s s'
| no_del r s : net_op G s (delRunnable r s)
| no_statics e s : same_hosts (statics s) e -> net_op G s (set_statics e s).

Definition net_ops (G : Z -> Z -> Message -> Prop) : Sys -> Sys -> Prop := rtc (net_op G).

Definition all_sent (G : Z -> Z -> Message -> Prop) (s : Sys) : Prop :=
  Forall (fun c => G (tc_from c) (tc_to c) (message c)) (timerQueue s).

Lemma net_ops_refl G s : net_ops G s s.
Proof. apply rtc_refl. Qed.

Lemma net_ops_trans G s1 s2 s3 : net_ops G s1 s2 -> net_ops G s2 s3 -> net_ops G s1 s3.
Proof. unfold net_ops. intros. by etrans. Qed.

Abbreviation T64 := (2 ^ 64 - 1).

Lemma net_op_sys G s s' : net_op G s s' -> sys_ops T64 s s'.
Proof.
  intros [from to m after s1 s1' u _ H|u s1|r st s1 s1' H|r s1|e s1 H].
  - by eapply sendMessage_op.
  - apply rtc_once, op_cancel.
  - by eapply rtc_once, op_add.
  - apply rtc_once, op_del.
  - apply rtc_once, op_statics.
Qed.

Lemma net_ops_sys G s s' : net_ops G s s' -> sys_ops T64 s s'.
Proof.
  induction 1 as [|s1 s2 s3 Hop _ IH]; [apply rtc_refl|]. eapply sys_ops_trans; [by eapply net_op_sys | done].
Qed.

Lemma net_op_keeps G s s' :
  net_op G s s' ->
  registeredModule s' = registeredModule s /\ same_hosts (statics s) (statics s') /\
  (all_sent G s -> all_sent G s').
Proof.
  assert (forall e, same_hosts e e) as Hrefl by (intros e a app H; by exists app).
  intros [from to m after s1 s1' u HG H|u s1|r st s1 s1' H|r s1|e s1 H]; cbn.
  - pose proof H as H'. apply sendMessage_inv in H as (_&_&_&Eq&_&_&_&_&Em).
    assert (statics s1' = statics s1) as ->.
    { unfold sendMessage, allocateUUID in H'. destruct (bool_decide _); res_inv. done. }
    split; [done|]. split; [done|]. intros Hall. unfold all_sent. rewrite Eq, pq_push_perm. by constructor.
  - unfold cancelMessage. destruct (bool_decide _); cbn; [|done]. split; [done|]. split; [done|].
    intros Hall. apply Forall_fmap. eapply Forall_impl; [exact Hall|]. intros c. cbn. unfold mark_canceled.
    by destruct (_ =? _).
  - unfold addRunnable in H. res_inv. destruct (bool_decide (r ∈ _)); res_inv; done.
  - done.
  - done.
Qed.

Lemma net_ops_keeps G s s' :
  net_ops G s s' ->
  registeredModule s' = registeredModule s /\ same_hosts (statics s) (statics s') /\
  (all_sent G s -> all_sent G s').
Proof.
  induction 1 as [s|s1 s2 s3 Hop _ (IH1 & IH2 & IH3)].
  - split; [done|]. split; [|done]. intros a app H. by exists app.
  - apply net_op_keeps in Hop as (H1 & H2 & H3). split; [congruence|]. split; [|auto].
    intros a app3 Ha3. destruct (IH2 a app3 Ha3) as (app2 & Ha2 & E2).
    destruct (H2 a app2 Ha2) as (app1 & Ha1 & E1). exists app1. split; [done | congruence].
Qed.

Lemma post_net G id to m after (s s' : Sys) : G id to m -> post id to m after s = Ok s' -> net_ops G s s'.
Proof. unfold post, module_sendMessage. intros HG H. res_inv. apply rtc_once. by eapply no_send. Qed.

Lemma registry_net G r (s : Sys) : net_ops G s (set_registry r s).
Proof. apply rtc_once, no_statics. intros a app H. by exists app. Qed.

Lemma new_packet_net G n (s s' : Sys) q : new_packet n s = Ok (s', q) -> net_ops G s s'.
Proof. intros [r ->]%new_packet_inv. apply registry_net. Qed.

Lemma clone_net G p (s s' : Sys) q : clone_packet p s = Ok (s', q) -> net_ops G s s'.
Proof. intros H. apply clone_packet_inv in H as (_ & r & ->). apply registry_net. Qed.

Lemma destroy_net G p (s : Sys) : net_ops G s (destroy_packet p s).
Proof. apply registry_net. Qed.

Lemma destroy_message_net G m (s : Sys) : net_ops G s (destroy_message m s).
Proof. destruct m; cbn; try apply net_ops_refl; apply destroy_net. Qed.

(** *** Wires *)

Lemma wire_net G id from m w w' (s s' : Sys) :
  (forall d p, G id (Wire.at_end d (Wire.connected w)) (WireMessage PACKET_FROM_PORT p)) ->
  Wire.messageReceived id from m w s = Ok (w', s') ->
  net_ops G s s' /\ Wire.connected w' = Wire.connected w.
Proof.
  unfold Wire.messageReceived. intros HG H. destruct m; try discriminate. res_inv.
  destruct (Wire.destination from w) as [d|]; res_inv; [|split; [apply net_ops_refl | done]].
  split; [|done]. destruct (Wire.limit_speed _); (eapply post_net; [apply HG | eassumption]).
Qed.

(** *** Links *)

Lemma pcap_log_ports now p l l' : Link.pcap_log now p l = Ok l' -> Link.ports l' = Link.ports l.
Proof. unfold Link.pcap_log. intros H. destruct (Link.pcap_enabled l); res_inv; done. Qed.

Lemma link_send_net G id port p l l' (s s' : Sys) :
  G id id (CheckQueue port) -> Link.sendPacket id port p l s = Ok (l', s') ->
  net_ops G s s' /\ Link.ports l' = Link.ports l.
Proof.
  unfold Link.sendPacket. intros HG H. res_inv.
  assert (Link.ports l0 = Link.ports l) as Hl.
  { destruct (_ && _); res_inv; [|done]. unfold Link.evict in *.
    destruct (RandomDistribution.nextDistribution _ _ _ _). res_inv. destruct (_ <? _); res_inv; done. }
  assert (net_ops G s (match o with Some p => destroy_packet p s | None => s end)) as He
    by (destruct o; [apply destroy_net | apply net_ops_refl]).
  destruct (_ =? 1)%nat; res_inv; split; try done. eapply net_ops_trans; [exact He|]. by eapply post_net.
Qed.

Lemma check_queue_net G id w l l' (s s' : Sys) :
  G id id (CheckQueue w) -> (forall p, G id w (WireMessage PACKET_TO_PORT p)) ->
  Link.check_queue id w l s = Ok (l', s') -> net_ops G s s' /\ Link.ports l' = Link.ports l.
Proof.
  unfold Link.check_queue. intros HG HW H. destruct (Link.queue_of w l) as [|p q]; [discriminate|].
  destruct (_ <=? _); res_inv; [|split; [apply net_ops_refl | done]].
  match goal with Hp : Link.pcap_log _ _ _ = Ok _ |- _ => apply pcap_log_ports in Hp; split; [|exact Hp] end.
  eapply net_ops_trans; [eapply post_net; [apply HW | eassumption]|].
  eapply net_ops_trans; [|apply destroy_net].
  destruct q; res_inv; [apply net_ops_refl | by eapply post_net].
Qed.

(** A loop over ports whose body keeps the ports of the device. *)
Lemma foldM_net {A} G (ports : A -> list Z) (sys : A -> Sys) (f : Z -> A -> Res A) ps a a' :
  (forall w a1 a2, w ∈ ps -> f w a1 = Ok a2 -> net_ops G (sys a1) (sys a2) /\ ports a2 = ports a1) ->
  foldM f ps a = Ok a' -> net_ops G (sys a) (sys a') /\ ports a' = ports a.
Proof.
  intros Hf H.
  apply (foldM_inv (fun b => net_ops G (sys a) (sys b) /\ ports b = ports a) f ps a a');
    [|split; [apply net_ops_refl | done]|exact H].
  intros w a1 a2 Hin [H1 H2] E. destruct (Hf w a1 a2 Hin E) as [H3 H4].
  split; [by eapply net_ops_trans | congruence].
Qed.

(** The output port of one copy of a packet. *)
Lemma forward_net G id port p q l l' (s s1 s2 : Sys) :
  G id id (CheckQueue port) -> clone_packet p s = Ok (s1, q) ->
  forall q', Link.sendPacket id port q' l s1 = Ok (l', s2) ->
  net_ops G s (destroy_packet q' s2) /\ Link.ports l' = Link.ports l.
Proof.
  intros HG Hc q' Hs. apply (link_send_net G) in Hs as [Hs Hp]; [|done]. split; [|done].
  eapply net_ops_trans; [by eapply clone_net|]. eapply net_ops_trans; [exact Hs | apply destroy_net].
Qed.

Lemma hub_net G id from p h h' (s s' : Sys) :
  (forall w, w ∈ Link.ports (Link.hub_link h) -> G id id (CheckQueue w)) ->
  Link.hub_packetArrived id from p h s = Ok (h', s') ->
  net_ops G s s' /\ Link.ports (Link.hub_link h') = Link.ports (Link.hub_link h).
Proof.
  intros HG H. apply (foldM_net G (fun st => Link.ports (Link.hub_link (fst st))) snd _ _ (h, s) (h', s')) in H; [done|].
  intros w [h1 s1] [h2 s2] Hin Hb. unfold Link.hub_port in Hb. cbn.
  destruct (negb _); res_inv; [|split; [apply net_ops_refl | done]]. eapply forward_net; eauto.
Qed.

Lemma drop_decision_ports w b w' :
  Link.drop_decision w = (b, w') -> Link.ports (Link.sw_link w') = Link.ports (Link.sw_link w).
Proof.
  unfold Link.drop_decision. destruct (Link.unreliable w); [|by intros [= _ <-]].
  destruct (RandomDistribution.nextDistribution _ _ _ _). by intros [= _ <-].
Qed.

Lemma switch_loop_net G id from mac p ps b w b' w' (s s' : Sys) :
  (forall x, x ∈ ps -> G id id (CheckQueue x)) ->
  foldM (Link.switch_port id from mac p) ps (b, w, s) = Ok (b', w', s') ->
  net_ops G s s' /\ Link.ports (Link.sw_link w') = Link.ports (Link.sw_link w).
Proof.
  intros HG H.
  apply (foldM_net G (fun st => Link.ports (Link.sw_link (snd (fst st)))) snd _ _ (b, w, s) (b', w', s')) in H; [done|].
  intros x [[f1 w2] s2] [[f2 w3] s3] Hin Hb. unfold Link.switch_port in Hb. cbn [fst snd].
  destruct (negb (from =? x)); [|res_inv; split; [apply net_ops_refl | done]].
  destruct (Link.mac_match _ _ _); [|res_inv; split; [apply net_ops_refl | done]].
  destruct (Link.drop_decision w2) as [d w4] eqn:Ed. apply drop_decision_ports in Ed. rewrite <- Ed. res_inv.
  all: cbn [Link.set_sw_link Link.sw_link]; eapply forward_net; eauto.
Qed.

Lemma flood_loop_net G id from p ps w w' (s s' : Sys) :
  (forall x, x ∈ ps -> G id id (CheckQueue x)) ->
  foldM (Link.flood_port id from p) ps (w, s) = Ok (w', s') ->
  net_ops G s s' /\ Link.ports (Link.sw_link w') = Link.ports (Link.sw_link w).
Proof.
  intros HG H.
  apply (foldM_net G (fun st => Link.ports (Link.sw_link (fst st))) snd _ _ (w, s) (w', s')) in H; [done|].
  intros x [w2 s2] [w3 s3] Hin Hb. unfold Link.flood_port in Hb. cbn [fst snd].
  destruct (negb (from =? x)); res_inv; [|split; [apply net_ops_refl | done]]. eapply forward_net; eauto.
Qed.

Lemma switch_net G id from p w w' (s s' : Sys) :
  (forall x, x ∈ Link.ports (Link.sw_link w) -> G id id (CheckQueue x)) ->
  Link.switch_packetArrived id from p w s = Ok (w', s') ->
  net_ops G s s' /\ Link.ports (Link.sw_link w') = Link.ports (Link.sw_link w).
Proof.
  unfold Link.switch_packetArrived. intros HG H. destruct (readInto 0 6 p) as [a|]; [|discriminate].
  cbn [mbind Res_bind] in H. destruct (foldM _ _ (false, w, s)) as [[[b w1] s1]|] eqn:E; [|discriminate].
  apply (switch_loop_net G) in E as [H1 H2]; [|done]. cbn [mbind Res_bind] in H.
  destruct (negb b); [|by simplify_eq].
  apply (flood_loop_net G) in H as [H3 H4]; [|by rewrite H2].
  split; [by eapply net_ops_trans | congruence].
Qed.

(** The handler of a hub or a switch. *)
Lemma link_net {L} {LC : Link.LinkClass L} G id from m (o o' : L) (s s' : Sys) :
  (forall l : L, forall x, Link.ports (Link.base (Link.set_base x l)) = Link.ports x) ->
  (forall p o1 s1, Link.packetArrived id from p o s = Ok (o1, s1) ->
     net_ops G s s1 /\ Link.ports (Link.base o1) = Link.ports (Link.base o)) ->
  (forall w, m = CheckQueue w -> G id id (CheckQueue w) /\ forall p, G id w (WireMessage PACKET_TO_PORT p)) ->
  Link.messageReceived id from m o s = Ok (o', s') ->
  net_ops G s s' /\ Link.ports (Link.base o') = Link.ports (Link.base o).
Proof.
  unfold Link.messageReceived. intros Hb Hp Hc H. destruct m; res_inv; try (split; [apply net_ops_refl | done]).
  - by eapply Hp.
  - destruct (Hc wireID eq_refl) as [H1 H2]. rewrite Hb. by eapply check_queue_net.
Qed.

(** *** Hosts *)

Lemma app_net G a app app' (s : Sys) :
  applications (statics s) !! a = Some app -> app_host app' = app_host app ->
  net_ops G s (Host.set_app a app' s).
Proof.
  intros Ha E. apply rtc_once, no_statics. intros b app2 Hb. cbn in Hb.
  apply lookup_insert_Some in Hb as [[<- <-]|[_ Hb]]; eauto.
Qed.

Lemma returnSystemCall_net G u v (h h' : Host.Host Obj) (s s' : Sys) :
  Host.returnSystemCall u v h s = Ok (h', s') -> net_ops G s s'.
Proof.
  unfold Host.returnSystemCall, Host.get_app, Host.returnSyscall. intros H.
  destruct (Host.syscallMap h !! u); res_inv; [|apply net_ops_refl].
  eapply net_ops_trans; [|eapply rtc_once, no_add; eassumption]. by eapply app_net.
Qed.

(** What stays the same in a host while it handles messages. *)
Definition same_host (h h' : Host.Host Obj) : Prop :=
  Host.ports h' = Host.ports h /\ Host.hostModuleMap h' = Host.hostModuleMap h /\
  Host.timerModuleMap h' = Host.timerModuleMap h /\ Host.interfaceMap h' = Host.interfaceMap h /\
  Host.objects h' = Host.objects h.

Lemma same_host_refl h : same_host h h.
Proof. done. Qed.

Lemma same_host_trans h1 h2 h3 : same_host h1 h2 -> same_host h2 h3 -> same_host h1 h3.
Proof. unfold same_host. intros (?&?&?&?&?) (?&?&?&?&?). repeat split; congruence. Qed.

Lemma returnSystemCall_same u v h h' (s s' : Sys) : Host.returnSystemCall u v h s = Ok (h', s') -> same_host h h'.
Proof.
  unfold Host.returnSystemCall. intros H. destruct (Host.syscallMap h !! u); res_inv; done.
Qed.

Lemma createFileDescriptor_same d p pid (h h' : Host.Host Obj) fd :
  Host.createFileDescriptor d p pid h = Ok (h', fd) -> same_host h h'.
Proof.
  unfold Host.createFileDescriptor. intros H. destruct (Host.processInfoMap h !! pid); [|discriminate].
  destruct (_ <=? _); res_inv; done.
Qed.

Lemma removeFileDescriptor_same pid fd h : same_host h (Host.removeFileDescriptor pid fd h).
Proof. unfold Host.removeFileDescriptor. by destruct (Host.processInfoMap h !! pid). Qed.

(** The messages a host may send: packets to the wires at its ports, packets
    between its modules and timers of its timer modules. *)
Record host_sends (G : Z -> Z -> Message -> Prop) (id : Z) (h : Host.Host Obj) : Prop := {
  hs_wire w p : w ∈ Host.ports h -> G id w (WireMessage PACKET_TO_PORT p);
  hs_pass f to p : is_Some (Host.hostModuleMap h !! to) -> G id id (PacketPass f (Some to) p);
  hs_timer n a : is_Some (Host.timerModuleMap h !! n) -> G id id (Timer n a);
}.

Lemma host_sends_same G id h h' : same_host h h' -> host_sends G id h -> host_sends G id h'.
Proof. intros (E1 & E2 & E3 & _) [H1 H2 H3]. constructor; rewrite ?E1, ?E2, ?E3; auto. Qed.

Lemma sendPacketToModule_net G id from to p (h : Host.Host Obj) (s s' : Sys) :
  host_sends G id h -> Host.sendPacketToModule id from to p h s = Ok s' -> net_ops G s s'.
Proof.
  unfold Host.sendPacketToModule, Host.sendPacket. intros HG H. destruct (String.eqb to "Host").
  - res_inv. destruct (negb (Host.running h)); res_inv; [apply net_ops_refl|].
    eapply post_net; [|eassumption]. apply (hs_wire _ _ _ HG). by eapply list_elem_of_lookup_2.
  - destruct (Host.hostModuleMap h !! to) eqn:E; res_inv; [|apply net_ops_refl].
    eapply post_net; [|eassumption]. apply (hs_pass _ _ _ HG). by eexists.
Qed.

Lemma run_prog_net {A} G id self (p : HProg A) h (s : Sys) r h' s' :
  host_sends G id h -> (forall n, Host.self_timer self = Some n -> is_Some (Host.timerModuleMap h !! n)) ->
  Host.run_prog id self p h s = Ok (r, h', s') -> net_ops G s s' /\ same_host h h'.
Proof.
  revert h s. induction p; cbn [Host.run_prog]; intros h0 s0 HG Ht Hrun; res_inv.
  all: try (split; [apply net_ops_refl | apply same_host_refl]); eauto.
  - match goal with Hs : Host.sendPacketToModule _ _ _ _ _ _ = Ok _, Hr : Host.run_prog _ _ _ _ _ = Ok _ |- _ =>
      apply (sendPacketToModule_net G) in Hs; [|done]; apply IHp in Hr as [Hr Hsame]; [|done|done] end.
    split; [by eapply net_ops_trans | done].
  - match goal with Hs : Host.returnSystemCall _ _ _ _ = Ok _, Hr : Host.run_prog _ _ _ _ _ = Ok _ |- _ =>
      pose proof (returnSystemCall_same _ _ _ _ _ _ Hs) as Hsame; apply (returnSystemCall_net G) in Hs;
      apply IHp in Hr as [Hr Hsame2]; [|by eapply host_sends_same|by destruct Hsame as (_ & _ & -> & _)] end.
    split; [by eapply net_ops_trans | by eapply same_host_trans].
  - match goal with Hs : Host.createFileDescriptor _ _ _ _ = Ok _, Hr : Host.run_prog _ _ _ _ _ = Ok _ |- _ =>
      apply createFileDescriptor_same in Hs as Hsame;
      apply H in Hr as [Hr Hsame2]; [|by eapply host_sends_same|by destruct Hsame as (_ & _ & -> & _)] end.
    split; [done | by eapply same_host_trans].
  - pose proof (removeFileDescriptor_same processID fd h0) as Hsame.
    apply IHp in Hrun as [Hr Hsame2]; [|by eapply host_sends_same|by destruct Hsame as (_ & _ & -> & _)].
    split; [done | by eapply same_host_trans].
  - match goal with Hs : Host.addTimer _ _ _ _ _ = Ok _, Hr : Host.run_prog _ _ _ _ _ = Ok _ |- _ =>
      apply H in Hr as [Hr Hsame]; [|done|done]; split; [|done]; eapply net_ops_trans; [|exact Hr];
      apply rtc_once; eapply no_send; [|exact Hs]; apply (hs_timer _ _ _ HG) end. auto.
  - apply IHp in Hrun as [Hr Hsame]; [|done|done]. split; [|done].
    eapply net_ops_trans; [apply rtc_once, no_cancel | exact Hr].
  - apply IHp in Hrun as [Hr Hsame]; [split; done | | done]. by apply (host_sends_same G id h0).
  - match goal with Hs : Host.store_timeval _ _ _ _ = Ok _, Hr : Host.run_prog _ _ _ _ _ = Ok _ |- _ =>
      apply IHp in Hr as [Hr Hsame]; [|done|done]; split; [|done]; eapply net_ops_trans; [|exact Hr];
      unfold Host.store_timeval in Hs end.
    destruct (_ =? 0); [discriminate|]. destruct (timevals _ !! _); res_inv.
    apply rtc_once, no_statics. intros b app Hb. by exists app.
  - match goal with Hs : new_packet _ _ = Ok _, Hr : Host.run_prog _ _ _ _ _ = Ok _ |- _ =>
      apply (new_packet_net G) in Hs; apply H in Hr as [Hr Hsame]; [|done|done] end.
    split; [by eapply net_ops_trans | done].
  - match goal with Hs : clone_packet _ _ = Ok _, Hr : Host.run_prog _ _ _ _ _ = Ok _ |- _ =>
      apply (clone_net G) in Hs; apply H in Hr as [Hr Hsame]; [|done|done] end.
    split; [by eapply net_ops_trans | done].
  - apply IHp in Hrun as [Hr Hsame]; [|done|done]. split; [|done].
    eapply net_ops_trans; [apply destroy_net | exact Hr].
Qed.

(** The maps of a host name its objects, and an object that is a timer module
    is registered under its timer name. *)
Record host_ok (h : Host.Host Obj) : Prop := {
  ho_timer oid o n : Host.objects h !! oid = Some o -> timerModuleName o = Some n ->
    is_Some (Host.timerModuleMap h !! n);
  ho_hosts n oid : Host.hostModuleMap h !! n = Some oid -> is_Some (Host.objects h !! oid);
  ho_timers n oid : Host.timerModuleMap h !! n = Some oid -> is_Some (Host.objects h !! oid);
  ho_ifaces n oid : Host.interfaceMap h !! n = Some oid -> is_Some (Host.objects h !! oid);
}.

(** A host after a message: same ports and maps, and its objects in place. *)
Definition like_host (h h' : Host.Host Obj) : Prop :=
  Host.ports h' = Host.ports h /\ Host.hostModuleMap h' = Host.hostModuleMap h /\
  Host.timerModuleMap h' = Host.timerModuleMap h /\ host_ok h'.

Lemma same_like h h' : host_ok h -> same_host h h' -> like_host h h'.
Proof.
  intros [H1 H2 H3 H4] (E1 & E2 & E3 & E4 & E5). split; [done|]. split; [done|]. split; [done|].
  constructor; rewrite ?E2, ?E3, ?E4, ?E5; eauto.
Qed.

Lemma run_prog_returns {A} (P : A -> Prop) id self (p : HProg A) (h : Host.Host Obj) (s : Sys) r h' s' :
  returns P p -> Host.run_prog id self p h s = Ok (r, h', s') -> P r.
Proof.
  revert h s. induction p; cbn [Host.run_prog returns]; intros h0 s0 HP Hrun; res_inv; eauto.
Qed.

Lemma call_object_net G id oid f h h' (s s' : Sys) :
  host_sends G id h -> host_ok h ->
  (forall o, returns (fun o' => timerModuleName o' = timerModuleName o) (f o)) ->
  Host.call_object id oid f h s = Ok (h', s') -> net_ops G s s' /\ like_host h h'.
Proof.
  unfold Host.call_object. intros HG Hok Hf H. res_inv.
  rename a into o1, o into o2, h0 into h2, E1 into Ho, E0 into Hr.
  pose proof (run_prog_returns _ _ _ _ _ _ _ _ _ (Hf o1) Hr) as Hn.
  destruct (run_prog_net G _ (Host.self_of o1) _ _ _ _ _ _ HG (fun n => ho_timer h Hok oid o1 n Ho) Hr) as [Hops Hsame].
  split; [exact Hops|]. destruct Hsame as (E1 & E2 & E3 & E4 & E5).
  split; [exact E1|]. split; [exact E2|]. split; [exact E3|].
  assert (forall x, is_Some (Host.objects h !! x) -> is_Some (<[oid := o2]> (Host.objects h2) !! x)) as Hkeep.
  { intros x Hx. rewrite E5. destruct (decide (x = oid)) as [->|]; [rewrite lookup_insert_eq; by eexists|].
    by rewrite lookup_insert_ne. }
  destruct Hok as [K1 K2 K3 K4]. constructor; cbn; rewrite ?E2, ?E3, ?E4.
  - intros x o n Hx Ht. rewrite E5 in Hx. apply lookup_insert_Some in Hx as [[<- <-]|[_ Hx]]; [|eauto].
    cbn beta in Hn. rewrite Hn in Ht. eauto.
  - intros n x Hx. apply Hkeep. eauto.
  - intros n x Hx. apply Hkeep. eauto.
  - intros n x Hx. apply Hkeep. eauto.
Qed.

Lemma allocate_syscall_same pid h h' u : Host.allocate_syscall (Obj := Obj) pid h = Ok (h', u) -> same_host h h'.
Proof. unfold Host.allocate_syscall. intros H. res_inv. destruct a; res_inv. done. Qed.

Context {SN : StableNames Obj}.

Lemma host_net G id from m (h h' : Host.Host Obj) (s s' : Sys) :
  host_sends G id h -> host_ok h ->
  Host.messageReceived id from m h s = Ok (h', s') -> net_ops G s s' /\ like_host h h'.
Proof.
  intros HG Hok. pose proof (same_like h h Hok (same_host_refl h)) as Hrefl.
  unfold Host.messageReceived. destruct m as [|ty p| |pid param|pid v|f to p|n payload]; try discriminate; intros H.
  - res_inv. destruct (Host.running h); res_inv; [|split; [apply net_ops_refl | done]].
    split; [by eapply sendPacketToModule_net | done].
  - unfold Host.receive_syscall in H. res_inv.
    destruct (Host.interfaceMap h !! _); res_inv; [|split; [apply net_ops_refl | done]].
    match goal with Ha : Host.allocate_syscall _ _ = Ok _, Hc : Host.call_object _ _ _ _ _ = Ok _ |- _ =>
      apply allocate_syscall_same in Ha as Hsame; pose proof (same_like _ _ Hok Hsame) as (L1 & L2 & L3 & L4);
      apply (call_object_net G) in Hc as [Hops (M1 & M2 & M3 & M4)];
        [|by eapply host_sends_same|done|intros o; apply stable_syscall] end.
    split; [exact Hops|]. split; [congruence|]. split; [congruence|]. split; [congruence | done].
  - unfold Host.receive_return in H. res_inv. split; [apply rtc_once, no_del|]. by apply same_like.
  - destruct (Host.running h); res_inv; [|split; [apply net_ops_refl | done]].
    eapply call_object_net; [done|done| |eassumption]. intros o. apply stable_packet.
  - res_inv. eapply call_object_net; [done|done| |eassumption]. intros o. apply stable_timer.
Qed.

(** *** Applications *)

Lemma exec_net G p app (s : Sys) app' s' :
  (forall pid param, G (app_host app) (app_host app) (Syscall pid param)) ->
  (forall pid v, G (app_host app) (app_host app) (Return pid v)) ->
  Host.exec p app s = Ok (app', s') ->
  net_ops G s s' /\ app_host app' = app_host app /\ statics s' = statics s.
Proof.
  intros HS HR. revert s. induction p as [v|param k IH|k IH|a k IH]; cbn [Host.exec]; intros s H; res_inv; eauto.
  - unfold Host.exitProcess in *. split; [eapply post_net; [apply HR | eassumption]|]. split; [done|].
    match goal with Hp : post _ _ _ _ _ = Ok _ |- _ => by apply post_inv in Hp as (_&_&_&_&_&_&_&_&?) end.
  - destruct (negb _); [by eauto|]. res_inv. unfold Host.issueSystemCall in *.
    split; [eapply post_net; [apply HS | eassumption]|]. split; [done|].
    match goal with Hp : post _ _ _ _ _ = Ok _ |- _ => by apply post_inv in Hp as (_&_&_&_&_&_&_&_&?) end.
Qed.

Lemma wake_net G a (s s' : Sys) st :
  (forall b app, applications (statics s) !! b = Some app ->
     (forall pid param, G (app_host app) (app_host app) (Syscall pid param)) /\
     (forall pid v, G (app_host app) (app_host app) (Return pid v))) ->
  Host.wake a s = Ok (s', st) -> net_ops G s s'.
Proof.
  unfold Host.wake, Host.get_app. intros HG H. res_inv.
  match goal with Ha : applications (statics s) !! a = Some ?app, He : Host.exec _ _ _ = Ok _ |- _ =>
    destruct (HG a app Ha) as [HS HR]; apply (exec_net G) in He as (Hops & Hh & Hst); [|done|done];
    eapply net_ops_trans; [exact Hops|]; eapply app_net; [rewrite Hst; exact Ha | exact Hh] end.
Qed.

(** ** The obligations of the scheduler's theorems *)

Lemma sys_ops_dom T (s s' : Sys) : sys_ops T s s' -> dom (registeredModule s') = dom (registeredModule s).
Proof.
  induction 1 as [|s1 s2 s3 Hop _ IH]; [done|]. rewrite IH.
  destruct Hop as [from to m after s s' u Hd Hsend|u s|r st s s' Hadd|r s|m s Hm|e s]; try done.
  - by apply sendMessage_inv in Hsend as (_&_&_&_&_&_&_&_&->).
  - unfold cancelMessage. by destruct (bool_decide _).
  - unfold addRunnable in Hadd. res_inv. destruct (bool_decide (r ∈ _)); res_inv; done.
Qed.

Lemma store_ops T id m (s s' : Sys) :
  sys_ops T s s' -> is_Some (registeredModule s !! id) -> sys_ops T s (store id m s').
Proof.
  intros Hops Hid. eapply sys_ops_trans; [exact Hops|]. apply rtc_once, op_modules.
  apply sys_ops_dom in Hops. apply elem_of_dom in Hid. rewrite dom_insert_L. set_solver.
Qed.

Definition anything (from to : Z) (m : Message) : Prop := True.

Lemma finished_destroy from to m r (s s' : Sys) : finished from to m r s = Ok s' -> s' = destroy_message m s.
Proof.
  unfold finished, Wire.messageFinished, Link.messageFinished, Host.messageFinished. intros H.
  destruct (deref from s) as [[]|]; [..|done]; cbn [mbind Res_bind] in H; 
    destruct (assert_empty _); cbn in H; by simplify_eq.
Qed.

Lemma cancelled_destroy from to m (s s' : Sys) : cancelled from to m s = Ok s' -> s' = destroy_message m s.
Proof.
  unfold cancelled, Wire.messageCancelled, Link.messageCancelled, Host.messageCancelled. intros H.
  destruct (deref from s) as [[]|]; [..|done]; cbn [mbind Res_bind] in H; by simplify_eq.
Qed.

#[global] Instance NetMod_ok : ModuleClassOk NetMod_class T64.
Proof.
  constructor; cbn.
  - unfold received. intros to from m s s' r H. res_inv. apply deref_ok in E as Hto.
    destruct a; res_inv; (apply store_ops; [|by eexists]).
    + apply (net_ops_sys anything). by eapply (wire_net anything).
    + apply (net_ops_sys anything). eapply (link_net (L := Link.Hub) anything); [done| |done|eassumption].
      intros p o1 s2 Hp. exact (hub_net anything _ _ _ _ _ _ _ (fun _ _ => I) Hp).
    + apply (net_ops_sys anything). eapply (link_net (L := Link.Switch) anything); [done| |done|eassumption].
      intros p o1 s2 Hp. exact (switch_net anything _ _ _ _ _ _ _ (fun _ _ => I) Hp).
    + by eapply Host.messageReceived_ops.
  - intros from to m r s s' ->%finished_destroy. apply destroy_message_ops.
  - intros from to m s s' ->%cancelled_destroy. apply destroy_message_ops.
  - intros r s s' st H. by apply Host.wake_spec in H as (? & ? & ?).
  - intros r s s' st H. by apply Host.wake_spec in H as (? & ? & ?).
  - intros r s s' st H. by apply Host.wake_spec in H as (? & ? & ?).
Qed.

(** ** The invariant of a network *)

Definition is_wire (M : gmap Z NetMod) (w : Z) : Prop := exists x, M !! w = Some (NWire x).

(** A [NetworkModule]: a device with ports. *)
Definition is_device (M : gmap Z NetMod) (id : Z) : Prop :=
  exists o, M !! id = Some o /\ match o with NWire _ => False | _ => True end.

(** The messages a module handles: wires take packets from devices, devices
    take packets from wires, links check the queues of wires, and hosts take
    their own messages for modules that are installed. *)
Definition understands (M : gmap Z NetMod) (o : NetMod) (m : Message) : Prop :=
  match o, m with
  | NWire _, WireMessage PACKET_TO_PORT _ => True
  | (NHub _ | NSwitch _ | NHost _), WireMessage PACKET_FROM_PORT _ => True
  | (NHub _ | NSwitch _), CheckQueue w => is_wire M w
  | NHost h, PacketPass _ (Some to) _ => is_Some (Host.hostModuleMap h !! to)
  | NHost h, Timer from _ => is_Some (Host.timerModuleMap h !! from)
  | NHost _, (Syscall _ _ | Return _ _) => True
  | _, _ => False
  end.

Definition addressed (M : gmap Z NetMod) (from to : Z) (m : Message) : Prop :=
  is_Some (M !! from) /\ exists o, M !! to = Some o /\ understands M o m.

(** A port names a wire with this device at one end. *)
Definition port_ok (M : gmap Z NetMod) (id w : Z) : Prop :=
  exists x, M !! w = Some (NWire x) /\ (fst (Wire.connected x) = id \/ snd (Wire.connected x) = id).

Record net_inv (s : Sys) : Prop := {
  ni_ports id o w : registeredModule s !! id = Some o -> w ∈ ports_of o -> port_ok (registeredModule s) id w;
  ni_wires id x : registeredModule s !! id = Some (NWire x) ->
    is_device (registeredModule s) (fst (Wire.connected x)) /\
    is_device (registeredModule s) (snd (Wire.connected x));
  ni_hosts id h : registeredModule s !! id = Some (NHost h) -> host_ok h;
  ni_apps a app : applications (statics s) !! a = Some app ->
    exists h, registeredModule s !! app_host app = Some (NHost h);
  ni_queue : all_sent (addressed (registeredModule s)) s;
}.

(** What no operation changes of a module: its class and the ends of a wire;
    the modules installed in a host stay installed. *)
Definition alike (o o' : NetMod) : Prop :=
  match o, o' with
  | NWire w, NWire w' => Wire.connected w' = Wire.connected w
  | NHub _, NHub _ | NSwitch _, NSwitch _ => True
  | NHost h, NHost h' =>
      Host.hostModuleMap h ⊆ Host.hostModuleMap h' /\ Host.timerModuleMap h ⊆ Host.timerModuleMap h'
  | _, _ => False
  end.

(** Modules may be added, and the old ones stay alike. *)
Definition extends (M M' : gmap Z NetMod) : Prop :=
  forall id o, M !! id = Some o -> exists o', M' !! id = Some o' /\ alike o o'.

(** Handling a message changes neither the ports nor the installed modules,
    and registers no module. *)
Definition installed (o : NetMod) : gmap string Z * gmap string Z :=
  match o with NHost h => (Host.hostModuleMap h, Host.timerModuleMap h) | _ => (∅, ∅) end.

Definition like_mod (o o' : NetMod) : Prop :=
  alike o o' /\ ports_of o' = ports_of o /\ installed o' = installed o.

Definition mods_like (M M' : gmap Z NetMod) : Prop :=
  extends M M' /\ forall id o', M' !! id = Some o' -> exists o, M !! id = Some o /\ like_mod o o'.

Lemma alike_refl o : alike o o.
Proof. by destruct o. Qed.

Lemma alike_trans o1 o2 o3 : alike o1 o2 -> alike o2 o3 -> alike o1 o3.
Proof.
  destruct o1, o2; cbn; try done; destruct o3; cbn; try done; try congruence.
  intros (?&?) (?&?). split; by etrans.
Qed.

Lemma mods_like_refl M : mods_like M M.
Proof. split; intros id o Ho; exists o; unfold like_mod; auto using alike_refl. Qed.

Lemma mods_like_trans M1 M2 M3 : mods_like M1 M2 -> mods_like M2 M3 -> mods_like M1 M3.
Proof.
  intros [H1 H2] [H3 H4]. split.
  - intros id o1 Ho1. destruct (H1 id o1 Ho1) as (o2 & Ho2 & A2). destruct (H3 id o2 Ho2) as (o3 & Ho3 & A3).
    exists o3. split; [done | by eapply alike_trans].
  - intros id o3 Ho3. destruct (H4 id o3 Ho3) as (o2 & Ho2 & A3 & P3 & I3). destruct (H2 id o2 Ho2) as (o1 & Ho1 & A2 & P2 & I2).
    exists o1. split; [done|]. split; [by eapply alike_trans | split; congruence].
Qed.

Lemma extends_insert M id o o' : M !! id = Some o -> alike o o' -> extends M (<[id := o']> M).
Proof.
  intros Hid Hl x ox Hx. destruct (decide (x = id)) as [->|Hne].
  - rewrite lookup_insert_eq. exists o'. split; [done|]. by simplify_eq.
  - rewrite lookup_insert_ne by done. exists ox. split; [done | apply alike_refl].
Qed.

Lemma mods_like_insert M id o o' : M !! id = Some o -> like_mod o o' -> mods_like M (<[id := o']> M).
Proof.
  intros Hid (Ha & Hp & Hin). split; [by eapply extends_insert|]. intros x ox Hx.
  apply lookup_insert_Some in Hx as [[<- <-]|[_ Hx]]; [by exists o|]. exists ox. split; [done|].
  split; [apply alike_refl | done].
Qed.

Lemma extends_wire M M' w : extends M M' -> is_wire M w -> is_wire M' w.
Proof. intros H [x Hx]. destruct (H w _ Hx) as ([] & Hx' & Hl); try done. by eexists. Qed.

Lemma alike_understands M M' o o' m : extends M M' -> alike o o' -> understands M o m -> understands M' o' m.
Proof.
  intros HM Ho. destruct o, o'; cbn in Ho; try done; destruct m as [|[]| | | |? []|]; cbn; try done;
    try (apply extends_wire, HM).
  - intros [oid Hoid]. exists oid. by eapply lookup_weaken; [|apply Ho].
  - intros [oid Hoid]. exists oid. by eapply lookup_weaken; [|apply Ho].
Qed.

Lemma extends_addressed M M' from to m : extends M M' -> addressed M from to m -> addressed M' from to m.
Proof.
  intros HM ([o1 H1] & o2 & H2 & Hu). destruct (HM _ _ H1) as (o1' & H1' & _).
  destruct (HM _ _ H2) as (o2' & H2' & Hl).
  split; [by eexists|]. exists o2'. split; [done | by eapply alike_understands].
Qed.

Lemma extends_device M M' id : extends M M' -> is_device M id -> is_device M' id.
Proof.
  intros HM (o & Ho & Hd). destruct (HM _ _ Ho) as (o' & Ho' & Hl).
  exists o'. split; [done|]. by destruct o, o'.
Qed.

Lemma extends_port_ok M M' id w : extends M M' -> port_ok M id w -> port_ok M' id w.
Proof.
  intros HM (x & Hx & Hc). destruct (HM _ _ Hx) as ([x'| | |] & Hx' & Hl); try done.
  exists x'. split; [done|]. cbn in Hl. by rewrite Hl.
Qed.

(** Operations of the modules, then a change of the registered modules. *)
Lemma net_inv_extend (s s1 : Sys) M :
  net_inv s -> net_ops (addressed (registeredModule s)) s s1 -> extends (registeredModule s) M ->
  (forall id o w, M !! id = Some o -> w ∈ ports_of o -> port_ok M id w) ->
  (forall id x, M !! id = Some (NWire x) ->
     is_device M (fst (Wire.connected x)) /\ is_device M (snd (Wire.connected x))) ->
  (forall id h, M !! id = Some (NHost h) -> host_ok h) -> net_inv (set_modules M s1).
Proof.
  intros Hi Hops HM Hp Hw Hh. apply net_ops_keeps in Hops as (Em & Hst & Hq).
  constructor; cbn [registeredModule set_modules statics]; [done..| |].
  - intros a app Ha. destruct (Hst a app Ha) as (app0 & Ha0 & ->). destruct (ni_apps s Hi a app0 Ha0) as [h Hh0].
    destruct (HM _ _ Hh0) as ([| | |h'] & Hh' & Hl); try done. by exists h'.
  - unfold all_sent. cbn. eapply Forall_impl; [apply Hq, (ni_queue s Hi)|]. intros c Hc. by eapply extends_addressed.
Qed.

Lemma net_inv_step (s s1 : Sys) M :
  net_inv s -> net_ops (addressed (registeredModule s)) s s1 -> mods_like (registeredModule s) M ->
  (forall id h, M !! id = Some (NHost h) -> host_ok h) -> net_inv (set_modules M s1).
Proof.
  intros Hi Hops [HM HB] Hh. apply (net_inv_extend s); [done|done|done| | |done].
  - intros id o' w Ho' Hw. destruct (HB id o' Ho') as (o & Ho & _ & Hl & _).
    rewrite Hl in Hw. eapply extends_port_ok; [exact HM | by eapply (ni_ports s Hi)].
  - intros id x' Hx'. destruct (HB id _ Hx') as ([x| | |] & Hx & Hl & _); try done.
    cbn in Hl. rewrite Hl. destruct (ni_wires s Hi id x Hx). split; by eapply extends_device.
Qed.

Lemma set_modules_same (s : Sys) : set_modules (registeredModule s) s = s.
Proof. by destruct s. Qed.

Lemma net_inv_ops (s s1 : Sys) :
  net_inv s -> net_ops (addressed (registeredModule s)) s s1 ->
  net_inv s1 /\ registeredModule s1 = registeredModule s.
Proof.
  intros Hi Hops. pose proof (net_ops_keeps _ _ _ Hops) as (Em & _). split; [|done].
  rewrite <- (set_modules_same s1), Em. apply net_inv_step with s; [done|done|apply mods_like_refl|].
  apply (ni_hosts s Hi).
Qed.

Lemma net_inv_ext (s s' : Sys) :
  registeredModule s' = registeredModule s -> statics s' = statics s ->
  (forall c, c ∈ timerQueue s' -> c ∈ timerQueue s) -> net_inv s -> net_inv s'.
Proof.
  intros E1 E2 Hq [N1 N2 N3 N4 N5]. constructor; rewrite ?E1, ?E2; eauto.
  unfold all_sent in *. rewrite Forall_forall in *. auto.
Qed.

Lemma store_inv id o o' (s s1 : Sys) :
  net_inv s -> net_ops (addressed (registeredModule s)) s s1 -> registeredModule s !! id = Some o ->
  like_mod o o' -> (forall h, o' = NHost h -> host_ok h) ->
  net_inv (store id o' s1) /\ mods_like (registeredModule s) (registeredModule (store id o' s1)).
Proof.
  intros Hi Hops Ho Hl Hh. pose proof (net_ops_keeps _ _ _ Hops) as (Em & _).
  unfold store. cbn. rewrite Em. assert (mods_like (registeredModule s) (<[id:=o']> (registeredModule s))) as HM
    by by eapply mods_like_insert.
  split; [|done]. apply net_inv_step with s; [done|done|done|]. intros x h Hx.
  apply lookup_insert_Some in Hx as [[_ ->]|[_ Hx]]; [by apply Hh | by eapply (ni_hosts s Hi)].
Qed.

Lemma device_addressed M from to p :
  is_Some (M !! from) -> is_device M to -> addressed M from to (WireMessage PACKET_FROM_PORT p).
Proof. intros Hf (o & Ho & Hd). split; [done|]. exists o. split; [done|]. by destruct o. Qed.

Lemma wire_addressed M from w p : is_Some (M !! from) -> is_wire M w -> addressed M from w (WireMessage PACKET_TO_PORT p).
Proof. intros Hf [x Hx]. split; [done|]. by exists (NWire x). Qed.

Lemma port_wire (s : Sys) id o w :
  net_inv s -> registeredModule s !! id = Some o -> w ∈ ports_of o -> is_wire (registeredModule s) w.
Proof. intros Hi Ho Hw. destruct (ni_ports s Hi id o w Ho Hw) as (x & Hx & _). by exists x. Qed.

(** The handler of a hub or a switch in a network. *)
Lemma link_checks (s : Sys) id from o m w :
  match o with NHub _ | NSwitch _ => True | _ => False end ->
  registeredModule s !! id = Some o -> addressed (registeredModule s) from id m -> m = CheckQueue w ->
  addressed (registeredModule s) id id (CheckQueue w) /\
  forall p, addressed (registeredModule s) id w (WireMessage PACKET_TO_PORT p).
Proof.
  intros Hk Ho (_ & o1 & Ho1 & Hu) ->. rewrite Ho in Ho1. injection Ho1 as <-.
  split; [split; [by eexists | by exists o]|]. intros p. apply wire_addressed; [by eexists|].
  by destruct o.
Qed.

Lemma check_addressed (s : Sys) id o w :
  match o with NHub _ | NSwitch _ => True | _ => False end ->
  net_inv s -> registeredModule s !! id = Some o -> w ∈ ports_of o ->
  addressed (registeredModule s) id id (CheckQueue w).
Proof.
  intros Hk Hi Ho Hw. split; [by eexists|]. exists o. split; [done|].
  pose proof (port_wire s id o w Hi Ho Hw). by destruct o.
Qed.

Lemma host_sends_net (s : Sys) id h :
  net_inv s -> registeredModule s !! id = Some (NHost h) -> host_sends (addressed (registeredModule s)) id h.
Proof.
  intros Hi Ho. assert (is_Some (registeredModule s !! id)) as Hid by by eexists. constructor.
  - intros w p Hw. apply wire_addressed; [done|]. by apply (port_wire s id (NHost h)).
  - intros f to p Hto. split; [done|]. by exists (NHost h).
  - intros n a Hn. split; [done|]. by exists (NHost h).
Qed.

Lemma received_inv to from m (s s' : Sys) r :
  net_inv s -> addressed (registeredModule s) from to m -> received to from m s = Ok (s', r) ->
  r = None /\ net_inv s' /\ mods_like (registeredModule s) (registeredModule s').
Proof.
  unfold received. intros Hi Had H. destruct (deref to s) as [o|] eqn:Ed; [|discriminate].
  apply deref_ok in Ed as Ho. cbn [mbind Res_bind] in H. assert (is_Some (registeredModule s !! to)) as Hto by by eexists.
  destruct o as [w|h|w|h].
  - destruct (Wire.messageReceived _ _ _ _ _) as [[w' s1]|] eqn:E; [|discriminate]. injection H as <- <-.
    apply (wire_net (addressed (registeredModule s))) in E as [Hops Hc].
    + split; [done|]. by apply (store_inv to (NWire w)).
    + destruct (ni_wires s Hi to w Ho). intros [] p; by apply device_addressed.
  - destruct (Link.messageReceived _ _ _ _ _) as [[h' s1]|] eqn:E; [|discriminate]. injection H as <- <-.
    apply (link_net (addressed (registeredModule s))) in E as [Hops Hc]; [|done| |].
    + split; [done|]. by apply (store_inv to (NHub h)).
    + intros p o1 s2 Hp. eapply hub_net; [|exact Hp]. intros x Hx. by eapply (check_addressed s to (NHub h)).
    + intros x Hx. by eapply (link_checks s to from (NHub h)).
  - destruct (Link.messageReceived _ _ _ _ _) as [[w' s1]|] eqn:E; [|discriminate]. injection H as <- <-.
    apply (link_net (addressed (registeredModule s))) in E as [Hops Hc]; [|done| |].
    + split; [done|]. by apply (store_inv to (NSwitch w)).
    + intros p o1 s2 Hp. eapply switch_net; [|exact Hp]. intros x Hx. by eapply (check_addressed s to (NSwitch w)).
    + intros x Hx. by eapply (link_checks s to from (NSwitch w)).
  - destruct (Host.messageReceived _ _ _ _ _) as [[h' s1]|] eqn:E; [|discriminate]. injection H as <- <-.
    apply (host_net (addressed (registeredModule s))) in E as [Hops (E1 & E2 & E3 & E4)];
      [|by apply host_sends_net|by eapply (ni_hosts s Hi)].
    split; [done|]. apply (store_inv to (NHost h)); [done|done|done| |by intros h1 [= <-]].
    split; [cbn; by rewrite E2, E3 | split; cbn; congruence].
Qed.

Lemma process_inv c (s s' : Sys) :
  net_inv s -> addressed (registeredModule s) (tc_from c) (tc_to c) (message c) -> process c s = Ok s' ->
  net_inv s' /\ mods_like (registeredModule s) (registeredModule s').
Proof.
  intros Hi Had H. unfold process in H. cbn [messageReceived messageFinished messageCancelled NetMod_class] in H.
  set (s0 := set_time (wakeup c) s) in *.
  assert (net_inv s0) as Hi0 by by apply (net_inv_ext s).
  assert (forall m (s1 : Sys), net_inv s1 -> net_inv (destroy_message m s1) /\
            registeredModule (destroy_message m s1) = registeredModule s1) as Hd
    by (intros m s1 H1; apply net_inv_ops; [done | apply destroy_message_net]).
  assert (exists s1, s' = set_active (activeTimer s1 ∖ {[uuid c]}) (activeUUID s1 ∖ {[uuid c]}) (currentUUID s1) s1 /\
            net_inv s1 /\ mods_like (registeredModule s0) (registeredModule s1)) as (s1 & -> & H1 & H2);
    [|split; [by apply (net_inv_ext s1) | done]].
  destruct (negb (canceled c)).
  - destruct (deref (tc_to c) s0); [|discriminate]. cbn [mbind Res_bind] in H.
    destruct (received _ _ _ _) as [[s2 r]|] eqn:E; [|discriminate].
    apply received_inv in E as (-> & H2 & H3); [|done|done]. cbn [mbind Res_bind] in H.
    destruct (deref _ s2); [|discriminate]. cbn [mbind Res_bind] in H.
    destruct (finished _ _ _ _ _) as [s3|] eqn:Ef; [|discriminate]. apply finished_destroy in Ef as ->.
    cbn [mbind Res_bind] in H. injection H as <-. eexists. split; [reflexivity|].
    destruct (Hd (message c) s2 H2) as [H4 E4]. by rewrite E4.
  - destruct (deref (tc_from c) s0); [|discriminate]. cbn [mbind Res_bind] in H.
    destruct (cancelled _ _ _ _) as [s3|] eqn:Ef; [|discriminate]. apply cancelled_destroy in Ef as ->.
    cbn [mbind Res_bind] in H. injection H as <-. eexists. split; [reflexivity|].
    destruct (Hd (message c) s0 Hi0) as [H4 E4]. rewrite E4. split; [done | apply mods_like_refl].
Qed.

Lemma wake_one_inv r (s s' : Sys) :
  net_inv s -> wake_one r s = Ok s' -> net_inv s' /\ registeredModule s' = registeredModule s.
Proof.
  intros Hi H. unfold wake_one in H. cbn [wake NetMod_class] in H.
  destruct (Host.wake r s) as [[s1 st]|] eqn:E; [|discriminate]. cbn [mbind Res_bind] in H.
  apply (wake_net (addressed (registeredModule s))) in E.
  - destruct (net_inv_ops s s1 Hi E) as [H1 E1].
    destruct (bool_decide _); injection H as <-; [|done]. split; [by apply (net_inv_ext s1) | done].
  - intros b app Ha. destruct (ni_apps s Hi b app Ha) as [h Hh].
    split; intros; (split; [by eexists | by exists (NHost h)]).
Qed.

Lemma wake_loop_inv fuel (s s' : Sys) :
  net_inv s -> wake_loop fuel s = Ok s' -> net_inv s' /\ registeredModule s' = registeredModule s.
Proof.
  revert s. induction fuel as [|fuel IH]; intros s Hi H; cbn in H; destruct (runnableReady s) eqn:Er; try discriminate;
    try (by injection H as <-).
  destruct (wake_pass s) as [s1|] eqn:E; [|discriminate]. cbn [mbind Res_bind] in H.
  apply (foldM_inv (fun x => net_inv x /\ registeredModule x = registeredModule s)) in E as [H1 E1]; [| |done].
  - destruct (IH s1 H1 H) as [H2 E2]. split; [done | congruence].
  - intros b x y _ [H1 E1] Hw. apply wake_one_inv in Hw as [H2 E2]; [|done]. split; [done | congruence].
Qed.

Lemma run_inv fuel till (s s' : Sys) log :
  net_inv s -> run fuel till s = Ok (s', log) ->
  net_inv s' /\ mods_like (registeredModule s) (registeredModule s') /\
  Forall (fun c => addressed (registeredModule s') (tc_from c) (tc_to c) (message c)) log.
Proof.
  revert s log. induction fuel as [|fuel IH]; intros s log Hi H; [discriminate|]. cbn [run] in H.
  destruct (wake_loop fuel s) as [s1|] eqn:E; [|discriminate]. apply wake_loop_inv in E as [H1 E1]; [|done].
  cbn [mbind Res_bind] in H. destruct (timerQueue s1) as [|c rest] eqn:Eq.
  { injection H as <- <-. split; [done|]. rewrite E1. split; [apply mods_like_refl | constructor]. }
  destruct (_ && _)%bool.
  { injection H as <- <-. split; [done|]. rewrite E1. split; [apply mods_like_refl | constructor]. }
  pose proof (ni_queue s1 H1) as Hq. unfold all_sent in Hq. rewrite Eq in Hq. apply Forall_cons in Hq as [Hc _].
  destruct (process c (set_queue rest s1)) as [s2|] eqn:Ep; [|discriminate]. cbn [mbind Res_bind] in H.
  apply process_inv in Ep as [H2 HM]; [| |done].
  - destruct (run fuel till s2) as [[s3 log']|] eqn:Er; [|discriminate]. cbn [mbind Res_bind] in H.
    injection H as <- <-. destruct (IH s2 log' H2 Er) as (H3 & HM3 & Hlog). split; [done|].
    cbn in HM. rewrite E1 in *. split; [by eapply mods_like_trans|]. constructor; [|done].
    eapply extends_addressed; [|exact Hc]. exact (proj1 (mods_like_trans _ _ _ HM HM3)).
  - apply (net_inv_ext s1); [done|done| |exact H1]. cbn. intros x Hx. rewrite Eq. by right.
Qed.

(** ** Connecting devices *)

(** Adding a port for a wire that ends at this device. *)
Lemma connectWire_spec w o :
  match o with NWire _ => False | _ => True end ->
  exists o', connectWire w o = Ok (o', Z.of_nat (length (ports_of o))) /\ alike o o' /\
    ports_of o' = ports_of o ++ [w] /\
    (forall h', o' = NHost h' -> exists h, o = NHost h /\ (host_ok h -> host_ok h')).
Proof.
  destruct o as [x|h|x|h]; intros Hd; [done|..]; cbn; (eexists; split; [reflexivity|]);
    (split; [done|]); (split; [done|]); intros h' E; try discriminate.
  injection E as <-. exists h. split; [done|]. intros [K1 K2 K3 K4]. constructor; done.
Qed.

Lemma connect_inv id w (s : Sys) :
  net_inv s -> is_device (registeredModule s) id -> port_ok (registeredModule s) id w ->
  exists o o', registeredModule s !! id = Some o /\ ports_of o' = ports_of o ++ [w] /\
    connect id w s = Ok (store id o' s, Z.of_nat (length (ports_of o))) /\ net_inv (store id o' s) /\
    extends (registeredModule s) (registeredModule (store id o' s)).
Proof.
  intros Hi (o & Ho & Hd) Hw. destruct (connectWire_spec w o Hd) as (o' & E & Ha & Hp & Hh).
  exists o, o'. split; [done|]. split; [done|]. split.
  { unfold connect, deref. rewrite Ho. cbn [of_option mbind Res_bind]. by rewrite E. }
  assert (extends (registeredModule s) (<[id := o']> (registeredModule s))) as HM by by eapply extends_insert.
  split; [|exact HM]. apply (net_inv_extend s); [done|apply net_ops_refl|done|..].
  - intros x ox v Hx Hv. eapply extends_port_ok; [exact HM|].
    apply lookup_insert_Some in Hx as [[<- <-]|[_ Hx]]; [|by eapply (ni_ports s Hi)].
    rewrite Hp in Hv. apply elem_of_app in Hv as [Hv|Hv]; [by eapply (ni_ports s Hi)|].
    apply list_elem_of_singleton in Hv as ->. done.
  - intros x wx Hx. apply lookup_insert_Some in Hx as [[_ ->]|[_ Hx]]; [by destruct o|].
    destruct (ni_wires s Hi x wx Hx). split; by eapply extends_device.
  - intros x h' Hx. apply lookup_insert_Some in Hx as [[_ ->]|[_ Hx]]; [|by eapply (ni_hosts s Hi)].
    destruct (Hh h' eq_refl) as (h & -> & Hok). apply Hok. by eapply (ni_hosts s Hi).
Qed.

Lemma fresh_extends M id (m : NetMod) : M !! id = None -> extends M (<[id := m]> M).
Proof.
  intros Hn x o Hx. exists o. split; [|apply alike_refl]. rewrite lookup_insert_ne; [done|]. intros ->. congruence.
Qed.

Lemma addWire_module left right delay speed limit (s : Sys) :
  net_inv s -> is_device (registeredModule s) left -> is_device (registeredModule s) right ->
  registeredModule s !! nextModuleID s = None ->
  let x := Wire.Wire_new left right delay speed limit s in
  exists s1, addModule (NWire x) s = Ok (s1, nextModuleID s) /\ net_inv s1 /\
    registeredModule s1 = <[nextModuleID s := NWire x]> (registeredModule s).
Proof.
  intros Hi Hl Hr Hn x. unfold addModule, newModuleID. cbn [registeredModule set_nextModuleID].
  rewrite bool_decide_eq_true_2 by done. cbn [assert_that mbind Res_bind]. eexists. split; [reflexivity|].
  split; [|done]. set (M := <[_ := _]> _). pose proof (fresh_extends _ _ (NWire x) Hn) as HM. fold M in HM.
  apply (net_inv_ext (set_modules M s)); [done|done|done|].
  apply (net_inv_extend s); [done|apply net_ops_refl|exact HM|..]; unfold M; intros id o.
  - intros w Ho Hw. apply lookup_insert_Some in Ho as [[_ <-]|[_ Ho]]; [by apply not_elem_of_nil in Hw|].
    eapply extends_port_ok; [exact HM|]. by eapply (ni_ports s Hi).
  - intros Ho. apply lookup_insert_Some in Ho as [[_ [= <-]]|[_ Ho]].
    + split; by eapply extends_device.
    + destruct (ni_wires s Hi id o Ho). split; by eapply extends_device.
  - intros Ho. apply lookup_insert_Some in Ho as [[_ [=]]|[_ Ho]]. by eapply (ni_hosts s Hi).
Qed.

Lemma extends_trans M1 M2 M3 : extends M1 M2 -> extends M2 M3 -> extends M1 M3.
Proof.
  intros H1 H2 id o1 Ho1. destruct (H1 id o1 Ho1) as (o2 & Ho2 & A2). destruct (H2 id o2 Ho2) as (o3 & Ho3 & A3).
  exists o3. split; [done | by eapply alike_trans].
Qed.

(** The registered modules after [addWire]: [ol] and [om] are the two devices
    when their port is added. *)
Lemma addWire_run left right delay speed limit (s : Sys) :
  net_inv s -> is_device (registeredModule s) left -> is_device (registeredModule s) right ->
  registeredModule s !! nextModuleID s = None ->
  let n := nextModuleID s in let x := Wire.Wire_new left right delay speed limit s in
  exists s' ol ol' om om',
    addWire left right delay speed limit s =
      Ok (s', (n, (Z.of_nat (length (ports_of ol)), Z.of_nat (length (ports_of om))))) /\
    net_inv s' /\ extends (registeredModule s) (registeredModule s') /\
    registeredModule s !! left = Some ol /\ ports_of ol' = ports_of ol ++ [n] /\
    <[left := ol']> (registeredModule s) !! right = Some om /\ ports_of om' = ports_of om ++ [n] /\
    registeredModule s' = <[right := om']> (<[left := ol']> (<[n := NWire x]> (registeredModule s))) /\
    left <> n /\ right <> n.
Proof.
  intros Hi Hl Hr Hn n x.
  destruct (addWire_module left right delay speed limit s Hi Hl Hr Hn) as (s1 & E1 & Hi1 & Em1). fold n x in E1, Em1.
  pose proof (fresh_extends _ _ (NWire x) Hn) as HM1. fold n in HM1. rewrite <- Em1 in HM1.
  assert (registeredModule s1 !! n = Some (NWire x)) as Hx by (rewrite Em1; apply lookup_insert_eq).
  assert (left <> n /\ right <> n) as [Hln Hrn].
  { destruct Hl as (? & Hl & _), Hr as (? & Hr & _). unfold n. split; intros E; rewrite E in *; congruence. }
  destruct (connect_inv left n s1) as (ol & ol' & Hol & Pl & E2 & Hi2 & HM2); [done|by eapply extends_device| |].
  { exists x. split; [done|]. by left. }
  destruct (connect_inv right n (store left ol' s1)) as (om & om' & Hor & Pr & E3 & Hi3 & HM3);
    [done|by eapply extends_device, extends_device| |].
  { eapply extends_port_ok; [exact HM2|]. exists x. split; [done|]. by right. }
  exists (store right om' (store left ol' s1)), ol, ol', om, om'.
  split; [unfold addWire; fold x; rewrite E1; cbn [mbind Res_bind]; rewrite E2; cbn [mbind Res_bind]; by rewrite E3|].
  split; [done|]. split; [by eapply extends_trans, extends_trans|].
  split; [by rewrite Em1, lookup_insert_ne in Hol|]. split; [done|].
  split; [|split; [done|split; [cbn; by rewrite Em1 | done]]].
  cbn in Hor. rewrite Em1 in Hor. rewrite insert_insert_ne, lookup_insert_ne in Hor by done. done.
Qed.

(** ** Properties *)

(** C2: a network keeps its shape and its messages make sense: if ports and
    wires agree, applications belong to hosts, and every queued message comes
    from a registered module and is addressed to a registered module that
    understands it, then all of this holds after any run that returns, no
    module was added, removed or rewired, and every message that was delivered
    had such a destination.  Together with the scheduler's accounting: the
    messages delivered and the messages left are those queued before and those
    sent during the run. *)
Theorem network_run_safe fuel till (s s' : Sys) log :
  net_inv s -> queue_inv ∅ s -> run fuel till s = Ok (s', log) ->
  net_inv s' /\ queue_inv ∅ s' /\ mods_like (registeredModule s) (registeredModule s') /\
  Forall (fun c => addressed (registeredModule s') (tc_from c) (tc_to c) (message c)) log /\
  (timerQueue s' = [] \/ exists c q, timerQueue s' = c :: q /\ till <> 0 /\ till < wakeup c) /\
  exists n, uuids log ++ uuids (timerQueue s') ≡ₚ uuids (timerQueue s) ++ ids (currentUUID s) n.
Proof.
  intros Hi Hq H. destruct (run_inv _ _ _ _ _ Hi H) as (H1 & H2 & H3).
  destruct (run_queue _ _ _ _ _ Hq H) as (H4 & _ & H5 & n & H6 & _).
  do 5 (split; [done|]). by exists n.
Qed.

(** [addWire] connects two devices: it registers one wire under a fresh
    identifier with the given speed, delay and ends, appends one port to each
    device that leads to the wire (port numbers are the previous port counts;
    a device wired to itself gets two ports), changes no other module, and
    keeps the invariant of the network. *)
Theorem addWire_connects left right delay speed limit (s : Sys) :
  net_inv s -> is_device (registeredModule s) left -> is_device (registeredModule s) right ->
  registeredModule s !! nextModuleID s = None ->
  exists s' lp rp ol ol' om om' x, addWire left right delay speed limit s = Ok (s', (nextModuleID s, (lp, rp))) /\
    net_inv s' /\ extends (registeredModule s) (registeredModule s') /\
    registeredModule s' !! nextModuleID s = Some (NWire x) /\
    Wire.connected x = (left, right) /\ Wire.propagationDelay x = delay /\ Wire.limit_speed x = limit /\
    getWireSpeed (nextModuleID s) s' = Ok speed /\
    registeredModule s !! left = Some ol /\ registeredModule s !! right = Some om /\
    registeredModule s' !! left = Some ol' /\ registeredModule s' !! right = Some om' /\
    lp = Z.of_nat (length (ports_of ol)) /\ ports_of ol' !! Z.to_nat lp = Some (nextModuleID s) /\
    rp = Z.of_nat (length (ports_of om)) + (if bool_decide (left = right) then 1 else 0) /\
    ports_of om' !! Z.to_nat rp = Some (nextModuleID s) /\
    forall id, id <> left -> id <> right -> id <> nextModuleID s ->
      registeredModule s' !! id = registeredModule s !! id.
Proof.
  intros Hi Hl Hr Hn. set (n := nextModuleID s). set (x := Wire.Wire_new left right delay speed limit s).
  destruct (addWire_run left right delay speed limit s Hi Hl Hr Hn)
    as (s' & ol & ol' & om & om' & E & Hi' & HM & Hol & Pl & Hom & Pm & Em & Hln & Hrn). fold n x in E, Em, Pl, Pm, Hln, Hrn.
  assert (registeredModule s' !! n = Some (NWire x)) as Hx by (rewrite Em, !lookup_insert_ne by done; apply lookup_insert_eq).
  assert (forall id, id <> left -> id <> right -> id <> n -> registeredModule s' !! id = registeredModule s !! id) as Hother
    by (intros id H1 H2 H3; by rewrite Em, !lookup_insert_ne).
  assert (registeredModule s' !! right = Some om') as Hom' by (rewrite Em; apply lookup_insert_eq).
  destruct (decide (left = right)) as [->|Hne].
  - rewrite lookup_insert_eq in Hom. injection Hom as <-.
    exists s', (Z.of_nat (length (ports_of ol))), (Z.of_nat (length (ports_of ol'))), ol, om', ol, om', x.
    split; [done|]. do 6 (split; [done|]). split; [unfold getWireSpeed, deref; by rewrite Hx|].
    do 5 (split; [done|]). rewrite !Nat2Z.id, Pm, Pl, bool_decide_eq_true_2 by done.
    split; [rewrite <- app_assoc; by apply list_lookup_middle|].
    split; [rewrite length_app; cbn; lia|]. split; [by apply list_lookup_middle | done].
  - rewrite lookup_insert_ne in Hom by done.
    exists s', (Z.of_nat (length (ports_of ol))), (Z.of_nat (length (ports_of om))), ol, ol', om, om', x.
    split; [done|]. do 6 (split; [done|]). split; [unfold getWireSpeed, deref; by rewrite Hx|].
    do 2 (split; [done|]). split; [by rewrite Em, lookup_insert_ne, lookup_insert_eq|].
    do 2 (split; [done|]). rewrite !Nat2Z.id, Pm, Pl, bool_decide_eq_false_2 by done.
    split; [by apply list_lookup_middle|]. split; [lia|]. split; [by apply list_lookup_middle | done].
Qed.

End Network.
End Network.
