(* ===== verification/Process.v ===== *)
(** * Process: whole runs of an application on a host

    Composes the scheduler (System), the host with its built-in system calls
    (Host) and the application threads: an application that sleeps and reads
    the time is launched on an idle network and [System::run] is called.
    [direct] is what the author of such an application has in mind: a sleep
    adds to the clock, [gettimeofday] stores it, everything else takes no
    time.  The theorem says that the run, with its messages, timers, system
    call identifiers and context switches, computes exactly that. *)

From S2P Require Import Prelude Packet TimeUtil RandomDistribution System.
From S2P Require Import RoutingInfo ModuleBase Wire HostApi Host TCPApplication Network.
Local Open Scope Z_scope.

Module Process.
Import System Network.

(** ** The reference semantics

    The result is the value [E_Main] returns, or [None] for an application
    that stays blocked (it asks for a socket that no module provides), the
    final clock and the memory. *)
Fixpoint direct (p : Program) (t : Z) (tv : gmap Z (Z * Z)) : Res (option Z * Z * gmap Z (Z * Z)) :=
  match p with
  | Finish v => Ok (Some v, t, tv)
  | DoGetTime k => direct (k t) t tv
  | DoLoadTimeval a k => x ← of_option OutOfBounds (tv !! a); direct (k x) t tv
  | DoSyscall param k =>
      match syscallNumber param with
      | NSLEEP => n ← get_uint64 (param0 param); direct (k 0) (t ⊞ n) tv
      | GETTIMEOFDAY =>
          a ← get_ptr (param0 param);
          tz ← get_ptr (param1 param);
          if negb (tz =? 0) then direct (k (- DefaultSyscall.EINVAL)) t tv
          else if a =? 0 then Err NullDeref
          else match tv !! a with
               | None => Err OutOfBounds
               | Some _ => let usec := t / 1000 in direct (k 0) t (<[a := (usec / 1000000, usec mod 1000000)]> tv)
               end
      | SOCKET =>
          domain ← get_int (param0 param);
          protocol ← get_int (param2 param);
          if bool_decide ((domain, protocol) = (0, 0)) then Err (AssertFailed "DefaultSystemCall::systemCallback")
          else Ok (None, t, tv)
      | _ => _ ← get_int (param0 param); Err (AssertFailed "Host::messageReceived(fd)")
      end
  end.

Section Process.
Context {RE : RandomEngine} {Obj : Type} {HMC : HostModuleClass Obj} {DL : Host.DefaultLaws}.
Context {US : UnorderedSet Z} {UM : UnorderedMap}.
Abbreviation Sys := (System (NetMod (Obj := Obj)) Message Z Env).
Abbreviation HostT := (Host.Host Obj).

(** [Host::addApplication], [Host::launchApplication] and [System::run]. *)
Definition run_application (fuel : nat) (id : Z) (main : Program) (s : Sys)
  : Res (Sys * list (TimerContainer Message)) :=
  m ← deref id s;
  match m with
  | NHost h =>
      '(h, s, pid) ← Host.addApplication id main h s;
      s ← Host.launchApplication pid h s;
      run fuel 0 (store id (NHost h) s)
  | _ => Err BadCast
  end.

(** ** Single steps of the scheduler *)

(** A message was sent. *)
Definition sent (id to : Z) (m : Message) (after : Z) (s : Sys) : Sys :=
  let u := currentUUID s ⊞ 1 in
  set_queue (pq_push (mkTimer id to false (currentTime s ⊞ after) m u) (timerQueue s))
    (set_active ({[u]} ∪ activeTimer s) ({[u]} ∪ activeUUID s) u s).

(** At most the last identifier is in use. *)
Definition one_id (s : Sys) : Prop := forall u, u ∈ activeUUID s -> u = currentUUID s.

Lemma succ_fresh c : c ⊞ 1 <> c.
Proof.
  intros E. assert (is_u 64 c) as Hc by (rewrite <- E; apply wrap_range; lia). unfold is_u, wrap in *.
  destruct (decide (c + 1 < 2 ^ 64)); [rewrite Z.mod_small in E by lia; lia|].
  replace (c + 1) with (2 ^ 64) in E by lia. rewrite Z.mod_same in E by lia. lia.
Qed.

Lemma sendMessage_sent id to m after s :
  one_id s -> module_sendMessage id to m after s = Ok (sent id to m after s, currentUUID s ⊞ 1).
Proof.
  intros H. unfold module_sendMessage, sendMessage, allocateUUID.
  rewrite bool_decide_eq_true_2; [done|]. intros Hin. apply H in Hin. by apply (succ_fresh (currentUUID s)).
Qed.

Lemma post_sent id to m after s : one_id s -> post id to m after s = Ok (sent id to m after s).
Proof. intros H. unfold post. by rewrite sendMessage_sent. Qed.

Lemma run_idle f s : runnableReady s = [] -> timerQueue s = [] -> run (S f) 0 s = Ok (s, []).
Proof. intros Hr Hq. cbn [run]. destruct f; cbn [wake_loop]; rewrite Hr; cbn [mbind Res_bind]; by rewrite Hq. Qed.

Lemma run_single f c s :
  runnableReady s = [] -> timerQueue s = [c] ->
  run (S f) 0 s = (s ← process c (set_queue [] s); '(s, log) ← run f 0 s; Ok (s, c :: log)).
Proof. intros Hr Hq. cbn [run]. destruct f; cbn [wake_loop]; rewrite Hr; cbn [mbind Res_bind]; by rewrite Hq. Qed.

(** The thread of the only ready application runs up to its next system call. *)
Definition continue (f : nat) (a : Z) (p : Program) (app : Application) (s : Sys) :=
  '(app, s) ← Host.exec p app s; run f 0 (delRunnable a (Host.set_app a app s)).

Lemma run_ready f a app s :
  runnableReady s = [a] -> applications (statics s) !! a = Some app -> app_state app = READY ->
  run (S (S f)) 0 s = continue (S (S f)) a (app_code app (syscallRet app)) app s.
Proof.
  intros Hr Ha Hst. unfold continue. change (run (S (S f)) 0 s) with
    (s ← wake_loop (S f) s; match timerQueue s with [] => Ok (s, []) | top :: rest =>
       if (negb (0 =? 0) && (0 <? wakeup top))%bool then Ok (s, [])
       else s ← process top (set_queue rest s); '(s, log) ← run (S f) 0 s; Ok (s, top :: log) end).
  cbn [wake_loop]. unfold wake_pass. rewrite Hr. cbn [foldM wake_one wake NetMod_class Host.wake]. unfold wake_one.
  cbn [wake NetMod_class]. unfold Host.wake, Host.get_app. rewrite Ha. cbn [of_option mbind Res_bind]. rewrite Hst.
  cbn [assert_that bool_decide mbind Res_bind]. rewrite bool_decide_eq_true_2 by done. cbn [assert_that mbind Res_bind].
  destruct (Host.exec _ app s) as [[app' s']|e] eqn:E; cbn [mbind Res_bind]; [|done].
  destruct (Host.exec_spec _ _ _ _ _ E) as (_ & Hr' & Hst'). rewrite bool_decide_eq_true_2 by (destruct Hst'; congruence).
  cbn [mbind Res_bind]. set (s2 := delRunnable a _).
  assert (runnableReady s2 = []) as Hr2.
  { unfold s2. cbn. rewrite Hr', Hr. rewrite filter_cons_False by (intros H; by apply H). done. }
  cbn [run]. replace (wake_loop (S f) s2) with (Ok s2) by (cbn [wake_loop]; by rewrite Hr2).
  destruct f; cbn [wake_loop]; by rewrite Hr2.
Qed.

(** A callback in sequence with another. *)
Lemma run_prog_bind {A B} id self (p : HProg A) (f : A -> HProg B) (h : HostT) (s : Sys) :
  Host.run_prog id self (p ≫= f) h s = ('(x, h, s) ← Host.run_prog id self p h s; Host.run_prog id self (f x) h s).
Proof.
  revert h s. induction p as [a|e|to q k IH|k IH|n k IH|k IH|u v k IH|pid k IH|pid fd k IH|pl t k IH|key k IH
    |k IH|r k IH|a x y k IH|n k IH|q k IH|q k IH]; intros h s; cbn [mbind HProg_bind hbind Host.run_prog]; try done.
  all: repeat first
    [ apply IH
    | match goal with |- mbind _ ?m = _ =>
        let z := fresh "z" in destruct m as [z|?]; cbn [Res_bind mbind]; [try destruct z as [? ?] | done] end ].
Qed.

(** Virtual calls of the built-in interface. *)
Lemma call_default id oid c pid param (h : HostT) (s : Sys) :
  Host.objects h !! oid = Some DefaultSystemCall ->
  Host.call_object id oid (fun o => systemCallback o c pid param) h s =
  ('(_, h, s) ← Host.run_prog id (Host.self_of DefaultSystemCall) (DefaultSyscall.systemCallback c pid param) h s;
   Ok (Host.set_object oid DefaultSystemCall h, s)).
Proof.
  intros H. unfold Host.call_object. rewrite H. cbn [of_option mbind Res_bind]. rewrite Host.default_system, run_prog_bind.
  by destruct (Host.run_prog _ _ (DefaultSyscall.systemCallback c pid param) h s) as [[[x h'] s']|e].
Qed.

Lemma call_default_timer id oid c (h : HostT) (s : Sys) :
  Host.objects h !! oid = Some DefaultSystemCall ->
  Host.call_object id oid (fun o => timerCallback o (any_uuid c)) h s =
  ('(_, h, s) ← Host.run_prog id (Host.self_of DefaultSystemCall) (HostApi.returnSystemCall c 0) h s;
   Ok (Host.set_object oid DefaultSystemCall h, s)).
Proof.
  intros H. unfold Host.call_object. rewrite H. cbn [of_option mbind Res_bind]. rewrite Host.default_timer, run_prog_bind.
  change (DefaultSyscall.timerCallback (any_uuid c)) with (HostApi.returnSystemCall c 0).
  by destruct (Host.run_prog _ _ (HostApi.returnSystemCall c 0) h s) as [[[x h'] s']|e].
Qed.

(** ** One process on one host *)
Section Sole.
Context (id a pid oid : Z) (Hpid : pid <> -1).

(** The host [h] with module id [id] has the built-in system calls only, and
    [pid] is a process of it without descriptors; no message is queued, and [U]
    are the identifiers in use. *)
Record sole (U : gset Z) (h : HostT) (s : Sys) : Prop := {
  so_host : registeredModule s !! id = Some (NHost h);
  so_running : Host.running h = true;
  so_default : Host.default_installed oid h;
  so_iface ns : ns <> (0, 0) -> Host.interfaceMap h !! ns = None;
  so_proc : Host.processInfoMap h !! pid = Some (Host.mkProc a ∅);
  so_time : is_u 64 (currentTime s);
  so_ids : activeUUID s = U;
  so_one : one_id s;
  so_queue : timerQueue s = [];
}.

(** The end of the main loop's body. *)
Definition retire (u : Z) (s : Sys) : Sys :=
  set_active (activeTimer s ∖ {[u]}) (activeUUID s ∖ {[u]}) (currentUUID s) s.

Definition carries_packet (m : Message) : bool :=
  match m with WireMessage _ _ | PacketPass _ _ _ => true | _ => false end.

Lemma deref_some i (s : Sys) m : registeredModule s !! i = Some m -> deref i s = Ok m.
Proof. unfold deref. by intros ->. Qed.

(** A message a host sent to itself. *)
Lemma process_self w m u h s :
  carries_packet m = false -> registeredModule s !! id = Some (NHost h) ->
  process (mkTimer id id false w m u) s =
  ('(h, s) ← Host.messageReceived id id m h (set_time w s); Ok (retire u (store id (NHost h) s))).
Proof.
  intros Hm Hh. unfold process. cbn [canceled negb tc_to tc_from message wakeup uuid].
  rewrite (deref_some id (set_time w s) _ Hh). cbn [mbind Res_bind messageReceived NetMod_class].
  unfold received. rewrite (deref_some id (set_time w s) _ Hh). cbn [mbind Res_bind].
  destruct (Host.messageReceived id id m h _) as [[h' s']|e]; cbn [mbind Res_bind]; [|done].
  assert (deref id (store id (NHost h') s') = Ok (NHost h')) as Hd by apply deref_some, lookup_insert_eq.
  rewrite Hd. cbn [mbind Res_bind messageFinished NetMod_class]. unfold finished. rewrite Hd.
  cbn [mbind Res_bind]. by destruct m.
Qed.

(** The state in which the host receives the message the application [app'] of
    the process has just sent. *)
Definition delivered (m : Message) (app' : Application) (s : Sys) : Sys :=
  set_time (currentTime s) (set_queue [] (delRunnable a (Host.set_app a app' (sent id id m 0 s)))).

Lemma run_delivered f m app' h s :
  sole ∅ h s -> runnableReady s = [a] -> carries_packet m = false ->
  run (S f) 0 (delRunnable a (Host.set_app a app' (sent id id m 0 s))) =
  ('(h, s1) ← Host.messageReceived id id m h (delivered m app' s);
   '(s2, log) ← run f 0 (retire (currentUUID s ⊞ 1) (store id (NHost h) s1));
   Ok (s2, mkTimer id id false (currentTime s) m (currentUUID s ⊞ 1) :: log)).
Proof.
  intros Hs Hr Hm. set (s1 := delRunnable a _).
  assert (runnableReady s1 = []) as Hr1.
  { cbn. rewrite Hr. rewrite filter_cons_False by (intros H; by apply H). done. }
  assert (currentTime s ⊞ 0 = currentTime s) as Et by (rewrite Z.add_0_r; apply wrap_small, (so_time _ _ _ Hs)).
  rewrite (run_single f (mkTimer id id false (currentTime s) m (currentUUID s ⊞ 1))); [|done|].
  2:{ cbn. rewrite (so_queue _ _ _ Hs), Et. done. }
  rewrite (process_self _ _ _ h); [|done|exact (so_host _ _ _ Hs)]. unfold delivered. fold s1.
  by destruct (Host.messageReceived id id m h _) as [[h' s']|e].
Qed.

Lemma delivered_sole m app' h s : sole ∅ h s -> sole {[currentUUID s ⊞ 1]} h (delivered m app' s).
Proof.
  intros [H1 H2 H3 H4 H5 H6 H7 H8 H9]. constructor; try done; cbn.
  - rewrite H7. set_solver.
  - intros u. cbn. rewrite H7. set_solver.
Qed.

(** *** System calls *)

Lemma receive_sole U param app' h s :
  sole U h s -> Host.syscallMap h = ∅ -> applications (statics s) !! a = Some app' -> app_pid app' = pid ->
  Host.receive_syscall id pid param h s =
  (ns ← Host.syscall_namespace param (Host.mkProc a ∅);
   match Host.interfaceMap h !! ns with
   | None => Ok (h, s)
   | Some o =>
       let c := Host.syscallIDStart h in
       Host.call_object id o (fun o => systemCallback o c pid param) (Host.set_syscalls (c ⊞ 1) {[c := pid]} h) s
   end).
Proof.
  intros Hs Hc Ha Hp. unfold Host.receive_syscall. replace (pid =? -1) with false by (symmetry; apply Z.eqb_neq; lia).
  cbn [negb assert_that mbind Res_bind]. rewrite (so_proc _ _ _ Hs). cbn [of_option mbind Res_bind].
  unfold Host.get_app. cbn [Host.application]. rewrite Ha. cbn [of_option mbind Res_bind].
  rewrite Hp, Z.eqb_refl. cbn [assert_that mbind Res_bind].
  destruct (Host.syscall_namespace param _) as [ns|e]; cbn [mbind Res_bind]; [|done].
  destruct (Host.interfaceMap h !! ns) as [o|]; [|done]. unfold Host.allocate_syscall. rewrite Hc.
  cbn [cyclic_search mbind Res_bind]. rewrite bool_decide_eq_true_2; [done|]. rewrite dom_empty. set_solver.
Qed.

(** The application with the answer of its call. *)
Definition resumed (v : Z) (k : Z -> Program) : Application := mkApp id pid v READY k.

Lemma answer_call c v app (h : HostT) (s : Sys) :
  Host.processInfoMap h !! pid = Some (Host.mkProc a ∅) -> Host.syscallMap h !! c = Some pid -> runnableReady s = [] ->
  applications (statics s) !! a = Some app -> app_state app = WAITING -> app_host app = id -> app_pid app = pid ->
  Host.returnSystemCall c v h s =
  Ok (Host.set_syscalls (Host.syscallIDStart h) (delete c (Host.syscallMap h)) h,
      set_ready [a] (Host.set_app a (resumed v (app_code app)) s)).
Proof.
  intros Hs Hc Hr Ha Hst Hh Hp. unfold Host.returnSystemCall. rewrite Hc, Hs.
  cbn [of_option mbind Res_bind]. unfold Host.get_app. cbn [Host.application]. rewrite Ha. cbn [of_option mbind Res_bind].
  unfold Host.returnSyscall. rewrite Hst, Hh, Hp. cbn.
  unfold addRunnable. cbn [runnableReady Host.set_app set_statics]. rewrite Hr. cbn.
  by rewrite take_nil, drop_nil.
Qed.

Lemma answer_sole c v r k (h : HostT) (s : Sys) :
  Host.processInfoMap h !! pid = Some (Host.mkProc a ∅) -> Host.syscallMap h = {[c := pid]} -> runnableReady s = [] ->
  applications (statics s) !! a = Some (mkApp id pid r WAITING k) ->
  Host.returnSystemCall c v h s =
  Ok (Host.set_syscalls (Host.syscallIDStart h) ∅ h, set_ready [a] (Host.set_app a (resumed v k) s)).
Proof.
  intros Hs Hc Hr Ha. rewrite (answer_call c v (mkApp id pid r WAITING k)) by (try rewrite Hc, lookup_singleton_eq; done).
  by rewrite Hc, delete_singleton_eq.
Qed.

Lemma set_object_sole U c m h s :
  sole U h s -> sole U (Host.set_object oid DefaultSystemCall (Host.set_syscalls c m h))
                       (store id (NHost (Host.set_object oid DefaultSystemCall (Host.set_syscalls c m h))) s).
Proof.
  intros [H1 H2 (H31 & H32 & H33) H4 H5 H6 H7 H8 H9]. constructor; try done; cbn; [by rewrite lookup_insert_eq|].
  split; [done|]. split; [done|]. cbn. by rewrite lookup_insert_eq.
Qed.

(** The outcome of a run against the reference: [s] is the state before. *)
Definition ended (s : Sys) (d : option Z * Z * gmap Z (Z * Z)) (s' : Sys) (log : list (TimerContainer Message)) : Prop :=
  let '(o, t, tv) := d in
  currentTime s' = t /\ timevals (statics s') = tv /\ timerQueue s' = [] /\ runnableReady s' = [] /\
  (forall i, i <> id -> registeredModule s' !! i = registeredModule s !! i) /\
  exists h' app', registeredModule s' !! id = Some (NHost h') /\ applications (statics s') !! a = Some app' /\
    match o with
    | Some v => Host.processInfoMap h' !! pid = None /\ app_state app' = TERMINATED /\
                exists c, last log = Some c /\ message c = Return pid v
    | None => is_Some (Host.processInfoMap h' !! pid) /\ app_state app' = WAITING
    end.

Definition agrees (s : Sys) (d : Res (option Z * Z * gmap Z (Z * Z))) (r : Res (Sys * list (TimerContainer Message))) : Prop :=
  match d with
  | Ok d => exists s' log, r = Ok (s', log) /\ ended s d s' log
  | Err e => r = Err e
  end.

Lemma agrees_cons s s1 d r c :
  (forall i, i <> id -> registeredModule s1 !! i = registeredModule s !! i) ->
  agrees s1 d r -> agrees s d ('(s2, log) ← r; Ok (s2, c :: log)).
Proof.
  intros Hm. destruct d as [[[o t] tv]|e]; cbn [agrees]; [|by intros ->].
  intros (s' & log & -> & H1 & H2 & H3 & H4 & H5 & h' & app' & H6 & H7 & H8).
  eexists s', (c :: log). split; [done|]. do 4 (split; [done|]). split; [intros i Hi; by rewrite H5, Hm|].
  exists h', app'. split; [done|]. split; [done|]. destruct o as [v|]; [|done].
  destruct H8 as (? & ? & c' & Hl & ?). split; [done|]. split; [done|]. exists c'. by rewrite last_cons, Hl.
Qed.

(** *** The end of a process *)

Lemma finish_agrees v app h s f :
  sole ∅ h s -> Host.syscallMap h = ∅ -> runnableReady s = [a] -> app_host app = id -> app_pid app = pid ->
  agrees s (Ok (Some v, currentTime s, timevals (statics s))) (continue (S (S f)) a (Finish v) app s).
Proof.
  intros Hs Hc Hr Hh Hp. unfold continue. cbn [Host.exec]. unfold Host.exitProcess. rewrite Hh, Hp.
  rewrite post_sent by apply (so_one _ _ _ Hs). cbn [mbind Res_bind]. rewrite (run_delivered (S f) _ _ h); [|done..].
  cbn [Host.messageReceived]. unfold Host.receive_return. rewrite (so_proc _ _ _ Hs). cbn [of_option mbind Res_bind].
  unfold Host.get_app at 1. cbn [Host.application delivered statics applications set_time set_queue delRunnable set_ready Host.set_app set_statics].
  rewrite lookup_insert_eq. cbn [of_option mbind Res_bind]. rewrite Hc.
  rewrite bool_decide_eq_true_2 by apply map_Forall_empty. cbn [assert_that mbind Res_bind].
  rewrite run_idle; [|cbn; rewrite Hr; rewrite filter_cons_False by (intros H; by apply H); done|done].
  eexists _, _. split; [reflexivity|]. cbn. do 3 (split; [done|]). split.
  { rewrite Hr. rewrite filter_cons_False by (intros H; by apply H). done. }
  split; [intros i Hi; by rewrite lookup_insert_ne|]. eexists _, _. rewrite lookup_insert_eq. split; [done|].
  rewrite lookup_insert_eq. split; [done|]. cbn. rewrite lookup_delete_eq. split; [done|]. split; [done|].
  eexists. split; [done|]. done.
Qed.

(** *** A system call *)

Lemma syscall_delivered f param k app h s :
  sole ∅ h s -> Host.syscallMap h = ∅ -> runnableReady s = [a] -> app_host app = id -> app_pid app = pid ->
  let m := Syscall pid param in
  let d := delivered m (mkApp id pid (-1) WAITING k) s in
  continue (S f) a (DoSyscall param k) app s =
  ('(h, s1) ← Host.receive_syscall id pid param h d;
   '(s2, log) ← run f 0 (retire (currentUUID s ⊞ 1) (store id (NHost h) s1));
   Ok (s2, mkTimer id id false (currentTime s) m (currentUUID s ⊞ 1) :: log)).
Proof.
  intros Hs Hc Hr Hh Hp m d. unfold continue. cbn [Host.exec]. rewrite Hh, (so_host _ _ _ Hs).
  cbn [of_option mbind Res_bind host_running NetMod_view]. unfold Host.isRunning. rewrite (so_running _ _ _ Hs).
  cbn [negb]. unfold Host.issueSystemCall. rewrite Hp, post_sent by apply (so_one _ _ _ Hs).
  cbn [mbind Res_bind]. by rewrite (run_delivered f _ _ h).
Qed.

(** The host after a call of the built-in interface. *)
Definition served (c : Z) (m : gmap Z Z) (h : HostT) : HostT :=
  Host.set_object oid DefaultSystemCall (Host.set_syscalls c m h).

(** The state in which an answered application is about to run again. *)
Definition ready_again (u v : Z) (k : Z -> Program) (h : HostT) (s : Sys) : Sys :=
  retire u (store id (NHost h) (set_ready [a] (Host.set_app a (resumed v k) s))).

Lemma ready_again_sole u v k c h s :
  sole {[u]} h s -> sole ∅ (served c ∅ h) (ready_again u v k (served c ∅ h) s).
Proof.
  intros [H1 H2 (H31 & H32 & H33) H4 H5 H6 H7 H8 H9]. constructor; try done; cbn.
  - by rewrite lookup_insert_eq.
  - split; [done|]. split; [done|]. cbn. by rewrite lookup_insert_eq.
  - rewrite H7. set_solver.
  - intros x. cbn. rewrite H7. set_solver.
Qed.

(** [k] continues correctly after its call. *)
Definition continues (k : Z -> Program) : Prop := forall v h s,
  sole ∅ h s -> Host.syscallMap h = ∅ -> runnableReady s = [a] -> applications (statics s) !! a = Some (resumed v k) ->
  exists f0, forall f, (f0 <= f)%nat -> agrees s (direct (k v) (currentTime s) (timevals (statics s))) (run f 0 s).

Lemma ready_again_agrees u v k c h s0 s :
  continues k -> sole {[u]} h s -> (forall i, i <> id -> registeredModule s !! i = registeredModule s0 !! i) ->
  exists f0, forall f, (f0 <= f)%nat ->
    agrees s0 (direct (k v) (currentTime s) (timevals (statics s))) (run f 0 (ready_again u v k (served c ∅ h) s)).
Proof.
  intros Hk Hs Hm. destruct (Hk v (served c ∅ h) (ready_again u v k (served c ∅ h) s)) as (f0 & H);
    [by apply ready_again_sole|done|done|cbn; by rewrite lookup_insert_eq|].
  exists f0. intros f Hf. specialize (H f Hf). cbn [ready_again retire store currentTime timevals statics] in H.
  destruct (direct _ _ _) as [d|e]; [|exact H]. destruct H as (s' & log & E & H). exists s', log. split; [done|].
  destruct d as [[o t] tv]. destruct H as (H1 & H2 & H3 & H4 & H5 & H6). do 4 (split; [done|]). split; [|done].
  intros i Hi. rewrite H5 by done. cbn. rewrite lookup_insert_ne by done. by apply Hm.
Qed.

(** What a system call of the application leads to. *)
Definition call_ok (param : SystemCallParameter) (k : Z -> Program) (app : Application) (s : Sys) : Prop :=
  exists f0, forall f, (f0 <= f)%nat ->
    agrees s (direct (DoSyscall param k) (currentTime s) (timevals (statics s))) (continue f a (DoSyscall param k) app s).

Section Call.
Context (param : SystemCallParameter) (k : Z -> Program) (app : Application) (h : HostT) (s : Sys).
Context (Hs : sole ∅ h s) (Hc : Host.syscallMap h = ∅) (Hr : runnableReady s = [a]).
Context (Hh : app_host app = id) (Hp : app_pid app = pid).
Abbreviation d := (delivered (Syscall pid param) (mkApp id pid (-1) WAITING k) s).
Abbreviation u := (currentUUID s ⊞ 1).
Abbreviation c := (Host.syscallIDStart h).
Abbreviation h1 := (Host.set_syscalls (c ⊞ 1) {[c := pid]} h).

Lemma d_facts : sole {[u]} h d /\ runnableReady d = [] /\
  applications (statics d) !! a = Some (mkApp id pid (-1) WAITING k).
Proof.
  split; [by apply delivered_sole|]. split; [|cbn; by rewrite lookup_insert_eq].
  cbn. rewrite Hr. rewrite filter_cons_False by (intros H; by apply H). done.
Qed.

(** The call reaches the built-in interface. *)
Lemma reaches_default f :
  Host.syscall_namespace param (Host.mkProc a ∅) = Ok (0, 0) ->
  continue (S f) a (DoSyscall param k) app s =
  ('(_, h, s1) ← Host.run_prog id (Host.self_of DefaultSystemCall) (DefaultSyscall.systemCallback c pid param) h1 d;
   '(s2, log) ← run f 0 (retire u (store id (NHost (Host.set_object oid DefaultSystemCall h)) s1));
   Ok (s2, mkTimer id id false (currentTime s) (Syscall pid param) u :: log)).
Proof.
  intros Hns. destruct d_facts as (Hd & _ & Ha). rewrite (syscall_delivered f param k app h s) by done. cbn zeta.
  rewrite (receive_sole {[u]} param (mkApp id pid (-1) WAITING k)) by done. rewrite Hns. cbn [mbind Res_bind].
  destruct (so_default _ _ _ Hs) as (-> & _ & Hobj). cbn zeta.
  rewrite call_default by exact Hobj.
  by destruct (Host.run_prog _ _ (DefaultSyscall.systemCallback c pid param) _ d) as [[[x h'] s']|e].
Qed.

(** A call that is answered at once with [v], possibly after a store to the
    memory that leads to [s1]. *)
Lemma answered_agrees v s1 tail :
  continues k -> sole {[u]} h s1 -> runnableReady s1 = [] -> registeredModule s1 = registeredModule s ->
  applications (statics s1) !! a = Some (mkApp id pid (-1) WAITING k) ->
  exists f0, forall f, (f0 <= f)%nat ->
    agrees s (direct (k v) (currentTime s1) (timevals (statics s1)))
      ('(_, h, s1) ← Host.run_prog id (Host.self_of DefaultSystemCall) (HostApi.returnSystemCall c v) h1 s1;
       '(s2, log) ← run f 0 (retire u (store id (NHost (Host.set_object oid DefaultSystemCall h)) s1));
       Ok (s2, tail :: log)).
Proof.
  intros Hk Hs1 Hr1 Hm Ha. destruct (ready_again_agrees u v k (c ⊞ 1) h s s1 Hk Hs1) as (f0 & H); [by rewrite Hm|].
  exists f0. intros f Hf. specialize (H f Hf). cbn [Host.run_prog HostApi.returnSystemCall].
  rewrite (answer_sole c v (-1) k h1 s1 (so_proc _ _ _ Hs)) by done. cbn [mbind Res_bind].
  apply (agrees_cons s s); [done|]. exact H.
Qed.

Lemma call_ok_S :
  (exists f0, forall f, (f0 <= f)%nat ->
     agrees s (direct (DoSyscall param k) (currentTime s) (timevals (statics s))) (continue (S f) a (DoSyscall param k) app s)) ->
  call_ok param k app s.
Proof. intros (f0 & H). exists (S f0). intros f Hf. destruct f; [lia|]. apply H. lia. Qed.

Lemma gettimeofday_agrees : syscallNumber param = GETTIMEOFDAY -> continues k -> call_ok param k app s.
Proof.
  intros Hn Hk. destruct d_facts as (Hd & Hrd & Ha). apply call_ok_S. cbn [direct]. rewrite Hn.
  assert (Host.syscall_namespace param (Host.mkProc a ∅) = Ok (0, 0)) as Hns by (unfold Host.syscall_namespace; by rewrite Hn).
  assert (forall f, continue (S f) a (DoSyscall param k) app s = _) as E by (intros f; exact (reaches_default f Hns)).
  setoid_rewrite E. clear E. unfold DefaultSyscall.systemCallback. rewrite Hn.
  destruct (get_ptr (param0 param)) as [tv|e]; [|exists 0%nat; done].
  destruct (get_ptr (param1 param)) as [tz|e]; [|exists 0%nat; done].
  cbn [lift mbind HProg_bind hbind Res_bind HostApi.getCurrentTime]. destruct (negb (tz =? 0)).
  { exact (answered_agrees (- DefaultSyscall.EINVAL) d _ Hk Hd Hrd eq_refl Ha). }
  cbn [Host.run_prog]. unfold Host.store_timeval. destruct (tv =? 0); [exists 0%nat; done|].
  change (timevals (statics d)) with (timevals (statics s)).
  destruct (timevals (statics s) !! tv) as [old|]; [|exists 0%nat; done].
  unfold getTime. destruct getMultiplier_values as (_ & -> & _). change (10 ^ 3) with 1000.
  change (getCurrentTime d) with (currentTime s). cbn [mbind Res_bind].
  set (s1 := set_statics _ d). assert (sole {[u]} h s1) as Hs1 by (destruct Hd; by constructor).
  exact (answered_agrees 0 s1 _ Hk Hs1 Hrd eq_refl Ha).
Qed.

(** The host and the scheduler while the application sleeps for [n]. *)
Abbreviation h2 := (Host.set_object oid DefaultSystemCall h1).
Definition sleeping (n : Z) : Sys :=
  retire u (store id (NHost h2) (sent id id (Timer DefaultSyscall.timer_name (any_uuid c)) n d)).

(** The timer has fired. *)
Definition awake (n : Z) : Sys := set_time (currentTime s ⊞ n) (set_queue [] (sleeping n)).

Lemma awake_sole n : sole {[u ⊞ 1]} h2 (awake n).
Proof.
  destruct d_facts as ([H1 H2 (H31 & H32 & H33) H4 H5 H6 H7 H8 H9] & _ & _).
  constructor; try done; cbn -[wrap].
  - by rewrite lookup_insert_eq.
  - split; [done|]. split; [done|]. cbn. by rewrite lookup_insert_eq.
  - apply wrap_range. lia.
  - pose proof (succ_fresh u). rewrite (so_ids _ _ _ Hs). set_solver.
  - intros x. cbn -[wrap]. rewrite (so_ids _ _ _ Hs). set_solver.
Qed.

Lemma run_sleeping f n :
  run (S f) 0 (sleeping n) =
  ('(_, h, s1) ← Host.run_prog id (Host.self_of DefaultSystemCall) (HostApi.returnSystemCall c 0) h2 (awake n);
   '(s2, log) ← run f 0 (retire (u ⊞ 1) (store id (NHost (Host.set_object oid DefaultSystemCall h)) s1));
   Ok (s2, mkTimer id id false (currentTime s ⊞ n) (Timer DefaultSyscall.timer_name (any_uuid c)) (u ⊞ 1) :: log)).
Proof.
  destruct d_facts as (Hd & Hrd & Ha). destruct (so_default _ _ _ Hs) as (_ & Htm & Hobj).
  rewrite (run_single f (mkTimer id id false (currentTime s ⊞ n) (Timer DefaultSyscall.timer_name (any_uuid c)) (u ⊞ 1)) (sleeping n));
    [|exact Hrd|done].
  rewrite (process_self _ _ _ h2); [|done|cbn; by rewrite lookup_insert_eq]. fold (awake n).
  cbn [Host.messageReceived Host.timerModuleMap Host.set_object Host.set_modules Host.set_syscalls].
  rewrite Htm. cbn [of_option mbind Res_bind]. rewrite call_default_timer by apply lookup_insert_eq.
  by destruct (Host.run_prog _ _ (HostApi.returnSystemCall c 0) _ (awake n)) as [[[x h'] s']|e].
Qed.

Lemma nsleep_agrees : syscallNumber param = NSLEEP -> continues k -> call_ok param k app s.
Proof.
  intros Hn Hk. destruct d_facts as (Hd & Hrd & Ha). apply call_ok_S. cbn [direct]. rewrite Hn.
  assert (Host.syscall_namespace param (Host.mkProc a ∅) = Ok (0, 0)) as Hns by (unfold Host.syscall_namespace; by rewrite Hn).
  assert (forall f, continue (S f) a (DoSyscall param k) app s = _) as E by (intros f; exact (reaches_default f Hns)).
  setoid_rewrite E. clear E. unfold DefaultSyscall.systemCallback. rewrite Hn.
  destruct (get_uint64 (param0 param)) as [n|e]; [|exists 0%nat; done].
  cbn [lift mbind HProg_bind hbind Res_bind HostApi.addTimer Host.run_prog Host.self_of Host.self_timer].
  rewrite Host.default_timer_name. cbn [of_option mbind Res_bind]. unfold Host.addTimer, sendMessageSelf.
  rewrite sendMessage_sent by apply (so_one _ _ _ Hd). cbn [mbind Res_bind].
  destruct (ready_again_agrees (u ⊞ 1) 0 k (c ⊞ 1) h2 s (awake n) Hk (awake_sole n)) as (f0 & H).
  { intros i Hi. cbn. by rewrite lookup_insert_ne. }
  exists (S f0). intros f Hf. destruct f as [|f]; [lia|]. specialize (H f ltac:(lia)).
  apply (agrees_cons s s); [done|]. change (run (S f) 0 _) with (run (S f) 0 (sleeping n)). rewrite run_sleeping.
  cbn [Host.run_prog HostApi.returnSystemCall]. rewrite (answer_sole c 0 (-1) k h2 (awake n) (so_proc _ _ _ Hs)) by done.
  cbn [mbind Res_bind]. apply (agrees_cons s s); [done|]. exact H.
Qed.

(** Calls that the built-in interface does not serve. *)
Lemma unserved_agrees :
  syscallNumber param <> NSLEEP -> syscallNumber param <> GETTIMEOFDAY -> call_ok param k app s.
Proof.
  intros H1 H2. destruct d_facts as (Hd & Hrd & Ha). apply call_ok_S. cbn [direct].
  assert (forall f, continue (S f) a (DoSyscall param k) app s = _) as E
    by (intros f; exact (syscall_delivered f param k app h s Hs Hc Hr Hh Hp)).
  setoid_rewrite E. clear E. rewrite (receive_sole {[u]} param (mkApp id pid (-1) WAITING k)) by done.
  unfold Host.syscall_namespace. destruct (syscallNumber param) eqn:En; try done;
    try (destruct (get_int (param0 param)) as [fd|e]; exists 0%nat; done).
  destruct (get_int (param0 param)) as [domain|e]; [|exists 0%nat; done].
  destruct (get_int (param2 param)) as [protocol|e]; [|exists 0%nat; done]. cbn [mbind Res_bind].
  destruct (so_default _ _ _ Hs) as (Hif & _ & Hobj). destruct (decide ((domain, protocol) = (0, 0))) as [E|E].
  - rewrite bool_decide_eq_true_2, E, Hif by done. exists 0%nat. intros f _. cbn [agrees]. unfold Host.call_object.
    cbn [Host.objects Host.set_syscalls]. rewrite Hobj. cbn [of_option mbind Res_bind].
    rewrite Host.default_system. unfold DefaultSyscall.systemCallback. rewrite En. done.
  - rewrite bool_decide_eq_false_2, (so_iface _ _ _ Hs) by done. exists 1%nat. intros f Hf. destruct f as [|f]; [lia|].
    cbn [mbind Res_bind]. rewrite run_idle by done. eexists _, _. split; [reflexivity|]. cbn [ended].
    do 3 (split; [done|]). split; [exact Hrd|]. split; [intros i Hi; cbn; by rewrite lookup_insert_ne|].
    exists h, (mkApp id pid (-1) WAITING k). split; [cbn; by rewrite lookup_insert_eq|]. split; [exact Ha|].
    split; [|done]. by rewrite (so_proc _ _ _ Hs).
Qed.

End Call.
(** *** The whole application *)

Lemma continue_agrees p : forall app h s,
  sole ∅ h s -> Host.syscallMap h = ∅ -> runnableReady s = [a] -> app_host app = id -> app_pid app = pid ->
  exists f0, forall f, (f0 <= f)%nat ->
    agrees s (direct p (currentTime s) (timevals (statics s))) (continue f a p app s).
Proof.
  induction p as [v|param k IH|k IH|addr k IH]; intros app h s Hs Hc Hr Hh Hp.
  - exists 2%nat. intros f Hf. destruct f as [|[|f]]; [lia..|]. by apply (finish_agrees v app h).
  - assert (continues k) as Hk.
    { intros v h' s' Hs' Hc' Hr' Ha'. destruct (IH v (resumed v k) h' s') as (f0 & H); try done.
      exists (2 + f0)%nat. intros f Hf. destruct f as [|[|f]]; [lia..|]. rewrite (run_ready f a _ s' Hr' Ha' eq_refl).
      apply H. lia. }
    destruct (decide (syscallNumber param = NSLEEP)); [by apply (nsleep_agrees param k app h)|].
    destruct (decide (syscallNumber param = GETTIMEOFDAY)); [by apply (gettimeofday_agrees param k app h)|].
    by apply (unserved_agrees param k app h).
  - cbn [direct]. exact (IH _ app h s Hs Hc Hr Hh Hp).
  - cbn [direct]. unfold continue. cbn [Host.exec].
    destruct (timevals (statics s) !! addr) as [x|]; cbn [of_option mbind Res_bind]; [|by exists 0%nat].
    exact (IH _ app h s Hs Hc Hr Hh Hp).
Qed.

End Sole.

(** ** Launching an application *)

(** A network in which nothing is pending and whose host [id] has the built-in
    system calls only and a free process identifier. *)
Record idle (id oid : Z) (h : HostT) (s : Sys) : Prop := {
  id_host : registeredModule s !! id = Some (NHost h);
  id_running : Host.running h = true;
  id_default : Host.default_installed oid h;
  id_iface ns : ns <> (0, 0) -> Host.interfaceMap h !! ns = None;
  id_calls : Host.syscallMap h = ∅;
  id_start : 0 <= Host.pidStart h < Host.MAX_PID;
  id_free : exists x, 0 <= x < Host.MAX_PID /\ Host.processInfoMap h !! x = None;
  id_time : is_u 64 (currentTime s);
  id_ids : activeUUID s = ∅;
  id_queue : timerQueue s = [];
  id_ready : runnableReady s = [];
}.

Lemma register_idle x (app : Application) (h : HostT) (s : Sys) :
  0 <= Host.pidStart h < Host.MAX_PID -> (exists x, 0 <= x < Host.MAX_PID /\ Host.processInfoMap h !! x = None) ->
  applications (statics s) !! x = Some app ->
  exists pid start, 0 <= pid < Host.MAX_PID /\ Host.registerProcess x h s =
    Ok (Host.set_processes start (<[pid := Host.mkProc x ∅]> (Host.processInfoMap h)) h,
        Host.set_app x (mkApp (app_host app) pid (syscallRet app) (app_state app) (app_code app)) s, pid).
Proof.
  intros Hs (y & Hy & Hfree) Ha. unfold Host.registerProcess. unfold Host.MAX_PID in *.
  pose proof (cyclic_search_total Host.MAX_FD (dom (Host.processInfoMap h)) (Host.pidStart h) Hs
    (S (size (dom (Host.processInfoMap h)))) ltac:(lia)) as H.
  destruct (cyclic_search _ _ _ _ _) as [[c|]|]; [| |done].
  - destruct H as (n & Hn & -> & _). unfold Host.get_app. cbn [mbind Res_bind]. rewrite Ha.
    eexists _, _. split; [|reflexivity]. apply Z.mod_pos_bound. done.
  - exfalso. apply H in Hy. apply elem_of_dom in Hy as [z Hz]. congruence.
Qed.

Lemma launch_idle id oid main h (s : Sys) :
  idle id oid h s ->
  exists a pid app s1 h1, pid <> -1 /\ sole id a pid oid ∅ h1 s1 /\ Host.syscallMap h1 = ∅ /\ runnableReady s1 = [a] /\
    app_host app = id /\ app_pid app = pid /\ currentTime s1 = currentTime s /\ timevals (statics s1) = timevals (statics s) /\
    (forall i, i <> id -> registeredModule s1 !! i = registeredModule s !! i) /\
    forall f, run_application (S (S f)) id main s = continue (S (S f)) a main app s1.
Proof.
  intros [H1 H2 (H31 & H32 & H33) H4 H5 H6 H7 H8 H9 H10 H11]. set (a := Host.new_key (applications (statics s))).
  destruct (register_idle a (mkApp id (-1) 0 CREATED (fun _ => main)) h (Host.set_app a (mkApp id (-1) 0 CREATED (fun _ => main)) s))
    as (pid & start & Hpid & E); [done|done|cbn; by rewrite lookup_insert_eq|].
  set (h1 := Host.set_processes start _ h) in E. set (s0 := Host.set_app a _ (Host.set_app a _ s)) in E.
  set (app := mkApp id pid 0 READY (fun _ => main)). set (s1 := store id (NHost h1) (set_ready [a] (Host.set_app a app s0))).
  exists a, pid, app, s1, h1. split; [lia|]. split; [constructor; cbn; try done|].
  - by rewrite lookup_insert_eq.
  - by rewrite lookup_insert_eq.
  - intros x. cbn. rewrite H9. set_solver.
  - do 6 (split; [done|]). split; [intros i Hi; cbn; by rewrite lookup_insert_ne|]. intros f.
    transitivity (run (S (S f)) 0 s1).
    2:{ apply (run_ready f a app s1); [done|cbn; by rewrite lookup_insert_eq|done]. }
    unfold run_application. rewrite (deref_some id s _ H1). cbn [mbind Res_bind]. unfold Host.addApplication. fold a.
    rewrite E. cbn [mbind Res_bind]. unfold Host.launchApplication. cbn [Host.processInfoMap h1 Host.set_processes].
    rewrite lookup_insert_eq. cbn [of_option mbind Res_bind Host.application]. unfold Host.get_app.
    cbn [s0 Host.set_app set_statics statics applications]. rewrite lookup_insert_eq. cbn [of_option mbind Res_bind app_pid].
    rewrite Z.eqb_refl. cbn [assert_that mbind Res_bind Host.start app_state]. unfold Host.start. cbn [app_state].
    rewrite bool_decide_eq_true_2 by done. cbn [assert_that mbind Res_bind app_state]. unfold addRunnable.
    rewrite (bool_decide_eq_true_2 (READY = READY)) by done. cbn [assert_that mbind Res_bind].
    cbn [runnableReady s0 Host.set_app set_statics]. rewrite H11. cbn. rewrite take_nil, drop_nil. done.
Qed.

(** ** Properties *)

(** C11: a run of the simulator executes an application faithfully: on an idle
    network, adding an application to a host, launching it and calling
    [System::run] ends, for every application that uses the built-in system
    calls, after finitely many messages, with the outcome of the reference
    semantics: the same failure, or the same clock and memory, an empty queue,
    no other module changed, and the process gone with its value returned (or
    still blocked when it asked for a socket nobody provides). *)
Theorem run_application_direct id oid main h (s : Sys) :
  idle id oid h s ->
  exists a pid f0, forall f, (f0 <= f)%nat ->
    agrees id a pid s (direct main (currentTime s) (timevals (statics s))) (run_application f id main s).
Proof.
  intros Hi. destruct (launch_idle id oid main h s Hi)
    as (a & pid & app & s1 & h1 & Hpid & Hs & Hc & Hr & Hh & Hp & Ht & Htv & Hm & E).
  destruct (continue_agrees id a pid oid Hpid main app h1 s1 Hs Hc Hr Hh Hp) as (f0 & H).
  exists a, pid, (2 + f0)%nat. intros f Hf. destruct f as [|[|f]]; [lia..|]. rewrite E, <- Ht, <- Htv.
  specialize (H (S (S f)) ltac:(lia)). destruct (direct _ _ _) as [[[o t] tv]|e]; [|exact H].
  destruct H as (s' & log & Er & H1 & H2 & H3 & H4 & H5 & H6). exists s', log. split; [exact Er|].
  do 4 (split; [done|]). split; [|done]. intros i Hne. by rewrite H5, Hm.
Qed.

End Process.

(** *** Instances: a host alone, and an application that sleeps and reads the time *)

#[local] Existing Instances Host.only_default Host.only_default_laws Host.unordered Host.unordered_map low_engine.

Definition ex_host : Host.Host unit :=
  Host.mkHost [] empty_info 0 0 true {[1 := tt]} {[(0, 0) := 1]} ∅ {["DefaultSyscall" := 1]} ∅ ∅.
Definition ex_net : System (NetMod (Obj := unit)) Message Z Env :=
  set_modules {[1 := NHost ex_host]} (System_init (mkEnv initial_registry ∅ {[64 := (0, 0)]})).

Lemma ex_idle : idle 1 1 ex_host ex_net.
Proof.
  constructor; try done.
  - intros ns Hns. cbn. by apply lookup_singleton_ne.
  - by exists 0.
Qed.

(** [usleep(1500); gettimeofday(&tv, NULL); return tv.tv_usec;] *)
Definition ex_main : Program :=
  TCPApplication.usleep 1500 (fun _ => TCPApplication.gettimeofday 64 0 (fun _ => DoLoadTimeval 64 (fun tv => Finish (snd tv)))).

Example ex_direct : direct ex_main 0 {[64 := (0, 0)]} = Ok (Some 1500, 1500000, {[64 := (0, 1500)]}).
Proof. vm_compute. reflexivity. Qed.

Lemma run_application_direct_witness :
  exists f s' log c, run_application f 1 ex_main ex_net = Ok (s', log) /\ currentTime s' = 1500000 /\
    timevals (statics s') = {[64 := (0, 1500)]} /\ last log = Some c /\ exists pid, message c = Return pid 1500.
Proof.
  destruct (run_application_direct 1 1 ex_main ex_host ex_net ex_idle) as (a & pid & f & H).
  specialize (H f (le_n f)). change (direct ex_main _ _) with (direct ex_main 0 {[64 := (0, 0)]}) in H.
  rewrite ex_direct in H. destruct H as (s' & log & E & Ht & Htv & _ & _ & _ & h' & app' & _ & _ & _ & _ & c & Hl & Hm).
  exists f, s', log, c. split; [exact E|]. split; [exact Ht|]. split; [exact Htv|]. split; [exact Hl|]. exists pid. exact Hm.
Defined.

End Process.
