(* ===== verification/Processes.v ===== *)
(** * Processes: any number of applications on any number of hosts

    Extends Process.v from one application to a set of them that run at the
    same time.  Every process has memory of its own; between two of its steps
    the scheduler may deliver the messages of others and wake their threads.
    The theorem says that this cannot be noticed: every process ends with the
    outcome it has when it runs alone, in the semantics [direct].

    [Stage] is what the scheduler and the host know of a process; [inv] says
    that the queue, the ready set, the tables of the hosts and the application
    objects are exactly those of the processes' stages. *)

From S2P Require Import Prelude Packet TimeUtil RandomDistribution System.
From S2P Require Import RoutingInfo ModuleBase Wire HostApi Host TCPApplication Network Process.
Local Open Scope Z_scope.

Module Processes.
Import System Network Process.

Abbreviation Memory := (gmap Z (Z * Z)).
Abbreviation Outcome := (option Z * Z * Memory)%type.

(** ** Processes *)

(** A process: its host, process identifier, application object, the memory it
    owns, and the outcome it is to have. *)
Record Ident := mkIdent {
  i_host : Z;
  i_pid : Z;
  i_app : Z;
  i_mem : gset Z;
  i_goal : Outcome;
}.

(** [t] is the time of the message that is queued for the process and [u] its
    identifier; [c] is the pending system call. *)
Inductive Stage :=
| Running (p : Program)
| Calling (t u : Z) (param : SystemCallParameter) (k : Z -> Program)
| Sleeping (t u c : Z) (k : Z -> Program)
| Exiting (t u v : Z)
| Over (t v : Z)
| Stuck (t : Z).

Abbreviation Proc := (Ident * Stage)%type.

(** The part of the memory a process owns. *)
Definition view (m : gset Z) (tv : Memory) : Memory := filter (fun x => x.1 ∈ m) tv.

(** What remains of the process, in the reference semantics. *)
Definition outcome (now : Z) (tv : Memory) (st : Stage) : Res Outcome :=
  match st with
  | Running p => direct p now tv
  | Calling t _ param k => direct (DoSyscall param k) t tv
  | Sleeping t _ _ k => direct (k 0) t tv
  | Exiting t _ v | Over t v => Ok (Some v, t, tv)
  | Stuck t => Ok (None, t, tv)
  end.

(** The number of messages a program causes. *)
Fixpoint messages (p : Program) (t : Z) (tv : Memory) : nat :=
  match p with
  | Finish _ => 1
  | DoGetTime k => messages (k t) t tv
  | DoLoadTimeval a k => match tv !! a with Some x => messages (k x) t tv | None => 0%nat end
  | DoSyscall param k =>
      match syscallNumber param with
      | NSLEEP => match get_uint64 (param0 param) with Ok n => S (S (messages (k 0) (t ⊞ n) tv)) | Err _ => 0%nat end
      | GETTIMEOFDAY =>
          match get_ptr (param0 param), get_ptr (param1 param) with
          | Ok a, Ok tz =>
              if negb (tz =? 0) then S (messages (k (- DefaultSyscall.EINVAL)) t tv)
              else let usec := t / 1000 in S (messages (k 0) t (<[a := (usec / 1000000, usec mod 1000000)]> tv))
          | _, _ => 0%nat
          end
      | _ => 1%nat
      end
  end.

(** The messages a process is still to send. *)
Definition unsent (now : Z) (tv : Memory) (st : Stage) : nat :=
  match st with
  | Running p => messages p now tv
  | Calling t _ param k => Nat.pred (messages (DoSyscall param k) t tv)
  | Sleeping t _ _ k => messages (k 0) t tv
  | _ => 0%nat
  end.

(** The message that is queued for a process. *)
Definition pending (p : Proc) : option (TimerContainer Message) :=
  let '(i, st) := p in
  let m t u msg := Some (mkTimer (i_host i) (i_host i) false t msg u) in
  match st with
  | Calling t u param _ => m t u (Syscall (i_pid i) param)
  | Sleeping t u c _ => m t u (Timer DefaultSyscall.timer_name (any_uuid c))
  | Exiting t u v => m t u (Return (i_pid i) v)
  | _ => None
  end.

Definition running_app (p : Proc) : option Z :=
  match p.2 with Running _ => Some (i_app p.1) | _ => None end.

(** Processes whose end has not been delivered. *)
Definition living (p : Proc) : option Ident :=
  match p.2 with Over _ _ => None | _ => Some p.1 end.

Definition call_of (st : Stage) : option Z := match st with Sleeping _ _ c _ => Some c | _ => None end.

(** Different processes share nothing. *)
Definition apart (i j : Ident) : Prop :=
  i_app i <> i_app j /\ (i_host i, i_pid i) <> (i_host j, i_pid j) /\ i_mem i ## i_mem j.

Definition pairwise (l : list Ident) : Prop :=
  forall l1 i l2, l = l1 ++ i :: l2 -> Forall (apart i) (l1 ++ l2).

Section Processes.
Context {RE : RandomEngine} {Obj : Type} {HMC : HostModuleClass Obj} {DL : Host.DefaultLaws}.
Context {US : UnorderedSet Z} {UM : UnorderedMap}.
Abbreviation Sys := (System (NetMod (Obj := Obj)) Message Z Env).
Abbreviation HostT := (Host.Host Obj).

Abbreviation apps s := (applications (statics s)).
Abbreviation mem s := (timevals (statics s)).

(** ** The invariant *)

(** A running host with the built-in system calls only. *)
Record plain (h : HostT) : Prop := {
  pl_running : Host.running h = true;
  pl_default : exists oid, Host.default_installed oid h;
  pl_iface ns : ns <> (0, 0) -> Host.interfaceMap h !! ns = None;
  pl_start : is_u 64 (Host.syscallIDStart h);
}.

Definition app_side (i : Ident) (st : Stage) (app : Application) : Prop :=
  app_host app = i_host i /\ app_pid app = i_pid i /\
  match st with
  | Running p => app_state app = READY /\ app_code app (syscallRet app) = p
  | Calling _ _ _ k | Sleeping _ _ _ k => app_state app = WAITING /\ app_code app = k
  | Exiting _ _ _ | Over _ _ => app_state app = TERMINATED
  | Stuck _ => app_state app = WAITING
  end.

Definition host_side (i : Ident) (st : Stage) (h : HostT) : Prop :=
  Host.processInfoMap h !! i_pid i =
    match st with Over _ _ => None | _ => Some (Host.mkProc (i_app i) ∅) end /\
  forall c, Host.syscallMap h !! c = Some (i_pid i) <-> call_of st = Some c.

Record proc_ok (s : Sys) (p : Proc) : Prop := {
  po_pid : i_pid p.1 <> -1;
  po_goal : outcome (currentTime s) (view (i_mem p.1) (mem s)) p.2 = Ok (i_goal p.1);
  po_app : exists app, apps s !! i_app p.1 = Some app /\ app_side p.1 p.2 app;
  po_host : exists h, registeredModule s !! i_host p.1 = Some (NHost h) /\ host_side p.1 p.2 h;
}.

Definition name (i : Ident) : Z * Z := (i_host i, i_pid i).

(** The messages all processes are still to send. *)
Definition to_send (s : Sys) (ps : list Proc) : nat :=
  sum_list ((fun p => unsent (currentTime s) (view (i_mem p.1) (mem s)) p.2) <$> ps).

(** The hosts [hs] run the processes; [s0] is the state at the start, and
    [limit] bounds the identifiers the processes use. *)
Context (hs : gset Z) (s0 : Sys) (limit : Z) (Hlimit : limit < 2 ^ 64).

Record inv (ps : list Proc) (s : Sys) : Prop := {
  in_procs : Forall (proc_ok s) ps;
  in_apart : pairwise (fst <$> ps);
  in_at : Forall (fun p => i_host p.1 ∈ hs) ps;
  in_hosts id : id ∈ hs -> exists h, registeredModule s !! id = Some (NHost h) /\ plain h /\
    forall c pid, Host.syscallMap h !! c = Some pid -> (id, pid) ∈ (name ∘ fst) <$> ps;
  in_queue : timerQueue s ≡ₚ omap pending ps;
  in_due : Forall (fun c => is_u 64 (wakeup c)) (timerQueue s);
  in_ready : runnableReady s ≡ₚ omap running_app ps;
  in_ids : ids_below s;
  in_room : currentUUID s + Z.of_nat (to_send s ps) <= limit;
  in_count : Z.of_nat (length ps) < 2 ^ 64;
  in_time : is_u 64 (currentTime s);
  in_modules id : id ∉ hs -> registeredModule s !! id = registeredModule s0 !! id;
  in_memory a : Forall (fun p => a ∉ i_mem p.1) ps -> mem s !! a = mem s0 !! a;
}.

(** The messages queued less the identifiers used: sending a message does not
    change it, delivering one decreases it. *)
Definition load (s : Sys) : Z := Z.of_nat (length (timerQueue s)) - currentUUID s.

(** ** Memory *)

Lemma view_lookup m tv a : a ∈ m -> view m tv !! a = tv !! a.
Proof.
  intros Ha. unfold view. rewrite map_lookup_filter. destruct (tv !! a) as [x|]; [|done]. cbn.
  by rewrite option_guard_True.
Qed.

Lemma view_Some m tv a x : view m tv !! a = Some x -> a ∈ m /\ tv !! a = Some x.
Proof. intros H. apply map_lookup_filter_Some in H as [H1 H2]. done. Qed.

Lemma view_ext m tv tv' : (forall a, a ∈ m -> tv' !! a = tv !! a) -> view m tv' = view m tv.
Proof.
  intros H. apply map_eq. intros a. unfold view. rewrite !map_lookup_filter.
  destruct (decide (a ∈ m)) as [Ha|Ha]; [by rewrite H|].
  destruct (tv !! a), (tv' !! a); cbn; by rewrite ?option_guard_False.
Qed.

Lemma view_insert m tv a x : a ∈ m -> view m (<[a := x]> tv) = <[a := x]> (view m tv).
Proof. intros Ha. unfold view. by rewrite map_filter_insert_True. Qed.

(** ** The frame of a step

    A step of one process that leaves alone what the others rely on keeps the
    invariant. *)

(** What a step of process [i] may do to its host. *)
Record host_step (i : Ident) (h h' : HostT) : Prop := {
  hs_plain : plain h';
  hs_procs pid : pid <> i_pid i -> Host.processInfoMap h' !! pid = Host.processInfoMap h !! pid;
  hs_calls c pid : pid <> i_pid i -> Host.syscallMap h' !! c = Some pid <-> Host.syscallMap h !! c = Some pid;
}.

Record step (i : Ident) (st st' : Stage) (h h' : HostT) (app' : Application) (s s' : Sys) : Prop := {
  st_host : registeredModule s !! i_host i = Some (NHost h);
  st_modules : registeredModule s' = <[i_host i := NHost h']> (registeredModule s);
  st_step : host_step i h h';
  st_side : host_side i st' h';
  st_apps : apps s' = <[i_app i := app']> (apps s);
  st_app : app_side i st' app';
  st_memory a : a ∉ i_mem i -> mem s' !! a = mem s !! a;
  st_goal : outcome (currentTime s') (view (i_mem i) (mem s')) st' =
            outcome (currentTime s) (view (i_mem i) (mem s)) st;
  st_queue : exists q, timerQueue s ≡ₚ option_list (pending (i, st)) ++ q /\
               timerQueue s' ≡ₚ option_list (pending (i, st')) ++ q;
  st_due c : pending (i, st') = Some c -> is_u 64 (wakeup c);
  st_ready : exists r, runnableReady s ≡ₚ option_list (running_app (i, st)) ++ r /\
               runnableReady s' ≡ₚ option_list (running_app (i, st')) ++ r;
  st_ids : ids_below s';
  st_room : currentUUID s' + Z.of_nat (unsent (currentTime s') (view (i_mem i) (mem s')) st') <=
            currentUUID s + Z.of_nat (unsent (currentTime s) (view (i_mem i) (mem s)) st);
  st_time : is_u 64 (currentTime s');
}.

(** The others cannot tell: either the clock did not move or none is running. *)
Definition unnoticed (s s' : Sys) (ps : list Proc) : Prop :=
  currentTime s' = currentTime s \/ omap running_app ps = [].

Lemma unnoticed_outcome s s' ps p :
  unnoticed s s' ps -> p ∈ ps -> forall tv,
  outcome (currentTime s') tv p.2 = outcome (currentTime s) tv p.2 /\
  unsent (currentTime s') tv p.2 = unsent (currentTime s) tv p.2.
Proof.
  intros [->|H] Hp tv; [done|]. assert (running_app p = None) as Hr.
  { destruct (running_app p) as [a|] eqn:E; [|done]. exfalso.
    assert (a ∈ omap running_app ps) as Ha by (apply list_elem_of_omap; eauto). rewrite H in Ha. by apply not_elem_of_nil in Ha. }
  by destruct p as [i []].
Qed.

Lemma step_other i st st' h h' app' s s' ps p :
  step i st st' h h' app' s s' -> unnoticed s s' ps -> p ∈ ps -> apart i p.1 -> proc_ok s p ->
  proc_ok s' p /\ view (i_mem p.1) (mem s') = view (i_mem p.1) (mem s).
Proof.
  intros Hs Hu Hp (Ha & Hn & Hm) [Hpid Hg (app & Happ & Hside) (hp & Hh & Hp1 & Hp2)].
  assert (view (i_mem p.1) (mem s') = view (i_mem p.1) (mem s)) as Ev.
  { apply view_ext. intros a Hin. apply (st_memory _ _ _ _ _ _ _ _ Hs). set_solver. }
  split; [|done]. constructor; [done| | |].
  - rewrite Ev. by rewrite (proj1 (unnoticed_outcome _ _ _ _ Hu Hp _)).
  - exists app. rewrite (st_apps _ _ _ _ _ _ _ _ Hs), lookup_insert_ne by done. done.
  - rewrite (st_modules _ _ _ _ _ _ _ _ Hs). destruct (decide (i_host i = i_host p.1)) as [E|E].
    + rewrite E, lookup_insert_eq. pose proof (st_host _ _ _ _ _ _ _ _ Hs) as Hi. rewrite E, Hh in Hi. injection Hi as ->.
      assert (i_pid p.1 <> i_pid i) as Hne by (intros E'; apply Hn; by rewrite E, E').
      destruct (st_step _ _ _ _ _ _ _ _ Hs) as [_ H1 H2]. exists h'. split; [done|]. split; [by rewrite H1|].
      intros c. by rewrite H2.
    + rewrite lookup_insert_ne by done. by exists hp.
Qed.

Lemma omap_middle {A B} (f : A -> option B) l1 x l2 :
  omap f (l1 ++ x :: l2) ≡ₚ option_list (f x) ++ omap f (l1 ++ l2).
Proof.
  rewrite !omap_app. cbn. destruct (f x) as [y|]; cbn; [|done]. by rewrite Permutation_middle.
Qed.

Lemma to_send_middle s l1 p l2 :
  to_send s (l1 ++ p :: l2) = (unsent (currentTime s) (view (i_mem p.1) (mem s)) p.2 + to_send s (l1 ++ l2))%nat.
Proof. unfold to_send. rewrite !fmap_app, !sum_list_with_app. cbn. lia. Qed.

Lemma inv_step l1 l2 i st st' h h' app' s s' :
  inv (l1 ++ (i, st) :: l2) s -> step i st st' h h' app' s s' -> unnoticed s s' (l1 ++ l2) ->
  inv (l1 ++ (i, st') :: l2) s'.
Proof.
  intros [H1 H2 H3 H4 H5 Hdue H6 H7 H8 H9 H10 H11 H12] Hs Hu.
  assert (Forall (fun p => proc_ok s' p /\ view (i_mem p.1) (mem s') = view (i_mem p.1) (mem s)) (l1 ++ l2)) as Ho.
  { pose proof (H2 (fst <$> l1) i (fst <$> l2)) as Hap. rewrite fmap_app in Hap. specialize (Hap eq_refl).
    rewrite <- fmap_app, Forall_fmap in Hap. rewrite Forall_forall in Hap |- *. intros p Hp.
    eapply step_other; [exact Hs|exact Hu|done|by apply Hap|].
    rewrite Forall_forall in H1. apply H1. set_solver. }
  assert (to_send s' (l1 ++ l2) = to_send s (l1 ++ l2)) as Et.
  { unfold to_send. f_equal. apply list_fmap_ext. intros x p Hp. apply list_elem_of_lookup_2 in Hp.
    rewrite Forall_forall in Ho. destruct (Ho p Hp) as [_ ->]. apply (unnoticed_outcome _ _ _ _ Hu Hp). }
  assert (proc_ok s' (i, st')) as Hi.
  { apply Forall_app in H1 as [_ [Hold _]%Forall_cons]. constructor; cbn.
    - exact (po_pid _ _ Hold).
    - rewrite (st_goal _ _ _ _ _ _ _ _ Hs). exact (po_goal _ _ Hold).
    - exists app'. rewrite (st_apps _ _ _ _ _ _ _ _ Hs), lookup_insert_eq. split; [done|]. exact (st_app _ _ _ _ _ _ _ _ Hs).
    - exists h'. rewrite (st_modules _ _ _ _ _ _ _ _ Hs), lookup_insert_eq. split; [done|]. exact (st_side _ _ _ _ _ _ _ _ Hs). }
  assert (i_host i ∈ hs) as Hin by (apply Forall_app in H3 as [_ [? _]%Forall_cons]; done).
  constructor.
  - apply Forall_app in Ho as [Ho1 Ho2]. apply Forall_app. split; [|constructor; [done|]];
      (eapply Forall_impl; [eassumption|]); by intros p [? _].
  - rewrite fmap_app in *. exact H2.
  - apply Forall_app in H3 as [? [? ?]%Forall_cons]. apply Forall_app. split; [done|]. by constructor.
  - intros id Hid. destruct (H4 id Hid) as (hid & Hr & Hp & Hc). rewrite (st_modules _ _ _ _ _ _ _ _ Hs).
    rewrite fmap_app in *. destruct (decide (i_host i = id)) as [<-|E]; [|rewrite lookup_insert_ne by done; by exists hid].
    rewrite lookup_insert_eq. exists h'. split; [done|]. destruct (st_step _ _ _ _ _ _ _ _ Hs) as [Hpl Hpr Hca].
    split; [done|]. intros c pid Hcall. destruct (decide (pid = i_pid i)) as [->|Hne].
    + apply elem_of_app. right. cbn. by left.
    + rewrite (st_host _ _ _ _ _ _ _ _ Hs) in Hr. injection Hr as <-. apply Hca in Hcall; [|done]. by apply Hc in Hcall.
  - destruct (st_queue _ _ _ _ _ _ _ _ Hs) as (q & Hq & ->). rewrite omap_middle. f_equiv.
    rewrite Hq, omap_middle in H5. by apply Permutation_app_inv_l in H5.
  - destruct (st_queue _ _ _ _ _ _ _ _ Hs) as (q & Hq & ->). rewrite Hq in Hdue. apply Forall_app in Hdue as [_ Hdue].
    apply Forall_app. split; [|done]. destruct (pending (i, st')) as [c|] eqn:E; [|constructor].
    constructor; [|constructor]. by apply (st_due _ _ _ _ _ _ _ _ Hs).
  - destruct (st_ready _ _ _ _ _ _ _ _ Hs) as (r & Hr & ->). rewrite omap_middle. f_equiv.
    rewrite Hr, omap_middle in H6. by apply Permutation_app_inv_l in H6.
  - exact (st_ids _ _ _ _ _ _ _ _ Hs).
  - rewrite to_send_middle in H8 |- *. rewrite Et. cbn [fst snd] in *. pose proof (st_room _ _ _ _ _ _ _ _ Hs). lia.
  - rewrite length_app in *. exact H9.
  - exact (st_time _ _ _ _ _ _ _ _ Hs).
  - intros id Hid. rewrite (st_modules _ _ _ _ _ _ _ _ Hs), lookup_insert_ne by (intros <-; contradiction). by apply H11.
  - intros a Ha. pose proof Ha as [_ [Hia _]%Forall_cons]%Forall_app. cbn in Hia.
    rewrite (st_memory _ _ _ _ _ _ _ _ Hs) by done. apply H12. apply Forall_app in Ha as [? [? ?]%Forall_cons].
    apply Forall_app. split; [done|]. by constructor.
Qed.

(** ** Threads *)

Lemma sent_below id to m after (s : Sys) :
  ids_below s -> currentUUID s + 1 < 2 ^ 64 ->
  module_sendMessage id to m after s = Ok (sent id to m after s, currentUUID s + 1) /\
  currentUUID (sent id to m after s) = currentUUID s + 1 /\ ids_below (sent id to m after s) /\
  timerQueue (sent id to m after s) ≡ₚ mkTimer id to false (currentTime s ⊞ after) m (currentUUID s + 1) :: timerQueue s.
Proof.
  intros [H0 Hb] Hc. assert (currentUUID s ⊞ 1 = currentUUID s + 1) as E by (apply wrap_small; unfold is_u; lia).
  unfold sent. rewrite E. split.
  { unfold module_sendMessage, sendMessage, allocateUUID. rewrite E.
    rewrite bool_decide_eq_true_2 by (intros Hin; apply Hb in Hin; lia). done. }
  split; [done|]. split; [|apply pq_push_perm]. split; cbn; [lia|].
  intros u Hu. apply elem_of_union in Hu as [->%elem_of_singleton|Hu]; [lia|]. apply Hb in Hu. lia.
Qed.

Lemma post_below id to m after (s : Sys) :
  ids_below s -> currentUUID s + 1 < 2 ^ 64 -> post id to m after s = Ok (sent id to m after s).
Proof. intros H1 H2. unfold post. by rewrite (proj1 (sent_below id to m after s H1 H2)). Qed.

(** Programs that complete cause a message. *)
Lemma messages_call param k t tv g :
  direct (DoSyscall param k) t tv = Ok g -> (1 <= messages (DoSyscall param k) t tv)%nat.
Proof.
  cbn [direct messages]. intros H. destruct (syscallNumber param); try lia; res_inv; [lia|].
  destruct (negb _); lia.
Qed.

(** The thread of process [i] runs [p] up to the next message it sends. *)
Lemma exec_sends i m h p : forall app (s : Sys) g,
  direct p (currentTime s) (view m (mem s)) = Ok g ->
  app_host app = i_host i -> app_pid app = i_pid i ->
  registeredModule s !! i_host i = Some (NHost h) -> plain h -> ids_below s -> is_u 64 (currentTime s) ->
  currentUUID s + Z.of_nat (messages p (currentTime s) (view m (mem s))) < 2 ^ 64 ->
  exists msg st' app',
    Host.exec p app s = Ok (app', sent (i_host i) (i_host i) msg 0 s) /\ currentUUID s + 1 < 2 ^ 64 /\
    pending (i, st') = Some (mkTimer (i_host i) (i_host i) false (currentTime s) msg (currentUUID s + 1)) /\
    app_side i st' app' /\ running_app (i, st') = None /\ call_of st' = None /\
    outcome (currentTime s) (view m (mem s)) st' = Ok g /\
    S (unsent (currentTime s) (view m (mem s)) st') = messages p (currentTime s) (view m (mem s)).
Proof.
  induction p as [v|param k IH|k IH|a k IH]; intros app s g Hd Hh Hp Hr Hpl Hi Ht Hc; cbn [Host.exec].
  - cbn [messages] in Hc. unfold Host.exitProcess. rewrite Hh, Hp, post_below by (done || lia).
    exists (Return (i_pid i) v), (Exiting (currentTime s) (currentUUID s + 1) v).
    eexists. split; [reflexivity|]. split; [lia|]. done.
  - pose proof (messages_call _ _ _ _ _ Hd) as Hm.
    rewrite Hh, Hr. cbn [of_option mbind Res_bind host_running NetMod_view]. unfold Host.isRunning.
    rewrite (pl_running _ Hpl). cbn [negb]. unfold Host.issueSystemCall. rewrite Hp, post_below by (done || lia).
    exists (Syscall (i_pid i) param), (Calling (currentTime s) (currentUUID s + 1) param k).
    eexists. split; [reflexivity|]. split; [lia|]. do 4 (split; [done|]). split; [exact Hd|]. cbn [unsent]. lia.
  - by apply IH.
  - cbn [direct messages] in *. destruct (view m (mem s) !! a) as [x|] eqn:E; [|done].
    apply view_Some in E as [_ ->]. by apply (IH x).
Qed.

Lemma pairwise_cons i l : pairwise (i :: l) -> Forall (apart i) l /\ pairwise l.
Proof.
  intros H. split; [exact (H [] i l eq_refl)|]. intros l1 j l2 ->. pose proof (H (i :: l1) j l2 eq_refl) as Hj.
  by apply Forall_cons in Hj as [_ ?].
Qed.

Lemma running_nodup ps : pairwise (fst <$> ps) -> NoDup (omap running_app ps).
Proof.
  induction ps as [|p ps IH]; [constructor|]. rewrite fmap_cons. intros [Hi Hps]%pairwise_cons. cbn.
  destruct (running_app p) as [a|] eqn:E; [|by apply IH]. constructor; [|by apply IH].
  intros Ha. apply list_elem_of_omap in Ha as (q & Hq & Eq). rewrite Forall_fmap, Forall_forall in Hi.
  destruct (Hi q Hq) as [Hne _]. destruct p as [i []], q as [j []]; try done. cbn in *. congruence.
Qed.

Lemma filter_absent (a : Z) (l : list Z) : a ∉ l -> filter (fun x => x <> a) l = l.
Proof.
  induction l as [|x l IH]; [done|]. intros [Hx Hl]%not_elem_of_cons.
  rewrite filter_cons_True by congruence. by rewrite IH.
Qed.

Lemma wake_step l1 l2 i p s :
  inv (l1 ++ (i, Running p) :: l2) s ->
  exists s' st', wake_one (i_app i) s = Ok s' /\ currentTime s' = currentTime s /\
    runnableReady s' = filter (fun x => x <> i_app i) (runnableReady s) /\
    inv (l1 ++ (i, st') :: l2) s' /\ living (i, st') = Some i /\ load s' = load s.
Proof.
  intros Hinv. pose proof (in_procs _ _ Hinv) as [_ [[Hpid Hg (app & Happ & Hh & Hp & Hst & Hcode) (h & Hr & Hi1 & Hi2)] _]%Forall_cons]%Forall_app.
  cbn [fst snd outcome] in *.
  destruct (in_hosts _ _ Hinv (i_host i)) as (h' & Hr' & Hpl & _).
  { pose proof (in_at _ _ Hinv) as [_ [? _]%Forall_cons]%Forall_app. done. }
  rewrite Hr in Hr'. injection Hr' as <-.
  pose proof (in_room _ _ Hinv) as Hroom. rewrite to_send_middle in Hroom. cbn [fst snd unsent] in Hroom.
  destruct (exec_sends i (i_mem i) h p app s _ Hg Hh Hp Hr Hpl (in_ids _ _ Hinv) (in_time _ _ Hinv) ltac:(lia))
    as (msg & st' & app' & E & Hc & Hpend & Hside & Hrun & Hcall & Hout & Hun).
  destruct (sent_below (i_host i) (i_host i) msg 0 s (in_ids _ _ Hinv) Hc) as (_ & Hu & Hib & Hq).
  set (s1 := sent _ _ msg 0 s) in *. set (s' := delRunnable (i_app i) (Host.set_app (i_app i) app' s1)).
  exists s', st'. split; [|split; [done|split; [done|split; [|split; [by destruct st'|]]]]].
  - unfold wake_one. cbn [wake NetMod_class]. unfold Host.wake, Host.get_app. rewrite Happ. cbn [of_option mbind Res_bind].
    rewrite Hst, bool_decide_eq_true_2 by done. cbn [assert_that mbind Res_bind]. rewrite Hcode, E. cbn [mbind Res_bind].
    rewrite bool_decide_eq_true_2; [done|]. destruct (Host.exec_spec _ _ _ _ _ E) as (_ & _ & []); congruence.
  - eapply (inv_step _ _ i (Running p) st' h h app' s s' Hinv); [|by left].
    assert (currentTime s ⊞ 0 = currentTime s) as Et by (rewrite Z.add_0_r; apply wrap_small, (in_time _ _ Hinv)).
    constructor; try done.
    + by rewrite insert_id.
    + split; [by destruct st' as [| | | | |]|]. intros c. rewrite Hi2, Hcall. done.
    + cbn [outcome]. rewrite Hg. exact Hout.
    + exists (timerQueue s). split; [done|]. rewrite Hpend. cbn [option_list]. rewrite Et in Hq. exact Hq.
    + intros c Hc'. rewrite Hpend in Hc'. injection Hc' as <-. exact (in_time _ _ Hinv).
    + pose proof (in_ready _ _ Hinv) as Hrd. rewrite omap_middle in Hrd. cbn [running_app snd fst option_list] in Hrd.
      exists (omap running_app (l1 ++ l2)). split; [exact Hrd|]. rewrite Hrun. cbn [option_list Datatypes.app].
      change (runnableReady s') with (filter (fun x => x <> i_app i) (runnableReady s)). rewrite Hrd.
      pose proof (running_nodup _ (in_apart _ _ Hinv)) as Hnd. rewrite omap_middle in Hnd. cbn in Hnd.
      apply NoDup_cons in Hnd as [Hnin _]. 
      change (filter (fun x => x <> i_app i) (i_app i :: omap running_app (l1 ++ l2)) ≡ₚ omap running_app (l1 ++ l2)).
      rewrite filter_cons_False by (intros H; by apply H). by rewrite filter_absent.
    + change (currentUUID s1 + Z.of_nat (unsent (currentTime s) (view (i_mem i) (mem s)) st') <=
              currentUUID s + Z.of_nat (unsent (currentTime s) (view (i_mem i) (mem s)) (Running p))).
      cbn [unsent]. lia.
    + exact (in_time _ _ Hinv).
  - unfold load. change (timerQueue s') with (timerQueue s1). change (currentUUID s') with (currentUUID s1).
    rewrite Hq, Hu. cbn [length]. lia.
Qed.

Lemma wake_steps rs : forall ps s,
  inv ps s -> runnableReady s = rs ->
  exists s' ps', foldM wake_one rs s = Ok s' /\ inv ps' s' /\ runnableReady s' = [] /\
    fst <$> ps' = fst <$> ps /\ omap living ps' = omap living ps /\ load s' = load s.
Proof.
  induction rs as [|a rs IH]; intros ps s Hinv Hr; [by exists s, ps|].
  assert (NoDup (runnableReady s)) as Hnd by (rewrite (in_ready _ _ Hinv); apply running_nodup, (in_apart _ _ Hinv)).
  assert (a ∈ omap running_app ps) as Ha by (rewrite <- (in_ready _ _ Hinv), Hr; left).
  apply list_elem_of_omap in Ha as ([i st] & Hin & Hrun). destruct st as [p| | | | |]; try done. injection Hrun as <-.
  apply list_elem_of_split in Hin as (l1 & l2 & ->).
  destruct (wake_step l1 l2 i p s Hinv) as (s1 & st' & E & _ & Hr1 & Hinv1 & Hl & Hld).
  rewrite Hr in Hr1, Hnd. apply NoDup_cons in Hnd as [Hnin _].
  rewrite filter_cons_False, filter_absent in Hr1 by (done || intros H; by apply H).
  destruct (IH _ s1 Hinv1 Hr1) as (s' & ps' & E' & Hinv' & Hr' & Hf & Ho & Hld').
  exists s', ps'. cbn [foldM]. rewrite E. split; [done|]. split; [done|]. split; [done|].
  rewrite Hf, Ho, Hld', Hld, !fmap_app, !omap_app. split; [done|]. split; [|done]. f_equal. cbn [omap list_omap]. by rewrite Hl.
Qed.

Lemma wake_loop_ends f ps s :
  inv ps s -> exists s' ps', wake_loop (S f) s = Ok s' /\ inv ps' s' /\ runnableReady s' = [] /\
    fst <$> ps' = fst <$> ps /\ omap living ps' = omap living ps /\ load s' = load s.
Proof.
  intros Hinv. destruct (wake_steps _ ps s Hinv eq_refl) as (s' & ps' & E & H). exists s', ps'. split; [|done].
  cbn [wake_loop]. unfold wake_pass. destruct (runnableReady s) as [|a rs] eqn:Er; [by injection E as <-|].
  rewrite E. cbn [mbind Res_bind]. destruct H as (_ & Hr & _). destruct f; cbn [wake_loop]; by rewrite Hr.
Qed.

(** ** Messages *)

Lemma retire_ids u (s : Sys) : ids_below s -> ids_below (retire u s).
Proof. intros [H1 H2]. split; [done|]. intros x Hx. apply H2. cbn in Hx. set_solver. Qed.

(** The host of a process handles the process's message. *)
Record handles (i : Ident) (st st' : Stage) (t : Z) (h h' : HostT) (app' : Application)
  (rest : list (TimerContainer Message)) (s s' : Sys) : Prop := {
  ha_modules : registeredModule s' = registeredModule s;
  ha_step : host_step i h h';
  ha_side : host_side i st' h';
  ha_apps : apps s' = <[i_app i := app']> (apps s);
  ha_app : app_side i st' app';
  ha_memory a : a ∉ i_mem i -> mem s' !! a = mem s !! a;
  ha_goal : outcome t (view (i_mem i) (mem s')) st' = outcome t (view (i_mem i) (mem s)) st;
  ha_queue : timerQueue s' ≡ₚ option_list (pending (i, st')) ++ rest;
  ha_due c : pending (i, st') = Some c -> is_u 64 (wakeup c);
  ha_ready : runnableReady s' ≡ₚ option_list (running_app (i, st'));
  ha_ids : ids_below s';
  ha_room : currentUUID s' + Z.of_nat (unsent t (view (i_mem i) (mem s')) st') <=
            currentUUID s + Z.of_nat (unsent t (view (i_mem i) (mem s)) st);
  ha_time : currentTime s' = t;
  ha_sent : currentUUID s' = currentUUID s + Z.of_nat (length (option_list (pending (i, st'))));
}.

(** The state in which a message due at [t] is handled. *)
Abbreviation at_time t rest s := (set_time t (set_queue rest s)).

Lemma handled_inv l1 l2 i st st' t m u h h' app' rest s s' :
  let c := mkTimer (i_host i) (i_host i) false t m u in
  inv (l1 ++ (i, st) :: l2) s -> runnableReady s = [] -> pending (i, st) = Some c -> timerQueue s = c :: rest ->
  registeredModule s !! i_host i = Some (NHost h) ->
  Host.messageReceived (i_host i) (i_host i) m h (at_time t rest s) = Ok (h', s') ->
  handles i st st' t h h' app' rest s s' ->
  exists s2, process c (set_queue rest s) = Ok s2 /\ inv (l1 ++ (i, st') :: l2) s2 /\ load s2 = load s - 1.
Proof.
  intros c Hinv Hr Hp Hq Hh E [H1 H2 H3 H4 H5 H6 H7 H8 H9 H10 H11 H12 H13 H14].
  assert (carries_packet m = false) as Hm by (unfold c in Hp; destruct st; cbn in Hp; by simplify_eq).
  exists (retire u (store (i_host i) (NHost h') s')). split.
  { subst c. rewrite (process_self (i_host i) t m u h (set_queue rest s) Hm Hh), E. done. }
  assert (running_app (i, st) = None) as Hnr by (destruct st; done).
  split.
  2:{ unfold load. change (timerQueue (retire _ _)) with (timerQueue s'). change (currentUUID (retire _ _)) with (currentUUID s').
      rewrite H8, H14, Hq, length_app. cbn [length]. lia. }
  eapply (inv_step _ _ i st st' h h' app' s _ Hinv).
  - constructor; try done.
    + cbn. by rewrite H1.
    + change (outcome (currentTime s') (view (i_mem i) (mem s')) st' = outcome (currentTime s) (view (i_mem i) (mem s)) st).
      rewrite H13, H7. by destruct st.
    + exists rest. rewrite Hp. split; [by rewrite Hq|exact H8].
    + exists []. rewrite Hr, Hnr. split; [done|]. rewrite app_nil_r. exact H10.
    + by apply retire_ids.
    + change (currentUUID s' + Z.of_nat (unsent (currentTime s') (view (i_mem i) (mem s')) st') <=
              currentUUID s + Z.of_nat (unsent (currentTime s) (view (i_mem i) (mem s)) st)).
      rewrite H13. etrans; [exact H12|]. by destruct st.
    + change (is_u 64 (currentTime s')). rewrite H13.
      pose proof (in_due _ _ Hinv) as Hd. rewrite Hq in Hd. apply Forall_cons in Hd as [Hd _]. exact Hd.
  - right. pose proof (in_ready _ _ Hinv) as Hrd. rewrite Hr, omap_middle, Hnr in Hrd. by apply Permutation_nil_l in Hrd.
Qed.

Lemma served_plain oid c m h :
  plain h -> Host.default_installed oid h -> is_u 64 c -> plain (served oid c m h).
Proof.
  intros [H1 _ H3 _] (H21 & H22 & H23) Hc. constructor; try done. exists oid. split; [done|]. split; [done|].
  apply lookup_insert_eq.
Qed.

(** *** What the host does for a process that called or sleeps *)
Section Handle.
Context (i : Ident) (k : Z -> Program) (oid t : Z) (h : HostT) (app : Application)
  (rest : list (TimerContainer Message)) (s : Sys).
Context (Hpid : i_pid i <> -1) (Hproc : Host.processInfoMap h !! i_pid i = Some (Host.mkProc (i_app i) ∅)).
Context (Happ : apps s !! i_app i = Some app) (Hhost : app_host app = i_host i) (Happid : app_pid app = i_pid i).
Context (Hst : app_state app = WAITING) (Hcode : app_code app = k).
Context (Hpl : plain h) (Hdef : Host.default_installed oid h) (Hready : runnableReady s = []) (Hids : ids_below s).
Abbreviation s1 := (at_time t rest s).

Lemma served_step c m :
  is_u 64 c -> (forall x pid, pid <> i_pid i -> m !! x = Some pid <-> Host.syscallMap h !! x = Some pid) ->
  host_step i h (served oid c m h).
Proof. intros Hc Hm. constructor; [by apply served_plain|done|exact Hm]. Qed.

(** An answer with [v] to the call [c], when the calls recorded are [m] and the
    memory is [tv]. *)
Lemma answered_handles st v c c' m tv :
  is_u 64 c' -> m !! c = Some (i_pid i) -> (forall x, x <> c -> m !! x = Host.syscallMap h !! x) ->
  (forall q, Host.syscallMap h !! c = Some q -> q = i_pid i) ->
  (forall x, Host.syscallMap h !! x = Some (i_pid i) -> x = c) ->
  (forall a, a ∉ i_mem i -> tv !! a = mem s !! a) ->
  outcome t (view (i_mem i) tv) (Running (k v)) = outcome t (view (i_mem i) (mem s)) st ->
  (unsent t (view (i_mem i) tv) (Running (k v)) <= unsent t (view (i_mem i) (mem s)) st)%nat ->
  exists s', Host.returnSystemCall c v (Host.set_syscalls c' m h)
      (set_statics (mkEnv (registry (statics s)) (apps s) tv) s1) =
      Ok (Host.set_syscalls c' (delete c m) h, s') /\
    handles i st (Running (k v)) t h (served oid c' (delete c m) h) (resumed (i_host i) (i_pid i) v k) rest s s'.
Proof.
  intros Hc' Hc Hm Hown Hone Htv Hout Hun.
  assert (forall x q, delete c m !! x = Some q <-> x <> c /\ Host.syscallMap h !! x = Some q) as Hd.
  { intros x q. rewrite lookup_delete_Some. split; intros [Hx Hq]; (split; [done|]); [rewrite <- Hm|rewrite Hm]; done. }
  eexists. split.
  { apply (answer_call (i_host i) (i_app i) (i_pid i) c v app (Host.set_syscalls c' m h)); done. }
  rewrite Hcode. constructor; try done.
  - apply served_step; [done|]. intros x q Hne. rewrite Hd. split; [by intros [_ ?]|]. intros H. split; [|done].
    intros ->. apply Hown in H. done.
  - split; [done|]. intros x. change (Host.syscallMap (served oid c' (delete c m) h)) with (delete c m). rewrite Hd.
    split; [|done]. intros [Hne H]. by apply Hone in H.
  - cbn [set_ready currentUUID Host.set_app set_statics set_time set_queue statics timevals]. lia.
  - cbn. lia.
Qed.

(** The call is recorded under a new identifier and reaches the interface. *)
Lemma call_received param :
  (exists u, is_u 64 u /\ Host.syscallMap h !! u = None) -> Host.syscall_namespace param (Host.mkProc (i_app i) ∅) = Ok (0, 0) ->
  exists c, is_u 64 c /\ Host.syscallMap h !! c = None /\
    Host.messageReceived (i_host i) (i_host i) (Syscall (i_pid i) param) h s1 =
    ('(_, h, s) ← Host.run_prog (i_host i) (Host.self_of DefaultSystemCall) (DefaultSyscall.systemCallback c (i_pid i) param)
        (Host.set_syscalls (c ⊞ 1) (<[c := i_pid i]> (Host.syscallMap h)) h) s1;
     Ok (Host.set_object oid DefaultSystemCall h, s)).
Proof.
  intros Hfree Hns. destruct (Host.receive_syscall_dispatch (i_host i) (i_pid i) (Host.mkProc (i_app i) ∅) app param (0, 0) oid h s1)
    as (c & Hc & Hn & E); [by split|done|apply Hdef|apply (pl_start _ Hpl)|done|].
  exists c. split; [done|]. split; [done|]. cbn [Host.messageReceived]. rewrite E. apply call_default, Hdef.
Qed.

Lemma same_env : set_statics (mkEnv (registry (statics s)) (apps s) (mem s)) s1 = s1.
Proof. clear. by destruct s as [? ? ? ? ? ? ? ? ? []]. Qed.

Definition no_call : Prop := forall x, Host.syscallMap h !! x <> Some (i_pid i).

Lemma gettimeofday_handles u param :
  no_call -> (exists u, is_u 64 u /\ Host.syscallMap h !! u = None) -> syscallNumber param = GETTIMEOFDAY ->
  outcome t (view (i_mem i) (mem s)) (Calling t u param k) = Ok (i_goal i) ->
  exists st' h' app' s', Host.messageReceived (i_host i) (i_host i) (Syscall (i_pid i) param) h s1 = Ok (h', s') /\
    handles i (Calling t u param k) st' t h h' app' rest s s' /\ living (i, st') = Some i.
Proof.
  intros Hno Hfree Hn Hg. destruct (call_received param Hfree) as (c & Hc & Hnone & E).
  { unfold Host.syscall_namespace. by rewrite Hn. }
  rewrite E. clear E. unfold DefaultSyscall.systemCallback. cbn [outcome direct] in Hg. rewrite Hn in Hg |- *.
  destruct (get_ptr (param0 param)) as [a|] eqn:Ea; [|done]. destruct (get_ptr (param1 param)) as [tz|] eqn:Etz; [|done].
  cbn [lift mbind HProg_bind hbind Res_bind HostApi.getCurrentTime HostApi.returnSystemCall Host.run_prog] in Hg |- *.
  set (m := <[c := i_pid i]> (Host.syscallMap h)).
  assert (forall x, x <> c -> m !! x = Host.syscallMap h !! x) as Hm by (intros x Hx; by apply lookup_insert_ne).
  assert (forall q, Host.syscallMap h !! c = Some q -> q = i_pid i) as Hown by (intros q Hq; congruence).
  assert (forall x, Host.syscallMap h !! x = Some (i_pid i) -> x = c) as Hone by (intros x Hx; by destruct (Hno x)).
  pose proof (fun v tv => answered_handles (Calling t u param k) v c (c ⊞ 1) m tv
    (wrap_range 64 (c + 1) ltac:(lia)) (lookup_insert_eq _ _ _) Hm Hown Hone) as Ans.
  destruct (negb (tz =? 0)) eqn:Ez.
  - destruct (Ans (- DefaultSyscall.EINVAL) (mem s)) as (s' & E & H); [done| | |].
    { cbn [outcome direct]. rewrite Hn, Ea, Etz. cbn [mbind Res_bind]. by rewrite Ez. }
    { cbn [unsent messages]. rewrite Hn, Ea, Etz. cbn [Res_bind]. rewrite Ez. cbn [Nat.pred]. lia. }
    rewrite same_env in E. cbn [Host.run_prog HostApi.returnSystemCall]. rewrite E. cbn [mbind Res_bind]. eexists _, _, _, _. split; [reflexivity|]. split; [exact H|done].
  - cbn [Host.run_prog]. unfold Host.store_timeval. destruct (a =? 0) eqn:Ea0; [done|].
    change (timevals (statics s1)) with (mem s). destruct (view (i_mem i) (mem s) !! a) as [old|] eqn:Eo; [|done].
    apply view_Some in Eo as [Hin Eo]. rewrite Eo. unfold getTime. destruct getMultiplier_values as (_ & -> & _).
    change (10 ^ 3) with 1000. change (getCurrentTime s1) with t. cbn [mbind Res_bind]. set (tv' := <[a := _]> (mem s)).
    destruct (Ans 0 tv') as (s' & E & H).
    { intros x Hx. unfold tv'. apply lookup_insert_ne. intros ->. contradiction. }
    { cbn [outcome direct]. unfold tv'. rewrite view_insert, Hn, Ea, Etz by done. cbn [mbind Res_bind]. rewrite Ez, Ea0.
      rewrite view_lookup, Eo by done. done. }
    { cbn [unsent messages]. unfold tv'. rewrite view_insert, Hn, Ea, Etz by done. cbn [Res_bind]. rewrite Ez. cbn [Nat.pred]. lia. }
    cbn [Host.run_prog HostApi.returnSystemCall]. match type of E with ?l = _ => change (Host.returnSystemCall c 0 _ _) with l end.
    rewrite E. cbn [mbind Res_bind]. eexists _, _, _, _. split; [reflexivity|]. split; [exact H|done].
Qed.

Lemma nsleep_handles u param :
  no_call -> (exists u, is_u 64 u /\ Host.syscallMap h !! u = None) -> syscallNumber param = NSLEEP ->
  currentUUID s + Z.of_nat (unsent t (view (i_mem i) (mem s)) (Calling t u param k)) < 2 ^ 64 ->
  outcome t (view (i_mem i) (mem s)) (Calling t u param k) = Ok (i_goal i) ->
  exists st' h' app' s', Host.messageReceived (i_host i) (i_host i) (Syscall (i_pid i) param) h s1 = Ok (h', s') /\
    handles i (Calling t u param k) st' t h h' app' rest s s' /\ living (i, st') = Some i.
Proof.
  intros Hno Hfree Hn Hroom Hg. destruct (call_received param Hfree) as (c & Hc & Hnone & E).
  { unfold Host.syscall_namespace. by rewrite Hn. }
  rewrite E. clear E. unfold DefaultSyscall.systemCallback. cbn [outcome direct] in Hg. cbn [unsent messages] in Hroom. rewrite Hn in Hg, Hroom |- *.
  destruct (get_uint64 (param0 param)) as [n|] eqn:En; [|done].
  cbn [lift mbind HProg_bind hbind Res_bind HostApi.addTimer Host.run_prog Host.self_of Host.self_timer].
  rewrite Host.default_timer_name. cbn [of_option mbind Res_bind]. unfold Host.addTimer, sendMessageSelf.
  destruct (sent_below (i_host i) (i_host i) (Timer DefaultSyscall.timer_name (any_uuid c)) n s1 Hids) as (-> & Hu & Hib & Hq); [cbn; lia|].
  cbn [mbind Res_bind]. exists (Sleeping (t ⊞ n) (currentUUID s + 1) c k). eexists _, app, _.
  split; [reflexivity|]. split; [|done]. constructor; try done.
  - apply served_step; [apply wrap_range; lia|]. intros x q Hne. rewrite lookup_insert_Some. naive_solver.
  - split; [done|]. intros x. change (Host.syscallMap _) with (<[c := i_pid i]> (Host.syscallMap h)).
    rewrite lookup_insert_Some. split; [|intros [= <-]; by left]. intros [[-> _]|[_ Hx]]; [done|]. by apply Hno in Hx.
  - cbn. by rewrite insert_id.
  - cbn [outcome direct]. by rewrite Hn, En.
  - intros x [= <-]. apply wrap_range. lia.
  - change (runnableReady s ≡ₚ []). by rewrite Hready.
  - cbn [unsent messages]. rewrite Hn, En, Hu.
    change (currentUUID s + 1 + Z.of_nat (messages (k 0) (t ⊞ n) (view (i_mem i) (mem s))) <=
            currentUUID s + Z.of_nat (S (messages (k 0) (t ⊞ n) (view (i_mem i) (mem s))))). lia.
Qed.

(** A socket nobody provides: the process stays blocked. *)
Lemma socket_handles u param :
  no_call -> syscallNumber param <> NSLEEP -> syscallNumber param <> GETTIMEOFDAY ->
  outcome t (view (i_mem i) (mem s)) (Calling t u param k) = Ok (i_goal i) ->
  exists st' h' app' s', Host.messageReceived (i_host i) (i_host i) (Syscall (i_pid i) param) h s1 = Ok (h', s') /\
    handles i (Calling t u param k) st' t h h' app' rest s s' /\ living (i, st') = Some i.
Proof.
  intros Hno Hn1 Hn2 Hg. cbn [outcome direct] in Hg. cbn [Host.messageReceived]. unfold Host.receive_syscall.
  replace (i_pid i =? -1) with false by (symmetry; apply Z.eqb_neq; lia). cbn [negb assert_that mbind Res_bind].
  rewrite Hproc. cbn [of_option mbind Res_bind Host.application]. unfold Host.get_app. change (apps s1) with (apps s).
  rewrite Happ. cbn [of_option mbind Res_bind]. rewrite Happid, Z.eqb_refl. cbn [assert_that mbind Res_bind].
  unfold Host.syscall_namespace. destruct (syscallNumber param) eqn:Esys; try done; try (by destruct (get_int (param0 param))).
  destruct (get_int (param0 param)) as [domain|] eqn:E0; [|done]. destruct (get_int (param2 param)) as [protocol|] eqn:E2; [|done].
  cbn [mbind Res_bind] in Hg |- *. case_bool_decide as Hns; [done|]. rewrite (pl_iface _ Hpl _ Hns).
  exists (Stuck t), h, app, s1. split; [done|]. split; [|done]. constructor; try done.
  - split; [done|]. intros x. split; [intros Hx; by apply Hno in Hx|done].
  - cbn. by rewrite insert_id.
  - cbn [outcome direct]. rewrite Esys, E0, E2. cbn [mbind Res_bind]. by rewrite bool_decide_eq_false_2.
  - change (runnableReady s ≡ₚ []). by rewrite Hready.
  - cbn. lia.
  - cbn. lia.
Qed.

(** The timer of a sleeping process. *)
Lemma timer_handles u c :
  (forall x, Host.syscallMap h !! x = Some (i_pid i) <-> x = c) ->
  exists st' h' app' s', Host.messageReceived (i_host i) (i_host i) (Timer DefaultSyscall.timer_name (any_uuid c)) h s1 = Ok (h', s') /\
    handles i (Sleeping t u c k) st' t h h' app' rest s s' /\ living (i, st') = Some i.
Proof.
  intros Hc. assert (Host.syscallMap h !! c = Some (i_pid i)) as Hcc by by apply Hc.
  destruct (answered_handles (Sleeping t u c k) 0 c (Host.syscallIDStart h) (Host.syscallMap h) (mem s)) as (s' & E & H);
    try done; [apply (pl_start _ Hpl)|congruence|apply Hc|].
  rewrite same_env in E. replace (Host.set_syscalls (Host.syscallIDStart h) (Host.syscallMap h) h) with h in E by by destruct h.
  destruct Hdef as (_ & Htm & Hobj). cbn [Host.messageReceived]. rewrite Htm. cbn [of_option mbind Res_bind].
  rewrite call_default_timer by done. cbn [Host.run_prog HostApi.returnSystemCall]. rewrite E. cbn [mbind Res_bind].
  eexists _, _, _, _. split; [reflexivity|]. split; [exact H|done].
Qed.

End Handle.

(** The end of a process. *)
Lemma exit_handles i t u v h app rest s :
  Host.processInfoMap h !! i_pid i = Some (Host.mkProc (i_app i) ∅) -> apps s !! i_app i = Some app ->
  app_side i (Exiting t u v) app -> plain h -> runnableReady s = [] -> ids_below s ->
  (forall x, Host.syscallMap h !! x <> Some (i_pid i)) ->
  exists h' s', Host.messageReceived (i_host i) (i_host i) (Return (i_pid i) v) h (at_time t rest s) = Ok (h', s') /\
    handles i (Exiting t u v) (Over t v) t h h' app rest s s'.
Proof.
  intros Hproc Happ (Hh & Hp & Hst) Hpl Hr Hids Hno. cbn [Host.messageReceived]. unfold Host.receive_return.
  rewrite Hproc. cbn [of_option mbind Res_bind Host.application]. unfold Host.get_app. change (apps (at_time t rest s)) with (apps s).
  rewrite Happ. cbn [of_option mbind Res_bind]. rewrite Hp, bool_decide_eq_true_2.
  2:{ intros x q Hx ->. by apply Hno in Hx. }
  cbn [assert_that mbind Res_bind]. eexists _, _. split; [reflexivity|]. constructor; try done.
  - constructor; [by destruct Hpl|..|done]. intros q Hq. cbn. by rewrite lookup_delete_ne.
  - split; [cbn; by rewrite lookup_delete_eq|]. intros x. split; [intros Hx; by apply Hno in Hx|done].
  - cbn. by rewrite insert_id.
  - cbn. by rewrite Hr.
  - cbn. lia.
Qed.

(** There are more system call identifiers than processes. *)
Lemma fresh_below (X : gset Z) (n : nat) : (size X <= n)%nat -> exists u, 0 <= u <= Z.of_nat n /\ u ∉ X.
Proof.
  intros HX. destruct (filter (fun u => u ∉ X) (seqZ 0 (Z.of_nat (S n)))) as [|u l] eqn:E.
  - exfalso. assert (list_to_set (seqZ 0 (Z.of_nat (S n))) ⊆ X) as Hsub.
    { intros u Hu. apply elem_of_list_to_set in Hu. destruct (decide (u ∈ X)) as [|Hn]; [done|]. exfalso.
      assert (u ∈ filter (fun u => u ∉ X) (seqZ 0 (Z.of_nat (S n)))) as Hf by by apply list_elem_of_filter.
      rewrite E in Hf. by apply not_elem_of_nil in Hf. }
    apply subseteq_size in Hsub. rewrite size_list_to_set, length_seqZ in Hsub by apply NoDup_seqZ. lia.
  - assert (u ∈ filter (fun u => u ∉ X) (seqZ 0 (Z.of_nat (S n)))) as Hf by (rewrite E; left).
    apply list_elem_of_filter in Hf as [Hn Hu]. apply elem_of_seqZ in Hu. exists u. split; [lia|done].
Qed.

Lemma list_to_set_size (l : list Z) : (size (list_to_set l : gset Z) <= length l)%nat.
Proof.
  induction l as [|x l IH]; cbn; [by rewrite size_empty|]. rewrite size_union_alt, size_singleton.
  pose proof (subseteq_size (list_to_set l ∖ {[x]} : gset Z) (list_to_set l) ltac:(set_solver)). lia.
Qed.

Lemma length_omap_le {A B} (f : A -> option B) l : (length (omap f l) <= length l)%nat.
Proof. induction l as [|x l IH]; [done|]. cbn. destruct (f x); cbn; lia. Qed.

Lemma free_call ps s id h :
  inv ps s -> id ∈ hs -> registeredModule s !! id = Some (NHost h) ->
  exists u, is_u 64 u /\ Host.syscallMap h !! u = None.
Proof.
  intros Hinv Hid Hh. destruct (in_hosts _ _ Hinv id Hid) as (h' & Hh' & _ & Hown). rewrite Hh in Hh'. injection Hh' as <-.
  assert (dom (Host.syscallMap h) ⊆ list_to_set (omap (call_of ∘ snd) ps)) as Hsub.
  { intros c [pid Hc]%elem_of_dom. apply elem_of_list_to_set, list_elem_of_omap.
    destruct (proj1 (list_elem_of_fmap _ _ _) (Hown _ _ Hc)) as (p & E & Hp). injection E as E1 E2.
    exists p. split; [done|]. pose proof (in_procs _ _ Hinv) as Hall. rewrite Forall_forall in Hall.
    destruct (po_host _ _ (Hall p Hp)) as (hp & Hhp & _ & Hcalls). rewrite <- E1, Hh in Hhp. injection Hhp as <-.
    cbn. apply Hcalls. by rewrite <- E2. }
  apply subseteq_size in Hsub. pose proof (in_count _ _ Hinv) as Hcount.
  destruct (fresh_below (dom (Host.syscallMap h)) (length ps)) as (u & Hu & Hn).
  { etrans; [exact Hsub|]. rewrite list_to_set_size. apply length_omap_le. }
  exists u. split; [unfold is_u; lia|]. by apply not_elem_of_dom.
Qed.

(** Every process of [ps] is a living one of [ps'], or [c] ends it as it should. *)
Definition delivers (c : TimerContainer Message) (i : Ident) : Prop :=
  exists v tv, i_goal i = (Some v, wakeup c, tv) /\ tc_to c = i_host i /\ message c = Return (i_pid i) v.

Definition ends (c : TimerContainer Message) (ps ps' : list Proc) : Prop :=
  forall j, j ∈ omap living ps -> j ∈ omap living ps' \/ delivers c j.

(** [c] is handled. *)
Definition stepped (ps : list Proc) (s : Sys) (c : TimerContainer Message) (rest : list (TimerContainer Message)) : Prop :=
  exists s' ps', process c (set_queue rest s) = Ok s' /\ inv ps' s' /\ fst <$> ps' = fst <$> ps /\
    load s' = load s - 1 /\ ends c ps ps'.

Lemma handled_stepped l1 l2 i st st' t m u h h' app' rest s s' :
  let c := mkTimer (i_host i) (i_host i) false t m u in
  inv (l1 ++ (i, st) :: l2) s -> runnableReady s = [] -> pending (i, st) = Some c -> timerQueue s = c :: rest ->
  registeredModule s !! i_host i = Some (NHost h) ->
  Host.messageReceived (i_host i) (i_host i) m h (at_time t rest s) = Ok (h', s') ->
  handles i st st' t h h' app' rest s s' -> living (i, st') = Some i \/ delivers c i ->
  stepped (l1 ++ (i, st) :: l2) s c rest.
Proof.
  intros c Hinv Hr Hp Hq Hh E Hha Hl.
  destruct (handled_inv l1 l2 i st st' t m u h h' app' rest s s' Hinv Hr Hp Hq Hh E Hha) as (s2 & E2 & Hinv2 & Hld).
  exists s2, (l1 ++ (i, st') :: l2). do 2 (split; [done|]). rewrite !fmap_app. split; [done|]. split; [done|].
  intros j. rewrite !omap_middle, !elem_of_app. intros [Hj|Hj]; [|by left; right].
  assert (j = i) as -> by (destruct st; cbn in Hj; set_solver). destruct Hl as [->|Hl]; [left; left; cbn; by left|by right].
Qed.

(** One message. *)
Lemma message_step ps s c rest :
  inv ps s -> runnableReady s = [] -> timerQueue s = c :: rest -> stepped ps s c rest.
Proof.
  intros Hinv Hr Hq. assert (c ∈ omap pending ps) as Hc by (rewrite <- (in_queue _ _ Hinv), Hq; left).
  apply list_elem_of_omap in Hc as ([i st] & Hin & Hp). apply list_elem_of_split in Hin as (l1 & l2 & ->).
  pose proof (in_procs _ _ Hinv) as [_ [[Hpid Hg (app & Happ & Hside) (h & Hh & Hproc & Hcalls)] _]%Forall_cons]%Forall_app.
  pose proof (in_at _ _ Hinv) as [_ [Hat _]%Forall_cons]%Forall_app. cbn [fst snd] in *.
  destruct (in_hosts _ _ Hinv _ Hat) as (h' & Hh' & Hpl & _). rewrite Hh in Hh'. injection Hh' as <-.
  destruct (pl_default _ Hpl) as [oid Hdef]. pose proof (free_call _ _ _ _ Hinv Hat Hh) as Hfree.
  pose proof (in_ids _ _ Hinv) as Hids. pose proof (in_room _ _ Hinv) as Hroom. rewrite to_send_middle in Hroom. cbn [fst snd] in Hroom.
  destruct st as [p|t u param k|t u cl k|t u v| |]; try done; pose proof Hp as Hp'; cbn in Hp; injection Hp as <-;
    destruct Hside as (Hh1 & Hp1 & Hst).
  - destruct Hst as [Hst Hcode]. assert (forall x, Host.syscallMap h !! x <> Some (i_pid i)) as Hno by (intros x Hx; by apply Hcalls in Hx).
    assert (exists st' h' app' s', Host.messageReceived (i_host i) (i_host i) (Syscall (i_pid i) param) h (at_time t rest s) = Ok (h', s') /\
      handles i (Calling t u param k) st' t h h' app' rest s s' /\ living (i, st') = Some i) as (st' & h' & app' & s' & E & Hha & Hl).
    { destruct (decide (syscallNumber param = NSLEEP)) as [Hn|Hn]; [|destruct (decide (syscallNumber param = GETTIMEOFDAY)) as [Hn'|Hn']].
      - eapply (nsleep_handles i k oid t h app); try done. cbn [unsent] in Hroom |- *. lia.
      - by eapply (gettimeofday_handles i k oid t h app).
      - by eapply (socket_handles i k t h app). }
    eapply handled_stepped; try done. by left.
  - destruct Hst as [Hst Hcode]. destruct (timer_handles i k oid t h app rest s) with (u := u) (c := cl) as (st' & h' & app' & s' & E & Hha & Hl); try done.
    { intros x. rewrite Hcalls. cbn. split; [by intros [= ->]|by intros ->]. }
    eapply handled_stepped; try done. by left.
  - destruct (exit_handles i t u v h app rest s) as (h' & s' & E & Hha); try done.
    { intros x Hx. by apply Hcalls in Hx. }
    eapply handled_stepped; try done. right. cbn in Hg. injection Hg as Hg. eexists v, _. by rewrite <- Hg.
Qed.

(** ** Whole runs *)

Lemma run_ends n : forall ps s f,
  inv ps s -> load s + limit < Z.of_nat n -> (n + 1 < f)%nat ->
  exists s' ps' log, run f 0 s = Ok (s', log) /\ inv ps' s' /\ fst <$> ps' = fst <$> ps /\
    runnableReady s' = [] /\ timerQueue s' = [] /\
    forall j, j ∈ omap living ps -> j ∈ omap living ps' \/ Exists (fun c => delivers c j) log.
Proof.
  induction n as [|n IH]; intros ps s f Hinv Hl Hf.
  { exfalso. pose proof (in_room _ _ Hinv). unfold load in Hl. lia. }
  destruct f as [|[|f]]; [lia..|].
  destruct (wake_loop_ends f ps s Hinv) as (s1 & ps1 & E1 & Hinv1 & Hr1 & Hf1 & Ho1 & Hl1).
  assert (run (S (S f)) 0 s = (match timerQueue s1 with [] => Ok (s1, []) | top :: rest =>
     s ← process top (set_queue rest s1); '(s, log) ← run (S f) 0 s; Ok (s, top :: log) end)) as E.
  { cbn [run]. rewrite E1. cbn [mbind Res_bind]. by destruct (timerQueue s1). }
  rewrite E. clear E. destruct (timerQueue s1) as [|c rest] eqn:Eq.
  { exists s1, ps1, []. do 5 (split; [done|]). intros j Hj. left. by rewrite Ho1. }
  destruct (message_step ps1 s1 c rest Hinv1 Hr1 Eq) as (s2 & ps2 & E2 & Hinv2 & Hf2 & Hl2 & Hend).
  destruct (IH ps2 s2 (S f) Hinv2 ltac:(lia) ltac:(lia)) as (s' & ps' & log & E' & Hinv' & Hf' & Hr' & Hq' & Hend').
  exists s', ps', (c :: log). rewrite E2. cbn [mbind Res_bind]. rewrite E'. split; [done|]. split; [done|].
  split; [congruence|]. do 2 (split; [done|]). intros j Hj. rewrite <- Ho1 in Hj.
  destruct (Hend j Hj) as [Hj2|Hd]; [|right; by left]. destruct (Hend' j Hj2) as [|Hex]; [by left|right; by right].
Qed.

(** A process that has come to its end. *)
Definition at_end (s : Sys) (i : Ident) : Prop :=
  let '(o, t, tv) := i_goal i in
  view (i_mem i) (mem s) = tv /\
  exists h app, registeredModule s !! i_host i = Some (NHost h) /\ apps s !! i_app i = Some app /\
    match o with
    | Some _ => Host.processInfoMap h !! i_pid i = None /\ app_state app = TERMINATED
    | None => is_Some (Host.processInfoMap h !! i_pid i) /\ app_state app = WAITING
    end.

Lemma ended_finished ps s p :
  inv ps s -> runnableReady s = [] -> timerQueue s = [] -> p ∈ ps ->
  at_end s p.1 /\ (p.1 ∈ omap living ps -> exists t tv, i_goal p.1 = (None, t, tv)).
Proof.
  intros Hinv Hr Hq Hp. pose proof (in_procs _ _ Hinv) as Hall. rewrite Forall_forall in Hall.
  assert (forall q, q ∈ ps -> running_app q = None /\ pending q = None) as Hidle.
  { intros q Hin. split.
    - destruct (running_app q) as [a|] eqn:E; [|done]. assert (a ∈ omap running_app ps) as Ha by (apply list_elem_of_omap; eauto).
      rewrite <- (in_ready _ _ Hinv), Hr in Ha. by apply not_elem_of_nil in Ha.
    - destruct (pending q) as [c|] eqn:E; [|done]. assert (c ∈ omap pending ps) as Hc by (apply list_elem_of_omap; eauto).
      rewrite <- (in_queue _ _ Hinv), Hq in Hc. by apply not_elem_of_nil in Hc. }
  split.
  - destruct (Hall p Hp) as [_ Hg (app & Happ & Hs) (h & Hh & Hproc & _)]. destruct (Hidle p Hp) as [H1 H2].
    destruct p as [i st]. cbn [fst snd] in *. unfold at_end.
    destruct st; try done; cbn in Hg; injection Hg as <-; (split; [done|]); exists h, app; (split; [done|]); (split; [done|]);
      destruct Hs as (_ & _ & Hs); rewrite Hproc; done.
  - intros Hl. apply list_elem_of_omap in Hl as ([j st] & Hj & Hlive). destruct (Hidle _ Hj) as [H1 H2].
    destruct (Hall _ Hj) as [_ Hg _ _]. destruct st; try done. cbn in Hlive, Hg. injection Hlive as ->. injection Hg as Hg.
    rewrite <- Hg. by eexists _, _.
Qed.

(** ** Launching *)

Lemma new_key_fresh {A} (m : gmap Z A) : m !! Host.new_key m = None.
Proof.
  destruct (m !! Host.new_key m) as [x|] eqn:E; [|done]. exfalso.
  assert (forall l y, y ∈ l -> y <= foldr Z.max 0 l) as Hmax.
  { induction l as [|z l IH]; intros y Hy; [by apply not_elem_of_nil in Hy|]. cbn.
    apply elem_of_cons in Hy as [->|Hy]; [lia|]. specialize (IH y Hy). lia. }
  specialize (Hmax (fst <$> map_to_list m) (Host.new_key m)). unfold Host.new_key in *.
  assert (1 + foldr Z.max 0 (fst <$> map_to_list m) ∈ fst <$> map_to_list m) as Hin; [|specialize (Hmax Hin); lia].
  apply list_elem_of_fmap. eexists (_, x). split; [reflexivity|]. by apply elem_of_map_to_list.
Qed.

(** [Host::addApplication] and [Host::launchApplication]. *)
Definition launch (id : Z) (main : Program) (s : Sys) : Res Sys :=
  m ← deref id s;
  match m with
  | NHost h =>
      '(h, s, pid) ← Host.addApplication id main h s;
      s ← Host.launchApplication pid h s;
      Ok (store id (NHost h) s)
  | _ => Err BadCast
  end.

(** The state after a launch. *)
Lemma launch_result id main h s :
  registeredModule s !! id = Some (NHost h) -> 0 <= Host.pidStart h < Host.MAX_PID ->
  (exists x, 0 <= x < Host.MAX_PID /\ Host.processInfoMap h !! x = None) ->
  (Host.new_key (apps s) ∉ runnableReady s) ->
  let a := Host.new_key (apps s) in
  exists pid start s', 0 <= pid < Host.MAX_PID /\ 0 <= start < Host.MAX_PID /\ Host.processInfoMap h !! pid = None /\
    launch id main s = Ok s' /\
    registeredModule s' = <[id := NHost (Host.set_processes start (<[pid := Host.mkProc a ∅]> (Host.processInfoMap h)) h)]> (registeredModule s) /\
    apps s' = <[a := mkApp id pid 0 READY (fun _ => main)]> (apps s) /\ mem s' = mem s /\
    currentTime s' = currentTime s /\ timerQueue s' = timerQueue s /\ runnableReady s' ≡ₚ a :: runnableReady s /\
    activeUUID s' = activeUUID s /\ currentUUID s' = currentUUID s.
Proof.
  intros Hh Hstart (y & Hy & Hfree) Hnew a. unfold launch. rewrite (deref_some id s _ Hh). cbn [mbind Res_bind].
  unfold Host.addApplication. fold a. unfold Host.registerProcess. unfold Host.MAX_PID in *.
  pose proof (cyclic_search_total Host.MAX_FD (dom (Host.processInfoMap h)) (Host.pidStart h) Hstart
    (S (size (dom (Host.processInfoMap h)))) ltac:(lia)) as H.
  destruct (cyclic_search _ _ _ _ _) as [[pid|]|]; [| |done].
  2:{ exfalso. apply H in Hy. apply elem_of_dom in Hy as [z Hz]. congruence. }
  destruct H as (n & Hn & Epid & Hnin & _). cbn [mbind Res_bind]. unfold Host.get_app.
  cbn [Host.set_app set_statics statics applications]. rewrite lookup_insert_eq. cbn [of_option mbind Res_bind].
  unfold Host.launchApplication. cbn [Host.processInfoMap Host.set_processes]. rewrite lookup_insert_eq.
  cbn [of_option mbind Res_bind Host.application]. unfold Host.get_app.
  cbn [Host.set_app set_statics statics applications app_host syscallRet app_state app_code]. rewrite lookup_insert_eq.
  cbn [of_option mbind Res_bind app_pid]. rewrite Z.eqb_refl. cbn [assert_that mbind Res_bind].
  unfold Host.start. cbn [app_state]. rewrite (bool_decide_eq_true_2 (CREATED = CREATED)) by done.
  cbn [assert_that mbind Res_bind app_state]. unfold addRunnable. rewrite (bool_decide_eq_true_2 (READY = READY)) by done.
  cbn [assert_that mbind Res_bind runnableReady set_statics]. rewrite bool_decide_eq_false_2 by exact Hnew.
  cbn [mbind Res_bind]. eexists pid, _, _. split; [rewrite Epid; apply Z.mod_pos_bound; done|].
  split; [apply Z.mod_pos_bound; done|]. split; [by apply not_elem_of_dom|]. split; [reflexivity|]. split; [done|]. split.
  { cbn. by rewrite !insert_insert_eq. }
  do 3 (split; [done|]). split; [|done]. cbn [store System.set_modules set_ready runnableReady].
  rewrite <- Permutation_middle, take_drop. done.
Qed.

Definition started (p : Proc) : Prop := match p.2 with Running _ => True | _ => False end.

Lemma pairwise_snoc l i : pairwise l -> Forall (fun j => apart j i) l -> pairwise (l ++ [i]).
Proof.
  intros Hl Hi l1 j l2 E. rewrite Forall_forall in Hi. destruct l2 as [|x l2 _] using rev_ind.
  - apply app_inj_tail in E as [-> ->]. rewrite app_nil_r. apply Forall_forall. intros y Hy.
    destruct (Hi y Hy) as (H1 & H2 & H3). split; [done|]. split; [done|]. by symmetry.
  - rewrite app_comm_cons, app_assoc in E. apply app_inj_tail in E as [-> ->]. rewrite app_assoc. apply Forall_app.
    split; [by apply (Hl l1 j l2)|]. constructor; [|constructor]. apply Hi. set_solver.
Qed.

(** What a launch asks of the host. *)
Definition has_room (n : nat) (h : HostT) : Prop :=
  0 <= Host.pidStart h < Host.MAX_PID /\ Z.of_nat (size (Host.processInfoMap h) + n) < Host.MAX_PID.

Lemma has_room_free n h : has_room n h -> exists x, 0 <= x < Host.MAX_PID /\ Host.processInfoMap h !! x = None.
Proof.
  intros [_ H]. destruct (fresh_below (dom (Host.processInfoMap h)) (size (Host.processInfoMap h))) as (x & Hx & Hn).
  { by rewrite size_dom. }
  exists x. split; [lia|]. by apply not_elem_of_dom.
Qed.

(** The new process relies on nothing the others have. *)
Lemma launch_apart ps s pid h id m g :
  inv ps s -> Forall started ps -> registeredModule s !! id = Some (NHost h) -> Host.processInfoMap h !! pid = None ->
  Forall (fun p => i_mem p.1 ## m) ps ->
  Forall (fun p => apart p.1 (mkIdent id pid (Host.new_key (apps s)) m g)) ps.
Proof.
  intros Hinv Hst Hh Hpid Hm. rewrite Forall_forall in *. intros p Hp. split; [|split; [|exact (Hm p Hp)]]; cbn.
  - intros E. pose proof (in_procs _ _ Hinv) as Hall. rewrite Forall_forall in Hall.
    destruct (po_app _ _ (Hall p Hp)) as (app & Ha & _). rewrite E, new_key_fresh in Ha. done.
  - intros [= E1 E2]. pose proof (in_procs _ _ Hinv) as Hall. rewrite Forall_forall in Hall.
    destruct (po_host _ _ (Hall p Hp)) as (hp & Hhp & Hproc & _). rewrite E1, Hh in Hhp. injection Hhp as <-.
    specialize (Hst p Hp). unfold started in Hst. rewrite E2, Hpid in Hproc. by destruct (p.2).
Qed.

Lemma launch_other s s' i h start main p :
  let h' := Host.set_processes start (<[i_pid i := Host.mkProc (i_app i) ∅]> (Host.processInfoMap h)) h in
  registeredModule s !! i_host i = Some (NHost h) -> registeredModule s' = <[i_host i := NHost h']> (registeredModule s) ->
  apps s' = <[i_app i := mkApp (i_host i) (i_pid i) 0 READY (fun _ => main)]> (apps s) -> mem s' = mem s ->
  currentTime s' = currentTime s -> proc_ok s p -> apart p.1 i -> proc_ok s' p.
Proof.
  intros h' Hh Em Ea Etv Et [Hp1 Hp2 (app & Ha & Hs) (hp & Hhp & Hs1 & Hs2)] (Hne & Hnm & _).
  constructor; rewrite ?Et, ?Etv; try done.
  - exists app. rewrite Ea, lookup_insert_ne by (intros E; apply Hne; by rewrite <- E). done.
  - rewrite Em. destruct (decide (i_host i = i_host p.1)) as [Ei|Ei]; [|exists hp; by rewrite lookup_insert_ne].
    rewrite <- Ei, Hh in Hhp. injection Hhp as <-. exists h'. rewrite <- Ei, lookup_insert_eq. split; [done|]. split; [|done].
    cbn. rewrite lookup_insert_ne; [done|]. intros Ep. apply Hnm. by rewrite Ei, Ep.
Qed.

Lemma launch_inv ps s id main m g h n :
  inv ps s -> Forall started ps -> id ∈ hs -> registeredModule s !! id = Some (NHost h) -> has_room (S n) h ->
  Forall (fun p => i_mem p.1 ## m) ps -> direct main (currentTime s) (view m (mem s)) = Ok g ->
  currentUUID s + Z.of_nat (to_send s ps) + Z.of_nat (messages main (currentTime s) (view m (mem s))) <= limit ->
  Z.of_nat (S (length ps)) < 2 ^ 64 ->
  exists s' i h', launch id main s = Ok s' /\ inv (ps ++ [(i, Running main)]) s' /\
    i_host i = id /\ i_mem i = m /\ i_goal i = g /\
    currentTime s' = currentTime s /\ mem s' = mem s /\ currentUUID s' = currentUUID s /\
    registeredModule s' = <[id := NHost h']> (registeredModule s) /\ has_room n h'.
Proof.
  intros Hinv Hst Hid Hh Hroom Hm Hg Hlim Hlen.
  assert (Host.new_key (apps s) ∉ runnableReady s) as Hnew.
  { rewrite (in_ready _ _ Hinv). intros Ha. apply list_elem_of_omap in Ha as (p & Hp & E). pose proof (in_procs _ _ Hinv) as Hall.
    rewrite Forall_forall in Hall. destruct (po_app _ _ (Hall p Hp)) as (app & Ha & _).
    destruct p as [i []]; try done. cbn in E, Ha. injection E as E. rewrite E, new_key_fresh in Ha. done. }
  destruct (launch_result id main h s Hh (proj1 Hroom) (has_room_free _ _ Hroom) Hnew)
    as (pid & start & s' & Hpid & Hstart & Hfree & E & Em & Ea & Etv & Et & Eq & Er & Eu & Ec).
  set (a := Host.new_key (apps s)) in *. set (h' := Host.set_processes start _ h) in *. set (i := mkIdent id pid a m g).
  pose proof (launch_apart ps s pid h id m g Hinv Hst Hh Hfree Hm) as Hap. fold a i in Hap.
  destruct (in_hosts _ _ Hinv id Hid) as (h0 & Hh0 & Hpl & Hown). rewrite Hh in Hh0. injection Hh0 as <-.
  assert (forall c, Host.syscallMap h !! c <> Some pid) as Hno.
  { intros c Hc. apply Hown, list_elem_of_fmap in Hc as (p & Ep & Hp). rewrite Forall_forall in Hap.
    destruct (Hap p Hp) as (_ & Hne & _). by apply Hne. }
  assert (to_send s' ps = to_send s ps) as Ets by (unfold to_send; by rewrite Et, Etv).
  exists s', i, h'. split; [done|]. split; [|do 7 (split; [done|])].
  2:{ destruct Hroom as [_ Hr]. split; [done|]. cbn [h' Host.set_processes Host.processInfoMap].
      rewrite map_size_insert_None by done. lia. }
  destruct Hinv as [H1 H2 H3 H4 H5 Hdue H6 H7 H8 H9 H10 H11 H12]. constructor.
  - apply Forall_app. split; [|constructor; [|constructor]].
    + rewrite Forall_forall in *. intros p Hp. by apply (launch_other s s' i h start main p); [..|apply H1|apply Hap].
    + constructor; cbn; rewrite ?Et, ?Etv; try done; [lia| |].
      * exists (mkApp id pid 0 READY (fun _ => main)). rewrite Ea, lookup_insert_eq. done.
      * exists h'. rewrite Em, lookup_insert_eq. split; [done|]. split; [cbn; by rewrite lookup_insert_eq|].
        intros c. split; [intros Hc; by apply Hno in Hc|done].
  - rewrite fmap_app. apply pairwise_snoc; [done|]. by rewrite Forall_fmap.
  - apply Forall_app. split; [done|]. by constructor.
  - intros id' Hid'. rewrite Em. destruct (H4 id' Hid') as (hx & Hx & Hp & Hc). rewrite fmap_app.
    destruct (decide (id = id')) as [<-|Hne].
    + rewrite Hh in Hx. injection Hx as <-. exists h'. rewrite lookup_insert_eq. split; [done|]. split; [by destruct Hpl|].
      intros c q Hq. apply elem_of_app. left. by apply (Hc c).
    + exists hx. rewrite lookup_insert_ne by done. split; [done|]. split; [done|]. intros c q Hq. apply elem_of_app. left. by apply (Hc c).
  - rewrite Eq, omap_app, H5. cbn. by rewrite app_nil_r.
  - by rewrite Eq.
  - rewrite Er, omap_app, H6. cbn. by rewrite <- Permutation_cons_append.
  - destruct H7 as [H71 H72]. split; rewrite ?Ec, ?Eu; done.
  - rewrite to_send_middle, app_nil_r, Ets, Ec, Et, Etv. cbn [fst snd unsent i_mem i]. lia.
  - rewrite length_app. cbn. lia.
  - by rewrite Et.
  - intros id' Hid'. rewrite Em, lookup_insert_ne by (intros ->; contradiction). by apply H11.
  - intros x Hx. rewrite Etv. apply H12. by apply Forall_app in Hx as [? _].
Qed.

(** An application to launch: its host, its program, the memory it owns and the
    outcome it has alone. *)
Record Launch := mkLaunch {
  l_on : Z;
  l_main : Program;
  l_mem : gset Z;
  l_out : Outcome;
}.

Definition launch_all (l : list Launch) (s : Sys) : Res Sys := foldM (fun x => launch (l_on x) (l_main x)) l s.

Definition run_applications (fuel : nat) (l : list Launch) (s : Sys) : Res (Sys * list (TimerContainer Message)) :=
  s ← launch_all l s; run fuel 0 s.

Definition total_messages (s : Sys) (l : list Launch) : nat :=
  sum_list ((fun x => messages (l_main x) (currentTime s) (view (l_mem x) (mem s))) <$> l).

(** [x] has become the process [p]. *)
Definition launched_as (x : Launch) (p : Proc) : Prop :=
  i_host p.1 = l_on x /\ i_mem p.1 = l_mem x /\ i_goal p.1 = l_out x /\ p.2 = Running (l_main x).

(** What is left to launch fits. *)
Record fits (ps : list Proc) (l : list Launch) (s : Sys) : Prop := {
  fi_hosts : Forall (fun x => l_on x ∈ hs /\ exists h, registeredModule s !! l_on x = Some (NHost h) /\ has_room (length l) h) l;
  fi_apart : Forall (fun x => Forall (fun p => i_mem p.1 ## l_mem x) ps) l;
  fi_disjoint : ForallOrdPairs (fun x y => l_mem x ## l_mem y) l;
  fi_alone : Forall (fun x => direct (l_main x) (currentTime s) (view (l_mem x) (mem s)) = Ok (l_out x)) l;
  fi_room : currentUUID s + Z.of_nat (to_send s ps) + Z.of_nat (total_messages s l) <= limit;
  fi_count : Z.of_nat (length ps + length l) < 2 ^ 64;
}.

Lemma launch_all_inv l : forall ps s,
  inv ps s -> Forall started ps -> fits ps l s ->
  exists s' new, launch_all l s = Ok s' /\ inv (ps ++ new) s' /\ Forall2 launched_as l new /\
    currentUUID s' = currentUUID s.
Proof.
  induction l as [|x l IH]; intros ps s Hinv Hst [H1 H2 H3 H4 H5 H6].
  { exists s, []. rewrite app_nil_r. split; [done|]. split; [done|]. by split; [constructor|]. }
  apply Forall_cons in H1 as [(Hx & h & Hh & Hroom) H1]. apply Forall_cons in H2 as [H2x H2].
  inversion H3 as [|? ? H3x H3l]; subst. clear H3. rename H3l into H3. apply Forall_cons in H4 as [H4x H4].
  unfold total_messages in H5. rewrite fmap_cons in H5. cbn [sum_list length] in H5, H6.
  destruct (launch_inv ps s (l_on x) (l_main x) (l_mem x) (l_out x) h (length l))
    as (s1 & i & h1 & E & Hinv1 & Ei1 & Ei2 & Ei3 & Et & Etv & Ec & Em & Hroom1); try done; [cbn in H5; lia|lia|].
  destruct (IH (ps ++ [(i, Running (l_main x))]) s1) as (s' & new & E' & Hinv' & Hnew & Hu); [done| | |].
  { apply Forall_app. split; [done|]. by constructor. }
  { assert (to_send s1 (ps ++ [(i, Running (l_main x))]) =
      (messages (l_main x) (currentTime s) (view (l_mem x) (mem s)) + to_send s ps)%nat) as Es.
    { rewrite to_send_middle, app_nil_r. unfold to_send. rewrite Et, Etv. cbn [fst snd unsent]. by rewrite Ei2. }
    constructor.
    - eapply Forall_impl; [exact H1|]. intros y (Hy & hy & Hhy & Hry). split; [done|]. rewrite Em.
      destruct (decide (l_on x = l_on y)) as [<-|Hne]; [exists h1; by rewrite lookup_insert_eq|].
      exists hy. rewrite lookup_insert_ne by done. split; [done|]. destruct Hry as [? ?]. split; [done|]. cbn [length] in *. lia.
    - rewrite Forall_forall in *. intros y Hy. apply Forall_app. split; [by apply H2|]. constructor; [|constructor].
      cbn. rewrite Ei2. by apply H3x.
    - done.
    - by rewrite Et, Etv.
    - rewrite Es, Ec. unfold total_messages. rewrite Et, Etv. cbn in H5. lia.
    - rewrite length_app. cbn [length]. lia. }
  exists s', ((i, Running (l_main x)) :: new). unfold launch_all. cbn [foldM]. rewrite E. split; [exact E'|].
  rewrite <- app_assoc in Hinv'. split; [exact Hinv'|]. split; [by constructor|congruence].
Qed.

End Processes.

Section Isolation.
Context {RE : RandomEngine} {Obj : Type} {HMC : HostModuleClass Obj} {DL : Host.DefaultLaws}.
Context {US : UnorderedSet Z} {UM : UnorderedMap}.
Abbreviation Sys := (System (NetMod (Obj := Obj)) Message Z Env).
Abbreviation HostT := (Host.Host Obj).
Abbreviation mem s := (timevals (statics s)).

(** A network in which nothing is pending, whose hosts have the built-in system
    calls and room for the applications [l]; the applications own disjoint
    memory, each of them completes when it runs alone, and together they send
    fewer messages than there are identifiers. *)
Record launchable (l : list Launch) (s : Sys) : Prop := {
  la_hosts : Forall (fun x => exists h : HostT, registeredModule s !! l_on x = Some (NHost h) /\ plain h /\
    Host.syscallMap h = ∅ /\ has_room (length l) h) l;
  la_disjoint : ForallOrdPairs (fun x y => l_mem x ## l_mem y) l;
  la_alone : Forall (fun x => direct (l_main x) (currentTime s) (view (l_mem x) (mem s)) = Ok (l_out x)) l;
  la_room : currentUUID s + Z.of_nat (total_messages s l) < 2 ^ 64;
  la_ids : ids_below s;
  la_time : is_u 64 (currentTime s);
  la_queue : timerQueue s = [];
  la_ready : runnableReady s = [];
}.

Abbreviation hosts_of l := (list_to_set (l_on <$> l) : gset Z).
Abbreviation limit_of s l := (currentUUID s + Z.of_nat (total_messages s l)).

Lemma launchable_inv l s : launchable l s -> inv (hosts_of l) s (limit_of s l) [] s.
Proof.
  intros [H1 H2 H3 H4 H5 H6 H7 H8]. constructor; try done.
  - intros l1 i l2 E. by destruct l1.
  - intros id Hid. apply elem_of_list_to_set, list_elem_of_fmap in Hid as (x & -> & Hx). rewrite Forall_forall in H1.
    destruct (H1 x Hx) as (h & Hh & Hp & Hc & _). exists h. split; [done|]. split; [done|]. rewrite Hc. intros c q Hq. done.
  - by rewrite H7.
  - by rewrite H7.
  - by rewrite H8.
  - cbn. lia.
Qed.

Lemma launchable_fits l s : launchable l s -> fits (hosts_of l) (limit_of s l) [] l s.
Proof.
  intros [H1 H2 H3 H4 H5 H6 H7 H8]. constructor; try done.
  - rewrite Forall_forall in *. intros x Hx. split; [apply elem_of_list_to_set, list_elem_of_fmap; by exists x|].
    destruct (H1 x Hx) as (h & Hh & _ & _ & Hr). by exists h.
  - apply Forall_forall. intros x _. constructor.
  - unfold to_send. cbn. lia.
  - destruct l as [|x l]; [done|]. apply Forall_cons in H1 as [(h & _ & _ & _ & _ & Hr) _]. cbn [length] in *.
    unfold Host.MAX_PID in Hr. lia.
Qed.

(** The outcome of the application [x], which was process [i]. *)
Definition as_alone (s : Sys) (log : list (TimerContainer Message)) (x : Launch) (i : Ident) : Prop :=
  i_host i = l_on x /\ i_mem i = l_mem x /\ i_goal i = l_out x /\ at_end s i /\
  (is_Some (l_out x).1.1 -> Exists (fun c => delivers c i) log).

Lemma launched_idle l ps : Forall2 launched_as l ps -> omap pending ps = [].
Proof. induction 1 as [|x [i st] l ps (_ & _ & _ & E) _ IH]; [done|]. cbn in E. subst st. exact IH. Qed.

Lemma as_alone_end l (s : Sys) ps ps' s' log x p :
  inv (hosts_of l) s (limit_of s l) ps' s' -> fst <$> ps' = fst <$> ps -> runnableReady s' = [] -> timerQueue s' = [] ->
  (forall j, j ∈ omap living ps -> j ∈ omap living ps' \/ Exists (fun c => delivers c j) log) ->
  p ∈ ps -> launched_as x p -> as_alone s' log x p.1.
Proof.
  intros Hinv Hids Hr Hq Hend Hp (H1 & H2 & H3 & H4).
  assert (p.1 ∈ fst <$> ps') as Hp' by (rewrite Hids; apply list_elem_of_fmap; by exists p).
  apply list_elem_of_fmap in Hp' as (p' & E & Hin). destruct (ended_finished _ _ _ _ _ _ Hinv Hr Hq Hin) as [Hfin Hlive].
  rewrite <- E in Hfin, Hlive. split; [done|]. split; [done|]. split; [done|]. split; [done|]. intros Hsome.
  destruct (Hend p.1) as [Hl|]; [|exfalso|done].
  - apply list_elem_of_omap. exists p. split; [done|]. unfold living. by rewrite H4.
  - destruct (Hlive Hl) as (t & tv & Eg). rewrite <- H3, Eg in Hsome. by destruct Hsome.
Qed.

(** ** Properties *)

(** C3: applications that run at the same time, on the same or on different hosts,
    do not disturb each other: launched together on a quiet network, with
    memory of their own, every one of them ends as it does alone, whatever the
    order in which the scheduler wakes threads: with the same memory, its
    process gone and its value returned at the same virtual time, or still
    blocked when it asked for a socket nobody provides.  The run always ends;
    it needs no more fuel than the number of messages the applications cause
    alone, and other modules and memory are untouched. *)
Theorem processes_isolated l (s : Sys) f :
  launchable l s -> (total_messages s l + 2 < f)%nat ->
  exists s' log procs, run_applications f l s = Ok (s', log) /\
    timerQueue s' = [] /\ runnableReady s' = [] /\ pairwise procs /\ Forall2 (as_alone s' log) l procs /\
    (forall id, id ∉ hosts_of l -> registeredModule s' !! id = registeredModule s !! id) /\
    (forall a, Forall (fun x => a ∉ l_mem x) l -> mem s' !! a = mem s !! a).
Proof.
  intros Hl Hf. pose proof (la_room _ _ Hl) as Hlim.
  destruct (launch_all_inv (hosts_of l) s (limit_of s l) Hlim l [] s (launchable_inv l s Hl) ltac:(constructor) (launchable_fits l s Hl))
    as (s1 & ps & E1 & Hinv1 & Hnew & Hu). cbn [Datatypes.app] in Hinv1.
  assert (timerQueue s1 = []) as Hq1.
  { pose proof (in_queue _ _ _ _ _ Hinv1) as Hq. rewrite (launched_idle l) in Hq by done. by apply Permutation_nil_r in Hq. }
  destruct (run_ends (hosts_of l) s (limit_of s l) Hlim (S (total_messages s l)) ps s1 f Hinv1)
    as (s' & ps' & log & E & Hinv & Hids & Hr & Hq & Hend); [unfold load; rewrite Hq1; cbn [length]; lia|lia|].
  exists s', log, (fst <$> ps). unfold run_applications. rewrite E1. split; [exact E|]. split; [done|]. split; [done|].
  split; [exact (in_apart _ _ _ _ _ Hinv1)|]. split.
  - apply Forall2_fmap_r, Forall2_lookup. intros n. pose proof (proj1 (Forall2_lookup _ _ _) Hnew n) as Hn.
    destruct (ps !! n) as [p|] eqn:Ep; inversion Hn as [x y Hx Ex Ey|Ex Ey]; constructor.
    apply (as_alone_end l s ps ps' s' log x p Hinv Hids Hr Hq Hend); [by apply list_elem_of_lookup_2 in Ep|done].
  - split; [exact (in_modules _ _ _ _ _ Hinv)|]. intros a Ha. apply (in_memory _ _ _ _ _ Hinv).
    assert (Forall (fun i => a ∉ i_mem i) (fst <$> ps')) as H; [|exact (proj1 (Forall_fmap _ _ _) H)]. rewrite Hids. clear - Ha Hnew.
    induction Hnew as [|x p l ps (_ & Hm & _) _ IH]; [constructor|]. apply Forall_cons in Ha as [Hx Ha].
    constructor; [cbn; by rewrite Hm|by apply IH].
Qed.

End Isolation.

(** *** Instances: two applications on one host and one on another *)

#[local] Existing Instances Host.only_default Host.only_default_laws Host.unordered Host.unordered_map low_engine.

Definition ex_net : System (NetMod (Obj := unit)) Message Z Env :=
  System.set_modules {[1 := NHost Process.ex_host; 2 := NHost Process.ex_host]}
    (System_init (mkEnv initial_registry ∅ {[64 := (0, 0); 72 := (0, 0); 80 := (7, 7)]})).

(** [usleep(700); usleep(700); gettimeofday(&tv, NULL); return tv.tv_usec;] *)
Definition ex_naps : Program :=
  TCPApplication.usleep 700 (fun _ => TCPApplication.usleep 700 (fun _ =>
    TCPApplication.gettimeofday 72 0 (fun _ => DoLoadTimeval 72 (fun tv => Finish (snd tv))))).

Definition ex_launches : list Launch := [
  mkLaunch 1 Process.ex_main {[64]} (Some 1500, 1500000, {[64 := (0, 1500)]});
  mkLaunch 1 ex_naps {[72]} (Some 1400, 1400000, {[72 := (0, 1400)]});
  mkLaunch 2 (TCPApplication.socket 2 1 6 (fun fd => Finish fd)) ∅ (None, 0, ∅)].

Lemma ex_plain : plain Process.ex_host.
Proof.
  constructor; try done; [by exists 1|]. intros ns Hns. cbn. by apply lookup_singleton_ne.
Qed.

Lemma ex_launchable : launchable ex_launches ex_net.
Proof.
  constructor; try done.
  - repeat constructor; exists Process.ex_host; (split; [done|]); (split; [exact ex_plain|]); by vm_compute.
  - repeat constructor; cbn; set_solver.
  - repeat constructor; vm_compute; reflexivity.
Qed.

Lemma ex_outside : Forall (fun x => 80 ∉ l_mem x) ex_launches.
Proof. repeat constructor; cbn [l_mem]; set_solver. Qed.

Lemma processes_isolated_witness :
  exists s' log, run_applications 30 ex_launches ex_net = Ok (s', log) /\ timerQueue s' = [] /\
    timevals (statics s') !! 80 = Some (7, 7) /\
    exists i j, i_pid i <> i_pid j /\ Exists (fun c => wakeup c = 1500000 /\ message c = Return (i_pid i) 1500) log /\
      Exists (fun c => wakeup c = 1400000 /\ message c = Return (i_pid j) 1400) log.
Proof.
  destruct (processes_isolated ex_launches ex_net 30 ex_launchable) as (s' & log & procs & E & Hq & _ & Hap & Hall & _ & Hmem).
  { vm_compute. lia. }
  exists s', log. split; [exact E|]. split; [exact Hq|]. split; [rewrite (Hmem 80 ex_outside); vm_compute; reflexivity|].
  inversion Hall as [|x1 i l1 ps1 (H1 & _ & G1 & _ & R1) Hall1]; subst. inversion Hall1 as [|x2 j l2 ps2 (H2 & _ & G2 & _ & R2) _]; subst.
  exists i, j. split.
  { apply pairwise_cons in Hap as [[(_ & Hne & _) _]%Forall_cons _]. intros Ep. apply Hne. by rewrite H1, H2, Ep. }
  split; [apply (Exists_impl _ _ _ (R1 (mk_is_Some _ _ eq_refl)))|apply (Exists_impl _ _ _ (R2 (mk_is_Some _ _ eq_refl)))];
    intros c (v & tv & Hg & _ & Hm).
  - rewrite G1 in Hg. pose proof (f_equal (fun g => g.1.2) Hg) as Ht. pose proof (f_equal (fun g => g.1.1) Hg) as Hv.
    cbn in Ht, Hv. injection Hv as Hv. split; [by symmetry|]. by rewrite Hm, <- Hv.
  - rewrite G2 in Hg. pose proof (f_equal (fun g => g.1.2) Hg) as Ht. pose proof (f_equal (fun g => g.1.1) Hg) as Hv.
    cbn in Ht, Hv. injection Hv as Hv. split; [by symmetry|]. by rewrite Hm, <- Hv.
Defined.

End Processes.
