(* ===== verification/TestEnv.v ===== *)
(** * TestEnv: the test environments as networks

    Models app/kens/testenv.hpp: the set-up of [TestEnv1], [TestEnv2] and
    [TestEnv3] (hosts around one switch, their addresses, routes and modules)
    and their [runTest], built from the operations of the other files.  A
    provider ([TCPAssignmentProvider], [TCPSolutionProvider]) is its static
    method [allocate]; what the theorems need of it is [provider_ok]. The
    switch draws its engine seeds from [rand()]: they are arguments. *)

From S2P Require Import Prelude NetworkUtil Packet RoutingInfo TimeUtil RandomDistribution System.
From S2P Require Import ModuleBase Wire Link HostApi Ethernet Host Assignments Network.
From stdpp Require Import sorting relations.
Local Open Scope Z_scope.

Module TestEnv.
Import System Network.

Section TestEnv.
Context {RE : RandomEngine} {X : Type} {EX : ExternalModule X} {ES : ExternalStable X}.
Context {US : UnorderedSet Z} {UM : UnorderedMap}.
Abbreviation Obj := (HostObject X).
Abbreviation Sys := (System (NetMod (Obj := Obj)) Message Z Env).
Abbreviation HostT := (Host.Host Obj).

(** ** Building blocks *)

(** [netSystem.addModule<Host>] and [addModule<Switch>]. *)
Definition newHost (s : Sys) : Res (Sys * Z) :=
  h ← Host.Host_new; addModule (NHost h) s.

Definition newSwitch (seed1 seed2 : Z) (unreliable : bool) (s : Sys) : Res (Sys * Z) :=
  addModule (NSwitch (Link.Switch_new seed1 seed2 unreliable)) s.

(** A method call on a host, on a host that uses the scheduler, and on a
    switch. *)
Definition onHost (id : Z) (f : HostT -> Res HostT) (s : Sys) : Res Sys :=
  m ← deref id s;
  match m with
  | NHost h => h ← f h; Ok (store id (NHost h) s)
  | _ => Err BadCast
  end.

Definition onHostSys (id : Z) (f : HostT -> Sys -> Res (HostT * Sys)) (s : Sys) : Res Sys :=
  m ← deref id s;
  match m with
  | NHost h => '(h, s) ← f h s; Ok (store id (NHost h) s)
  | _ => Err BadCast
  end.

Definition onSwitch (id : Z) (f : Link.Switch -> Res Link.Switch) (s : Sys) : Res Sys :=
  m ← deref id s;
  match m with
  | NSwitch w => w ← f w; Ok (store id (NSwitch w) s)
  | _ => Err BadCast
  end.

(** [Host] derives from [RoutingInfo]. *)
Definition setMACAddr (mac : list Z) (port : Z) (h : HostT) : Res HostT :=
  Ok (Host.set_routing (RoutingInfo.setMACAddr mac port (Host.routing h)) h).
Definition setIPAddr (ip : list Z) (port : Z) (h : HostT) : Res HostT :=
  Ok (Host.set_routing (RoutingInfo.setIPAddr ip port (Host.routing h)) h).
Definition setARPTable (mac ip : list Z) (h : HostT) : Res HostT :=
  Ok (Host.set_routing (RoutingInfo.setARPTable mac ip (Host.routing h)) h).
Definition setRoutingTable (mask : list Z) (prefix port : Z) (h : HostT) : Res HostT :=
  Ok (Host.set_routing (RoutingInfo.setRoutingTable mask prefix port (Host.routing h)) h).

Definition setQueueSize (n : Z) (w : Link.Switch) : Res Link.Switch :=
  Ok (Link.set_sw_link (Link.setQueueSize n (Link.sw_link w)) w).
Definition setLinkSpeed (b : Z) (w : Link.Switch) : Res Link.Switch :=
  Ok (Link.set_sw_link (Link.setLinkSpeed b (Link.sw_link w)) w).
Definition enablePCAPLogging (snap : Z) (w : Link.Switch) : Res Link.Switch :=
  Ok (Link.set_sw_link (Link.enablePCAPLogging snap (Link.sw_link w)) w).
Definition addMACEntry (port : Z) (mac : list Z) (w : Link.Switch) : Res Link.Switch :=
  Link.addMACEntry (Z.to_nat port) mac w.

(** A provider's [allocate]. *)
Definition Provider : Type := HostT -> Res HostT.

(** [TCPAssignmentProvider::allocate]. *)
Definition TCPAssignmentProvider : Provider := Host.addHostModule TCPAssignmentObject.

(** ** TestEnv1 and TestEnv2 *)

Record TwoHosts := mkTwoHosts {
  env_sys : Sys;
  host1 : Z;
  host2 : Z;
  switchingHub : Z;
}.

Definition mac1 : list Z := [0xBC; 0xBC; 0xBC; 0xBC; 0xBC; 0xBC].
Definition mac1_2 : list Z := [0xCB; 0xCB; 0xCB; 0xCB; 0xCB; 0xCB].
Definition mac2 : list Z := [0xCD; 0xCD; 0xCD; 0xCD; 0xCD; 0xCD].
Definition mac2_2 : list Z := [0xDC; 0xDC; 0xDC; 0xDC; 0xDC; 0xDC].
Definition ip1 : list Z := [192; 168; 0; 7].
Definition ip1_2 : list Z := [192; 168; 0; 8].
Definition ip2 : list Z := [10; 0; 1; 4].
Definition ip2_2 : list Z := [10; 0; 1; 5].

(** The hosts, the switch and the four wires; the result has the port numbers
    at the hosts and at the switch. *)
Definition buildTwoHosts (seed1 seed2 : Z) (unreliable : bool) (s : Sys)
  : Res (Sys * (Z * Z * Z) * ((Z * Z) * (Z * Z)) * ((Z * Z) * (Z * Z))) :=
  '(s, h1) ← newHost s;
  '(s, h2) ← newHost s;
  '(s, sw) ← newSwitch seed1 seed2 unreliable s;
  '(s, (_, h1p1)) ← addWire h1 sw (makeTime 1 MSEC) Wire.default_bps true s;
  '(s, (_, h1p2)) ← addWire h1 sw (makeTime 1 MSEC) Wire.default_bps true s;
  '(s, (_, h2p1)) ← addWire h2 sw (makeTime 1 MSEC) Wire.default_bps true s;
  '(s, (_, h2p2)) ← addWire h2 sw (makeTime 1 MSEC) Wire.default_bps true s;
  Ok (s, (h1, h2, sw), (h1p1, h1p2), (h2p1, h2p2)).

(** The addresses and routes of a host with two ports, whose peer has the
    addresses [pmac], [pip], [pmac_2], [pip_2]. *)
Definition configureHost (id p1 p2 : Z) (mac mac_2 pmac pmac_2 ip ip_2 pip pip_2 : list Z) (s : Sys) : Res Sys :=
  s ← onHost id (setMACAddr mac p1) s;
  s ← onHost id (setMACAddr mac_2 p2) s;
  s ← onHost id (setARPTable pmac pip) s;
  s ← onHost id (setARPTable pmac_2 pip_2) s;
  s ← onHost id (setIPAddr ip p1) s;
  s ← onHost id (setIPAddr ip_2 p2) s;
  s ← onHost id (setRoutingTable pip 16 p1) s;
  onHost id (setRoutingTable pip_2 16 p2) s.

(** The end of [SetUp]: switch tables, packet capture and host modules. *)
Definition finishTwoHosts (h1 h2 sw : Z) (q1 q2 q3 q4 : Z) (target adversary : Provider) (s : Sys) : Res Sys :=
  s ← onSwitch sw (addMACEntry q1 mac1) s;
  s ← onSwitch sw (addMACEntry q2 mac1_2) s;
  s ← onSwitch sw (addMACEntry q3 mac2) s;
  s ← onSwitch sw (addMACEntry q4 mac2_2) s;
  s ← onSwitch sw (enablePCAPLogging 65535) s;
  s ← onHost h1 (Host.addHostModule EthernetObject) s;
  s ← onHost h2 (Host.addHostModule EthernetObject) s;
  s ← onHost h1 (Host.addHostModule (IPv4Object IPv4.IPv4_new)) s;
  s ← onHost h2 (Host.addHostModule (IPv4Object IPv4.IPv4_new)) s;
  s ← onHost h1 target s;
  s ← onHost h2 adversary s;
  s ← onHostSys h1 (Host.initializeHostModule h1 "TCP") s;
  onHostSys h2 (Host.initializeHostModule h2 "TCP") s.

(** [TestEnv1::SetUp]: [queue] is [None]; [TestEnv2::SetUp]: [queue] is
    [Some 16] and the switch may be unreliable. *)
Definition SetUp (seed1 seed2 : Z) (unreliable : bool) (queue : option Z) (target adversary : Provider)
  (s : Sys) : Res TwoHosts :=
  '(s, (h1, h2, sw), (h1p1, h1p2), (h2p1, h2p2)) ← buildTwoHosts seed1 seed2 unreliable s;
  s ← configureHost h1 (fst h1p1) (fst h1p2) mac1 mac1_2 mac2 mac2_2 ip1 ip1_2 ip2 ip2_2 s;
  s ← configureHost h2 (fst h2p1) (fst h2p2) mac2 mac2_2 mac1 mac1_2 ip2 ip2_2 ip1 ip1_2 s;
  s ← match queue with Some n => onSwitch sw (setQueueSize n) s | None => Ok s end;
  s ← finishTwoHosts h1 h2 sw (snd h1p1) (snd h1p2) (snd h2p1) (snd h2p2) target adversary s;
  Ok (mkTwoHosts s h1 h2 sw).

Definition TestEnv1 (seed1 seed2 : Z) (target solution : Provider) (s : Sys) : Res TwoHosts :=
  SetUp seed1 seed2 false None target solution s.
Definition TestEnv2 (seed1 seed2 : Z) (unreliable : bool) (target adversary : Provider) (s : Sys) : Res TwoHosts :=
  SetUp seed1 seed2 unreliable (Some 16) target adversary s.

(** [Host::cleanUp] and [finalizeHostModule] as calls on a registered host. *)
Definition cleanUp (id : Z) (s : Sys) : Res Sys :=
  onHostSys id (fun h s => '(h, s, _) ← Host.cleanUp h s; Ok (h, s)) s.
Definition finalizeHostModule (id : Z) (s : Sys) : Res Sys :=
  onHostSys id (Host.finalizeHostModule id "TCP") s.

(** [runTest], with the log of each [run]. *)
Definition runTest (fuel : nat) (e : TwoHosts)
  : Res (TwoHosts * list (TimerContainer Message) * list (TimerContainer Message)) :=
  '(s, log1) ← run fuel (makeTime 1000 SEC) (env_sys e);
  s ← cleanUp (host1 e) s;
  s ← cleanUp (host2 e) s;
  s ← finalizeHostModule (host1 e) s;
  s ← finalizeHostModule (host2 e) s;
  '(s, log2) ← run fuel (makeTime 2000 SEC) s;
  Ok (mkTwoHosts s (host1 e) (host2 e) (switchingHub e), log1, log2).

(** A test body adds applications and launches them. *)
Definition launch (id : Z) (main : Program) (s : Sys) : Res Sys :=
  onHostSys id (fun h s =>
    '(h, s, pid) ← Host.addApplication id main h s;
    s ← Host.launchApplication pid h s;
    Ok (h, s)) s.

(** ** TestEnv3: one server and [clients] clients *)

Definition server_mac : list Z := [0xBC; 0xBC; 0xBC; 0xBC; 0xBC; 0xBC].
Definition server_ip : list Z := [192; 168; 1; 7].
Definition server_mask : list Z := [192; 168; 1; 0].
Definition client_mask : list Z := [10; 0; 1; 0].
Definition port_speed : Z := 10000000.
Definition propagationDelay : Z := makeTime 10 MSEC.

Record Congestion := mkCongestion {
  cong_sys : Sys;
  server_host : Z;
  cong_switch : Z;
  client_hosts : list Z;
}.

(** The body of the loop over the clients; addresses are bytes. *)
Definition addClient (target : Provider) (k : nat) (e : Congestion) : Res Congestion :=
  '(s, c) ← newHost (cong_sys e);
  '(s, (_, (cp, sp))) ← addWire c (cong_switch e) propagationDelay port_speed true s;
  s ← onHost c (Host.addHostModule EthernetObject) s;
  s ← onHost c (Host.addHostModule (IPv4Object IPv4.IPv4_new)) s;
  s ← onHost c target s;
  s ← onHostSys c (Host.initializeHostModule c "TCP") s;
  let client_ip := [10; 0; 1; wrap 8 (10 + Z.of_nat k)] in
  let client_mac := [0xEE; 0xEE; 0xEE; 0xEE; 0xEE; wrap 8 (Z.of_nat k)] in
  s ← onHost c (setMACAddr client_mac cp) s;
  s ← onHost c (setIPAddr client_ip cp) s;
  s ← onHost c (setRoutingTable server_mask 24 cp) s;
  s ← onHost c (setARPTable server_mac server_ip) s;
  s ← onHost (server_host e) (setARPTable client_mac client_ip) s;
  s ← onSwitch (cong_switch e) (addMACEntry sp client_mac) s;
  Ok (mkCongestion s (server_host e) (cong_switch e) (client_hosts e ++ [c])).

Definition TestEnv3 (seed1 seed2 : Z) (clients : nat) (target adversary : Provider) (s : Sys) : Res Congestion :=
  '(s, server) ← newHost s;
  '(s, sw) ← newSwitch seed1 seed2 false s;
  '(s, (_, (hp, sp))) ← addWire server sw propagationDelay port_speed true s;
  s ← onHost server (Host.addHostModule EthernetObject) s;
  s ← onHost server (Host.addHostModule (IPv4Object IPv4.IPv4_new)) s;
  s ← onHost server (setMACAddr server_mac hp) s;
  s ← onHost server (setIPAddr server_ip hp) s;
  s ← onHost server (setRoutingTable client_mask 24 hp) s;
  s ← onHost server adversary s;
  s ← onHostSys server (Host.initializeHostModule server "TCP") s;
  s ← onSwitch sw (addMACEntry sp server_mac) s;
  e ← foldM (addClient target) (seq 0 clients) (mkCongestion s server sw []);
  s ← onSwitch sw (setLinkSpeed port_speed) (cong_sys e);
  s ← onSwitch sw (setQueueSize 64) s;
  s ← onSwitch sw (enablePCAPLogging 64) s;
  Ok (mkCongestion s server sw (client_hosts e)).

Definition runCongestion (fuel : nat) (timeout : Z) (e : Congestion)
  : Res (Congestion * list (TimerContainer Message) * list (TimerContainer Message)) :=
  '(s, log1) ← run fuel (makeTime timeout SEC) (cong_sys e);
  s ← foldM cleanUp (server_host e :: client_hosts e) s;
  s ← foldM finalizeHostModule (server_host e :: client_hosts e) s;
  '(s, log2) ← run fuel (makeTime (1000 + timeout) SEC) s;
  Ok (mkCongestion s (server_host e) (cong_switch e) (client_hosts e), log1, log2).

(** ** Every step keeps the invariants *)

Definition good (s : Sys) : Prop := net_inv s /\ queue_inv ∅ s.

Lemma queue_inv_ext (s s' : Sys) :
  timerQueue s' = timerQueue s -> activeTimer s' = activeTimer s -> activeUUID s' = activeUUID s ->
  currentUUID s' = currentUUID s -> queue_inv ∅ s -> queue_inv ∅ s'.
Proof. intros E1 E2 E3 E4 [H1 H2 H3 H4 H5 H6]. constructor; rewrite ?E1, ?E2, ?E3, ?E4; done. Qed.

(** How a method may change a host. *)
Definition grows (h h' : HostT) : Prop :=
  (host_ok h -> host_ok h') /\ Host.ports h' = Host.ports h /\
  Host.hostModuleMap h ⊆ Host.hostModuleMap h' /\ Host.timerModuleMap h ⊆ Host.timerModuleMap h'.

(** What the environments need of a provider. *)
Definition provider_ok (p : Provider) : Prop := forall h h', p h = Ok h' -> grows h h'.

Lemma grows_trans h1 h2 h3 : grows h1 h2 -> grows h2 h3 -> grows h1 h3.
Proof.
  intros (A1 & A2 & A3 & A4) (B1 & B2 & B3 & B4). split; [auto|]. split; [congruence|]. split; by etrans.
Qed.

Lemma same_grows h h' : same_host h h' -> grows h h'.
Proof.
  intros Hs. split; [intros Hok; by apply (same_like h h' Hok Hs)|]. destruct Hs as (-> & -> & -> & _). done.
Qed.

Lemma like_grows h h' : like_host h h' -> grows h h'.
Proof. unfold grows. intros (-> & -> & -> & Hok). done. Qed.

Lemma set_routing_grows r h : grows h (Host.set_routing r h).
Proof. by apply same_grows. Qed.

Lemma insert_new_subset {A} (k : string) (a : A) (m m' : gmap string A) site :
  Host.insert_new k a m site = Ok m' -> m ⊆ m' /\ m' = <[k := a]> m.
Proof.
  unfold Host.insert_new. destruct (m !! k) eqn:E; [discriminate|]. intros [= <-].
  split; [by apply insert_subseteq | done].
Qed.

(** A map an optional name is added to. *)
Lemma insert_opt (o : option string) (oid : Z) (m m' : gmap string Z) site :
  match o with Some n => Host.insert_new n oid m site | None => Ok m end = Ok m' ->
  m ⊆ m' /\ (forall n, o = Some n -> is_Some (m' !! n)) /\
  forall n x, m' !! n = Some x -> m !! n = Some x \/ x = oid.
Proof.
  destruct o as [n|]; [|intros [= <-]; split; [done|]; split; [done|by left]].
  intros [Hs ->]%insert_new_subset. split; [done|]. split.
  - intros n' [= <-]. rewrite lookup_insert_eq. by eexists.
  - intros n' x Hx. apply lookup_insert_Some in Hx as [[_ <-]|[_ Hx]]; auto.
Qed.

(** [addHostModule] is what providers are made of. *)
Lemma addHostModule_grows o h h' : Host.addHostModule o h = Ok h' -> grows h h'.
Proof.
  unfold Host.addHostModule. set (oid := Host.new_key _). intros H.
  destruct (match HostApi.hostModuleName o with Some _ => _ | None => _ end) as [mods|] eqn:Em; [|discriminate].
  cbn [mbind Res_bind] in H.
  destruct (match HostApi.timerModuleName o with Some _ => _ | None => _ end) as [timers|] eqn:Et; [|discriminate].
  cbn [mbind Res_bind] in H.
  destruct (match HostApi.namespace o with Some _ => _ | None => _ end) as [ifaces|] eqn:Ei; [|discriminate].
  cbn [mbind Res_bind] in H. injection H as <-.
  apply insert_opt in Em as (Ms & _ & Mi), Et as (Ts & Tn & Ti).
  split; [|by split]. intros [K1 K2 K3 K4].
  assert (forall x, is_Some (Host.objects h !! x) \/ x = oid -> is_Some (<[oid := o]> (Host.objects h) !! x)) as Hin.
  { intros x Hx. destruct (decide (x = oid)) as [->|Hne]; [rewrite lookup_insert_eq; by eexists|].
    rewrite lookup_insert_ne by done. by destruct Hx. }
  constructor; cbn.
  - intros x o2 n Hx Hn. apply lookup_insert_Some in Hx as [[_ <-]|[_ Hx]]; [by apply Tn|].
    destruct (K1 x o2 n Hx Hn) as [y Hy]. exists y. by eapply lookup_weaken.
  - intros n x Hx. apply Hin. destruct (Mi n x Hx); eauto.
  - intros n x Hx. apply Hin. destruct (Ti n x Hx); eauto.
  - intros n x Hx. apply Hin. destruct (HostApi.namespace o) as [ns|]; [|injection Ei as <-; eauto].
    unfold Host.insert_new in Ei. destruct (Host.interfaceMap h !! ns); [discriminate|]. injection Ei as <-.
    apply lookup_insert_Some in Hx as [[_ <-]|[_ Hx]]; eauto.
Qed.

Lemma Host_new_ok h : Host.Host_new = Ok h -> host_ok h /\ Host.ports h = [].
Proof.
  unfold Host.Host_new. intros H. destruct (Host.addHostModule _ _) as [h1|] eqn:E; [|discriminate].
  injection H as <-. apply addHostModule_grows in E as (Hok & Hp & _).
  assert (host_ok h1) as [K1 K2 K3 K4] by (apply Hok; constructor; cbn; intros; simplify_map_eq).
  split; [by constructor|]. exact Hp.
Qed.

(** *** Registering a device *)

Lemma addModule_good m (s s' : Sys) id :
  match m with NWire _ => False | NHost h => host_ok h | _ => True end -> ports_of m = [] ->
  addModule m s = Ok (s', id) -> good s -> good s'.
Proof.
  intros Hm Hp H [Hi Hq]. unfold addModule, newModuleID in H.
  destruct (bool_decide _) eqn:E; [|discriminate]. bool_to_prop. cbn in E, H. injection H as <- <-.
  split; [|by apply (queue_inv_ext s)]. set (M := <[_ := _]> _).
  pose proof (fresh_extends _ _ m E) as HM. fold M in HM.
  apply (net_inv_ext (set_modules M s)); [done|done|done|].
  apply (net_inv_extend s); [done|apply net_ops_refl|exact HM|..]; unfold M; intros id o.
  - intros w Ho Hw. apply lookup_insert_Some in Ho as [[_ <-]|[_ Ho]].
    + rewrite Hp in Hw. by apply not_elem_of_nil in Hw.
    + eapply extends_port_ok; [exact HM|]. by eapply (ni_ports s Hi).
  - intros Ho. apply lookup_insert_Some in Ho as [[_ ->]|[_ Ho]]; [done|].
    destruct (ni_wires s Hi id o Ho). split; by eapply extends_device.
  - intros Ho. apply lookup_insert_Some in Ho as [[_ ->]|[_ Ho]]; [done|]. by eapply (ni_hosts s Hi).
Qed.

Lemma newHost_good (s s' : Sys) id : newHost s = Ok (s', id) -> good s -> good s'.
Proof.
  unfold newHost. intros H. destruct Host.Host_new as [h|] eqn:E; [|discriminate].
  apply Host_new_ok in E as [Hok Hp]. exact (addModule_good (NHost h) s s' id Hok Hp H).
Qed.

Lemma newSwitch_good a b c (s s' : Sys) id : newSwitch a b c s = Ok (s', id) -> good s -> good s'.
Proof. exact (addModule_good (NSwitch (Link.Switch_new a b c)) s s' id I eq_refl). Qed.

(** *** Method calls *)

(** A module is replaced by one that is alike and has the same ports. *)
Lemma replace_good id o o' (s s1 : Sys) :
  good s -> net_ops (addressed (registeredModule s)) s s1 -> registeredModule s !! id = Some o ->
  alike o o' -> ports_of o' = ports_of o -> (forall h, o' = NHost h -> host_ok h) -> good (store id o' s1).
Proof.
  intros [Hi Hq] Hops Ho Ha Hp Hh. pose proof (net_ops_keeps _ _ _ Hops) as (Em & _).
  assert (extends (registeredModule s) (<[id := o']> (registeredModule s))) as HM by by eapply extends_insert.
  split.
  - unfold store. rewrite Em. apply (net_inv_extend s); [done|done|exact HM|..].
    + intros x ox w Hx Hw. eapply extends_port_ok; [exact HM|].
      apply lookup_insert_Some in Hx as [[<- <-]|[_ Hx]]; [|by eapply (ni_ports s Hi)].
      rewrite Hp in Hw. by eapply (ni_ports s Hi).
    + intros x wx Hx. assert (exists w0, registeredModule s !! x = Some (NWire w0) /\
        Wire.connected wx = Wire.connected w0) as (w0 & Hw0 & ->).
      { apply lookup_insert_Some in Hx as [[<- ->]|[_ Hx]]; [|by exists wx]. destruct o; try done. by eexists. }
      destruct (ni_wires s Hi x w0 Hw0). split; by eapply extends_device.
    + intros x h Hx. apply lookup_insert_Some in Hx as [[_ ->]|[_ Hx]]; [by apply Hh | by eapply (ni_hosts s Hi)].
  - apply (queue_inv_ext s1); [done..|]. by eapply sys_ops_queue, Hq; eapply net_ops_sys.
Qed.

Lemma onHostSys_good id f (s s' : Sys) :
  (forall h h' s1, registeredModule s !! id = Some (NHost h) -> f h s = Ok (h', s1) ->
     net_inv s -> net_ops (addressed (registeredModule s)) s s1 /\ grows h h') ->
  onHostSys id f s = Ok s' -> good s -> good s'.
Proof.
  unfold onHostSys. intros Hf H Hg. destruct (deref id s) as [o|] eqn:Ed; [|discriminate].
  apply deref_ok in Ed as Ho. cbn [mbind Res_bind] in H. destruct o as [| | |h]; try discriminate.
  destruct (f h s) as [[h' s1]|] eqn:Ef; [|discriminate]. injection H as <-.
  destruct (Hf h h' s1 Ho Ef (proj1 Hg)) as [Hops (Hok & Hp & Hm & Ht)].
  apply (replace_good id (NHost h) (NHost h') s); try done. intros h2 [= <-]. apply Hok.
  by eapply (ni_hosts s (proj1 Hg)).
Qed.

Lemma onHost_good id f (s s' : Sys) :
  (forall h h', f h = Ok h' -> grows h h') -> onHost id f s = Ok s' -> good s -> good s'.
Proof.
  intros Hf H. apply (onHostSys_good id (fun h s => h ← f h; Ok (h, s))).
  - intros h h' s1 _ E _. destruct (f h) eqn:Ef; [|discriminate]. injection E as <- <-.
    split; [apply net_ops_refl | by apply Hf].
  - unfold onHost in H. unfold onHostSys. destruct (deref id s) as [[| | |h]|]; try discriminate.
    cbn [mbind Res_bind] in *. by destruct (f h).
Qed.

Lemma onSwitch_good id f (s s' : Sys) :
  (forall w w', f w = Ok w' -> Link.ports (Link.sw_link w') = Link.ports (Link.sw_link w)) ->
  onSwitch id f s = Ok s' -> good s -> good s'.
Proof.
  unfold onSwitch. intros Hf H Hg. destruct (deref id s) as [o|] eqn:Ed; [|discriminate].
  apply deref_ok in Ed as Ho. cbn [mbind Res_bind] in H. destruct o as [| |w|]; try discriminate.
  destruct (f w) as [w'|] eqn:Ef; [|discriminate]. injection H as <-.
  apply (replace_good id (NSwitch w) (NSwitch w') s); try done. by apply Hf.
Qed.

(** *** Wires *)

Lemma connect_device id w (s s' : Sys) p : connect id w s = Ok (s', p) -> is_device (registeredModule s) id.
Proof.
  unfold connect. intros H. destruct (deref id s) as [o|] eqn:Ed; [|discriminate]. apply deref_ok in Ed.
  exists o. split; [done|]. by destruct o.
Qed.

Lemma addWire_good left right delay speed limit (s s' : Sys) r :
  addWire left right delay speed limit s = Ok (s', r) -> good s -> good s'.
Proof.
  intros H [Hi Hq]. pose proof H as H0. unfold addWire in H. set (x := NWire _) in H.
  destruct (addModule x s) as [[s1 n]|] eqn:E1; [|discriminate]. cbn [mbind Res_bind] in H.
  destruct (connect left n s1) as [[s2 p1]|] eqn:E2; [|discriminate]. cbn [mbind Res_bind] in H.
  destruct (connect right n s2) as [[s3 p2]|] eqn:E3; [|discriminate]. cbn [mbind Res_bind] in H. injection H as -> <-.
  unfold addModule, newModuleID in E1. destruct (bool_decide _) eqn:Ef; [|discriminate]. bool_to_prop.
  cbn in Ef, E1. injection E1 as <- <-.
  assert (forall id, is_device (<[nextModuleID s := x]> (registeredModule s)) id -> is_device (registeredModule s) id) as Hback.
  { intros id (o & Ho & Hd). apply lookup_insert_Some in Ho as [[_ <-]|[_ Ho]]; [done|]. by exists o. }
  apply connect_device in E2 as Hl. apply connect_device in E3 as Hr. cbn in Hl. apply Hback in Hl.
  assert (is_device (registeredModule s) right) as Hr0.
  { apply Hback. unfold connect in E2. res_inv. destruct Hr as (o & Ho & Hd). cbn in Ho.
    apply lookup_insert_Some in Ho as [[<- <-]|[_ Ho]]; [|by exists o].
    match goal with Hd : deref _ _ = Ok _ |- _ => apply deref_ok in Hd; cbn in Hd; rename Hd into Hl1 end.
    eexists. split; [exact Hl1|]. by destruct a. }
  destruct (addWire_run left right delay speed limit s Hi Hl Hr0 Ef) as (s4 & ol & ol' & om & om' & E & Hi' & _).
  rewrite E in H0. injection H0 as -> _. split; [done|].
  unfold connect in E2, E3. res_inv. by apply (queue_inv_ext s).
Qed.

(** *** Host methods that use the scheduler *)

Lemma module_call_good id name (f : Obj -> HProg Obj) (s s' : Sys) :
  (forall o, returns (fun o' => HostApi.timerModuleName o' = HostApi.timerModuleName o) (f o)) ->
  onHostSys id (fun h s => oid ← of_option NullDeref (Host.hostModuleMap h !! name); Host.call_object id oid f h s) s = Ok s' ->
  good s -> good s'.
Proof.
  intros Hf. apply onHostSys_good. intros h h' s1 Hh E Hi. destruct (Host.hostModuleMap h !! name); [|discriminate].
  cbn [of_option mbind Res_bind] in E.
  destruct (call_object_net (addressed (registeredModule s)) id z f h h' s s1) as [Hops Hl];
    [by apply host_sends_net | by eapply (ni_hosts s Hi) | done | done |]. split; [done | by apply like_grows].
Qed.

Lemma initialize_good id (s s' : Sys) :
  onHostSys id (Host.initializeHostModule id "TCP") s = Ok s' -> good s -> good s'.
Proof. apply module_call_good. intros o. apply stable_initialize. Qed.

Lemma finalize_good id (s s' : Sys) : finalizeHostModule id s = Ok s' -> good s -> good s'.
Proof. apply module_call_good. intros o. apply stable_finalize. Qed.

Lemma cleanUp_good id (s s' : Sys) : cleanUp id s = Ok s' -> good s -> good s'.
Proof.
  apply onHostSys_good. intros h h' s1 Hh E Hi. unfold Host.cleanUp in E.
  set (us := map_order _) in E. destruct (foldM _ us _) as [[h2 s2]|] eqn:Ef; [|discriminate].
  cbn [mbind Res_bind] in E. injection E as <- <-.
  apply (foldM_inv (fun st => net_ops (addressed (registeredModule s)) s (snd st) /\
                             same_host (Host.set_running false h) (fst st))) in Ef as [Hops Hs].
  - split; [exact Hops|]. eapply grows_trans; [|by apply same_grows]. by apply same_grows.
  - intros u [h3 s3] [h4 s4] _ [H1 H2] Hr. split.
    + eapply net_ops_trans; [exact H1 | by eapply returnSystemCall_net].
    + eapply same_host_trans; [exact H2 | by eapply returnSystemCall_same].
  - split; [apply net_ops_refl | done].
Qed.

(** *** Applications *)

Lemma registerProcess_net G a (h h' : HostT) (s s' : Sys) pid :
  Host.registerProcess a h s = Ok (h', s', pid) -> net_ops G s s' /\ same_host h h'.
Proof.
  unfold Host.registerProcess, Host.get_app. intros H. res_inv. destruct a0 as [c|]; res_inv.
  - split; [by eapply app_net | done].
  - split; [apply net_ops_refl | done].
Qed.

Lemma launchApplication_net G pid (h : HostT) (s s' : Sys) : Host.launchApplication pid h s = Ok s' -> net_ops G s s'.
Proof.
  unfold Host.launchApplication, Host.get_app, Host.start. intros H. res_inv.
  eapply net_ops_trans; [|eapply rtc_once, no_add; eassumption]. by eapply app_net.
Qed.

(** A new application object of a registered host. *)
Lemma new_app_good a app (s : Sys) h :
  registeredModule s !! app_host app = Some (NHost h) -> good s -> good (Host.set_app a app s).
Proof.
  intros Hh [[N1 N2 N3 N4 N5] Hq]. split; [|by apply (queue_inv_ext s)]. constructor; try done.
  intros b app' Hb. cbn in Hb. apply lookup_insert_Some in Hb as [[_ <-]|[_ Hb]]; [by exists h | by eapply N4].
Qed.

Lemma launch_good id main (s s' : Sys) : launch id main s = Ok s' -> good s -> good s'.
Proof.
  unfold launch, onHostSys. intros H Hg. destruct (deref id s) as [o|] eqn:Ed; [|discriminate].
  apply deref_ok in Ed as Ho. cbn [mbind Res_bind] in H. destruct o as [| | |h]; try discriminate.
  unfold Host.addApplication in H. set (a := Host.new_key _) in H. set (s0 := Host.set_app _ _ s) in H.
  assert (good s0) as Hg0 by by apply (new_app_good a _ s h).
  destruct (Host.registerProcess a h s0) as [[[h1 s1] pid]|] eqn:Er; [|discriminate]. cbn [mbind Res_bind] in H.
  destruct (Host.launchApplication pid h1 s1) as [s2|] eqn:El; [|discriminate]. cbn [mbind Res_bind] in H. injection H as <-.
  apply (registerProcess_net (addressed (registeredModule s0))) in Er as [H1 Hs].
  apply (launchApplication_net (addressed (registeredModule s0))) in El.
  destruct (same_grows _ _ Hs) as (Hok & Hp & Hm & Ht).
  apply (replace_good id (NHost h) (NHost h1) s0); [done|by eapply net_ops_trans|done|done|done|].
  intros h2 [= <-]. apply Hok. by eapply (ni_hosts s (proj1 Hg)).
Qed.

(** *** Whole environments *)

Lemma routing_grows (f : RoutingInfo -> RoutingInfo) h h' :
  Ok (Host.set_routing (f (Host.routing h)) h) = Ok h' -> grows h h'.
Proof. intros [= <-]. apply set_routing_grows. Qed.

Lemma addMACEntry_ports p mac w w' :
  addMACEntry p mac w = Ok w' -> Link.ports (Link.sw_link w') = Link.ports (Link.sw_link w).
Proof.
  unfold addMACEntry, Link.addMACEntry. intros H. destruct (_ !! Z.to_nat p); [|discriminate]. by injection H as <-.
Qed.

Lemma enablePCAP_ports n w w' :
  enablePCAPLogging n w = Ok w' -> Link.ports (Link.sw_link w') = Link.ports (Link.sw_link w).
Proof.
  unfold enablePCAPLogging, Link.enablePCAPLogging. intros [= <-]. cbn. by destruct (negb _).
Qed.

Lemma setQueueSize_ports n w w' :
  setQueueSize n w = Ok w' -> Link.ports (Link.sw_link w') = Link.ports (Link.sw_link w).
Proof. by intros [= <-]. Qed.

Lemma setLinkSpeed_ports n w w' :
  setLinkSpeed n w = Ok w' -> Link.ports (Link.sw_link w') = Link.ports (Link.sw_link w).
Proof. by intros [= <-]. Qed.

Lemma init_good : good (System_init initial_env).
Proof.
  split.
  - constructor; cbn; try (intros; simplify_map_eq). constructor.
  - constructor; cbn; try done; first [apply SSorted_nil | apply NoDup_nil_2 | set_solver].
Qed.

End TestEnv.

(** One step of a set-up: from [good] of a state to [good] of the next. *)
Ltac good_next :=
  match goal with
  | E : newHost ?s = Ok (?s', _), G : good ?s |- _ => apply newHost_good in E; [|exact G]
  | E : newSwitch _ _ _ ?s = Ok (?s', _), G : good ?s |- _ => apply newSwitch_good in E; [|exact G]
  | E : addWire _ _ _ _ _ ?s = Ok (?s', _), G : good ?s |- _ => apply addWire_good in E; [|exact G]
  | E : onHost _ _ ?s = Ok ?s', G : good ?s |- _ =>
      apply onHost_good in E;
        [|first [apply routing_grows | apply addHostModule_grows | assumption] |exact G]
  | E : onSwitch _ _ ?s = Ok ?s', G : good ?s |- _ =>
      apply onSwitch_good in E;
        [|first [apply addMACEntry_ports | apply enablePCAP_ports | apply setQueueSize_ports | apply setLinkSpeed_ports]
         |exact G]
  | E : onHostSys _ (Host.initializeHostModule _ _) ?s = Ok ?s', G : good ?s |- _ =>
      apply initialize_good in E; [|exact G]
  | E : cleanUp _ ?s = Ok ?s', G : good ?s |- _ => apply cleanUp_good in E; [|exact G]
  | E : finalizeHostModule _ ?s = Ok ?s', G : good ?s |- _ => apply finalize_good in E; [|exact G]
  end.

(** ** The building blocks by computation *)
Section Running.
Context {RE : RandomEngine} {X : Type} {EX : ExternalModule X} {ES : ExternalStable X}.
Context {US : UnorderedSet Z} {UM : UnorderedMap}.
Abbreviation Obj := (HostObject X).
Abbreviation Sys := (System (NetMod (Obj := Obj)) Message Z Env).
Abbreviation HostT := (Host.Host Obj).

(** Method calls by computation. *)
Lemma onHost_run r f (s : Sys) h h' :
  registeredModule s !! r = Some (NHost h) -> f h = Ok h' -> onHost r f s = Ok (store r (NHost h') s).
Proof. intros Hr Hf. unfold onHost, deref. rewrite Hr. cbn. by rewrite Hf. Qed.

Lemma onSwitch_run r f (s : Sys) w w' :
  registeredModule s !! r = Some (NSwitch w) -> f w = Ok w' -> onSwitch r f s = Ok (store r (NSwitch w') s).
Proof. intros Hr Hf. unfold onSwitch, deref. rewrite Hr. cbn. by rewrite Hf. Qed.

Lemma store_store id a b (s : Sys) : store id b (store id a s) = store id b s.
Proof. unfold store. cbn. by rewrite insert_insert_eq. Qed.

Lemma connect_host_run r n (s : Sys) h :
  registeredModule s !! r = Some (NHost h) ->
  connect r n s = Ok (store r (NHost (fst (Host.connectWire n h))) s, Z.of_nat (length (Host.ports h))).
Proof. intros Hr. unfold connect, deref. by rewrite Hr. Qed.

Lemma connect_switch_run r n (s : Sys) w :
  registeredModule s !! r = Some (NSwitch w) ->
  connect r n s = Ok (store r (NSwitch (Link.set_sw_link (fst (Link.connectWire n (Link.sw_link w))) w)) s,
                      Z.of_nat (length (Link.ports (Link.sw_link w)))).
Proof. intros Hr. unfold connect, deref. by rewrite Hr. Qed.

Lemma addModule_run m (s : Sys) :
  registeredModule s !! nextModuleID s = None ->
  exists s', addModule m s = Ok (s', nextModuleID s) /\
    registeredModule s' = <[nextModuleID s := m]> (registeredModule s) /\ nextModuleID s' = nextModuleID s ⊞ 1.
Proof.
  intros Hn. unfold addModule, newModuleID. cbn [registeredModule set_nextModuleID].
  rewrite bool_decide_eq_true_2 by done. cbn [assert_that mbind Res_bind]. eexists. by split; [reflexivity|].
Qed.

(** A wire between a host and a switch. *)
Lemma addWire_run_host r sw delay speed (s : Sys) h w n :
  registeredModule s !! r = Some (NHost h) -> registeredModule s !! sw = Some (NSwitch w) ->
  n = nextModuleID s -> registeredModule s !! n = None ->
  exists s' x, addWire r sw delay speed true s =
      Ok (s', (n, (Z.of_nat (length (Host.ports h)), Z.of_nat (length (Link.ports (Link.sw_link w)))))) /\
    registeredModule s' = <[sw := NSwitch (Link.set_sw_link (fst (Link.connectWire n (Link.sw_link w))) w)]>
      (<[r := NHost (fst (Host.connectWire n h))]> (<[n := NWire x]> (registeredModule s))) /\
    Wire.bps x = speed /\ nextModuleID s' = n ⊞ 1 /\ Wire.connected x = (r, sw) /\ Wire.propagationDelay x = delay.
Proof.
  intros Hr Hw -> Hn. unfold addWire. set (x := Wire.Wire_new _ _ _ _ _ _).
  assert (r <> nextModuleID s) by congruence. assert (sw <> nextModuleID s) by congruence.
  assert (sw <> r) by (intros ->; congruence).
  destruct (addModule_run (NWire x) s Hn) as (s1 & -> & E1 & E2). cbn [mbind Res_bind].
  erewrite (connect_host_run r); [|rewrite E1, lookup_insert_ne by done; exact Hr]. cbn [mbind Res_bind].
  erewrite (connect_switch_run sw).
  2: { cbn [registeredModule store set_modules]. rewrite E1, !lookup_insert_ne by done. exact Hw. }
  cbn [mbind Res_bind]. eexists _, x. split; [reflexivity|]. cbn [registeredModule store set_modules].
  by rewrite E1.
Qed.

Lemma Host_new_run : exists h0 : HostT, Host.Host_new = Ok h0 /\ Host.ports h0 = [] /\ Host.routing h0 = empty_info.
Proof. eexists. split; [reflexivity|]. done. Qed.

End Running.

Section Environments.
Context {RE : RandomEngine} {X : Type} {EX : ExternalModule X} {ES : ExternalStable X}.
Context {US : UnorderedSet Z} {UM : UnorderedMap}.
Abbreviation Obj := (HostObject X).
Abbreviation Sys := (System (NetMod (Obj := Obj)) Message Z Env).

Lemma build_good seed1 seed2 u (s s' : Sys) r1 r2 r3 :
  buildTwoHosts seed1 seed2 u s = Ok (s', r1, r2, r3) -> good s -> good s'.
Proof. unfold buildTwoHosts. intros H G. res_inv. repeat good_next. done. Qed.

Lemma configure_good id p1 p2 a b c d e f g h (s s' : Sys) :
  configureHost id p1 p2 a b c d e f g h s = Ok s' -> good s -> good s'.
Proof. unfold configureHost. intros H G. res_inv. repeat good_next. done. Qed.

Lemma finish_good h1 h2 sw q1 q2 q3 q4 target adversary (s s' : Sys) :
  provider_ok target -> provider_ok adversary ->
  finishTwoHosts h1 h2 sw q1 q2 q3 q4 target adversary s = Ok s' -> good s -> good s'.
Proof. unfold finishTwoHosts. intros Ht Ha H G. res_inv. repeat good_next. done. Qed.

Lemma SetUp_good seed1 seed2 u queue target adversary (s : Sys) e :
  provider_ok target -> provider_ok adversary ->
  SetUp seed1 seed2 u queue target adversary s = Ok e -> good s -> good (env_sys e).
Proof.
  unfold SetUp. intros Ht Ha H G. res_inv. cbn [env_sys].
  match goal with E : buildTwoHosts _ _ _ _ = Ok _ |- _ => apply build_good in E; [|exact G] end.
  do 2 match goal with E : configureHost _ _ _ _ _ _ _ _ _ _ _ ?s1 = Ok _, G : good ?s1 |- _ =>
    apply configure_good in E; [|exact G] end.
  eapply finish_good; [exact Ht|exact Ha|eassumption|].
  destruct queue; res_inv; [|done]. good_next. done.
Qed.

Lemma run_good fuel till (s s' : Sys) log :
  run fuel till s = Ok (s', log) -> good s ->
  good s' /\ Forall (fun c => addressed (registeredModule s') (tc_from c) (tc_to c) (message c)) log.
Proof.
  intros H [Hi Hq]. destruct (run_inv _ _ _ _ _ Hi H) as (H1 & _ & H2).
  destruct (run_queue _ _ _ _ _ Hq H) as (H3 & _). done.
Qed.

Lemma client_good target k (e e' : Congestion) :
  provider_ok target -> addClient target k e = Ok e' -> good (cong_sys e) -> good (cong_sys e').
Proof. unfold addClient. intros Ht H G. res_inv. cbn [cong_sys]. repeat good_next. done. Qed.

Lemma congestion_good seed1 seed2 n target adversary (s : Sys) e :
  provider_ok target -> provider_ok adversary ->
  TestEnv3 seed1 seed2 n target adversary s = Ok e -> good s -> good (cong_sys e).
Proof.
  unfold TestEnv3. intros Ht Ha H G. res_inv. cbn [cong_sys]. repeat good_next.
  match goal with E : foldM _ _ _ = Ok ?e1 |- _ =>
    assert (good (cong_sys e1)); [refine (foldM_inv (fun e => good (cong_sys e)) _ _ _ _ _ _ E)|] end.
  { intros k x y _ Hx Hy. exact (client_good target k x y Ht Hy Hx). }
  { done. }
  repeat good_next. done.
Qed.

(** ** Properties *)

Lemma build_ok {A} (r : Res A) : match r with Ok _ => true | Err _ => false end = true -> exists e, r = Ok e.
Proof. destruct r; [by eexists|discriminate]. Qed.

(** The skeleton's module can be installed in every environment. *)
Lemma environments_build seed1 seed2 u :
  let p := TCPAssignmentProvider (X := X) in
  (exists e, TestEnv1 seed1 seed2 p p (System_init initial_env) = Ok e) /\
  (exists e, TestEnv2 seed1 seed2 u p p (System_init initial_env) = Ok e) /\
  Forall (fun n => exists e, TestEnv3 seed1 seed2 n p p (System_init initial_env) = Ok e) [1; 2; 8]%nat.
Proof.
  intros p. split; [apply build_ok; vm_compute; reflexivity|]. split; [apply build_ok; vm_compute; reflexivity|].
  do 3 (apply Forall_cons; split; [apply build_ok; vm_compute; reflexivity|]). constructor.
Qed.


End Environments.
End TestEnv.

(** ** A test

    Two probe modules in the place of TCP: the one at the first host sends one
    segment when it is initialised, both record what arrives. *)
Module Probe.
Import System Network TestEnv.

Record Probe := mkProbe { outgoing : option (list Z); got : list (list Z) }.

#[local] Instance probe_module : ExternalModule Probe := {|
  ext_hostModuleName _ := Some "TCP";
  ext_timerModuleName _ := Some "TCP";
  ext_namespace _ := Some TCPAssignment.domain_protocol;
  ext_packetArrived x from p := HRet (mkProbe (outgoing x) (got x ++ [buffer p]));
  ext_systemCallback x u pid param := HReturnSystemCall u 0 (HRet x);
  ext_timerCallback x a := HRet x;
  ext_initialize x :=
    match outgoing x with
    | Some b => HSendPacket "IPv4" (mkPacket b 1000) (HRet x)
    | None => HRet x
    end;
  ext_finalize x := HRet x;
  ext_diagnose x a := HRet (x, a);
|}.

#[local] Instance probe_stable : ExternalStable Probe.
Proof. constructor; cbn; try done. intros [[]]; done. Qed.

#[local] Instance low_engine : RandomEngine := {|
  engine := unit;
  engine_seed _ := tt;
  uniform_real a _ g := (a, g);
  libm_exp x := x;
  libm_log x := x;
|}.
#[local] Instance unordered : UnorderedSet Z := {| bucket_pos _ _ := 0%nat |}.
#[local] Instance unordered_map : UnorderedMap.
Proof. refine {| map_order m := elements (dom m) |}. done. Defined.

Abbreviation PSys := (System (NetMod (Obj := HostObject Probe)) Message Z Env).

(** A frame of 60 bytes: room for the Ethernet and IPv4 headers with the
    addresses filled in, a TCP header and six bytes of data. *)
Definition segment : list Z := replicate 20 0 ++ [1; 2; 3; 4; 5; 6].
Definition frame : list Z := replicate 26 0 ++ ip1 ++ ip2 ++ segment.

Definition provider (x : Probe) : Provider (X := Probe) := Host.addHostModule (ExternalObject x).

Lemma provider_grows x : provider_ok (provider x).
Proof. intros h h'. apply addHostModule_grows. Qed.

Definition sender : Provider (X := Probe) := provider (mkProbe (Some frame) []).
Definition receiver : Provider (X := Probe) := provider (mkProbe None []).

Definition env : TwoHosts (X := Probe) :=
  match TestEnv1 0 0 sender receiver (System_init initial_env) with
  | Ok e => e
  | Err _ => mkTwoHosts (System_init initial_env) 0 0 0
  end.

Lemma env_ok : TestEnv1 0 0 sender receiver (System_init initial_env) = Ok env.
Proof. vm_compute. reflexivity. Qed.

Lemma env_good : good (env_sys env).
Proof.
  pose proof env_ok as E. unfold TestEnv1 in E.
  exact (SetUp_good _ _ _ _ _ _ _ _ (provider_grows _) (provider_grows _) E init_good).
Qed.

(** What the probe of a host has received. *)
Definition received_by (id : Z) (s : PSys) : option (list (list Z)) :=
  match registeredModule s !! id with
  | Some (NHost h) =>
      oid ← Host.hostModuleMap h !! "TCP";
      o ← Host.objects h !! oid;
      match o with ExternalObject x => Some (got x) | _ => None end
  | _ => None
  end.

(** An application that sleeps five milliseconds. *)
Definition sleeper : Program :=
  DoSyscall (mkParam NSLEEP (P_uint64 5000000, unset, unset)) (fun _ => DoGetTime Finish).

Definition started : PSys :=
  match launch (host1 env) sleeper (env_sys env) with Ok s => s | Err _ => env_sys env end.

Lemma started_ok : launch (host1 env) sleeper (env_sys env) = Ok started.
Proof. vm_compute. reflexivity. Qed.

Lemma started_good : good started.
Proof. eapply launch_good; [exact started_ok | exact env_good]. Qed.

Definition after : PSys * list (TimerContainer Message) :=
  match run 100 (makeTime 1000 SEC) started with Ok r => r | Err _ => (started, []) end.

Lemma after_ok : run 100 (makeTime 1000 SEC) started = Ok (fst after, snd after).
Proof. vm_compute. reflexivity. Qed.

(** end to end in [TestEnv1]: the segment of the probe at the first host
    crosses IPv4, Ethernet, a wire, the switch, a second wire, Ethernet and
    IPv4 and reaches the probe at the second host, with the addresses and the
    data intact, 2001440 ns after it was sent (twice 1 ms of propagation and
    three transmissions of 60 bytes at 1 Gbit/s); the first host receives
    nothing; meanwhile an application that sleeps 5 ms runs to its end at
    exactly 5 ms, after which nothing is queued. *)
Theorem end_to_end_delivery :
  let '(s, log) := after in
  received_by (host1 env) s = Some [] /\
  (exists f, received_by (host2 env) s = Some [f] /\ take 12 f = mac2 ++ mac1 /\
     slice 26 8 f = ip1 ++ ip2 /\ drop 34 f = segment) /\
  (wakeup <$> filter (fun c => tc_from c = tc_to c /\ tc_to c = host2 env) log) = [2001440; 2001440; 2001440] /\
  currentTime s = 5000000 /\ timerQueue s = [] /\
  omap (fun c => match message c with Return pid v => Some (pid, v) | _ => None end) log = [(0, 5000000)].
Proof.
  vm_compute. split; [reflexivity|]. split; [|repeat split]. eexists. split; [reflexivity|]. repeat split.
Qed.

Lemma network_run_safe_witness :
  net_inv started /\ queue_inv ∅ started /\ net_inv (fst after) /\ length (snd after) = 13%nat.
Proof.
  destruct started_good as [Hi Hq].
  destruct (network_run_safe 100 (makeTime 1000 SEC) started (fst after) (snd after) Hi Hq after_ok) as (H & _).
  do 2 (split; [assumption|]). split; [exact H | vm_compute; reflexivity].
Defined.

(** One host, then two hosts without wires. *)
Definition next_host (s : PSys) : PSys := match newHost s with Ok (s, _) => s | Err _ => s end.
Definition one_host : PSys := next_host (System_init initial_env).
Definition two_hosts : PSys := next_host one_host.

Lemma next_host_good (s : PSys) : good s -> good (next_host s).
Proof.
  intros G. unfold next_host. destruct (newHost s) as [[s' id]|] eqn:E; [|done]. by eapply newHost_good.
Qed.

Lemma two_hosts_inv : net_inv two_hosts.
Proof. exact (proj1 (next_host_good _ (next_host_good _ init_good))). Qed.

Lemma addWire_connects_witness :
  exists s' x, addWire 1 2 1000000 (10 ^ 9) true two_hosts = Ok (s', (3, (0, 0))) /\
    registeredModule s' !! 3 = Some (NWire x) /\ Wire.connected x = (1, 2).
Proof.
  destruct (addWire_connects 1 2 1000000 (10 ^ 9) true two_hosts two_hosts_inv)
    as (s' & lp & rp & ol & ol' & om & om' & x & E & _ & _ & Hx & Hc & _ & _ & _ & Hl & Hr & _ & _ & -> & _ & -> & _).
  - eexists. split; [vm_compute; reflexivity | exact I].
  - eexists. split; [vm_compute; reflexivity | exact I].
  - vm_compute. reflexivity.
  - exists s', x. split; [|split; [exact Hx | exact Hc]]. vm_compute in Hl, Hr. injection Hl as <-. injection Hr as <-.
    exact E.
Defined.


End Probe.
