(* ===== verification/Delivery.v ===== *)
(** * Delivery: a segment from one host to another

    Composes the stack of the sending host (Ethernet.v), its wire (Wire.v), a
    switch (Link.v), a second wire and the stack of the receiving host, under
    the scheduler's main loop: what [System::run] does with a segment that the
    transport module of one host hands to IPv4, in any network in which nothing
    else is under way.  The segment, the modules on top of the stacks, speeds,
    delays, tables and other ports are arbitrary. *)

From S2P Require Import Prelude NetworkUtil Packet RoutingInfo TimeUtil RandomDistribution Real System.
From S2P Require Import ModuleBase Wire Link HostApi Ethernet Host Assignments Network Process Processes TestEnv.
Local Open Scope Z_scope.

Module Delivery.
Import System Network Process.

Section Delivery.
Context {RE : RandomEngine} {X : Type} {EX : ExternalModule X}.
Context {US : UnorderedSet Z} {UM : UnorderedMap}.
Abbreviation Obj := (HostObject X).
Abbreviation Sys := (System (NetMod (Obj := Obj)) Message Z Env).
Abbreviation HostT := (Host.Host Obj).
Abbreviation Mods := (gmap Z (NetMod (Obj := Obj))).

(** ** One message under way *)

(** Nothing is queued or ready; the modules are [M], there is room for [n] more
    messages, and applications and their memory are those of [e]. *)
Record calm (e : Env) (n : Z) (M : Mods) (t : Z) (s : Sys) : Prop := {
  cl_queue : timerQueue s = [];
  cl_ready : runnableReady s = [];
  cl_modules : registeredModule s = M;
  cl_live : live n s;
  cl_time : currentTime s = t;
  cl_rest : applications (statics s) = applications e /\ timevals (statics s) = timevals e;
}.

(** Exactly the message [m] is queued. *)
Record carries (e : Env) (n : Z) (M : Mods) (c : TimerContainer Message) (s : Sys) : Prop := {
  ca_queue : timerQueue s = [c];
  ca_ready : runnableReady s = [];
  ca_modules : registeredModule s = M;
  ca_live : live n s;
  ca_rest : applications (statics s) = applications e /\ timevals (statics s) = timevals e;
}.

(** [run] from [s] delivers [log] and goes on from [s']. *)
Definition reaches (till : Z) (s : Sys) (log : list (TimerContainer Message)) (s' : Sys) : Prop :=
  forall f, run (length log + f) till s = ('(s2, log2) ← run f till s'; Ok (s2, log ++ log2)).

Lemma reaches_refl till s : reaches till s [] s.
Proof. intros f. cbn. by destruct (run f till s) as [[s2 log]|]. Qed.

Lemma reaches_trans till s1 log1 s2 log2 s3 :
  reaches till s1 log1 s2 -> reaches till s2 log2 s3 -> reaches till s1 (log1 ++ log2) s3.
Proof.
  intros H1 H2 f. rewrite length_app, <- Nat.add_assoc, H1, H2. destruct (run f till s3) as [[s4 log]|]; [|done].
  cbn. by rewrite app_assoc.
Qed.

Definition in_time (till t : Z) : Prop := till = 0 \/ t <= till.

(** A message with a packet that has an identifier of its type. *)
Definition packet_ok (m : Message) : Prop := exists p, packet_of m = Some p /\ is_u 64 (packetID p).

Lemma destroy_message_live n m (s : Sys) :
  live n s -> live n (destroy_message m s) /\ (packet_ok m -> has_free_id (destroy_message m s)).
Proof.
  intros Hl. split; [by destruct m; try apply destroy_live|]. intros (p & Hp & Hid).
  destruct m; try done; cbn in Hp; injection Hp as ->; exact (proj2 (destroy_room n p s Hl Hid)).
Qed.

Lemma retire_live n u (s : Sys) : live n s -> live n (retire u s).
Proof.
  intros ([H1 H2] & H3 & H4). split; [|done]. split; [done|]. intros x Hx. apply H2. cbn in Hx. set_solver.
Qed.

(** One iteration of the main loop. *)
Lemma deliver_reaches e n M till c s s1 o o' om :
  carries e n M c s -> canceled c = false -> in_time till (wakeup c) ->
  M !! tc_to c = Some o -> M !! tc_from c = Some om ->
  received (tc_to c) (tc_from c) (message c) (set_time (wakeup c) (set_queue [] s)) = Ok (store (tc_to c) o' s1, None) ->
  registeredModule s1 = M ->
  reaches till s [c] (retire (uuid c) (destroy_message (message c) (store (tc_to c) o' s1))).
Proof.
  intros [H1 H2 H3 H4 H5] Hc Ht Hto Hfrom E K3 f. cbn [length Nat.add app].
  assert (run (S f) till s = (s ← process c (set_queue [] s); '(s, log) ← run f till s; Ok (s, c :: log))) as ->.
  { cbn [run]. destruct f; cbn [wake_loop]; rewrite H2; cbn [mbind Res_bind]; rewrite H1;
      (replace (negb (till =? 0) && (till <? wakeup c))%bool with false; [done|]); symmetry;
      destruct Ht as [->|Ht]; try done; apply andb_false_iff; right; apply Z.ltb_ge; lia. }
  assert (process c (set_queue [] s) = Ok (retire (uuid c) (destroy_message (message c) (store (tc_to c) o' s1)))) as ->; [|done].
  unfold process. rewrite Hc. cbn [negb].
  rewrite (deref_some (tc_to c) (set_time (wakeup c) (set_queue [] s)) o) by (cbn; by rewrite H3). cbn [mbind Res_bind].
  cbn [messageReceived NetMod_class]. rewrite E. cbn [mbind Res_bind].
  assert (exists om', registeredModule (store (tc_to c) o' s1) !! tc_from c = Some om') as [om' Hom'].
  { cbn. rewrite K3. destruct (decide (tc_to c = tc_from c)) as [->|]; [rewrite lookup_insert_eq; by eexists|].
    rewrite lookup_insert_ne by done. by exists om. }
  rewrite (deref_some _ _ _ Hom'). cbn [mbind Res_bind messageFinished NetMod_class]. unfold finished.
  rewrite (deref_some _ _ _ Hom'). by destruct om'.
Qed.

(** The next message is sent while this one is handled. *)
Lemma deliver e n n' M till c c' s s1 o o' om :
  carries e n M c s -> canceled c = false -> in_time till (wakeup c) ->
  M !! tc_to c = Some o -> M !! tc_from c = Some om ->
  received (tc_to c) (tc_from c) (message c) (set_time (wakeup c) (set_queue [] s)) = Ok (store (tc_to c) o' s1, None) ->
  carries e n' M c' s1 ->
  exists s', reaches till s [c] s' /\ carries e n' (<[tc_to c := o']> M) c' s' /\ (packet_ok (message c) -> has_free_id s').
Proof.
  intros Hca Hc Ht Hto Hfrom E [K1 K2 K3 K4 K5]. eexists. split; [by eapply deliver_reaches|].
  destruct (destroy_message_live n' (message c) (store (tc_to c) o' s1) K4) as [Hl Hf]. split; [|exact Hf].
  constructor; [..|by apply retire_live|]; by destruct (message c); cbn; rewrite ?K1, ?K2, ?K3.
Qed.

(** Nothing is sent: [run] returns after this message. *)
Lemma deliver_last e n M till c s s1 o o' om :
  carries e n M c s -> canceled c = false -> in_time till (wakeup c) ->
  M !! tc_to c = Some o -> M !! tc_from c = Some om ->
  received (tc_to c) (tc_from c) (message c) (set_time (wakeup c) (set_queue [] s)) = Ok (store (tc_to c) o' s1, None) ->
  calm e n M (wakeup c) s1 ->
  exists s', (forall f, run (S (S f)) till s = Ok (s', [c])) /\ calm e n (<[tc_to c := o']> M) (wakeup c) s'.
Proof.
  intros Hca Hc Ht Hto Hfrom E [K1 K2 K3 K4 K5 K6]. eexists. split.
  - intros f. change (S (S f)) with (length [c] + S f)%nat. rewrite (deliver_reaches e n M till c s s1 o o' om Hca Hc Ht Hto Hfrom E K3).
    cbn [run]. set (s' := retire _ _). assert (timerQueue s' = [] /\ runnableReady s' = []) as [E1 E2] by (by destruct (message c)).
    destruct f; cbn [wake_loop]; rewrite E2; cbn [mbind Res_bind]; by rewrite E1.
  - destruct (destroy_message_live n (message c) (store (tc_to c) o' s1) K4) as [Hl _].
    constructor; [..|by apply retire_live| |]; by destruct (message c); cbn; rewrite ?K1, ?K2, ?K3.
Qed.

(** Sending a message when nothing else is queued. *)
Lemma post_carries e n M t id to m after s :
  calm e n M t s -> 1 <= n ->
  exists s', post id to m after s = Ok s' /\
    carries e (n - 1) M (mkTimer id to false (t ⊞ after) m (currentUUID s + 1)) s' /\ currentTime s' = t.
Proof.
  intros [H1 H2 H3 H4 H5 H6] Hn. pose proof H4 as (Hi & Hc & Hr).
  destruct (Processes.sent_below id to m after s Hi ltac:(lia)) as (Es & Hu & Hib & _).
  exists (sent id to m after s). split; [unfold post; by rewrite Es|]. split; [|done]. constructor; try done.
  - cbn. rewrite H1, H5. cbn. rewrite (wrap_small 64 (currentUUID s + 1)); [done|]. destruct Hi. unfold is_u. lia.
  - split; [done|]. split; [lia|exact Hr].
Qed.

(** ** Hosts *)

Lemma Packet_copy_id p : Packet_copy p = p.
Proof. by destruct p. Qed.

Lemma trace_bind {A B} r (p : HProg A) (f : A -> HProg B) : forall l a l2 b,
  trace r p = Ok (l, a) -> trace r (f a) = Ok (l2, b) -> trace r (p ≫= f) = Ok (l ++ l2, b).
Proof.
  induction p as [x|err|to q k IH|k IH|? k IH|k IH|? ? k IH|? k IH|? ? k IH|? ? k IH|? k IH|k IH|? k IH|? ? ? k IH|? k IH|? k IH|? k IH];
    intros l a l2 b H1 H2; cbn [trace mbind HProg_bind hbind] in *; try discriminate.
  - injection H1 as <- <-. exact H2.
  - destruct (trace r k) as [[l' a']|] eqn:E; [|discriminate]. injection H1 as <- <-.
    change (hbind k f) with (k ≫= f). by rewrite (IH l' a' l2 b eq_refl H2).
  - exact (IH r l a l2 b H1 H2).
Qed.

(** A callback that sends packets only. *)
Lemma trace_run {A} id self name (p : HProg A) (h : HostT) : forall l a (s : Sys),
  trace (Host.routing h) p = Ok (l, a) -> Host.self_name self = Some name ->
  Host.run_prog id self p h s =
  (s ← foldM (fun x => Host.sendPacketToModule id (Some name) (fst x) (snd x) h) l s; Ok (a, h, s)).
Proof.
  induction p as [x|err|to q k IH|k IH|? k IH|k IH|? ? k IH|? k IH|? ? k IH|? ? k IH|? k IH|k IH|? k IH|? ? ? k IH|? k IH|? k IH|? k IH];
    intros l a s H Hn; cbn [trace] in H; try discriminate; cbn [Host.run_prog].
  - by injection H as <- <-.
  - destruct (trace _ k) as [[l' a']|] eqn:E; [|discriminate]. injection H as <- <-. rewrite Hn. cbn [of_option mbind Res_bind foldM fst snd].
    destruct (Host.sendPacketToModule _ _ _ _ _ _) as [s'|err]; [|done]. cbn [mbind Res_bind]. by rewrite (IH l' a').
  - by apply (IH (Host.routing h)).
Qed.

(** A module of a host and what it does with a packet. *)
Definition installed (h : HostT) (name : string) (o : Obj) : Prop :=
  Host.running h = true /\ HostApi.hostModuleName o = Some name /\
  exists oid, Host.hostModuleMap h !! name = Some oid /\ Host.objects h !! oid = Some o.

(** The host after the module [name] changed to [o']. *)
Definition with_object (h : HostT) (name : string) (o' : Obj) : HostT :=
  match Host.hostModuleMap h !! name with Some oid => Host.set_object oid o' h | None => h end.

Lemma module_received id from name o o' p l (h : HostT) (s : Sys) :
  installed h name o -> registeredModule s !! id = Some (NHost h) ->
  trace (Host.routing h) (HostApi.packetArrived o (default "Host" from) p) = Ok (l, o') ->
  received id id (PacketPass from (Some name) p) s =
  (s ← foldM (fun x => Host.sendPacketToModule id (Some name) (fst x) (snd x) h) l s; Ok (store id (NHost (with_object h name o')) s, None)).
Proof.
  intros (Hr & Hn & oid & Hm & Ho) Hh Ht. unfold received. rewrite (deref_some _ _ _ Hh). cbn [mbind Res_bind Host.messageReceived].
  rewrite Hr. cbn [of_option mbind Res_bind]. rewrite Hm. cbn [of_option mbind Res_bind]. unfold Host.call_object. rewrite Ho.
  cbn [of_option mbind Res_bind]. rewrite (trace_run id (Host.self_of o) name _ h l o' s Ht Hn).
  unfold with_object. rewrite Hm. by destruct (foldM _ _ _) as [s'|err].
Qed.

Lemma now_after t : is_u 64 t -> t ⊞ 0 = t.
Proof. intros H. rewrite Z.add_0_r. by apply wrap_small. Qed.

(** A packet passed on inside a host. *)
Lemma pass_inside e n M t id from name o o' p to q h s :
  calm e n M t s -> 1 <= n -> is_u 64 t -> M !! id = Some (NHost h) -> installed h name o ->
  trace (Host.routing h) (HostApi.packetArrived o (default "Host" from) p) = Ok ([(to, q)], o') ->
  String.eqb to "Host" = false -> is_Some (Host.hostModuleMap h !! to) ->
  exists s1 u, received id id (PacketPass from (Some name) p) s = Ok (store id (NHost (with_object h name o')) s1, None) /\
    carries e (n - 1) M (mkTimer id id false t (PacketPass (Some name) (Some to) q) u) s1.
Proof.
  intros Hc Hn Ht HM Hi Htr Hto [oid' Hm]. rewrite (module_received id from name o o' p [(to, q)] h s Hi); [|by rewrite (cl_modules _ _ _ _ _ Hc)|done].
  cbn [foldM fst snd mbind Res_bind].
  unfold Host.sendPacketToModule. rewrite Hto, Hm, Packet_copy_id.
  destruct (post_carries e n M t id id (PacketPass (Some name) (Some to) q) 0 s Hc Hn) as (s1 & -> & Hs1 & _).
  rewrite now_after in Hs1 by done. by eexists s1, _.
Qed.

(** A module that takes the packet and sends nothing ends the run. *)
Lemma module_consumes e n M till id from name o o' p h t u s :
  carries e n M (mkTimer id id false t (PacketPass from (Some name) p) u) s -> in_time till t ->
  M !! id = Some (NHost h) -> installed h name o ->
  trace (Host.routing h) (HostApi.packetArrived o (default "Host" from) p) = Ok ([], o') ->
  exists s', (forall f, run (S (S f)) till s = Ok (s', [mkTimer id id false t (PacketPass from (Some name) p) u])) /\
    calm e n (<[id := NHost (with_object h name o')]> M) t s'.
Proof.
  intros Hc Ht HM Hi Htr. assert (calm e n M t (set_time t (set_queue [] s))) as Hcalm by (by destruct Hc).
  eapply (deliver_last e n M till (mkTimer id id false t (PacketPass from (Some name) p) u)); try done. cbn [tc_to tc_from message wakeup].
  by rewrite (module_received id from name o o' p [] h _ Hi) by (done || by rewrite (cl_modules _ _ _ _ _ Hcalm)).
Qed.

(** A packet sent to the wire of the port with its source address. *)
Lemma pass_outside e n M t id from name o o' p q w k h s :
  calm e n M t s -> 1 <= n -> is_u 64 t -> M !! id = Some (NHost h) -> installed h name o ->
  trace (Host.routing h) (HostApi.packetArrived o (default "Host" from) p) = Ok ([("Host", q)], o') ->
  (12 <= getSize q)%nat ->
  Host.find_port (slice 6 6 (buffer q)) 0 (length (Host.ports h)) (Host.routing h) = Ok k -> Host.ports h !! k = Some w ->
  exists s1 u, received id id (PacketPass from (Some name) p) s = Ok (store id (NHost (with_object h name o')) s1, None) /\
    carries e (n - 1) M (mkTimer id w false t (WireMessage PACKET_TO_PORT q) u) s1.
Proof.
  intros Hc Hn Ht HM Hi Htr Hsz Hport Hw. rewrite (module_received id from name o o' p [("Host", q)] h s Hi); [|by rewrite (cl_modules _ _ _ _ _ Hc)|done].
  cbn [foldM fst snd mbind Res_bind].
  unfold Host.sendPacketToModule. rewrite String.eqb_refl. rewrite readInto_in by lia. cbn [mbind Res_bind]. rewrite Hport.
  cbn [mbind Res_bind]. unfold Host.sendPacket. pose proof (lookup_lt_Some _ _ _ Hw) as Hlt.
  replace (k <? length (Host.ports h))%nat with true by (symmetry; by apply Nat.ltb_lt). cbn [assert_that mbind Res_bind].
  destruct Hi as (Hr & _). rewrite Hr. cbn [negb]. rewrite Hw. cbn [of_option mbind Res_bind]. rewrite Packet_copy_id.
  destruct (post_carries e n M t id w (WireMessage PACKET_TO_PORT q) 0 s Hc Hn) as (s1 & -> & Hs1 & _).
  rewrite now_after in Hs1 by done. by eexists s1, _.
Qed.

(** A frame from a wire goes to Ethernet. *)
Lemma frame_received e n M t id w p h s :
  calm e n M t s -> 1 <= n -> is_u 64 t -> M !! id = Some (NHost h) -> Host.running h = true ->
  is_Some (Host.hostModuleMap h !! "Ethernet") ->
  exists s1 u, received id w (WireMessage PACKET_FROM_PORT p) s = Ok (store id (NHost h) s1, None) /\
    carries e (n - 1) M (mkTimer id id false t (PacketPass None (Some "Ethernet") p) u) s1.
Proof.
  intros Hc Hn Ht HM Hr [oid Hm]. unfold received.
  rewrite (deref_some id s (NHost h)) by (by rewrite (cl_modules _ _ _ _ _ Hc)). cbn [mbind Res_bind Host.messageReceived].
  rewrite bool_decide_eq_true_2 by done. cbn [assert_that mbind Res_bind]. rewrite Hr. unfold Host.sendPacketToModule.
  change (String.eqb "Ethernet" "Host") with false. cbn iota. rewrite Hm, Packet_copy_id.
  destruct (post_carries e n M t id id (PacketPass None (Some "Ethernet") p) 0 s Hc Hn) as (s1 & -> & Hs1 & _).
  rewrite now_after in Hs1 by done. by eexists s1, _.
Qed.

(** ** Wires and the switch *)

Lemma wire_received e n M t w from d p (W : Wire.Wire) s :
  calm e n M t s -> 1 <= n -> M !! w = Some (NWire W) -> Wire.destination from W = Some d -> Wire.limit_speed W = true ->
  0 < Wire.bps W -> 0 <= Wire.propagationDelay W -> Wire.at_end d (Wire.nextAvailable W) <= t ->
  (0 < getSize p)%nat -> Z.of_nat (getSize p) * 8 * 10 ^ 9 + Wire.bps W < 2 ^ 53 ->
  0 <= t -> t + Wire.transmission (Wire.bps W) p + Wire.propagationDelay W < 2 ^ 64 ->
  exists s1 u W', received w from (WireMessage PACKET_TO_PORT p) s = Ok (store w (NWire W') s1, None) /\
    carries e (n - 1) M (mkTimer w (Wire.at_end d (Wire.connected W)) false
      (t + Wire.transmission (Wire.bps W) p + Wire.propagationDelay W) (WireMessage PACKET_FROM_PORT p) u) s1.
Proof.
  intros Hc Hn HM Hd Hlim Hb Hpd Hav Hsz Hfit Ht Hend. unfold received.
  rewrite (deref_some w s (NWire W)) by (by rewrite (cl_modules _ _ _ _ _ Hc)). cbn [mbind Res_bind]. unfold Wire.messageReceived.
  rewrite bool_decide_eq_true_2 by done. cbn [assert_that mbind Res_bind]. rewrite Hd. unfold getCurrentTime. rewrite (cl_time _ _ _ _ _ Hc).
  rewrite trans_delay_exact by lia. cbn [mbind Res_bind Wire.limit_speed]. rewrite Hlim, Packet_copy_id. cbn [Wire.connected Wire.propagationDelay].
  fold (Wire.transmission (Wire.bps W) p). set (D := Wire.transmission (Wire.bps W) p) in *.
  assert (0 <= D) as HD by (apply Z.div_pos; lia).
  set (av := if Wire.at_end d (Wire.nextAvailable W) <? t then t else _).
  assert (av = t) as -> by (unfold av; destruct (_ <? t) eqn:E; bool_to_prop; lia).
  rewrite (wrap_small 64 (t + D)), (wrap_small 64 (t + D + _)) by (unfold is_u; lia).
  set (P := Wire.propagationDelay W) in *. rewrite (wrap_small 64 (t + D + P - t)) by (unfold is_u; lia).
  destruct (post_carries e n M t w (Wire.at_end d (Wire.connected W)) (WireMessage PACKET_FROM_PORT p) (t + D + P - t) s Hc Hn) as (s1 & -> & Hs1 & _).
  replace (t ⊞ (t + D + P - t)) with (t + D + P) in Hs1.
  2:{ replace (t + (t + D + P - t)) with (t + D + P) by lia. symmetry. apply wrap_small. unfold is_u. lia. }
  by eexists s1, _, _.
Qed.

Lemma switch_skips id inWireID mac p (w : Link.Switch) l f (s : Sys) :
  Forall (fun x => Link.known inWireID mac w x = false) l ->
  foldM (Link.switch_port id inWireID mac p) l (f, w, s) = Ok (f, w, s).
Proof.
  induction 1 as [|x l Hx _ IH]; [done|]. cbn [foldM]. unfold Link.switch_port at 1. unfold Link.known in Hx.
  destruct (negb (inWireID =? x)); [|exact IH]. cbn [andb] in Hx. rewrite Hx. exact IH.
Qed.

Lemma foldM_app_Ok {A B} (f : B -> A -> Res A) l1 l2 a a' : foldM f l1 a = Ok a' -> foldM f (l1 ++ l2) a = foldM f l2 a'.
Proof. revert a. induction l1 as [|b l1 IH]; intros a H; cbn in *; [by injection H as ->|]. destruct (f b a); [by apply IH|done]. Qed.

Lemma switch_received e n M t id w1 w2 l1 l2 p (L : Link.Switch) s :
  calm e n M t s -> has_free_id s -> 1 <= n -> is_u 64 t -> M !! id = Some (NSwitch L) -> Link.unreliable L = false ->
  (6 <= getSize p)%nat -> let mac := NetworkUtil.arrayToUINT64 (slice 0 6 (buffer p)) in
  Link.ports (Link.sw_link L) = l1 ++ w2 :: l2 -> Link.known w1 mac L w2 = true ->
  Forall (fun x => Link.known w1 mac L x = false) (l1 ++ l2) ->
  Link.queue_of w2 (Link.sw_link L) = [] -> Link.avail_of w2 (Link.sw_link L) <= t -> 0 <= Link.max_queue_length (Link.sw_link L) ->
  exists s1 u q, received id w1 (WireMessage PACKET_FROM_PORT p) s =
      Ok (store id (NSwitch (Link.set_sw_link (Link.set_port_queue w2 [q] (Link.sw_link L)) L)) s1, None) /\
    carries e (n - 1) M (mkTimer id id false t (CheckQueue w2) u) s1 /\ buffer q = buffer p /\ is_u 64 (packetID q).
Proof.
  intros Hc Hfree Hn Ht HM Hrel Hsz mac Hports Hk Hno Hq Hav Hmax. apply Forall_app in Hno as [Hno1 Hno2].
  destruct (clone_room n p s) as (r & q & Eq & Hb & Hid & Hlive); [split; [exact (cl_live _ _ _ _ _ Hc)|done]|].
  assert (calm e n M t (set_registry r s)) as Hc1 by (destruct Hc; by constructor).
  destruct (post_carries e n M t id id (CheckQueue w2) 0 _ Hc1 Hn) as (s1 & Ep & Hs1 & _). rewrite now_after in Hs1 by done.
  exists (destroy_packet q s1). eexists. exists q. split; [|split; [destruct Hs1; constructor; try done; by apply destroy_live|done]].
  unfold received. rewrite (deref_some id s (NSwitch L)) by (by rewrite (cl_modules _ _ _ _ _ Hc)). cbn [mbind Res_bind].
  unfold Link.messageReceived. cbn [Link.packetArrived Link.SwitchClass]. unfold Link.switch_packetArrived.
  rewrite readInto_in by lia. cbn [mbind Res_bind]. fold mac. rewrite Hports.
  rewrite (foldM_app_Ok _ _ _ _ _ (switch_skips id w1 mac p L l1 false s Hno1)). cbn [foldM]. unfold Link.switch_port at 1.
  unfold Link.known in Hk. apply andb_true_iff in Hk as [-> ->]. unfold Link.drop_decision. rewrite Hrel, Eq. cbn [mbind Res_bind].
  rewrite Link.sendPacket_empty by done. unfold Link.wait_until. change (getCurrentTime (set_registry r s)) with (getCurrentTime s).
  unfold getCurrentTime at 1. rewrite (cl_time _ _ _ _ _ Hc). replace (t <? _) with false by (symmetry; apply Z.ltb_ge; lia).
  rewrite Ep. cbn [mbind Res_bind]. rewrite switch_skips; [done|]. exact Hno2.
Qed.

(** The switch transmits the packet. *)
Lemma check_received e n M t id w2 q (L : Link.Switch) s :
  calm e n M t s -> 1 <= n -> M !! id = Some (NSwitch L) -> Link.queue_of w2 (Link.sw_link L) = [q] ->
  Link.avail_of w2 (Link.sw_link L) <= t -> 0 <= Link.snaplen (Link.sw_link L) -> 0 < Link.bps (Link.sw_link L) ->
  (0 < getSize q)%nat -> Z.of_nat (getSize q) * 8 * 10 ^ 9 + Link.bps (Link.sw_link L) < 2 ^ 53 ->
  0 <= t -> t + Wire.transmission (Link.bps (Link.sw_link L)) q < 2 ^ 64 ->
  exists s1 u L', received id id (CheckQueue w2) s = Ok (store id (NSwitch L') s1, None) /\
    carries e (n - 1) M (mkTimer id w2 false (t + Wire.transmission (Link.bps (Link.sw_link L)) q) (WireMessage PACKET_TO_PORT q) u) s1.
Proof.
  intros Hc Hn HM Hq Hav Hsn Hb Hsz Hfit Ht Hend. unfold received.
  rewrite (deref_some id s (NSwitch L)) by (by rewrite (cl_modules _ _ _ _ _ Hc)). cbn [mbind Res_bind].
  unfold Link.messageReceived, Link.check_queue. cbn [Link.base Link.SwitchClass]. rewrite Hq. unfold getCurrentTime. rewrite (cl_time _ _ _ _ _ Hc).
  replace (_ <=? t) with true by (symmetry; by apply Z.leb_le). change (Link.bps (Link.set_port_queue _ _ ?l)) with (Link.bps l).
  rewrite trans_delay_exact by lia. cbn [mbind Res_bind]. fold (Wire.transmission (Link.bps (Link.sw_link L)) q).
  set (D := Wire.transmission _ q) in *. assert (0 <= D) as HD by (apply Z.div_pos; lia). set (l1 := Link.set_port_avail w2 _ _).
  destruct (Link.pcap_log_total t q l1 Hsn) as [bs ->]. cbn [mbind Res_bind].
  destruct (post_carries e n M t id w2 (WireMessage PACKET_TO_PORT q) D s Hc Hn) as (s1 & -> & Hs1 & _).
  rewrite (wrap_small 64 (t + D)) in Hs1 by (unfold is_u; lia). cbn [mbind Res_bind].
  exists (destroy_packet q s1). eexists _, _. split; [reflexivity|]. by destruct Hs1; constructor.
Qed.

(** ** The way of a segment *)

Lemma carries_calm e n M c s :
  carries e n M c s -> calm e n M (wakeup c) (set_time (wakeup c) (set_queue [] s)).
Proof. intros [H1 H2 H3 H4 H5]. by constructor. Qed.

(** The stack of a host. *)
Record stack (h : HostT) (m : IPv4.IPv4) : Prop := {
  sk_ethernet : installed h "Ethernet" EthernetObject;
  sk_ipv4 : installed h "IPv4" (IPv4Object m);
}.

Lemma with_object_other h name name' o o' o2 :
  installed h name o -> installed h name' o2 -> o <> o2 -> installed (with_object h name o') name' o2.
Proof.
  intros (H1 & _ & oid & H3 & H4) (K1 & K2 & oid2 & K3 & K4) Hne. unfold with_object. rewrite H3.
  split; [done|]. split; [done|]. exists oid2. split; [done|]. cbn. rewrite lookup_insert_ne; [done|]. intros ->. congruence.
Qed.

Lemma trace_ethernet r from p l :
  trace r (Ethernet.packetArrived from p) = Ok (l, tt) ->
  trace r (HostApi.packetArrived (O := Obj) EthernetObject from p) = Ok (l, EthernetObject).
Proof. intros H. rewrite <- (app_nil_r l). by apply (trace_bind r _ _ l tt [] EthernetObject H). Qed.

Lemma trace_ipv4 r from p m l m' :
  trace r (IPv4.packetArrived from p m) = Ok (l, m') ->
  trace r (HostApi.packetArrived (O := Obj) (IPv4Object m) from p) = Ok (l, IPv4Object m').
Proof. intros H. rewrite <- (app_nil_r l). by apply (trace_bind r _ _ l m' [] (IPv4Object m') H). Qed.

Lemma header_macs (b dst src : list Z) :
  take 12 b = dst ++ src -> length dst = 6%nat -> length src = 6%nat -> slice 0 6 b = dst /\ slice 6 6 b = src.
Proof.
  intros H Hd Hs. unfold slice. rewrite drop_0. split.
  - rewrite <- (take_app_length' dst src 6) by done. rewrite <- H, take_take. done.
  - rewrite take_drop_commute. change (6 + 6)%nat with 12%nat. by rewrite H, drop_app_length'.
Qed.

(** *** The sending host *)
Lemma sender_leg e n M till hA h m name p p1 p2 m1 w1 k t u s :
  M !! hA = Some (NHost h) -> stack h m -> is_u 64 t -> in_time till t -> 2 <= n ->
  trace (Host.routing h) (IPv4.packetArrived name p m) = Ok ([("Ethernet", p1)], m1) ->
  trace (Host.routing h) (Ethernet.packetArrived "IPv4" p1) = Ok ([("Host", p2)], tt) ->
  (12 <= getSize p2)%nat ->
  Host.find_port (slice 6 6 (buffer p2)) 0 (length (Host.ports h)) (Host.routing h) = Ok k -> Host.ports h !! k = Some w1 ->
  carries e n M (mkTimer hA hA false t (PacketPass (Some name) (Some "IPv4") p) u) s ->
  exists s' c2 h' u', reaches till s [mkTimer hA hA false t (PacketPass (Some name) (Some "IPv4") p) u; c2] s' /\
    tc_to c2 = hA /\ carries e (n - 2) (<[hA := NHost h']> M) (mkTimer hA w1 false t (WireMessage PACKET_TO_PORT p2) u') s'.
Proof.
  intros HM [Hse Hs4] Ht Htill Hn T1 T2 Hsz Hfp Hw Hc.
  destruct (pass_inside e n M t hA (Some name) "IPv4" _ _ p "Ethernet" p1 h _ (carries_calm _ _ _ _ _ Hc) ltac:(lia) Ht HM Hs4
    (trace_ipv4 _ _ _ _ _ _ T1) eq_refl) as (s1 & u1 & E1 & Hc1); [destruct Hse as (_ & _ & oid & -> & _); by eexists|].
  destruct (deliver _ _ _ _ till _ _ _ _ (NHost h) _ (NHost h) Hc eq_refl Htill HM HM E1 Hc1) as (s2 & R1 & Hc2 & _).
  set (h1 := with_object h "IPv4" (IPv4Object m1)) in *.
  assert (installed h1 "Ethernet" EthernetObject) as Hse1 by by apply (with_object_other h "IPv4" "Ethernet" (IPv4Object m)).
  assert (Host.routing h1 = Host.routing h /\ Host.ports h1 = Host.ports h) as [Er Ep].
  { subst h1. unfold with_object. by destruct (Host.hostModuleMap h !! "IPv4"). }
  rewrite <- Er in T2, Hfp. rewrite <- Ep in Hfp, Hw. cbn [tc_to] in Hc2.
  set (c2 := mkTimer hA hA false t (PacketPass (Some "IPv4") (Some "Ethernet") p1) u1) in *.
  destruct (pass_outside e (n - 1) _ t hA (Some "IPv4") "Ethernet" _ _ p1 p2 w1 k h1 _ (carries_calm _ _ _ _ _ Hc2) ltac:(lia) Ht
    (lookup_insert_eq _ _ _) Hse1 (trace_ethernet _ _ _ _ T2) Hsz Hfp Hw) as (s3 & u3 & E3 & Hc3).
  destruct (deliver _ _ _ _ till c2 _ _ _ (NHost h1) _ (NHost h1) Hc2 eq_refl Htill (lookup_insert_eq _ _ _) (lookup_insert_eq _ _ _) E3 Hc3)
    as (s4 & R2 & Hc4 & _).
  exists s4, c2. eexists _, u3. split; [exact (reaches_trans _ _ _ _ _ _ R1 R2)|]. split; [done|].
  cbn [tc_to c2] in Hc4. rewrite insert_insert_eq in Hc4. by replace (n - 2) with (n - 1 - 1) by lia.
Qed.

(** *** A wire *)

(** The wire can take a packet of the size of [p] at [t] towards its end [d]. *)
Record idle_wire (W : Wire.Wire) (d : bool) (p : Packet) (t : Z) : Prop := {
  iw_limit : Wire.limit_speed W = true;
  iw_bps : 0 < Wire.bps W;
  iw_delay : 0 <= Wire.propagationDelay W;
  iw_free : Wire.at_end d (Wire.nextAvailable W) <= t;
  iw_exact : Z.of_nat (getSize p) * 8 * 10 ^ 9 + Wire.bps W < 2 ^ 53;
}.

(** The time a packet takes on a wire. *)
Definition wire_time (W : Wire.Wire) (p : Packet) : Z := Wire.transmission (Wire.bps W) p + Wire.propagationDelay W.

Lemma transmission_nonneg bps p : 0 < bps -> 0 <= Wire.transmission bps p.
Proof. intros H. apply Z.div_pos; lia. Qed.

Lemma transmission_size bps p q : getSize p = getSize q -> Wire.transmission bps p = Wire.transmission bps q.
Proof. unfold Wire.transmission. by intros ->. Qed.

Lemma wire_leg e n M till w from om to d p W t u s :
  M !! w = Some (NWire W) -> M !! from = Some om -> Wire.destination from W = Some d -> Wire.at_end d (Wire.connected W) = to ->
  idle_wire W d p t -> (0 < getSize p)%nat -> is_u 64 (packetID p) -> 1 <= n ->
  0 <= t -> t + wire_time W p < 2 ^ 64 -> in_time till t ->
  carries e n M (mkTimer from w false t (WireMessage PACKET_TO_PORT p) u) s ->
  exists s' W' u', reaches till s [mkTimer from w false t (WireMessage PACKET_TO_PORT p) u] s' /\ has_free_id s' /\
    carries e (n - 1) (<[w := NWire W']> M) (mkTimer w to false (t + wire_time W p) (WireMessage PACKET_FROM_PORT p) u') s'.
Proof.
  intros HM Hom Hd <- [H1 H2 H3 H4 H5] Hsz Hid Hn Ht Hend Htill Hc. unfold wire_time in *.
  destruct (wire_received e n M t w from d p W _ (carries_calm _ _ _ _ _ Hc)) as (s1 & u1 & W' & E1 & Hc1); [done||lia..|].
  destruct (deliver _ _ _ _ till _ _ _ _ _ _ _ Hc eq_refl Htill HM Hom E1 Hc1) as (s2 & R & Hc2 & Hf).
  exists s2, W', u1. split; [exact R|]. split; [apply Hf; by exists p|]. by rewrite Z.add_assoc.
Qed.

(** *** The switch *)

(** The switch forwards frames from [w1] for [dst] to [w2] only, and its queue
    there is empty at [t]. *)
Record switched (L : Link.Switch) (w1 w2 : Z) (dst : list Z) (p : Packet) (t : Z) : Prop := {
  sl_reliable : Link.unreliable L = false;
  sl_ports : exists l1 l2, Link.ports (Link.sw_link L) = l1 ++ w2 :: l2 /\
    Forall (fun x => Link.addressed w1 dst L x = false) (l1 ++ l2);
  sl_addressed : Link.addressed w1 dst L w2 = true;
  sl_queue : Link.queue_of w2 (Link.sw_link L) = [];
  sl_avail : Link.avail_of w2 (Link.sw_link L) <= t;
  sl_limits : 0 <= Link.max_queue_length (Link.sw_link L) /\ 0 <= Link.snaplen (Link.sw_link L);
  sl_bps : 0 < Link.bps (Link.sw_link L);
  sl_exact : Z.of_nat (getSize p) * 8 * 10 ^ 9 + Link.bps (Link.sw_link L) < 2 ^ 53;
}.

Lemma switch_leg e n M till sw w1 w2 om dst p L t u s :
  M !! sw = Some (NSwitch L) -> M !! w1 = Some om -> switched L w1 w2 dst p t ->
  slice 0 6 (buffer p) = dst -> byte_list dst -> length dst = 6%nat -> (6 <= getSize p)%nat -> 2 <= n ->
  0 <= t -> t + Wire.transmission (Link.bps (Link.sw_link L)) p < 2 ^ 64 -> in_time till t -> has_free_id s ->
  carries e n M (mkTimer w1 sw false t (WireMessage PACKET_FROM_PORT p) u) s ->
  exists s' c2 L' q u', reaches till s [mkTimer w1 sw false t (WireMessage PACKET_FROM_PORT p) u; c2] s' /\ tc_to c2 = sw /\
    buffer q = buffer p /\ is_u 64 (packetID q) /\
    carries e (n - 2) (<[sw := NSwitch L']> M)
      (mkTimer sw w2 false (t + Wire.transmission (Link.bps (Link.sw_link L)) p) (WireMessage PACKET_TO_PORT q) u') s'.
Proof.
  intros HM Hom [H1 (l1 & l2 & H2 & H3) H4 H5 H6 [H7 H7'] H8 H9] Hdst Hb Hl Hsz Hn Ht Hend Htill Hfree Hc.
  pose proof (transmission_nonneg _ p H8) as Hnn.
  assert (forall x, Link.known w1 (NetworkUtil.arrayToUINT64 (slice 0 6 (buffer p))) L x = Link.addressed w1 dst L x) as Hk.
  { intros x. rewrite Hdst. by apply Link.known_addressed. }
  destruct (switch_received e n M t sw w1 w2 l1 l2 p L _ (carries_calm _ _ _ _ _ Hc)) as (s1 & u1 & q & E1 & Hc1 & Hbuf & Hqid);
    [done | lia | unfold is_u; lia | done | done | done | done | by rewrite Hk
    | eapply Forall_impl; [exact H3|]; intros x Hx; by rewrite Hk | done | done | done |].
  destruct (deliver _ _ _ _ till _ _ _ _ _ _ _ Hc eq_refl Htill HM Hom E1 Hc1) as (s2 & R1 & Hc2 & _). cbn [tc_to] in Hc2.
  set (L1 := Link.set_sw_link _ _) in *. set (c2 := mkTimer sw sw false t (CheckQueue w2) u1) in *.
  assert (getSize q = getSize p) as Hqs by (unfold getSize; by rewrite Hbuf).
  destruct (check_received e (n - 1) _ t sw w2 q L1 _ (carries_calm _ _ _ _ _ Hc2)) as (s3 & u3 & L2 & E3 & Hc3);
    [lia | apply lookup_insert_eq | cbn; unfold Link.queue_of; cbn; by rewrite lookup_insert_eq | exact H6 | exact H7' | exact H8
    | lia | by rewrite Hqs | done | by rewrite (transmission_size _ q p Hqs) | ].
  destruct (deliver _ _ _ _ till c2 _ _ _ _ _ _ Hc2 eq_refl Htill (lookup_insert_eq _ _ _) (lookup_insert_eq _ _ _) E3 Hc3)
    as (s4 & R2 & Hc4 & _).
  exists s4, c2, L2, q, u3. split; [exact (reaches_trans _ _ _ _ _ _ R1 R2)|]. split; [done|]. split; [done|]. split; [done|].
  cbn [tc_to c2] in Hc4. rewrite insert_insert_eq in Hc4. rewrite (transmission_size _ p q) by done.
  by replace (n - 2) with (n - 1 - 1) by lia.
Qed.

(** *** The receiving host *)
Lemma with_object_same h name o : installed h name o -> with_object h name o = h.
Proof.
  intros (_ & _ & oid & H1 & H2). unfold with_object. rewrite H1. unfold Host.set_object. rewrite insert_id by done. by destruct h.
Qed.

Lemma receiver_leg e n M till hB h m w om name p t u s :
  M !! hB = Some (NHost h) -> M !! w = Some om -> stack h m -> is_Some (Host.hostModuleMap h !! name) ->
  String.eqb name "Host" = false -> is_u 64 t -> in_time till t -> 3 <= n ->
  trace (Host.routing h) (Ethernet.packetArrived "Host" p) = Ok ([("IPv4", p)], tt) ->
  trace (Host.routing h) (IPv4.packetArrived "Ethernet" p m) = Ok ([(name, p)], m) ->
  carries e n M (mkTimer w hB false t (WireMessage PACKET_FROM_PORT p) u) s ->
  exists s' c2 c3 u', reaches till s [mkTimer w hB false t (WireMessage PACKET_FROM_PORT p) u; c2; c3] s' /\
    tc_to c2 = hB /\ tc_to c3 = hB /\
    carries e (n - 3) M (mkTimer hB hB false t (PacketPass (Some "IPv4") (Some name) p) u') s'.
Proof.
  intros HM Hom [Hse Hs4] Hname Hnh Ht Htill Hn T1 T2 Hc. pose proof Hse as (Hr & _ & oe & Hoe & _). pose proof Hs4 as (_ & _ & o4 & Ho4 & _).
  destruct (frame_received e n M t hB w p h _ (carries_calm _ _ _ _ _ Hc)) as (s1 & u1 & E1 & Hc1); [done||lia..|by eexists|].
  destruct (deliver _ _ _ _ till _ _ _ _ _ _ _ Hc eq_refl Htill HM Hom E1 Hc1) as (s2 & R1 & Hc2 & _).
  cbn [tc_to] in Hc2. rewrite (insert_id M) in Hc2 by done. set (c2 := mkTimer hB hB false t _ u1) in *.
  destruct (pass_inside e (n - 1) M t hB None "Ethernet" _ _ p "IPv4" p h _ (carries_calm _ _ _ _ _ Hc2) ltac:(lia) Ht HM Hse
    (trace_ethernet _ _ _ _ T1) eq_refl) as (s3 & u3 & E3 & Hc3); [by eexists|]. rewrite with_object_same in E3 by done.
  destruct (deliver _ _ _ _ till c2 _ _ _ _ _ _ Hc2 eq_refl Htill HM HM E3 Hc3) as (s4 & R2 & Hc4 & _).
  cbn [tc_to c2] in Hc4. rewrite (insert_id M) in Hc4 by done. set (c3 := mkTimer hB hB false t _ u3) in *.
  destruct (pass_inside e (n - 1 - 1) M t hB (Some "Ethernet") "IPv4" _ _ p name p h _ (carries_calm _ _ _ _ _ Hc4) ltac:(lia) Ht HM Hs4
    (trace_ipv4 _ _ _ _ _ _ T2) Hnh Hname) as (s5 & u5 & E5 & Hc5). rewrite with_object_same in E5 by done.
  destruct (deliver _ _ _ _ till c3 _ _ _ _ _ _ Hc4 eq_refl Htill HM HM E5 Hc5) as (s6 & R3 & Hc6 & _).
  cbn [tc_to c3] in Hc6. rewrite (insert_id M) in Hc6 by done.
  exists s6, c2, c3, u5. split; [exact (reaches_trans _ _ _ _ _ _ R1 (reaches_trans _ _ _ _ _ _ R2 R3))|]. split; [done|]. split; [done|].
  by replace (n - 3) with (n - 1 - 1 - 1) by lia.
Qed.

(** *** From host to host *)

(** [k] is the first port with the address [mac], and the ports before it have addresses. *)
Definition has_port (r : RoutingInfo) (mac : list Z) (k : nat) : Prop :=
  RoutingInfo.getMACAddr (Z.of_nat k) r = Some mac /\
  forall j, (j < k)%nat -> exists m, RoutingInfo.getMACAddr (Z.of_nat j) r = Some m /\ m <> mac.

Lemma find_port_first r mac k : forall len j,
  has_port r mac k -> (j <= k < j + len)%nat -> Host.find_port mac j len r = Ok k.
Proof.
  induction len as [|len IH]; intros j [Hk Hlt] Hj; [lia|]. cbn [Host.find_port]. destruct (decide (j = k)) as [->|Hne].
  - rewrite Hk. cbn [of_option mbind Res_bind]. by rewrite bool_decide_eq_true_2.
  - destruct (Hlt j ltac:(lia)) as (m & -> & Hm). cbn [of_option mbind Res_bind]. rewrite bool_decide_eq_false_2 by congruence.
    apply IH; [done|lia].
Qed.

(** The modules between two hosts, the addresses, the ends of the wires the
    packet leaves at and the port it leaves the sender at. *)
Record Route := mkRoute {
  r_sender : Z; r_wire1 : Z; r_switch : Z; r_wire2 : Z; r_receiver : Z;
  r_hostA : HostT; r_ipA : IPv4.IPv4; r_W1 : Wire.Wire; r_L : Link.Switch; r_W2 : Wire.Wire; r_hostB : HostT; r_ipB : IPv4.IPv4;
  r_end1 : bool; r_end2 : bool; r_port : nat; r_dst : list Z; r_src : list Z;
}.

Definition at_switch (r : Route) (p : Packet) (t : Z) : Z := t + wire_time (r_W1 r) p.
Definition at_wire2 (r : Route) (p : Packet) (t : Z) : Z := at_switch r p t + Wire.transmission (Link.bps (Link.sw_link (r_L r))) p.
Definition arrival (r : Route) (p : Packet) (t : Z) : Z := at_wire2 r p t + wire_time (r_W2 r) p.

(** The modules [M] have the route, and it is free for the segment [p] of the
    transport module [name] from [t] on. *)
Record usable (M : Mods) (r : Route) (name : string) (p : Packet) (t : Z) : Prop := {
  us_distinct : r_wire1 r <> r_wire2 r /\ r_sender r <> r_receiver r;
  us_modules : M !! r_sender r = Some (NHost (r_hostA r)) /\ M !! r_wire1 r = Some (NWire (r_W1 r)) /\
    M !! r_switch r = Some (NSwitch (r_L r)) /\ M !! r_wire2 r = Some (NWire (r_W2 r)) /\ M !! r_receiver r = Some (NHost (r_hostB r));
  us_segment : name ∈ IPv4.transports /\ byte_list (buffer p) /\ (34 <= getSize p)%nat /\ is_u 64 (packetID p);
  us_stackA : stack (r_hostA r) (r_ipA r) /\ is_u 16 (IPv4.identification (r_ipA r)) /\ Ethernet.macs_ok (Host.routing (r_hostA r));
  us_resolved : Ethernet.resolve (Host.routing (r_hostA r)) (slice 30 4 (buffer p)) (slice 26 4 (buffer p)) = Ok (Some (r_dst r, r_src r));
  us_dst : byte_list (r_dst r);
  us_port : has_port (Host.routing (r_hostA r)) (r_src r) (r_port r) /\ Host.ports (r_hostA r) !! r_port r = Some (r_wire1 r);
  us_wire1 : Wire.destination (r_sender r) (r_W1 r) = Some (r_end1 r) /\ Wire.at_end (r_end1 r) (Wire.connected (r_W1 r)) = r_switch r /\
    idle_wire (r_W1 r) (r_end1 r) p t;
  us_switch : switched (r_L r) (r_wire1 r) (r_wire2 r) (r_dst r) p (at_switch r p t);
  us_wire2 : Wire.destination (r_switch r) (r_W2 r) = Some (r_end2 r) /\ Wire.at_end (r_end2 r) (Wire.connected (r_W2 r)) = r_receiver r /\
    idle_wire (r_W2 r) (r_end2 r) p (at_wire2 r p t);
  us_stackB : stack (r_hostB r) (r_ipB r) /\ is_Some (Host.hostModuleMap (r_hostB r) !! name);
  us_time : 0 <= t /\ arrival r p t < 2 ^ 64;
}.

Lemma usable_times M r name p t :
  usable M r name p t -> t <= at_switch r p t /\ at_switch r p t <= at_wire2 r p t /\ at_wire2 r p t <= arrival r p t.
Proof.
  intros U. destruct (us_wire1 _ _ _ _ _ U) as (_ & _ & [? H1 H2 ? ?]). destruct (us_wire2 _ _ _ _ _ U) as (_ & _ & [? K1 K2 ? ?]).
  pose proof (sl_bps _ _ _ _ _ _ (us_switch _ _ _ _ _ U)) as HL. pose proof (transmission_nonneg _ p H1).
  pose proof (transmission_nonneg _ p K1). pose proof (transmission_nonneg _ p HL). unfold arrival, at_wire2, at_switch, wire_time. lia.
Qed.

Lemma in_time_le till t t' : t <= t' -> in_time till t' -> in_time till t.
Proof. intros H [?|?]; [by left|right; lia]. Qed.

Lemma idle_wire_size W d p q t : getSize p = getSize q -> idle_wire W d p t -> idle_wire W d q t.
Proof. intros E [H1 H2 H3 H4 H5]. constructor; [done..|]. by rewrite <- E. Qed.

Lemma switched_size L w1 w2 dst p q t : getSize p = getSize q -> switched L w1 w2 dst p t -> switched L w1 w2 dst q t.
Proof. intros E [H1 H2 H3 H4 H5 H6 H7 H8]. constructor; [done..|]. by rewrite <- E. Qed.

Lemma transport_not_host name : name ∈ IPv4.transports -> String.eqb name "Host" = false.
Proof. intros H. apply (proj1 (Forall_forall (fun x => String.eqb x "Host" = false) IPv4.transports)); [by repeat constructor|done]. Qed.

(** What the modules of the route have in common with different identifiers. *)
Lemma usable_ids M r name p t :
  usable M r name p t -> NoDup [r_sender r; r_wire1 r; r_switch r; r_wire2 r; r_receiver r].
Proof.
  intros U. destruct (us_distinct _ _ _ _ _ U). destruct (us_modules _ _ _ _ _ U) as (? & ? & ? & ? & ?).
  repeat (constructor; [set_unfold; intros ?; destruct_or?; congruence|]). constructor.
Qed.

Lemma wire_time_size W p q : getSize p = getSize q -> wire_time W p = wire_time W q.
Proof. unfold wire_time. intros E. by rewrite (transmission_size _ p q E). Qed.

(** Between the hosts. *)
Lemma transit_leg e n M till r name p q t u om s :
  usable M r name p t -> 4 <= n -> in_time till (arrival r p t) ->
  let M1 := <[r_sender r := om]> M in
  getSize q = getSize p -> is_u 64 (packetID q) -> slice 0 6 (buffer q) = r_dst r -> length (r_dst r) = 6%nat ->
  carries e n M1 (mkTimer (r_sender r) (r_wire1 r) false t (WireMessage PACKET_TO_PORT q) u) s ->
  exists s' log q' u' W1' L' W2', reaches till s log s' /\ map tc_to log = [r_wire1 r; r_switch r; r_switch r; r_wire2 r] /\
    buffer q' = buffer q /\
    carries e (n - 4) (<[r_wire2 r := NWire W2']> (<[r_switch r := NSwitch L']> (<[r_wire1 r := NWire W1']> M1)))
      (mkTimer (r_wire2 r) (r_receiver r) false (arrival r p t) (WireMessage PACKET_FROM_PORT q') u') s'.
Proof.
  intros U Hn Htill M1 Hq Hid Hmac Hlen Hc. pose proof (usable_times _ _ _ _ _ U) as (I1 & I2 & I3).
  pose proof (usable_ids _ _ _ _ _ U) as Hnd. rewrite !NoDup_cons in Hnd. set_unfold in Hnd.
  destruct (us_modules _ _ _ _ _ U) as (_ & MW1 & ML & MW2 & _). destruct (us_segment _ _ _ _ _ U) as (_ & _ & Hsz & _).
  destruct (us_wire1 _ _ _ _ _ U) as (D1 & E1 & W1). destruct (us_wire2 _ _ _ _ _ U) as (D2 & E2 & W2).
  pose proof (us_switch _ _ _ _ _ U) as HL. destruct (us_time _ _ _ _ _ U) as [Ht Hend].
  destruct (wire_leg e n M1 till (r_wire1 r) (r_sender r) om (r_switch r) (r_end1 r) q (r_W1 r) t u s) as (s2 & W1' & u2 & R2 & F2 & K2);
    [by (unfold M1; rewrite lookup_insert_ne by naive_solver) | apply lookup_insert_eq | done | done
    | by apply (idle_wire_size _ _ p) | lia | done | lia | done | | by eapply in_time_le, Htill; lia | done |].
  { rewrite (wire_time_size _ q p Hq). unfold at_switch in *. lia. }
  rewrite (wire_time_size _ q p Hq) in K2. fold (at_switch r p t) in K2. set (M2 := <[r_wire1 r := _]> M1) in *.
  destruct (switch_leg e (n - 1) M2 till (r_switch r) (r_wire1 r) (r_wire2 r) (NWire W1') (r_dst r) q (r_L r) (at_switch r p t) u2 s2)
    as (s3 & c3 & L' & q' & u3 & R3 & C3 & Hb & Hid' & K3);
    [by (unfold M2, M1; rewrite !lookup_insert_ne by naive_solver) | apply lookup_insert_eq | by apply (switched_size _ _ _ _ p) | done
    | exact (us_dst _ _ _ _ _ U) | done | lia | lia | lia | | by eapply in_time_le, Htill; lia | done | done |].
  { rewrite (transmission_size _ q p Hq). unfold at_wire2 in *. lia. }
  rewrite (transmission_size _ q p Hq) in K3. fold (at_wire2 r p t) in K3. set (M3 := <[r_switch r := _]> M2) in *.
  assert (getSize q' = getSize p) as Hq' by (rewrite <- Hq; unfold getSize; by rewrite Hb).
  destruct (wire_leg e (n - 1 - 2) M3 till (r_wire2 r) (r_switch r) (NSwitch L') (r_receiver r) (r_end2 r) q' (r_W2 r) (at_wire2 r p t) u3 s3)
    as (s4 & W2' & u4 & R4 & _ & K4);
    [by (unfold M3, M2, M1; rewrite !lookup_insert_ne by naive_solver) | apply lookup_insert_eq | done | done
    | by apply (idle_wire_size _ _ p) | lia | done | lia | lia | | by eapply in_time_le, Htill; lia | done |].
  { by rewrite (wire_time_size _ q' p Hq'). }
  rewrite (wire_time_size _ q' p Hq') in K4. fold (arrival r p t) in K4. replace (n - 1 - 2 - 1) with (n - 4) in K4 by lia.
  eexists s4, _, q', u4, W1', L', W2'. split; [exact (reaches_trans _ _ _ _ _ _ R2 (reaches_trans _ _ _ _ _ _ R3 R4))|].
  split; [cbn; by rewrite C3|]. done.
Qed.

(** C4: a segment reaches its destination.  In any network in which nothing
    else is under way, with two different hosts whose IPv4 and Ethernet modules
    are installed, a wire to a reliable switch that has the destination address in
    the table of one port only, and a wire from there (all idle, links
    with any speed and delay): when a transport module hands a segment to IPv4,
    [System::run] delivers nine messages - through both modules of the sender,
    the wire, the switch (twice), the second wire, and the receiver three
    times - after which the same transport module of the receiver is about to get the
    segment, at the time of sending plus the three transmission times and the
    two propagation delays.  The segment has its size, its addresses and
    data, and the resolved MAC addresses; no other module, and no
    application, has changed.  If that module then sends nothing, [run]
    returns at that time with an empty queue and the module's new state. *)
Theorem segment_delivered e n M till r name p t u s :
  usable M r name p t -> 9 <= n -> in_time till (arrival r p t) ->
  carries e n M (mkTimer (r_sender r) (r_sender r) false t (PacketPass (Some name) (Some "IPv4") p) u) s ->
  exists s' log p' u' M', reaches till s log s' /\
    map tc_to log = [r_sender r; r_sender r; r_wire1 r; r_switch r; r_switch r; r_wire2 r; r_receiver r; r_receiver r; r_receiver r] /\
    carries e (n - 9) M' (mkTimer (r_receiver r) (r_receiver r) false (arrival r p t) (PacketPass (Some "IPv4") (Some name) p') u') s' /\
    getSize p' = getSize p /\ take 12 (buffer p') = r_dst r ++ r_src r /\ drop 26 (buffer p') = drop 26 (buffer p) /\
    (forall i, i ∉ [r_sender r; r_wire1 r; r_switch r; r_wire2 r] -> M' !! i = M !! i) /\
    (forall o o', installed (r_hostB r) name o ->
       trace (Host.routing (r_hostB r)) (HostApi.packetArrived o "IPv4" p') = Ok ([], o') ->
       exists s2 c, (forall fuel, (11 <= fuel)%nat -> run fuel till s = Ok (s2, log ++ [c])) /\
         message c = PacketPass (Some "IPv4") (Some name) p' /\ timerQueue s2 = [] /\ currentTime s2 = arrival r p t /\
         registeredModule s2 !! r_receiver r = Some (NHost (with_object (r_hostB r) name o'))).
Proof.
  intros U Hn Htill Hc. pose proof (usable_times _ _ _ _ _ U) as (I1 & I2 & I3). pose proof (usable_ids _ _ _ _ _ U) as Hnd.
  rewrite !NoDup_cons in Hnd. set_unfold in Hnd. pose proof U as U'.
  destruct U' as [_ (MA & _ & _ & _ & MB) (Hname & Hbytes & Hsz & Hid) (SA & Hident & Hmacs) Hres _ [Hfp Hport] _ _ _ [SB HnB] [Ht Hend]].
  destruct (Ethernet.resolve_macs _ _ _ _ _ Hmacs Hres) as [Ld Ls].
  destruct (Stack.stack_path (Host.routing (r_hostA r)) (Host.routing (r_hostB r)) name (r_ipA r) (r_ipB r) p (r_dst r) (r_src r))
    as (p1 & p2 & m1 & T1 & T2 & T3 & Hsize & Hmac & Hdrop & _ & Hid2); [done..|].
  destruct (header_macs _ _ _ Hmac Ld Ls) as [Hm1 Hm2].
  destruct (sender_leg e n M till (r_sender r) (r_hostA r) (r_ipA r) name p p1 p2 m1 (r_wire1 r) (r_port r) t u s)
    as (s1 & c2 & h1 & u1 & R1 & C2 & K1); [done | done | unfold is_u; lia | by eapply in_time_le, Htill; lia | lia | done | done | lia
    | rewrite Hm2; apply find_port_first; [done|]; apply lookup_lt_Some in Hport; lia | done | done |].
  destruct (transit_leg e (n - 2) M till r name p p2 t u1 (NHost h1) s1)
    as (s2 & log2 & p3 & u2 & W1' & L' & W2' & R2 & C3 & Hb & K2); [done | lia | done | done | by rewrite Hid2 | done | done | done |].
  set (M' := <[r_wire2 r := _]> _) in K2. destruct (T3 p3 Hb) as [T4 T5].
  destruct (receiver_leg e (n - 2 - 4) M' till (r_receiver r) (r_hostB r) (r_ipB r) (r_wire2 r) (NWire W2') name p3 (arrival r p t) u2 s2)
    as (s3 & c7 & c8 & u3 & R3 & C7 & C8 & K3);
    [by (unfold M'; rewrite !lookup_insert_ne by naive_solver) | apply lookup_insert_eq | done | done
    | by apply transport_not_host | unfold is_u; lia | done | lia | done | done | done |].
  eexists s3, _, p3, u3, M'. split; [exact (reaches_trans _ _ _ _ _ _ R1 (reaches_trans _ _ _ _ _ _ R2 R3))|].
  split; [rewrite map_app, map_app, C3; cbn; by rewrite C2, C7, C8|].
  replace (n - 9) with (n - 2 - 4 - 3) by lia. split; [done|]. unfold getSize in *. rewrite Hb. do 3 (split; [done|]).
  assert (forall i, i ∉ [r_sender r; r_wire1 r; r_switch r; r_wire2 r] -> M' !! i = M !! i) as Hsame.
  { intros i Hi. unfold M'. rewrite !lookup_insert_ne; set_solver. }
  split; [exact Hsame|]. intros o o' Ho Htr.
  destruct (module_consumes e (n - 2 - 4 - 3) M' till (r_receiver r) (Some "IPv4") name o o' p3 (r_hostB r) (arrival r p t) u3 s3)
    as (s4 & R4 & [Q1 _ Q2 _ Q3 _]); [done | done | by rewrite Hsame by set_solver | done | done |].
  exists s4, (mkTimer (r_receiver r) (r_receiver r) false (arrival r p t) (PacketPass (Some "IPv4") (Some name) p3) u3).
  split; [|split; [done|by rewrite Q2, lookup_insert_eq]].
  intros fuel Hfuel. pose proof (f_equal length C3) as Hl2. rewrite length_map in Hl2. cbn in Hl2.
  destruct (Nat.le_exists_sub 11 fuel Hfuel) as (f & -> & _).
  pose proof (reaches_trans _ _ _ _ _ _ R1 (reaches_trans _ _ _ _ _ _ R2 R3) (S (S f))) as E.
  rewrite R4 in E. rewrite !length_app in E. cbn [length] in E. rewrite Hl2 in E. cbn [mbind Res_bind] in E.
  by replace (f + 11)%nat with (2 + (4 + 3) + S (S f))%nat by lia.
Qed.

End Delivery.
End Delivery.

(** ** The first test environment *)
Module DeliveryExample.
Import System Network TestEnv Probe Delivery.

#[local] Existing Instances probe_module low_engine unordered unordered_map.

(** The modules of [TestEnv1]. *)
Definition modules : gmap Z (NetMod (Obj := HostObject Probe)) := registeredModule (env_sys env).
Definition host_at (i : Z) : Host.Host (HostObject Probe) :=
  match modules !! i with
  | Some (NHost h) => h
  | _ => Host.mkHost [] empty_info 0 0 false ∅ ∅ ∅ ∅ ∅ ∅
  end.
Definition wire_at (i : Z) : Wire.Wire :=
  match modules !! i with Some (NWire w) => w | _ => Wire.mkWire (0, 0) (0, 0) 0 0 false end.
Definition switch_at (i : Z) : Link.Switch :=
  match modules !! i with Some (NSwitch L) => L | _ => Link.Switch_new 0 0 false end.

(** The route from the first host to the second. *)
Definition route : Route (X := Probe) :=
  mkRoute 1 4 3 6 2 (host_at 1) (IPv4.mkIPv4 0) (wire_at 4) (switch_at 3) (wire_at 6) (host_at 2) (IPv4.mkIPv4 0)
    true false 0 mac2 mac1.

Ltac by_evaluation := first [vm_compute; reflexivity | vm_compute; discriminate | apply (bool_decide_unpack _); vm_compute; exact I].

(** The modules of a host as its constructor numbers them. *)
Ltac stack_installed := constructor;
  (split; [by_evaluation|]; split; [by_evaluation|]); [exists 2 | exists 3]; (split; [by_evaluation|]); by_evaluation.

Lemma route_usable : usable modules route "TCP" (mkPacket frame 1000) 0.
Proof.
  constructor.
  - split; cbn; lia.
  - do 4 (split; [by_evaluation|]). by_evaluation.
  - split; [by_evaluation|]. split; [by_evaluation|]. split; [vm_compute; lia|]. split; cbn; lia.
  - split; [stack_installed|]. split; [split; cbn; lia|]. vm_compute. split; repeat constructor.
  - by_evaluation.
  - by_evaluation.
  - split; [split; [by_evaluation | intros j Hj; cbn in Hj; lia] | by_evaluation].
  - split; [by_evaluation|]. split; [by_evaluation|]. constructor; by_evaluation.
  - constructor; [by_evaluation | | by_evaluation | by_evaluation | by_evaluation | split; by_evaluation | by_evaluation | by_evaluation].
    exists [4; 5], [7]. split; [by_evaluation|]. repeat constructor; by_evaluation.
  - split; [by_evaluation|]. split; [by_evaluation|]. constructor; by_evaluation.
  - split; [stack_installed|]. exists 4. by_evaluation.
  - split; by_evaluation.
Qed.

Lemma env_carries :
  carries (statics (env_sys env)) 9 modules
    (mkTimer 1 1 false 0 (PacketPass (Some "TCP") (Some "IPv4") (mkPacket frame 1000)) 1) (env_sys env).
Proof.
  constructor; [vm_compute; reflexivity | vm_compute; reflexivity | done | | done].
  split; [|split; [vm_compute; reflexivity | split; vm_compute; done]]. split; [vm_compute; discriminate|].
  intros u Hu. assert (activeUUID (env_sys env) = {[1]}) as E by (vm_compute; reflexivity). rewrite E in Hu.
  apply elem_of_singleton in Hu as ->. vm_compute. discriminate.
Qed.

Lemma segment_delivered_witness :
  exists s' log c p', run 11 0 (env_sys env) = Ok (s', log ++ [c]) /\ map tc_to log = [1; 1; 4; 3; 3; 6; 2; 2; 2] /\
    currentTime s' = 2001440 /\ timerQueue s' = [] /\ received_by 2 s' = Some [buffer p'] /\
    take 12 (buffer p') = mac2 ++ mac1 /\ drop 34 (buffer p') = segment.
Proof.
  destruct (segment_delivered (statics (env_sys env)) 9 modules 0 route "TCP" (mkPacket frame 1000) 0 1 (env_sys env) route_usable)
    as (s' & log & p' & u' & M' & R & Hl & Hc & _ & Hm & Hd & _ & Hend); [lia | by left | exact env_carries |].
  destruct (Hend (ExternalObject (mkProbe None [])) (ExternalObject (mkProbe None [buffer p']))) as (s2 & c & Hrun & _ & Hq & Ht & Hr);
    [split; [by_evaluation|]; split; [by_evaluation|]; exists 4; split; by_evaluation | reflexivity |].
  exists s2, log, c, p'. split; [apply Hrun; lia|]. split; [exact Hl|]. split; [rewrite Ht; vm_compute; reflexivity|]. split; [exact Hq|].
  split; [unfold received_by; change 2 with (r_receiver route); rewrite Hr; vm_compute; reflexivity|].
  split; [exact Hm|]. replace 34%nat with (26 + 8)%nat by lia. rewrite <- drop_drop, Hd. reflexivity.
Defined.

End DeliveryExample.
