(* ===== verification/RouteTest.v ===== *)
(** * RouteTest: the test beds of the routing assignments

    Models app/rip/testrip.cpp and app/pwospf/testpwospf.cpp: the class
    template [RouteTesting] (routers, one switch and two wires per edge of a
    graph, addresses, the queries of [doTesting], the clean-up) and the test
    environments with their graphs and expected costs.  The two files differ in
    the module they install, its name and the ports [doTesting] asks about,
    which are parameters here.

    [Graph] is the reference the expected costs are checked against: the
    smallest cost of a walk. *)

From S2P Require Import Prelude NetworkUtil Packet RoutingInfo TimeUtil RandomDistribution System.
From S2P Require Import ModuleBase Wire Link HostApi Ethernet Host Assignments Network TestEnv.
From stdpp Require Import sorting relations.
Local Open Scope Z_scope.

(** ** Shortest walks in an undirected graph with costs *)
Module Graph.

Definition edge_list : Type := list (Z * Z * Z).

Definition edge (g : edge_list) (a b c : Z) : Prop := (a, b, c) ∈ g \/ (b, a, c) ∈ g.

Inductive walk (g : edge_list) (i : Z) : Z -> Z -> Prop :=
| walk_nil : walk g i i 0
| walk_snoc j k d c : walk g i j d -> edge g j k c -> walk g i k (d + c).

(** [c] is the cost of a cheapest walk from [i] to [j]. *)
Definition distance (g : edge_list) (i j c : Z) : Prop :=
  walk g i j c /\ forall c', walk g i j c' -> c <= c'.

(** The rounds of Bellman and Ford, from the source [i]. *)
Definition relax1 (a b c : Z) (d : gmap Z Z) : gmap Z Z :=
  match d !! a with
  | Some x =>
      match d !! b with
      | Some y => if x + c <? y then <[b := x + c]> d else d
      | None => <[b := x + c]> d
      end
  | None => d
  end.

Definition relax (d : gmap Z Z) (e : Z * Z * Z) : gmap Z Z :=
  let '(a, b, c) := e in relax1 b a c (relax1 a b c d).

Definition bellman_ford (rounds : nat) (g : edge_list) (i : Z) : gmap Z Z :=
  Nat.iter rounds (fun d => fold_left relax g d) {[i := 0]}.

(** No edge improves [d]. *)
Definition settled1 (d : gmap Z Z) (a b c : Z) : bool :=
  match d !! a, d !! b with
  | Some x, Some y => y <=? x + c
  | Some _, None => false
  | None, _ => true
  end.
Definition settled (d : gmap Z Z) (g : edge_list) : bool :=
  forallb (fun '(a, b, c) => settled1 d a b c && settled1 d b a c) g.

(** The table [d] holds costs of walks from [i]. *)
Definition walks (g : edge_list) (i : Z) (d : gmap Z Z) : Prop :=
  forall j x, d !! j = Some x -> walk g i j x.

Lemma relax1_walks g i a b c d : edge g a b c -> walks g i d -> walks g i (relax1 a b c d).
Proof.
  intros He Hd. unfold relax1. destruct (d !! a) as [x|] eqn:Ea; [|done].
  assert (walks g i (<[b := x + c]> d)) as Hn.
  { intros j y Hj. apply lookup_insert_Some in Hj as [[<- <-]|[_ Hj]]; [|by apply Hd].
    by eapply walk_snoc, He; apply Hd. }
  destruct (d !! b) as [y|]; [destruct (_ <? _)|]; done.
Qed.

Lemma round_walks g i l d :
  (forall a b c, (a, b, c) ∈ l -> edge g a b c) -> walks g i d -> walks g i (fold_left relax l d).
Proof.
  revert d. induction l as [|[[a b] c] l IH]; intros d Hl Hd; [done|]. cbn. apply IH.
  - intros a' b' c' H. apply Hl. by right.
  - assert (edge g a b c) as He by (apply Hl; left). apply relax1_walks; [|by apply relax1_walks].
    destruct He; [by right | by left].
Qed.

Lemma bellman_ford_walks n g i : walks g i (bellman_ford n g i).
Proof.
  unfold bellman_ford. induction n as [|n IH].
  - intros j x Hj. cbn in Hj. apply lookup_singleton_Some in Hj as [<- <-]. constructor.
  - cbn. apply round_walks; [|exact IH]. intros a b c H. by left.
Qed.

Lemma settled_edge g d a b c x :
  settled d g = true -> edge g a b c -> d !! a = Some x -> exists y, d !! b = Some y /\ y <= x + c.
Proof.
  unfold settled. rewrite forallb_forall. intros Hs He Hx.
  assert (settled1 d a b c = true) as H.
  { destruct He as [He|He]; apply list_elem_of_In, Hs in He; by apply andb_true_iff in He as [? ?]. }
  unfold settled1 in H. rewrite Hx in H. destruct (d !! b) as [y|]; [|done]. exists y. split; [done|].
  by apply Z.leb_le.
Qed.

(** A settled table bounds the cost of every walk. *)
Lemma settled_walk g d i x0 j c :
  settled d g = true -> d !! i = Some x0 -> walk g i j c -> exists y, d !! j = Some y /\ y <= x0 + c.
Proof.
  intros Hs Hi Hw. induction Hw as [|j k c1 c2 _ IH He]; [exists x0; split; [done | lia]|].
  destruct IH as (y & Hy & Hle). destruct (settled_edge g d j k c2 y Hs He Hy) as (z & Hz & Hle').
  exists z. split; [done | lia].
Qed.

Lemma settled_distance n g i j c :
  let d := bellman_ford n g i in
  settled d g = true -> d !! i = Some 0 -> d !! j = Some c -> distance g i j c.
Proof.
  intros d Hs Hi Hj. split; [by apply (bellman_ford_walks n)|]. intros c' Hw.
  destruct (settled_walk g d i 0 j c' Hs Hi Hw) as (y & Hy & Hle). rewrite Hj in Hy. injection Hy as <-. lia.
Qed.

(** The costs [v] are distances of [g], decided by computation. *)
Definition check (n : nat) (g v : edge_list) : bool :=
  forallb (fun '(i, j, c) =>
    let d := bellman_ford n g i in
    settled d g && bool_decide (d !! i = Some 0) && bool_decide (d !! j = Some c)) v.

Lemma check_sound n g v i j c : check n g v = true -> (i, j, c) ∈ v -> distance g i j c.
Proof.
  unfold check. rewrite forallb_forall. intros H Hin. apply list_elem_of_In, H in Hin.
  rewrite !andb_true_iff in Hin. destruct Hin as [[Hs Hi] Hj]. bool_to_prop.
  by eapply settled_distance.
Qed.

End Graph.

(** ** The test environments *)
Module RouteTests.
Import Graph.

(** A class derived from [RouteTesting<routers>]: the graph of its [SetUp] and
    the costs of its [runTest], as triples [{i, j, cost}]. *)
Record RouteTest := mkRouteTest {
  routers : nat;
  graph : edge_list;
  test_vector : edge_list;
}.

(** *** app/rip/testrip.cpp *)

Definition RoutingEnvRipTwoNodes : RouteTest := mkRouteTest 2
    [(0, 1, 1)]
    [(0, 1, 1)].

Definition RoutingEnvCustomTwoNodes : RouteTest := mkRouteTest 2
    [(0, 1, 10)]
    [(0, 1, 10)].

Definition RoutingEnvRip1 : RouteTest := mkRouteTest 4
    [(0, 1, 1); (0, 2, 1); (0, 3, 1); (1, 2, 1); (2, 3, 1)]
    [(0, 1, 1); (0, 2, 1); (0, 3, 1); (1, 2, 1); (1, 3, 2); (2, 3, 1)].

Definition RoutingEnvCustom1 : RouteTest := mkRouteTest 4
    [(0, 1, 1); (0, 2, 3); (0, 3, 7); (1, 2, 1); (2, 3, 2)]
    [(0, 1, 1); (0, 2, 2); (0, 3, 4); (1, 2, 1); (1, 3, 3); (2, 3, 2)].

Definition RoutingEnvRip2 : RouteTest := mkRouteTest 7
    [(0, 1, 1); (0, 2, 1); (0, 5, 1); (1, 2, 1); (1, 3, 1); (2, 3, 1); (2, 4, 1); (2, 5, 1);
     (3, 4, 1); (4, 5, 1); (4, 6, 1); (5, 6, 1)]
    [(0, 1, 1); (0, 2, 1); (0, 3, 2); (0, 4, 2); (0, 5, 1); (0, 6, 2); (1, 2, 1); (1, 3, 1);
     (1, 4, 2); (1, 5, 2); (1, 6, 3); (2, 3, 1); (2, 4, 1); (2, 5, 1); (2, 6, 2); (3, 4, 1);
     (3, 5, 2); (3, 6, 2); (4, 5, 1); (4, 6, 1); (5, 6, 1)].

Definition RoutingEnvCustom2 : RouteTest := mkRouteTest 7
    [(0, 1, 2); (0, 2, 4); (0, 5, 7); (1, 2, 3); (1, 3, 3); (2, 3, 4); (2, 4, 3); (2, 5, 8);
     (3, 4, 6); (4, 5, 6); (4, 6, 8); (5, 6, 12)]
    [(0, 1, 2); (0, 2, 4); (0, 3, 5); (0, 4, 7); (0, 5, 7); (0, 6, 15); (1, 2, 3); (1, 3, 3);
     (1, 4, 6); (1, 5, 9); (1, 6, 14); (2, 3, 4); (2, 4, 3); (2, 5, 8); (2, 6, 11); (3, 4, 6);
     (3, 5, 12); (3, 6, 14); (4, 5, 6); (4, 6, 8); (5, 6, 12)].

Definition RoutingEnvRip3 : RouteTest := mkRouteTest 5
    [(0, 1, 1); (0, 3, 1); (1, 2, 1); (1, 4, 1); (2, 3, 1); (2, 4, 1)]
    [(0, 1, 1); (0, 2, 2); (0, 3, 1); (0, 4, 2); (1, 2, 1); (1, 3, 2); (1, 4, 1); (2, 3, 1);
     (2, 4, 1); (3, 4, 2)].

Definition RoutingEnvCustom3 : RouteTest := mkRouteTest 5
    [(0, 1, 1); (0, 3, 2); (1, 2, 3); (1, 4, 6); (2, 3, 3); (2, 4, 2)]
    [(0, 1, 1); (0, 2, 4); (0, 3, 2); (0, 4, 6); (1, 2, 3); (1, 3, 3); (1, 4, 5); (2, 3, 3);
     (2, 4, 2); (3, 4, 5)].

Definition RoutingEnvRip4 : RouteTest := mkRouteTest 9
    [(0, 1, 1); (0, 3, 1); (1, 2, 1); (1, 4, 1); (3, 4, 1); (3, 6, 1); (4, 5, 1); (4, 7, 1);
     (5, 8, 1); (6, 7, 1); (7, 8, 1)]
    [(0, 1, 1); (0, 2, 2); (0, 3, 1); (0, 4, 2); (0, 5, 3); (0, 6, 2); (0, 7, 3); (0, 8, 4);
     (1, 2, 1); (1, 3, 2); (1, 4, 1); (1, 5, 2); (1, 6, 3); (1, 7, 2); (1, 8, 3); (2, 3, 3);
     (2, 4, 2); (2, 5, 3); (2, 6, 4); (2, 7, 3); (2, 8, 4); (3, 4, 1); (3, 5, 2); (3, 6, 1);
     (3, 7, 2); (3, 8, 3); (4, 5, 1); (4, 6, 2); (4, 7, 1); (4, 8, 2); (5, 6, 3); (5, 7, 2);
     (5, 8, 1); (6, 7, 1); (6, 8, 2); (7, 8, 1)].

Definition RoutingEnvCustom4 : RouteTest := mkRouteTest 9
    [(0, 1, 8); (0, 3, 1); (1, 2, 1); (1, 4, 1); (3, 4, 1); (3, 6, 1); (4, 5, 1); (4, 7, 1);
     (5, 8, 1); (6, 7, 1); (7, 8, 1)]
    [(0, 1, 3); (0, 2, 4); (0, 3, 1); (0, 4, 2); (0, 5, 3); (0, 6, 2); (0, 7, 3); (0, 8, 4);
     (1, 2, 1); (1, 3, 2); (1, 4, 1); (1, 5, 2); (1, 6, 3); (1, 7, 2); (1, 8, 3); (2, 3, 3);
     (2, 4, 2); (2, 5, 3); (2, 6, 4); (2, 7, 3); (2, 8, 4); (3, 4, 1); (3, 5, 2); (3, 6, 1);
     (3, 7, 2); (3, 8, 3); (4, 5, 1); (4, 6, 2); (4, 7, 1); (4, 8, 2); (5, 6, 3); (5, 7, 2);
     (5, 8, 1); (6, 7, 1); (6, 8, 2); (7, 8, 1)].

Definition rip_tests : list RouteTest :=
  [RoutingEnvRipTwoNodes;
   RoutingEnvCustomTwoNodes;
   RoutingEnvRip1;
   RoutingEnvCustom1;
   RoutingEnvRip2;
   RoutingEnvCustom2;
   RoutingEnvRip3;
   RoutingEnvCustom3;
   RoutingEnvRip4;
   RoutingEnvCustom4].

(** *** app/pwospf/testpwospf.cpp *)

Definition RoutingEnvOSPFTwoNodes : RouteTest := mkRouteTest 2
    [(0, 1, 1)]
    [(0, 1, 1)].

Definition RoutingEnvOSPFCustomTwoNodes : RouteTest := mkRouteTest 2
    [(0, 1, 10)]
    [(0, 1, 10)].

Definition RoutingEnvOSPF1 : RouteTest := mkRouteTest 4
    [(0, 1, 1); (0, 2, 1); (0, 3, 1); (1, 2, 1); (2, 3, 1)]
    [(0, 1, 1); (0, 2, 1); (0, 3, 1); (1, 2, 1); (1, 3, 2); (2, 3, 1)].

Definition RoutingEnvOSPFCustom1 : RouteTest := mkRouteTest 4
    [(0, 1, 1); (0, 2, 3); (0, 3, 7); (1, 2, 1); (2, 3, 2)]
    [(0, 1, 1); (0, 2, 2); (0, 3, 4); (1, 2, 1); (1, 3, 3); (2, 3, 2)].

Definition RoutingEnvOSPF2 : RouteTest := mkRouteTest 7
    [(0, 1, 1); (0, 2, 1); (0, 5, 1); (1, 2, 1); (1, 3, 1); (2, 3, 1); (2, 4, 1); (2, 5, 1);
     (3, 4, 1); (4, 5, 1); (4, 6, 1); (5, 6, 1)]
    [(0, 1, 1); (0, 2, 1); (0, 3, 2); (0, 4, 2); (0, 5, 1); (0, 6, 2); (1, 2, 1); (1, 3, 1);
     (1, 4, 2); (1, 5, 2); (1, 6, 3); (2, 3, 1); (2, 4, 1); (2, 5, 1); (2, 6, 2); (3, 4, 1);
     (3, 5, 2); (3, 6, 2); (4, 5, 1); (4, 6, 1); (5, 6, 1)].

Definition RoutingEnvOSPFCustom2 : RouteTest := mkRouteTest 7
    [(0, 1, 2); (0, 2, 4); (0, 5, 7); (1, 2, 3); (1, 3, 3); (2, 3, 4); (2, 4, 3); (2, 5, 8);
     (3, 4, 6); (4, 5, 6); (4, 6, 8); (5, 6, 12)]
    [(0, 1, 2); (0, 2, 4); (0, 3, 5); (0, 4, 7); (0, 5, 7); (0, 6, 15); (1, 2, 3); (1, 3, 3);
     (1, 4, 6); (1, 5, 9); (1, 6, 14); (2, 3, 4); (2, 4, 3); (2, 5, 8); (2, 6, 11); (3, 4, 6);
     (3, 5, 12); (3, 6, 14); (4, 5, 6); (4, 6, 8); (5, 6, 12)].

Definition RoutingEnvOSPF3 : RouteTest := mkRouteTest 5
    [(0, 1, 1); (0, 3, 1); (1, 2, 1); (1, 4, 1); (2, 3, 1); (2, 4, 1)]
    [(0, 1, 1); (0, 2, 2); (0, 3, 1); (0, 4, 2); (1, 2, 1); (1, 3, 2); (1, 4, 1); (2, 3, 1);
     (2, 4, 1); (3, 4, 2)].

Definition RoutingEnvOSPFCustom3 : RouteTest := mkRouteTest 5
    [(0, 1, 1); (0, 3, 2); (1, 2, 3); (1, 4, 6); (2, 3, 3); (2, 4, 2)]
    [(0, 1, 1); (0, 2, 4); (0, 3, 2); (0, 4, 6); (1, 2, 3); (1, 3, 3); (1, 4, 5); (2, 3, 3);
     (2, 4, 2); (3, 4, 5)].

Definition RoutingEnvOSPF4 : RouteTest := mkRouteTest 9
    [(0, 1, 1); (0, 3, 1); (1, 2, 1); (1, 4, 1); (3, 4, 1); (3, 6, 1); (4, 5, 1); (4, 7, 1);
     (5, 8, 1); (6, 7, 1); (7, 8, 1)]
    [(0, 1, 1); (0, 2, 2); (0, 3, 1); (0, 4, 2); (0, 5, 3); (0, 6, 2); (0, 7, 3); (0, 8, 4);
     (1, 2, 1); (1, 3, 2); (1, 4, 1); (1, 5, 2); (1, 6, 3); (1, 7, 2); (1, 8, 3); (2, 3, 3);
     (2, 4, 2); (2, 5, 3); (2, 6, 4); (2, 7, 3); (2, 8, 4); (3, 4, 1); (3, 5, 2); (3, 6, 1);
     (3, 7, 2); (3, 8, 3); (4, 5, 1); (4, 6, 2); (4, 7, 1); (4, 8, 2); (5, 6, 3); (5, 7, 2);
     (5, 8, 1); (6, 7, 1); (6, 8, 2); (7, 8, 1)].

Definition RoutingEnvOSPFCustom4 : RouteTest := mkRouteTest 9
    [(0, 1, 8); (0, 3, 1); (1, 2, 1); (1, 4, 1); (3, 4, 1); (3, 6, 1); (4, 5, 1); (4, 7, 1);
     (5, 8, 1); (6, 7, 1); (7, 8, 1)]
    [(0, 1, 3); (0, 2, 4); (0, 3, 1); (0, 4, 2); (0, 5, 3); (0, 6, 2); (0, 7, 3); (0, 8, 4);
     (1, 2, 1); (1, 3, 2); (1, 4, 1); (1, 5, 2); (1, 6, 3); (1, 7, 2); (1, 8, 3); (2, 3, 3);
     (2, 4, 2); (2, 5, 3); (2, 6, 4); (2, 7, 3); (2, 8, 4); (3, 4, 1); (3, 5, 2); (3, 6, 1);
     (3, 7, 2); (3, 8, 3); (4, 5, 1); (4, 6, 2); (4, 7, 1); (4, 8, 2); (5, 6, 3); (5, 7, 2);
     (5, 8, 1); (6, 7, 1); (6, 8, 2); (7, 8, 1)].

Definition ospf_tests : list RouteTest :=
  [RoutingEnvOSPFTwoNodes;
   RoutingEnvOSPFCustomTwoNodes;
   RoutingEnvOSPF1;
   RoutingEnvOSPFCustom1;
   RoutingEnvOSPF2;
   RoutingEnvOSPFCustom2;
   RoutingEnvOSPF3;
   RoutingEnvOSPFCustom3;
   RoutingEnvOSPF4;
   RoutingEnvOSPFCustom4].

(** All pairs of routers, each once. *)
Definition pairs (n : nat) : list (Z * Z) :=
  flat_map (fun i => map (fun j => (Z.of_nat i, Z.of_nat j)) (seq (S i) (n - S i))) (seq 0 n).

(** What makes a test meaningful. *)
Definition vector_ok (t : RouteTest) : Prop :=
  (fst <$> test_vector t) = pairs (routers t) /\
  Forall (fun '(i, j, c) => distance (graph t) i j c /\ 0 < c < 16) (test_vector t) /\
  Forall (fun '(i, j, c) => 0 <= i < Z.of_nat (routers t) /\ 0 <= j < Z.of_nat (routers t) /\ i <> j /\
                            1 <= c <= LinkCost.MaxCost) (graph t).

Definition vector_check (t : RouteTest) : bool :=
  bool_decide ((fst <$> test_vector t) = pairs (routers t)) &&
  check (routers t) (graph t) (test_vector t) &&
  forallb (fun '(i, j, c) => (0 <? c) && (c <? 16)) (test_vector t) &&
  forallb (fun '(i, j, c) => (0 <=? i) && (i <? Z.of_nat (routers t)) && (0 <=? j) && (j <? Z.of_nat (routers t)) &&
                             negb (i =? j) && (1 <=? c) && (c <=? LinkCost.MaxCost)) (graph t).

Lemma vector_check_sound t : vector_check t = true -> vector_ok t.
Proof.
  unfold vector_check. rewrite !andb_true_iff. intros [[[Hp Hc] Hb] Hg]. bool_to_prop. split; [done|].
  rewrite forallb_forall in Hb, Hg. split; apply Forall_forall; intros [[i j] c] Hin.
  - split; [by eapply check_sound|]. apply list_elem_of_In, Hb in Hin. lia.
  - apply list_elem_of_In, Hg in Hin. lia.
Qed.

(** C24: the expected costs of all routing tests are right: in each of the ten
    environments of the RIP tests and the ten of the PWOSPF tests, the test
    vector names every pair of routers exactly once, with the cost of a
    cheapest walk between them in the graph [SetUp] builds; all of them are
    below RIP's infinity of 16, and every edge joins two routers and has a cost
    the wires can express. *)
Theorem expected_costs_are_distances : Forall vector_ok (rip_tests ++ ospf_tests).
Proof.
  repeat (apply Forall_cons; split; [apply vector_check_sound; vm_compute; reflexivity|]). apply Forall_nil_2.
Qed.

End RouteTests.

(** ** The test bed *)
Module RouteTesting.
Import System Network TestEnv RouteTests.

(** *** Addresses *)

(** The [while] loop of [mac_addr] and [network_addr]: the bytes of [id] from
    position [i] downwards; the result has what is left of [id]. *)
Fixpoint addr_loop (i : nat) (addr : list Z) (id : Z) : list Z * Z :=
  match i with
  | O => (addr, id)
  | S i' => if 0 <? id then addr_loop i' (<[i := id mod 256]> addr) (id / 256) else (addr, id)
  end.

Definition mac_addr (mac_id : Z) : Res (list Z) :=
  let '(mac, rest) := addr_loop 5 [0xBC; 0; 0; 0; 0; 0] mac_id in
  _ ← assert_that (rest =? 0) "RouteTesting::mac_addr"; Ok mac.

Definition network_addr (network_id : Z) : Res (list Z) :=
  let '(network, rest) := addr_loop 2 [10; 0; 0; 0] network_id in
  _ ← assert_that (rest =? 0) "RouteTesting::network_addr"; Ok network.

Section RouteTesting.
Context {RE : RandomEngine} {X : Type} {EX : ExternalModule X} {ES : ExternalStable X}.
Context {US : UnorderedSet Z} {UM : UnorderedMap}.
Abbreviation Obj := (HostObject X).
Abbreviation Sys := (System (NetMod (Obj := Obj)) Message Z Env).
Abbreviation HostT := (Host.Host Obj).

(** The module of the assignment and its name. *)
Record Assignment := mkAssignment { module_object : Obj; module_name : string }.

Definition RIPModule : Assignment := mkAssignment RIPAssignmentObject "UDP".
Definition OSPFModule : Assignment := mkAssignment PWOSPFAssignmentObject "OSPF".

Record Bed := mkBed {
  bed_sys : Sys;
  bed_routers : list Z;
  next_mac_id : Z;
  next_network_id : Z;
  switches : list Z;
  intialized : bool;
}.

(** [RouteTesting()]. *)
Definition Bed_new (s : Sys) : Bed := mkBed s [] 1 1 [] false.

(** [setup_env]: the seed handed to [srand], from the environment variable
    RANDOM_SEED when it is set; it is also recorded as a property. *)
Definition RANDOM_SEED_DEFAULT : Z := 1614233283.
Definition setup_env (random_seed : option string) : Res (Z * list (string * Z)) :=
  seed ← match random_seed with Some s => Echo.atoi s | None => Ok RANDOM_SEED_DEFAULT end;
  Ok (seed, [("random_seed", seed)]%string).

(** [routers[i]], out of range of the array being an error. *)
Definition router (b : Bed) (i : Z) : Res Z :=
  if 0 <=? i then of_option OutOfBounds (bed_routers b !! Z.to_nat i) else Err OutOfBounds.

(** "Install Routers". *)
Definition installRouter (b : Bed) : Res Bed :=
  '(s, r) ← newHost (bed_sys b);
  Ok (mkBed s (bed_routers b ++ [r]) (next_mac_id b) (next_network_id b) (switches b) (intialized b)).

(** The two ends of an edge: the tables of the router [r], whose peer on the
    network has the addresses [peer_mac] and [peer_ip]. *)
Definition configureRouter (r port : Z) (mac peer_mac ip peer_ip network : list Z) (s : Sys) : Res Sys :=
  s ← onHost r (setMACAddr mac port) s;
  s ← onHost r (setARPTable peer_mac peer_ip) s;
  s ← onHost r (setIPAddr ip port) s;
  onHost r (setRoutingTable network 24 port) s.

(** "Connect Routers": the body of the loop over the edges.  [seeds] are the
    numbers the constructor of [Switch] draws from [rand()]. *)
Definition connectRouters (seeds : Z -> Z * Z) (e : Z * Z * Z) (b : Bed) : Res Bed :=
  let network_id := next_network_id b in
  network ← network_addr network_id;
  '(s, sw) ← newSwitch (fst (seeds network_id)) (snd (seeds network_id)) false (bed_sys b);
  let '(i, j, cost) := e in
  _ ← (if cost =? 0 then Err DivideByZero else Ok tt);
  let bps := LinkCost.CostLCM / cost in
  ri ← router b i;
  '(s, (_, ports_i)) ← addWire ri sw 1000000 bps true s;
  rj ← router b j;
  '(s, (_, ports_j)) ← addWire rj sw 1000000 bps true s;
  let i_mac_id := next_mac_id b in
  let j_mac_id := next_mac_id b + 1 in
  i_mac ← mac_addr i_mac_id;
  j_mac ← mac_addr j_mac_id;
  let i_ipv4 := <[3%nat := 1]> network in
  let j_ipv4 := <[3%nat := 2]> network in
  s ← configureRouter ri (fst ports_i) i_mac j_mac i_ipv4 j_ipv4 network s;
  s ← configureRouter rj (fst ports_j) j_mac i_mac j_ipv4 i_ipv4 network s;
  s ← onSwitch sw (addMACEntry (snd ports_i) i_mac) s;
  s ← onSwitch sw (addMACEntry (snd ports_j) j_mac) s;
  s ← onSwitch sw (enablePCAPLogging 65535) s;
  Ok (mkBed s (bed_routers b) (next_mac_id b + 2) (network_id + 1) (switches b ++ [sw]) (intialized b)).

(** "Intialize Routers". *)
Definition initializeRouter (m : Assignment) (r : Z) (s : Sys) : Res Sys :=
  s ← onHost r (Host.addHostModule EthernetObject) s;
  s ← onHost r (Host.addHostModule (IPv4Object IPv4.IPv4_new)) s;
  s ← onHost r (Host.addHostModule (module_object m)) s;
  onHostSys r (Host.initializeHostModule r (module_name m)) s.

Definition setupGraph (seeds : Z -> Z * Z) (m : Assignment) (N : nat) (graph : list (Z * Z * Z)) (b : Bed) : Res Bed :=
  _ ← assert_that (negb (intialized b)) "!intialized";
  let b := mkBed (bed_sys b) (bed_routers b) (next_mac_id b) (next_network_id b) (switches b) true in
  b ← foldM (fun _ => installRouter) (seq 0 N) b;
  b ← foldM (connectRouters seeds) graph b;
  s ← foldM (initializeRouter m) (bed_routers b) (bed_sys b);
  Ok (mkBed s (bed_routers b) (next_mac_id b) (next_network_id b) (switches b) (intialized b)).

(** *** Queries *)

(** [std::any_cast<size_t>]. *)
Definition any_cast_size (a : Any) : Res Z :=
  match a with
  | any_other t [v] => if String.eqb t "Size" then Ok v else Err BadAnyCast
  | _ => Err BadAnyCast
  end.

(** [routers[r]->diagnoseHostModule(name, ip)]. *)
Definition diagnose (m : Assignment) (r : Z) (ip : list Z) (s : Sys) : Res (Z * Sys) :=
  o ← deref r s;
  match o with
  | NHost h =>
      '(a, h, s) ← Host.diagnoseHostModule r (module_name m) (any_other "ipv4_t" ip) h s;
      cost ← any_cast_size a;
      Ok (cost, store r (NHost h) s)
  | _ => Err BadCast
  end.

Definition host_at (r : Z) (s : Sys) : Res HostT :=
  o ← deref r s; match o with NHost h => Ok h | _ => Err BadCast end.

(** One query and its [EXPECT_EQ(cost_ret, cost)]: the address of a port of
    [asked], looked up by [asking]. *)
Definition query (m : Assignment) (asked asking cost : Z) (port : nat) (st : list (Z * Z) * Sys)
  : Res (list (Z * Z) * Sys) :=
  let '(expects, s) := st in
  h ← host_at asked s;
  ip ← of_option BadOptionalAccess (RoutingInfo.getIPAddr (Z.of_nat port) (Host.routing h));
  '(cost_ret, s) ← diagnose m asking ip s;
  Ok (expects ++ [(cost_ret, cost)], s).

(** The loops over the ports of one router; [ports_of] is all of them in the
    RIP tests and the first one in the PWOSPF tests. *)
Definition queryRouter (m : Assignment) (ports_of : HostT -> list nat) (asked asking cost : Z)
  (st : list (Z * Z) * Sys) : Res (list (Z * Z) * Sys) :=
  h ← host_at asked (snd st);
  foldM (query m asked asking cost) (ports_of h) st.

Definition queryPair (m : Assignment) (ports_of : HostT -> list nat) (b : Bed) (vec : Z * Z * Z)
  (st : list (Z * Z) * Sys) : Res (list (Z * Z) * Sys) :=
  let '(i, j, cost) := vec in
  ri ← router b i;
  rj ← router b j;
  st ← queryRouter m ports_of ri rj cost st;
  queryRouter m ports_of rj ri cost st.

Definition all_ports (h : HostT) : list nat := seq 0 (length (Host.ports h)).
Definition first_port (h : HostT) : list nat := [0%nat].

Definition doTesting (m : Assignment) (ports_of : HostT -> list nat) (test_vectors : list (Z * Z * Z)) (b : Bed)
  : Res (list (Z * Z) * Bed) :=
  '(expects, s) ← foldM (queryPair m ports_of b) test_vectors ([], bed_sys b);
  Ok (expects, mkBed s (bed_routers b) (next_mac_id b) (next_network_id b) (switches b) (intialized b)).

(** *** Clean-up and the test itself *)

Definition cleanUpRouter (m : Assignment) (r : Z) (s : Sys) : Res Sys :=
  s ← cleanUp r s;
  onHostSys r (Host.finalizeHostModule r (module_name m)) s.

Definition cleanUpGraph (m : Assignment) (b : Bed) : Res Bed :=
  s ← foldM (cleanUpRouter m) (bed_routers b) (bed_sys b);
  Ok (mkBed s (bed_routers b) (next_mac_id b) (next_network_id b) (switches b) (intialized b)).

Definition routing_run_time : Z := 3000.

(** [SetUp] and [runTest] of a test environment; the result has the
    expectations and the log of the second run. *)
Definition SetUp (seeds : Z -> Z * Z) (m : Assignment) (t : RouteTest) (s : Sys) : Res Bed :=
  setupGraph seeds m (routers t) (graph t) (Bed_new s).

Definition runTest (fuel : nat) (m : Assignment) (ports_of : HostT -> list nat) (t : RouteTest) (b : Bed)
  : Res (list (Z * Z) * Bed * list (TimerContainer Message)) :=
  '(s, _) ← run fuel (makeTime routing_run_time SEC) (bed_sys b);
  '(expects, b) ← doTesting m ports_of (test_vector t)
     (mkBed s (bed_routers b) (next_mac_id b) (next_network_id b) (switches b) (intialized b));
  b ← cleanUpGraph m b;
  '(s, log) ← run fuel (makeTime 2000 SEC) (bed_sys b);
  Ok (expects, mkBed s (bed_routers b) (next_mac_id b) (next_network_id b) (switches b) (intialized b), log).

Definition rip_SetUp (seeds : Z -> Z * Z) (t : RouteTest) (s : Sys) : Res Bed := SetUp seeds RIPModule t s.
Definition rip_runTest (fuel : nat) (t : RouteTest) (b : Bed) := runTest fuel RIPModule all_ports t b.
Definition ospf_SetUp (seeds : Z -> Z * Z) (t : RouteTest) (s : Sys) : Res Bed := SetUp seeds OSPFModule t s.
Definition ospf_runTest (fuel : nat) (t : RouteTest) (b : Bed) := runTest fuel OSPFModule first_port t b.


(** *** What the set-up builds

    [routing_ext]: the tables of a router only grow, at their ends. *)

Definition routing_ext (r r' : RoutingInfo) : Prop :=
  mac_vector r `prefix_of` mac_vector r' /\ ip_vector r `prefix_of` ip_vector r' /\
  arp_vector r `prefix_of` arp_vector r' /\ route_vector r `prefix_of` route_vector r'.

#[global] Instance routing_ext_preorder : PreOrder routing_ext.
Proof.
  split; [intros r; done|]. intros r1 r2 r3 (A & B & C & D) (A' & B' & C' & D').
  split; [|split; [|split]]; by etrans.
Qed.

Lemma find_first_prefix {A B} (test : A -> bool) (get : A -> B) l l' x :
  l `prefix_of` l' -> find_first test get l = Some x -> find_first test get l' = Some x.
Proof. intros [k ->]. induction l as [|a l IH]; cbn; [done|]. destruct (test a); auto. Qed.

Lemma find_first_new {A B} (test : A -> bool) (get : A -> B) l a :
  Forall (fun b => test b = false) l -> test a = true -> find_first test get (l ++ [a]) = Some (get a).
Proof. intros Hl Ha. induction Hl as [|b l Hb _ IH]; cbn; [by rewrite Ha | by rewrite Hb]. Qed.

(** The addresses as numbers: network [k] is 10.k.0, in 24 bits. *)
Definition network_of (k : Z) : list Z := [10; k / 256; k mod 256; 0].
Definition ip_of (k n : Z) : list Z := [10; k / 256; k mod 256; n].
Definition mac_of (k : Z) : list Z :=
  [0xBC; k / 2 ^ 32 mod 256; k / 2 ^ 24 mod 256; k / 2 ^ 16 mod 256; k / 2 ^ 8 mod 256; k mod 256].

(** The loop may as well go on to the first byte: the bytes it leaves out are
    zero. *)
Fixpoint addr_all (i : nat) (addr : list Z) (id : Z) : list Z * Z :=
  match i with
  | O => (addr, id)
  | S i' => addr_all i' (<[i := id mod 256]> addr) (id / 256)
  end.

Lemma addr_all_zero i addr :
  (forall j, (1 <= j <= i)%nat -> addr !! j = Some 0) -> addr_all i addr 0 = (addr, 0).
Proof.
  induction i as [|i IH]; intros H; [done|]. cbn [addr_all]. change (0 mod 256) with 0.
  rewrite list_insert_id by (apply H; lia). change (0 / 256) with 0. apply IH. intros j Hj. apply H. lia.
Qed.

Lemma addr_loop_all i addr id :
  0 <= id -> (forall j, (1 <= j <= i)%nat -> addr !! j = Some 0) -> addr_loop i addr id = addr_all i addr id.
Proof.
  revert addr id. induction i as [|i IH]; intros addr id Hid H; [done|]. cbn [addr_loop].
  destruct (0 <? id) eqn:E; bool_to_prop.
  - apply IH; [by apply Z.div_pos|]. intros j Hj. rewrite list_lookup_insert_ne by lia. apply H. lia.
  - assert (id = 0) as -> by lia. by rewrite addr_all_zero.
Qed.

Lemma network_addr_value k : 0 < k < 2 ^ 16 -> network_addr k = Ok (network_of k).
Proof.
  intros Hk. unfold network_addr, network_of. rewrite addr_loop_all; [|lia|by intros [|[|[|?]]]; [lia|..|lia]].
  cbn. rewrite Z.div_div, (Z.div_small k (256 * 256)) by lia. cbn.
  by rewrite (Z.mod_small (k / 256)) by (split; [apply Z.div_pos; lia | apply Z.div_lt_upper_bound; lia]).
Qed.

Lemma mac_addr_value k : 0 < k < 2 ^ 40 -> mac_addr k = Ok (mac_of k).
Proof.
  intros Hk. unfold mac_addr, mac_of. rewrite addr_loop_all; [|lia|by intros [|[|[|[|[|[|?]]]]]]; [lia|..|lia]].
  cbn [addr_all]. rewrite !Z.div_div by lia. cbn [list_insert insert Z.mul Pos.mul].
  rewrite (Z.div_small k (256 * (256 * (256 * 256)) * 256)) by lia. done.
Qed.

Lemma ip_of_inj k k' n n' : 0 <= k < 2 ^ 16 -> 0 <= k' < 2 ^ 16 -> ip_of k n = ip_of k' n' -> k = k'.
Proof. intros H H' [= E1 E2 _]. rewrite (Z.div_mod k 256), (Z.div_mod k' 256) by lia. lia. Qed.

(** A host no module but the built-in one was added to. *)
Definition bare (h : HostT) : Prop :=
  exists p r h0, Host.Host_new = Ok h0 /\ h = Host.set_routing r (Host.set_ports p h0).

(** The tables mention ports the router has. *)
Definition ports_known (h : HostT) : Prop :=
  Forall (fun e => me_port e < Z.of_nat (length (Host.ports h))) (mac_vector (Host.routing h)) /\
  Forall (fun e => ie_port e < Z.of_nat (length (Host.ports h))) (ip_vector (Host.routing h)).

(** The networks below [k] are the ones whose addresses are in use. *)
Definition arp_below (k : Z) (h : HostT) : Prop :=
  Forall (fun e => exists k' n, 0 <= k' < k /\ ae_ip e = ip_of k' n) (arp_vector (Host.routing h)).

(** How the set-up changes the registered modules. *)
Definition grown (M M' : gmap Z (NetMod (Obj := Obj))) : Prop :=
  (forall id h, M !! id = Some (NHost h) -> exists h', M' !! id = Some (NHost h') /\
     Host.ports h `prefix_of` Host.ports h' /\ routing_ext (Host.routing h) (Host.routing h')) /\
  (forall id w, M !! id = Some (NWire w) -> M' !! id = Some (NWire w)).

#[global] Instance grown_preorder : PreOrder grown.
Proof.
  split; [intros M; split; [intros id h Hh; by exists h | done]|].
  intros M1 M2 M3 [H1 W1] [H2 W2]. split; [|auto]. intros id h Hh.
  destruct (H1 id h Hh) as (h' & Hh' & P & R). destruct (H2 id h' Hh') as (h'' & Hh'' & P' & R').
  exists h''. split; [done|]. split; by etrans.
Qed.

Lemma grown_fresh M id m : M !! id = None -> grown M (<[id := m]> M).
Proof.
  intros H. split; [intros x h Hx; exists h|intros x w Hx];
    (rewrite lookup_insert_ne by (intros ->; congruence)); done.
Qed.

Lemma grown_host M id h h' :
  M !! id = Some (NHost h) -> Host.ports h `prefix_of` Host.ports h' ->
  routing_ext (Host.routing h) (Host.routing h') -> grown M (<[id := NHost h']> M).
Proof.
  intros Ho Hp Hr. split; intros x y Hx.
  - destruct (decide (x = id)) as [->|Hne]; [|exists y; by rewrite lookup_insert_ne].
    rewrite Ho in Hx. injection Hx as <-. exists h'. by rewrite lookup_insert_eq.
  - rewrite lookup_insert_ne; [done|]. intros ->. congruence.
Qed.

Lemma grown_switch M id w w' : M !! id = Some (NSwitch w) -> grown M (<[id := NSwitch w']> M).
Proof.
  intros Ho. split; [intros x h Hx; exists h|intros x y Hx];
    (rewrite lookup_insert_ne by (intros ->; congruence)); done.
Qed.

(** One end of an edge, as the router sees it: its port leads to a wire of
    cost [c], and its tables have the addresses of both ends. *)
Record end_of_edge (M : gmap Z (NetMod (Obj := Obj))) (r : Z) (port : nat) (c : Z)
  (mac peer_mac ip peer_ip network : list Z) : Prop := {
  ee_wire : exists h n w, M !! r = Some (NHost h) /\ Host.ports h !! port = Some n /\
    M !! n = Some (NWire w) /\ Wire.bps w = LinkCost.CostLCM / c /\
    RoutingInfo.getMACAddr (Z.of_nat port) (Host.routing h) = Some mac /\
    RoutingInfo.getIPAddr (Z.of_nat port) (Host.routing h) = Some ip /\
    RoutingInfo.getARPTable peer_ip (Host.routing h) = Some peer_mac /\
    mkRoute network 24 (Z.of_nat port) ∈ route_vector (Host.routing h);
}.

Lemma end_of_edge_grown M M' r port c mac pmac ip pip net :
  grown M M' -> end_of_edge M r port c mac pmac ip pip net -> end_of_edge M' r port c mac pmac ip pip net.
Proof.
  intros [GH GW] [(h & n & w & Hh & Hp & Hn & Hb & H1 & H2 & H3 & H4)].
  destruct (GH r h Hh) as (h' & Hh' & Pp & R1 & R2 & R3 & R4). constructor. exists h', n, w.
  split; [done|]. split; [by eapply prefix_lookup_Some|]. split; [by apply GW|]. split; [done|].
  unfold RoutingInfo.getMACAddr, RoutingInfo.getIPAddr, RoutingInfo.getARPTable in *.
  split; [by eapply find_first_prefix|]. split; [by eapply find_first_prefix|].
  split; [by eapply find_first_prefix|]. destruct R4 as [k ->]. apply elem_of_app. by left.
Qed.

Lemma configureRouter_run r port mac pmac ip pip net (s : Sys) h :
  registeredModule s !! r = Some (NHost h) ->
  configureRouter r port mac pmac ip pip net s =
    Ok (store r (NHost (Host.set_routing
      (RoutingInfo.setRoutingTable net 24 port (RoutingInfo.setIPAddr ip port
        (RoutingInfo.setARPTable pmac pip (RoutingInfo.setMACAddr mac port (Host.routing h))))) h)) s).
Proof.
  intros Hr. unfold configureRouter.
  erewrite (onHost_run r (setMACAddr mac port) s); [|exact Hr|reflexivity]. cbn [mbind Res_bind].
  erewrite (onHost_run r (setARPTable pmac pip)); [|cbn; apply lookup_insert_eq|reflexivity]. cbn [mbind Res_bind].
  erewrite (onHost_run r (setIPAddr ip port)); [|cbn; apply lookup_insert_eq|reflexivity]. cbn [mbind Res_bind].
  erewrite (onHost_run r (setRoutingTable net 24 port)); [|cbn; apply lookup_insert_eq|reflexivity].
  by rewrite !store_store.
Qed.

(** *** One edge *)

Lemma configureRouter_good r port mac pmac ip pip net (s s' : Sys) :
  configureRouter r port mac pmac ip pip net s = Ok s' -> good s -> good s'.
Proof. unfold configureRouter. intros H G. res_inv. repeat good_next. done. Qed.

Lemma connectRouters_good seeds e (b b' : Bed) :
  connectRouters seeds e b = Ok b' -> good (bed_sys b) -> good (bed_sys b').
Proof.
  destruct e as [[i j] cost]. unfold connectRouters. intros H G. res_inv. cbn [bed_sys]. repeat good_next.
  do 2 match goal with E : configureRouter _ _ _ _ _ _ _ ?s = Ok _, G : good ?s |- _ =>
    apply configureRouter_good in E; [|exact G] end.
  repeat good_next. done.
Qed.

Record bed_ok (b : Bed) : Prop := {
  bo_good : good (bed_sys b);
  bo_routers : NoDup (bed_routers b);
  bo_hosts : forall r, r ∈ bed_routers b -> exists h, registeredModule (bed_sys b) !! r = Some (NHost h) /\
    bare h /\ ports_known h /\ arp_below (next_network_id b) h;
  bo_fresh : forall id, is_Some (registeredModule (bed_sys b) !! id) -> id < nextModuleID (bed_sys b);
  bo_ids : nextModuleID (bed_sys b) = 1 + Z.of_nat (length (bed_routers b)) + 3 * (next_network_id b - 1);
  bo_macs : next_mac_id b = 2 * next_network_id b - 1;
  bo_networks : 1 <= next_network_id b;
}.

(** A router after its end of an edge was configured: a new port and the
    tables extended. *)
Definition with_edge (n : Z) (mac pmac ip pip net : list Z) (h : HostT) : HostT :=
  let port := Z.of_nat (length (Host.ports h)) in
  let h := fst (Host.connectWire n h) in
  Host.set_routing (RoutingInfo.setRoutingTable net 24 port (RoutingInfo.setIPAddr ip port
    (RoutingInfo.setARPTable pmac pip (RoutingInfo.setMACAddr mac port (Host.routing h))))) h.

Lemma with_edge_grown n mac pmac ip pip net h :
  Host.ports h `prefix_of` Host.ports (with_edge n mac pmac ip pip net h) /\
  routing_ext (Host.routing h) (Host.routing (with_edge n mac pmac ip pip net h)).
Proof. split; [by eexists|]. split; [by eexists|]. split; [by eexists|]. split; by eexists. Qed.

Lemma with_edge_ok n mac pmac k x y net h :
  bare h -> ports_known h -> arp_below k h ->
  let h' := with_edge n mac pmac (ip_of k x) (ip_of k y) net h in
  bare h' /\ ports_known h' /\ (0 <= k -> arp_below (k + 1) h').
Proof.
  intros (p & r & h0 & E & ->) [K1 K2] Ha h'. split; [by eexists _, _, h0|]. split.
  - unfold ports_known, h', with_edge. cbn. rewrite length_app. cbn.
    split; (apply Forall_app; split; [|repeat constructor; cbn; lia]).
    + eapply Forall_impl; [exact K1|]. cbn. lia.
    + eapply Forall_impl; [exact K2|]. cbn. lia.
  - intros Hk. unfold arp_below, h', with_edge. cbn. apply Forall_app. split.
    + eapply Forall_impl; [exact Ha|]. intros e (k' & n' & Hk' & ->). exists k', n'. split; [lia|done].
    + repeat constructor. exists k, y. split; [lia | done].
Qed.

(** The new end of an edge is as specified. *)
Lemma with_edge_end M r n x c mac pmac k a b net h :
  ports_known h -> arp_below k h -> 0 <= k < 2 ^ 16 ->
  M !! r = Some (NHost (with_edge n mac pmac (ip_of k a) (ip_of k b) net h)) ->
  M !! n = Some (NWire x) -> Wire.bps x = LinkCost.CostLCM / c ->
  end_of_edge M r (length (Host.ports h)) c mac pmac (ip_of k a) (ip_of k b) net.
Proof.
  intros [K1 K2] Ha Hk Hr Hn Hb. constructor. eexists _, n, x. split; [exact Hr|]. cbn.
  split; [by rewrite lookup_app_r, Nat.sub_diag by lia|]. split; [done|]. split; [done|].
  unfold RoutingInfo.getMACAddr, RoutingInfo.getIPAddr, RoutingInfo.getARPTable. cbn.
  split; [|split; [|split]].
  - apply (find_first_new _ me_mac _ (mkMac mac _)); [|cbn; lia]. eapply Forall_impl; [exact K1|]. cbn. lia.
  - apply (find_first_new _ ie_ip _ (mkIp (ip_of k a) _)); [|cbn; lia]. eapply Forall_impl; [exact K2|]. cbn. lia.
  - apply (find_first_new _ ae_mac _ (mkArp (ip_of k b) pmac)); [|cbn; by apply bool_decide_eq_true_2].
    eapply Forall_impl; [exact Ha|]. cbn. intros e (k' & n' & Hk' & ->). apply bool_decide_eq_false_2.
    intros E%ip_of_inj; lia.
  - apply elem_of_app. right. left.
Qed.

(** The switch of an edge, after both wires are connected to it. *)
Lemma onSwitch_ports r p mac (s : Sys) w :
  registeredModule s !! r = Some (NSwitch w) -> (Z.to_nat p < length (Link.ports (Link.sw_link w)))%nat ->
  exists w', onSwitch r (addMACEntry p mac) s = Ok (store r (NSwitch w') s) /\
    Link.ports (Link.sw_link w') = Link.ports (Link.sw_link w).
Proof.
  intros Hr Hp. apply lookup_lt_is_Some in Hp as [n Hn].
  assert (exists w', addMACEntry p mac w = Ok w') as [w' Hw'].
  { unfold addMACEntry, Link.addMACEntry. rewrite Hn. cbn. by eexists. }
  exists w'. split; [by eapply onSwitch_run | by eapply addMACEntry_ports].
Qed.

Lemma finishSwitch_run sw p q a c (s : Sys) w :
  registeredModule s !! sw = Some (NSwitch w) ->
  (Z.to_nat p < length (Link.ports (Link.sw_link w)))%nat -> (Z.to_nat q < length (Link.ports (Link.sw_link w)))%nat ->
  exists s1 s2 w', onSwitch sw (addMACEntry p a) s = Ok s1 /\ onSwitch sw (addMACEntry q c) s1 = Ok s2 /\
    onSwitch sw (enablePCAPLogging 65535) s2 = Ok (store sw (NSwitch w') s).
Proof.
  intros Hw Hp Hq. destruct (onSwitch_ports sw p a s w Hw Hp) as (w1 & E & E1).
  destruct (onSwitch_ports sw q c (store sw (NSwitch w1) s) w1) as (w2 & E' & E2);
    [cbn; apply lookup_insert_eq | by rewrite E1|].
  eexists _, _, _. split; [exact E|]. split; [exact E'|].
  erewrite onSwitch_run; [|cbn; apply lookup_insert_eq|reflexivity]. by rewrite !store_store.
Qed.

(** What an edge between the routers [ri] and [rj] adds: the switch [n], the
    wires [n + 1] and [n + 2], and one port of each router. *)
Record edge_added (M M' : gmap Z (NetMod (Obj := Obj))) (n ri rj speed : Z) (hi hj : HostT) : Prop := {
  ea_switch : exists w, M' !! n = Some (NSwitch w);
  ea_wires : exists x1 x2, M' !! (n + 1) = Some (NWire x1) /\ M' !! (n + 2) = Some (NWire x2) /\
    Wire.bps x1 = speed /\ Wire.bps x2 = speed;
  ea_ri : M' !! ri = Some (NHost hi);
  ea_rj : M' !! rj = Some (NHost hj);
  ea_other : forall id, id <> n -> id <> n + 1 -> id <> n + 2 -> id <> ri -> id <> rj -> M' !! id = M !! id;
}.

(** The three modules of an edge, registered and connected. *)
Lemma wires_run seed1 seed2 ri rj speed (s : Sys) hi hj n :
  registeredModule s !! ri = Some (NHost hi) -> registeredModule s !! rj = Some (NHost hj) -> ri <> rj ->
  n = nextModuleID s -> 0 <= n -> n + 3 < 2 ^ 64 -> (forall x, n <= x -> registeredModule s !! x = None) ->
  exists s1 s2 s3 w, newSwitch seed1 seed2 false s = Ok (s1, n) /\
    addWire ri n 1000000 speed true s1 = Ok (s2, (n + 1, (Z.of_nat (length (Host.ports hi)), 0))) /\
    addWire rj n 1000000 speed true s2 = Ok (s3, (n + 2, (Z.of_nat (length (Host.ports hj)), 1))) /\
    nextModuleID s3 = n + 3 /\ registeredModule s3 !! n = Some (NSwitch w) /\ length (Link.ports (Link.sw_link w)) = 2%nat /\
    edge_added (registeredModule s) (registeredModule s3) n ri rj speed
      (fst (Host.connectWire (n + 1) hi)) (fst (Host.connectWire (n + 2) hj)).
Proof.
  intros Hi Hj Hij Hn H0 H64 HN. assert (ri < n /\ rj < n) as [Hri Hrj].
  { split; apply Z.lt_nge; intros Hx%HN; congruence. }
  assert (forall x, 0 <= x < 2 ^ 64 - 1 -> x ⊞ 1 = x + 1) as Hw by (intros; apply wrap_small; unfold is_u; lia).
  set (w0 := Link.Switch_new seed1 seed2 false).
  destruct (addModule_run (NSwitch w0) s) as (s1 & E1 & M1 & N1); [apply HN; lia|].
  rewrite <- Hn in E1, M1, N1. rewrite Hw in N1 by lia.
  destruct (addWire_run_host ri n 1000000 speed s1 hi w0 (n + 1)) as (s2 & x1 & E2 & M2 & B1 & N2 & _).
  { by rewrite M1, lookup_insert_ne by lia. } { rewrite M1. apply lookup_insert_eq. } { done. }
  { rewrite M1, lookup_insert_ne by lia. apply HN. lia. }
  rewrite Hw in N2 by lia.
  destruct (addWire_run_host rj n 1000000 speed s2 hj
    (Link.set_sw_link (fst (Link.connectWire (n + 1) (Link.sw_link w0))) w0) (n + 2)) as (s3 & x2 & E3 & M3 & B2 & N3 & _).
  { rewrite M2, !lookup_insert_ne by lia. by rewrite M1, lookup_insert_ne by lia. }
  { rewrite M2. apply lookup_insert_eq. } { lia. }
  { rewrite M2, !lookup_insert_ne by lia. rewrite M1, lookup_insert_ne by lia. apply HN. lia. }
  rewrite Hw in N3 by lia.
  exists s1, s2, s3. eexists. split; [exact E1|]. split; [exact E2|]. split; [exact E3|]. split; [lia|].
  split; [rewrite M3; apply lookup_insert_eq|]. split; [done|]. constructor.
  - eexists. rewrite M3. apply lookup_insert_eq.
  - exists x1, x2. rewrite M3, !lookup_insert_ne by lia. split; [|split; [|done]].
    + rewrite M2, !lookup_insert_ne by lia. apply lookup_insert_eq.
    + apply lookup_insert_eq.
  - rewrite M3, !lookup_insert_ne by lia. rewrite M2, lookup_insert_ne by lia. apply lookup_insert_eq.
  - rewrite M3, lookup_insert_ne by lia. apply lookup_insert_eq.
  - intros id A B C D E. rewrite M3, !lookup_insert_ne by lia. rewrite M2, !lookup_insert_ne by lia.
    by rewrite M1, lookup_insert_ne by lia.
Qed.

Lemma connectRouters_run seeds i j c ri rj hi hj (b : Bed) :
  let k := next_network_id b in let n := nextModuleID (bed_sys b) in let M := registeredModule (bed_sys b) in
  0 < k < 2 ^ 16 -> next_mac_id b = 2 * k - 1 -> 0 <= n -> n + 3 < 2 ^ 64 -> c <> 0 ->
  (forall x, n <= x -> M !! x = None) ->
  router b i = Ok ri -> router b j = Ok rj -> ri <> rj -> M !! ri = Some (NHost hi) -> M !! rj = Some (NHost hj) ->
  exists s', connectRouters seeds (i, j, c) b =
      Ok (mkBed s' (bed_routers b) (2 * k + 1) (k + 1) (switches b ++ [n]) (intialized b)) /\ nextModuleID s' = n + 3 /\
    edge_added M (registeredModule s') n ri rj (LinkCost.CostLCM / c)
      (with_edge (n + 1) (mac_of (2 * k - 1)) (mac_of (2 * k)) (ip_of k 1) (ip_of k 2) (network_of k) hi)
      (with_edge (n + 2) (mac_of (2 * k)) (mac_of (2 * k - 1)) (ip_of k 2) (ip_of k 1) (network_of k) hj).
Proof.
  intros k n M Hk Hm H0 H64 Hc HN Hi Hj Hij Ehi Ehj.
  destruct (wires_run (fst (seeds k)) (snd (seeds k)) ri rj (LinkCost.CostLCM / c) (bed_sys b) hi hj n)
    as (s1 & s2 & s3 & w & E1 & E2 & E3 & N3 & Hw & Lw & [_ (x1 & x2 & X1 & X2 & B1 & B2) Ri Rj Other]);
    [exact Ehi|exact Ehj|exact Hij|done|exact H0|exact H64|exact HN|].
  assert (forall x, n <= x -> ri <> x) as Oi by (intros x Hx%HN Heq; rewrite Heq, Hx in Ehi; discriminate Ehi).
  assert (forall x, n <= x -> rj <> x) as Oj by (intros x Hx%HN Heq; rewrite Heq, Hx in Ehj; discriminate Ehj).
  pose proof (Oi n (Z.le_refl n)) as Hrin. pose proof (Oj n (Z.le_refl n)) as Hrjn.
  set (hi' := with_edge (n + 1) _ _ _ _ _ hi). set (hj' := with_edge (n + 2) _ _ _ _ _ hj).
  pose proof (configureRouter_run ri (Z.of_nat (length (Host.ports hi))) (mac_of (2 * k - 1)) (mac_of (2 * k))
    (ip_of k 1) (ip_of k 2) (network_of k) s3 _ Ri) as E4. change (Host.set_routing _ _) with hi' in E4.
  pose proof (configureRouter_run rj (Z.of_nat (length (Host.ports hj))) (mac_of (2 * k)) (mac_of (2 * k - 1))
    (ip_of k 2) (ip_of k 1) (network_of k) (store ri (NHost hi') s3) (fst (Host.connectWire (n + 2) hj))) as E5.
  change (Host.set_routing _ _) with hj' in E5.
  specialize (E5 ltac:(cbn [registeredModule store set_modules]; rewrite lookup_insert_ne by done; exact Rj)).
  destruct (finishSwitch_run n 0 1 (mac_of (2 * k - 1)) (mac_of (2 * k)) (store rj (NHost hj') (store ri (NHost hi') s3)) w)
    as (s4 & s5 & w3 & E6 & E7 & E8); [|rewrite Lw; lia|rewrite Lw; lia|].
  { cbn [registeredModule store set_modules]. by rewrite !lookup_insert_ne by done. }
  eexists. split.
  { unfold connectRouters. fold k. rewrite network_addr_value by lia. cbn [mbind Res_bind]. rewrite E1. cbn [mbind Res_bind].
    replace (c =? 0) with false by (symmetry; apply Z.eqb_neq; done). cbn [mbind Res_bind].
    rewrite Hi. cbn [mbind Res_bind]. rewrite E2. cbn [mbind Res_bind]. rewrite Hj. cbn [mbind Res_bind].
    rewrite E3. cbn [mbind Res_bind]. rewrite Hm. replace (2 * k - 1 + 1) with (2 * k) by lia.
    rewrite !mac_addr_value by lia. cbn [mbind Res_bind fst snd]. change (<[3%nat:=?x]> (network_of k)) with (ip_of k x).
    rewrite E4. cbn [mbind Res_bind]. rewrite E5. cbn [mbind Res_bind].
    rewrite E6. cbn [mbind Res_bind]. rewrite E7. cbn [mbind Res_bind]. rewrite E8. cbn [mbind Res_bind].
    replace (2 * k - 1 + 2) with (2 * k + 1) by lia. reflexivity. }
  split; [exact N3|]. cbn [registeredModule store set_modules]. constructor.
  - eexists. apply lookup_insert_eq.
  - pose proof (Oi (n + 1)). pose proof (Oi (n + 2)). pose proof (Oj (n + 1)). pose proof (Oj (n + 2)).
    exists x1, x2. split; [rewrite !lookup_insert_ne by lia; exact X1|].
    split; [rewrite !lookup_insert_ne by lia; exact X2|]. split; [exact B1 | exact B2].
  - rewrite !lookup_insert_ne by lia. apply lookup_insert_eq.
  - rewrite lookup_insert_ne by lia. apply lookup_insert_eq.
  - intros id A B C D E. rewrite !lookup_insert_ne by lia. exact (Other id A B C D E).
Qed.

Lemma edge_added_grown M M' n ri rj speed hi hj hi' hj' :
  edge_added M M' n ri rj speed hi' hj' -> (forall x, n <= x -> M !! x = None) ->
  M !! ri = Some (NHost hi) -> M !! rj = Some (NHost hj) ->
  Host.ports hi `prefix_of` Host.ports hi' -> routing_ext (Host.routing hi) (Host.routing hi') ->
  Host.ports hj `prefix_of` Host.ports hj' -> routing_ext (Host.routing hj) (Host.routing hj') -> grown M M'.
Proof.
  intros [_ _ Ri Rj Other] HN Hi Hj Pi Ei Pj Ej. split; intros id y Hy.
  - destruct (decide (id = ri)) as [->|Hi']; [rewrite Hi in Hy; injection Hy as <-; by exists hi'|].
    destruct (decide (id = rj)) as [->|Hj']; [rewrite Hj in Hy; injection Hy as <-; by exists hj'|].
    assert (id < n) by (apply Z.lt_nge; intros Hx%HN; congruence).
    exists y. rewrite (Other id) by lia. done.
  - assert (id < n) by (apply Z.lt_nge; intros Hx%HN; congruence).
    rewrite (Other id); [done|lia|lia|lia|intros ->; congruence|intros ->; congruence].
Qed.

(** The two ends of edge [k] of the graph. *)
Definition edge_built (M : gmap Z (NetMod (Obj := Obj))) (rs : list Z) (k : Z) (e : Z * Z * Z) : Prop :=
  let '(i, j, c) := e in
  exists ri rj pi pj, rs !! Z.to_nat i = Some ri /\ rs !! Z.to_nat j = Some rj /\
    end_of_edge M ri pi c (mac_of (2 * k - 1)) (mac_of (2 * k)) (ip_of k 1) (ip_of k 2) (network_of k) /\
    end_of_edge M rj pj c (mac_of (2 * k)) (mac_of (2 * k - 1)) (ip_of k 2) (ip_of k 1) (network_of k).

Lemma edge_built_grown M M' rs k e : grown M M' -> edge_built M rs k e -> edge_built M' rs k e.
Proof.
  intros HG. destruct e as [[i j] c]. intros (ri & rj & pi & pj & Ri & Rj & Ei & Ej). exists ri, rj, pi, pj.
  split; [done|]. split; [done|]. split; by eapply end_of_edge_grown.
Qed.

(** The edges the set-up accepts. *)
Definition edge_ok (N : nat) (e : Z * Z * Z) : Prop :=
  let '(i, j, c) := e in 0 <= i < Z.of_nat N /\ 0 <= j < Z.of_nat N /\ i <> j /\ 1 <= c <= LinkCost.MaxCost.

Lemma router_of (b : Bed) i : 0 <= i < Z.of_nat (length (bed_routers b)) ->
  exists r, router b i = Ok r /\ bed_routers b !! Z.to_nat i = Some r.
Proof.
  intros Hi. destruct (lookup_lt_is_Some_2 (bed_routers b) (Z.to_nat i)) as [r Hr]; [lia|].
  exists r. unfold router. replace (0 <=? i) with true by (symmetry; apply Z.leb_le; lia). by rewrite Hr.
Qed.

(** The invariant of the set-up survives an edge. *)
Lemma edge_added_bed_ok (b : Bed) s' ri rj hi hj sws ini speed :
  let k := next_network_id b in let n := nextModuleID (bed_sys b) in
  bed_ok b -> good s' -> nextModuleID s' = n + 3 ->
  registeredModule (bed_sys b) !! ri = Some (NHost hi) -> registeredModule (bed_sys b) !! rj = Some (NHost hj) ->
  edge_added (registeredModule (bed_sys b)) (registeredModule s') n ri rj speed
    (with_edge (n + 1) (mac_of (2 * k - 1)) (mac_of (2 * k)) (ip_of k 1) (ip_of k 2) (network_of k) hi)
    (with_edge (n + 2) (mac_of (2 * k)) (mac_of (2 * k - 1)) (ip_of k 2) (ip_of k 1) (network_of k) hj) ->
  ri ∈ bed_routers b -> rj ∈ bed_routers b ->
  bed_ok (mkBed s' (bed_routers b) (2 * k + 1) (k + 1) sws ini).
Proof.
  intros k n Hb G' N' Ehi Ehj [_ _ Pi Pj Other] Ini Inj. pose proof Hb as [G ND HH HF HI HM HK]. fold k in HM, HK, HI.
  assert (forall x h, registeredModule (bed_sys b) !! x = Some (NHost h) -> x < n) as Hlt
    by (intros x h Hx; apply HF; rewrite Hx; by eexists).
  pose proof (Hlt ri hi Ehi). pose proof (Hlt rj hj Ehj).
  constructor; cbn [bed_routers next_network_id bed_sys next_mac_id]; [exact G'|exact ND|..|lia|lia|lia].
  - intros r Hin. destruct (HH r Hin) as (h & Eh & Bh & Kh & Ah).
    destruct (decide (r = ri)) as [->|Hri]; [|destruct (decide (r = rj)) as [->|Hrj]].
    + rewrite Ehi in Eh. injection Eh as <-. eexists. split; [exact Pi|].
      destruct (with_edge_ok (n + 1) (mac_of (2 * k - 1)) (mac_of (2 * k)) k 1 2 (network_of k) hi Bh Kh Ah)
        as (T1 & T2 & T3). split; [exact T1|]. split; [exact T2|]. apply T3. lia.
    + rewrite Ehj in Eh. injection Eh as <-. eexists. split; [exact Pj|].
      destruct (with_edge_ok (n + 2) (mac_of (2 * k)) (mac_of (2 * k - 1)) k 2 1 (network_of k) hj Bh Kh Ah)
        as (T1 & T2 & T3). split; [exact T1|]. split; [exact T2|]. apply T3. lia.
    + exists h. pose proof (Hlt r h Eh). rewrite (Other r) by lia.
      split; [exact Eh|]. split; [exact Bh|]. split; [exact Kh|]. eapply Forall_impl; [exact Ah|].
      intros e (k' & x & Hk' & ->). exists k', x. fold k in Hk'. split; [lia | reflexivity].
  - intros id Hid. rewrite N'. destruct (decide (id < n + 3)); [lia|]. exfalso.
    rewrite (Other id) in Hid by lia. specialize (HF id Hid). fold n in HF. lia.
Qed.

Lemma connectRouters_ok seeds e (b : Bed) :
  bed_ok b -> edge_ok (length (bed_routers b)) e -> next_network_id b < 2 ^ 16 -> Z.of_nat (length (bed_routers b)) < 2 ^ 32 ->
  exists b', connectRouters seeds e b = Ok b' /\ bed_ok b' /\ bed_routers b' = bed_routers b /\
    next_network_id b' = next_network_id b + 1 /\
    grown (registeredModule (bed_sys b)) (registeredModule (bed_sys b')) /\
    edge_built (registeredModule (bed_sys b')) (bed_routers b') (next_network_id b) e.
Proof.
  destruct e as [[i j] c]. intros Hb (Hi & Hj & Hij & Hc) Hk HN64. pose proof Hb as [G ND HH HF HI HM HK].
  destruct (router_of b i Hi) as (ri & Ri & Li). destruct (router_of b j Hj) as (rj & Rj & Lj).
  assert (ri <> rj) as Hr.
  { intros ->. apply Hij. assert (Z.to_nat i = Z.to_nat j) by by eapply NoDup_lookup. lia. }
  assert (ri ∈ bed_routers b) as Ini by by eapply list_elem_of_lookup_2.
  assert (rj ∈ bed_routers b) as Inj by by eapply list_elem_of_lookup_2.
  destruct (HH ri Ini) as (hi & Ehi & Bi & Ki & Ai). destruct (HH rj Inj) as (hj & Ehj & Bj & Kj & Aj).
  assert (forall x, nextModuleID (bed_sys b) <= x -> registeredModule (bed_sys b) !! x = None) as HN.
  { intros x Hx. destruct (registeredModule (bed_sys b) !! x) eqn:E; [|done].
    specialize (HF x). rewrite E in HF. specialize (HF (mk_is_Some _ _ eq_refl)). lia. }
  destruct (connectRouters_run seeds i j c ri rj hi hj b) as (s' & E & N' & HA); try lia; try assumption.
  pose proof HA as [_ (x1 & x2 & X1 & X2 & B1 & B2) Pi Pj Other].
  eexists. split; [exact E|]. cbn [bed_routers next_network_id bed_sys].
  split; [|split; [reflexivity|split; [reflexivity|split]]].
  - apply (edge_added_bed_ok b s' ri rj hi hj _ _ (LinkCost.CostLCM / c)); try assumption.
    exact (connectRouters_good _ _ _ _ E G).
  - eapply edge_added_grown; [exact HA|exact HN|exact Ehi|exact Ehj|apply with_edge_grown..].
  - exists ri, rj, (length (Host.ports hi)), (length (Host.ports hj)). split; [exact Li|]. split; [exact Lj|].
    split; [eapply with_edge_end; [exact Ki|exact Ai|lia|exact Pi|exact X1|exact B1]|].
    eapply with_edge_end; [exact Kj|exact Aj|lia|exact Pj|exact X2|exact B2].
Qed.

(** *** The whole set-up *)

Lemma installRouter_ok (b : Bed) :
  bed_ok b -> next_network_id b = 1 -> Z.of_nat (length (bed_routers b)) < 2 ^ 32 ->
  exists b', installRouter b = Ok b' /\ bed_ok b' /\ next_network_id b' = 1 /\
    length (bed_routers b') = S (length (bed_routers b)).
Proof.
  intros [G ND HH HF HI HM HK] Hk HL. destruct Host_new_run as (h0 & E0 & P0 & R0).
  set (n := nextModuleID (bed_sys b)) in *.
  assert (registeredModule (bed_sys b) !! n = None) as Hn.
  { destruct (registeredModule (bed_sys b) !! n) eqn:E; [|done]. specialize (HF n). rewrite E in HF.
    specialize (HF (mk_is_Some _ _ eq_refl)). lia. }
  destruct (addModule_run (NHost h0) (bed_sys b) Hn) as (s' & E & M' & N'). fold n in E, M', N'.
  rewrite (wrap_small 64) in N' by (unfold is_u; lia).
  assert (newHost (bed_sys b) = Ok (s', n)) as En by (unfold newHost; by rewrite E0).
  eexists. unfold installRouter. rewrite En. split; [reflexivity|]. cbn [bed_routers next_network_id bed_sys next_mac_id].
  split; [|split; [exact Hk | by rewrite length_app, Nat.add_comm]].
  constructor; cbn [bed_routers next_network_id bed_sys next_mac_id].
  - by eapply newHost_good.
  - apply NoDup_app. split; [exact ND|]. split; [|apply NoDup_singleton].
    intros r Hr ->%list_elem_of_singleton. destruct (HH n Hr) as (h & Eh & _). congruence.
  - intros r [Hr|Hr]%elem_of_app.
    + destruct (HH r Hr) as (h & Eh & Hh). exists h. rewrite M', lookup_insert_ne by (intros ->; congruence). done.
    + apply list_elem_of_singleton in Hr as ->. exists h0. rewrite M', lookup_insert_eq. split; [done|].
      split; [exists [], empty_info, h0; split; [done|]; by destruct h0; cbn in *; subst|].
      unfold ports_known, arp_below. rewrite R0. split; [split|]; constructor.
  - intros id Hid. rewrite M' in Hid. rewrite N'. destruct (decide (id = n)) as [->|Hne]; [lia|].
    rewrite lookup_insert_ne in Hid by done. specialize (HF id Hid). lia.
  - rewrite N', HI, length_app. cbn. lia.
  - exact HM.
  - exact HK.
Qed.

Lemma installRouters_ok l (b : Bed) :
  bed_ok b -> next_network_id b = 1 -> Z.of_nat (length (bed_routers b) + length l) < 2 ^ 32 ->
  exists b', foldM (fun _ : nat => installRouter) l b = Ok b' /\ bed_ok b' /\ next_network_id b' = 1 /\
    length (bed_routers b') = (length (bed_routers b) + length l)%nat.
Proof.
  revert b. induction l as [|x l IH]; intros b Hb Hk HL; cbn [foldM length].
  - exists b. by rewrite Nat.add_0_r.
  - destruct (installRouter_ok b Hb Hk) as (b1 & -> & Hb1 & Hk1 & L1); [cbn in HL; lia|].
    destruct (IH b1 Hb1 Hk1) as (b2 & -> & Hb2 & Hk2 & L2); [cbn in HL; lia|].
    exists b2. split; [done|]. split; [done|]. split; [done|]. lia.
Qed.

Lemma connectAll_ok seeds g (b : Bed) :
  bed_ok b -> Forall (edge_ok (length (bed_routers b))) g ->
  next_network_id b + Z.of_nat (length g) <= 2 ^ 16 -> Z.of_nat (length (bed_routers b)) < 2 ^ 32 ->
  exists b', foldM (connectRouters seeds) g b = Ok b' /\ bed_ok b' /\ bed_routers b' = bed_routers b /\
    grown (registeredModule (bed_sys b)) (registeredModule (bed_sys b')) /\
    forall k e, g !! k = Some e ->
      edge_built (registeredModule (bed_sys b')) (bed_routers b) (next_network_id b + Z.of_nat k) e.
Proof.
  revert b. induction g as [|e g IH]; intros b Hb Hg Hn HL; cbn [foldM].
  - exists b. split; [done|]. split; [done|]. split; [done|]. split; [reflexivity|]. intros k e H. discriminate H.
  - apply Forall_cons in Hg as [He Hg]. cbn [length] in Hn.
    destruct (connectRouters_ok seeds e b Hb He) as (b1 & -> & Hb1 & R1 & K1 & G1 & E1); [lia|exact HL|].
    destruct (IH b1 Hb1) as (b2 & -> & Hb2 & R2 & G2 & E2); [by rewrite R1|rewrite K1; lia|by rewrite R1|].
    exists b2. split; [done|]. split; [done|]. split; [congruence|]. split; [by etrans|].
    intros [|k] e' Hk; cbn in Hk.
    + injection Hk as <-. rewrite Z.add_0_r. eapply edge_built_grown; [exact G2|]. by rewrite R1 in E1.
    + specialize (E2 k e' Hk). rewrite R1, K1 in E2.
      by replace (next_network_id b + Z.of_nat (S k)) with (next_network_id b + 1 + Z.of_nat k) by lia.
Qed.

(** The modules of a router: the assignment's own module is one that
    [initialize] can be called on without further effects. *)
Lemma initializeRouter_run m r (s : Sys) h :
  m = RIPModule \/ m = OSPFModule -> registeredModule s !! r = Some (NHost h) -> bare h ->
  exists h' s', initializeRouter m r s = Ok s' /\ registeredModule s' = <[r := NHost h']> (registeredModule s) /\
    Host.ports h' = Host.ports h /\ Host.routing h' = Host.routing h.
Proof.
  intros Hm Hr (p & ri & h0 & E0 & ->).
  assert (exists h1 h2 h3, Host.addHostModule EthernetObject (Host.set_routing ri (Host.set_ports p h0)) = Ok h1 /\
    Host.addHostModule (IPv4Object IPv4.IPv4_new) h1 = Ok h2 /\ Host.addHostModule (module_object m) h2 = Ok h3 /\
    Host.ports h3 = p /\ Host.routing h3 = ri /\
    forall s1 : Sys, exists h4, Host.initializeHostModule r (module_name m) h3 s1 = Ok (h4, s1) /\
      Host.ports h4 = p /\ Host.routing h4 = ri) as (h1 & h2 & h3 & E1 & E2 & E3 & P3 & R3 & Hinit).
  { injection E0 as <-. destruct Hm as [-> | ->];
      (eexists _, _, _; do 3 (split; [reflexivity|]); split; [reflexivity|]; split; [reflexivity|];
       intros s1; eexists; split; [reflexivity|]; done). }
  unfold initializeRouter.
  erewrite onHost_run; [|exact Hr|exact E1]. cbn [mbind Res_bind].
  erewrite onHost_run; [|cbn; apply lookup_insert_eq|exact E2]. cbn [mbind Res_bind].
  erewrite onHost_run; [|cbn; apply lookup_insert_eq|exact E3]. cbn [mbind Res_bind]. rewrite !store_store.
  destruct (Hinit (store r (NHost h3) s)) as (h4 & E4 & P4 & R4).
  unfold onHostSys, deref. cbn [registeredModule store set_modules]. rewrite lookup_insert_eq. cbn [of_option mbind Res_bind].
  rewrite E4. cbn [mbind Res_bind]. exists h4. eexists. split; [reflexivity|].
  rewrite store_store. done.
Qed.

Lemma initializeRouter_good m r (s s' : Sys) : initializeRouter m r s = Ok s' -> good s -> good s'.
Proof.
  unfold initializeRouter. intros H G. res_inv.
  do 3 good_next. eapply module_call_good; [|exact H|done]. intros o. apply stable_initialize.
Qed.

Lemma initializeAll_ok m rs (s : Sys) :
  m = RIPModule \/ m = OSPFModule -> NoDup rs -> good s ->
  (forall r, r ∈ rs -> exists h, registeredModule s !! r = Some (NHost h) /\ bare h) ->
  exists s', foldM (initializeRouter m) rs s = Ok s' /\ good s' /\ grown (registeredModule s) (registeredModule s').
Proof.
  intros Hm. revert s. induction rs as [|r rs IH]; intros s ND G HH; cbn [foldM]; [exists s; split; [done|]; split; [done|reflexivity]|].
  apply NoDup_cons in ND as [Hnin ND]. destruct (HH r) as (h & Eh & Bh); [left|].
  destruct (initializeRouter_run m r s h Hm Eh Bh) as (h' & s1 & E1 & M1 & P1 & R1). rewrite E1.
  destruct (IH s1 ND) as (s2 & -> & G2 & Gr2).
  - by eapply initializeRouter_good.
  - intros x Hx. rewrite M1, lookup_insert_ne by (intros ->; done). apply HH. by right.
  - exists s2. split; [done|]. split; [done|]. etrans; [|exact Gr2]. rewrite M1.
    eapply grown_host; [exact Eh|by rewrite P1|by rewrite R1].
Qed.

Lemma Bed_new_ok : bed_ok (mkBed (System_init initial_env) [] 1 1 [] true).
Proof.
  constructor; cbn [bed_routers bed_sys next_mac_id next_network_id]; try done.
  - apply init_good.
  - apply NoDup_nil_2.
  - intros r H%not_elem_of_nil. done.
  - intros id [x H]. cbn in H. by rewrite lookup_empty in H.
Qed.

(** C18: the routing test beds are the networks the graphs describe: for any
    number of routers and any list of fewer than 65535 edges between distinct
    routers with costs from 1 to [MaxCost], [setupGraph] succeeds from an
    empty system for both assignments; the result is a well-formed network with
    the routers as distinct hosts; and for the [k]-th edge each of its two
    routers has a port whose wire has the speed that encodes the edge's cost
    (so that [linkCost] of the port is exactly that cost), the MAC address and
    the IP address 10.[k].1 or 10.[k].2 of its end, the peer's address in its
    ARP table and a route to the network. *)
Theorem setupGraph_builds_graph seeds m N g :
  m = RIPModule \/ m = OSPFModule -> Forall (edge_ok N) g -> Z.of_nat N < 2 ^ 32 -> Z.of_nat (length g) < 2 ^ 16 ->
  exists b, setupGraph seeds m N g (Bed_new (System_init initial_env)) = Ok b /\
    good (bed_sys b) /\ length (bed_routers b) = N /\ NoDup (bed_routers b) /\
    (forall r, r ∈ bed_routers b -> exists h, registeredModule (bed_sys b) !! r = Some (NHost h)) /\
    (forall k e, g !! k = Some e -> edge_built (registeredModule (bed_sys b)) (bed_routers b) (1 + Z.of_nat k) e) /\
    (forall r port c mac pmac ip pip net self, 1 <= c <= LinkCost.MaxCost ->
       end_of_edge (registeredModule (bed_sys b)) r port c mac pmac ip pip net ->
       exists h, registeredModule (bed_sys b) !! r = Some (NHost h) /\
         Host.run_prog r self (LinkCost.linkCost (Z.of_nat port)) h (bed_sys b) = Ok (c, h, bed_sys b)).
Proof.
  intros Hm Hg HN Hl. unfold setupGraph, Bed_new. cbn [intialized negb assert_that mbind Res_bind bed_sys bed_routers].
  cbn [next_mac_id next_network_id switches].
  destruct (installRouters_ok (seq 0 N) _ Bed_new_ok eq_refl) as (b1 & -> & Hb1 & K1 & L1); [rewrite length_seq; cbn; lia|].
  rewrite length_seq in L1. cbn [length bed_routers Nat.add] in L1. cbn [mbind Res_bind].
  destruct (connectAll_ok seeds g b1 Hb1) as (b2 & -> & Hb2 & R2 & G2 & E2); [by rewrite L1|lia|lia|]. cbn [mbind Res_bind].
  destruct (initializeAll_ok m (bed_routers b2) (bed_sys b2) Hm) as (s & -> & Gs & G3).
  { apply Hb2. } { apply Hb2. } { intros r Hr. destruct (bo_hosts _ Hb2 r Hr) as (h & Eh & Bh & _). by exists h. }
  cbn [mbind Res_bind]. eexists. split; [reflexivity|]. cbn [bed_sys bed_routers].
  split; [done|]. split; [by rewrite R2|]. split; [apply Hb2|]. split; [|split].
  - intros r Hr. destruct (bo_hosts _ Hb2 r Hr) as (h & Eh & _). destruct (proj1 G3 r h Eh) as (h' & Eh' & _). by exists h'.
  - intros k e Hk. eapply edge_built_grown; [exact G3|]. specialize (E2 k e Hk). by rewrite K1, <- R2 in E2.
  - intros r port c mac pmac ip pip net self Hc [(h & n & w & Eh & Hp & Hw & Hb & _)]. exists h. split; [done|].
    destruct (Assignments.cost_exact c Hc) as [Hx H0]. rewrite <- Hb in Hx, H0.
    erewrite Assignments.linkCost_run; [|exact Hp|exact Hw|reflexivity].
    replace (Wire.bps w =? 0) with false by (symmetry; by apply Z.eqb_neq). by rewrite Hx.
Qed.

End RouteTesting.
End RouteTesting.

(** ** A test bed *)
Module RouteExample.
Import System Network TestEnv RouteTests RouteTesting.

#[local] Instance low_engine : RandomEngine := {|
  engine := unit;
  engine_seed _ := tt;
  uniform_real a _ g := (a, g);
  libm_exp x := x;
  libm_log x := x;
|}.
#[local] Instance unordered : UnorderedSet Z := {| bucket_pos _ _ := 0%nat |}.
#[local] Instance unordered_map : UnorderedMap.
Proof. refine {| map_order m := elements (dom m) |}. done. Defined.

Lemma custom1_edges : Forall (edge_ok 4) (graph RoutingEnvCustom1).
Proof. repeat constructor; cbn; unfold LinkCost.MaxCost; lia. Qed.

Lemma setupGraph_builds_graph_witness :
  exists b, rip_SetUp (X := Empty_set) (fun _ => (0, 0)) RoutingEnvCustom1 (System_init initial_env) = Ok b /\
    length (bed_routers b) = 4%nat /\
    edge_built (registeredModule (bed_sys b)) (bed_routers b) 5 (2, 3, 2).
Proof.
  destruct (setupGraph_builds_graph (X := Empty_set) (fun _ => (0, 0)) RIPModule 4 (graph RoutingEnvCustom1)
    (or_introl eq_refl) custom1_edges) as (b & E & _ & L & _ & _ & H & _); [lia | cbn; lia |].
  exists b. split; [exact E|]. split; [exact L|]. apply (H 4%nat). reflexivity.
Defined.

End RouteExample.
