(* ===== verification/TestProg.v ===== *)
(** * TestProg: programs that talk to a socket layer

    The vocabulary of the test applications under app/kens.  They call the
    functions of [TCPApplication] with pointers to their own variables; here
    what a pointer refers to before the call is part of the call, and what it
    refers to afterwards part of the answer.  A test application is an
    interaction tree over these calls, because its [while] loops need not end;
    [EXPECT_EQ] and its relatives are calls too, so that a run shows which of
    them hold.

    [wp] is total correctness against a layer that may answer in several ways:
    every execution ends, no call is left without an answer, every expectation
    holds and the result satisfies the postcondition. *)

From S2P Require Import Prelude Assignments.
From ITree Require Import ITree Eq.Shallow.
From stdpp Require Import pretty.
From Stdlib Require Import Ascii Eqdep.
Local Open Scope Z_scope.

#[global] Instance itree_ret {E} : MRet (itree E) := fun A a => Ret a.
#[global] Instance itree_bind {E} : MBind (itree E) := fun A B f t => ITree.bind t f.

(** ** A program logic *)
Section wp.
Context {E : Type -> Type} {K : Type}.

(** A layer: what a call requires and how it may be answered. *)
Record Layer := mkLayer {
  pre : forall X, E X -> K -> Prop;
  step : forall X, E X -> K -> X -> K -> Prop;
}.

Inductive wpF (L : Layer) {R} (Q : R -> K -> Prop) : itree' E R -> K -> Prop :=
| wp_retF r k : Q r k -> wpF L Q (RetF r) k
| wp_tauF t k : wpF L Q (observe t) k -> wpF L Q (TauF t) k
| wp_visF X (e : E X) c k :
    pre L X e k -> (exists x k', step L X e k x k') ->
    (forall x k', step L X e k x k' -> wpF L Q (observe (c x)) k') -> wpF L Q (VisF e c) k.

Definition wp (L : Layer) {R} (t : itree E R) (Q : R -> K -> Prop) (k : K) : Prop := wpF L Q (observe t) k.

Context (L : Layer).

Lemma wp_ret {R} (r : R) Q k : Q r k -> wp L (mret r) Q k.
Proof. by constructor. Qed.

Lemma wp_tau {R} (t : itree E R) Q k : wp L t Q k -> wp L (Tau t) Q k.
Proof. by constructor. Qed.

Lemma wp_mono {R} (t : itree E R) (Q Q' : R -> K -> Prop) k :
  wp L t Q k -> (forall r k, Q r k -> Q' r k) -> wp L t Q' k.
Proof. intros H HQ. unfold wp in *. induction H; constructor; auto. Qed.

Lemma wp_bind {A B} (t : itree E A) (f : A -> itree E B) Q k :
  wp L t (fun a k => wp L (f a) Q k) k -> wp L (t ≫= f) Q k.
Proof.
  unfold wp. remember (observe t) as ot eqn:Et. intros H. revert t Et.
  induction H as [r k H|u k H IH|X e c k Hp Hx H IH]; intros t Et;
    unfold mbind, itree_bind; rewrite observe_bind, <- Et; cbn.
  - exact H.
  - constructor. by apply IH.
  - constructor; [done|done|]. intros x k' Hs. by apply (IH x k' Hs).
Qed.

Lemma wp_call {X} (e : E X) (Q : X -> K -> Prop) k :
  pre L X e k -> (exists x k', step L X e k x k') -> (forall x k', step L X e k x k' -> Q x k') ->
  wp L (ITree.trigger e) Q k.
Proof. intros. constructor; [done|done|]. intros. constructor. auto. Qed.

(** A loop ends when a measure decreases. *)
Lemma wp_iter {I R} (Inv : I -> K -> Prop) (m : I -> K -> nat) (body : I -> itree E (I + R)) Q i k :
  (forall i k, Inv i k -> wp L (body i) (fun r k' =>
     match r with inl i' => Inv i' k' /\ (m i' k' < m i k)%nat | inr r => Q r k' end) k) ->
  Inv i k -> wp L (ITree.iter body i) Q k.
Proof.
  intros Hb. remember (m i k) as n eqn:En. revert i k En.
  induction (lt_wf n) as [n _ IH]. intros i k -> Hi.
  unfold wp. rewrite (observing_observe (unfold_aloop_ _ _)). apply (wp_bind (body i)).
  eapply wp_mono; [exact (Hb i k Hi)|]. intros [i'|r] k' H.
  - apply wp_tau. destruct H. by eapply IH.
  - by apply wp_ret.
Qed.

(** One iteration of a loop that stops. *)
Lemma wp_iter_unfold {I R} (body : I -> itree E (I + R)) Q i k :
  wp L (body i) (fun r k' => match r with inl i' => wp L (ITree.iter body i') Q k' | inr r => Q r k' end) k ->
  wp L (ITree.iter body i) Q k.
Proof.
  intros H. unfold wp. rewrite (observing_observe (unfold_aloop_ _ _)). apply (wp_bind (body i)).
  eapply wp_mono; [exact H|]. intros [i'|r] k' Hr; [by apply wp_tau | by apply wp_ret].
Qed.

(** What a program does before its continuation can be read off the whole. *)
Lemma wp_bind_inv {A B} (t : itree E A) (f : A -> itree E B) Q k :
  wp L (t ≫= f) Q k -> wp L t (fun a k => wp L (f a) Q k) k.
Proof.
  unfold wp at 1. remember (observe (t ≫= f)) as ot eqn:Eo. intros H. revert t Eo.
  induction H as [r k H|u k H IH|X e c k Hp Hx H IH]; intros t Eo;
    unfold mbind, itree_bind in Eo; rewrite observe_bind in Eo; unfold wp; destruct (observe t) eqn:Et; cbn in Eo.
  - constructor. unfold wp. rewrite <- Eo. by constructor.
  - discriminate.
  - discriminate.
  - constructor. unfold wp. rewrite <- Eo. by constructor.
  - injection Eo as ->. constructor. exact (IH _ eq_refl).
  - discriminate.
  - constructor. unfold wp. rewrite <- Eo. by constructor.
  - discriminate.
  - inversion Eo; subst. repeat match goal with H : existT _ _ = existT _ _ |- _ => apply inj_pair2 in H; subst end.
    constructor; [done|done|]. intros x k' Hs. exact (IH x k' Hs _ eq_refl).
Qed.

Lemma wp_ret_inv {R} (r : R) Q k : wp L (mret r) Q k -> Q r k.
Proof. unfold wp. cbn. intros H. by inversion H. Qed.

Lemma wp_call_inv {X} (e : E X) Q k :
  wp L (ITree.trigger e) Q k -> pre L X e k /\ forall x k', step L X e k x k' -> Q x k'.
Proof.
  unfold wp. cbn. intros H. inversion H; subst.
  repeat match goal with H : existT _ _ = existT _ _ |- _ => apply inj_pair2 in H; subst end.
  split; [done|]. intros x k' Hs. by apply wp_ret_inv, H6.
Qed.

Lemma wp_iter_inv {I R} (body : I -> itree E (I + R)) Q i k :
  wp L (ITree.iter body i) Q k ->
  wp L (body i) (fun r k' => match r with inl i' => wp L (ITree.iter body i') Q k' | inr r => Q r k' end) k.
Proof.
  unfold wp at 1. rewrite (observing_observe (unfold_aloop_ _ _)). intros H%(wp_bind_inv (body i)).
  eapply wp_mono; [exact H|]. intros [i'|r] k' Hr.
  - unfold wp in Hr. cbn in Hr. by inversion Hr.
  - exact (wp_ret_inv _ _ _ Hr).
Qed.

Lemma wp_and {R} (t : itree E R) (Q Q' : R -> K -> Prop) k :
  wp L t Q k -> wp L t Q' k -> wp L t (fun r k => Q r k /\ Q' r k) k.
Proof.
  unfold wp. intros H. induction H as [r k H|u k H IH|X e c k Hp Hx H IH]; intros H'.
  - inversion H'; subst. by constructor.
  - inversion H'; subst. constructor. auto.
  - inversion H'; subst. repeat match goal with H : existT _ _ = existT _ _ |- _ => apply inj_pair2 in H; subst end.
    constructor; auto.
Qed.

Lemma wp_reaches {R} (t : itree E R) (Q : R -> K -> Prop) k : wp L t Q k -> exists r k', Q r k'.
Proof.
  unfold wp. intros H. induction H as [r k H|u k H IH|X e c k Hp (x & k' & Hx) H IH]; [by eexists _, _|done|].
  exact (IH x k' Hx).
Qed.

Lemma wp_bind_both {A B} (t : itree E A) (f : A -> itree E B) (P : A -> K -> Prop) Q k :
  wp L (t ≫= f) Q k -> wp L t P k -> exists a k', P a k' /\ wp L (f a) Q k'.
Proof. intros Hb%wp_bind_inv Ht. exact (wp_reaches _ _ _ (wp_and _ _ _ _ Ht Hb)). Qed.

(** A program whose beginning leads to where its continuation is wrong. *)
Lemma wp_bind_stuck {A B} (t : itree E A) (f : A -> itree E B) (P : A -> K -> Prop) Q k :
  wp L t P k -> (forall a k', P a k' -> ~ wp L (f a) Q k') -> ~ wp L (t ≫= f) Q k.
Proof.
  intros Ht Hf Hb. destruct (wp_bind_both _ _ _ _ _ Hb Ht) as (a & k' & Ha & Hw).
  exact (Hf a k' Ha Hw).
Qed.

(** ** Running a program

    A handler answers each call; the fuel bounds the number of nodes visited. *)
Definition Handler : Type := forall X, E X -> K -> option (X * K).

Fixpoint run_with (h : Handler) (fuel : nat) {R} (t : itree E R) (k : K) : option (R * K) :=
  match fuel with
  | O => None
  | S fuel =>
      match observe t with
      | RetF r => Some (r, k)
      | TauF t => run_with h fuel t k
      | @VisF _ _ _ X e c => match h X e k with Some (x, k) => run_with h fuel (c x) k | None => None end
      end
  end.

(** A handler that gives an allowed answer to every allowed call. *)
Definition implements (h : Handler) : Prop :=
  forall X (e : E X) k, pre L X e k -> (exists x k', step L X e k x k') ->
    exists x k', h X e k = Some (x, k') /\ step L X e k x k'.

(** Every implementation of the layer runs the program to a result that
    satisfies the postcondition. *)
Lemma wp_run h {R} (t : itree E R) Q k :
  implements h -> wp L t Q k -> exists fuel r k', run_with h fuel t k = Some (r, k') /\ Q r k'.
Proof.
  intros Hh H. unfold wp in H. remember (observe t) as ot eqn:Et. revert t Et.
  induction H as [r k H|u k H IH|X e c k Hp Hx H IH]; intros t Et.
  - exists 1%nat, r, k. cbn. by rewrite <- Et.
  - destruct (IH u eq_refl) as (n & r & k' & Hn & HQ). exists (S n), r, k'. cbn. by rewrite <- Et.
  - destruct (Hh X e k Hp Hx) as (x & k1 & Hx1 & Hs). destruct (IH x k1 Hs (c x) eq_refl) as (n & r & k' & Hn & HQ).
    exists (S n), r, k'. cbn. rewrite <- Et. by rewrite Hx1.
Qed.

(** ** Programs that need not end

    [wlp] is partial correctness: no call is refused or left without an
    answer, every expectation holds and the result, if there is one, satisfies
    the postcondition.  A program that satisfies [wlp] with the postcondition
    [False] runs forever. *)
Fixpoint safe (n : nat) {R} (t : itree E R) (Q : R -> K -> Prop) (k : K) : Prop :=
  match n with
  | O => True
  | S n =>
      match observe t with
      | RetF r => Q r k
      | TauF t => safe n t Q k
      | @VisF _ _ _ X e c =>
          pre L X e k /\ (exists x k', step L X e k x k') /\ forall x k', step L X e k x k' -> safe n (c x) Q k'
      end
  end.

Definition wlp {R} (t : itree E R) (Q : R -> K -> Prop) (k : K) : Prop := forall n, safe n t Q k.

Lemma safe_ext n {R} (t t' : itree E R) Q k : observe t = observe t' -> safe n t Q k -> safe n t' Q k.
Proof. destruct n as [|n]; [done|]. cbn. by intros ->. Qed.

Lemma safe_mono n {R} (t : itree E R) (Q Q' : R -> K -> Prop) k :
  safe n t Q k -> (forall r k, Q r k -> Q' r k) -> safe n t Q' k.
Proof.
  intros H HQ. revert t k H. induction n as [|n IH]; intros t k H; [done|]. cbn in *. destruct (observe t); [auto..|].
  destruct H as (? & ? & H). split; [done|]. split; [done|]. eauto.
Qed.

Lemma safe_le n m {R} (t : itree E R) Q k : (m <= n)%nat -> safe n t Q k -> safe m t Q k.
Proof.
  revert m t k. induction n as [|n IH]; intros m t k Hm H; [by replace m with O by lia|].
  destruct m as [|m]; [done|]. cbn in *. destruct (observe t); [done|apply IH; [lia|done]|].
  destruct H as (? & ? & H). split; [done|]. split; [done|]. intros x k' Hx. apply IH; [lia|auto].
Qed.

Lemma wp_safe n {R} (t : itree E R) Q k : wp L t Q k -> safe n t Q k.
Proof.
  intros H. unfold wp in H. remember (observe t) as ot eqn:Et. revert n t Et.
  induction H as [r k H|u k H IH|X e c k Hp Hx H IH]; intros [|n] t Et; cbn; rewrite <- ?Et; auto.
  split; [done|]. split; [done|]. intros x k' Hs. by apply (IH x k' Hs).
Qed.

Lemma safe_bind n {A B} (t : itree E A) (f : A -> itree E B) Q k :
  safe n t (fun a k => safe n (f a) Q k) k -> safe n (t ≫= f) Q k.
Proof.
  revert t k. induction n as [|n IH]; intros t k H; [done|]. cbn [safe].
  unfold mbind, itree_bind. rewrite observe_bind. cbn [safe] in H. destruct (observe t) as [a|u|X e c].
  - exact H.
  - apply IH. eapply safe_mono; [exact H|]. intros a k1 Ha. apply (safe_le (S n)); [lia|exact Ha].
  - destruct H as (? & ? & H). split; [done|]. split; [done|]. intros x k' Hx. apply (IH (c x)).
    eapply safe_mono; [exact (H x k' Hx)|]. intros a k1 Ha. apply (safe_le (S n)); [lia|exact Ha].
Qed.

Lemma wp_wlp {R} (t : itree E R) Q k : wp L t Q k -> wlp t Q k.
Proof. intros H n. by apply wp_safe. Qed.

Lemma wlp_mono {R} (t : itree E R) (Q Q' : R -> K -> Prop) k :
  wlp t Q k -> (forall r k, Q r k -> Q' r k) -> wlp t Q' k.
Proof. intros H HQ n. eapply safe_mono; [apply H|done]. Qed.

Lemma wlp_bind {A B} (t : itree E A) (f : A -> itree E B) Q k :
  wlp t (fun a k => wlp (f a) Q k) k -> wlp (t ≫= f) Q k.
Proof. intros H n. apply safe_bind. eapply safe_mono; [apply H|]. intros a k' Ha. apply Ha. Qed.

(** A loop needs an invariant and no measure. *)
Lemma wlp_iter {I R} (Inv : I -> K -> Prop) (body : I -> itree E (I + R)) Q i k :
  (forall i k, Inv i k -> wlp (body i) (fun r k' => match r with inl i' => Inv i' k' | inr r => Q r k' end) k) ->
  Inv i k -> wlp (ITree.iter body i) Q k.
Proof.
  intros Hb Hi n. revert i k Hi. induction n as [|n IH]; intros i k Hi; [done|].
  eapply safe_ext; [symmetry; exact (observing_observe (unfold_aloop_ body i))|].
  apply (safe_bind _ (body i)). eapply safe_mono; [apply (Hb i k Hi)|]. intros [i'|r] k' H; [exact (IH i' k' H) | exact H].
Qed.

(** A run of an implementation that ends satisfies the postcondition. *)
Lemma wlp_run h {R} (t : itree E R) Q k fuel r k' :
  implements h -> wlp t Q k -> run_with h fuel t k = Some (r, k') -> Q r k'.
Proof.
  intros Hh H. specialize (H fuel). revert t k H. induction fuel as [|fuel IH]; intros t k H Hr; [done|]. cbn in *.
  destruct (observe t) as [a|u|X e c]; [by injection Hr as <- <-|eauto|]. destruct H as (Hp & Hx & H).
  destruct (Hh X e k Hp Hx) as (x & k1 & Eh & Hs). rewrite Eh in Hr. exact (IH _ _ (H x k1 Hs) Hr).
Qed.

End wp.
Arguments Layer : clear implicits.
Arguments Handler : clear implicits.

(** ** Addresses *)

(** [struct sockaddr_in]: the port and the address are kept as stored, in
    network byte order on a little-endian machine. *)
Record sockaddr_in := mkAddr {
  sin_family : Z;
  sin_port : Z;
  s_addr : Z;
  sin_zero : Z;
}.

#[global] Instance sockaddr_in_eq_dec : EqDecision sockaddr_in.
Proof. solve_decision. Defined.

Definition AF_INET : Z := 2.
Definition SOCK_STREAM : Z := 1.
Definition IPPROTO_TCP : Z := 6.
Definition INADDR_ANY : Z := 0.
Definition sizeof_addr : Z := 16.

Definition htons (x : Z) : Z := let x := wrap 16 x in (x mod 256) * 256 + x / 256.
Definition htonl (x : Z) : Z :=
  let x := wrap 32 x in
  (x mod 256) * 2 ^ 24 + (x / 2 ^ 8 mod 256) * 2 ^ 16 + (x / 2 ^ 16 mod 256) * 2 ^ 8 + x / 2 ^ 24.

(** [memset(&addr, 0, len)]. *)
Definition zero_addr : sockaddr_in := mkAddr 0 0 0 0.

(** The three assignments after it. *)
Definition inet (addr port : Z) : sockaddr_in := mkAddr AF_INET port addr 0.

(** The bytes of an address in memory order, as a number. *)
Definition addr_of_bytes (ip : list Z) : Z :=
  match ip with [a; b; c; d] => a + 2 ^ 8 * b + 2 ^ 16 * c + 2 ^ 24 * d | _ => 0 end.

(** *** Strings *)

(** [snprintf(str_buffer, sizeof(str_buffer), "%u.%u.%u.%u", ...)]. *)
Definition ip_string (ip : list Z) : string :=
  match ip with
  | [a; b; c; d] => (pretty a +:+ "." +:+ pretty b +:+ "." +:+ pretty c +:+ "." +:+ pretty d)%string
  | _ => ""%string
  end.

(** The text up to the next dot, and what follows it. *)
Fixpoint until_dot (s : string) : string * option string :=
  match s with
  | String.EmptyString => (String.EmptyString, None)
  | String.String c s' =>
      if bool_decide (c = "."%char) then (String.EmptyString, Some s')
      else let '(a, r) := until_dot s' in (String.String c a, r)
  end.

(** A decimal number below 256. *)
Definition octet (s : string) : option Z :=
  if forallb (fun c => match Echo.digit c with Some _ => true | None => false end) (String.list_ascii_of_string s)
  then let v := Echo.digits 0 s in if (v <? 256) && negb (String.eqb s "") then Some v else None
  else None.

(** [inet_addr] on four decimal fields; its other notations are not used and
    left out. *)
Definition inet_addr (s : string) : Res Z :=
  let r :=
    let '(a, s) := until_dot s in
    s ← s; let '(b, s) := until_dot s in
    s ← s; let '(c, s) := until_dot s in
    s ← s; let '(d, s) := until_dot s in
    match s with
    | Some _ => None
    | None => a ← octet a; b ← octet b; c ← octet c; d ← octet d; Some (addr_of_bytes [a; b; c; d])
    end in
  of_option BadConversion r.

(** [atol]. *)
Definition atol (s : string) : Res Z :=
  let v := Echo.atoi_value s in
  if (- 2 ^ 63 <=? v) && (v <? 2 ^ 63) then Ok v else Err Indeterminate.

Lemma atoi_range s v : Echo.atoi s = Ok v -> - 2 ^ 31 <= v < 2 ^ 31.
Proof.
  unfold Echo.atoi. destruct (_ && _)%bool eqn:E; [|discriminate]. intros [= <-].
  apply andb_prop in E as [E1%Z.leb_le E2%Z.ltb_lt]. lia.
Qed.

(** [std::string::operator=(char)], which assigning an [int] selects. *)
Definition string_of_int_assignment (v : Z) : string :=
  String.String (Ascii.ascii_of_nat (Z.to_nat (v mod 256))) String.EmptyString.

(** *** Environments of the test applications: [env[key]] *)
Definition Environment : Type := gmap string string.
Definition getenv (env : Environment) (key : string) : string := default String.EmptyString (env !! key).

(** ** Calls *)
Variant socketE : Type -> Type :=
| Socket (domain type protocol : Z) : socketE Z
| Close (fd : Z) : socketE Z
| Bind (fd : Z) (addr : sockaddr_in) (len : Z) : socketE Z
| Listen (fd backlog : Z) : socketE Z
| Accept (fd : Z) (addr : sockaddr_in) (len : Z) : socketE (Z * sockaddr_in * Z)
| Connect (fd : Z) (addr : sockaddr_in) (len : Z) : socketE Z
| GetSockName (fd : Z) (addr : sockaddr_in) (len : Z) : socketE (Z * sockaddr_in * Z)
| GetPeerName (fd : Z) (addr : sockaddr_in) (len : Z) : socketE (Z * sockaddr_in * Z)
| Read (fd count : Z) : socketE (Z * list Z)
| Write (fd : Z) (data : list Z) : socketE Z
| USleep (microsleep : Z) : socketE Z
| GetTimeOfDay : socketE (Z * (Z * Z))
| Expect (holds : bool) : socketE unit
| Crash (e : Error) : socketE Empty_set.

Abbreviation App := (itree socketE).

Definition socket (domain type protocol : Z) : App Z := ITree.trigger (Socket domain type protocol).
Definition close (fd : Z) : App Z := ITree.trigger (Close fd).
Definition bind (fd : Z) (addr : sockaddr_in) (len : Z) : App Z := ITree.trigger (Bind fd addr len).
Definition listen (fd backlog : Z) : App Z := ITree.trigger (Listen fd backlog).
Definition accept (fd : Z) (addr : sockaddr_in) (len : Z) : App (Z * sockaddr_in * Z) := ITree.trigger (Accept fd addr len).
Definition connect (fd : Z) (addr : sockaddr_in) (len : Z) : App Z := ITree.trigger (Connect fd addr len).
Definition getsockname (fd : Z) (addr : sockaddr_in) (len : Z) : App (Z * sockaddr_in * Z) :=
  ITree.trigger (GetSockName fd addr len).
Definition getpeername (fd : Z) (addr : sockaddr_in) (len : Z) : App (Z * sockaddr_in * Z) :=
  ITree.trigger (GetPeerName fd addr len).
Definition read (fd count : Z) : App (Z * list Z) := ITree.trigger (Read fd count).
Definition write (fd : Z) (data : list Z) : App Z := ITree.trigger (Write fd data).
(** [usleep(uint64_t)] of a signed argument. *)
Definition usleep (microsleep : Z) : App Z := ITree.trigger (USleep (wrap 64 microsleep)).
Definition gettimeofday : App (Z * (Z * Z)) := ITree.trigger GetTimeOfDay.
(** [EXPECT_EQ], [EXPECT_NE], [EXPECT_GE], [EXPECT_LT], [EXPECT_TRUE]. *)
Definition expect (holds : bool) : App unit := ITree.trigger (Expect holds).

(** A computation that may be undefined. *)
Definition checked {A} (r : Res A) : App A :=
  match r with
  | Ok a => mret a
  | Err e => x ← ITree.trigger (Crash e); match x : Empty_set with end
  end.

Definition env_int (env : Environment) (key : string) : App Z := checked (Echo.atoi (getenv env key)).
Definition env_long (env : Environment) (key : string) : App Z := checked (atol (getenv env key)).
Definition env_addr (env : Environment) (key : string) : App Z := checked (inet_addr (getenv env key)).
