(* ===== verification/SocketLayer.v ===== *)
(** * SocketLayer: the socket layer the tests of app/kens expect

    An abstract specification of what a TCP module promises to one
    application, after the manual pages under Documentation/man: descriptors
    are fresh, [bind] refuses a bound socket and an address in use, names are
    what was bound or connected, data is a byte stream that arrives in order in
    pieces of any size.  The rest of the network appears as [offers] (the
    connections [accept] will return, with the time they are established and
    the data that will arrive) and [outcomes] (the same for [connect], [None]
    being a failure).  The end of a stream is reported by [eof]: the manual
    page of read(2) says zero, the test applications need a negative value.

    [serve] is an implementation, with the size of the pieces as a parameter. *)

From ITree Require Import ITree.
From Stdlib Require Import Eqdep.
From S2P Require Import Prelude TestProg.
Local Open Scope Z_scope.

Module SocketLayer.

(** ** State *)

Record Sock := mkSock {
  local : option sockaddr_in;
  peer : option sockaddr_in;
  inbox : list Z;
  outbox : list Z;
}.

Record Offer := mkOffer {
  of_peer : sockaddr_in;
  of_time : Z;
  of_data : list Z;
}.

Record Reply := mkReply {
  re_time : Z;
  re_data : list Z;
}.

(** [settled] is the time by which all transfers are over; [finished] keeps the
    sockets that were closed, latest first. *)
Record Net := mkNet {
  socks : gmap Z Sock;
  clock : Z;
  settled : Z;
  offers : list Offer;
  outcomes : list (option Reply);
  finished : list Sock;
}.

Definition new_sock : Sock := mkSock None None [] [].

Definition set_socks (m : gmap Z Sock) (k : Net) : Net := mkNet m (clock k) (settled k) (offers k) (outcomes k) (finished k).
Definition set_clock (t : Z) (k : Net) : Net := mkNet (socks k) t (settled k) (offers k) (outcomes k) (finished k).
Definition set_offers (o : list Offer) (k : Net) : Net := mkNet (socks k) (clock k) (settled k) o (outcomes k) (finished k).
Definition set_outcomes (o : list (option Reply)) (k : Net) : Net := mkNet (socks k) (clock k) (settled k) (offers k) o (finished k).
Definition put (fd : Z) (s : Sock) (k : Net) : Net := set_socks (<[fd := s]> (socks k)) k.

(** ** Addresses in use *)

(** Two local addresses exclude each other: the same port, and the same
    address or one of them the wildcard. *)
Definition overlaps (a b : sockaddr_in) : bool :=
  (sin_port a =? sin_port b) && ((s_addr a =? s_addr b) || (s_addr a =? 0) || (s_addr b =? 0)).

Definition in_use (a : sockaddr_in) (k : Net) : bool :=
  existsb (fun s => match local (snd s) with Some b => overlaps a b | None => false end) (map_to_list (socks k)).

(** The ports of the open sockets. *)
Definition ports (k : Net) : list Z :=
  omap (fun s => sin_port <$> local (snd s)) (map_to_list (socks k)).

(** ** The calls *)

(** Waiting for data, or for room for it, takes until [settled] at most. *)
Definition waited (t : Z) (k : Net) : Prop := clock k <= t <= Z.max (clock k) (settled k).

(** A call on a descriptor that is not open fails. *)
Definition on_sock {X} (fd : Z) (fail : X -> Prop) (f : Sock -> X -> Net -> Prop) (k : Net) (x : X) (k' : Net) : Prop :=
  match socks k !! fd with
  | Some s => f s x k'
  | None => fail x /\ k' = k
  end.

Definition negative (r : Z) : Prop := r < 0.

Definition call_step (eof : Z) X (e : socketE X) : Net -> X -> Net -> Prop :=
  match e in socketE Y return Net -> Y -> Net -> Prop with
  | Socket _ _ _ => fun k fd k' => 0 <= fd /\ socks k !! fd = None /\ k' = put fd new_sock k
  | Close fd => fun k => on_sock fd negative (fun s r k' =>
      r = 0 /\ k' = mkNet (delete fd (socks k)) (clock k) (settled k) (offers k) (outcomes k) (s :: finished k)) k
  | Bind fd addr len => fun k => on_sock fd negative (fun s r k' =>
      if (match local s with None => true | Some _ => false end && negb (in_use addr k) && (len =? sizeof_addr))%bool
      then r = 0 /\ k' = put fd (mkSock (Some addr) (peer s) (inbox s) (outbox s)) k
      else r < 0 /\ k' = k) k
  | Listen fd _ => fun k => on_sock fd negative (fun s r k' =>
      match local s with Some _ => r = 0 /\ k' = k | None => r < 0 /\ k' = k end) k
  | Accept fd addr len => fun k => on_sock fd (fun x => fst (fst x) < 0) (fun s x k' =>
      match local s, offers k with
      | Some a, o :: rest =>
          exists fd' ip, 0 <= fd' /\ socks k !! fd' = None /\ (s_addr a <> 0 -> ip = s_addr a) /\
            x = (fd', of_peer o, sizeof_addr) /\
            k' = put fd' (mkSock (Some (mkAddr AF_INET (sin_port a) ip 0)) (Some (of_peer o)) (of_data o) [])
                   (set_offers rest (set_clock (Z.max (clock k) (of_time o)) k))
      | _, _ => fst (fst x) < 0 /\ k' = k
      end) k
  | Connect fd addr len => fun k => on_sock fd negative (fun s r k' =>
      match outcomes k with
      | Some rp :: rest =>
          exists a, (local s = Some a \/ (local s = None /\ sin_family a = AF_INET /\ sin_port a ∉ ports k)) /\
            r = 0 /\
            k' = put fd (mkSock (Some a) (Some addr) (re_data rp) (outbox s))
                   (set_outcomes rest (set_clock (Z.max (clock k) (re_time rp)) k))
      | _ => r < 0 /\ k' = set_outcomes (tail (outcomes k)) k
      end) k
  | GetSockName fd addr len => fun k => on_sock fd (fun x => fst (fst x) < 0) (fun s x k' =>
      k' = k /\ match local s with Some a => x = (0, a, sizeof_addr) | None => fst (fst x) < 0 end) k
  | GetPeerName fd addr len => fun k => on_sock fd (fun x => fst (fst x) < 0) (fun s x k' =>
      k' = k /\ match peer s with Some a => x = (0, a, sizeof_addr) | None => fst (fst x) < 0 end) k
  | Read fd count => fun k => on_sock fd (fun x => fst x < 0) (fun s x k' =>
      match inbox s with
      | [] => x = (eof, []) /\ exists t, waited t k /\ k' = set_clock t k
      | data =>
          exists (n : nat) t, (1 <= n <= length data)%nat /\ Z.of_nat n <= count /\ waited t k /\
            x = (Z.of_nat n, take n data) /\
            k' = set_clock t (put fd (mkSock (local s) (peer s) (drop n data) (outbox s)) k)
      end) k
  | Write fd data => fun k => on_sock fd negative (fun s r k' =>
      exists (n : nat) t, (n <= length data)%nat /\ (data <> [] -> (1 <= n)%nat) /\ waited t k /\ r = Z.of_nat n /\
        k' = set_clock t (put fd (mkSock (local s) (peer s) (inbox s) (outbox s ++ take n data)) k)) k
  | USleep us => fun k r k' => r = 0 /\ k' = set_clock (clock k + wrap 64 (1000 * us)) k
  | GetTimeOfDay => fun k x k' =>
      let usec := clock k / 1000 in x = (0, (usec / 1000000, usec mod 1000000)) /\ k' = k
  | Expect b => fun k _ k' => k' = k
  | Crash _ => fun _ _ _ => False
  end.

(** An expectation must hold; a crash is never allowed; [read] asks for at
    least one byte. *)
Definition call_pre X (e : socketE X) (_ : Net) : Prop :=
  match e with
  | Expect b => b = true
  | Crash _ => False
  | Read _ count => 1 <= count
  | _ => True
  end.

Definition layer (eof : Z) : Layer socketE Net := mkLayer call_pre (call_step eof).

(** ** An implementation *)

Definition fresh_fd (k : Net) : Z := foldr Z.max 2 (fst <$> map_to_list (socks k)) + 1.
Definition fresh_port (k : Net) : Z := foldr Z.max 49151 (ports k) + 1.

Definition serve (eof : Z) (chunk : nat) : Handler socketE Net := fun X e =>
  match e in socketE Y return Net -> option (Y * Net) with
  | Socket _ _ _ => fun k => Some (fresh_fd k, put (fresh_fd k) new_sock k)
  | Close fd => fun k =>
      match socks k !! fd with
      | Some s => Some (0, mkNet (delete fd (socks k)) (clock k) (settled k) (offers k) (outcomes k) (s :: finished k))
      | None => Some (-1, k)
      end
  | Bind fd addr len => fun k =>
      match socks k !! fd with
      | Some s =>
          if (match local s with None => true | Some _ => false end && negb (in_use addr k) && (len =? sizeof_addr))%bool
          then Some (0, put fd (mkSock (Some addr) (peer s) (inbox s) (outbox s)) k)
          else Some (-1, k)
      | None => Some (-1, k)
      end
  | Listen fd _ => fun k =>
      match socks k !! fd with
      | Some s => match local s with Some _ => Some (0, k) | None => Some (-1, k) end
      | None => Some (-1, k)
      end
  | Accept fd addr len => fun k =>
      match socks k !! fd with
      | Some s =>
          match local s, offers k with
          | Some a, o :: rest =>
              Some ((fresh_fd k, of_peer o, sizeof_addr),
                put (fresh_fd k) (mkSock (Some (mkAddr AF_INET (sin_port a) (s_addr a) 0)) (Some (of_peer o)) (of_data o) [])
                  (set_offers rest (set_clock (Z.max (clock k) (of_time o)) k)))
          | _, _ => Some ((-1, addr, len), k)
          end
      | None => Some ((-1, addr, len), k)
      end
  | Connect fd addr len => fun k =>
      match socks k !! fd with
      | Some s =>
          match outcomes k with
          | Some rp :: rest =>
              let a := default (mkAddr AF_INET (fresh_port k) 0 0) (local s) in
              Some (0, put fd (mkSock (Some a) (Some addr) (re_data rp) (outbox s))
                     (set_outcomes rest (set_clock (Z.max (clock k) (re_time rp)) k)))
          | _ => Some (-1, set_outcomes (tail (outcomes k)) k)
          end
      | None => Some (-1, k)
      end
  | GetSockName fd addr len => fun k =>
      match socks k !! fd with
      | Some s => match local s with Some a => Some ((0, a, sizeof_addr), k) | None => Some ((-1, addr, len), k) end
      | None => Some ((-1, addr, len), k)
      end
  | GetPeerName fd addr len => fun k =>
      match socks k !! fd with
      | Some s => match peer s with Some a => Some ((0, a, sizeof_addr), k) | None => Some ((-1, addr, len), k) end
      | None => Some ((-1, addr, len), k)
      end
  | Read fd count => fun k =>
      match socks k !! fd with
      | Some s =>
          match inbox s with
          | [] => Some ((eof, []), set_clock (Z.max (clock k) (settled k)) k)
          | data =>
              let n := Nat.min (S chunk) (Nat.min (length data) (Z.to_nat count)) in
              Some ((Z.of_nat n, take n data), put fd (mkSock (local s) (peer s) (drop n data) (outbox s)) k)
          end
      | None => Some ((-1, []), k)
      end
  | Write fd data => fun k =>
      match socks k !! fd with
      | Some s =>
          let n := Nat.min (S chunk) (length data) in
          Some (Z.of_nat n, put fd (mkSock (local s) (peer s) (inbox s) (outbox s ++ take n data)) k)
      | None => Some (-1, k)
      end
  | USleep us => fun k => Some (0, set_clock (clock k + wrap 64 (1000 * us)) k)
  | GetTimeOfDay => fun k =>
      let usec := clock k / 1000 in Some ((0, (usec / 1000000, usec mod 1000000)), k)
  | Expect b => fun k => if b then Some (tt, k) else None
  | Crash _ => fun _ => None
  end.

Lemma foldr_max_le (x d : Z) (l : list Z) : x ∈ l -> x <= foldr Z.max d l.
Proof. induction l as [|y l IH]; [by intros ?%not_elem_of_nil|]. intros [->|H]%elem_of_cons; cbn; [lia|]. specialize (IH H). lia. Qed.

Lemma foldr_max_base (d : Z) (l : list Z) : d <= foldr Z.max d l.
Proof. induction l as [|y l IH]; cbn; lia. Qed.

Lemma fresh_fd_spec k : 0 <= fresh_fd k /\ socks k !! fresh_fd k = None.
Proof.
  unfold fresh_fd. set (l := fst <$> map_to_list (socks k)). pose proof (foldr_max_base 2 l). split; [lia|].
  destruct (socks k !! _) as [s|] eqn:E; [|done].
  assert (foldr Z.max 2 l + 1 ∈ l) as Hin%(foldr_max_le _ 2); [|lia].
  apply list_elem_of_fmap. exists (foldr Z.max 2 l + 1, s). split; [done|]. by apply elem_of_map_to_list.
Qed.

Lemma fresh_port_spec k : fresh_port k ∉ ports k.
Proof. unfold fresh_port. intros Hin%(foldr_max_le _ 49151). lia. Qed.

(** [serve] answers every call as the layer allows. *)
Lemma serve_step eof chunk X (e : socketE X) k :
  call_pre X e k -> exists x k', serve eof chunk X e k = Some (x, k') /\ call_step eof X e k x k'.
Proof.
  intros Hp. pose proof (fresh_fd_spec k) as [Hf1 Hf2].
  destruct e; cbn -[Nat.min] in *; unfold on_sock; try (destruct (socks k !! fd) as [s|] eqn:E);
    try (by eexists _, _; split; [reflexivity|]; cbn; repeat split; try done; lia).
  - destruct (_ && _ && _)%bool; eexists _, _; (split; [reflexivity|]); done.
  - destruct (local s); eexists _, _; (split; [reflexivity|]); done.
  - destruct (local s) as [a|]; [destruct (offers k) as [|o rest]|]; eexists _, _; (split; [reflexivity|]); try done.
    exists (fresh_fd k), (s_addr a). done.
  - destruct (outcomes k) as [|[rp|] rest]; eexists _, _; (split; [reflexivity|]); try done.
    eexists. split; [|done]. destruct (local s) as [a|]; [by left|]. right. cbn. split; [done|]. split; [done|]. apply fresh_port_spec.
  - destruct (local s); eexists _, _; (split; [reflexivity|]); done.
  - destruct (peer s); eexists _, _; (split; [reflexivity|]); done.
  - destruct (inbox s) as [|b data]; eexists _, _; (split; [reflexivity|]).
    + split; [done|]. eexists. split; [|done]. unfold waited. lia.
    + eexists _, (clock k). split; [|split; [|split; [|split; [reflexivity|by destruct k]]]]; [cbn [length]; lia..|unfold waited; lia].
  - eexists _, _. split; [reflexivity|]. eexists _, (clock k).
    split; [|split; [|split; [|split; [reflexivity|by destruct k]]]]; [lia| |unfold waited; lia].
    intros Hd. destruct data; [done|]. cbn. lia.
  - subst. eexists _, _. by split.
  - destruct Hp.
Qed.

Lemma serve_implements eof chunk : implements (layer eof) (serve eof chunk).
Proof. intros X e k Hp _. by apply serve_step. Qed.

(** No call the layer allows is left without an answer. *)
Lemma layer_live eof X (e : socketE X) k : call_pre X e k -> exists x k', call_step eof X e k x k'.
Proof. intros Hp. destruct (serve_step eof 0 X e k Hp) as (x & k' & _ & Hs). by exists x, k'. Qed.

(** ** Addresses in use, as sockets come and go *)

Definition blocks (a : sockaddr_in) (s : Sock) : bool :=
  match local s with Some b => overlaps a b | None => false end.

Lemma in_use_spec a k : in_use a k = true <-> exists fd s, socks k !! fd = Some s /\ blocks a s = true.
Proof.
  unfold in_use. rewrite existsb_exists. split.
  - intros ([fd s] & Hin & H). exists fd, s. by rewrite <- list_elem_of_In, elem_of_map_to_list in Hin.
  - intros (fd & s & Hin & H). exists (fd, s). by rewrite <- list_elem_of_In, elem_of_map_to_list.
Qed.

Lemma in_use_ext a k k' : socks k' = socks k -> in_use a k' = in_use a k.
Proof. intros E. unfold in_use. by rewrite E. Qed.

Lemma in_use_put a fd s k : socks k !! fd = None -> in_use a (put fd s k) = blocks a s || in_use a k.
Proof.
  intros Hn. apply eq_bool_prop_intro. rewrite orb_True, !Is_true_true, !in_use_spec. cbn. split.
  - intros (fd' & s' & Hl & Hb). apply lookup_insert_Some in Hl as [[-> ->]|[_ Hl]]; [by left|right; eauto].
  - intros [Hb|(fd' & s' & Hl & Hb)]; [exists fd, s; by rewrite lookup_insert_eq|].
    exists fd', s'. rewrite lookup_insert_ne; [done|]. intros ->. congruence.
Qed.

Lemma put_put fd s s' k : put fd s (put fd s' k) = put fd s k.
Proof. unfold put, set_socks. cbn. by rewrite insert_insert_eq. Qed.

Lemma put_put_set fd s s' o t k :
  put fd s (set_outcomes o (set_clock t (put fd s' k))) = put fd s (set_outcomes o (set_clock t k)).
Proof. unfold put, set_socks. cbn. by rewrite insert_insert_eq. Qed.

Lemma lookup_put fd s k : socks (put fd s k) !! fd = Some s.
Proof. cbn. by rewrite lookup_insert_eq. Qed.

Lemma lookup_put_ne fd fd' s k : socks k !! fd = None -> is_Some (socks k !! fd') -> socks (put fd s k) !! fd' = socks k !! fd'.
Proof. intros Hn [s' Hs]. cbn. rewrite lookup_insert_ne; [done|]. intros ->. congruence. Qed.

(** [close]. *)
Definition shut (fd : Z) (s : Sock) (k : Net) : Net :=
  mkNet (delete fd (socks k)) (clock k) (settled k) (offers k) (outcomes k) (s :: finished k).

(** ** Rules for the calls

    Each rule consumes one call at the head of a program. *)
Section rules.
Context (eof : Z) {R : Type}.
Implicit Types (Q : R -> Net -> Prop) (k : Net).
Abbreviation wp := (wp (layer eof)).

Lemma wp_do X (e : socketE X) (f : X -> App R) Q k :
  call_pre X e k -> (forall x k', call_step eof X e k x k' -> wp (f x) Q k') -> wp (ITree.trigger e ≫= f) Q k.
Proof. intros Hp Hf. apply wp_bind, wp_call; [done| |done]. by apply layer_live. Qed.

Lemma wp_expect b (f : unit -> App R) Q k : b = true -> wp (f tt) Q k -> wp (expect b ≫= f) Q k.
Proof. intros Hb Hf. apply wp_do; [done|]. by intros [] k' ->. Qed.

Lemma wp_do_inv X (e : socketE X) (f : X -> App R) Q k x k' :
  wp (ITree.trigger e ≫= f) Q k -> call_step eof X e k x k' -> wp (f x) Q k'.
Proof. intros [_ H]%wp_bind_inv%wp_call_inv. apply H. Qed.

Lemma wp_expect_inv b (f : unit -> App R) Q k : wp (expect b ≫= f) Q k -> b = true /\ wp (f tt) Q k.
Proof. intros H. split; [|by eapply wp_do_inv]. by apply wp_bind_inv, wp_call_inv in H as [Hb _]. Qed.

(** A program whose first calls are answered as [serve] does. *)
Lemma wp_serve_inv chunk X (e : socketE X) (f : X -> App R) Q k :
  wp (ITree.trigger e ≫= f) Q k -> exists x k', serve eof chunk X e k = Some (x, k') /\ wp (f x) Q k'.
Proof.
  intros H. pose proof H as [Hp _]%wp_bind_inv%wp_call_inv. destruct (serve_step eof chunk X e k Hp) as (x & k' & Hx & Hs).
  exists x, k'. split; [done|]. by eapply wp_do_inv.
Qed.

Lemma wp_socket d t p (f : Z -> App R) Q k :
  (forall fd, 0 <= fd -> socks k !! fd = None -> wp (f fd) Q (put fd new_sock k)) -> wp (socket d t p ≫= f) Q k.
Proof. intros Hf. apply wp_do; [done|]. intros fd k' (H1 & H2 & ->). auto. Qed.

(** The calls on an open descriptor. *)
Context (fd : Z) (s : Sock) (k0 : Net) (Hs : socks k0 !! fd = Some s).

Lemma wp_close (f : Z -> App R) Q : wp (f 0) Q (shut fd s k0) -> wp (close fd ≫= f) Q k0.
Proof. intros Hf. apply wp_do; [done|]. intros r k'. cbn. unfold on_sock. rewrite Hs. by intros [-> ->]. Qed.

Lemma wp_bind_free addr (f : Z -> App R) Q :
  local s = None -> in_use addr k0 = false ->
  wp (f 0) Q (put fd (mkSock (Some addr) (peer s) (inbox s) (outbox s)) k0) -> wp (bind fd addr sizeof_addr ≫= f) Q k0.
Proof.
  intros Hl Hu Hf. apply wp_do; [done|]. intros r k'. cbn. unfold on_sock. rewrite Hs, Hl, Hu. by intros [-> ->].
Qed.

Lemma wp_bind_busy addr (f : Z -> App R) Q :
  is_Some (local s) \/ in_use addr k0 = true ->
  (forall r, r < 0 -> wp (f r) Q k0) -> wp (bind fd addr sizeof_addr ≫= f) Q k0.
Proof.
  intros Hb Hf. apply wp_do; [done|]. intros r k'. cbn. unfold on_sock. rewrite Hs.
  destruct (local s); cbn; [intros [Hr ->]; auto|]. destruct Hb as [[? [=]]| ->]. cbn. intros [Hr ->]. auto.
Qed.

Lemma wp_listen backlog a (f : Z -> App R) Q : local s = Some a -> wp (f 0) Q k0 -> wp (listen fd backlog ≫= f) Q k0.
Proof. intros Hl Hf. apply wp_do; [done|]. intros r k'. cbn. unfold on_sock. rewrite Hs, Hl. by intros [-> ->]. Qed.

Lemma wp_accept addr len a (f : Z * sockaddr_in * Z -> App R) Q :
  local s = Some a ->
  match offers k0 with
  | o :: rest => forall fd' ip, 0 <= fd' -> socks k0 !! fd' = None -> (s_addr a <> 0 -> ip = s_addr a) ->
      wp (f (fd', of_peer o, sizeof_addr)) Q
        (put fd' (mkSock (Some (mkAddr AF_INET (sin_port a) ip 0)) (Some (of_peer o)) (of_data o) [])
           (set_offers rest (set_clock (Z.max (clock k0) (of_time o)) k0)))
  | [] => forall r addr' len', r < 0 -> wp (f (r, addr', len')) Q k0
  end -> wp (accept fd addr len ≫= f) Q k0.
Proof.
  intros Hl Hf. apply wp_do; [done|]. intros x k'. cbn. unfold on_sock. rewrite Hs, Hl. destruct (offers k0) as [|o rest].
  - destruct x as [[r a'] l']. cbn. intros [Hr ->]. auto.
  - intros (fd' & ip & H1 & H2 & H3 & -> & ->). auto.
Qed.

Lemma wp_connect addr len (f : Z -> App R) Q :
  match outcomes k0 with
  | Some rp :: rest => forall a, local s = Some a \/ (local s = None /\ sin_family a = AF_INET /\ sin_port a ∉ ports k0) ->
      wp (f 0) Q (put fd (mkSock (Some a) (Some addr) (re_data rp) (outbox s))
                    (set_outcomes rest (set_clock (Z.max (clock k0) (re_time rp)) k0)))
  | _ => forall r, r < 0 -> wp (f r) Q (set_outcomes (tail (outcomes k0)) k0)
  end -> wp (connect fd addr len ≫= f) Q k0.
Proof.
  intros Hf. apply wp_do; [done|]. intros r k'. cbn. unfold on_sock. rewrite Hs. destruct (outcomes k0) as [|[rp|] rest].
  - intros [Hr ->]. auto.
  - intros (a & Ha & -> & ->). auto.
  - intros [Hr ->]. auto.
Qed.

Lemma wp_getsockname addr len a (f : Z * sockaddr_in * Z -> App R) Q :
  local s = Some a -> wp (f (0, a, sizeof_addr)) Q k0 -> wp (getsockname fd addr len ≫= f) Q k0.
Proof. intros Hl Hf. apply wp_do; [done|]. intros x k'. cbn. unfold on_sock. rewrite Hs, Hl. by intros [-> ->]. Qed.

Lemma wp_getpeername addr len a (f : Z * sockaddr_in * Z -> App R) Q :
  peer s = Some a -> wp (f (0, a, sizeof_addr)) Q k0 -> wp (getpeername fd addr len ≫= f) Q k0.
Proof. intros Hl Hf. apply wp_do; [done|]. intros x k'. cbn. unfold on_sock. rewrite Hs, Hl. by intros [-> ->]. Qed.

Lemma wp_read count (f : Z * list Z -> App R) Q :
  1 <= count ->
  match inbox s with
  | [] => forall t, waited t k0 -> wp (f (eof, [])) Q (set_clock t k0)
  | data => forall n t, (1 <= n <= length data)%nat -> Z.of_nat n <= count -> waited t k0 ->
      wp (f (Z.of_nat n, take n data)) Q (set_clock t (put fd (mkSock (local s) (peer s) (drop n data) (outbox s)) k0))
  end -> wp (read fd count ≫= f) Q k0.
Proof.
  intros Hc Hf. apply wp_do; [exact Hc|]. intros x k'. cbn. unfold on_sock. rewrite Hs. destruct (inbox s) as [|b data].
  - intros (-> & t & Ht & ->). auto.
  - intros (n & t & H1 & H2 & H3 & -> & ->). by apply Hf.
Qed.

Lemma wp_write data (f : Z -> App R) Q :
  (forall n t, (n <= length data)%nat -> (data <> [] -> (1 <= n)%nat) -> waited t k0 ->
     wp (f (Z.of_nat n)) Q (set_clock t (put fd (mkSock (local s) (peer s) (inbox s) (outbox s ++ take n data)) k0))) ->
  wp (write fd data ≫= f) Q k0.
Proof.
  intros Hf. apply wp_do; [done|]. intros r k'. cbn. unfold on_sock. rewrite Hs. intros (n & t & H1 & H2 & H3 & -> & ->). auto.
Qed.

End rules.

Lemma wp_usleep eof {R} us (f : Z -> App R) Q k :
  wp (layer eof) (f 0) Q (set_clock (clock k + wrap 64 (1000 * wrap 64 us)) k) -> wp (layer eof) (usleep us ≫= f) Q k.
Proof. intros Hf. apply wp_do; [done|]. intros r k'. cbn. by intros [-> ->]. Qed.

Lemma wp_gettimeofday eof {R} (f : Z * (Z * Z) -> App R) Q k :
  let usec := clock k / 1000 in
  wp (layer eof) (f (0, (usec / 1000000, usec mod 1000000))) Q k -> wp (layer eof) (gettimeofday ≫= f) Q k.
Proof. intros usec Hf. apply wp_do; [done|]. intros x k'. cbn. by intros [-> ->]. Qed.

Lemma wp_checked eof {A R} (r : Res A) a (f : A -> App R) Q k :
  r = Ok a -> wp (layer eof) (f a) Q k -> wp (layer eof) (checked r ≫= f) Q k.
Proof. intros -> Hf. apply wp_bind. by apply wp_ret. Qed.

Lemma wlp_checked eof {A R} (r : Res A) a (f : A -> App R) Q k :
  r = Ok a -> wlp (layer eof) (f a) Q k -> wlp (layer eof) (checked r ≫= f) Q k.
Proof. intros -> Hf. apply wlp_bind, wp_wlp. by apply wp_ret. Qed.

(** *** The rules read backwards *)
Section inversion.
Context (eof : Z) {R : Type}.
Implicit Types (Q : R -> Net -> Prop) (k : Net).
Abbreviation wp := (wp (layer eof)).

Lemma wp_checked_inv {A} (r : Res A) a (f : A -> App R) Q k : r = Ok a -> wp (checked r ≫= f) Q k -> wp (f a) Q k.
Proof. intros -> H%wp_bind_inv. exact (wp_ret_inv _ _ _ _ H). Qed.

Lemma wp_socket_inv d t p (f : Z -> App R) Q k :
  wp (socket d t p ≫= f) Q k -> exists fd, 0 <= fd /\ socks k !! fd = None /\ wp (f fd) Q (put fd new_sock k).
Proof.
  intros H. destruct (fresh_fd_spec k). exists (fresh_fd k). split; [done|]. split; [done|]. by eapply wp_do_inv.
Qed.

Lemma wp_bind_free_inv fd s addr (f : Z -> App R) Q k :
  socks k !! fd = Some s -> local s = None -> in_use addr k = false -> wp (bind fd addr sizeof_addr ≫= f) Q k ->
  wp (f 0) Q (put fd (mkSock (Some addr) (peer s) (inbox s) (outbox s)) k).
Proof. intros Hs Hl Hu H. eapply wp_do_inv; [exact H|]. cbn. unfold on_sock. by rewrite Hs, Hl, Hu. Qed.

Lemma wp_listen_inv fd s a backlog (f : Z -> App R) Q k :
  socks k !! fd = Some s -> local s = Some a -> wp (listen fd backlog ≫= f) Q k -> wp (f 0) Q k.
Proof. intros Hs Hl H. eapply wp_do_inv; [exact H|]. cbn. unfold on_sock. by rewrite Hs, Hl. Qed.

Lemma wp_usleep_inv us (f : Z -> App R) Q k :
  wp (usleep us ≫= f) Q k -> wp (f 0) Q (set_clock (clock k + wrap 64 (1000 * wrap 64 us)) k).
Proof. intros H. by eapply wp_do_inv. Qed.

Lemma wp_accept_inv fd s a addr len (f : Z * sockaddr_in * Z -> App R) Q k :
  socks k !! fd = Some s -> local s = Some a -> wp (accept fd addr len ≫= f) Q k ->
  match offers k with
  | o :: rest => exists fd', 0 <= fd' /\ socks k !! fd' = None /\
      wp (f (fd', of_peer o, sizeof_addr)) Q
        (put fd' (mkSock (Some (mkAddr AF_INET (sin_port a) (s_addr a) 0)) (Some (of_peer o)) (of_data o) [])
           (set_offers rest (set_clock (Z.max (clock k) (of_time o)) k)))
  | [] => wp (f (-1, addr, len)) Q k
  end.
Proof.
  intros Hs Hl H. destruct (offers k) as [|o rest] eqn:Eo.
  - eapply wp_do_inv; [exact H|]. cbn. unfold on_sock. by rewrite Hs, Hl, Eo.
  - destruct (fresh_fd_spec k). exists (fresh_fd k). split; [done|]. split; [done|].
    eapply wp_do_inv; [exact H|]. cbn. unfold on_sock. rewrite Hs, Hl, Eo. by exists (fresh_fd k), (s_addr a).
Qed.

(** A socket that was not bound before gets some port. *)
Lemma wp_connect_inv fd s addr len (f : Z -> App R) Q k :
  socks k !! fd = Some s -> wp (connect fd addr len ≫= f) Q k ->
  match outcomes k with
  | Some rp :: rest => exists a, wp (f 0) Q (put fd (mkSock (Some a) (Some addr) (re_data rp) (outbox s))
                                       (set_outcomes rest (set_clock (Z.max (clock k) (re_time rp)) k)))
  | _ => wp (f (-1)) Q (set_outcomes (tail (outcomes k)) k)
  end.
Proof.
  intros Hs H. destruct (outcomes k) as [|[rp|] rest] eqn:Eo.
  - eapply wp_do_inv; [exact H|]. cbn. unfold on_sock. by rewrite Hs, Eo.
  - exists (default (mkAddr AF_INET (fresh_port k) 0 0) (local s)).
    eapply wp_do_inv; [exact H|]. cbn. unfold on_sock. rewrite Hs, Eo. eexists. split; [|done].
    destruct (local s); [by left|]. right. split; [done|]. split; [done|]. apply fresh_port_spec.
  - eapply wp_do_inv; [exact H|]. cbn. unfold on_sock. by rewrite Hs, Eo.
Qed.

Lemma wp_getsockname_inv fd s a addr len (f : Z * sockaddr_in * Z -> App R) Q k :
  socks k !! fd = Some s -> local s = Some a -> wp (getsockname fd addr len ≫= f) Q k -> wp (f (0, a, sizeof_addr)) Q k.
Proof. intros Hs Hl H. eapply wp_do_inv; [exact H|]. cbn. unfold on_sock. by rewrite Hs, Hl. Qed.

Lemma wp_getpeername_inv fd s a addr len (f : Z * sockaddr_in * Z -> App R) Q k :
  socks k !! fd = Some s -> peer s = Some a -> wp (getpeername fd addr len ≫= f) Q k -> wp (f (0, a, sizeof_addr)) Q k.
Proof. intros Hs Hl H. eapply wp_do_inv; [exact H|]. cbn. unfold on_sock. by rewrite Hs, Hl. Qed.

End inversion.

(** Opening a socket and shutting it again changes nothing. *)
Lemma shut_put fd s s' k : socks k !! fd = None -> socks (shut fd s (put fd s' k)) = socks k.
Proof. intros Hn. cbn. by rewrite delete_insert_eq, delete_id. Qed.

Lemma fresh_ne fd fd' s k : socks (put fd s k) !! fd' = None -> fd' <> fd.
Proof. cbn. intros Hn ->. by rewrite lookup_insert_eq in Hn. Qed.

Lemma lookup_shut_ne fd fd' s k : fd' <> fd -> socks (shut fd s k) !! fd' = socks k !! fd'.
Proof. intros Hn. cbn. by apply lookup_delete_ne. Qed.

(** Sockets opened one after the other and shut in the same order. *)
Lemma shut_shut_put fd1 fd2 s1 s2 s3 s4 k :
  socks k !! fd1 = None -> socks (put fd1 s1 k) !! fd2 = None ->
  socks (shut fd2 s3 (shut fd1 s4 (put fd2 s2 (put fd1 s1 k)))) = socks k.
Proof.
  intros H1 H2. pose proof (fresh_ne _ _ _ _ H2). cbn in *. rewrite lookup_insert_ne in H2 by done.
  by rewrite delete_insert_ne, delete_insert_eq, delete_insert_eq, (delete_id (socks k) fd1), delete_id by done.
Qed.

(** ** The sockets opened since a state [k] *)
Section owns.
Context (k : Net).

Definition owns (l : list Z) (k' : Net) : Prop :=
  NoDup l /\ (forall fd, fd ∈ l -> socks k !! fd = None /\ is_Some (socks k' !! fd)) /\
  forall fd, (fd ∉ l) -> socks k' !! fd = socks k !! fd.

Lemma owns_nil k' : socks k' = socks k -> owns [] k'.
Proof. intros E. split; [apply NoDup_nil_2|]. split; [set_solver|]. intros. by rewrite E. Qed.

Lemma owns_none k' : owns [] k' -> socks k' = socks k.
Proof. intros (_ & _ & H). apply map_eq. intros x. apply H. set_solver. Qed.

Lemma owns_ext l k1 k2 : socks k2 = socks k1 -> owns l k1 -> owns l k2.
Proof. unfold owns. by intros ->. Qed.

Lemma owns_perm l l' k' : l ≡ₚ l' -> owns l k' -> owns l' k'.
Proof. intros E (H1 & H2 & H3). split; [by rewrite <- E|]. split; intros fd Hfd; rewrite <- E in Hfd; auto. Qed.

Lemma owns_new l fd s k' : owns l k' -> socks k' !! fd = None -> owns (l ++ [fd]) (put fd s k').
Proof.
  intros (H1 & H2 & H3) Hn. assert (fd ∉ l) as Hl by (intros [_ [? ?]]%H2; congruence). split; [|split].
  - apply NoDup_app. split; [done|]. split; [set_solver|]. apply NoDup_singleton.
  - intros x [Hx| ->%list_elem_of_singleton]%elem_of_app; cbn.
    + rewrite lookup_insert_ne by set_solver. auto.
    + rewrite lookup_insert_eq, <- H3 by done. eauto.
  - intros x Hx. cbn. rewrite lookup_insert_ne by set_solver. apply H3. set_solver.
Qed.

Lemma owns_update l fd s k' : owns l k' -> fd ∈ l -> owns l (put fd s k').
Proof.
  intros (H1 & H2 & H3) Hl. split; [done|]. split; intros x Hx; cbn.
  - split; [by apply H2|]. destruct (decide (fd = x)) as [->|Hne]; [rewrite lookup_insert_eq; eauto|].
    rewrite lookup_insert_ne by done. by apply H2.
  - rewrite lookup_insert_ne by set_solver. by apply H3.
Qed.

Lemma owns_shut fd l s k' : owns (fd :: l) k' -> owns l (shut fd s k').
Proof.
  intros (H1 & H2 & H3). apply NoDup_cons in H1 as [H0 H1]. split; [done|]. split; intros x Hx; cbn.
  - rewrite lookup_delete_ne by set_solver. apply H2. set_solver.
  - destruct (decide (x = fd)) as [->|Hne]; [rewrite lookup_delete_eq; symmetry; apply H2; set_solver|].
    rewrite lookup_delete_ne by done. apply H3. set_solver.
Qed.

Lemma owns_lookup fd l k' : owns l k' -> fd ∈ l -> exists s, socks k' !! fd = Some s.
Proof. intros (_ & H & _) Hl. by apply H. Qed.

End owns.

Lemma ports_spec p k : p ∈ ports k <-> exists fd s a, socks k !! fd = Some s /\ local s = Some a /\ sin_port a = p.
Proof.
  unfold ports. rewrite list_elem_of_omap. split.
  - intros ([fd s] & Hin%elem_of_map_to_list & H). cbn in H. destruct (local s) as [a|] eqn:E; [|done].
    injection H as <-. by exists fd, s, a.
  - intros (fd & s & a & Hin & Hl & <-). exists (fd, s). cbn. rewrite Hl. split; [by apply elem_of_map_to_list|done].
Qed.

Lemma ports_put p fd s k : socks k !! fd = None -> p ∈ ports k -> p ∈ ports (put fd s k).
Proof.
  rewrite !ports_spec. intros Hn (x & s' & a & Hx & Hl & Hp). exists x, s', a. cbn. rewrite lookup_insert_ne; [done|].
  intros ->. congruence.
Qed.

(** ** Automation *)

(** What the descriptor at hand refers to. *)
Ltac sock_lookup :=
  first [ eassumption | apply lookup_put
        | rewrite lookup_put_ne; [sock_lookup | eassumption | eexists; sock_lookup]
        | rewrite lookup_shut_ne; [sock_lookup | by eapply fresh_ne] ].

(** Whether an address is in use, with the hypotheses about the state before. *)
Ltac sock_in_use :=
  repeat match goal with
  | |- context [in_use _ (put _ _ _)] => rewrite in_use_put by assumption
  | |- context [in_use ?a (shut ?fd ?s (put ?fd ?s' ?k))] =>
      rewrite (in_use_ext a k (shut fd s (put fd s' k))) by (by apply shut_put)
  end; cbn [blocks local new_sock]; repeat match goal with H : in_use _ _ = _ |- _ => rewrite H
  | H : forall a, in_use _ _ = _ |- _ => rewrite H end; try reflexivity.

(** One call. *)
Ltac wp_step :=
  lazymatch goal with
  | |- wp _ (socket _ _ _ ≫= _) _ _ => apply wp_socket; let fd := fresh "fd" in intros fd ? ?
  | |- wp _ (close _ ≫= _) _ _ => eapply wp_close; [sock_lookup|]
  | |- wp _ (expect _ ≫= _) _ _ => apply wp_expect; [first [reflexivity | assumption | apply negb_true_iff, Z.eqb_neq; lia | idtac]|]
  | |- wp _ (listen _ _ ≫= _) _ _ => eapply wp_listen; [sock_lookup | reflexivity|]
  | |- wp _ (getsockname _ _ _ ≫= _) _ _ => eapply wp_getsockname; [sock_lookup | reflexivity|]
  | |- wp _ (getpeername _ _ _ ≫= _) _ _ => eapply wp_getpeername; [sock_lookup | reflexivity|]
  | |- wp _ (usleep _ ≫= _) _ _ => apply wp_usleep
  | |- wp _ (gettimeofday ≫= _) _ _ => apply wp_gettimeofday
  | |- wp _ (env_int _ _ ≫= _) _ _ => eapply wp_checked; [eassumption|]
  | |- wp _ (env_long _ _ ≫= _) _ _ => eapply wp_checked; [eassumption|]
  | |- wp _ (env_addr _ _ ≫= _) _ _ => eapply wp_checked; [eassumption|]
  | |- wp _ (checked _ ≫= _) _ _ => eapply wp_checked; [first [eassumption | reflexivity]|]
  | |- wp _ (bind _ _ _ ≫= _) _ _ => eapply wp_bind_free; [sock_lookup | reflexivity | sock_in_use|]; rewrite put_put; cbn [peer inbox outbox new_sock]
  | |- wp _ (mret _) _ _ => apply wp_ret
  end.

(** One call of a hypothesis. *)
Ltac wp_inv H :=
  lazymatch type of H with
  | wp _ (socket _ _ _ ≫= _) _ _ =>
      let fd := fresh "fd" in apply wp_socket_inv in H as (fd & ? & ? & H)
  | wp _ (expect _ ≫= _) _ _ => apply wp_expect_inv in H as [? H]
  | wp _ (usleep _ ≫= _) _ _ => apply wp_usleep_inv in H
  | wp _ (listen _ _ ≫= _) _ _ => eapply wp_listen_inv in H; [|sock_lookup|reflexivity]
  | wp _ (getsockname _ _ _ ≫= _) _ _ => eapply wp_getsockname_inv in H; [|sock_lookup|reflexivity]
  | wp _ (getpeername _ _ _ ≫= _) _ _ => eapply wp_getpeername_inv in H; [|sock_lookup|reflexivity]
  | wp _ (bind _ _ _ ≫= _) _ _ =>
      eapply wp_bind_free_inv in H; [|sock_lookup|reflexivity|sock_in_use]; rewrite put_put in H; cbn [peer inbox outbox new_sock] in H
  | wp _ (env_int _ _ ≫= _) _ _ => eapply wp_checked_inv in H; [|eassumption]
  | wp _ (env_long _ _ ≫= _) _ _ => eapply wp_checked_inv in H; [|eassumption]
  | wp _ (env_addr _ _ ≫= _) _ _ => eapply wp_checked_inv in H; [|eassumption]
  end.

End SocketLayer.
