(* ===== verification/TestBench.v ===== *)
(** * TestBench: what the bodies of the tests under app/kens work with

    A test body adds applications to the hosts its fixture has built and
    launches them; the applications are data here (their class and the
    environment they are constructed with), so that the body of a test can be
    evaluated and its applications looked at.  The networks of the
    fixtures are in [TestEnv].

    Models the parts of app/kens/testenv.hpp that are not networks: [setup_env],
    the names of the fixtures and the log level. *)

From S2P Require Import Prelude Packet RoutingInfo TimeUtil RandomDistribution System ModuleBase HostApi Ethernet.
From S2P Require Import Host Assignments Network TestEnv TestProg.
Import TimeUtil System.
Local Open Scope Z_scope.

Module TestBench.

(** ** Fixtures *)

Definition RANDOM_SEED_DEFAULT : Z := 1614233283.

(** The macros RUN_SOLUTION and UNRELIABLE the tests are built with. *)
Record Build := mkBuild {
  RUN_SOLUTION : bool;
  UNRELIABLE : bool;
}.

(** [setup_env]: the seed handed to [srand], from the environment variable
    RANDOM_SEED when it is set, and the properties it records. *)
Definition setup_env (build : Build) (random_seed : option string) : Res (Z * list (string * Z)) :=
  seed ← match random_seed with
         | Some s => Echo.atoi s
         | None => Ok RANDOM_SEED_DEFAULT
         end;
  Ok (seed, [("random_seed", seed); ("run_solution", Z.b2z (RUN_SOLUTION build));
             ("unreliable", Z.b2z (UNRELIABLE build))]%string).

Inductive Fixture :=
| TestEnv_Reliable
| TestEnv_Any
| TestEnv_Unreliable
| TestEnv_Congestion0
| TestEnv_Congestion1
| TestEnv_Congestion2.

(** The class templates and their arguments. *)
Inductive ProviderClass := TCPAssignmentProvider | TCPSolutionProvider.
Inductive Template :=
| TestEnv1 (target : ProviderClass)
| TestEnv2 (target adversary : ProviderClass) (unreliable : bool)
| TestEnv3 (target adversary : ProviderClass) (clients : nat) (timeout : Z).

(** The [typedef]s. *)
Definition template (build : Build) (f : Fixture) : Template :=
  let target := if RUN_SOLUTION build then TCPSolutionProvider else TCPAssignmentProvider in
  match f with
  | TestEnv_Reliable => TestEnv1 target
  | TestEnv_Any => TestEnv2 target TCPSolutionProvider (UNRELIABLE build)
  | TestEnv_Unreliable => TestEnv2 target TCPSolutionProvider true
  | TestEnv_Congestion0 => TestEnv3 target TCPSolutionProvider 1 1000
  | TestEnv_Congestion1 => TestEnv3 target TCPSolutionProvider 2 1000
  | TestEnv_Congestion2 => TestEnv3 target TCPSolutionProvider 8 1000
  end.

(** [num_client]: [CLIENTS] of the congestion fixtures. *)
Definition num_client (f : Fixture) : nat :=
  match template (mkBuild false false) f with TestEnv3 _ _ clients _ => clients | _ => 0 end.

(** [TestEnv3] saves the default log level, adds no level to it, and restores
    it in [TearDown]. *)
Definition SetUp_level (defaultLevel : Z) : Z * Z := (defaultLevel, Z.lor defaultLevel 0).
Definition TearDown_level (prev_log : Z) : Z := prev_log.

Lemma level_restored l : SetUp_level l = (l, l) /\ TearDown_level (fst (SetUp_level l)) = l.
Proof. unfold SetUp_level, TearDown_level. by rewrite Z.lor_0_r. Qed.

(** *** The networks of the fixtures *)
Section networks.
Context {RE : RandomEngine} {X : Type} {EX : ExternalModule X} {US : UnorderedSet Z} {UM : UnorderedMap}.
Abbreviation Sys := (System (Network.NetMod (Obj := HostObject X)) Message Z Env).

(** [solution] is the provider of the compiled library. *)
Definition provider (solution : TestEnv.Provider (X := X)) (p : ProviderClass) : TestEnv.Provider (X := X) :=
  match p with TCPAssignmentProvider => TestEnv.TCPAssignmentProvider | TCPSolutionProvider => solution end.

Definition build_network (seed1 seed2 : Z) (solution : TestEnv.Provider (X := X)) (t : Template) (s : Sys)
  : Res (TestEnv.TwoHosts (X := X) + TestEnv.Congestion (X := X)) :=
  match t with
  | TestEnv1 target => e ← TestEnv.TestEnv1 seed1 seed2 (provider solution target) solution s; Ok (inl e)
  | TestEnv2 target adversary unreliable =>
      e ← TestEnv.TestEnv2 seed1 seed2 unreliable (provider solution target) (provider solution adversary) s; Ok (inl e)
  | TestEnv3 target adversary clients _ =>
      e ← TestEnv.TestEnv3 seed1 seed2 clients (provider solution target) (provider solution adversary) s; Ok (inr e)
  end.

End networks.

Inductive HostRef :=
| host1
| host2
| server_host
| client_hosts (k : nat).

#[global] Instance HostRef_eq_dec : EqDecision HostRef.
Proof. solve_decision. Defined.

(** The addresses the fixtures give to the hosts. *)
Definition interfaces (h : HostRef) : list (list Z) :=
  match h with
  | host1 => [TestEnv.ip1; TestEnv.ip1_2]
  | host2 => [TestEnv.ip2; TestEnv.ip2_2]
  | server_host => [TestEnv.server_ip]
  | client_hosts k => [[10; 0; 1; wrap 8 (10 + Z.of_nat k)]]
  end.

(** [getIPAddr(port).value()]. *)
Definition getIPAddr (h : HostRef) (port : nat) : Res (list Z) := of_option BadOptionalAccess (interfaces h !! port).

(** ** The state of a body *)
Section bench.
Context {A : Type}.

(** [added]: in the order of [addApplication]; [launched]: in the order of
    [launchApplication]. *)
Record Bench := mkBench {
  fixture : Fixture;
  added : list (HostRef * A);
  launched : list (HostRef * A);
}.

Definition applications (h : HostRef) (b : Bench) : list A :=
  snd <$> filter (fun x => fst x = h) (added b).

(** Process identifiers count from zero on each host. *)
Definition addApplication (h : HostRef) (app : A) (b : Bench) : Res (Bench * nat) :=
  Ok (mkBench (fixture b) (added b ++ [(h, app)]) (launched b), length (applications h b)).

Definition launchApplication (h : HostRef) (pid : nat) (b : Bench) : Res Bench :=
  app ← of_option (AssertFailed "Host::launchApplication") (applications h b !! pid);
  Ok (mkBench (fixture b) (added b) (launched b ++ [(h, app)])).

(** A body, with the fixture of its [TEST_F]. *)
Definition start (f : Fixture) : Bench := mkBench f [] [].

End bench.
Arguments Bench : clear implicits.

(** ** Environments *)

(** A sequence of [env["key"] = value]. *)
Definition assign (kvs : list (string * string)) (env : Environment) : Environment :=
  foldl (fun env '(key, v) => <[key := v]> env) env kvs.

(** [TimeUtil::printTime(TimeUtil::makeTime(n, unit), TimeUtil::USEC)]. *)
Definition usec (n : Z) (unit : TimeUnit) : string := printTime (makeTime n unit) USEC.

(** A signed [long] that must not overflow. *)
Definition as_long (v : Z) : Res Z :=
  if (- 2 ^ 63 <=? v) && (v <? 2 ^ 63) then Ok v else Err Indeterminate.

Lemma as_long_ok v : - 2 ^ 63 <= v < 2 ^ 63 -> as_long v = Ok v.
Proof.
  intros H. unfold as_long. by replace ((- 2 ^ 63 <=? v) && (v <? 2 ^ 63))%bool with true
    by (symmetry; apply andb_true_intro; split; [apply Z.leb_le | apply Z.ltb_lt]; lia).
Qed.

End TestBench.

(** ** The addresses of the networks are those of [interfaces] *)
Module BenchExample.
Import TestBench.

#[local] Instance low_engine : RandomEngine := {|
  engine := unit;
  engine_seed _ := tt;
  uniform_real a _ g := (a, g);
  libm_exp x := x;
  libm_log x := x;
|}.
#[local] Instance unordered : UnorderedSet Z := {| bucket_pos _ _ := 0%nat |}.
#[local] Instance unordered_map : UnorderedMap.
Proof. refine {| map_order m := elements (dom m) |}. done. Defined.

Abbreviation ESys := (System (Network.NetMod (Obj := HostObject Empty_set)) Message Z Env).

(** The addresses of a host's ports. *)
Definition addresses (id : Z) (s : ESys) : list (option (list Z)) :=
  match registeredModule s !! id with
  | Some (Network.NHost h) =>
      (fun p => RoutingInfo.getIPAddr (Z.of_nat p) (Host.routing h)) <$> seq 0 (length (Host.ports h))
  | _ => []
  end.

Definition agrees (s : ESys) (r : HostRef * Z) : bool := bool_decide (addresses (snd r) s = Some <$> interfaces (fst r)).

Definition hosts_agree (f : Fixture) : bool :=
  match build_network 0 0 TestEnv.TCPAssignmentProvider (template (mkBuild false false) f)
          (System_init initial_env) with
  | Ok (inl e) => forallb (agrees (TestEnv.env_sys e)) [(host1, TestEnv.host1 e); (host2, TestEnv.host2 e)]
  | Ok (inr e) =>
      bool_decide (length (TestEnv.client_hosts e) = num_client f) &&
      forallb (agrees (TestEnv.cong_sys e)) ((server_host, TestEnv.server_host e) ::
        imap (fun k id => (client_hosts k, id)) (TestEnv.client_hosts e))
  | Err _ => false
  end.

(** In every fixture the hosts have the addresses the test bodies read. *)
Lemma fixtures_have_interfaces :
  forallb hosts_agree [TestEnv_Reliable; TestEnv_Any; TestEnv_Unreliable; TestEnv_Congestion0; TestEnv_Congestion1;
                       TestEnv_Congestion2] = true.
Proof. vm_compute. reflexivity. Qed.

End BenchExample.
