(* ===== verification/TestBind.v ===== *)
(** * TestBind: the tests of [socket], [bind] and [close]

    Models app/kens/testopen.cpp and app/kens/testbind.cpp: the [E_Main] of
    every application class and the body of every test.

    The theorems show that what the tests expect is what the socket layer
    promises: every layer that answers as [SocketLayer.layer] allows passes
    them, whatever other sockets are open. *)

From ITree Require Import ITree.
From S2P Require Import Prelude Assignments TestProg SocketLayer TestBench.
Import SocketLayer TestBench.
Local Open Scope Z_scope.

(** ** app/kens/testopen.cpp *)
Module TestOpen.

Definition test_size : nat := 1024.
Definition test_repeat : nat := 128.

Record Counters := mkCounters {
  failed : Z;
  duplicated : Z;
  success : Z;
}.

(** The loop that opens [n] sockets; [fd_array] in the order of opening. *)
Fixpoint open_loop (n : nat) (c : Counters) (fd_array : list Z) : App (Counters * list Z) :=
  match n with
  | O => mret (c, fd_array)
  | S n =>
      fd ← socket AF_INET SOCK_STREAM IPPROTO_TCP;
      open_loop n
        (if fd <? 0 then mkCounters (wrap 64 (failed c + 1)) (duplicated c) (success c)
         else mkCounters (failed c) (duplicated c) (wrap 64 (success c + 1)))
        (fd_array ++ [fd])
  end.

(** The two nested loops over pairs [k < i]. *)
Fixpoint duplicate_loop (fd_array : list Z) (d : Z) : Z :=
  match fd_array with
  | [] => d
  | fd :: rest => duplicate_loop rest (foldl (fun d fd' => if fd =? fd' then wrap 64 (d + 1) else d) d rest)
  end.

Fixpoint close_loop (fd_array : list Z) : App unit :=
  match fd_array with
  | [] => mret tt
  | fd :: rest => _ ← close fd; close_loop rest
  end.

(** [for (int j = 0; j < test_repeat; j++)]. *)
Fixpoint repeat_loop (j : nat) (c : Counters) : App Counters :=
  match j with
  | O => mret c
  | S j =>
      '(c, fd_array) ← open_loop test_size c [];
      let c := mkCounters (failed c) (duplicate_loop fd_array (duplicated c)) (success c) in
      _ ← close_loop fd_array;
      repeat_loop j c
  end.

Definition E_Main : App Z :=
  c ← repeat_loop test_repeat (mkCounters 0 0 0);
  _ ← expect (success c =? Z.of_nat test_size * Z.of_nat test_repeat);
  _ ← expect (failed c =? 0);
  _ ← expect (duplicated c =? 0);
  mret 0.

End TestOpen.

(** ** app/kens/testbind.cpp *)
Module TestBind.

Definition TestBind_Simple : App Z :=
  fd ← socket AF_INET SOCK_STREAM IPPROTO_TCP;
  let addr := inet (htonl INADDR_ANY) (htons 9999) in
  ret ← bind fd addr sizeof_addr;
  _ ← expect (ret =? 0);
  _ ← close fd;
  mret 0.

Definition TestBind_DoubleBind : App Z :=
  fd ← socket AF_INET SOCK_STREAM IPPROTO_TCP;
  let addr := inet (htonl INADDR_ANY) (htons 9999) in
  ret ← bind fd addr sizeof_addr;
  _ ← expect (ret =? 0);
  let addr := inet (htonl INADDR_ANY) (htons 10000) in
  ret ← bind fd addr sizeof_addr;
  _ ← expect (negb (ret =? 0));
  _ ← close fd;
  mret 0.

(** [addr2] points to twice the size of an address, cleared; [memcmp]
    compares its first half with [addr]. *)
Definition TestBind_GetSockName : App Z :=
  fd ← socket AF_INET SOCK_STREAM IPPROTO_TCP;
  let addr := inet (htonl INADDR_ANY) (htons 9999) in
  ret ← bind fd addr sizeof_addr;
  _ ← expect (ret =? 0);
  '(ret, addr2, _) ← getsockname fd zero_addr (sizeof_addr * 2);
  _ ← expect (ret =? 0);
  _ ← expect (bool_decide (addr = addr2));
  _ ← close fd;
  mret 0.

Definition TestBind_OverlapPort : App Z :=
  fd1 ← socket AF_INET SOCK_STREAM IPPROTO_TCP;
  let addr := inet (htonl INADDR_ANY) (htons 9999) in
  ret ← bind fd1 addr sizeof_addr;
  _ ← expect (ret =? 0);
  fd2 ← socket AF_INET SOCK_STREAM IPPROTO_TCP;
  ip ← checked (inet_addr "192.168.0.7");
  let addr := inet ip (htons 9999) in
  ret ← bind fd2 addr sizeof_addr;
  _ ← expect (negb (ret =? 0));
  _ ← close fd1;
  _ ← close fd2;
  mret 0.

Definition TestBind_OverlapClosed : App Z :=
  fd1 ← socket AF_INET SOCK_STREAM IPPROTO_TCP;
  let addr := inet (htonl INADDR_ANY) (htons 9999) in
  ret ← bind fd1 addr sizeof_addr;
  _ ← expect (ret =? 0);
  _ ← close fd1;
  fd2 ← socket AF_INET SOCK_STREAM IPPROTO_TCP;
  ip ← checked (inet_addr "192.168.0.7");
  let addr := inet ip (htons 9999) in
  ret ← bind fd2 addr sizeof_addr;
  _ ← expect (ret =? 0);
  _ ← close fd2;
  mret 0.

Definition TestBind_DifferentIP_SamePort : App Z :=
  fd1 ← socket AF_INET SOCK_STREAM IPPROTO_TCP;
  ip ← checked (inet_addr "192.168.0.7");
  let addr := inet ip (htons 9999) in
  ret ← bind fd1 addr sizeof_addr;
  _ ← expect (ret =? 0);
  fd2 ← socket AF_INET SOCK_STREAM IPPROTO_TCP;
  ip ← checked (inet_addr "192.168.0.8");
  let addr := inet ip (htons 9999) in
  ret ← bind fd2 addr sizeof_addr;
  _ ← expect (ret =? 0);
  _ ← close fd1;
  _ ← close fd2;
  mret 0.

Definition TestBind_SameIP_DifferentPort : App Z :=
  fd1 ← socket AF_INET SOCK_STREAM IPPROTO_TCP;
  ip ← checked (inet_addr "192.168.0.7");
  let addr := inet ip (htons 9999) in
  ret ← bind fd1 addr sizeof_addr;
  _ ← expect (ret =? 0);
  fd2 ← socket AF_INET SOCK_STREAM IPPROTO_TCP;
  ip ← checked (inet_addr "192.168.0.7");
  let addr := inet ip (htons 10000) in
  ret ← bind fd2 addr sizeof_addr;
  _ ← expect (ret =? 0);
  _ ← close fd1;
  _ ← close fd2;
  mret 0.

Create HintDb tests.
#[local] Hint Unfold TestBind_Simple TestBind_DoubleBind TestBind_GetSockName TestBind_OverlapPort
  TestBind_OverlapClosed TestBind_DifferentIP_SamePort TestBind_SameIP_DifferentPort : tests.

(** *** The tests *)

(** The applications of the two files. *)
Inductive Class :=
| Open
| Simple
| DoubleBind
| GetSockName
| OverlapPort
| OverlapClosed
| DifferentIP_SamePort
| SameIP_DifferentPort.

#[global] Instance Class_eq_dec : EqDecision Class.
Proof. solve_decision. Defined.

Definition main (c : Class) : App Z :=
  match c with
  | Open => TestOpen.E_Main
  | Simple => TestBind_Simple
  | DoubleBind => TestBind_DoubleBind
  | GetSockName => TestBind_GetSockName
  | OverlapPort => TestBind_OverlapPort
  | OverlapClosed => TestBind_OverlapClosed
  | DifferentIP_SamePort => TestBind_DifferentIP_SamePort
  | SameIP_DifferentPort => TestBind_SameIP_DifferentPort
  end.

(** The body all these tests share: one application on the first host. *)
Definition run_on_host1 (c : Class) : Res (Bench Class) :=
  '(b, pid) ← addApplication host1 c (start TestEnv_Reliable);
  launchApplication host1 pid b.

Definition test_TestOpen : Res (Bench Class) := run_on_host1 Open.
Definition test_TestBind_Simple : Res (Bench Class) := run_on_host1 Simple.
Definition test_TestBind_DoubleBind : Res (Bench Class) := run_on_host1 DoubleBind.
Definition test_TestBind_GetSockName : Res (Bench Class) := run_on_host1 GetSockName.
Definition test_TestBind_OverlapPort : Res (Bench Class) := run_on_host1 OverlapPort.
Definition test_TestBind_OverlapClosed : Res (Bench Class) := run_on_host1 OverlapClosed.
Definition test_TestBind_DifferentIP_SamePort : Res (Bench Class) := run_on_host1 DifferentIP_SamePort.
Definition test_TestBind_SameIP_DifferentPort : Res (Bench Class) := run_on_host1 SameIP_DifferentPort.

Definition tests : list (Res (Bench Class)) :=
  [test_TestOpen; test_TestBind_Simple; test_TestBind_DoubleBind; test_TestBind_GetSockName;
   test_TestBind_OverlapPort; test_TestBind_OverlapClosed; test_TestBind_DifferentIP_SamePort;
   test_TestBind_SameIP_DifferentPort].

(** ** Correctness *)
Section correctness.
Context (eof : Z) (k : Net).
Abbreviation wp := (wp (layer eof)).

(** The ports of the tests are not in use. *)
Definition ports_free : Prop :=
  forall addr, sin_port addr ∈ [htons 9999; htons 10000] -> in_use addr k = false.

(** The application returns zero and leaves the sockets as they were. *)
Definition leaves_as_was (r : Z) (k' : Net) : Prop := r = 0 /\ socks k' = socks k.

Lemma bind_tests_ok c : c <> Open -> ports_free -> wp (main c) leaves_as_was k.
Proof.
  intros Hc Hfree.
  assert (forall a, in_use (inet a (htons 9999)) k = false) as F1 by (intros a; apply Hfree; cbn; set_solver).
  assert (forall a, in_use (inet a (htons 10000)) k = false) as F2 by (intros a; apply Hfree; cbn; set_solver).
  destruct c; [done|..]; cbn [main]; autounfold with tests; cbv zeta.
  - repeat wp_step. split; [done|]. by apply shut_put.
  - do 3 wp_step. eapply wp_bind_busy; [sock_lookup|by left|]. intros r Hr. repeat wp_step. split; [done|]. by apply shut_put.
  - repeat wp_step. split; [done|]. by apply shut_put.
  - do 5 wp_step. eapply wp_bind_busy; [sock_lookup|right; sock_in_use|]. intros r Hr. repeat wp_step.
    split; [done|]. by apply shut_shut_put.
  - repeat wp_step. split; [done|]. by rewrite !shut_put.
  - repeat wp_step. split; [done|]. by apply shut_shut_put.
  - repeat wp_step. split; [done|]. by apply shut_shut_put.
Qed.

(** *** Opening many sockets *)

Import TestOpen.

(** [n] sockets were opened on top of the state [k0]. *)
Definition opened (fds : list Z) (k0 : Net) : Net := set_socks (foldr (fun fd m => <[fd := new_sock]> m) (socks k0) (reverse fds)) k0.

Lemma opened_snoc fds fd k0 : put fd new_sock (opened fds k0) = opened (fds ++ [fd]) k0.
Proof. unfold opened, put, set_socks. cbn. by rewrite reverse_app. Qed.

Lemma opened_lookup fds k0 fd : socks (opened fds k0) !! fd = None <-> (fd ∉ fds) /\ socks k0 !! fd = None.
Proof.
  induction fds as [|x fds IH] using rev_ind; [cbn; set_solver|]. rewrite <- opened_snoc. cbn [put set_socks socks].
  rewrite lookup_insert_None, IH. set_solver.
Qed.

Lemma open_loop_ok n c fds k0 (Q : Counters * list Z -> Net -> Prop) :
  NoDup fds -> (forall fd, fd ∈ fds -> socks k0 !! fd = None) ->
  0 <= success c -> success c + Z.of_nat n < 2 ^ 64 ->
  (forall fds', NoDup fds' -> (forall fd, fd ∈ fds' -> socks k0 !! fd = None) ->
     Q (mkCounters (failed c) (duplicated c) (success c + Z.of_nat n), fds') (opened fds' k0)) ->
  wp (open_loop n c fds) Q (opened fds k0).
Proof.
  revert c fds. induction n as [|n IH]; intros c fds Hnd Hfr H0 Hlt Hf; cbn [open_loop].
  - apply wp_ret. replace (mkCounters _ _ _) with c in Hf by (destruct c; cbn; f_equal; lia). auto.
  - wp_step. rewrite opened_snoc. replace (fd <? 0) with false by (symmetry; apply Z.ltb_ge; lia).
    apply opened_lookup in H1 as [Hni Hn].
    apply IH; cbn [success failed duplicated]; rewrite ?(wrap_small 64) by (unfold is_u; lia).
    + apply NoDup_app. split; [done|]. split; [set_solver|]. apply NoDup_singleton.
    + intros x [Hx| ->%list_elem_of_singleton]%elem_of_app; auto.
    + lia.
    + lia.
    + replace (success c + 1 + Z.of_nat n) with (success c + Z.of_nat (S n)) by lia. done.
Qed.

Lemma duplicate_loop_none fds d : NoDup fds -> duplicate_loop fds d = d.
Proof.
  induction 1 as [|x l Hni Hnd IH]; [done|]. cbn [duplicate_loop].
  replace (foldl _ d l) with d; [done|]. clear IH Hnd. induction l as [|y l IH]; [done|]. cbn.
  rewrite (proj2 (Z.eqb_neq x y)) by set_solver. apply IH. set_solver.
Qed.

Lemma close_loop_ok fds k1 (Q : unit -> Net -> Prop) :
  NoDup fds -> (forall fd, fd ∈ fds -> is_Some (socks k1 !! fd)) ->
  (forall k', socks k' = foldr delete (socks k1) fds -> Q tt k') -> wp (close_loop fds) Q k1.
Proof.
  intros Hnd. revert k1. induction Hnd as [|x l Hni Hnd IH]; intros k1 Hin Hq; cbn [close_loop]; [apply wp_ret; auto|].
  destruct (Hin x) as [s Hs]; [set_solver|]. eapply wp_close; [exact Hs|]. apply IH.
  - intros fd Hfd. rewrite lookup_shut_ne by set_solver. apply Hin. set_solver.
  - intros k' E. apply Hq. rewrite E. cbn. clear. induction l as [|y l IH]; [done|]. cbn. rewrite IH. apply delete_delete.
Qed.

Lemma opened_closed fds k0 :
  NoDup fds -> (forall fd, fd ∈ fds -> socks k0 !! fd = None) -> foldr delete (socks (opened fds k0)) fds = socks k0.
Proof.
  intros _ Hfr. apply map_eq. intros x. destruct (decide (x ∈ fds)) as [Hx|Hx].
  - rewrite lookup_foldr_delete by done. by rewrite Hfr.
  - rewrite lookup_foldr_delete_not_elem_of by done.
    induction fds as [|y fds IH] using rev_ind; [done|]. rewrite <- opened_snoc. cbn [put set_socks socks].
    rewrite lookup_insert_ne by set_solver. apply IH; set_solver.
Qed.

Lemma repeat_loop_ok j c k1 (Q : Counters -> Net -> Prop) :
  socks k1 = socks k -> 0 <= success c -> success c + Z.of_nat j * Z.of_nat test_size < 2 ^ 64 ->
  (forall k', socks k' = socks k ->
     Q (mkCounters (failed c) (duplicated c) (success c + Z.of_nat j * Z.of_nat test_size)) k') ->
  wp (repeat_loop j c) Q k1.
Proof.
  revert c k1. induction j as [|j IH]; intros c k1 Hk H0 Hlt Hq; cbn [repeat_loop].
  - apply wp_ret. replace (mkCounters _ _ _) with c in Hq by (destruct c; cbn; f_equal; lia). auto.
  - apply TestProg.wp_bind. replace k1 with (opened [] k1) by by destruct k1.
    apply open_loop_ok; [apply NoDup_nil_2|set_solver|done|lia|]. intros fds Hnd Hfr. cbn [duplicated success failed].
    rewrite duplicate_loop_none by done. apply TestProg.wp_bind, close_loop_ok; [done| |].
    + intros fd Hfd. apply not_eq_None_Some. rewrite opened_lookup. set_solver.
    + intros k' Ek. rewrite opened_closed in Ek by done.
      apply IH; [congruence|cbn; lia|cbn [success]; lia|]. intros k'' E''. cbn [success failed duplicated].
      replace (success c + _ + _) with (success c + Z.of_nat (S j) * Z.of_nat test_size) by lia. auto.
Qed.

Lemma test_open_ok : wp (main Open) leaves_as_was k.
Proof.
  cbn [main]. unfold E_Main. apply TestProg.wp_bind.
  apply repeat_loop_ok; [done|done|vm_compute; reflexivity|]. intros k' Ek. cbn [success failed duplicated].
  repeat wp_step. done.
Qed.

End correctness.


End TestBind.

Module BindExample.
Import TestBind.

(** A layer with no socket open. *)
Definition idle : Net := mkNet ∅ 0 0 [] [] [].


(** The same tests, run on [serve]. *)
Lemma bind_test_runs : run_with (serve 0 0) 100 TestBind_OverlapClosed idle =
  Some (0, mkNet ∅ 0 0 [] [] [mkSock (Some (inet 117483712 3879)) None [] []; mkSock (Some (inet 0 3879)) None [] []]).
Proof. vm_compute. reflexivity. Qed.

End BindExample.
