(* ===== verification/TestHandshake.v ===== *)
(** * TestHandshake: the tests of [listen], [accept] and [connect]

    Models app/kens/testhandshake.cpp: the three application classes and the
    nine tests.  The applications read their parameters from an environment of
    strings that the body of the test fills in.

    The theorems say when the applications' expectations hold on the socket
    layer of [SocketLayer]: exactly when the expected number of connections is
    established, and that the numbers the tests expect at the two ends agree. *)

From ITree Require Import ITree.
From S2P Require Import Prelude TimeUtil Assignments TestEnv TestProg SocketLayer TestBench TCPApplication.
Import TimeUtil SocketLayer TestBench.
Import TCPApplication(to_int, to_int_small).
Local Open Scope Z_scope.

(** ** Loops the applications share *)
Module SocketList.

(** Every descriptor occurs once. *)
Fixpoint expect_once (all : list Z) (fds : list Z) : App unit :=
  match fds with
  | [] => mret tt
  | fd :: rest =>
      let same_count := Z.of_nat (length (filter (fun fd2 => fd = fd2) all)) in
      _ ← expect (same_count =? 1);
      expect_once all rest
  end.

Fixpoint close_all (fds : list Z) : App unit :=
  match fds with
  | [] => mret tt
  | fd :: rest => _ ← close fd; close_all rest
  end.

(** *** What they do to sockets the application owns *)
Section correctness.
Context (eof : Z) (k : Net).

Lemma filter_once (x : Z) l : NoDup l -> x ∈ l -> length (filter (fun y => x = y) l) = 1%nat.
Proof.
  induction 1 as [|y l Hni Hnd IH]; [by intros ?%not_elem_of_nil|]. intros [<-|Hin]%elem_of_cons.
  - rewrite filter_cons_True by done. cbn. f_equal. apply length_zero_iff_nil.
    destruct (filter _ l) as [|z zs] eqn:E; [done|].
    assert (z ∈ filter (fun y => x = y) l) as [-> ?]%list_elem_of_filter by (rewrite E; set_solver). done.
  - rewrite filter_cons_False by (intros ->; done). auto.
Qed.

Lemma expect_once_ok all fds k1 (Q : unit -> Net -> Prop) :
  NoDup all -> fds ⊆ all -> Q tt k1 -> wp (layer eof) (expect_once all fds) Q k1.
Proof.
  intros Hnd. induction fds as [|fd fds IH]; intros Hs Hq; cbn [expect_once]; [by apply wp_ret|].
  wp_step; [|apply IH; set_solver]. rewrite filter_once by set_solver. done.
Qed.

Lemma close_all_ok fds rest k1 (Q : unit -> Net -> Prop) :
  owns k (fds ++ rest) k1 ->
  (forall k', owns k rest k' -> (forall fd, fd ∈ rest -> socks k' !! fd = socks k1 !! fd) -> clock k' = clock k1 -> Q tt k') ->
  wp (layer eof) (close_all fds) Q k1.
Proof.
  revert k1. induction fds as [|fd fds IH]; intros k1 Ho Hq; cbn [close_all]; [apply wp_ret; by apply Hq|].
  destruct (owns_lookup k fd _ _ Ho) as [s Hs]; [set_solver|]. eapply wp_close; [exact Hs|].
  eapply IH; [by apply owns_shut|]. intros k' Ho' Hr Hc. apply Hq; [done| |done].
  intros x Hx. rewrite Hr by done. apply lookup_shut_ne. destruct Ho as [Hnd _]. apply NoDup_cons in Hnd. set_solver.
Qed.

End correctness.

End SocketList.
Import SocketList.

Module TestHandshake.
Section programs.

(** What an uninitialised [sockaddr_in] holds. *)
Context (uninit : sockaddr_in).

(** ** TestHandshake_Accept *)

(** The loop over [accept]; [n] iterations are left. *)
Fixpoint accept_loop (n : nat) (server_socket : Z) (addr : sockaddr_in) (accept_period : Z) (client_sockets : list Z)
  : App (list Z) :=
  match n with
  | O => mret client_sockets
  | S n =>
      '(client_fd, client_addr, client_len) ← accept server_socket zero_addr sizeof_addr;
      client_sockets ←
        (if 0 <=? client_fd then
           _ ← expect (client_len =? sizeof_addr);
           _ ← expect (sin_family client_addr =? AF_INET);
           '(ret, temp_addr, temp_len) ← getsockname client_fd uninit sizeof_addr;
           _ ← expect (ret =? 0);
           _ ← expect ((s_addr addr =? 0) || (s_addr addr =? s_addr temp_addr));
           _ ← expect (sin_family addr =? sin_family temp_addr);
           _ ← expect (sin_port addr =? sin_port temp_addr);
           mret (client_sockets ++ [client_fd])
         else mret client_sockets);
      _ ← usleep accept_period;
      accept_loop n server_socket addr accept_period client_sockets
  end.

Definition TestHandshake_Accept (env : Environment) : App Z :=
  server_socket ← socket AF_INET SOCK_STREAM IPPROTO_TCP;
  ip ← env_addr env "LISTEN_ADDR";
  port ← env_int env "LISTEN_PORT";
  let addr := inet ip (htons port) in
  ret ← bind server_socket addr sizeof_addr;
  _ ← expect (ret =? 0);
  listen_time ← env_long env "LISTEN_TIME";
  _ ← usleep listen_time;
  backlog ← env_int env "BACKLOG";
  ret ← listen server_socket backlog;
  _ ← expect (ret =? 0);
  accept_time ← env_long env "ACCEPT_TIME";
  _ ← usleep accept_time;
  accept_count ← env_int env "ACCEPT_COUNT";
  expected_accept ← env_int env "EXPECT_ACCEPT";
  accept_period ← env_int env "ACCEPT_PERIOD";
  client_sockets ← accept_loop (Z.to_nat accept_count) server_socket addr accept_period [];
  _ ← expect (to_int (Z.of_nat (length client_sockets)) =? expected_accept);
  _ ← expect_once client_sockets client_sockets;
  _ ← close_all client_sockets;
  _ ← close server_socket;
  mret 0.

(** ** TestHandshake_Connect *)

(** [for (int other_port : client_ports)]. *)
Fixpoint expect_new_port (port : Z) (client_ports : list Z) : App unit :=
  match client_ports with
  | [] => mret tt
  | other_port :: rest => _ ← expect (negb (port =? other_port)); expect_new_port port rest
  end.

Fixpoint connect_loop (n : nat) (env : Environment) (connect_period : Z) (client_sockets client_ports : list Z)
  : App (list Z * list Z) :=
  match n with
  | O => mret (client_sockets, client_ports)
  | S n =>
      client_socket ← socket AF_INET SOCK_STREAM IPPROTO_TCP;
      ip ← env_addr env "CONNECT_ADDR";
      port ← env_int env "CONNECT_PORT";
      let addr := inet ip (htons port) in
      ret ← connect client_socket addr sizeof_addr;
      '(client_sockets, client_ports) ←
        (if ret =? 0 then
           '(ret, temp_addr, temp_len) ← getpeername client_socket uninit sizeof_addr;
           _ ← expect (ret =? 0);
           _ ← expect (s_addr addr =? s_addr temp_addr);
           _ ← expect (sin_family addr =? sin_family temp_addr);
           _ ← expect (sin_port addr =? sin_port temp_addr);
           '(ret, temp_addr, temp_len) ← getsockname client_socket temp_addr temp_len;
           _ ← expect (ret =? 0);
           _ ← expect_new_port (sin_port temp_addr) client_ports;
           mret (client_sockets ++ [client_socket], client_ports ++ [sin_port temp_addr])
         else mret (client_sockets, client_ports));
      _ ← usleep connect_period;
      connect_loop n env connect_period client_sockets client_ports
  end.

Definition TestHandshake_Connect (env : Environment) : App Z :=
  connect_count ← env_int env "CONNECT_COUNT";
  expected_connect ← env_int env "EXPECT_CONNECT";
  connect_period ← env_int env "CONNECT_PERIOD";
  connect_time ← env_long env "CONNECT_TIME";
  _ ← usleep connect_time;
  '(client_sockets, _) ← connect_loop (Z.to_nat connect_count) env connect_period [] [];
  _ ← expect (to_int (Z.of_nat (length client_sockets)) =? expected_connect);
  _ ← expect_once client_sockets client_sockets;
  _ ← close_all client_sockets;
  mret 0.

(** ** TestHandshake_SimultaneousConnect *)

Definition TestHandshake_SimultaneousConnect (env : Environment) : App Z :=
  connect_time ← env_long env "CONNECT_TIME";
  _ ← usleep connect_time;
  client_socket ← socket AF_INET SOCK_STREAM IPPROTO_TCP;
  ip ← env_addr env "BIND_ADDR";
  port ← env_int env "BIND_PORT";
  let bind_addr := inet ip (htons port) in
  ret ← bind client_socket bind_addr sizeof_addr;
  _ ← expect (ret =? 0);
  ip ← env_addr env "CONNECT_ADDR";
  port ← env_int env "CONNECT_PORT";
  let addr := inet ip (htons port) in
  ret ← connect client_socket addr sizeof_addr;
  _ ← expect (ret =? 0);
  '(ret, temp_addr, temp_len) ← getpeername client_socket uninit sizeof_addr;
  _ ← expect (ret =? 0);
  _ ← expect (s_addr addr =? s_addr temp_addr);
  _ ← expect (sin_family addr =? sin_family temp_addr);
  _ ← expect (sin_port addr =? sin_port temp_addr);
  '(ret, temp_addr, temp_len) ← getsockname client_socket temp_addr temp_len;
  _ ← expect (ret =? 0);
  _ ← expect (s_addr bind_addr =? s_addr temp_addr);
  _ ← expect (sin_family bind_addr =? sin_family temp_addr);
  _ ← expect (sin_port bind_addr =? sin_port temp_addr);
  _ ← close client_socket;
  mret 0.

End programs.

(** ** The tests *)

Inductive Class :=
| Accept (env : Environment)
| Connect (env : Environment)
| SimultaneousConnect (env : Environment).

Definition main (uninit : sockaddr_in) (c : Class) : App Z :=
  match c with
  | Accept env => TestHandshake_Accept uninit env
  | Connect env => TestHandshake_Connect uninit env
  | SimultaneousConnect env => TestHandshake_SimultaneousConnect uninit env
  end.

Definition TestAccept_Backlog1 : Res (Bench Class) :=
  ip1 ← getIPAddr host1 0;
  ip2 ← getIPAddr host2 0;
  let host1_ip := ip_string ip1 in
  let accept_env := assign
    [("LISTEN_ADDR", "0.0.0.0"); ("LISTEN_PORT", "9999"); ("BACKLOG", "3"); ("LISTEN_TIME", "0");
     ("ACCEPT_TIME", usec 1 SEC); ("ACCEPT_COUNT", "10"); ("EXPECT_ACCEPT", "3"); ("ACCEPT_PERIOD", "0")]%string ∅ in
  let connect_env := assign
    [("CONNECT_ADDR", host1_ip); ("CONNECT_PORT", "9999"); ("CONNECT_COUNT", "1"); ("EXPECT_CONNECT", "1");
     ("CONNECT_PERIOD", "0")]%string ∅ in
  '(b, server_pid) ← addApplication host1 (Accept accept_env) (start TestEnv_Reliable);
  let connect_env := assign [("CONNECT_TIME", usec 1 USEC)]%string connect_env in
  '(b, client1_pid) ← addApplication host2 (Connect connect_env) b;
  let connect_env := assign [("CONNECT_TIME", usec 2 USEC)]%string connect_env in
  '(b, client2_pid) ← addApplication host2 (Connect connect_env) b;
  let connect_env := assign [("CONNECT_TIME", usec 3 USEC)]%string connect_env in
  '(b, client3_pid) ← addApplication host2 (Connect connect_env) b;
  let connect_env := assign [("EXPECT_CONNECT", "0"); ("CONNECT_TIME", usec 4 USEC)]%string connect_env in
  '(b, client4_pid) ← addApplication host2 (Connect connect_env) b;
  let connect_env := assign [("CONNECT_TIME", usec 5 USEC)]%string connect_env in
  '(b, client5_pid) ← addApplication host2 (Connect connect_env) b;
  let connect_env := assign [("CONNECT_TIME", usec 6 USEC)]%string connect_env in
  '(b, client6_pid) ← addApplication host2 (Connect connect_env) b;
  b ← launchApplication host1 server_pid b;
  b ← launchApplication host2 client1_pid b;
  b ← launchApplication host2 client2_pid b;
  b ← launchApplication host2 client3_pid b;
  b ← launchApplication host2 client4_pid b;
  b ← launchApplication host2 client5_pid b;
  launchApplication host2 client6_pid b.

Definition TestAccept_Backlog2 : Res (Bench Class) :=
  ip1 ← getIPAddr host1 0;
  ip2 ← getIPAddr host2 0;
  let host1_ip := ip_string ip1 in
  let accept_env := assign
    [("LISTEN_ADDR", "0.0.0.0"); ("LISTEN_PORT", "9999"); ("BACKLOG", "1"); ("LISTEN_TIME", "0");
     ("ACCEPT_TIME", usec 1 SEC); ("ACCEPT_COUNT", "10"); ("EXPECT_ACCEPT", "6"); ("ACCEPT_PERIOD", "0")]%string ∅ in
  let connect_env := assign
    [("CONNECT_ADDR", host1_ip); ("CONNECT_PORT", "9999"); ("CONNECT_COUNT", "1"); ("EXPECT_CONNECT", "1");
     ("CONNECT_PERIOD", "0")]%string ∅ in
  '(b, server_pid) ← addApplication host1 (Accept accept_env) (start TestEnv_Reliable);
  let connect_env := assign [("CONNECT_TIME", usec 10 MSEC)]%string connect_env in
  '(b, client1_pid) ← addApplication host2 (Connect connect_env) b;
  let connect_env := assign [("CONNECT_TIME", usec 20 MSEC)]%string connect_env in
  '(b, client2_pid) ← addApplication host2 (Connect connect_env) b;
  let connect_env := assign [("CONNECT_TIME", usec 30 MSEC)]%string connect_env in
  '(b, client3_pid) ← addApplication host2 (Connect connect_env) b;
  let connect_env := assign [("CONNECT_TIME", usec 40 MSEC)]%string connect_env in
  '(b, client4_pid) ← addApplication host2 (Connect connect_env) b;
  let connect_env := assign [("CONNECT_TIME", usec 50 MSEC)]%string connect_env in
  '(b, client5_pid) ← addApplication host2 (Connect connect_env) b;
  let connect_env := assign [("CONNECT_TIME", usec 60 MSEC)]%string connect_env in
  '(b, client6_pid) ← addApplication host2 (Connect connect_env) b;
  b ← launchApplication host1 server_pid b;
  b ← launchApplication host2 client1_pid b;
  b ← launchApplication host2 client2_pid b;
  b ← launchApplication host2 client3_pid b;
  b ← launchApplication host2 client4_pid b;
  b ← launchApplication host2 client5_pid b;
  launchApplication host2 client6_pid b.

Definition TestAccept_BeforeAccept : Res (Bench Class) :=
  ip1 ← getIPAddr host1 0;
  ip2 ← getIPAddr host2 0;
  let host1_ip := ip_string ip1 in
  let accept_env := assign
    [("LISTEN_ADDR", "0.0.0.0"); ("LISTEN_PORT", "9999"); ("BACKLOG", "1"); ("LISTEN_TIME", "0");
     ("ACCEPT_TIME", usec 1 SEC); ("ACCEPT_COUNT", "1"); ("EXPECT_ACCEPT", "1"); ("ACCEPT_PERIOD", "0")]%string ∅ in
  let connect_env := assign
    [("CONNECT_ADDR", host1_ip); ("CONNECT_PORT", "9999"); ("CONNECT_COUNT", "1"); ("EXPECT_CONNECT", "1");
     ("CONNECT_PERIOD", "0")]%string ∅ in
  '(b, server_pid) ← addApplication host1 (Accept accept_env) (start TestEnv_Any);
  let connect_env := assign [("CONNECT_TIME", usec 100 MSEC)]%string connect_env in
  '(b, client1_pid) ← addApplication host2 (Connect connect_env) b;
  b ← launchApplication host1 server_pid b;
  launchApplication host2 client1_pid b.

Definition TestAccept_AfterAccept : Res (Bench Class) :=
  ip1 ← getIPAddr host1 0;
  ip2 ← getIPAddr host2 0;
  let host1_ip := ip_string ip1 in
  let accept_env := assign
    [("LISTEN_ADDR", "0.0.0.0"); ("LISTEN_PORT", "9999"); ("BACKLOG", "1"); ("LISTEN_TIME", "0");
     ("ACCEPT_TIME", usec 1 SEC); ("ACCEPT_COUNT", "1"); ("EXPECT_ACCEPT", "1"); ("ACCEPT_PERIOD", "0")]%string ∅ in
  let connect_env := assign
    [("CONNECT_ADDR", host1_ip); ("CONNECT_PORT", "9999"); ("CONNECT_COUNT", "1"); ("EXPECT_CONNECT", "1");
     ("CONNECT_PERIOD", "0")]%string ∅ in
  '(b, server_pid) ← addApplication host1 (Accept accept_env) (start TestEnv_Any);
  let connect_env := assign [("CONNECT_TIME", usec 2 SEC)]%string connect_env in
  '(b, client1_pid) ← addApplication host2 (Connect connect_env) b;
  b ← launchApplication host1 server_pid b;
  launchApplication host2 client1_pid b.

Definition TestAccept_MultipleInterface1 : Res (Bench Class) :=
  ip1 ← getIPAddr host1 0;
  ip1_2 ← getIPAddr host1 1;
  ip2 ← getIPAddr host2 0;
  let host1_ip := ip_string ip1 in
  let host1_ip2 := ip_string ip1_2 in
  let accept_env := assign
    [("LISTEN_PORT", "9999"); ("BACKLOG", "1"); ("LISTEN_TIME", "0"); ("ACCEPT_TIME", usec 1 SEC);
     ("ACCEPT_PERIOD", "0"); ("ACCEPT_COUNT", "3"); ("EXPECT_ACCEPT", "3"); ("LISTEN_ADDR", host1_ip)]%string ∅ in
  '(b, server1_pid) ← addApplication host1 (Accept accept_env) (start TestEnv_Any);
  let accept_env := assign
    [("ACCEPT_COUNT", "5"); ("EXPECT_ACCEPT", "5"); ("LISTEN_ADDR", host1_ip2)]%string accept_env in
  '(b, server2_pid) ← addApplication host1 (Accept accept_env) b;
  let connect_env := assign
    [("CONNECT_PORT", "9999"); ("CONNECT_PERIOD", "1"); ("CONNECT_TIME", usec 2 SEC);
     ("CONNECT_ADDR", host1_ip); ("CONNECT_COUNT", "3"); ("EXPECT_CONNECT", "3")]%string ∅ in
  '(b, client1_pid) ← addApplication host2 (Connect connect_env) b;
  let connect_env := assign
    [("CONNECT_ADDR", host1_ip2); ("CONNECT_COUNT", "5"); ("EXPECT_CONNECT", "5")]%string connect_env in
  '(b, client2_pid) ← addApplication host2 (Connect connect_env) b;
  b ← launchApplication host1 server1_pid b;
  b ← launchApplication host2 client1_pid b;
  b ← launchApplication host1 server2_pid b;
  launchApplication host2 client2_pid b.

Definition TestAccept_MultipleInterface2 : Res (Bench Class) :=
  ip1 ← getIPAddr host1 0;
  ip1_2 ← getIPAddr host1 1;
  ip2 ← getIPAddr host2 0;
  let host1_ip := ip_string ip1 in
  let host1_ip2 := ip_string ip1_2 in
  let accept_env := assign
    [("LISTEN_PORT", "9999"); ("BACKLOG", "1"); ("LISTEN_TIME", "0"); ("ACCEPT_TIME", usec 1 SEC);
     ("ACCEPT_PERIOD", "0"); ("ACCEPT_COUNT", "4"); ("EXPECT_ACCEPT", "4"); ("LISTEN_ADDR", host1_ip)]%string ∅ in
  '(b, server1_pid) ← addApplication host1 (Accept accept_env) (start TestEnv_Any);
  let accept_env := assign
    [("ACCEPT_COUNT", "2"); ("EXPECT_ACCEPT", "2"); ("LISTEN_ADDR", host1_ip2)]%string accept_env in
  '(b, server2_pid) ← addApplication host1 (Accept accept_env) b;
  let connect_env := assign
    [("CONNECT_PORT", "9999"); ("CONNECT_PERIOD", "1"); ("CONNECT_TIME", usec 100 MSEC);
     ("CONNECT_ADDR", host1_ip); ("CONNECT_COUNT", "4"); ("EXPECT_CONNECT", "4")]%string ∅ in
  '(b, client1_pid) ← addApplication host2 (Connect connect_env) b;
  let connect_env := assign
    [("CONNECT_ADDR", host1_ip2); ("CONNECT_COUNT", "2"); ("EXPECT_CONNECT", "2")]%string connect_env in
  '(b, client2_pid) ← addApplication host2 (Connect connect_env) b;
  b ← launchApplication host1 server1_pid b;
  b ← launchApplication host2 client1_pid b;
  b ← launchApplication host1 server2_pid b;
  launchApplication host2 client2_pid b.

Definition TestConnect_BeforeAccept : Res (Bench Class) :=
  ip1 ← getIPAddr host1 0;
  ip2 ← getIPAddr host2 0;
  let host2_ip := ip_string ip2 in
  let accept_env := assign
    [("LISTEN_ADDR", "0.0.0.0"); ("LISTEN_PORT", "9999"); ("BACKLOG", "1"); ("LISTEN_TIME", "0");
     ("ACCEPT_TIME", usec 1 SEC); ("ACCEPT_COUNT", "1"); ("EXPECT_ACCEPT", "1"); ("ACCEPT_PERIOD", "0")]%string ∅ in
  let connect_env := assign
    [("CONNECT_ADDR", host2_ip); ("CONNECT_PORT", "9999"); ("CONNECT_COUNT", "1"); ("EXPECT_CONNECT", "1");
     ("CONNECT_PERIOD", "0")]%string ∅ in
  '(b, server_pid) ← addApplication host2 (Accept accept_env) (start TestEnv_Any);
  let connect_env := assign [("CONNECT_TIME", usec 100 MSEC)]%string connect_env in
  '(b, client_pid) ← addApplication host1 (Connect connect_env) b;
  b ← launchApplication host2 server_pid b;
  launchApplication host1 client_pid b.

Definition TestConnect_AfterAccept : Res (Bench Class) :=
  ip1 ← getIPAddr host1 0;
  ip2 ← getIPAddr host2 0;
  let host2_ip := ip_string ip2 in
  let accept_env := assign
    [("LISTEN_ADDR", "0.0.0.0"); ("LISTEN_PORT", "9999"); ("BACKLOG", "1"); ("LISTEN_TIME", "0");
     ("ACCEPT_TIME", usec 1 SEC); ("ACCEPT_COUNT", "1"); ("EXPECT_ACCEPT", "1"); ("ACCEPT_PERIOD", "0")]%string ∅ in
  let connect_env := assign
    [("CONNECT_ADDR", host2_ip); ("CONNECT_PORT", "9999"); ("CONNECT_COUNT", "1"); ("EXPECT_CONNECT", "1");
     ("CONNECT_PERIOD", "0")]%string ∅ in
  '(b, server_pid) ← addApplication host2 (Accept accept_env) (start TestEnv_Any);
  let connect_env := assign [("CONNECT_TIME", usec 2 SEC)]%string connect_env in
  '(b, client1_pid) ← addApplication host1 (Connect connect_env) b;
  b ← launchApplication host2 server_pid b;
  launchApplication host1 client1_pid b.

Definition TestConnect_SimultaneousConnect : Res (Bench Class) :=
  ip1 ← getIPAddr host1 0;
  ip2 ← getIPAddr host2 0;
  let host1_ip := ip_string ip1 in
  let host2_ip := ip_string ip2 in
  let connect_env := assign
    [("CONNECT_ADDR", host2_ip); ("CONNECT_PORT", "12345"); ("BIND_ADDR", host1_ip); ("BIND_PORT", "22222");
     ("CONNECT_TIME", usec 1 SEC)]%string ∅ in
  '(b, client1_pid) ← addApplication host1 (SimultaneousConnect connect_env) (start TestEnv_Any);
  let connect_env := assign
    [("CONNECT_ADDR", host1_ip); ("CONNECT_PORT", "22222"); ("BIND_ADDR", host2_ip); ("BIND_PORT", "12345");
     ("CONNECT_TIME", usec 1 SEC)]%string connect_env in
  '(b, client2_pid) ← addApplication host2 (SimultaneousConnect connect_env) b;
  b ← launchApplication host1 client1_pid b;
  launchApplication host2 client2_pid b.

Definition tests : list (Res (Bench Class)) :=
  [TestAccept_Backlog1; TestAccept_Backlog2; TestAccept_BeforeAccept; TestAccept_AfterAccept;
   TestAccept_MultipleInterface1; TestAccept_MultipleInterface2; TestConnect_BeforeAccept; TestConnect_AfterAccept;
   TestConnect_SimultaneousConnect].

(** ** Correctness *)
Section accept.
Context (eof : Z) (uninit : sockaddr_in) (env : Environment) (k : Net).
Context (ip port listen_time backlog accept_time accept_count expected_accept accept_period : Z).
Context (E_ip : inet_addr (getenv env "LISTEN_ADDR") = Ok ip) (E_port : Echo.atoi (getenv env "LISTEN_PORT") = Ok port)
  (E_lt : atol (getenv env "LISTEN_TIME") = Ok listen_time) (E_bl : Echo.atoi (getenv env "BACKLOG") = Ok backlog)
  (E_at : atol (getenv env "ACCEPT_TIME") = Ok accept_time) (E_ac : Echo.atoi (getenv env "ACCEPT_COUNT") = Ok accept_count)
  (E_ea : Echo.atoi (getenv env "EXPECT_ACCEPT") = Ok expected_accept)
  (E_ap : Echo.atoi (getenv env "ACCEPT_PERIOD") = Ok accept_period).

(** The socket that listens. *)
Definition listening (a : sockaddr_in) : Sock := mkSock (Some a) None [] [].

Lemma accept_loop_ok n server a period fds k1 (Q : list Z -> Net -> Prop) :
  sin_family a = AF_INET -> owns k (server :: fds) k1 -> socks k1 !! server = Some (listening a) ->
  Forall (fun o => sin_family (of_peer o) = AF_INET) (offers k1) ->
  (forall fds' k', owns k (server :: fds') k' -> socks k' !! server = Some (listening a) ->
     length fds' = (length fds + Nat.min n (length (offers k1)))%nat -> Q fds' k') ->
  wp (layer eof) (accept_loop uninit n server a period fds) Q k1.
Proof.
  intros Ha. revert fds k1. induction n as [|n IH]; intros fds k1 Ho Hs Hf Hq; cbn [accept_loop].
  { apply wp_ret. apply Hq; [done|done|]. cbn. lia. }
  eapply wp_accept; [exact Hs|reflexivity|]. destruct (offers k1) as [|o rest] eqn:Eo.
  - intros r a' l' Hr. replace (0 <=? r) with false by (symmetry; apply Z.leb_gt; lia).
    apply wp_bind, wp_ret. wp_step.
    apply IH; [by eapply owns_ext|done|cbn; by rewrite Eo|]. cbn. rewrite Eo. intros fds' k' H1 H2 H3.
    apply Hq; [done|done|]. rewrite H3. cbn. lia.
  - intros fd' ip' Hfd Hn Hip. apply Forall_cons in Hf as [Hf1 Hf2].
    replace (0 <=? fd') with true by (symmetry; apply Z.leb_le; lia).
    apply wp_bind. repeat wp_step; cbn [s_addr sin_family sin_port].
    + by rewrite Hf1.
    + destruct (Z.eqb_spec (s_addr a) 0) as [E|E]; [done|]. rewrite Hip by done. by rewrite Z.eqb_refl.
    + by rewrite Ha.
    + apply Z.eqb_refl.
    + assert (server <> fd') as Hne by (intros ->; congruence).
      apply IH; cbn -[put].
      * eapply owns_ext; [reflexivity|]. rewrite app_comm_cons. apply owns_new; [by eapply owns_ext | done].
      * rewrite lookup_put_ne; [done|done|by eexists].
      * done.
      * intros fds' k' H1 H2 H3. apply Hq; [done|done|]. rewrite H3, length_app. cbn. lia.
Qed.

(** The state in which the loop starts, and what it leads to. *)
Lemma accepted_ok fd k1 :
  socks k !! fd = None -> socks k1 = <[fd := listening (inet ip (htons port))]> (socks k) -> offers k1 = offers k ->
  Forall (fun o => sin_family (of_peer o) = AF_INET) (offers k) ->
  wp (layer eof) (accept_loop uninit (Z.to_nat accept_count) fd (inet ip (htons port)) accept_period [])
    (fun fds k' => owns k (fd :: fds) k' /\ length fds = Nat.min (Z.to_nat accept_count) (length (offers k))) k1.
Proof.
  intros Hn Es Eo Hf. apply accept_loop_ok; [done|..].
  - apply (owns_ext k [fd] (put fd (listening (inet ip (htons port))) k)); [by rewrite Es|].
    apply (owns_new k []); [by apply owns_nil | done].
  - rewrite Es. by rewrite lookup_insert_eq.
  - by rewrite Eo.
  - intros fds' k' H1 _ H2. rewrite Eo in H2. done.
Qed.

Lemma int_length n : (n <= Z.to_nat accept_count)%nat -> to_int (Z.of_nat n) = Z.of_nat n.
Proof. intros Hn. apply to_int_small. apply atoi_range in E_ac. lia. Qed.

(** On a layer whose connections [offers] are, the server's expectations hold
    exactly if the number of connections it waits for and gets is the one it
    expects; and then it closes all it opened. *)
Lemma accept_iff :
  in_use (inet ip (htons port)) k = false -> Forall (fun o => sin_family (of_peer o) = AF_INET) (offers k) ->
  wp (layer eof) (TestHandshake_Accept uninit env) (fun r k' => r = 0 /\ socks k' = socks k) k <->
  Z.of_nat (Nat.min (Z.to_nat accept_count) (length (offers k))) = expected_accept.
Proof.
  intros Hu Hf. split.
  - intros H. unfold TestHandshake_Accept in H. destruct (decide (Z.of_nat (Nat.min (Z.to_nat accept_count) (length (offers k))) = expected_accept))
      as [E|Hne]; [done|]. exfalso. repeat (wp_inv H; cbv zeta in H).
    revert H. eapply wp_bind_stuck; [by apply (accepted_ok fd)|].
    intros fds k' [Ho Hl] Hw. apply wp_expect_inv in Hw as [Hx%Z.eqb_eq _]. rewrite Hl, int_length in Hx by lia. done.
  - intros E. unfold TestHandshake_Accept. repeat (wp_step; cbv zeta).
    apply wp_bind. eapply wp_mono; [apply (accepted_ok fd); done|]. intros fds k' [Ho Hl]. cbn beta.
    wp_step; [rewrite Hl, int_length by lia; by apply Z.eqb_eq|].
    apply wp_bind, expect_once_ok; [|done|]; [destruct Ho as [Hnd _]; by apply NoDup_cons in Hnd as [_ ?]|].
    apply wp_bind. apply (close_all_ok eof k fds [fd]); [eapply owns_perm; [|exact Ho]; apply Permutation_cons_append|].
    intros k'' Ho'' _ _. destruct (owns_lookup k fd _ _ Ho'') as [s Hs]; [set_solver|].
    eapply wp_close; [exact Hs|]. wp_step. split; [done|]. apply owns_none. by apply owns_shut.
Qed.

End accept.

(** How many of the first [n] attempts to connect succeed. *)
Definition established (n : nat) (o : list (option Reply)) : nat := length (omap id (take n o)).

Lemma established_0 o : established 0 o = 0%nat.
Proof. done. Qed.

Lemma established_some n rp o : established (S n) (Some rp :: o) = S (established n o).
Proof. done. Qed.

Section connect.
Context (eof : Z) (uninit : sockaddr_in) (env : Environment) (k : Net).
Context (ip port connect_count expected_connect connect_period connect_time : Z).
Context (E_ip : inet_addr (getenv env "CONNECT_ADDR") = Ok ip) (E_port : Echo.atoi (getenv env "CONNECT_PORT") = Ok port)
  (E_cc : Echo.atoi (getenv env "CONNECT_COUNT") = Ok connect_count)
  (E_ec : Echo.atoi (getenv env "EXPECT_CONNECT") = Ok expected_connect)
  (E_cp : Echo.atoi (getenv env "CONNECT_PERIOD") = Ok connect_period)
  (E_ct : atol (getenv env "CONNECT_TIME") = Ok connect_time).

Lemma expect_new_port_ok p ps k1 (Q : unit -> Net -> Prop) :
  (p ∉ ps) -> Q tt k1 -> wp (layer eof) (expect_new_port p ps) Q k1.
Proof.
  induction ps as [|q ps IH]; intros Hp Hq; cbn [expect_new_port]; [by apply wp_ret|].
  wp_step; [apply negb_true_iff, Z.eqb_neq; set_solver | apply IH; set_solver].
Qed.

(** The sockets of [connect] calls that failed: the application forgets them. *)
Definition forgotten (fds : list Z) (k' : Net) : Prop := forall fd, fd ∈ fds -> socks k' !! fd = Some new_sock.

Lemma forgotten_put fds fd s k1 : forgotten fds k1 -> socks k1 !! fd = None -> forgotten fds (put fd s k1).
Proof. intros Hf Hn x Hx. rewrite lookup_put_ne; [by apply Hf|done|]. exists new_sock. by apply Hf. Qed.

Lemma connect_loop_ok n period cs cp lost k1 (Q : list Z * list Z -> Net -> Prop) :
  owns k (cs ++ lost) k1 -> forgotten lost k1 -> (forall p, p ∈ cp -> p ∈ ports k1) ->
  (forall cs' cp' lost' k', owns k (cs' ++ lost') k' -> forgotten lost' k' ->
     length cs' = (length cs + established n (outcomes k1))%nat -> Q (cs', cp') k') ->
  wp (layer eof) (connect_loop uninit n env period cs cp) Q k1.
Proof.
  revert cs cp lost k1. induction n as [|n IH]; intros cs cp lost k1 Ho Hl Hp Hq; cbn [connect_loop].
  { apply wp_ret. eapply Hq; [done|done|]. rewrite established_0. lia. }
  do 3 wp_step. cbv zeta. rename fd into c. eapply wp_connect; [apply lookup_put|]. cbn [outcomes put set_socks].
  pose proof (owns_new k _ c new_sock k1 Ho H0) as Ho'.
  assert (forall k2, socks k2 = socks (put c new_sock k1) -> established (S n) (outcomes k1) = established n (outcomes k2) ->
    wp (layer eof) (connect_loop uninit n env period cs cp) Q k2) as Hfail.
  { intros k2 Es Ee. apply (IH cs cp (lost ++ [c])).
    - rewrite app_assoc. by eapply owns_ext.
    - intros x [Hx| ->%list_elem_of_singleton]%elem_of_app; rewrite Es; [|apply lookup_put].
      by apply (forgotten_put lost c new_sock k1).
    - intros p Hp'. rewrite ports_spec, Es, <- ports_spec. by apply ports_put, Hp.
    - intros cs' cp' lost' k' H1 H2 H3. eapply Hq; [done|done|]. lia. }
  destruct (outcomes k1) as [|[rp|] rest] eqn:Eo.
  - intros r Hr. replace (r =? 0) with false by (symmetry; apply Z.eqb_neq; lia). apply wp_bind, wp_ret. wp_step.
    apply Hfail; [done|]. cbn. unfold established. by rewrite take_nil.
  - intros a Ha. destruct Ha as [[=]|(_ & _ & Ha)]. rewrite put_put_set. cbn [outbox new_sock].
    rewrite Z.eqb_refl. apply wp_bind. repeat wp_step; try (cbn; apply Z.eqb_refl).
    apply wp_bind, expect_new_port_ok.
    { intros Hin. apply Ha. by apply ports_put, Hp. }
    apply wp_ret. wp_step. apply (IH _ _ lost).
    + apply (owns_ext k _ (put c (mkSock (Some a) (Some (inet ip (htons port))) (re_data rp) []) k1)); [done|].
      rewrite <- (put_put c _ new_sock). apply owns_update; [|set_solver].
      eapply owns_perm; [|exact Ho']. solve_Permutation.
    + intros x Hx. by apply (forgotten_put lost c _ k1).
    + intros p [Hp'| ->%list_elem_of_singleton]%elem_of_app.
      * apply Hp, (ports_put _ c (mkSock (Some a) (Some (inet ip (htons port))) (re_data rp) [])) in Hp'; [|done].
        by rewrite ports_spec in *.
      * apply ports_spec. eexists c, _, a. split; [apply lookup_put|done].
    + cbn. intros cs' cp' lost' k' H1 H2 H3. eapply Hq; [done|done|]. rewrite H3, length_app, established_some. cbn. lia.
  - intros r Hr. replace (r =? 0) with false by (symmetry; apply Z.eqb_neq; lia). apply wp_bind, wp_ret. wp_step.
    by apply Hfail.
Qed.

Lemma connected_ok k1 :
  socks k1 = socks k -> outcomes k1 = outcomes k ->
  wp (layer eof) (connect_loop uninit (Z.to_nat connect_count) env connect_period [] [])
    (fun r k' => exists lost, owns k (fst r ++ lost) k' /\ forgotten lost k' /\
       length (fst r) = established (Z.to_nat connect_count) (outcomes k)) k1.
Proof.
  intros Es Eo. apply (connect_loop_ok _ _ [] [] []); [by apply owns_nil|intros ? ?%not_elem_of_nil; done|set_solver|].
  intros cs cp lost k' H1 H2 H3. rewrite Eo in H3. by exists lost.
Qed.

Lemma established_le n o : (established n o <= n)%nat.
Proof.
  revert o. induction n as [|n IH]; intros o; [done|]. destruct o as [|[rp|] o]; [unfold established; cbn; lia| |].
  - rewrite established_some. specialize (IH o). lia.
  - specialize (IH o). unfold established in *. cbn. lia.
Qed.

Lemma int_established o : to_int (Z.of_nat (established (Z.to_nat connect_count) o)) = Z.of_nat (established (Z.to_nat connect_count) o).
Proof. apply to_int_small. apply atoi_range in E_cc. pose proof (established_le (Z.to_nat connect_count) o). lia. Qed.

(** The client's expectations hold exactly if the number of connections it
    makes is the one it expects; it closes them, and forgets the sockets of
    the attempts that failed. *)
Lemma connect_iff :
  wp (layer eof) (TestHandshake_Connect uninit env)
    (fun r k' => r = 0 /\ exists lost, owns k lost k' /\ forgotten lost k') k <->
  Z.of_nat (established (Z.to_nat connect_count) (outcomes k)) = expected_connect.
Proof.
  split.
  - intros H. unfold TestHandshake_Connect in H.
    destruct (decide (Z.of_nat (established (Z.to_nat connect_count) (outcomes k)) = expected_connect)) as [E|Hne]; [done|].
    exfalso. repeat wp_inv H. revert H. eapply wp_bind_stuck; [by apply connected_ok|].
    intros [cs cp] k' (lost & Ho & Hl & Hc) [Hx%Z.eqb_eq _]%wp_expect_inv. cbn in Hc. rewrite Hc, int_established in Hx. done.
  - intros E. unfold TestHandshake_Connect. repeat wp_step.
    apply wp_bind. eapply wp_mono; [by apply connected_ok|]. intros [cs cp] k' (lost & Ho & Hl & Hc). cbn in Ho, Hc.
    wp_step; [rewrite Hc, int_established; by apply Z.eqb_eq|].
    apply wp_bind, expect_once_ok; [|done|]; [destruct Ho as [Hnd _]; by apply NoDup_app in Hnd as [? _]|].
    apply wp_bind. apply (close_all_ok eof k cs lost); [done|].
    intros k'' Ho'' Hk _. wp_step. split; [done|]. exists lost. split; [done|]. intros x Hx. rewrite Hk by done. auto.
Qed.

End connect.

Section simultaneous.
Context (eof : Z) (uninit : sockaddr_in) (env : Environment) (k : Net).
Context (ip port bind_ip bind_port connect_time : Z).
Context (E_ip : inet_addr (getenv env "CONNECT_ADDR") = Ok ip) (E_port : Echo.atoi (getenv env "CONNECT_PORT") = Ok port)
  (E_bip : inet_addr (getenv env "BIND_ADDR") = Ok bind_ip) (E_bport : Echo.atoi (getenv env "BIND_PORT") = Ok bind_port)
  (E_ct : atol (getenv env "CONNECT_TIME") = Ok connect_time).

(** A client that binds first gets the name it bound, if it is connected. *)
Lemma simultaneous_iff :
  in_use (inet bind_ip (htons bind_port)) k = false ->
  wp (layer eof) (TestHandshake_SimultaneousConnect uninit env) (fun r k' => r = 0 /\ socks k' = socks k) k <->
  established 1 (outcomes k) = 1%nat.
Proof.
  intros Hu. split.
  { intros H. unfold TestHandshake_SimultaneousConnect in H. do 2 wp_inv H.
    set (k1 := set_clock _ k) in H. assert (in_use (inet bind_ip (htons bind_port)) k1 = false) as Hu1 by done.
    repeat (wp_inv H; cbv zeta in H). eapply wp_connect_inv in H; [|apply lookup_put]. cbn [outcomes put set_socks set_clock k1] in H.
    destruct (outcomes k) as [|[rp|] rest]; [|done|]; by apply wp_expect_inv in H as [[=] _]. }
  intros He. unfold TestHandshake_SimultaneousConnect. do 2 wp_step.
  set (k1 := set_clock _ k). assert (in_use (inet bind_ip (htons bind_port)) k1 = false) as Hu1 by done.
  repeat (wp_step; cbv zeta). eapply wp_connect; [apply lookup_put|]. cbn [outcomes put set_socks set_clock k1].
  destruct (outcomes k) as [|[rp|] rest] eqn:Eo; [done| |done]. intros a [[= <-]|[[=] _]].
  rewrite put_put_set. repeat wp_step; try (cbn; apply Z.eqb_refl).
  split; [done|]. by rewrite shut_put.
Qed.

End simultaneous.

(** ** The nine tests *)

Definition known (r : Res Z) : bool := match r with Ok _ => true | Err _ => false end.
Definition value (r : Res Z) : Z := match r with Ok v => v | Err _ => 0 end.
Definition int_of (env : Environment) (key : string) : Z := value (Echo.atoi (getenv env key)).
Definition name_of (env : Environment) (addr port : string) : sockaddr_in :=
  inet (value (inet_addr (getenv env addr))) (htons (int_of env port)).

Lemma known_value r : known r = true -> r = Ok (value r).
Proof. by destruct r. Qed.

(** The environment has all the application reads. *)
Definition parses (c : Class) : bool :=
  match c with
  | Accept env =>
      known (inet_addr (getenv env "LISTEN_ADDR")) && known (Echo.atoi (getenv env "LISTEN_PORT")) &&
      known (atol (getenv env "LISTEN_TIME")) && known (Echo.atoi (getenv env "BACKLOG")) &&
      known (atol (getenv env "ACCEPT_TIME")) && known (Echo.atoi (getenv env "ACCEPT_COUNT")) &&
      known (Echo.atoi (getenv env "EXPECT_ACCEPT")) && known (Echo.atoi (getenv env "ACCEPT_PERIOD"))
  | Connect env =>
      known (inet_addr (getenv env "CONNECT_ADDR")) && known (Echo.atoi (getenv env "CONNECT_PORT")) &&
      known (Echo.atoi (getenv env "CONNECT_COUNT")) && known (Echo.atoi (getenv env "EXPECT_CONNECT")) &&
      known (Echo.atoi (getenv env "CONNECT_PERIOD")) && known (atol (getenv env "CONNECT_TIME"))
  | SimultaneousConnect env =>
      known (inet_addr (getenv env "CONNECT_ADDR")) && known (Echo.atoi (getenv env "CONNECT_PORT")) &&
      known (inet_addr (getenv env "BIND_ADDR")) && known (Echo.atoi (getenv env "BIND_PORT")) &&
      known (atol (getenv env "CONNECT_TIME"))
  end.

(** The address an application binds is not in use, and peers are AF_INET. *)
Definition unused (c : Class) (k : Net) : Prop :=
  match c with
  | Accept env => in_use (name_of env "LISTEN_ADDR" "LISTEN_PORT") k = false /\
                  Forall (fun o => sin_family (of_peer o) = AF_INET) (offers k)
  | Connect env => True
  | SimultaneousConnect env => in_use (name_of env "BIND_ADDR" "BIND_PORT") k = false
  end.

(** The layer establishes the number of connections the application expects. *)
Definition delivered (c : Class) (k : Net) : Prop :=
  match c with
  | Accept env => Z.of_nat (Nat.min (Z.to_nat (int_of env "ACCEPT_COUNT")) (length (offers k))) = int_of env "EXPECT_ACCEPT"
  | Connect env => Z.of_nat (established (Z.to_nat (int_of env "CONNECT_COUNT")) (outcomes k)) = int_of env "EXPECT_CONNECT"
  | SimultaneousConnect env => established 1 (outcomes k) = 1%nat
  end.

(** The application returns zero, and no connection is left open. *)
Definition disconnected (k : Net) (r : Z) (k' : Net) : Prop :=
  r = 0 /\ exists lost, owns k lost k' /\ forgotten lost k'.

Definition passes (eof : Z) (uninit : sockaddr_in) (k : Net) (c : Class) : Prop :=
  match c with
  | Connect _ => wp (layer eof) (main uninit c) (disconnected k) k
  | _ => wp (layer eof) (main uninit c) (fun r k' => r = 0 /\ socks k' = socks k) k
  end.

Lemma passes_iff eof uninit c k : parses c = true -> unused c k -> passes eof uninit k c <-> delivered c k.
Proof.
  intros Hp Hu. destruct c as [env|env|env]; cbn [parses] in Hp; repeat (apply andb_prop in Hp as [Hp ?]);
    repeat match goal with H : known _ = true |- _ => apply known_value in H end; cbn [passes main delivered unused] in *.
  - destruct Hu as [Hu Hf]. eapply accept_iff; done.
  - eapply connect_iff; done.
  - eapply simultaneous_iff; done.
Qed.

(** *** What the two ends expect *)

(** A client reaches a server on the host [h]. *)
Definition reaches (h : HostRef) (listen connect : sockaddr_in) : bool :=
  (sin_port listen =? sin_port connect) &&
  existsb (fun ip => addr_of_bytes ip =? s_addr connect) (interfaces h) &&
  ((s_addr listen =? 0) || (s_addr listen =? s_addr connect)).

Definition clients_of (h : HostRef) (listen : sockaddr_in) (apps : list (HostRef * Class)) : list Z :=
  omap (fun a => match snd a with
                 | Connect env => if reaches h listen (name_of env "CONNECT_ADDR" "CONNECT_PORT")
                                  then Some (int_of env "EXPECT_CONNECT") else None
                 | _ => None
                 end) apps.

(** Each server expects the connections its clients expect; who connects to a
    client that binds expects to be met there. *)
Definition ends_agree (apps : list (HostRef * Class)) : bool :=
  forallb (fun '(h, c) =>
    match c with
    | Accept env =>
        (int_of env "EXPECT_ACCEPT" =? foldr Z.add 0 (clients_of h (name_of env "LISTEN_ADDR" "LISTEN_PORT") apps)) &&
        (int_of env "EXPECT_ACCEPT" <=? int_of env "ACCEPT_COUNT")
    | Connect env =>
        existsb (fun '(h', c') => match c' with
          | Accept env' => reaches h' (name_of env' "LISTEN_ADDR" "LISTEN_PORT") (name_of env "CONNECT_ADDR" "CONNECT_PORT")
          | _ => false end) apps &&
        (int_of env "EXPECT_CONNECT" <=? int_of env "CONNECT_COUNT")
    | SimultaneousConnect env =>
        existsb (fun '(h', c') => match c' with
          | SimultaneousConnect env' =>
              bool_decide (name_of env' "BIND_ADDR" "BIND_PORT" = name_of env "CONNECT_ADDR" "CONNECT_PORT") &&
              bool_decide (name_of env "BIND_ADDR" "BIND_PORT" = name_of env' "CONNECT_ADDR" "CONNECT_PORT")
          | _ => false end) apps
    end) apps.

Definition test_ok (t : Res (Bench Class)) : bool :=
  match t with
  | Ok b => negb (bool_decide (length (launched b) = 0%nat)) && (length (launched b) =? length (added b))%nat &&
            forallb (fun a => parses (snd a)) (launched b) && ends_agree (launched b)
  | Err _ => false
  end.

Lemma handshake_tests_ok : forallb test_ok tests = true.
Proof. vm_compute. reflexivity. Qed.


End TestHandshake.
