(* ===== verification/TestClose.v ===== *)
(** * TestClose: the tests of [close]

    Models app/kens/testclose.cpp: the two application classes and the six
    tests.  Each side closes its connection at a given moment of the virtual
    clock; the moments decide who closes first. *)

From ITree Require Import ITree.
From S2P Require Import Prelude TimeUtil Assignments TestEnv TestProg SocketLayer TestBench TestHandshake.
Import TimeUtil SocketLayer TestBench.
Import TestHandshake(known, value, int_of, name_of, known_value, listening).
Local Open Scope Z_scope.

Module TestClose.
Section programs.

(** What an uninitialised [sockaddr_in] holds. *)
Context (uninit : sockaddr_in).

(** Sleep until [close_time] microseconds; arithmetic on [long]. *)
Definition sleep_until (close_time : Z) : App unit :=
  '(ret, (tv_sec, tv_usec)) ← gettimeofday;
  _ ← expect (ret =? 0);
  us ← checked (as_long (1000 * 1000 * tv_sec));
  left ← checked (as_long (close_time - us));
  sleep_time ← checked (as_long (left - tv_usec));
  _ ← expect (0 <=? sleep_time);
  _ ← usleep sleep_time;
  mret tt.

(** What the servers of the tests have in common: a listening socket and one
    accepted connection. *)
Definition serve_one (env : Environment) : App (Z * Z) :=
  server_socket ← socket AF_INET SOCK_STREAM IPPROTO_TCP;
  ip ← env_addr env "LISTEN_ADDR";
  port ← env_int env "LISTEN_PORT";
  let addr := inet ip (htons port) in
  ret ← bind server_socket addr sizeof_addr;
  _ ← expect (ret =? 0);
  listen_time ← env_long env "LISTEN_TIME";
  _ ← usleep listen_time;
  backlog ← env_int env "BACKLOG";
  ret ← listen server_socket backlog;
  _ ← expect (ret =? 0);
  accept_time ← env_long env "ACCEPT_TIME";
  _ ← usleep accept_time;
  '(client_fd, client_addr, client_len) ← accept server_socket zero_addr sizeof_addr;
  _ ← expect (0 <=? client_fd);
  _ ← expect (client_len =? sizeof_addr);
  _ ← expect (sin_family client_addr =? AF_INET);
  '(ret, temp_addr, temp_len) ← getsockname client_fd uninit sizeof_addr;
  _ ← expect (ret =? 0);
  _ ← expect ((s_addr addr =? 0) || (s_addr addr =? s_addr temp_addr));
  _ ← expect (sin_family addr =? sin_family temp_addr);
  _ ← expect (sin_port addr =? sin_port temp_addr);
  mret (server_socket, client_fd).

(** And the clients: a connected socket. *)
Definition connect_one (env : Environment) : App Z :=
  connect_time ← env_long env "CONNECT_TIME";
  _ ← usleep connect_time;
  client_socket ← socket AF_INET SOCK_STREAM IPPROTO_TCP;
  ip ← env_addr env "CONNECT_ADDR";
  port ← env_int env "CONNECT_PORT";
  let addr := inet ip (htons port) in
  ret ← connect client_socket addr sizeof_addr;
  _ ← expect (0 <=? ret);
  '(ret, temp_addr, temp_len) ← getpeername client_socket uninit sizeof_addr;
  _ ← expect (ret =? 0);
  _ ← expect (s_addr addr =? s_addr temp_addr);
  _ ← expect (sin_family addr =? sin_family temp_addr);
  _ ← expect (sin_port addr =? sin_port temp_addr);
  mret client_socket.

Definition TestClose_Accept (env : Environment) : App Z :=
  '(server_socket, client_fd) ← serve_one env;
  close_time ← env_long env "CLOSE_TIME";
  _ ← sleep_until close_time;
  _ ← close client_fd;
  _ ← close server_socket;
  mret 0.

Definition TestClose_Connect (env : Environment) : App Z :=
  client_socket ← connect_one env;
  close_time ← env_long env "CLOSE_TIME";
  _ ← sleep_until close_time;
  _ ← close client_socket;
  mret 0.

End programs.

(** ** The tests *)

Inductive Class :=
| Accept (env : Environment)
| Connect (env : Environment).

Definition main (uninit : sockaddr_in) (c : Class) : App Z :=
  match c with
  | Accept env => TestClose_Accept uninit env
  | Connect env => TestClose_Connect uninit env
  end.

Definition TestClose_Connect_CloseFirst : Res (Bench Class) :=
  ip1 ← getIPAddr host1 0;
  ip2 ← getIPAddr host2 0;
  let accept_env := assign
    [("LISTEN_ADDR", "0.0.0.0"); ("LISTEN_PORT", "9999"); ("BACKLOG", "1"); ("LISTEN_TIME", "0");
     ("ACCEPT_TIME", usec 1000 USEC); ("CLOSE_TIME", usec 1020000 USEC)]%string ∅ in
  let connect_env := assign
    [("CONNECT_PORT", "9999"); ("CONNECT_TIME", usec 2000 USEC); ("CLOSE_TIME", usec 1010000 USEC);
     ("CONNECT_ADDR", ip_string ip2)]%string ∅ in
  '(b, client_pid) ← addApplication host1 (Connect connect_env) (start TestEnv_Any);
  '(b, server_pid) ← addApplication host2 (Accept accept_env) b;
  b ← launchApplication host1 client_pid b;
  launchApplication host2 server_pid b.

Definition TestClose_Connect_CloseLater : Res (Bench Class) :=
  ip1 ← getIPAddr host1 0;
  ip2 ← getIPAddr host2 0;
  let accept_env := assign
    [("LISTEN_ADDR", "0.0.0.0"); ("LISTEN_PORT", "9999"); ("BACKLOG", "1"); ("LISTEN_TIME", "0");
     ("ACCEPT_TIME", usec 1000 USEC); ("CLOSE_TIME", usec 1010000 USEC)]%string ∅ in
  let connect_env := assign
    [("CONNECT_PORT", "9999"); ("CONNECT_TIME", usec 2000 USEC); ("CLOSE_TIME", usec 1020000 USEC);
     ("CONNECT_ADDR", ip_string ip2)]%string ∅ in
  '(b, client_pid) ← addApplication host1 (Connect connect_env) (start TestEnv_Any);
  '(b, server_pid) ← addApplication host2 (Accept accept_env) b;
  b ← launchApplication host1 client_pid b;
  launchApplication host2 server_pid b.

Definition TestClose_Connect_CloseSimultaneous : Res (Bench Class) :=
  ip1 ← getIPAddr host1 0;
  ip2 ← getIPAddr host2 0;
  let accept_env := assign
    [("LISTEN_ADDR", "0.0.0.0"); ("LISTEN_PORT", "9999"); ("BACKLOG", "1"); ("LISTEN_TIME", "0");
     ("ACCEPT_TIME", usec 1000 USEC); ("CLOSE_TIME", usec 1010000 USEC)]%string ∅ in
  let connect_env := assign
    [("CONNECT_PORT", "9999"); ("CONNECT_TIME", usec 2000 USEC); ("CLOSE_TIME", usec 1010000 USEC);
     ("CONNECT_ADDR", ip_string ip2)]%string ∅ in
  '(b, client_pid) ← addApplication host1 (Connect connect_env) (start TestEnv_Any);
  '(b, server_pid) ← addApplication host2 (Accept accept_env) b;
  b ← launchApplication host1 client_pid b;
  launchApplication host2 server_pid b.

Definition TestClose_Accept_CloseLater : Res (Bench Class) :=
  ip1 ← getIPAddr host1 0;
  ip2 ← getIPAddr host2 0;
  let accept_env := assign
    [("LISTEN_ADDR", "0.0.0.0"); ("LISTEN_PORT", "9999"); ("BACKLOG", "1"); ("LISTEN_TIME", "0");
     ("ACCEPT_TIME", usec 1000 USEC); ("CLOSE_TIME", usec 1020000 USEC)]%string ∅ in
  let connect_env := assign
    [("CONNECT_PORT", "9999"); ("CONNECT_TIME", usec 2000 USEC); ("CLOSE_TIME", usec 1010000 USEC);
     ("CONNECT_ADDR", ip_string ip1)]%string ∅ in
  '(b, client_pid) ← addApplication host2 (Connect connect_env) (start TestEnv_Any);
  '(b, server_pid) ← addApplication host1 (Accept accept_env) b;
  b ← launchApplication host2 client_pid b;
  launchApplication host1 server_pid b.

Definition TestClose_Accept_CloseFirst : Res (Bench Class) :=
  ip1 ← getIPAddr host1 0;
  ip2 ← getIPAddr host2 0;
  let accept_env := assign
    [("LISTEN_ADDR", "0.0.0.0"); ("LISTEN_PORT", "9999"); ("BACKLOG", "1"); ("LISTEN_TIME", "0");
     ("ACCEPT_TIME", usec 1000 USEC); ("CLOSE_TIME", usec 1010000 USEC)]%string ∅ in
  let connect_env := assign
    [("CONNECT_PORT", "9999"); ("CONNECT_TIME", usec 2000 USEC); ("CLOSE_TIME", usec 1020000 USEC);
     ("CONNECT_ADDR", ip_string ip1)]%string ∅ in
  '(b, client_pid) ← addApplication host2 (Connect connect_env) (start TestEnv_Any);
  '(b, server_pid) ← addApplication host1 (Accept accept_env) b;
  b ← launchApplication host2 client_pid b;
  launchApplication host1 server_pid b.

Definition TestClose_Accept_CloseSimultaneous : Res (Bench Class) :=
  ip1 ← getIPAddr host1 0;
  ip2 ← getIPAddr host2 0;
  let accept_env := assign
    [("LISTEN_ADDR", "0.0.0.0"); ("LISTEN_PORT", "9999"); ("BACKLOG", "1"); ("LISTEN_TIME", "0");
     ("ACCEPT_TIME", usec 1000 USEC); ("CLOSE_TIME", usec 1010000 USEC)]%string ∅ in
  let connect_env := assign
    [("CONNECT_PORT", "9999"); ("CONNECT_TIME", usec 2000 USEC); ("CLOSE_TIME", usec 1010000 USEC);
     ("CONNECT_ADDR", ip_string ip1)]%string ∅ in
  '(b, client_pid) ← addApplication host2 (Connect connect_env) (start TestEnv_Any);
  '(b, server_pid) ← addApplication host1 (Accept accept_env) b;
  b ← launchApplication host2 client_pid b;
  launchApplication host1 server_pid b.

Definition tests : list (Res (Bench Class)) :=
  [TestClose_Connect_CloseFirst; TestClose_Connect_CloseLater; TestClose_Connect_CloseSimultaneous;
   TestClose_Accept_CloseLater; TestClose_Accept_CloseFirst; TestClose_Accept_CloseSimultaneous].

(** ** Correctness *)

(** The virtual clock in microseconds, as [gettimeofday] gives it. *)
Definition now (k : Net) : Z := clock k / 1000.

Lemma sleep_until_ok eof t k (Q : unit -> Net -> Prop) :
  0 <= clock k < 2 ^ 64 -> 0 <= t < 2 ^ 54 -> now k <= t ->
  (forall k', now k' = t -> clock k <= clock k' -> k' = set_clock (clock k') k -> Q tt k') ->
  wp (layer eof) (sleep_until t) Q k.
Proof.
  intros Hk Ht Hn Hq. unfold sleep_until, now in *. set (us := clock k / 1000) in *.
  assert (0 <= us < 2 ^ 55) by (subst us; split; [apply Z.div_pos; lia | apply Z.div_lt_upper_bound; lia]).
  pose proof (Z.div_mod us 1000000 ltac:(lia)).
  pose proof (Z.mod_pos_bound us 1000000 ltac:(lia)).
  wp_step. fold us. cbv zeta. wp_step.
  do 3 (eapply wp_checked; [apply as_long_ok; lia|]).
  wp_step; [apply Z.leb_le; lia|]. wp_step. wp_step.
  replace (t - 1000 * 1000 * (us / 1000000) - us mod 1000000) with (t - us) by lia.
  rewrite (wrap_small 64 (t - us)), (wrap_small 64 (1000 * (t - us))) by (unfold is_u; lia). apply Hq; cbn [clock set_clock]; [|lia|done].
  replace (clock k + 1000 * (t - us)) with (clock k + (t - us) * 1000) by lia. rewrite Z.div_add by lia. fold us. lia.
Qed.

Lemma sleep_until_late eof t k (f : unit -> App Z) Q :
  0 <= clock k < 2 ^ 64 -> 0 <= t < 2 ^ 54 -> t < now k -> ~ wp (layer eof) (sleep_until t ≫= f) Q k.
Proof.
  intros Hk Ht Hn H%wp_bind_inv. unfold sleep_until, now in *. set (us := clock k / 1000) in *.
  assert (0 <= us < 2 ^ 55) by (subst us; split; [apply Z.div_pos; lia | apply Z.div_lt_upper_bound; lia]).
  pose proof (Z.div_mod us 1000000 ltac:(lia)). pose proof (Z.mod_pos_bound us 1000000 ltac:(lia)).
  eapply wp_do_inv in H; [|cbn; by split]. cbv beta iota zeta in H. fold us in H. wp_inv H.
  do 3 (eapply wp_checked_inv in H; [|apply as_long_ok; lia]). apply wp_expect_inv in H as [Hx%Z.leb_le _]. lia.
Qed.

(** The clock after sleeping for [us] microseconds. *)
Definition after (us : Z) (t : Z) : Z := t + wrap 64 (1000 * wrap 64 us).

Lemma after_le us t : t <= after us t.
Proof. unfold after, wrap. pose proof (Z.mod_pos_bound (1000 * (us mod 2 ^ 64)) (2 ^ 64)). lia. Qed.

(** The environment has what [serve_one] and [connect_one] read. *)
Definition server_parses (env : Environment) : bool :=
  known (inet_addr (getenv env "LISTEN_ADDR")) && known (Echo.atoi (getenv env "LISTEN_PORT")) &&
  known (atol (getenv env "LISTEN_TIME")) && known (Echo.atoi (getenv env "BACKLOG")) &&
  known (atol (getenv env "ACCEPT_TIME")).
Definition client_parses (env : Environment) : bool :=
  known (inet_addr (getenv env "CONNECT_ADDR")) && known (Echo.atoi (getenv env "CONNECT_PORT")) &&
  known (atol (getenv env "CONNECT_TIME")).

Definition long_of (env : Environment) (key : string) : Z := value (atol (getenv env key)).
Definition listen_name (env : Environment) : sockaddr_in := name_of env "LISTEN_ADDR" "LISTEN_PORT".
Definition connect_name (env : Environment) : sockaddr_in := name_of env "CONNECT_ADDR" "CONNECT_PORT".

(** When [accept] and [connect] are called. *)
Definition accept_from (env : Environment) (k : Net) : Z :=
  after (long_of env "ACCEPT_TIME") (after (long_of env "LISTEN_TIME") (clock k)).
Definition connect_from (env : Environment) (k : Net) : Z := after (long_of env "CONNECT_TIME") (clock k).

Ltac parse_all H :=
  repeat (apply andb_prop in H as [H ?]);
  repeat match goal with K : known _ = true |- _ => apply known_value in K end.

Section establish.
Context (eof : Z) (uninit : sockaddr_in) (env : Environment) (k : Net).

(** The connection of an offer, and the state with it next to the listening
    socket. *)
Definition accepted (fd fd' : Z) (o : Offer) (k' : Net) : Prop :=
  fd <> fd' /\ socks k !! fd = None /\ socks k !! fd' = None /\ clock k' = Z.max (accept_from env k) (of_time o) /\
  settled k' = settled k /\ finished k' = finished k /\ exists a,
  socks k' = <[fd' := mkSock (Some a) (Some (of_peer o)) (of_data o) []]> (<[fd := listening (listen_name env)]> (socks k)).

Lemma serve_one_ok o rest (Q : Z * Z -> Net -> Prop) :
  server_parses env = true -> in_use (listen_name env) k = false ->
  offers k = o :: rest -> sin_family (of_peer o) = AF_INET ->
  (forall fd fd' k', accepted fd fd' o k' -> Q (fd, fd') k') -> wp (layer eof) (serve_one uninit env) Q k.
Proof.
  intros Hp Hu Eo Hf Hq. unfold server_parses in Hp. parse_all Hp. unfold serve_one.
  assert (Hu' := Hu). unfold listen_name, name_of, int_of in Hu'. do 12 (wp_step; cbv zeta).
  eapply wp_accept; [apply lookup_put|reflexivity|]. cbn [offers put set_socks set_clock clock]. rewrite Eo.
  intros fd' ip' Hfd Hn Hip. cbn in Hn. apply lookup_insert_None in Hn as [Hn Hne].
  repeat (wp_step; cbv beta iota zeta); cbn [s_addr sin_family sin_port inet].
  - by apply Z.leb_le.
  - by rewrite Hf.
  - match goal with |- context [?x =? 0] => destruct (Z.eqb_spec x 0) as [E|E] end; [done|].
    rewrite Hip by done. cbn. by rewrite Z.eqb_refl.
  - apply Z.eqb_refl.
  - apply Hq. split; [done|]. split; [done|]. split; [done|]. split; [done|]. split; [done|]. split; [done|].
    eexists. reflexivity.
Qed.

Lemma serve_one_none {R} (f : Z * Z -> App R) Q :
  server_parses env = true -> in_use (listen_name env) k = false -> offers k = [] ->
  ~ wp (layer eof) (serve_one uninit env ≫= f) Q k.
Proof.
  intros Hp Hu Eo H%wp_bind_inv. unfold server_parses in Hp. parse_all Hp. unfold serve_one in H.
  unfold listen_name, name_of, int_of in Hu.
  do 12 (wp_inv H; cbv zeta in H). eapply wp_accept_inv in H; [|apply lookup_put|reflexivity].
  cbn [offers put set_socks set_clock clock] in H. rewrite Eo in H. by apply wp_expect_inv in H as [[=] _].
Qed.

Definition connected (fd : Z) (rp : Reply) (k' : Net) : Prop :=
  socks k !! fd = None /\ clock k' = Z.max (connect_from env k) (re_time rp) /\
  settled k' = settled k /\ finished k' = finished k /\ exists a,
  socks k' = <[fd := mkSock (Some a) (Some (connect_name env)) (re_data rp) []]> (socks k).

Lemma connect_one_ok rp rest (Q : Z -> Net -> Prop) :
  client_parses env = true -> outcomes k = Some rp :: rest ->
  (forall fd k', connected fd rp k' -> Q fd k') -> wp (layer eof) (connect_one uninit env) Q k.
Proof.
  intros Hp Eo Hq. unfold client_parses in Hp. parse_all Hp. unfold connect_one. do 5 (wp_step; cbv zeta).
  eapply wp_connect; [apply lookup_put|]. cbn [outcomes put set_socks set_clock clock]. rewrite Eo.
  intros a _. repeat (wp_step; cbv beta iota zeta); try (cbn; apply Z.eqb_refl).
  apply Hq. split; [done|]. split; [done|]. split; [done|]. split; [done|]. exists a. cbn. by rewrite insert_insert_eq.
Qed.

Lemma connect_one_none {R} (f : Z -> App R) Q :
  client_parses env = true -> (forall rp rest, outcomes k <> Some rp :: rest) ->
  ~ wp (layer eof) (connect_one uninit env ≫= f) Q k.
Proof.
  intros Hp Hn H%wp_bind_inv. unfold client_parses in Hp. parse_all Hp. unfold connect_one in H.
  do 5 (wp_inv H; cbv zeta in H). eapply wp_connect_inv in H; [|apply lookup_put].
  cbn [outcomes put set_socks set_clock clock] in H.
  destruct (outcomes k) as [|[rp|] rest]; [|by destruct (Hn rp rest)|]; by apply wp_expect_inv in H as [[=] _].
Qed.

(** Closing both sockets of a server. *)
Lemma close_both {R} fd fd' s s' k1 (r : R) (Q : R -> Net -> Prop) :
  socks k1 = <[fd' := s']> (<[fd := s]> (socks k)) -> fd <> fd' -> socks k !! fd = None -> socks k !! fd' = None ->
  (forall k', socks k' = socks k -> clock k' = clock k1 -> finished k' = s :: s' :: finished k1 -> Q r k') ->
  wp (layer eof) (_ ← close fd'; _ ← close fd; mret r) Q k1.
Proof.
  intros Es Hne Hn Hn' Hq. eapply wp_close; [rewrite Es; apply lookup_insert_eq|].
  eapply wp_close; [cbn; rewrite lookup_delete_ne, Es, lookup_insert_ne, lookup_insert_eq by done; reflexivity|].
  apply wp_ret, Hq; [|done|done]. cbn. rewrite Es, delete_insert_eq, (delete_id _ fd') by (by rewrite lookup_insert_ne).
  by rewrite delete_insert_eq, delete_id.
Qed.

Lemma close_it {R} fd s k1 (r : R) (Q : R -> Net -> Prop) :
  socks k1 = <[fd := s]> (socks k) -> socks k !! fd = None ->
  (forall k', socks k' = socks k -> clock k' = clock k1 -> finished k' = s :: finished k1 -> Q r k') ->
  wp (layer eof) (_ ← close fd; mret r) Q k1.
Proof.
  intros Es Hn Hq. eapply wp_close; [rewrite Es; apply lookup_insert_eq|]. apply wp_ret, Hq; [|done|done].
  cbn. by rewrite Es, delete_insert_eq, delete_id.
Qed.

End establish.

(** ** The six tests *)

Definition parses (c : Class) : bool :=
  match c with
  | Accept env => server_parses env && known (atol (getenv env "CLOSE_TIME")) &&
                  (0 <=? long_of env "CLOSE_TIME") && (long_of env "CLOSE_TIME" <? 2 ^ 54)
  | Connect env => client_parses env && known (atol (getenv env "CLOSE_TIME")) &&
                   (0 <=? long_of env "CLOSE_TIME") && (long_of env "CLOSE_TIME" <? 2 ^ 54)
  end.

(** When the application calls [accept] or [connect]. *)
Definition waits_from (c : Class) (k : Net) : Z :=
  match c with Accept env => accept_from env k | Connect env => connect_from env k end.

Definition close_time (c : Class) : Z :=
  match c with Accept env => long_of env "CLOSE_TIME" | Connect env => long_of env "CLOSE_TIME" end.

(** The server's address is not in use, peers are AF_INET, times are 64-bit. *)
Definition unused (c : Class) (k : Net) : Prop :=
  0 <= clock k /\ waits_from c k < 2 ^ 64 /\
  match c with
  | Accept env => in_use (listen_name env) k = false /\
                  Forall (fun o => sin_family (of_peer o) = AF_INET /\ of_time o < 2 ^ 64) (offers k)
  | Connect env => Forall (fun o => forall rp, o = Some rp -> re_time rp < 2 ^ 64) (outcomes k)
  end.

(** The connection is there before it is to be closed. *)
Definition in_time (c : Class) (k : Net) : Prop :=
  match c with
  | Accept _ => exists o rest, offers k = o :: rest /\ Z.max (waits_from c k) (of_time o) / 1000 <= close_time c
  | Connect _ => exists rp rest, outcomes k = Some rp :: rest /\ Z.max (waits_from c k) (re_time rp) / 1000 <= close_time c
  end.

(** The application passes and closes its connection at the given moment. *)
Definition closes_at (eof : Z) (uninit : sockaddr_in) (c : Class) (k : Net) : Prop :=
  wp (layer eof) (main uninit c) (fun r k' => r = 0 /\ socks k' = socks k /\ now k' = close_time c) k.

Lemma waits_from_ge c k : clock k <= waits_from c k.
Proof.
  destruct c as [env|env]; cbn; unfold accept_from, connect_from; [|apply after_le].
  etrans; [apply (after_le (long_of env "LISTEN_TIME"))|apply after_le].
Qed.

Lemma accept_closes eof uninit env k :
  parses (Accept env) = true -> unused (Accept env) k -> closes_at eof uninit (Accept env) k <-> in_time (Accept env) k.
Proof.
  intros Hp (Hk & Hw & Hu & Hf). pose proof (waits_from_ge (Accept env) k) as Hge. cbn [parses] in Hp.
  apply andb_prop in Hp as [[[Hp H1]%andb_prop H0]%andb_prop H].
  bool_to_prop. apply known_value in H1. fold (long_of env "CLOSE_TIME") in H1. unfold closes_at. cbn [main in_time close_time].
  unfold TestClose_Accept. split.
  - intros H'. destruct (offers k) as [|o rest] eqn:Eo; [by apply serve_one_none in H'|].
    apply Forall_cons in Hf as [[Hf Ho] _]. exists o, rest. split; [done|]. apply Z.nlt_ge. intros Hlate. revert H'.
    apply (wp_bind_stuck _ _ _ (fun p k' => accepted env k (fst p) (snd p) o k')); [by eapply serve_one_ok|].
    intros [fd fd'] k' Ha Hw'. cbn in Ha. eapply wp_checked_inv in Hw'; [|exact H1]. revert Hw'.
    destruct Ha as (_ & _ & _ & Hc & _). apply sleep_until_late; unfold now; rewrite ?Hc; cbn in *; lia.
  - intros (o & rest & Eo & Ht). rewrite Eo in Hf. apply Forall_cons in Hf as [[Hf Ho] _].
    apply wp_bind. eapply serve_one_ok; [done..|]. intros fd fd' k' (Hne & Hn & Hn' & Hc & _ & _ & a & Es).
    eapply wp_checked; [exact H1|]. apply wp_bind, sleep_until_ok; unfold now; rewrite ?Hc; cbn in *; try lia.
    intros k2 Hnow _ ->. eapply close_both; [exact Es|done..|]. intros k3 E1 E2 _. split; [done|]. split; [done|].
    unfold now. rewrite E2. exact Hnow.
Qed.

Lemma connect_closes eof uninit env k :
  parses (Connect env) = true -> unused (Connect env) k -> closes_at eof uninit (Connect env) k <-> in_time (Connect env) k.
Proof.
  intros Hp (Hk & Hw & Hf). pose proof (waits_from_ge (Connect env) k) as Hge. cbn [parses] in Hp.
  apply andb_prop in Hp as [[[Hp H1]%andb_prop H0]%andb_prop H].
  bool_to_prop. apply known_value in H1. fold (long_of env "CLOSE_TIME") in H1. unfold closes_at. cbn [main in_time close_time].
  unfold TestClose_Connect. split.
  - intros H'. destruct (outcomes k) as [|[rp|] rest] eqn:Eo.
    1, 3: apply connect_one_none in H'; [done|done|by rewrite Eo].
    apply Forall_cons in Hf as [Hf _]. specialize (Hf rp eq_refl). exists rp, rest. split; [done|].
    apply Z.nlt_ge. intros Hlate. revert H'.
    apply (wp_bind_stuck _ _ _ (fun p k' => connected env k p rp k')); [by eapply connect_one_ok|].
    intros fd k' Ha Hw'. eapply wp_checked_inv in Hw'; [|exact H1]. revert Hw'.
    destruct Ha as (_ & Hc & _). apply sleep_until_late; unfold now; rewrite ?Hc; cbn in *; lia.
  - intros (rp & rest & Eo & Ht). rewrite Eo in Hf. apply Forall_cons in Hf as [Hf _]. specialize (Hf rp eq_refl).
    apply wp_bind. eapply connect_one_ok; [done..|]. intros fd k' (Hn & Hc & _ & _ & a & Es).
    eapply wp_checked; [exact H1|]. apply wp_bind, sleep_until_ok; unfold now; rewrite ?Hc; cbn in *; try lia.
    intros k2 Hnow _ ->. eapply close_it; [exact Es|done|]. intros k3 E1 E2 _. split; [done|]. split; [done|].
    unfold now. rewrite E2. exact Hnow.
Qed.

Lemma closes_iff eof uninit c k : parses c = true -> unused c k -> closes_at eof uninit c k <-> in_time c k.
Proof. destruct c; [apply accept_closes | apply connect_closes]. Qed.

(** A client, the server it connects to, and who closes first. *)
Definition pair_ok (apps : list (HostRef * Class)) (order : comparison) : bool :=
  match apps with
  | [(hc, Connect ce); (hs, Accept ae)] =>
      negb (bool_decide (hc = hs)) && TestHandshake.reaches hs (listen_name ae) (connect_name ce) &&
      match (long_of ce "CLOSE_TIME" ?= long_of ae "CLOSE_TIME"), order with Lt, Lt | Gt, Gt | Eq, Eq => true | _, _ => false end
  | _ => false
  end.

(** Who closes first in the tests, by their names: the client ([Lt]), the
    server ([Gt]) or both at once ([Eq]). *)
Definition orders : list comparison := [Lt; Gt; Eq; Lt; Gt; Eq].

Definition test_ok (t : Res (Bench Class)) (order : comparison) : bool :=
  match t with Ok b => pair_ok (launched b) order && forallb (fun a => parses (snd a)) (launched b) | Err _ => false end.

Lemma close_tests_ok : forallb (fun '(t, o) => test_ok t o) (zip tests orders) = true /\ length tests = length orders.
Proof. split; vm_compute; reflexivity. Qed.


End TestClose.
