(* ===== verification/TestTransfer.v ===== *)
(** * TestTransfer: the tests of [read] and [write]

    Models app/kens/testtransfer.cpp and app/kens/testcongestion.cpp: the four
    application classes and the fifteen tests.  One side writes a
    pseudo-random byte stream, the other reads it and compares it with the
    same stream generated from the same seed.  The random number generator is
    the C++ library's and a parameter: [rand_d seed n] is the [n]-th value
    drawn.  What an allocated buffer holds at first is a parameter too. *)

From ITree Require Import ITree.
From stdpp Require Import pretty.
From S2P Require Import Prelude TimeUtil Assignments TestEnv TestProg SocketLayer TestBench TestHandshake TestClose.
Import TimeUtil SocketLayer TestBench TestClose.
Import TestHandshake(known, value, int_of, name_of, known_value, listening).
Local Open Scope Z_scope.

Module TestTransfer.

(** An [int] that must not overflow. *)
Definition as_int (v : Z) : Res Z :=
  if (- 2 ^ 31 <=? v) && (v <? 2 ^ 31) then Ok v else Err Indeterminate.

(** Data put at an offset of a buffer. *)
Definition store (off : nat) (bytes buf : list Z) : list Z :=
  take off buf ++ bytes ++ drop (off + length bytes) buf.

Section programs.
Context (uninit : sockaddr_in) (malloc : nat -> list Z) (rand_d : Z -> nat -> Z).

(** The bytes the next [n] draws leave in a buffer, after [drawn] draws. *)
Definition fill (seed : Z) (drawn n : nat) : list Z := (fun i => wrap 8 (rand_d seed i)) <$> seq drawn n.

(** The inner loop of a sender: [write] what remains of the buffer. *)
Definition write_loop (fd : Z) (send_buffer : list Z) (buffer_size total_size : Z) : App (Z * Z) :=
  ITree.iter (fun '(remaining, total_size) =>
    write_byte ← write fd (take (Z.to_nat remaining) (drop (Z.to_nat (buffer_size - remaining)) send_buffer));
    if 0 <=? write_byte then
      total_size ← checked (as_long (total_size + write_byte));
      let remaining := remaining - write_byte in
      _ ← expect (0 <=? remaining);
      if remaining =? 0 then mret (inr (write_byte, total_size)) else mret (inl (remaining, total_size))
    else mret (inr (write_byte, total_size))) (buffer_size, total_size).

(** The body of the inner loop of a receiver, after [read]. *)
Definition take_in (buffer_size remaining total_size : Z) (recv_buffer : list Z) (read_byte : Z) (bytes : list Z)
  : App (Z * Z * list Z + Z * Z * Z * list Z) :=
  if 0 <=? read_byte then
    let recv_buffer := store (Z.to_nat (buffer_size - remaining)) bytes recv_buffer in
    total_size ← checked (as_long (total_size + read_byte));
    let remaining := remaining - read_byte in
    _ ← expect (0 <=? remaining);
    if remaining =? 0 then mret (inr (read_byte, remaining, total_size, recv_buffer))
    else mret (inl (remaining, total_size, recv_buffer))
  else mret (inr (read_byte, remaining, total_size, recv_buffer)).

(** The loop: [read] until the buffer is full. *)
Definition read_loop (fd : Z) (recv_buffer : list Z) (buffer_size total_size : Z) : App (Z * Z * Z * list Z) :=
  ITree.iter (fun '(remaining, total_size, recv_buffer) =>
    '(read_byte, bytes) ← read fd remaining;
    take_in buffer_size remaining total_size recv_buffer read_byte bytes) (buffer_size, total_size, recv_buffer).

(** [EXPECT_EQ(send_buffer[j], recv_buffer[j])] for the given indices. *)
Fixpoint expect_equal (send_buffer recv_buffer : list Z) (js : list nat) : App unit :=
  match js with
  | [] => mret tt
  | j :: js => _ ← expect (bool_decide (send_buffer !! j = recv_buffer !! j)); expect_equal send_buffer recv_buffer js
  end.

(** The end of a round: [loop++] and the test that stops the loop. *)
Definition next_round (loop_count loop total_size : Z) (drawn : nat) (recv_buffer : list Z)
  : App ((Z * Z * nat * list Z) + Z) :=
  loop ← checked (as_int (loop + 1));
  if negb (loop_count =? 0) && (loop_count <=? loop) then mret (inr total_size)
  else mret (inl (loop, total_size, drawn, recv_buffer)).

(** [while (!stop)], with the number of draws so far. *)
Definition transfer_loop (fd seed is_send buffer_size loop_count : Z) : Z * Z * nat * list Z -> App Z :=
  ITree.iter (fun '(loop, total_size, drawn, recv_buffer) =>
    let send_buffer := fill seed drawn (Z.to_nat buffer_size) in
    let drawn := (drawn + Z.to_nat buffer_size)%nat in
    if negb (is_send =? 0) then
      '(write_byte, total_size) ← write_loop fd send_buffer buffer_size total_size;
      if write_byte <? 0 then mret (inr total_size) else next_round loop_count loop total_size drawn recv_buffer
    else
      '(read_byte, remaining, total_size, recv_buffer) ← read_loop fd recv_buffer buffer_size total_size;
      _ ← (if 0 <? buffer_size - remaining
           then expect_equal send_buffer recv_buffer (seq 0 (Z.to_nat (buffer_size - remaining))) else mret tt);
      if read_byte <? 0 then mret (inr total_size) else next_round loop_count loop total_size drawn recv_buffer).

(** From the reading of the environment to the comparison of the sizes; a
    buffer of negative size cannot be used. *)
Definition transfer (fd : Z) (env : Environment) : App unit :=
  seed ← env_int env "RANDOM_SEED";
  is_send ← env_int env "SENDER";
  buffer_size ← env_int env "BUFFER_SIZE";
  loop_count ← env_int env "LOOP_COUNT";
  expect_size ← env_int env "EXPECT_SIZE";
  _ ← checked (if buffer_size <? 0 then Err Indeterminate else Ok tt);
  total_size ← transfer_loop fd (wrap 32 seed) is_send buffer_size loop_count (0, 0, O, malloc (Z.to_nat buffer_size));
  _ ← expect (expect_size =? total_size);
  mret tt.

(** ** The applications *)

(** From the first line to the start of the transfer. *)
Definition server_session (env : Environment) : App (Z * Z) :=
  '(server_socket, client_fd) ← serve_one uninit env;
  start_time ← env_long env "START_TIME";
  _ ← sleep_until start_time;
  mret (server_socket, client_fd).

Definition client_session (env : Environment) : App Z :=
  client_socket ← connect_one uninit env;
  start_time ← env_long env "START_TIME";
  _ ← sleep_until start_time;
  mret client_socket.

Definition TestTransfer_Accept (env : Environment) : App Z :=
  '(server_socket, client_fd) ← server_session env;
  _ ← transfer client_fd env;
  _ ← close client_fd;
  _ ← close server_socket;
  mret 0.

Definition TestTransfer_Connect (env : Environment) : App Z :=
  client_socket ← client_session env;
  _ ← transfer client_socket env;
  _ ← close client_socket;
  mret 0.

Definition TestCongestion_Accept (env : Environment) : App Z :=
  connection_timeout ← env_int env "CONNECTION_TIMEOUT";
  '(server_socket, client_fd) ← server_session env;
  _ ← transfer client_fd env;
  '(_, (tv_sec, _)) ← gettimeofday;
  _ ← expect (tv_sec <? connection_timeout);
  _ ← close client_fd;
  _ ← close server_socket;
  mret 0.

Definition TestCongestion_Connect (env : Environment) : App Z :=
  client_socket ← client_session env;
  _ ← transfer client_socket env;
  _ ← close client_socket;
  mret 0.

End programs.

(** ** The tests *)

Inductive Class :=
| Accept (env : Environment)
| Connect (env : Environment)
| CongestionAccept (env : Environment)
| CongestionConnect (env : Environment).

Definition main (uninit : sockaddr_in) (malloc : nat -> list Z) (rand_d : Z -> nat -> Z) (c : Class) : App Z :=
  match c with
  | Accept env => TestTransfer_Accept uninit malloc rand_d env
  | Connect env => TestTransfer_Connect uninit malloc rand_d env
  | CongestionAccept env => TestCongestion_Accept uninit malloc rand_d env
  | CongestionConnect env => TestCongestion_Connect uninit malloc rand_d env
  end.

(** [seed] is the value of [rand()]; assigning it to a string keeps a single
    character of it. *)
Section bodies.
Context (seed : Z).

Definition TestTransfer_Connect_Send_Symmetric : Res (Bench Class) :=
  let accept_env := assign [("RANDOM_SEED", string_of_int_assignment seed)]%string ∅ in
  let connect_env := assign [("RANDOM_SEED", string_of_int_assignment seed)]%string ∅ in
  ip1 ← getIPAddr host1 0;
  ip2 ← getIPAddr host2 0;
  let accept_env := assign
    [("LISTEN_ADDR", "0.0.0.0"); ("LISTEN_PORT", "9999"); ("BACKLOG", "1"); ("LISTEN_TIME", "0");
     ("ACCEPT_TIME", usec 1000 USEC); ("START_TIME", usec 1 SEC)]%string accept_env in
  let connect_env := assign
    [("CONNECT_PORT", "9999"); ("CONNECT_TIME", usec 2000 USEC); ("START_TIME", usec 1 SEC)]%string connect_env in
  let connect_env := assign
    [("CONNECT_ADDR", ip_string ip2); ("BUFFER_SIZE", "1024"); ("LOOP_COUNT", "128"); ("SENDER", "1");
     ("EXPECT_SIZE", "131072")]%string connect_env in
  '(b, client_pid) ← addApplication host1 (Connect connect_env) (start TestEnv_Any);
  let accept_env := assign
    [("SENDER", "0"); ("BUFFER_SIZE", "1024"); ("LOOP_COUNT", "128"); ("EXPECT_SIZE", "131072")]%string accept_env in
  '(b, server_pid) ← addApplication host2 (Accept accept_env) b;
  b ← launchApplication host2 server_pid b;
  launchApplication host1 client_pid b.

Definition TestTransfer_Connect_Send_EOF : Res (Bench Class) :=
  let accept_env := assign [("RANDOM_SEED", string_of_int_assignment seed)]%string ∅ in
  let connect_env := assign [("RANDOM_SEED", string_of_int_assignment seed)]%string ∅ in
  ip1 ← getIPAddr host1 0;
  ip2 ← getIPAddr host2 0;
  let accept_env := assign
    [("LISTEN_ADDR", "0.0.0.0"); ("LISTEN_PORT", "9999"); ("BACKLOG", "1"); ("LISTEN_TIME", "0");
     ("ACCEPT_TIME", usec 1000 USEC); ("START_TIME", usec 1 SEC)]%string accept_env in
  let connect_env := assign
    [("CONNECT_PORT", "9999"); ("CONNECT_TIME", usec 2000 USEC); ("START_TIME", usec 1 SEC)]%string connect_env in
  let connect_env := assign
    [("CONNECT_ADDR", ip_string ip2); ("BUFFER_SIZE", "1024"); ("LOOP_COUNT", "128"); ("SENDER", "1");
     ("EXPECT_SIZE", "131072")]%string connect_env in
  '(b, client_pid) ← addApplication host1 (Connect connect_env) (start TestEnv_Any);
  let accept_env := assign
    [("SENDER", "0"); ("BUFFER_SIZE", "1024"); ("LOOP_COUNT", "0"); ("EXPECT_SIZE", "131072")]%string accept_env in
  '(b, server_pid) ← addApplication host2 (Accept accept_env) b;
  b ← launchApplication host2 server_pid b;
  launchApplication host1 client_pid b.

Definition TestTransfer_Connect_Recv_Symmetric : Res (Bench Class) :=
  let accept_env := assign [("RANDOM_SEED", string_of_int_assignment seed)]%string ∅ in
  let connect_env := assign [("RANDOM_SEED", string_of_int_assignment seed)]%string ∅ in
  ip1 ← getIPAddr host1 0;
  ip2 ← getIPAddr host2 0;
  let accept_env := assign
    [("LISTEN_ADDR", "0.0.0.0"); ("LISTEN_PORT", "9999"); ("BACKLOG", "1"); ("LISTEN_TIME", "0");
     ("ACCEPT_TIME", usec 1000 USEC); ("START_TIME", usec 1 SEC)]%string accept_env in
  let connect_env := assign
    [("CONNECT_PORT", "9999"); ("CONNECT_TIME", usec 2000 USEC); ("START_TIME", usec 1 SEC)]%string connect_env in
  let connect_env := assign
    [("CONNECT_ADDR", ip_string ip2); ("BUFFER_SIZE", "1024"); ("LOOP_COUNT", "128"); ("SENDER", "0");
     ("EXPECT_SIZE", "131072")]%string connect_env in
  '(b, client_pid) ← addApplication host1 (Connect connect_env) (start TestEnv_Any);
  let accept_env := assign
    [("SENDER", "1"); ("BUFFER_SIZE", "1024"); ("LOOP_COUNT", "128"); ("EXPECT_SIZE", "131072")]%string accept_env in
  '(b, server_pid) ← addApplication host2 (Accept accept_env) b;
  b ← launchApplication host2 server_pid b;
  launchApplication host1 client_pid b.

Definition TestTransfer_Connect_Recv_EOF : Res (Bench Class) :=
  let accept_env := assign [("RANDOM_SEED", string_of_int_assignment seed)]%string ∅ in
  let connect_env := assign [("RANDOM_SEED", string_of_int_assignment seed)]%string ∅ in
  ip1 ← getIPAddr host1 0;
  ip2 ← getIPAddr host2 0;
  let accept_env := assign
    [("LISTEN_ADDR", "0.0.0.0"); ("LISTEN_PORT", "9999"); ("BACKLOG", "1"); ("LISTEN_TIME", "0");
     ("ACCEPT_TIME", usec 1000 USEC); ("START_TIME", usec 1 SEC)]%string accept_env in
  let connect_env := assign
    [("CONNECT_PORT", "9999"); ("CONNECT_TIME", usec 2000 USEC); ("START_TIME", usec 1 SEC)]%string connect_env in
  let connect_env := assign
    [("CONNECT_ADDR", ip_string ip2); ("BUFFER_SIZE", "1024"); ("LOOP_COUNT", "0"); ("SENDER", "0");
     ("EXPECT_SIZE", "131072")]%string connect_env in
  '(b, client_pid) ← addApplication host1 (Connect connect_env) (start TestEnv_Any);
  let accept_env := assign
    [("SENDER", "1"); ("BUFFER_SIZE", "1024"); ("LOOP_COUNT", "128"); ("EXPECT_SIZE", "131072")]%string accept_env in
  '(b, server_pid) ← addApplication host2 (Accept accept_env) b;
  b ← launchApplication host2 server_pid b;
  launchApplication host1 client_pid b.

Definition TestTransfer_Connect_Recv_SmallBuffer1 : Res (Bench Class) :=
  let accept_env := assign [("RANDOM_SEED", string_of_int_assignment seed)]%string ∅ in
  let connect_env := assign [("RANDOM_SEED", string_of_int_assignment seed)]%string ∅ in
  ip1 ← getIPAddr host1 0;
  ip2 ← getIPAddr host2 0;
  let accept_env := assign
    [("LISTEN_ADDR", "0.0.0.0"); ("LISTEN_PORT", "9999"); ("BACKLOG", "1"); ("LISTEN_TIME", "0");
     ("ACCEPT_TIME", usec 1000 USEC); ("START_TIME", usec 1 SEC)]%string accept_env in
  let connect_env := assign
    [("CONNECT_PORT", "9999"); ("CONNECT_TIME", usec 2000 USEC); ("START_TIME", usec 1 SEC)]%string connect_env in
  let connect_env := assign
    [("CONNECT_ADDR", ip_string ip2); ("BUFFER_SIZE", "128"); ("LOOP_COUNT", "0"); ("SENDER", "0");
     ("EXPECT_SIZE", "131072")]%string connect_env in
  '(b, client_pid) ← addApplication host1 (Connect connect_env) (start TestEnv_Any);
  let accept_env := assign
    [("SENDER", "1"); ("BUFFER_SIZE", "1024"); ("LOOP_COUNT", "128"); ("EXPECT_SIZE", "131072")]%string accept_env in
  '(b, server_pid) ← addApplication host2 (Accept accept_env) b;
  b ← launchApplication host2 server_pid b;
  launchApplication host1 client_pid b.

Definition TestTransfer_Connect_Recv_SmallBuffer2 : Res (Bench Class) :=
  let accept_env := assign [("RANDOM_SEED", string_of_int_assignment seed)]%string ∅ in
  let connect_env := assign [("RANDOM_SEED", string_of_int_assignment seed)]%string ∅ in
  ip1 ← getIPAddr host1 0;
  ip2 ← getIPAddr host2 0;
  let accept_env := assign
    [("LISTEN_ADDR", "0.0.0.0"); ("LISTEN_PORT", "9999"); ("BACKLOG", "1"); ("LISTEN_TIME", "0");
     ("ACCEPT_TIME", usec 1000 USEC); ("START_TIME", usec 1 SEC)]%string accept_env in
  let connect_env := assign
    [("CONNECT_PORT", "9999"); ("CONNECT_TIME", usec 2000 USEC); ("START_TIME", usec 1 SEC)]%string connect_env in
  let connect_env := assign
    [("CONNECT_ADDR", ip_string ip2); ("BUFFER_SIZE", "67"); ("LOOP_COUNT", "0"); ("SENDER", "0");
     ("EXPECT_SIZE", "64819")]%string connect_env in
  '(b, client_pid) ← addApplication host1 (Connect connect_env) (start TestEnv_Any);
  let accept_env := assign
    [("SENDER", "1"); ("BUFFER_SIZE", "53"); ("LOOP_COUNT", "1223"); ("EXPECT_SIZE", "64819")]%string accept_env in
  '(b, server_pid) ← addApplication host2 (Accept accept_env) b;
  b ← launchApplication host2 server_pid b;
  launchApplication host1 client_pid b.

Definition TestTransfer_Accept_Send_Symmetric : Res (Bench Class) :=
  let accept_env := assign [("RANDOM_SEED", string_of_int_assignment seed)]%string ∅ in
  let connect_env := assign [("RANDOM_SEED", string_of_int_assignment seed)]%string ∅ in
  ip1 ← getIPAddr host1 0;
  ip2 ← getIPAddr host2 0;
  let accept_env := assign
    [("LISTEN_ADDR", "0.0.0.0"); ("LISTEN_PORT", "9999"); ("BACKLOG", "1"); ("LISTEN_TIME", "0");
     ("ACCEPT_TIME", usec 1000 USEC); ("START_TIME", usec 1 SEC)]%string accept_env in
  let connect_env := assign
    [("CONNECT_PORT", "9999"); ("CONNECT_TIME", usec 2000 USEC); ("START_TIME", usec 1 SEC)]%string connect_env in
  let accept_env := assign
    [("BUFFER_SIZE", "1024"); ("LOOP_COUNT", "128"); ("SENDER", "1"); ("EXPECT_SIZE", "131072")]%string accept_env in
  '(b, server_pid) ← addApplication host1 (Accept accept_env) (start TestEnv_Any);
  let connect_env := assign
    [("CONNECT_ADDR", ip_string ip1); ("SENDER", "0"); ("BUFFER_SIZE", "1024"); ("LOOP_COUNT", "128");
     ("EXPECT_SIZE", "131072")]%string connect_env in
  '(b, client_pid) ← addApplication host2 (Connect connect_env) b;
  b ← launchApplication host1 server_pid b;
  launchApplication host2 client_pid b.

Definition TestTransfer_Accept_Send_EOF : Res (Bench Class) :=
  let accept_env := assign [("RANDOM_SEED", string_of_int_assignment seed)]%string ∅ in
  let connect_env := assign [("RANDOM_SEED", string_of_int_assignment seed)]%string ∅ in
  ip1 ← getIPAddr host1 0;
  ip2 ← getIPAddr host2 0;
  let accept_env := assign
    [("LISTEN_ADDR", "0.0.0.0"); ("LISTEN_PORT", "9999"); ("BACKLOG", "1"); ("LISTEN_TIME", "0");
     ("ACCEPT_TIME", usec 1000 USEC); ("START_TIME", usec 1 SEC)]%string accept_env in
  let connect_env := assign
    [("CONNECT_PORT", "9999"); ("CONNECT_TIME", usec 2000 USEC); ("START_TIME", usec 1 SEC)]%string connect_env in
  let accept_env := assign
    [("BUFFER_SIZE", "1024"); ("LOOP_COUNT", "128"); ("SENDER", "1"); ("EXPECT_SIZE", "131072")]%string accept_env in
  '(b, server_pid) ← addApplication host1 (Accept accept_env) (start TestEnv_Any);
  let connect_env := assign
    [("CONNECT_ADDR", ip_string ip1); ("SENDER", "0"); ("BUFFER_SIZE", "1024"); ("LOOP_COUNT", "0");
     ("EXPECT_SIZE", "131072")]%string connect_env in
  '(b, client_pid) ← addApplication host2 (Connect connect_env) b;
  b ← launchApplication host1 server_pid b;
  launchApplication host2 client_pid b.

Definition TestTransfer_Accept_Recv_Symmetric : Res (Bench Class) :=
  let accept_env := assign [("RANDOM_SEED", string_of_int_assignment seed)]%string ∅ in
  let connect_env := assign [("RANDOM_SEED", string_of_int_assignment seed)]%string ∅ in
  ip1 ← getIPAddr host1 0;
  ip2 ← getIPAddr host2 0;
  let accept_env := assign
    [("LISTEN_ADDR", "0.0.0.0"); ("LISTEN_PORT", "9999"); ("BACKLOG", "1"); ("LISTEN_TIME", "0");
     ("ACCEPT_TIME", usec 1000 USEC); ("START_TIME", usec 1 SEC)]%string accept_env in
  let connect_env := assign
    [("CONNECT_PORT", "9999"); ("CONNECT_TIME", usec 2000 USEC); ("START_TIME", usec 1 SEC)]%string connect_env in
  let accept_env := assign
    [("BUFFER_SIZE", "1024"); ("LOOP_COUNT", "128"); ("SENDER", "0"); ("EXPECT_SIZE", "131072")]%string accept_env in
  '(b, server_pid) ← addApplication host1 (Accept accept_env) (start TestEnv_Any);
  let connect_env := assign
    [("CONNECT_ADDR", ip_string ip1); ("SENDER", "1"); ("BUFFER_SIZE", "1024"); ("LOOP_COUNT", "128");
     ("EXPECT_SIZE", "131072")]%string connect_env in
  '(b, client_pid) ← addApplication host2 (Connect connect_env) b;
  b ← launchApplication host1 server_pid b;
  launchApplication host2 client_pid b.

Definition TestTransfer_Accept_Recv_EOF : Res (Bench Class) :=
  let accept_env := assign [("RANDOM_SEED", string_of_int_assignment seed)]%string ∅ in
  let connect_env := assign [("RANDOM_SEED", string_of_int_assignment seed)]%string ∅ in
  ip1 ← getIPAddr host1 0;
  ip2 ← getIPAddr host2 0;
  let accept_env := assign
    [("LISTEN_ADDR", "0.0.0.0"); ("LISTEN_PORT", "9999"); ("BACKLOG", "1"); ("LISTEN_TIME", "0");
     ("ACCEPT_TIME", usec 1000 USEC); ("START_TIME", usec 1 SEC)]%string accept_env in
  let connect_env := assign
    [("CONNECT_PORT", "9999"); ("CONNECT_TIME", usec 2000 USEC); ("START_TIME", usec 1 SEC)]%string connect_env in
  let accept_env := assign
    [("BUFFER_SIZE", "1024"); ("LOOP_COUNT", "0"); ("SENDER", "0"); ("EXPECT_SIZE", "131072")]%string accept_env in
  '(b, server_pid) ← addApplication host1 (Accept accept_env) (start TestEnv_Any);
  let connect_env := assign
    [("CONNECT_ADDR", ip_string ip1); ("SENDER", "1"); ("BUFFER_SIZE", "1024"); ("LOOP_COUNT", "128");
     ("EXPECT_SIZE", "131072")]%string connect_env in
  '(b, client_pid) ← addApplication host2 (Connect connect_env) b;
  b ← launchApplication host1 server_pid b;
  launchApplication host2 client_pid b.

Definition TestTransfer_Accept_Recv_SmallBuffer1 : Res (Bench Class) :=
  let accept_env := assign [("RANDOM_SEED", string_of_int_assignment seed)]%string ∅ in
  let connect_env := assign [("RANDOM_SEED", string_of_int_assignment seed)]%string ∅ in
  ip1 ← getIPAddr host1 0;
  ip2 ← getIPAddr host2 0;
  let accept_env := assign
    [("LISTEN_ADDR", "0.0.0.0"); ("LISTEN_PORT", "9999"); ("BACKLOG", "1"); ("LISTEN_TIME", "0");
     ("ACCEPT_TIME", usec 1000 USEC); ("START_TIME", usec 1 SEC)]%string accept_env in
  let connect_env := assign
    [("CONNECT_PORT", "9999"); ("CONNECT_TIME", usec 2000 USEC); ("START_TIME", usec 1 SEC)]%string connect_env in
  let accept_env := assign
    [("BUFFER_SIZE", "128"); ("LOOP_COUNT", "0"); ("SENDER", "0"); ("EXPECT_SIZE", "131072")]%string accept_env in
  '(b, server_pid) ← addApplication host1 (Accept accept_env) (start TestEnv_Any);
  let connect_env := assign
    [("CONNECT_ADDR", ip_string ip1); ("SENDER", "1"); ("BUFFER_SIZE", "1024"); ("LOOP_COUNT", "128");
     ("EXPECT_SIZE", "131072")]%string connect_env in
  '(b, client_pid) ← addApplication host2 (Connect connect_env) b;
  b ← launchApplication host1 server_pid b;
  launchApplication host2 client_pid b.

Definition TestTransfer_Accept_Recv_SmallBuffer2 : Res (Bench Class) :=
  let accept_env := assign [("RANDOM_SEED", string_of_int_assignment seed)]%string ∅ in
  let connect_env := assign [("RANDOM_SEED", string_of_int_assignment seed)]%string ∅ in
  ip1 ← getIPAddr host1 0;
  ip2 ← getIPAddr host2 0;
  let accept_env := assign
    [("LISTEN_ADDR", "0.0.0.0"); ("LISTEN_PORT", "9999"); ("BACKLOG", "1"); ("LISTEN_TIME", "0");
     ("ACCEPT_TIME", usec 1000 USEC); ("START_TIME", usec 1 SEC)]%string accept_env in
  let connect_env := assign
    [("CONNECT_PORT", "9999"); ("CONNECT_TIME", usec 2000 USEC); ("START_TIME", usec 1 SEC)]%string connect_env in
  let accept_env := assign
    [("BUFFER_SIZE", "67"); ("LOOP_COUNT", "0"); ("SENDER", "0"); ("EXPECT_SIZE", "64819")]%string accept_env in
  '(b, server_pid) ← addApplication host1 (Accept accept_env) (start TestEnv_Any);
  let connect_env := assign
    [("CONNECT_ADDR", ip_string ip1); ("SENDER", "1"); ("BUFFER_SIZE", "53"); ("LOOP_COUNT", "1223");
     ("EXPECT_SIZE", "64819")]%string connect_env in
  '(b, client_pid) ← addApplication host2 (Connect connect_env) b;
  b ← launchApplication host1 server_pid b;
  launchApplication host2 client_pid b.

(** The body of the loop of TestCongestion0. *)
Definition congestion0_client (connect_addr : string) (k : nat) (st : Environment * Environment * Bench Class)
  : Res (Environment * Environment * Bench Class) :=
  let '(accept_env, connect_env, b) := st in
  let connect_port := pretty (Z.of_nat k + 10000) in
  let start_time := wrap 64 (makeTime 1 SEC + makeTime 0 SEC) in
  let accept_env := assign
    [("LISTEN_ADDR", "0.0.0.0"); ("LISTEN_PORT", connect_port); ("BACKLOG", "1"); ("LISTEN_TIME", "0");
     ("ACCEPT_TIME", usec 1000 USEC); ("START_TIME", printTime start_time USEC)]%string accept_env in
  let connect_env := assign
    [("CONNECT_PORT", connect_port); ("CONNECT_TIME", usec 2000 USEC); ("START_TIME", printTime start_time USEC);
     ("CONNECT_ADDR", connect_addr); ("BUFFER_SIZE", "1024"); ("LOOP_COUNT", "100000"); ("SENDER", "1");
     ("EXPECT_SIZE", "102400000")]%string connect_env in
  '(b, client_pid) ← addApplication (client_hosts k) (CongestionConnect connect_env) b;
  let accept_env := assign
    [("SENDER", "0"); ("BUFFER_SIZE", "1024"); ("LOOP_COUNT", "0"); ("EXPECT_SIZE", "102400000");
     ("CONNECTION_TIMEOUT", "92")]%string accept_env in
  '(b, server_pid) ← addApplication server_host (CongestionAccept accept_env) b;
  b ← launchApplication (client_hosts k) client_pid b;
  b ← launchApplication server_host server_pid b;
  Ok (accept_env, connect_env, b).

Definition TestCongestion0 : Res (Bench Class) :=
  let accept_env := assign [("RANDOM_SEED", string_of_int_assignment seed)]%string ∅ in
  let connect_env := assign [("RANDOM_SEED", string_of_int_assignment seed)]%string ∅ in
  server_ip ← getIPAddr server_host 0;
  '(_, _, b) ← foldM (congestion0_client (ip_string server_ip)) (seq 0 (num_client TestEnv_Congestion0))
                 (accept_env, connect_env, start TestEnv_Congestion0);
  Ok b.

(** The body of the loop of TestCongestion1. *)
Definition congestion1_client (connect_addr : string) (k : nat) (st : Environment * Environment * Bench Class)
  : Res (Environment * Environment * Bench Class) :=
  let '(accept_env, connect_env, b) := st in
  let connect_port := pretty (Z.of_nat k + 10000) in
  let start_time := wrap 64 (makeTime 1 SEC + makeTime 0 SEC) in
  let accept_env := assign
    [("LISTEN_ADDR", "0.0.0.0"); ("LISTEN_PORT", connect_port); ("BACKLOG", "1"); ("LISTEN_TIME", "0");
     ("ACCEPT_TIME", usec 1000 USEC); ("START_TIME", printTime start_time USEC)]%string accept_env in
  let connect_env := assign
    [("CONNECT_PORT", connect_port); ("CONNECT_TIME", usec 2000 USEC); ("START_TIME", printTime start_time USEC);
     ("CONNECT_ADDR", connect_addr); ("BUFFER_SIZE", "1024"); ("LOOP_COUNT", "10000"); ("SENDER", "1");
     ("EXPECT_SIZE", "10240000")]%string connect_env in
  '(b, client_pid) ← addApplication (client_hosts k) (CongestionConnect connect_env) b;
  let accept_env := assign
    [("SENDER", "0"); ("BUFFER_SIZE", "1024"); ("LOOP_COUNT", "0"); ("EXPECT_SIZE", "10240000");
     ("CONNECTION_TIMEOUT", "60")]%string accept_env in
  '(b, server_pid) ← addApplication server_host (CongestionAccept accept_env) b;
  b ← launchApplication (client_hosts k) client_pid b;
  b ← launchApplication server_host server_pid b;
  Ok (accept_env, connect_env, b).

Definition TestCongestion1 : Res (Bench Class) :=
  let accept_env := assign [("RANDOM_SEED", string_of_int_assignment seed)]%string ∅ in
  let connect_env := assign [("RANDOM_SEED", string_of_int_assignment seed)]%string ∅ in
  server_ip ← getIPAddr server_host 0;
  '(_, _, b) ← foldM (congestion1_client (ip_string server_ip)) (seq 0 (num_client TestEnv_Congestion1))
                 (accept_env, connect_env, start TestEnv_Congestion1);
  Ok b.

(** The body of the loop of TestCongestion2. *)
Definition congestion2_client (connect_addr : string) (k : nat) (st : Environment * Environment * Bench Class)
  : Res (Environment * Environment * Bench Class) :=
  let '(accept_env, connect_env, b) := st in
  let connect_port := pretty (Z.of_nat k + 10000) in
  let start_time := wrap 64 (makeTime 1 SEC + makeTime 0 SEC) in
  let accept_env := assign
    [("LISTEN_ADDR", "0.0.0.0"); ("LISTEN_PORT", connect_port); ("BACKLOG", "1"); ("LISTEN_TIME", "0");
     ("ACCEPT_TIME", usec 1000 USEC); ("START_TIME", printTime start_time USEC)]%string accept_env in
  let connect_env := assign
    [("CONNECT_PORT", connect_port); ("CONNECT_TIME", usec 2000 USEC); ("START_TIME", printTime start_time USEC);
     ("CONNECT_ADDR", connect_addr); ("BUFFER_SIZE", "1024"); ("LOOP_COUNT", "10000"); ("SENDER", "1");
     ("EXPECT_SIZE", "10240000")]%string connect_env in
  '(b, client_pid) ← addApplication (client_hosts k) (CongestionConnect connect_env) b;
  let accept_env := assign
    [("SENDER", "0"); ("BUFFER_SIZE", "1024"); ("LOOP_COUNT", "0"); ("EXPECT_SIZE", "10240000");
     ("CONNECTION_TIMEOUT", "150")]%string accept_env in
  '(b, server_pid) ← addApplication server_host (CongestionAccept accept_env) b;
  b ← launchApplication (client_hosts k) client_pid b;
  b ← launchApplication server_host server_pid b;
  Ok (accept_env, connect_env, b).

Definition TestCongestion2 : Res (Bench Class) :=
  let accept_env := assign [("RANDOM_SEED", string_of_int_assignment seed)]%string ∅ in
  let connect_env := assign [("RANDOM_SEED", string_of_int_assignment seed)]%string ∅ in
  server_ip ← getIPAddr server_host 0;
  '(_, _, b) ← foldM (congestion2_client (ip_string server_ip)) (seq 0 (num_client TestEnv_Congestion2))
                 (accept_env, connect_env, start TestEnv_Congestion2);
  Ok b.

Definition tests : list (Res (Bench Class)) :=
  [TestTransfer_Connect_Send_Symmetric; TestTransfer_Connect_Send_EOF;
   TestTransfer_Connect_Recv_Symmetric; TestTransfer_Connect_Recv_EOF;
   TestTransfer_Connect_Recv_SmallBuffer1; TestTransfer_Connect_Recv_SmallBuffer2;
   TestTransfer_Accept_Send_Symmetric; TestTransfer_Accept_Send_EOF;
   TestTransfer_Accept_Recv_Symmetric; TestTransfer_Accept_Recv_EOF;
   TestTransfer_Accept_Recv_SmallBuffer1; TestTransfer_Accept_Recv_SmallBuffer2; TestCongestion0;
   TestCongestion1; TestCongestion2].

End bodies.

End TestTransfer.
