(* ===== verification/TransferCorrect.v ===== *)
(** * TransferCorrect: what the transfer and congestion tests show

    The loops of [TestTransfer] against the socket layer: a sender writes the
    generated stream and nothing else, whatever the sizes [write] accepts; a
    receiver passes exactly if the stream that arrives is the generated one,
    whatever the pieces [read] gives; and a receiver that waits for the end of
    the stream does not end on a layer that reports it as read(2) says. *)

From ITree Require Import ITree.
From S2P Require Import Prelude TimeUtil Assignments TestEnv TestProg SocketLayer TestBench TestHandshake TestClose TestTransfer.
Import TimeUtil SocketLayer TestBench TestClose TestTransfer.
Import TestHandshake(known, value, int_of, name_of, known_value, listening).
Local Open Scope Z_scope.

Module TransferCorrect.

(** ** What transfers change *)

(** The socket [fd] is now [s]; waiting took until [settled] at most. *)
Record moved (fd : Z) (s : Sock) (k k' : Net) : Prop := {
  mv_socks : socks k' = <[fd := s]> (socks k);
  mv_settled : settled k' = settled k;
  mv_finished : finished k' = finished k;
  mv_clock : waited (clock k') k;
}.

Lemma moved_refl fd s k : socks k !! fd = Some s -> moved fd s k k.
Proof. intros H. split; [by rewrite insert_id|done|done|]. unfold waited. lia. Qed.

Lemma moved_lookup fd s k k' : moved fd s k k' -> socks k' !! fd = Some s.
Proof. intros [-> _ _ _]. apply lookup_insert_eq. Qed.

Lemma moved_put fd s s' t k k' : moved fd s k k' -> waited t k' -> moved fd s' k (set_clock t (put fd s' k')).
Proof.
  intros [H1 H2 H3 H4] Ht. split; cbn; [by rewrite H1, insert_insert_eq|done|done|]. unfold waited in *. rewrite H2 in Ht. lia.
Qed.

Lemma moved_wait fd s t k k' : moved fd s k k' -> waited t k' -> moved fd s k (set_clock t k').
Proof. intros [H1 H2 H3 H4] Ht. split; cbn; [done|done|done|]. unfold waited in *. rewrite H2 in Ht. lia. Qed.

Lemma moved_trans fd s s' k1 k2 k3 : moved fd s k1 k2 -> moved fd s' k2 k3 -> moved fd s' k1 k3.
Proof.
  intros [H1 H2 H3 H4] [K1 K2 K3 K4]. split; [by rewrite K1, H1, insert_insert_eq|congruence|congruence|].
  unfold waited in *. rewrite H2 in K4. lia.
Qed.

Definition received (s : Sock) (inbox : list Z) : Sock := mkSock (local s) (peer s) inbox (outbox s).
Definition sent (s : Sock) (outbox : list Z) : Sock := mkSock (local s) (peer s) (inbox s) outbox.

Lemma as_int_ok v : - 2 ^ 31 <= v < 2 ^ 31 -> as_int v = Ok v.
Proof.
  intros H. unfold as_int. by replace ((- 2 ^ 31 <=? v) && (v <? 2 ^ 31))%bool with true
    by (symmetry; apply andb_true_intro; split; [apply Z.leb_le | apply Z.ltb_lt]; lia).
Qed.

(** ** The generated stream *)
Section stream.
Context (rand_d : Z -> nat -> Z) (seed : Z).
Abbreviation fill := (fill rand_d seed).

Lemma length_fill c n : length (fill c n) = n.
Proof. unfold TestTransfer.fill. by rewrite length_fmap, length_seq. Qed.

Lemma fill_app c n m : fill c (n + m) = fill c n ++ fill (c + n) m.
Proof. unfold TestTransfer.fill. by rewrite seq_app, fmap_app. Qed.

Lemma take_fill c n m : (n <= m)%nat -> take n (fill c m) = fill c n.
Proof. intros H. replace m with (n + (m - n))%nat by lia. rewrite fill_app. by rewrite take_app_length' by (by rewrite length_fill). Qed.

Lemma drop_fill c n m : (n <= m)%nat -> drop n (fill c m) = fill (c + n) (m - n).
Proof.
  intros H. replace m with (n + (m - n))%nat at 1 by lia. rewrite fill_app. by rewrite drop_app_length' by (by rewrite length_fill).
Qed.

End stream.

Section loops.
Context (eof : Z) (fd : Z).
Abbreviation wp := (wp (layer eof)).

(** ** The inner loops *)

Lemma write_loop_ok buf bs total k s (Q : Z * Z -> Net -> Prop) :
  socks k !! fd = Some s -> Z.of_nat (length buf) = bs -> 0 <= total -> total + bs < 2 ^ 63 ->
  (forall w k', 0 <= w -> moved fd (sent s (outbox s ++ buf)) k k' -> Q (w, total + bs) k') ->
  wp (write_loop fd buf bs total) Q k.
Proof.
  intros Hs Hl H0 Hlt Hq. unfold write_loop.
  apply (wp_iter _ (fun '(remaining, tot) k' => 0 <= remaining <= bs /\ tot = total + (bs - remaining) /\
    moved fd (sent s (outbox s ++ take (Z.to_nat (bs - remaining)) buf)) k k') (fun '(remaining, _) _ => Z.to_nat remaining)).
  - intros [rem tot] k' (Hr & -> & Hm). set (off := Z.to_nat (bs - rem)) in *.
    assert (length (take (Z.to_nat rem) (drop off buf)) = Z.to_nat rem) as Hlen
      by (rewrite length_take, length_drop; lia).
    eapply wp_write; [exact (moved_lookup _ _ _ _ Hm)|]. intros n t Hn Hpos Ht. rewrite Hlen in Hn.
    replace (0 <=? Z.of_nat n) with true by (symmetry; apply Z.leb_le; lia).
    eapply wp_checked; [apply as_long_ok; lia|]. cbv zeta. wp_step; [apply Z.leb_le; lia|].
    assert (moved fd (sent s (outbox s ++ take (Z.to_nat (bs - (rem - Z.of_nat n))) buf)) k
      (set_clock t (put fd (sent s (outbox s ++ take (Z.to_nat (bs - (rem - Z.of_nat n))) buf)) k'))) as Hm'
      by by eapply moved_put.
    assert (outbox s ++ take (Z.to_nat (bs - (rem - Z.of_nat n))) buf =
            (outbox s ++ take off buf) ++ take n (take (Z.to_nat rem) (drop off buf))) as Eo.
    { rewrite take_take, Nat.min_l, <- app_assoc, take_take_drop by lia. do 2 f_equal. lia. }
    cbn [local peer inbox outbox sent]. rewrite Eo in Hm' at 2.
    destruct (Z.eqb_spec (rem - Z.of_nat n) 0) as [E|E]; apply wp_ret.
    + replace (total + (bs - rem) + Z.of_nat n) with (total + bs) by lia. apply Hq; [lia|].
      rewrite E, (take_ge _ (Z.to_nat (bs - 0))) in Hm' by lia. exact Hm'.
    + split; [|]; [split; [lia|]; split; [lia|exact Hm']|].
      assert (take (Z.to_nat rem) (drop off buf) <> []) as Hne by (intros Hnil; rewrite Hnil in Hlen; cbn in Hlen; lia).
      specialize (Hpos Hne). lia.
  - split; [lia|]. split; [lia|]. replace (bs - bs) with 0 by lia. cbn. rewrite app_nil_r.
    replace (sent s (outbox s)) with s by by destruct s. by apply moved_refl.
Qed.

Lemma take_store off bytes buf :
  (off + length bytes <= length buf)%nat -> take (off + length bytes) (store off bytes buf) = take off buf ++ bytes.
Proof.
  intros H. unfold store. rewrite app_assoc. apply take_app_length'. rewrite length_app, length_take. lia.
Qed.

Lemma length_recv_store off bytes buf : (off + length bytes <= length buf)%nat -> length (store off bytes buf) = length buf.
Proof. intros H. unfold store. rewrite !length_app, length_take, length_drop. lia. Qed.

(** In the middle of a round of reading: [off] bytes of the stream [data] are in
    the buffer. *)
Definition reading (recv : list Z) (bs total : Z) (s : Sock) (k : Net) (st : Z * Z * list Z) (k' : Net) : Prop :=
  let '(remaining, total', recv') := st in
  exists off, 1 <= remaining /\ Z.of_nat off = bs - remaining /\ (off <= length (inbox s))%nat /\
    total' = total + Z.of_nat off /\ length recv' = length recv /\ take off recv' = take off (inbox s) /\
    moved fd (received s (drop off (inbox s))) k k'.

(** The buffer is full. *)
Definition full (recv : list Z) (bs total : Z) (s : Sock) (k : Net) (r : Z * Z * Z * list Z) (k' : Net) : Prop :=
  let '(read_byte, remaining, total', recv') := r in
  0 <= read_byte /\ remaining = 0 /\ total' = total + bs /\ length recv' = length recv /\
  (Z.to_nat bs <= length (inbox s))%nat /\ take (Z.to_nat bs) recv' = take (Z.to_nat bs) (inbox s) /\
  moved fd (received s (drop (Z.to_nat bs) (inbox s))) k k'.

Section reading.
Context (recv : list Z) (bs total : Z) (k : Net) (s : Sock).
Context (Hs : socks k !! fd = Some s) (Hbs : 1 <= bs) (Hl : Z.of_nat (length recv) = bs)
  (H0 : 0 <= total) (Hlt : total + bs < 2 ^ 63).

Lemma reading_start : reading recv bs total s k (bs, total, recv) k.
Proof.
  exists O. split; [lia|]. split; [lia|]. split; [lia|]. split; [lia|]. split; [done|]. split; [done|].
  rewrite drop_0. replace (received s (inbox s)) with s by by destruct s. by apply moved_refl.
Qed.

(** Bytes come in: [x] of them, possibly none. *)
Lemma take_in_ok rem tot recv' x off k2 :
  1 <= rem -> Z.of_nat off = bs - rem -> tot = total + Z.of_nat off -> length recv' = length recv ->
  take off recv' = take off (inbox s) -> Z.of_nat x <= rem -> (off + x <= length (inbox s))%nat ->
  moved fd (received s (drop (off + x) (inbox s))) k k2 ->
  wp (take_in bs rem tot recv' (Z.of_nat x) (take x (drop off (inbox s)))) (fun r k' =>
    match r with
    | inl st => reading recv bs total s k st k' /\ fst (fst st) = rem - Z.of_nat x
    | inr r => full recv bs total s k r k'
    end) k2.
Proof.
  intros Hr Eoff -> Hl' Ht Hx Hxl Hm. unfold take_in. set (bytes := take x (drop off (inbox s))).
  assert (length bytes = x) as Eb by (unfold bytes; rewrite length_take, length_drop; lia).
  replace (0 <=? Z.of_nat x) with true by (symmetry; apply Z.leb_le; lia). cbv zeta.
  replace (Z.to_nat (bs - rem)) with off by lia.
  eapply wp_checked; [apply as_long_ok; lia|]. wp_step; [apply Z.leb_le; lia|].
  assert (take (off + x) (store off bytes recv') = take (off + x) (inbox s)) as Et.
  { rewrite <- Eb at 1. rewrite take_store by lia. rewrite Ht. unfold bytes. apply take_take_drop. }
  assert (length (store off bytes recv') = length recv) as Els by (rewrite length_recv_store; lia).
  destruct (Z.eqb_spec (rem - Z.of_nat x) 0) as [E|E]; apply wp_ret.
  - unfold full. replace (Z.to_nat bs) with (off + x)%nat by lia.
    split; [lia|]. split; [done|]. split; [lia|]. split; [done|]. split; [lia|]. done.
  - split; [|done]. exists (off + x)%nat. split; [lia|]. split; [lia|]. split; [lia|]. split; [lia|]. done.
Qed.

(** What a round of reading ends with when the end of the stream is reported
    by a negative value: [got] bytes of the stream, all of it when the buffer
    is not full. *)
Definition read_round (r : Z * Z * Z * list Z) (k' : Net) : Prop :=
  let '(read_byte, remaining, total', recv') := r in
  let got := Nat.min (Z.to_nat bs) (length (inbox s)) in
  remaining = bs - Z.of_nat got /\ total' = total + Z.of_nat got /\ length recv' = length recv /\
  take got recv' = take got (inbox s) /\ moved fd (received s (drop got (inbox s))) k k' /\
  (if 0 <? remaining then read_byte = eof else 0 <= read_byte).

Lemma full_round r k' : full recv bs total s k r k' -> read_round r k'.
Proof.
  destruct r as [[[r rem] tot] recv']. intros (H1 & -> & H2 & H3 & H4 & H5 & H6). unfold read_round.
  rewrite Nat.min_l by done. split; [lia|]. split; [lia|]. done.
Qed.

Lemma drained rem tot recv' k1 off t :
  eof < 0 -> 1 <= rem -> Z.of_nat off = bs - rem -> tot = total + Z.of_nat off -> length recv' = length recv ->
  take off recv' = take off (inbox s) -> (off <= length (inbox s))%nat -> drop off (inbox s) = [] ->
  moved fd (received s (drop off (inbox s))) k k1 -> waited t k1 ->
  wp (take_in bs rem tot recv' eof []) (fun r k' => match r with inl _ => False | inr r => read_round r k' end) (set_clock t k1).
Proof.
  intros Heof Hr Eoff -> Hl' Ht Hoff Ed Hm Hw. unfold take_in.
  replace (0 <=? eof) with false by (symmetry; apply Z.leb_gt; lia). apply wp_ret.
  assert (length (inbox s) = off) as Elen.
  { assert (length (drop off (inbox s)) = 0%nat) as E by (by rewrite Ed). rewrite length_drop in E. lia. }
  unfold read_round. rewrite Elen, Nat.min_r by lia. replace (bs - Z.of_nat off) with rem by lia.
  replace (0 <? rem) with true by (symmetry; apply Z.ltb_lt; lia).
  split; [done|]. split; [done|]. split; [done|]. split; [done|]. split; [by eapply moved_wait|done].
Qed.

Lemma read_loop_ok : eof < 0 -> wp (read_loop fd recv bs total) read_round k.
Proof.
  intros Heof. unfold read_loop.
  apply (wp_iter _ (reading recv bs total s k) (fun '(remaining, _, _) _ => Z.to_nat remaining)); [|exact reading_start].
  intros [[rem tot] recv'] k' (off & Hr & Eoff & Hoff & Et & Hl' & Ht & Hm).
  eapply wp_read; [exact (moved_lookup _ _ _ _ Hm)|done|]. cbn [inbox received].
  destruct (drop off (inbox s)) as [|b rest] eqn:Ed.
  - intros t Hw. eapply wp_mono; [eapply (drained rem tot recv' k' off); try done; by rewrite Ed|]. by intros [] ?.
  - rewrite <- Ed in *. clear b rest Ed. intros x t Hx Hxr Hw. rewrite length_drop in Hx. rewrite drop_drop.
    eapply wp_mono; [eapply (take_in_ok rem tot recv' x off); try done; [lia|by eapply moved_put]|].
    intros [[[rem' tot'] recv2]|r] k2; [|apply full_round]. cbn. intros [H ->]. split; [done|lia].
Qed.

(** When it is reported by zero, a round that ends has filled the buffer. *)
Lemma read_loop_posix : eof = 0 -> wlp (layer eof) (read_loop fd recv bs total) (full recv bs total s k) k.
Proof.
  intros Heof. unfold read_loop. apply (wlp_iter _ (reading recv bs total s k)); [|exact reading_start].
  intros [[rem tot] recv'] k' (off & Hr & Eoff & Hoff & Et & Hl' & Ht & Hm). apply wp_wlp.
  eapply wp_read; [exact (moved_lookup _ _ _ _ Hm)|done|]. cbn [inbox received].
  assert (forall x k2, Z.of_nat x <= rem -> (off + x <= length (inbox s))%nat ->
    moved fd (received s (drop (off + x) (inbox s))) k k2 ->
    wp (take_in bs rem tot recv' (Z.of_nat x) (take x (drop off (inbox s)))) (fun r k' =>
      match r with inl st => reading recv bs total s k st k' | inr r => full recv bs total s k r k' end) k2) as Hin.
  { intros x k2 H1 H2 H3. eapply wp_mono; [by eapply (take_in_ok rem tot recv' x off)|]. intros [st|r] k3; [by intros [? _]|done]. }
  destruct (drop off (inbox s)) as [|b rest] eqn:Ed.
  - intros t Hw. specialize (Hin O (set_clock t k')). cbn [take] in Hin.
    change (Z.of_nat 0) with 0 in Hin. rewrite <- Heof in Hin. apply Hin; [lia|lia|].
    rewrite Nat.add_0_r, Ed. by eapply moved_wait.
  - rewrite <- Ed in *. clear b rest Ed. intros x t Hx Hxr Hw. rewrite length_drop in Hx.
    apply Hin; [lia|lia|]. rewrite drop_drop. by eapply moved_put.
Qed.

End reading.

(** ** Comparing the buffers *)

Lemma expect_equal_iff {R} send recv js (f : unit -> App R) Q k :
  wp (expect_equal send recv js ≫= f) Q k <-> (forall j, j ∈ js -> send !! j = recv !! j) /\ wp (f tt) Q k.
Proof.
  induction js as [|j js IH]; cbn [expect_equal].
  - split; [intros H; split; [set_solver|]; exact (wp_ret_inv _ _ _ _ (wp_bind_inv _ _ _ _ _ H))|].
    intros [_ H]. by apply wp_bind, wp_ret.
  - split.
    + intros H%wp_bind_inv. apply wp_expect_inv in H as [Hj H]. apply bool_decide_eq_true in Hj.
      apply wp_bind in H. apply IH in H as [H1 H2]. split; [|done]. intros j' [->|?]%elem_of_cons; auto.
    + intros [H1 H2]. apply wp_bind. wp_step; [apply bool_decide_eq_true; set_solver|]. apply wp_bind_inv, IH. set_solver.
Qed.

Lemma take_seq_eq {A} (l l' : list A) n :
  (forall j, j ∈ seq 0 n -> l !! j = l' !! j) <-> take n l = take n l'.
Proof.
  split.
  - intros H. apply list_eq. intros i. destruct (decide (i < n)%nat) as [Hi|Hi].
    + rewrite !lookup_take_lt by done. apply H, elem_of_seq. lia.
    + by rewrite !lookup_take_ge by lia.
  - intros H j [_ Hj]%elem_of_seq. rewrite <- (lookup_take_lt l n j), <- (lookup_take_lt l' n j), H by lia. done.
Qed.

Lemma compare_iff {R} send recv n (f : unit -> App R) Q k :
  wp ((if 0 <? n then expect_equal send recv (seq 0 (Z.to_nat n)) else mret tt) ≫= f) Q k <->
  take (Z.to_nat n) send = take (Z.to_nat n) recv /\ wp (f tt) Q k.
Proof.
  destruct (Z.ltb_spec 0 n) as [Hn|Hn]; [by rewrite expect_equal_iff, take_seq_eq|].
  replace (Z.to_nat n) with O by lia. split.
  - intros H. split; [done|]. exact (wp_ret_inv _ _ _ _ (wp_bind_inv _ _ _ _ _ H)).
  - intros [_ H]. by apply wp_bind, wp_ret.
Qed.

(** ** The outer loop *)
Section rounds.
Context (rand_d : Z -> nat -> Z) (seed bs loop_count : Z) (Hbs : 1 <= bs < 2 ^ 31).
Abbreviation fill := (fill rand_d seed).

(** A sender writes [loop_count] buffers of the stream. *)
Lemma send_loop_ok is_send recv k s (Q : Z -> Net -> Prop) :
  socks k !! fd = Some s -> is_send <> 0 -> 1 <= loop_count < 2 ^ 31 ->
  (forall k', moved fd (sent s (outbox s ++ fill 0 (Z.to_nat (bs * loop_count)))) k k' -> Q (bs * loop_count) k') ->
  wp (transfer_loop rand_d fd seed is_send bs loop_count (0, 0, O, recv)) Q k.
Proof.
  intros Hs Hsend HL Hq. unfold transfer_loop. rewrite (proj2 (Z.eqb_neq is_send 0) Hsend). cbn [negb].
  apply (wp_iter _ (fun '(loop, total, drawn, _) k' => 0 <= loop < loop_count /\ total = bs * loop /\
    drawn = Z.to_nat (bs * loop) /\ moved fd (sent s (outbox s ++ fill 0 drawn)) k k')
    (fun '(loop, _, _, _) _ => Z.to_nat (loop_count - loop))).
  - intros [[[loop total] drawn] recv'] k' (Hl & -> & -> & Hm). cbv zeta.
    apply wp_bind. eapply write_loop_ok; [exact (moved_lookup _ _ _ _ Hm)|rewrite length_fill; lia|nia|nia|].
    intros w k2 Hw Hm2. replace (w <? 0) with false by (symmetry; apply Z.ltb_ge; lia).
    pose proof (moved_trans _ _ _ _ _ _ Hm Hm2) as Hm3. cbn [sent outbox local peer inbox] in Hm3.
    rewrite <- app_assoc in Hm3. rewrite <- (fill_app rand_d seed 0) in Hm3.
    replace (Z.to_nat (bs * loop) + Z.to_nat bs)%nat with (Z.to_nat (bs * (loop + 1))) in Hm3 |- * by nia.
    replace (bs * loop + bs) with (bs * (loop + 1)) by lia.
    unfold next_round. eapply wp_checked; [apply as_int_ok; lia|].
    rewrite (proj2 (Z.eqb_neq loop_count 0)) by lia. cbn [negb andb].
    destruct (Z.leb_spec loop_count (loop + 1)) as [He|He]; apply wp_ret.
    + assert (loop + 1 = loop_count) as E by lia. rewrite E in Hm3 |- *. exact (Hq _ Hm3).
    + split; [|lia]. split; [lia|]. split; [done|]. split; [done|]. exact Hm3.
  - split; [lia|]. split; [lia|]. split; [lia|]. cbn. rewrite app_nil_r.
    replace (sent s (outbox s)) with s by by destruct s. by apply moved_refl.
Qed.

(** How much of the stream [data] a receiver reads from round [loop] on. *)
Definition quota (loop : Z) (data : list Z) : nat :=
  if loop_count =? 0 then length data else Nat.min (length data) (Z.to_nat (bs * (loop_count - loop))).

(** What a receiver in round [loop], after [c] bytes, has to get: the bytes the
    generator yields next, and [E] of them in all. *)
Definition expected_stream (loop : Z) (c : nat) (s : Sock) (E : Z) : Prop :=
  let n := quota loop (inbox s) in take n (inbox s) = fill c n /\ Z.of_nat (c + n) = E.

(** How it ends; the state afterwards is said only where [b] asks for it. *)
Definition read_all (k0 : Net) (b : bool) (loop : Z) (s : Sock) (E : Z) (total : Z) (k' : Net) : Prop :=
  total = E /\ (b = true -> moved fd (received s (drop (quota loop (inbox s)) (inbox s))) k0 k').

(** The quota after a full round. *)
Lemma quota_next loop s :
  (Z.to_nat bs <= length (inbox s))%nat -> loop_count = 0 \/ loop + 1 < loop_count ->
  quota loop (inbox s) = (Z.to_nat bs + quota (loop + 1) (drop (Z.to_nat bs) (inbox s)))%nat.
Proof.
  intros Hd HL. unfold quota. rewrite length_drop. destruct (Z.eqb_spec loop_count 0) as [E|E]; [lia|].
  assert (bs * (loop_count - loop) = bs + bs * (loop_count - (loop + 1))) by lia.
  assert (0 <= bs * (loop_count - (loop + 1))) by nia. lia.
Qed.

Lemma quota_last loop s :
  (loop_count = 0 \/ loop < loop_count) ->
  (length (inbox s) < Z.to_nat bs)%nat \/ (Z.to_nat bs <= length (inbox s))%nat /\ loop_count = loop + 1 /\ loop_count <> 0 ->
  quota loop (inbox s) = Nat.min (Z.to_nat bs) (length (inbox s)).
Proof.
  intros HL H. unfold quota. destruct (Z.eqb_spec loop_count 0) as [E|E]; [lia|].
  assert (bs <= bs * (loop_count - loop)) by nia. destruct H as [H|(H & -> & _)]; [lia|].
  replace (loop + 1 - loop) with 1 by lia. lia.
Qed.

(** The part of a round after the reading. *)
Lemma after_round k0 b loop c s E k r rem tot recv recv' k' :
  eof < 0 -> moved fd s k0 k -> Z.of_nat (length recv) = bs -> Z.of_nat (c + length (inbox s)) < 2 ^ 31 - 1 ->
  0 <= loop <= Z.of_nat c -> loop_count = 0 \/ loop < loop_count ->
  read_round recv bs (Z.of_nat c) k s (r, rem, tot, recv') k' ->
  (forall s' recv' k', (length (inbox s') < length (inbox s))%nat -> moved fd s' k0 k' -> Z.of_nat (length recv') = bs ->
     Z.of_nat (c + Z.to_nat bs + length (inbox s')) < 2 ^ 31 - 1 -> loop_count = 0 \/ loop + 1 < loop_count ->
     wp (transfer_loop rand_d fd seed 0 bs loop_count (loop + 1, Z.of_nat (c + Z.to_nat bs), (c + Z.to_nat bs)%nat, recv'))
       (read_all k0 b (loop + 1) s' E) k' <-> expected_stream (loop + 1) (c + Z.to_nat bs) s' E) ->
  wp (_ ← (if 0 <? bs - rem then expect_equal (fill c (Z.to_nat bs)) recv' (seq 0 (Z.to_nat (bs - rem))) else mret tt);
      if r <? 0 then mret (inr tot) else next_round loop_count loop tot (c + Z.to_nat bs) recv')
    (fun r k' => match r with
                 | inl i => wp (transfer_loop rand_d fd seed 0 bs loop_count i) (read_all k0 b loop s E) k'
                 | inr t => read_all k0 b loop s E t k'
                 end) k' <-> expected_stream loop c s E.
Proof.
  intros Heof Hm0 Hr Hc Hl HL (Hrem & Htot & Hlr & Heq & Hm & Hlast) IH. set (got := Nat.min (Z.to_nat bs) (length (inbox s))) in *.
  pose proof (moved_trans _ _ _ _ _ _ Hm0 Hm) as Hm1.
  rewrite compare_iff. replace (bs - rem) with (Z.of_nat got) by lia. rewrite Nat2Z.id, take_fill, Heq by lia.
  unfold expected_stream. cbv zeta. destruct (Z.ltb_spec 0 rem) as [Hpos|Hpos].
  - rewrite (quota_last loop s HL) by lia. fold got. subst r. rewrite (proj2 (Z.ltb_lt eof 0) Heof). split.
    + intros [H1 [H2 _]%wp_ret_inv]. split; [done|]. lia.
    + intros [H1 H2]. split; [done|]. apply wp_ret. split; [lia|]. intros _. rewrite (quota_last loop s HL) by lia. exact Hm1.
  - assert (got = Z.to_nat bs) as Eg by lia. rewrite (proj2 (Z.ltb_ge r 0)) by lia. unfold next_round.
    destruct (negb (loop_count =? 0) && (loop_count <=? loop + 1))%bool eqn:Ec.
    + pose proof Ec as [Ec1%negb_true_iff%Z.eqb_neq Ec2%Z.leb_le]%andb_prop.
      assert (quota loop (inbox s) = got) as Eq by (apply quota_last; [done|right; lia]). rewrite Eq. split.
      * intros [H1 H2]. split; [done|]. eapply wp_checked_inv in H2; [|apply as_int_ok; lia].
        rewrite Ec in H2. apply wp_ret_inv in H2 as [H2 _]. lia.
      * intros [H1 H2]. split; [done|]. eapply wp_checked; [apply as_int_ok; lia|]. rewrite Ec. apply wp_ret. split; [lia|].
        intros _. rewrite Eq. exact Hm1.
    + assert (loop_count = 0 \/ loop + 1 < loop_count) as HL'.
      { pose proof Ec as Ec'. apply andb_false_iff in Ec' as [Ec'%negb_false_iff%Z.eqb_eq|Ec'%Z.leb_gt]; [by left|lia]. }
      assert (got <= length (inbox s))%nat as Hgl by lia. clearbody got. subst got.
      set (s' := received s (drop (Z.to_nat bs) (inbox s))) in *.
      assert (tot = Z.of_nat (c + Z.to_nat bs)) as Et by lia. rewrite Et.
      assert (length (inbox s') = (length (inbox s) - Z.to_nat bs)%nat) as Els by (cbn; apply length_drop).
      destruct (IH s' recv' k') as [IH1 IH2]; [lia|done|lia|lia|done|]. clear IH.
      pose proof (quota_next loop s ltac:(lia) HL') as Eq. change (drop (Z.to_nat bs) (inbox s)) with (inbox s') in Eq.
      set (n' := quota (loop + 1) (inbox s')) in *.
      assert (forall t k'', read_all k0 b (loop + 1) s' E t k'' <-> read_all k0 b loop s E t k'') as Hra.
      { intros t k''. unfold read_all. fold n'. rewrite Eq. cbn [s' received inbox]. by rewrite drop_drop. }
      assert (take (quota loop (inbox s)) (inbox s) = fill c (quota loop (inbox s)) <->
              take (Z.to_nat bs) (inbox s) = fill c (Z.to_nat bs) /\ take n' (inbox s') = fill (c + Z.to_nat bs) n') as Hsplit.
      { rewrite Eq, fill_app, <- take_take_drop. change (drop (Z.to_nat bs) (inbox s)) with (inbox s'). split.
        - intros H. apply app_inj_1 in H; [done|]. rewrite length_fill, length_take. lia.
        - intros [-> ->]. done. }
      rewrite Hsplit. split.
      * intros [H1 H2]. eapply wp_checked_inv in H2; [|apply as_int_ok; lia]. rewrite Ec in H2. apply wp_ret_inv in H2.
        destruct IH1 as [H3 H4]; [eapply wp_mono; [exact H2|]; intros; by apply Hra|]. fold n' in H3, H4. split; [done|]. lia.
      * intros [[H1 H2] H3]. split; [done|]. eapply wp_checked; [apply as_int_ok; lia|]. rewrite Ec. apply wp_ret.
        eapply wp_mono; [apply IH2; split; [exact H2|fold n'; lia]|]. intros; by apply Hra.
Qed.

Lemma recv_loop_iff k0 b loop c recv k s E :
  eof < 0 -> moved fd s k0 k -> Z.of_nat (length recv) = bs -> Z.of_nat (c + length (inbox s)) < 2 ^ 31 - 1 ->
  0 <= loop <= Z.of_nat c -> loop_count = 0 \/ loop < loop_count ->
  wp (transfer_loop rand_d fd seed 0 bs loop_count (loop, Z.of_nat c, c, recv)) (read_all k0 b loop s E) k <->
  expected_stream loop c s E.
Proof.
  intros Heof. remember (length (inbox s)) as len eqn:Elen. revert loop c recv k s Elen.
  induction (lt_wf len) as [len _ IH]. intros loop c recv k s -> Hm Hr Hc Hl HL.
  assert (wp (read_loop fd recv bs (Z.of_nat c)) (read_round recv bs (Z.of_nat c) k s) k) as Hread
    by (apply read_loop_ok; [by eapply moved_lookup|lia..]).
  assert (forall r rem tot recv' k', read_round recv bs (Z.of_nat c) k s (r, rem, tot, recv') k' -> _) as Hround
    by (intros r rem tot recv' k' Hrr; eapply (after_round k0 b loop c s E k r rem tot recv recv' k'); try done;
        intros s' recv2 k2 Hlt ? ? ? ?; apply (IH _ Hlt); try done; lia).
  split.
  - intros H%wp_iter_inv. destruct (wp_bind_both _ _ _ _ _ _ H Hread) as ([[[r rem] tot] recv'] & k' & Hrr & H').
    by apply (Hround _ _ _ _ _ Hrr).
  - intros Hx. apply wp_iter_unfold, wp_bind. eapply wp_mono; [exact Hread|]. intros [[[r rem] tot] recv'] k' Hrr.
    by apply (Hround _ _ _ _ _ Hrr).
Qed.

End rounds.

(** ** The end of the stream as read(2) reports it *)
Section posix.
Context (rand_d : Z -> nat -> Z) (seed bs loop_count : Z) (Hbs : 1 <= bs < 2 ^ 31).
Abbreviation fill := (fill rand_d seed).

(** Less than what is left to read is there. *)
Definition short (loop : Z) (data : list Z) : Prop :=
  loop_count = 0 \/ (loop < loop_count /\ Z.of_nat (length data) < bs * (loop_count - loop)).

(** A receiver waits for a negative value that never comes. *)
Lemma recv_loop_posix loop c recv k s :
  eof = 0 -> socks k !! fd = Some s -> inbox s = fill c (length (inbox s)) -> Z.of_nat (length recv) = bs ->
  Z.of_nat (c + length (inbox s)) < 2 ^ 31 - 1 -> 0 <= loop <= Z.of_nat c -> short loop (inbox s) ->
  wlp (layer eof) (transfer_loop rand_d fd seed 0 bs loop_count (loop, Z.of_nat c, c, recv)) (fun _ _ => False) k.
Proof.
  intros Heof Hs Hd Hr Hc Hl Hsh. unfold transfer_loop. cbn [Z.eqb negb].
  apply (wlp_iter _ (fun '(loop, total, c, recv) k => exists s, socks k !! fd = Some s /\
    inbox s = fill c (length (inbox s)) /\ Z.of_nat (length recv) = bs /\
    Z.of_nat (c + length (inbox s)) < 2 ^ 31 - 1 /\ 0 <= loop <= Z.of_nat c /\ short loop (inbox s) /\ total = Z.of_nat c));
    [|by exists s]. clear loop c recv k s Hs Hd Hr Hc Hl Hsh.
  intros [[[loop total] c] recv] k (s & Hs & Hd & Hr & Hc & Hl & Hsh & ->). cbv zeta. apply wlp_bind.
  eapply wlp_mono; [apply (read_loop_posix recv bs (Z.of_nat c) k s); lia || done|].
  intros [[[r rem] tot] recv'] k' (Hr0 & -> & Etot & Hl' & Hle & Ht & Hm). apply wp_wlp, compare_iff.
  rewrite Z.sub_0_r, Ht. set (n := Z.to_nat bs) in *. split.
  - rewrite Hd, !take_fill by lia. done.
  - replace (r <? 0) with false by (symmetry; apply Z.ltb_ge; lia). unfold next_round.
    eapply wp_checked; [apply as_int_ok; lia|].
    assert (loop_count = 0 \/ (loop + 1 < loop_count /\ Z.of_nat (length (inbox s)) < bs * (loop_count - loop))) as Hsh'.
    { destruct Hsh as [E|[H1 H2]]; [by left|right]. split; [|done]. assert (loop_count <> loop + 1); [|lia].
      intros E. replace (loop_count - loop) with 1 in H2 by lia. lia. }
    replace (negb (loop_count =? 0) && (loop_count <=? loop + 1))%bool with false
      by (symmetry; apply andb_false_iff; destruct Hsh' as [->|[? _]]; [by left|right; apply Z.leb_gt; lia]).
    apply wp_ret. exists (received s (drop n (inbox s))). split; [by eapply moved_lookup|]. cbn [inbox received].
    rewrite length_drop. split; [rewrite Hd at 1; rewrite drop_fill by lia; done|]. split; [lia|]. split; [lia|]. split; [lia|].
    split; [|lia]. destruct Hsh' as [E|[H1 H2]]; [by left|right]. rewrite length_drop. split; [done|].
    assert (bs * (loop_count - loop) = bs + bs * (loop_count - (loop + 1))) by lia. lia.
Qed.

End posix.

End loops.

(** ** The applications *)

(** The environment has what the transfer reads, in range; who counts rounds
    expects that many buffers, and a sender counts rounds. *)
Definition sizes_parse (env : Environment) : bool :=
  known (Echo.atoi (getenv env "SENDER")) &&
  known (Echo.atoi (getenv env "BUFFER_SIZE")) && known (Echo.atoi (getenv env "LOOP_COUNT")) &&
  known (Echo.atoi (getenv env "EXPECT_SIZE")) && known (atol (getenv env "START_TIME")) &&
  (0 <=? long_of env "START_TIME") && (long_of env "START_TIME" <? 2 ^ 54) &&
  (1 <=? int_of env "BUFFER_SIZE") && (0 <=? int_of env "LOOP_COUNT") && (0 <=? int_of env "EXPECT_SIZE") &&
  (if int_of env "LOOP_COUNT" =? 0 then int_of env "SENDER" =? 0
   else int_of env "EXPECT_SIZE" =? int_of env "BUFFER_SIZE" * int_of env "LOOP_COUNT").

Definition transfer_parses (env : Environment) : bool := known (Echo.atoi (getenv env "RANDOM_SEED")) && sizes_parse env.

Section applications.
Context (eof : Z) (uninit : sockaddr_in) (malloc : nat -> list Z) (rand_d : Z -> nat -> Z).
Context (Hmalloc : forall n, length (malloc n) = n).
Abbreviation wp := (wp (layer eof)).

(** The stream an application sends or expects. *)
Definition stream (env : Environment) : list Z :=
  fill rand_d (wrap 32 (int_of env "RANDOM_SEED")) 0 (Z.to_nat (int_of env "EXPECT_SIZE")).

(** What a receiver accepts: the stream, followed by anything if it stops by
    itself. *)
Definition accepts (env : Environment) (data : list Z) : Prop :=
  if int_of env "LOOP_COUNT" =? 0 then data = stream env else exists rest, data = stream env ++ rest.

Section transfer.
Context (env : Environment) (Hp : transfer_parses env = true) (fd : Z).

Lemma transfer_values :
  Echo.atoi (getenv env "RANDOM_SEED") = Ok (int_of env "RANDOM_SEED") /\ Echo.atoi (getenv env "SENDER") = Ok (int_of env "SENDER") /\
  Echo.atoi (getenv env "BUFFER_SIZE") = Ok (int_of env "BUFFER_SIZE") /\ Echo.atoi (getenv env "LOOP_COUNT") = Ok (int_of env "LOOP_COUNT") /\
  Echo.atoi (getenv env "EXPECT_SIZE") = Ok (int_of env "EXPECT_SIZE") /\ atol (getenv env "START_TIME") = Ok (long_of env "START_TIME") /\
  0 <= long_of env "START_TIME" < 2 ^ 54 /\ 1 <= int_of env "BUFFER_SIZE" < 2 ^ 31 /\ 0 <= int_of env "LOOP_COUNT" < 2 ^ 31 /\
  0 <= int_of env "EXPECT_SIZE" /\
  (int_of env "LOOP_COUNT" = 0 -> int_of env "SENDER" = 0) /\
  (int_of env "LOOP_COUNT" <> 0 -> int_of env "EXPECT_SIZE" = int_of env "BUFFER_SIZE" * int_of env "LOOP_COUNT").
Proof.
  pose proof Hp as [Hse%known_value H]%andb_prop. unfold sizes_parse in H.
  apply andb_prop in H as [H Hsz]. apply andb_prop in H as [H Hex%Z.leb_le]. apply andb_prop in H as [H Hlc%Z.leb_le].
  apply andb_prop in H as [H Hbs%Z.leb_le]. apply andb_prop in H as [H Hst2%Z.ltb_lt]. apply andb_prop in H as [H Hst1%Z.leb_le].
  repeat (apply andb_prop in H as [H ?]). repeat match goal with K : known _ = true |- _ => apply known_value in K end.
  assert (int_of env "BUFFER_SIZE" < 2 ^ 31) by (by eapply atoi_range).
  assert (int_of env "LOOP_COUNT" < 2 ^ 31) by (by eapply atoi_range).
  do 10 (split; [done|]). split; intros E.
  - rewrite E in Hsz. by apply Z.eqb_eq.
  - rewrite (proj2 (Z.eqb_neq _ _) E) in Hsz. by apply Z.eqb_eq.
Qed.

Ltac transfer_values := destruct transfer_values as (V1 & V2 & V3 & V4 & V5 & V6 & Vst & Vbs & Vlc & Vex & Vs0 & Vsz).
Ltac transfer_start :=
  do 5 wp_step; (eapply wp_checked; [rewrite (proj2 (Z.ltb_ge _ _)); [reflexivity|lia]|]).
Ltac transfer_start_inv H :=
  do 5 wp_inv H; (eapply wp_checked_inv in H; [|rewrite (proj2 (Z.ltb_ge _ _)); [reflexivity|lia]]).

(** A sender writes its stream. *)
Lemma transfer_sends k s (Q : unit -> Net -> Prop) :
  int_of env "SENDER" <> 0 -> socks k !! fd = Some s ->
  (forall k', moved fd (sent s (outbox s ++ stream env)) k k' -> Q tt k') -> wp (transfer malloc rand_d fd env) Q k.
Proof.
  intros Hsend Hs Hq. transfer_values. unfold transfer. transfer_start.
  assert (int_of env "LOOP_COUNT" <> 0) as Hlc by (intros E; by apply Hsend, Vs0). specialize (Vsz Hlc).
  apply wp_bind. eapply send_loop_ok; [lia|exact Hs|done|lia|]. intros k' Hm. wp_step; [apply Z.eqb_eq; lia|].
  apply wp_ret, Hq. unfold stream. by rewrite Vsz.
Qed.

Lemma expected_stream_accepts s :
  expected_stream rand_d (wrap 32 (int_of env "RANDOM_SEED")) (int_of env "BUFFER_SIZE") (int_of env "LOOP_COUNT") 0 0 s
    (int_of env "EXPECT_SIZE") <-> accepts env (inbox s).
Proof.
  transfer_values. unfold expected_stream, accepts, quota, stream. cbv zeta. rewrite Nat.add_0_l.
  destruct (Z.eqb_spec (int_of env "LOOP_COUNT") 0) as [E|E].
  - rewrite take_ge by lia. split.
    + intros [H1 H2]. rewrite <- H2, Nat2Z.id. exact H1.
    + intros H. assert (length (inbox s) = Z.to_nat (int_of env "EXPECT_SIZE")) as El by (rewrite H; apply length_fill).
      rewrite El. split; [done|lia].
  - specialize (Vsz E). rewrite Z.sub_0_r, <- Vsz. set (n := Z.to_nat (int_of env "EXPECT_SIZE")). split.
    + intros [H1 H2]. assert (Nat.min (length (inbox s)) n = n) as En by lia. rewrite En in H1.
      exists (drop n (inbox s)). rewrite <- H1. by rewrite take_drop.
    + intros [rest H]. assert (length (inbox s) = (n + length rest)%nat) as El by (rewrite H, length_app, length_fill; done).
      rewrite Nat.min_r by lia. rewrite H, take_app_length' by (by rewrite length_fill). split; [done|lia].
Qed.

(** A receiver passes exactly if it accepts what arrives. *)
Lemma transfer_receives k s (Q : unit -> Net -> Prop) :
  eof < 0 -> int_of env "SENDER" = 0 -> socks k !! fd = Some s -> Z.of_nat (length (inbox s)) < 2 ^ 31 - 1 ->
  accepts env (inbox s) -> (forall k' rest, moved fd (received s rest) k k' -> Q tt k') ->
  wp (transfer malloc rand_d fd env) Q k.
Proof.
  intros Heof Hsend Hs Hlen Ha Hq. transfer_values. unfold transfer. transfer_start. rewrite Hsend.
  apply wp_bind. change 0 with (Z.of_nat O) at 2. eapply wp_mono;
    [apply (recv_loop_iff eof fd rand_d _ _ _ Vbs k true 0 O _ k s (int_of env "EXPECT_SIZE"));
       [done|by apply moved_refl|rewrite Hmalloc; lia|lia|lia|lia|by apply expected_stream_accepts]|].
  intros total k' [-> Hm]. wp_step; [apply Z.eqb_refl|]. apply wp_ret. by eapply Hq, Hm.
Qed.

Lemma transfer_receives_inv {R} k s (f : unit -> App R) Q :
  eof < 0 -> int_of env "SENDER" = 0 -> socks k !! fd = Some s -> Z.of_nat (length (inbox s)) < 2 ^ 31 - 1 ->
  wp (transfer malloc rand_d fd env ≫= f) Q k -> accepts env (inbox s).
Proof.
  intros Heof Hsend Hs Hlen H%wp_bind_inv. transfer_values. unfold transfer in H. transfer_start_inv H. rewrite Hsend in H.
  apply expected_stream_accepts. apply wp_bind_inv in H. change 0 with (Z.of_nat O) in H at 2.
  eapply (recv_loop_iff eof fd rand_d _ _ _ Vbs k false 0 O); [done|by apply moved_refl| | | | |eapply wp_mono; [exact H|]].
  - rewrite Hmalloc. lia.
  - lia.
  - lia.
  - lia.
  - intros total k' [Hx%Z.eqb_eq _]%wp_expect_inv. done.
Qed.

(** On a layer that reports the end of a stream by zero, a receiver that
    counts on a negative value never ends. *)
Lemma transfer_posix k s :
  eof = 0 -> int_of env "SENDER" = 0 -> int_of env "LOOP_COUNT" = 0 -> socks k !! fd = Some s ->
  Z.of_nat (length (inbox s)) < 2 ^ 31 - 1 -> inbox s = stream env ->
  wlp (layer eof) (transfer malloc rand_d fd env) (fun _ _ => False) k.
Proof.
  intros Heof Hsend Hlc Hs Hlen Hd. transfer_values. unfold transfer.
  do 5 (eapply wlp_checked; [eassumption|]). eapply wlp_checked; [rewrite (proj2 (Z.ltb_ge _ _)); [reflexivity|lia]|].
  apply wlp_bind. apply (wlp_mono _ _ (fun _ _ => False)); [|by intros ? ? []]. rewrite Hsend. change 0 with (Z.of_nat O) at 3.
  eapply recv_loop_posix; [lia|done|exact Hs| |rewrite Hmalloc; lia|lia|lia|by left].
  rewrite Hd at 1. unfold stream. rewrite Hd. unfold stream. by rewrite length_fill.
Qed.

End transfer.

(** *** Sessions *)

Definition env_of (c : Class) : Environment :=
  match c with Accept env | Connect env | CongestionAccept env | CongestionConnect env => env end.
Definition is_server (c : Class) : bool := match c with Accept _ | CongestionAccept _ => true | _ => false end.
Definition is_sender (c : Class) : bool := negb (int_of (env_of c) "SENDER" =? 0).

Definition parses (c : Class) : bool :=
  transfer_parses (env_of c) && (if is_server c then server_parses (env_of c) else client_parses (env_of c)) &&
  match c with CongestionAccept env => known (Echo.atoi (getenv env "CONNECTION_TIMEOUT")) | _ => true end.

(** The network establishes the application's connection before the transfer
    starts; [data] is what arrives on it. *)
Definition starts (c : Class) (data : list Z) (k : Net) : Prop :=
  let env := env_of c in
  0 <= clock k /\ Z.of_nat (length data) < 2 ^ 31 - 1 /\
  if is_server c then
    in_use (listen_name env) k = false /\ exists o rest, offers k = o :: rest /\ of_data o = data /\
    sin_family (of_peer o) = AF_INET /\ Z.max (accept_from env k) (of_time o) / 1000 <= long_of env "START_TIME"
  else
    exists rp rest, outcomes k = Some rp :: rest /\ re_data rp = data /\
    Z.max (connect_from env k) (re_time rp) / 1000 <= long_of env "START_TIME".

(** The state when the transfer starts. *)
Definition started (env : Environment) (k k' : Net) : Prop :=
  now k' = long_of env "START_TIME" /\ settled k' = settled k /\ finished k' = finished k.

Lemma sleep_to_start env k1 (Q : unit -> Net -> Prop) :
  transfer_parses env = true -> 0 <= clock k1 -> now k1 <= long_of env "START_TIME" ->
  (forall k', now k' = long_of env "START_TIME" -> k' = set_clock (clock k') k1 -> Q tt k') ->
  wp (sleep_until (long_of env "START_TIME")) Q k1.
Proof.
  intros Hp H0 Hn Hq. destruct (transfer_values env Hp) as (_ & _ & _ & _ & _ & _ & Vst & _).
  apply sleep_until_ok; [|done|done|auto]. unfold now in Hn.
  pose proof (Z.div_mod (clock k1) 1000 ltac:(lia)). pose proof (Z.mod_pos_bound (clock k1) 1000 ltac:(lia)). lia.
Qed.

Lemma server_session_ok c data k :
  parses c = true -> is_server c = true -> starts c data k ->
  wp (server_session uninit (env_of c)) (fun '(fd, fd') k' =>
    fd <> fd' /\ socks k !! fd = None /\ socks k !! fd' = None /\ started (env_of c) k k' /\ exists a p,
    socks k' = <[fd' := mkSock (Some a) (Some p) data []]> (<[fd := listening (listen_name (env_of c))]> (socks k))) k.
Proof.
  intros Hp Hsv Hst. unfold parses, starts in *. rewrite Hsv in *. apply andb_prop in Hp as [[Hp1 Hp2]%andb_prop _].
  destruct Hst as (H0 & _ & Hu & o & rest & Eo & <- & Hf & Ht).
  destruct (transfer_values _ Hp1) as (_ & _ & _ & _ & _ & V6 & _).
  unfold server_session. apply wp_bind. eapply serve_one_ok; [done..|]. intros fd fd' k1 (Hne & Hn & Hn' & Hc & Hse & Hfi & a & Es).
  eapply wp_checked; [exact V6|]. apply wp_bind, sleep_to_start; [done|..].
  - rewrite Hc. pose proof (waits_from_ge (TestClose.Accept (env_of c)) k) as Hge. cbn in Hge. lia.
  - unfold now. by rewrite Hc.
  - intros k2 Hnow E2. apply wp_ret. split; [done|]. split; [done|]. split; [done|].
    split; [split; [done|]; rewrite E2; by split|]. exists a, (of_peer o). by rewrite E2.
Qed.

Lemma client_session_ok c data k :
  parses c = true -> is_server c = false -> starts c data k ->
  wp (client_session uninit (env_of c)) (fun fd k' =>
    socks k !! fd = None /\ started (env_of c) k k' /\ exists a p, socks k' = <[fd := mkSock (Some a) (Some p) data []]> (socks k)) k.
Proof.
  intros Hp Hsv Hst. unfold parses, starts in *. rewrite Hsv in *. apply andb_prop in Hp as [[Hp1 Hp2]%andb_prop _].
  destruct Hst as (H0 & _ & rp & rest & Eo & <- & Ht).
  destruct (transfer_values _ Hp1) as (_ & _ & _ & _ & _ & V6 & _).
  unfold client_session. apply wp_bind. eapply connect_one_ok; [done..|]. intros fd k1 (Hn & Hc & Hse & Hfi & a & Es).
  eapply wp_checked; [exact V6|]. apply wp_bind, sleep_to_start; [done|..].
  - rewrite Hc. pose proof (waits_from_ge (TestClose.Connect (env_of c)) k) as Hge. cbn in Hge. lia.
  - unfold now. by rewrite Hc.
  - intros k2 Hnow E2. apply wp_ret. split; [done|].
    split; [split; [done|]; rewrite E2; by split|]. eexists a, _. rewrite E2. exact Es.
Qed.

(** *** Whole applications *)

(** What an application writes. *)
Definition output (c : Class) : list Z := if is_sender c then stream (env_of c) else [].

(** It sends, or what arrives is what it accepts. *)
Definition satisfied (c : Class) (data : list Z) : Prop :=
  is_sender c = true \/ (eof < 0 /\ accepts (env_of c) data).

Lemma transfer_done c fd s k :
  parses c = true -> socks k !! fd = Some s -> outbox s = [] -> Z.of_nat (length (inbox s)) < 2 ^ 31 - 1 -> satisfied c (inbox s) ->
  wp (transfer malloc rand_d fd (env_of c)) (fun _ k' => exists s', moved fd s' k k' /\ outbox s' = output c) k.
Proof.
  intros [[Hp _]%andb_prop _]%andb_prop Hs Ho Hl Hok. unfold output, satisfied, is_sender in *.
  destruct (Z.eqb_spec (int_of (env_of c) "SENDER") 0) as [E|E]; cbn [negb] in *.
  - destruct Hok as [[=]|[He Ha]]. eapply transfer_receives; [done..|]. intros k' rest Hm. by eexists.
  - eapply transfer_sends; [done..|]. intros k' Hm. eexists. split; [exact Hm|]. cbn. by rewrite Ho.
Qed.

(** The application returns zero, all its sockets are closed, and what was
    written on its connection is [out]. *)
Definition closed_with (c : Class) (k : Net) (out : list Z) (r : Z) (k' : Net) : Prop :=
  r = 0 /\ socks k' = socks k /\ exists s, outbox s = out /\
  if is_server c then exists l, finished k' = l :: s :: finished k else finished k' = s :: finished k.

(** A congestion server expects to be done in time. *)
Definition on_time (c : Class) (k : Net) : Prop :=
  match c with
  | CongestionAccept env =>
      Z.max (1000 * long_of env "START_TIME" + 999) (settled k) / 1000 / 1000000 < int_of env "CONNECTION_TIMEOUT"
  | _ => True
  end.

Lemma server_finish c fd fd' s s' k k1 k2 :
  is_server c = true -> fd <> fd' -> socks k !! fd = None -> socks k !! fd' = None -> finished k1 = finished k ->
  socks k1 = <[fd' := s]> (<[fd := listening (listen_name (env_of c))]> (socks k)) -> moved fd' s' k1 k2 ->
  wp (_ ← close fd'; _ ← close fd; mret 0) (closed_with c k (outbox s')) k2.
Proof.
  intros Hsv Hne Hn Hn' Hf Es [Ms _ Mf _]. eapply (close_both eof k fd fd').
  - rewrite Ms, Es. by rewrite insert_insert_eq.
  - done.
  - done.
  - done.
  - intros k3 E1 _ E3. split; [done|]. split; [done|]. exists s'. split; [done|]. rewrite Hsv. eexists. rewrite E3, Mf, Hf. done.
Qed.

Lemma client_finish c fd s s' k k1 k2 :
  is_server c = false -> socks k !! fd = None -> finished k1 = finished k ->
  socks k1 = <[fd := s]> (socks k) -> moved fd s' k1 k2 -> wp (_ ← close fd; mret 0) (closed_with c k (outbox s')) k2.
Proof.
  intros Hsv Hn Hf Es [Ms _ Mf _]. eapply (close_it eof k fd).
  - rewrite Ms, Es. by rewrite insert_insert_eq.
  - done.
  - intros k3 E1 _ E3. split; [done|]. split; [done|]. exists s'. split; [done|]. rewrite Hsv, E3, Mf, Hf. done.
Qed.

Lemma client_main c :
  is_server c = false -> main uninit malloc rand_d c = (fd ← client_session uninit (env_of c);
    _ ← transfer malloc rand_d fd (env_of c); _ ← close fd; mret 0).
Proof. by destruct c. Qed.

Lemma client_passes c data k :
  parses c = true -> is_server c = false -> starts c data k -> satisfied c data ->
  wp (main uninit malloc rand_d c) (closed_with c k (output c)) k.
Proof.
  intros Hp Hsv Hst Hok. rewrite client_main by done. apply wp_bind. eapply wp_mono; [by apply client_session_ok|].
  intros fd k1 (Hn & (_ & _ & Hfi) & a & p & Es). cbn beta. destruct Hst as (_ & Hl & _). apply wp_bind.
  eapply wp_mono; [eapply transfer_done; [done|rewrite Es; apply lookup_insert_eq|done..]|].
  intros [] k2 (s' & Hm & <-). cbn beta. by eapply client_finish.
Qed.

(** The part the two servers have in common, and how it goes on. *)
Definition server_then (c : Class) (f : Z -> Z -> App Z) : App Z :=
  '(fd, fd') ← server_session uninit (env_of c); _ ← transfer malloc rand_d fd' (env_of c); f fd fd'.

Definition server_rest (c : Class) (fd fd' : Z) : App Z :=
  match c with
  | CongestionAccept env =>
      '(_, (tv_sec, _)) ← gettimeofday;
      _ ← expect (tv_sec <? int_of env "CONNECTION_TIMEOUT");
      _ ← close fd'; _ ← close fd; mret 0
  | _ => _ ← close fd'; _ ← close fd; mret 0
  end.

(** Reading the timeout first makes no difference. *)
Lemma server_main c k Q :
  parses c = true -> is_server c = true ->
  (wp (main uninit malloc rand_d c) Q k <-> wp (server_then c (server_rest c)) Q k) /\
  (wlp (layer eof) (server_then c (server_rest c)) Q k -> wlp (layer eof) (main uninit malloc rand_d c) Q k).
Proof.
  intros Hp Hsv. destruct c as [env|env|env|env]; try done. pose proof Hp as [_ Ht%known_value]%andb_prop. split; [split|]; intros H.
  - by eapply wp_checked_inv in H; [|exact Ht].
  - by eapply wp_checked; [exact Ht|].
  - by eapply wlp_checked; [exact Ht|].
Qed.

Lemma server_transfer_ok c data k (f : Z -> Z -> App Z) :
  parses c = true -> is_server c = true -> starts c data k -> satisfied c data ->
  (forall fd fd' k2, wp (_ ← close fd'; _ ← close fd; mret 0) (closed_with c k (output c)) k2 ->
     clock k2 <= Z.max (1000 * long_of (env_of c) "START_TIME" + 999) (settled k) ->
     wp (f fd fd') (closed_with c k (output c)) k2) ->
  wp (server_then c f) (closed_with c k (output c)) k.
Proof.
  intros Hp Hsv Hst Hok Hf. pose proof Hst as (_ & Hl & _). apply wp_bind. eapply wp_mono; [by apply server_session_ok|].
  intros [fd fd'] k1 (Hne & Hn & Hn' & (Hnow & Hse & Hfi) & a & p & Es). cbn beta iota. apply wp_bind.
  eapply wp_mono; [eapply transfer_done; [done|rewrite Es; apply lookup_insert_eq|done..]|].
  intros [] k2 (s' & Hm & Ho). cbn beta. apply Hf; [rewrite <- Ho; by eapply server_finish|].
  destruct Hm as [_ _ _ [_ Hc]]. rewrite Hse in Hc. unfold now in Hnow.
  pose proof (Z.div_mod (clock k1) 1000 ltac:(lia)). pose proof (Z.mod_pos_bound (clock k1) 1000 ltac:(lia)). lia.
Qed.

Lemma server_passes c data k :
  parses c = true -> is_server c = true -> starts c data k -> satisfied c data -> on_time c k ->
  wp (main uninit malloc rand_d c) (closed_with c k (output c)) k.
Proof.
  intros Hp Hsv Hst Hok Htime. apply server_main; [done..|]. apply (server_transfer_ok c data); [done..|].
  intros fd fd' k2 Hfin Hc. destruct c as [env|env|env|env]; try done. unfold server_rest. wp_step. wp_step; [|exact Hfin].
  apply Z.ltb_lt. eapply Z.le_lt_trans; [|exact Htime]. apply Z.div_le_mono; [lia|]. apply Z.div_le_mono; [lia|exact Hc].
Qed.

(** A receiver passes only on what it accepts. *)
Lemma app_rejects c data k Q :
  eof < 0 -> parses c = true -> starts c data k -> is_sender c = false ->
  wp (main uninit malloc rand_d c) Q k -> accepts (env_of c) data.
Proof.
  intros He Hp Hst Hsend H. unfold is_sender in Hsend. apply negb_false_iff, Z.eqb_eq in Hsend.
  pose proof Hst as (_ & Hl & _). pose proof Hp as [[Hp1 _]%andb_prop _]%andb_prop. destruct (is_server c) eqn:Hsv.
  - apply server_main in H; [|done..].
    destruct (wp_bind_both _ _ _ _ _ _ H (server_session_ok c data k Hp Hsv Hst)) as ([fd fd'] & k1 & Hk & Hw).
    destruct Hk as (Hne & Hn & Hn' & _ & a & p & Es).
    eapply (transfer_receives_inv (env_of c) Hp1 fd' k1 (mkSock (Some a) (Some p) data [])); [done|done| |done|exact Hw].
    rewrite Es. apply lookup_insert_eq.
  - rewrite client_main in H by done.
    destruct (wp_bind_both _ _ _ _ _ _ H (client_session_ok c data k Hp Hsv Hst)) as (fd & k1 & (Hn & _ & a & p & Es) & Hw).
    eapply (transfer_receives_inv (env_of c) Hp1 fd k1 (mkSock (Some a) (Some p) data [])); [done|done| |done|exact Hw].
    rewrite Es. apply lookup_insert_eq.
Qed.

(** With the end of a stream reported as read(2) says, a receiver that waits
    for it never ends, although all it got is right. *)
Lemma app_never_ends c k :
  eof = 0 -> parses c = true -> is_sender c = false -> int_of (env_of c) "LOOP_COUNT" = 0 -> starts c (stream (env_of c)) k ->
  wlp (layer eof) (main uninit malloc rand_d c) (fun _ _ => False) k.
Proof.
  intros He Hp Hsend Hlc Hst. unfold is_sender in Hsend. apply negb_false_iff, Z.eqb_eq in Hsend.
  pose proof Hst as (_ & Hl & _). pose proof Hp as [[Hp1 _]%andb_prop _]%andb_prop.
  assert (forall A fd s k1 (f : unit -> App A) Q, socks k1 !! fd = Some s -> inbox s = stream (env_of c) ->
    wlp (layer eof) (transfer malloc rand_d fd (env_of c) ≫= f) Q k1) as Htr.
  { intros A fd s k1 f Q Hs Hi. apply wlp_bind. eapply (wlp_mono _ _ (fun _ _ => False)); [|by intros ? ? []].
    eapply transfer_posix; [done|done|done|done|exact Hs|by rewrite Hi|done]. }
  destruct (is_server c) eqn:Hsv.
  - apply server_main; [done..|]. apply wlp_bind. eapply wlp_mono; [apply wp_wlp; by apply server_session_ok|].
    intros [fd fd'] k1 (Hne & Hn & Hn' & _ & a & p & Es). eapply Htr; [rewrite Es; apply lookup_insert_eq|done].
  - rewrite client_main by done. apply wlp_bind. eapply wlp_mono; [apply wp_wlp; by apply client_session_ok|].
    intros fd k1 (Hn & _ & a & p & Es). eapply Htr; [rewrite Es; apply lookup_insert_eq|done].
Qed.

End applications.

(** ** The fifteen tests *)

(** A server and a client of it, one sending what the other expects. *)
Definition peers (a a' : HostRef * Class) : bool :=
  let '(h, c) := a in let '(h', c') := a' in
  if bool_decide (h = h') then false else if Bool.eqb (is_server c) (is_server c') then false
  else if (if is_server c then TestHandshake.reaches h (listen_name (env_of c)) (connect_name (env_of c'))
           else TestHandshake.reaches h' (listen_name (env_of c')) (connect_name (env_of c)))
  then negb (Bool.eqb (is_sender c) (is_sender c')) && (int_of (env_of c) "EXPECT_SIZE" =? int_of (env_of c') "EXPECT_SIZE")
  else false.

(** All but the seed. *)
Definition fields_parse (c : Class) : bool :=
  sizes_parse (env_of c) && (if is_server c then server_parses (env_of c) else client_parses (env_of c)) &&
  match c with CongestionAccept env => known (Echo.atoi (getenv env "CONNECTION_TIMEOUT")) | _ => true end.

Definition test_ok (t : Res (Bench Class)) : bool :=
  match t with
  | Ok b => negb (bool_decide (length (launched b) = 0%nat)) && forallb (fun a => fields_parse (snd a)) (launched b) &&
            forallb (fun a => existsb (peers a) (launched b)) (launched b)
  | Err _ => false
  end.

(** Does the application wait for the end of the stream? *)
Definition waits_for_end (c : Class) : bool := negb (is_sender c) && (int_of (env_of c) "LOOP_COUNT" =? 0).
Definition some_wait (t : Res (Bench Class)) : bool :=
  match t with Ok b => existsb (fun a => waits_for_end (snd a)) (launched b) | Err _ => false end.

Definition seeds_of (t : Res (Bench Class)) : list string :=
  match t with Ok b => (fun a => getenv (env_of (snd a)) "RANDOM_SEED") <$> launched b | Err _ => [] end.
Definition size_of (t : Res (Bench Class)) : nat := match t with Ok b => length (launched b) | Err _ => 0%nat end.

(** What can be evaluated without the seed, and that it is the same at both
    ends. *)
Lemma tests_evaluate seed :
  forallb test_ok (tests seed) = true /\ length (filter (fun t => some_wait t = true) (tests seed)) = 11%nat /\
  (seeds_of <$> tests seed) = (fun t => replicate (size_of t) (string_of_int_assignment seed)) <$> tests seed.
Proof.
  unfold tests, TestTransfer_Connect_Send_Symmetric, TestTransfer_Connect_Send_EOF, TestTransfer_Connect_Recv_Symmetric,
    TestTransfer_Connect_Recv_EOF, TestTransfer_Connect_Recv_SmallBuffer1, TestTransfer_Connect_Recv_SmallBuffer2,
    TestTransfer_Accept_Send_Symmetric, TestTransfer_Accept_Send_EOF, TestTransfer_Accept_Recv_Symmetric,
    TestTransfer_Accept_Recv_EOF, TestTransfer_Accept_Recv_SmallBuffer1, TestTransfer_Accept_Recv_SmallBuffer2,
    TestCongestion0, TestCongestion1, TestCongestion2.
  generalize (string_of_int_assignment seed). intros s. split; [|split]; vm_compute; reflexivity.
Qed.

(** The one character the seed is reduced to. *)
Lemma seed_known seed : known (Echo.atoi (string_of_int_assignment seed)) = true.
Proof. unfold string_of_int_assignment. destruct (Ascii.ascii_of_nat _) as [[] [] [] [] [] [] [] []]; vm_compute; reflexivity. Qed.

(** Whatever [rand()] gives, the applications generate one of ten streams: an
    [int] assigned to a string is taken as a character. *)
Lemma seed_is_a_digit seed t b a :
  t ∈ tests seed -> t = Ok b -> a ∈ launched b -> 0 <= int_of (env_of (snd a)) "RANDOM_SEED" <= 9.
Proof.
  intros Ht -> Ha. apply list_elem_of_lookup in Ht as [i Hi]. destruct (tests_evaluate seed) as (_ & _ & Hseed).
  apply (f_equal (fun l => l !! i)) in Hseed. rewrite !list_lookup_fmap, Hi in Hseed. injection Hseed as Hs.
  apply (list_elem_of_fmap_2 (fun a => getenv (env_of (snd a)) "RANDOM_SEED")) in Ha. rewrite Hs in Ha.
  apply elem_of_replicate_inv in Ha. unfold int_of. rewrite Ha. unfold string_of_int_assignment.
  destruct (Ascii.ascii_of_nat _) as [[] [] [] [] [] [] [] []]; vm_compute; split; discriminate.
Qed.

Lemma test_spec seed t : t ∈ tests seed -> exists b, t = Ok b /\ launched b <> [] /\
  (forall a, a ∈ launched b -> parses (snd a) = true /\ getenv (env_of (snd a)) "RANDOM_SEED" = string_of_int_assignment seed) /\
  forall a, a ∈ launched b -> exists a', a' ∈ launched b /\ peers a a' = true.
Proof.
  intros Ht. destruct (tests_evaluate seed) as (H & _ & Hseed). rewrite forallb_forall in H.
  apply list_elem_of_lookup in Ht as [i Hi]. assert (test_ok t = true) as Hok
    by (apply H, list_elem_of_In; by eapply list_elem_of_lookup_2).
  assert (seeds_of t = replicate (size_of t) (string_of_int_assignment seed)) as Hs.
  { apply (f_equal (fun l => l !! i)) in Hseed. rewrite !list_lookup_fmap, Hi in Hseed. by injection Hseed. }
  destruct t as [b|]; [|done]. cbn in Hok, Hs. apply andb_prop in Hok as [[H1 H2]%andb_prop H3]. exists b. split; [done|].
  split; [intros E; by rewrite E in H1|]. rewrite forallb_forall in H2, H3. split.
  - intros a Ha. assert (getenv (env_of (snd a)) "RANDOM_SEED" = string_of_int_assignment seed) as Eg.
    { apply (list_elem_of_fmap_2 (fun a => getenv (env_of (snd a)) "RANDOM_SEED")) in Ha. rewrite Hs in Ha.
      by apply elem_of_replicate_inv in Ha. }
    split; [|done]. apply list_elem_of_In, H2 in Ha. unfold parses, transfer_parses. rewrite Eg, seed_known. exact Ha.
  - intros a Ha%list_elem_of_In. apply H3, existsb_exists in Ha as (a' & Hin & Hp). exists a'.
    split; [by apply list_elem_of_In|exact Hp].
Qed.

Lemma peers_stream rand_d a a' :
  getenv (env_of (snd a)) "RANDOM_SEED" = getenv (env_of (snd a')) "RANDOM_SEED" -> peers a a' = true ->
  stream rand_d (env_of (snd a)) = stream rand_d (env_of (snd a')).
Proof.
  destruct a as [h c], a' as [h' c']. unfold peers.
  destruct (bool_decide (h = h')); [discriminate|]. destruct (Bool.eqb (is_server c) (is_server c')); [discriminate|].
  match goal with |- context [if (if ?x then ?y else ?z) then _ else _] => destruct (if x then y else z) end; [|discriminate].
  intros Hs [_ H2%Z.eqb_eq]%andb_prop. cbn [snd] in *. unfold stream, int_of in *. rewrite Hs, H2. reflexivity.
Qed.

(** Every application of the test has a peer with the same stream, and passes
    exactly if it sends or what arrives is the stream. *)
Definition decides (eof : Z) (uninit : sockaddr_in) (malloc : nat -> list Z) (rand_d : Z -> nat -> Z) (t : Res (Bench Class)) : Prop :=
  exists b, t = Ok b /\ launched b <> [] /\
  (forall a, a ∈ launched b -> exists a', a' ∈ launched b /\ peers a a' = true /\
     stream rand_d (env_of (snd a)) = stream rand_d (env_of (snd a'))) /\
  forall h c data k, (h, c) ∈ launched b -> starts c data k -> on_time c k ->
    wp (layer eof) (main uninit malloc rand_d c) (closed_with c k (output rand_d c)) k <->
    is_sender c = true \/ accepts rand_d (env_of c) data.

(** Its receivers that wait for the end of the stream never return. *)
Definition hangs (uninit : sockaddr_in) (malloc : nat -> list Z) (rand_d : Z -> nat -> Z) (t : Res (Bench Class)) : Prop :=
  forall b h c k, t = Ok b -> (h, c) ∈ launched b -> waits_for_end c = true -> starts c (stream rand_d (env_of c)) k ->
    wlp (layer 0) (main uninit malloc rand_d c) (fun _ _ => False) k /\
    forall chunk fuel, run_with (serve 0 chunk) fuel (main uninit malloc rand_d c) k = None.


(** C32: eleven of the fifteen tests have a receiver that reads until [read]
    returns a negative value; on a socket layer that ends streams with zero, as
    the manual page of read(2) says, it never returns, although its connection
    is established, every byte arrives and no expectation fails. *)
Theorem posix_end_of_file_hangs uninit malloc rand_d seed :
  (forall n, length (malloc n) = n) ->
  length (filter (fun t => some_wait t = true) (tests seed)) = 11%nat /\
  Forall (hangs uninit malloc rand_d) (tests seed).
Proof.
  intros Hm. split; [by apply tests_evaluate|]. apply Forall_forall. intros t Ht%test_spec b h c k ->.
  destruct Ht as (b' & [= <-] & _ & Hp & _). intros Hin [Hs%negb_true_iff Hl%Z.eqb_eq]%andb_prop Hst.
  destruct (Hp _ Hin) as [Hpc _]. cbn in Hpc.
  assert (wlp (layer 0) (main uninit malloc rand_d c) (fun _ _ => False) k) as Hw by by apply app_never_ends.
  split; [done|]. intros chunk fuel. destruct (run_with _ fuel _ k) as [[r k']|] eqn:E; [|done].
  destruct (wlp_run _ _ _ _ _ _ _ _ (serve_implements 0 chunk) Hw E).
Qed.

End TransferCorrect.

Module TransferExample.
Import TransferCorrect.

Definition zeros (n : nat) : list Z := replicate n 0.
Definition counter (seed : Z) (n : nat) : Z := seed + Z.of_nat n.

Lemma length_zeros n : length (zeros n) = n.
Proof. apply length_replicate. Qed.

(** A network that connects a client after five milliseconds. *)
Definition connecting (data : list Z) : Net := mkNet ∅ 0 0 [] [Some (mkReply 5000000 data)] [].

(** The second application launched, if it is a client that connects in time. *)
Definition client_in_time (t : Res (Bench Class)) : bool :=
  match t with
  | Ok b =>
      match launched b !! 1%nat with
      | Some (_, c) => negb (is_server c) &&
          (Z.max (connect_from (env_of c) (connecting [])) 5000000 / 1000 <=? long_of (env_of c) "START_TIME")
      | None => false
      end
  | Err _ => false
  end.

Definition client_starts (t : Res (Bench Class)) (data : list Z) : Prop :=
  exists b h c, t = Ok b /\ (h, c) ∈ launched b /\ starts c data (connecting data).

Lemma client_starts_ok t data : client_in_time t = true -> Z.of_nat (length data) < 2 ^ 31 - 1 -> client_starts t data.
Proof.
  intros H Hl. destruct t as [b|]; [|discriminate]. unfold client_in_time in H.
  destruct (launched b !! 1%nat) as [[h c]|] eqn:E; [|discriminate]. apply andb_prop in H as [H1%negb_true_iff H2%Z.leb_le].
  exists b, h, c. split; [reflexivity|]. split; [by eapply list_elem_of_lookup_2|]. unfold starts. rewrite H1.
  split; [cbn; lia|]. split; [exact Hl|]. eexists _, []. split; [reflexivity|]. split; [reflexivity|]. exact H2.
Qed.

Lemma clients_in_time :
  client_in_time (TestTransfer_Connect_Send_EOF 65) = true /\ client_in_time (TestTransfer_Connect_Recv_EOF 65) = true.
Proof. split; vm_compute; reflexivity. Qed.


Lemma posix_end_of_file_hangs_witness :
  (forall n, length (zeros n) = n) /\
  client_starts (TestTransfer_Connect_Recv_EOF 65) (fill counter 0 0 (Z.to_nat 131072)) /\
  length (filter (fun t => some_wait t = true) (tests 65)) = 11%nat /\
  Forall (hangs zero_addr zeros counter) (tests 65).
Proof.
  split; [exact length_zeros|].
  split; [apply client_starts_ok; [apply clients_in_time|rewrite length_fill, Z2Nat.id by lia; lia]|].
  exact (posix_end_of_file_hangs zero_addr zeros counter 65 length_zeros).
Defined.

End TransferExample.
