(* ===== verification/EchoApp.v ===== *)
(** * EchoApp: who owns the arguments of the echo applications

    Models [EchoHost::EchoApp] of app/echo/testecho.cpp: the constructor copies
    the argument strings with [strdup], the destructor frees them, and the move
    operations hand the pointers over.  The heap is a map from addresses to
    strings, [free] of an address that is not allocated is a failure, and the
    objects of a test program form a store that sequences of constructions,
    moves and destructions change. *)

From S2P Require Import Prelude.
Local Open Scope Z_scope.

Module EchoApp.

Abbreviation Heap := (gmap Z string).

(** [malloc], as [strdup] calls it: an address that is not in use. *)
Class Allocator := {
  malloc : Heap -> Z;
  malloc_fresh h : h !! malloc h = None;
}.

(** [pid] is indeterminate until [runTest] stores it. *)
Record EchoApp := mkEchoApp {
  pid : option Z;
  answers : gmap string string;
  args : list Z;
}.

Section EchoApp.
Context {A : Allocator}.

Definition strdup (arg : string) (h : Heap) : Z * Heap := (malloc h, <[malloc h := arg]> h).

Definition free (p : Z) (h : Heap) : Res Heap :=
  match h !! p with Some _ => Ok (delete p h) | None => Err OutOfBounds end.

(** The constructor from a list of strings. *)
Fixpoint copy_args (arg_list : list string) (args : list Z) (h : Heap) : list Z * Heap :=
  match arg_list with
  | [] => (args, h)
  | arg :: arg_list => let '(arg_c, h) := strdup arg h in copy_args arg_list (args ++ [arg_c]) h
  end.

Definition EchoApp_new (arg_list : list string) (h : Heap) : EchoApp * Heap :=
  let '(args, h) := copy_args arg_list [] h in (mkEchoApp None ∅ args, h).

Definition EchoApp_destroy (a : EchoApp) (h : Heap) : Res Heap := foldM free (args a) h.

(** The move constructor: the new object and what is left of [other]. *)
Definition EchoApp_move (other : EchoApp) : EchoApp * EchoApp :=
  (mkEchoApp (pid other) (answers other) ([] ++ args other), mkEchoApp (pid other) ∅ []).

(** The move assignment, for different objects; it appends the arguments. *)
Definition EchoApp_assign (this other : EchoApp) : EchoApp * EchoApp :=
  (mkEchoApp (pid other) (answers other) (args this ++ args other), mkEchoApp (pid other) ∅ []).

(** ** Programs over the objects *)

Inductive Op :=
| ONew (x : Z) (arg_list : list string)
| OMove (x y : Z)     (* EchoApp x(std::move(y)) *)
| OAssign (x y : Z)   (* x = std::move(y) *)
| ODestroy (x : Z).

Abbreviation Store := (gmap Z EchoApp).

(** The lifetime rules of the language: an operation on an object that does not
    live, or a construction over a living one, is not a program. *)
Definition well_formed (o : Op) (st : Store) : bool :=
  match o with
  | ONew x _ => bool_decide (st !! x = None)
  | OMove x y => bool_decide (st !! x = None /\ is_Some (st !! y))
  | OAssign x y => bool_decide (is_Some (st !! x) /\ is_Some (st !! y) /\ x <> y)
  | ODestroy x => bool_decide (is_Some (st !! x))
  end.

Definition exec_op (o : Op) (s : Store * Heap) : Res (Store * Heap) :=
  let '(st, h) := s in
  match o with
  | ONew x arg_list => let '(a, h) := EchoApp_new arg_list h in Ok (<[x := a]> st, h)
  | OMove x y =>
      other ← of_option NullDeref (st !! y);
      let '(a, other) := EchoApp_move other in Ok (<[x := a]> (<[y := other]> st), h)
  | OAssign x y =>
      this ← of_option NullDeref (st !! x);
      other ← of_option NullDeref (st !! y);
      let '(a, other) := EchoApp_assign this other in Ok (<[x := a]> (<[y := other]> st), h)
  | ODestroy x =>
      a ← of_option NullDeref (st !! x);
      h ← EchoApp_destroy a h;
      Ok (delete x st, h)
  end.

(** ** Ownership *)

(** Every allocated address is owned by one living object, once. *)
Record owned (st : Store) (h : Heap) : Prop := {
  ow_live x a p : st !! x = Some a -> p ∈ args a -> is_Some (h !! p);
  ow_owner p : is_Some (h !! p) -> exists x a, st !! x = Some a /\ p ∈ args a;
  ow_nodup x a : st !! x = Some a -> NoDup (args a);
  ow_once x y a b p : st !! x = Some a -> st !! y = Some b -> p ∈ args a -> p ∈ args b -> x = y;
}.

Lemma copy_args_spec l ps h :
  exists new, copy_args l ps h = (ps ++ new, (copy_args l ps h).2) /\ NoDup new /\
    (forall p, p ∈ new -> h !! p = None) /\
    (forall p, is_Some ((copy_args l ps h).2 !! p) <-> is_Some (h !! p) \/ p ∈ new) /\
    (forall p, is_Some (h !! p) -> (copy_args l ps h).2 !! p = h !! p) /\
    mapM (fun p => (copy_args l ps h).2 !! p) new = Some l.
Proof.
  revert ps h. induction l as [|s l IH]; intros ps h; cbn [copy_args].
  - exists []. rewrite app_nil_r. split; [done|]. split; [constructor|]. split; [by intros p ?%not_elem_of_nil|].
    split; [|done]. intros p. rewrite elem_of_nil. tauto.
  - cbn [strdup]. set (p0 := malloc h). set (h1 := <[p0 := s]> h).
    destruct (IH (ps ++ [p0]) h1) as (new & E & Hn & Hfresh & Hdom & Hkeep & Hm). set (h2 := (copy_args l (ps ++ [p0]) h1).2) in *.
    assert (p0 ∉ new) as Hp0 by (intros Hin; apply Hfresh in Hin; unfold h1 in Hin; by rewrite lookup_insert_eq in Hin).
    exists (p0 :: new). split; [by rewrite E, <- app_assoc|]. split; [by constructor|]. split; [|split; [|split]].
    + intros p [->|Hin]%elem_of_cons; [apply malloc_fresh|]. apply Hfresh in Hin. unfold h1 in Hin.
      by apply lookup_insert_None in Hin as [? _].
    + intros p. rewrite Hdom, elem_of_cons. unfold h1. destruct (decide (p = p0)) as [->|].
      * rewrite lookup_insert_eq. split; [by auto|]. intros _. left. by eexists.
      * rewrite lookup_insert_ne by done. tauto.
    + intros p Hp. rewrite Hkeep; unfold h1; rewrite lookup_insert_ne; try done;
        intros Eq; rewrite <- Eq in Hp; pose proof (malloc_fresh h) as Hf; unfold p0 in Hp; rewrite Hf in Hp; by destruct Hp.
    + cbn [mapM]. rewrite Hkeep; unfold h1; [|by exists s; rewrite lookup_insert_eq]. rewrite lookup_insert_eq. cbn. by rewrite Hm.
Qed.

Lemma free_all ps h :
  NoDup ps -> (forall p, p ∈ ps -> is_Some (h !! p)) ->
  exists h', foldM free ps h = Ok h' /\ forall p, h' !! p = if bool_decide (p ∈ ps) then None else h !! p.
Proof.
  revert h. induction ps as [|p ps IH]; intros h Hn Hl; cbn [foldM]; [by exists h|].
  apply NoDup_cons in Hn as [Hnin Hn]. unfold free at 1. destruct (Hl p) as [s ->]; [left|].
  destruct (IH (delete p h) Hn) as (h' & E & H).
  { intros q Hq. rewrite lookup_delete_ne by (intros ->; done). apply Hl. by right. }
  exists h'. split; [done|]. intros q. rewrite H. destruct (decide (q = p)) as [->|Hne].
  - rewrite (bool_decide_eq_true_2 (p ∈ p :: ps)) by left. by rewrite bool_decide_eq_false_2, lookup_delete_eq by done.
  - rewrite lookup_delete_ne by done. rewrite (bool_decide_ext (q ∈ p :: ps) (q ∈ ps)); [done|].
    rewrite elem_of_cons. tauto.
Qed.

Lemma new_owned x l st h :
  owned st h -> st !! x = None -> owned (<[x := (EchoApp_new l h).1]> st) (EchoApp_new l h).2.
Proof.
  intros [H1 H2 H3 H4] Hx. unfold EchoApp_new. destruct (copy_args_spec l [] h) as (new & E & Hn & Hf & Hd & Hk & _).
  rewrite E. cbn [fst snd app]. set (h' := (copy_args l [] h).2) in *. constructor.
  - intros y a p [[<- <-]|[Hne Hy]]%lookup_insert_Some Hp; apply Hd; [by right|left; by eapply H1].
  - intros p [Hp|Hp]%Hd; [|exists x; eexists; by rewrite lookup_insert_eq].
    destruct (H2 p Hp) as (y & a & Hy & Ha). exists y, a. rewrite lookup_insert_ne; [done|]. intros ->. congruence.
  - intros y a [[<- <-]|[Hne Hy]]%lookup_insert_Some; [done|by eapply H3].
  - intros y z a b p [[<- <-]|[Hy1 Hy]]%lookup_insert_Some [[<- <-]|[Hz1 Hz]]%lookup_insert_Some Hpa Hpb;
      [done| | |by eapply H4]; exfalso.
    + apply Hf in Hpa. apply (H1 _ _ _ Hz) in Hpb. rewrite Hpa in Hpb. by destruct Hpb.
    + apply Hf in Hpb. apply (H1 _ _ _ Hy) in Hpa. rewrite Hpb in Hpa. by destruct Hpa.
Qed.

(** Handing the arguments of [y] to [x], after those [x] had. *)
Lemma transfer_owned x y a b st h :
  owned st h -> st !! y = Some b -> x <> y -> args a = (match st !! x with Some a0 => args a0 | None => [] end) ++ args b ->
  owned (<[x := a]> (<[y := mkEchoApp (pid b) ∅ []]> st)) h.
Proof.
  intros [H1 H2 H3 H4] Hy Hne Ea.
  assert (forall p, p ∈ args a <-> (exists a0, st !! x = Some a0 /\ p ∈ args a0) \/ p ∈ args b) as Hin.
  { intros p. rewrite Ea, elem_of_app. destruct (st !! x) as [a0|]; [naive_solver|]. rewrite elem_of_nil. naive_solver. }
  constructor.
  - intros z c p [[<- <-]|[Hz1 [[<- <-]|[Hz2 Hz]]%lookup_insert_Some]]%lookup_insert_Some Hp.
    + apply Hin in Hp as [(a0 & E & Hp)|Hp]; by eapply H1.
    + by apply not_elem_of_nil in Hp.
    + by eapply H1.
  - intros p Hp. destruct (H2 p Hp) as (z & c & Hz & Hc). destruct (decide (z = x)) as [->|Hzx].
    + exists x, a. rewrite lookup_insert_eq. split; [done|]. apply Hin. left. by exists c.
    + destruct (decide (z = y)) as [->|Hzy].
      * exists x, a. rewrite lookup_insert_eq. split; [done|]. apply Hin. right. congruence.
      * exists z, c. by rewrite !lookup_insert_ne.
  - intros z c [[<- <-]|[Hz1 [[<- <-]|[Hz2 Hz]]%lookup_insert_Some]]%lookup_insert_Some; [|constructor|by eapply H3].
    rewrite Ea. apply NoDup_app. destruct (st !! x) as [a0|] eqn:Ex; [|split; [constructor|]; split; [by intros ? ?%not_elem_of_nil|by eapply H3]].
    split; [by eapply H3|]. split; [|by eapply H3]. intros p Hp Hb. by apply Hne, (H4 x y a0 b p).
  - intros z z' c c' p Hz Hz' Hc Hc'.
    assert (forall z c, (<[x:=a]> (<[y:=mkEchoApp (pid b) ∅ []]> st) : Store) !! z = Some c -> p ∈ args c ->
      (z = x /\ exists w d, (w = x \/ w = y) /\ st !! w = Some d /\ p ∈ args d) \/ (z <> x /\ z <> y /\ st !! z = Some c)) as Hcase.
    { intros v d [[<- <-]|[Hv1 [[<- <-]|[Hv2 Hv]]%lookup_insert_Some]]%lookup_insert_Some Hd; [left|by apply not_elem_of_nil in Hd|by right].
      split; [done|]. apply Hin in Hd as [(a0 & E & Hp)|Hp]; [exists x, a0|exists y, b]; auto. }
    destruct (Hcase z c Hz Hc) as [(-> & w & d & Hw & Ew & Hd)|(Hn1 & Hn2 & Ez)], (Hcase z' c' Hz' Hc') as [(-> & w' & d' & Hw' & Ew' & Hd')|(Hn1' & Hn2' & Ez')]; try done.
    + exfalso. assert (w = z') as <- by (by eapply H4). by destruct Hw.
    + exfalso. assert (z = w') as <- by (by eapply H4). by destruct Hw'.
    + by eapply H4.
Qed.

Lemma destroy_owned x a st h :
  owned st h -> st !! x = Some a -> exists h', EchoApp_destroy a h = Ok h' /\ owned (delete x st) h'.
Proof.
  intros [H1 H2 H3 H4] Hx. destruct (free_all (args a) h) as (h' & E & H); [by eapply H3|intros p; by apply (H1 x a)|].
  exists h'. split; [done|]. constructor.
  - intros y b p [Hne Hy]%lookup_delete_Some Hp. rewrite H, bool_decide_eq_false_2; [by eapply H1|].
    intros Hin. apply Hne. by eapply H4.
  - intros p Hp. rewrite H in Hp. case_bool_decide as Hin; [by destruct Hp|]. destruct (H2 p Hp) as (y & b & Hy & Hb).
    exists y, b. rewrite lookup_delete_ne; [done|]. intros ->. congruence.
  - intros y b [_ Hy]%lookup_delete_Some. by eapply H3.
  - intros y z b c p [_ Hy]%lookup_delete_Some [_ Hz]%lookup_delete_Some. by eapply H4.
Qed.

(** Every operation of a program succeeds and keeps the ownership. *)
Lemma exec_op_owned o st h :
  owned st h -> well_formed o st = true -> exists st' h', exec_op o (st, h) = Ok (st', h') /\ owned st' h'.
Proof.
  intros Ho Hw. destruct o as [x l|x y|x y|x]; cbn [well_formed exec_op] in *; apply bool_decide_eq_true in Hw.
  - pose proof (new_owned x l st h Ho Hw) as H. destruct (EchoApp_new l h) as [a h']. by eexists _, _.
  - destruct Hw as [Hx [b Hy]]. rewrite Hy. cbn. eexists _, _. split; [reflexivity|].
    apply transfer_owned; [done|done|by intros ->; congruence|]. by rewrite Hx.
  - destruct Hw as ([a Hx] & [b Hy] & Hne). rewrite Hx, Hy. cbn. eexists _, _. split; [reflexivity|].
    apply transfer_owned; [done|done|done|]. by rewrite Hx.
  - destruct Hw as [a Hx]. rewrite Hx. cbn. destruct (destroy_owned x a st h Ho Hx) as (h' & -> & H'). by eexists _, _.
Qed.

(** ** Properties *)

Fixpoint run_ops (ops : list Op) (s : Store * Heap) : option (Res (Store * Heap)) :=
  match ops with
  | [] => Some (Ok s)
  | o :: ops =>
      if well_formed o (fst s) then match exec_op o s with Ok s => run_ops ops s | Err e => Some (Err e) end
      else None
  end.

(** The strings an application would be started with. *)
Definition strings (a : EchoApp) (h : Heap) : option (list string) := mapM (fun p => h !! p) (args a).

(** the arguments of the echo applications are owned: however objects are
    constructed, moved, assigned and destroyed, no string is freed twice, every
    allocated string belongs to one living object, and nothing is allocated
    when all objects are gone; a constructed object has the given arguments and
    a moved one those of its source, but an assigned one keeps its own
    arguments in front of them. *)
Theorem echo_app_ownership ops r :
  run_ops ops (∅, ∅) = Some r ->
  (exists st h, r = Ok (st, h) /\ owned st h /\ (st = ∅ -> h = ∅)) /\
  (forall l h, strings (EchoApp_new l h).1 (EchoApp_new l h).2 = Some l) /\
  (forall a h, strings (EchoApp_move a).1 h = strings a h) /\
  (forall a b h la lb, strings a h = Some la -> strings b h = Some lb -> strings (EchoApp_assign a b).1 h = Some (la ++ lb)).
Proof.
  intros Hrun. split; [|split; [|split]].
  - assert (owned ∅ ∅) as H0 by (constructor; [intros x a p H; by rewrite lookup_empty in H
      |intros p [s H]; by rewrite lookup_empty in H|intros x a H; by rewrite lookup_empty in H
      |intros x y a b p H; by rewrite lookup_empty in H]).
    assert (forall st h, owned st h -> run_ops ops (st, h) = Some r ->
      exists st h, r = Ok (st, h) /\ owned st h /\ (st = ∅ -> h = ∅)) as Hall; [|by eapply Hall]. clear H0 Hrun.
    induction ops as [|o ops IH]; intros st h Ho Hrun; cbn [run_ops fst] in Hrun.
    + injection Hrun as <-. exists st, h. split; [done|]. split; [done|]. intros ->. apply map_eq. intros p.
      rewrite lookup_empty. apply eq_None_not_Some. intros Hp. apply (ow_owner _ _ Ho) in Hp as (x & a & Hx & _).
      by rewrite lookup_empty in Hx.
    + destruct (well_formed o st) eqn:Hw; [|discriminate].
      destruct (exec_op_owned o st h Ho Hw) as (st' & h' & E & Ho'). rewrite E in Hrun. exact (IH st' h' Ho' Hrun).
  - intros l h. unfold strings, EchoApp_new. destruct (copy_args_spec l [] h) as (new & E & _ & _ & _ & _ & Hm).
    rewrite E. exact Hm.
  - done.
  - intros a b h la lb Ha Hb. unfold strings, EchoApp_assign. cbn [fst args]. apply mapM_Some_2.
    apply mapM_Some_1 in Ha, Hb. by apply Forall2_app.
Qed.

End EchoApp.

(** *** Instances *)

#[local] Instance bump_allocator : Allocator.
Proof.
  refine {| malloc h := 1 + foldr Z.max 0 (fst <$> map_to_list h) |}.
  intros h. apply eq_None_not_Some. intros [s Hs]. set (l := fst <$> map_to_list h) in *.
  assert (1 + foldr Z.max 0 l ∈ l) as Hin.
  { apply list_elem_of_fmap. exists (1 + foldr Z.max 0 l, s). split; [done|]. by apply elem_of_map_to_list. }
  assert (forall x, x ∈ l -> x <= foldr Z.max 0 l) as Hle.
  { intros x. clear. induction l as [|y l IH]; [by intros ?%not_elem_of_nil|]. intros [->|H]%elem_of_cons; cbn; [lia|].
    specialize (IH H). lia. }
  apply Hle in Hin. lia.
Defined.

(** Two applications in a vector that grows: the first one moves. *)
Definition ex_ops : list Op := [ONew 1 ["echo"; "s"]%string; OMove 2 1; ODestroy 1; ONew 3 ["echo"; "c"]%string; ODestroy 3; ODestroy 2].

Lemma echo_app_ownership_witness : run_ops ex_ops (∅, ∅) = Some (Ok (∅, ∅)).
Proof.
  assert (exists r, run_ops ex_ops (∅, ∅) = Some r /\ (match r with Ok (st, _) => st = ∅ | Err _ => True end)) as (r & E & Hst)
    by (eexists; split; [vm_compute; reflexivity | vm_compute; reflexivity]).
  destruct (proj1 (echo_app_ownership ex_ops r E)) as (st & h & -> & _ & H). cbn in Hst. subst st. rewrite E.
  rewrite (H eq_refl). reflexivity.
Defined.

End EchoApp.
