(* ===== verification/EchoTest.v ===== *)
(** * EchoTest: the tests of the echo assignment

    Models the part of app/echo/testecho.cpp that does not depend on the
    network: the applications and their arguments, [checkTest] and the fifteen
    tests; and the main function of app/echo/EchoNonKens.cpp.

    The answers the applications submit are what [checkTest] looks at.  The
    reference is the protocol the usage text of EchoAssignment.cpp describes.
    The theorems show that this protocol passes every test in whatever order
    the answers are submitted, and which tests can be passed at all. *)

From S2P Require Import Prelude NetworkUtil Packet RoutingInfo TimeUtil RandomDistribution System.
From S2P Require Import ModuleBase Wire Link HostApi Ethernet Host Assignments Network TestEnv.
From stdpp Require Import sorting relations pretty.
Local Open Scope Z_scope.

Module EchoTest.

(** ** A test: server greetings, clients, connections, and whether the
    servers' answers are checked *)
Record EchoTest := mkEchoTest {
  servers : list string;
  num_clients : Z;
  wanted : list (Z * Z * string);
  skip_server : bool;
}.

(** An element of [EchoTesting::connections]. *)
Record Connection := mkConn {
  c_server : Z;
  c_client : Z;
  c_command : string;
  c_app : nat;
}.

Definition num_servers (t : EchoTest) : Z := wrap 8 (Z.of_nat (length (servers t))).
Definition num_hosts (t : EchoTest) : Z := wrap 8 (num_clients t + num_servers t).

(** ["10.0.0." + std::to_string(n)]. *)
Definition host_ip (n : Z) : string := "10.0.0." +:+ pretty n.

(** ** The applications of [SetUp]: per host, the arguments of each *)

Definition addServer (sh : nat * string) (apps : list (list (list string))) : Res (list (list (list string))) :=
  let '(server_id, hello) := sh in
  host ← of_option OutOfBounds (apps !! server_id);
  Ok (<[server_id := host ++ [["echo"; "s"; "0.0.0.0"; "9000"; hello]%string]]> apps).

Definition addConnection (t : EchoTest) (w : Z * Z * string) (st : list (list (list string)) * list Connection)
  : Res (list (list (list string)) * list Connection) :=
  let '(server_id, client_id, command) := w in
  let '(apps, connections) := st in
  _ ← assert_that (server_id <? num_servers t) "server_id < num_servers";
  _ ← assert_that (client_id <? num_clients t) "client_id < num_clients";
  let id := Z.to_nat (num_servers t + client_id) in
  client ← of_option OutOfBounds (apps !! id);
  let args := ["echo"; "c"; host_ip (server_id + 1); "9000"; command]%string in
  Ok (<[id := client ++ [args]]> apps, connections ++ [mkConn server_id client_id command (length client)]).

Definition checkSizes (t : EchoTest) : Res unit :=
  _ ← assert_that (Z.of_nat (length (servers t)) <? 50) "servers.size() < 50";
  assert_that (num_clients t <? 150) "num_clients < 150".

Definition addApps (t : EchoTest) : Res (list (list (list string)) * list Connection) :=
  apps ← foldM addServer (zip (seq 0 (length (servers t))) (servers t)) (replicate (Z.to_nat (num_hosts t)) []);
  foldM (addConnection t) (wanted t) (apps, []).

(** [SetUp] without the network. *)
Definition setup_apps (t : EchoTest) : Res (list (list (list string)) * list Connection) :=
  _ ← checkSizes t; addApps t.

(** ** [checkTest] *)

(** The answers of application [a] of host [h] under the address [ip]. *)
Abbreviation Answers := (gmap (nat * nat * string) string).
Definition answer (ans : Answers) (h a : nat) (ip : string) : string := default String.EmptyString (ans !! (h, a, ip)).

Definition server_ip (c : Connection) : string := host_ip (c_server c + 1).
Definition client_ip (t : EchoTest) (c : Connection) : string := host_ip (Z.of_nat (length (servers t)) + c_client c + 1).
Definition server_host (c : Connection) : nat := Z.to_nat (c_server c).
Definition client_host (t : EchoTest) (c : Connection) : nat := Z.to_nat (Z.of_nat (length (servers t)) + c_client c).

Definition expected_client_ans (hello client_ip server_ip command : string) : string :=
  if String.eqb command "hello" then hello
  else if String.eqb command "whoami" then client_ip
  else if String.eqb command "whoru" then server_ip
  else command.

(** The expectations about one connection. *)
Definition checkConnection (t : EchoTest) (ans : Answers) (c : Connection) : Res (list bool) :=
  server_hello ← of_option OutOfBounds (servers t !! server_host c);
  let server_ans := answer ans (server_host c) 0 (client_ip t c) in
  let client_ans := answer ans (client_host t c) (c_app c) (server_ip c) in
  Ok ((if skip_server t then [] else [String.eqb server_ans (c_command c)]) ++
      [String.eqb client_ans (expected_client_ans server_hello (client_ip t c) (server_ip c) (c_command c))]).

Definition checkTest (t : EchoTest) (connections : list Connection) (ans : Answers) : Res (list bool) :=
  foldM (fun c bs => new ← checkConnection t ans c; Ok (bs ++ new)) connections [].

(** ** EchoNonKens.cpp

    Outside the simulator [E_Main] runs to its end; the skeletons make no
    call. *)
Definition nonkens_main (argv : list string) : Res (list Echo.Printed * list (string * string) * Z) :=
  '(printed, p) ← Echo.E_Main argv;
  match p with
  | Finish ret => Ok (printed, map_to_list (Echo.answers (Echo.mkEcho ∅)), ret)
  | _ => Err Indeterminate
  end.

(** ** The tests *)

Definition SingleEcho : EchoTest := mkEchoTest
  ["server-hello"]%string 1
  [(0, 0, "echo-test")]%string
  false.

Definition SingleWhoRU : EchoTest := mkEchoTest
  ["server-hello1"]%string 1
  [(0, 0, "whoru")]%string
  false.

Definition SingleWhoAmI : EchoTest := mkEchoTest
  ["server-hello2"]%string 1
  [(0, 0, "whoami")]%string
  false.

Definition SingleHello : EchoTest := mkEchoTest
  ["server-hello3"]%string 1
  [(0, 0, "hello")]%string
  false.

Definition OnetoManyEcho : EchoTest := mkEchoTest
  ["server-hello4"]%string 33
  [(0, 0, "echo-hello0"); (0, 1, "echo-hello1"); (0, 2, "echo-hello2"); (0, 3, "echo-hello3"); (0, 4,
   "echo-hello4"); (0, 5, "echo-hello5"); (0, 6, "echo-hello6"); (0, 7, "echo-hello7"); (0, 8, "echo-hello8");
   (0, 9, "echo-hello9"); (0, 10, "echo-hello10"); (0, 11, "echo-hello11"); (0, 12, "echo-hello12"); (0, 13,
   "echo-hello13"); (0, 14, "echo-hello14"); (0, 15, "echo-hello15"); (0, 16, "echo-hello16"); (0, 17,
   "echo-hello17"); (0, 18, "echo-hello18"); (0, 19, "echo-hello19"); (0, 20, "echo-hello20"); (0, 21,
   "echo-hello21"); (0, 22, "echo-hello22"); (0, 23, "echo-hello23"); (0, 24, "echo-hello24"); (0, 25,
   "echo-hello25"); (0, 26, "echo-hello26"); (0, 27, "echo-hello27"); (0, 28, "echo-hello28"); (0, 29,
   "echo-hello29"); (0, 30, "echo-hello30"); (0, 31, "echo-hello31"); (0, 32, "echo-hello32")]%string
  false.

Definition OnetoManyWhoRU : EchoTest := mkEchoTest
  ["server-hello5"]%string 33
  [(0, 0, "whoru"); (0, 1, "whoru"); (0, 2, "whoru"); (0, 3, "whoru"); (0, 4, "whoru"); (0, 5, "whoru"); (0, 6,
   "whoru"); (0, 7, "whoru"); (0, 8, "whoru"); (0, 9, "whoru"); (0, 10, "whoru"); (0, 11, "whoru"); (0, 12,
   "whoru"); (0, 13, "whoru"); (0, 14, "whoru"); (0, 15, "whoru"); (0, 16, "whoru"); (0, 17, "whoru"); (0, 18,
   "whoru"); (0, 19, "whoru"); (0, 20, "whoru"); (0, 21, "whoru"); (0, 22, "whoru"); (0, 23, "whoru"); (0, 24,
   "whoru"); (0, 25, "whoru"); (0, 26, "whoru"); (0, 27, "whoru"); (0, 28, "whoru"); (0, 29, "whoru"); (0, 30,
   "whoru"); (0, 31, "whoru"); (0, 32, "whoru")]%string
  false.

Definition OnetoManyWhoAmI : EchoTest := mkEchoTest
  ["server-hello6"]%string 33
  [(0, 0, "whoami"); (0, 1, "whoami"); (0, 2, "whoami"); (0, 3, "whoami"); (0, 4, "whoami"); (0, 5, "whoami");
   (0, 6, "whoami"); (0, 7, "whoami"); (0, 8, "whoami"); (0, 9, "whoami"); (0, 10, "whoami"); (0, 11,
   "whoami"); (0, 12, "whoami"); (0, 13, "whoami"); (0, 14, "whoami"); (0, 15, "whoami"); (0, 16, "whoami");
   (0, 17, "whoami"); (0, 18, "whoami"); (0, 19, "whoami"); (0, 20, "whoami"); (0, 21, "whoami"); (0, 22,
   "whoami"); (0, 23, "whoami"); (0, 24, "whoami"); (0, 25, "whoami"); (0, 26, "whoami"); (0, 27, "whoami");
   (0, 28, "whoami"); (0, 29, "whoami"); (0, 30, "whoami"); (0, 31, "whoami"); (0, 32, "whoami")]%string
  false.

Definition OnetoManyHello : EchoTest := mkEchoTest
  ["server-hello7"]%string 33
  [(0, 0, "hello"); (0, 1, "hello"); (0, 2, "hello"); (0, 3, "hello"); (0, 4, "hello"); (0, 5, "hello"); (0, 6,
   "hello"); (0, 7, "hello"); (0, 8, "hello"); (0, 9, "hello"); (0, 10, "hello"); (0, 11, "hello"); (0, 12,
   "hello"); (0, 13, "hello"); (0, 14, "hello"); (0, 15, "hello"); (0, 16, "hello"); (0, 17, "hello"); (0, 18,
   "hello"); (0, 19, "hello"); (0, 20, "hello"); (0, 21, "hello"); (0, 22, "hello"); (0, 23, "hello"); (0, 24,
   "hello"); (0, 25, "hello"); (0, 26, "hello"); (0, 27, "hello"); (0, 28, "hello"); (0, 29, "hello"); (0, 30,
   "hello"); (0, 31, "hello"); (0, 32, "hello")]%string
  false.

Definition OnetoManyAll : EchoTest := mkEchoTest
  ["server-hello8"]%string 33
  [(0, 0, "echo-hello0"); (0, 1, "echo-hello1"); (0, 2, "echo-hello2"); (0, 3, "echo-hello3"); (0, 4,
   "echo-hello4"); (0, 5, "echo-hello5"); (0, 6, "echo-hello6"); (0, 7, "echo-hello7"); (0, 8, "echo-hello8");
   (0, 9, "echo-hello9"); (0, 10, "echo-hello10"); (0, 11, "echo-hello11"); (0, 12, "echo-hello12"); (0, 13,
   "echo-hello13"); (0, 14, "echo-hello14"); (0, 15, "echo-hello15"); (0, 16, "echo-hello16"); (0, 17,
   "echo-hello17"); (0, 18, "echo-hello18"); (0, 19, "echo-hello19"); (0, 20, "echo-hello20"); (0, 21,
   "echo-hello21"); (0, 22, "echo-hello22"); (0, 23, "echo-hello23"); (0, 24, "echo-hello24"); (0, 25,
   "echo-hello25"); (0, 26, "echo-hello26"); (0, 27, "echo-hello27"); (0, 28, "echo-hello28"); (0, 29,
   "echo-hello29"); (0, 30, "echo-hello30"); (0, 31, "echo-hello31"); (0, 32, "echo-hello32"); (0, 0, "whoru");
   (0, 1, "whoru"); (0, 2, "whoru"); (0, 3, "whoru"); (0, 4, "whoru"); (0, 5, "whoru"); (0, 6, "whoru"); (0, 7,
   "whoru"); (0, 8, "whoru"); (0, 9, "whoru"); (0, 10, "whoru"); (0, 11, "whoru"); (0, 12, "whoru"); (0, 13,
   "whoru"); (0, 14, "whoru"); (0, 15, "whoru"); (0, 16, "whoru"); (0, 17, "whoru"); (0, 18, "whoru"); (0, 19,
   "whoru"); (0, 20, "whoru"); (0, 21, "whoru"); (0, 22, "whoru"); (0, 23, "whoru"); (0, 24, "whoru"); (0, 25,
   "whoru"); (0, 26, "whoru"); (0, 27, "whoru"); (0, 28, "whoru"); (0, 29, "whoru"); (0, 30, "whoru"); (0, 31,
   "whoru"); (0, 32, "whoru"); (0, 0, "whoami"); (0, 1, "whoami"); (0, 2, "whoami"); (0, 3, "whoami"); (0, 4,
   "whoami"); (0, 5, "whoami"); (0, 6, "whoami"); (0, 7, "whoami"); (0, 8, "whoami"); (0, 9, "whoami"); (0, 10,
   "whoami"); (0, 11, "whoami"); (0, 12, "whoami"); (0, 13, "whoami"); (0, 14, "whoami"); (0, 15, "whoami");
   (0, 16, "whoami"); (0, 17, "whoami"); (0, 18, "whoami"); (0, 19, "whoami"); (0, 20, "whoami"); (0, 21,
   "whoami"); (0, 22, "whoami"); (0, 23, "whoami"); (0, 24, "whoami"); (0, 25, "whoami"); (0, 26, "whoami");
   (0, 27, "whoami"); (0, 28, "whoami"); (0, 29, "whoami"); (0, 30, "whoami"); (0, 31, "whoami"); (0, 32,
   "whoami"); (0, 0, "hello"); (0, 1, "hello"); (0, 2, "hello"); (0, 3, "hello"); (0, 4, "hello"); (0, 5,
   "hello"); (0, 6, "hello"); (0, 7, "hello"); (0, 8, "hello"); (0, 9, "hello"); (0, 10, "hello"); (0, 11,
   "hello"); (0, 12, "hello"); (0, 13, "hello"); (0, 14, "hello"); (0, 15, "hello"); (0, 16, "hello"); (0, 17,
   "hello"); (0, 18, "hello"); (0, 19, "hello"); (0, 20, "hello"); (0, 21, "hello"); (0, 22, "hello"); (0, 23,
   "hello"); (0, 24, "hello"); (0, 25, "hello"); (0, 26, "hello"); (0, 27, "hello"); (0, 28, "hello"); (0, 29,
   "hello"); (0, 30, "hello"); (0, 31, "hello"); (0, 32, "hello")]%string
  true.

Definition ManytoOneEcho : EchoTest := mkEchoTest
  ["server0"; "server1"; "server2"; "server3"; "server4"; "server5"; "server6"; "server7"; "server8"; "server9"]%string 1
  [(0, 0, "echo-hello0"); (1, 0, "echo-hello1"); (2, 0, "echo-hello2"); (3, 0, "echo-hello3"); (4, 0,
   "echo-hello4"); (5, 0, "echo-hello5"); (6, 0, "echo-hello6"); (7, 0, "echo-hello7"); (8, 0, "echo-hello8");
   (9, 0, "echo-hello9")]%string
  false.

Definition ManytoOneWhoRU : EchoTest := mkEchoTest
  ["server0"; "server1"; "server2"; "server3"; "server4"; "server5"; "server6"; "server7"; "server8"; "server9"]%string 1
  [(0, 0, "whoru"); (1, 0, "whoru"); (2, 0, "whoru"); (3, 0, "whoru"); (4, 0, "whoru"); (5, 0, "whoru"); (6, 0,
   "whoru"); (7, 0, "whoru"); (8, 0, "whoru"); (9, 0, "whoru")]%string
  false.

Definition ManytoOneWhoAmI : EchoTest := mkEchoTest
  ["server0"; "server1"; "server2"; "server3"; "server4"; "server5"; "server6"; "server7"; "server8"; "server9"]%string 1
  [(0, 0, "whoami"); (1, 0, "whoami"); (2, 0, "whoami"); (3, 0, "whoami"); (4, 0, "whoami"); (5, 0, "whoami");
   (6, 0, "whoami"); (7, 0, "whoami"); (8, 0, "whoami"); (9, 0, "whoami")]%string
  false.

Definition ManytoOneHello : EchoTest := mkEchoTest
  ["server0"; "server1"; "server2"; "server3"; "server4"; "server5"; "server6"; "server7"; "server8"; "server9"]%string 1
  [(0, 0, "hello"); (1, 0, "hello"); (2, 0, "hello"); (3, 0, "hello"); (4, 0, "hello"); (5, 0, "hello"); (6, 0,
   "hello"); (7, 0, "hello"); (8, 0, "hello"); (9, 0, "hello")]%string
  false.

Definition ManytoOneAll : EchoTest := mkEchoTest
  ["server0"; "server1"; "server2"; "server3"; "server4"; "server5"; "server6"; "server7"; "server8"; "server9"]%string 1
  [(0, 0, "echo-hello0"); (1, 0, "echo-hello1"); (2, 0, "echo-hello2"); (3, 0, "echo-hello3"); (4, 0,
   "echo-hello4"); (5, 0, "echo-hello5"); (6, 0, "echo-hello6"); (7, 0, "echo-hello7"); (8, 0, "echo-hello8");
   (9, 0, "echo-hello9"); (0, 0, "whoru"); (1, 0, "whoru"); (2, 0, "whoru"); (3, 0, "whoru"); (4, 0, "whoru");
   (5, 0, "whoru"); (6, 0, "whoru"); (7, 0, "whoru"); (8, 0, "whoru"); (9, 0, "whoru"); (0, 0, "whoami"); (1,
   0, "whoami"); (2, 0, "whoami"); (3, 0, "whoami"); (4, 0, "whoami"); (5, 0, "whoami"); (6, 0, "whoami"); (7,
   0, "whoami"); (8, 0, "whoami"); (9, 0, "whoami"); (0, 0, "hello"); (1, 0, "hello"); (2, 0, "hello"); (3, 0,
   "hello"); (4, 0, "hello"); (5, 0, "hello"); (6, 0, "hello"); (7, 0, "hello"); (8, 0, "hello"); (9, 0,
   "hello")]%string
  true.

Definition ManytoMany : EchoTest := mkEchoTest
  ["server0"; "server1"; "server2"; "server3"; "server4"; "server5"; "server6"; "server7"; "server8"; "server9"]%string 33
  [(7, 32, "whoru"); (9, 16, "whoru"); (6, 26, "echo-hello3"); (5, 13, "whoami"); (0, 30, "echo-hello5"); (6,
   31, "echo-hello6"); (5, 1, "whoru"); (4, 20, "echo-hello8"); (3, 30, "whoru"); (1, 4, "whoami"); (2, 1,
   "whoru"); (0, 13, "echo-hello12"); (8, 30, "whoami"); (2, 2, "echo-hello14"); (3, 18, "whoru"); (2, 20,
   "hello"); (9, 15, "hello"); (5, 32, "whoru"); (6, 14, "hello"); (8, 6, "hello"); (8, 4, "whoami"); (7, 24,
   "hello"); (7, 7, "hello"); (6, 28, "whoru"); (2, 5, "hello"); (8, 31, "echo-hello26"); (2, 7, "whoru"); (4,
   28, "hello"); (7, 7, "whoami"); (1, 1, "echo-hello30"); (9, 10, "hello"); (7, 2, "whoami"); (4, 23,
   "whoru"); (6, 29, "whoami"); (2, 1, "hello"); (3, 29, "whoru"); (8, 32, "echo-hello37"); (7, 5, "whoru");
   (7, 11, "hello"); (2, 24, "hello"); (1, 13, "echo-hello41"); (6, 2, "whoru"); (1, 24, "whoami"); (1, 11,
   "whoami"); (2, 24, "whoru"); (7, 32, "echo-hello46"); (2, 8, "hello"); (0, 15, "hello"); (9, 30, "hello");
   (8, 9, "whoami"); (0, 6, "whoru"); (3, 25, "whoru"); (3, 29, "whoami"); (1, 17, "hello"); (5, 4, "whoru");
   (3, 25, "whoru"); (9, 1, "whoami"); (6, 17, "whoru"); (7, 25, "echo-hello59"); (7, 0, "hello"); (6, 13,
   "whoru"); (5, 19, "whoami"); (2, 12, "whoami"); (2, 9, "hello"); (2, 17, "hello"); (6, 26, "whoru"); (0, 21,
   "whoami"); (9, 28, "hello"); (6, 20, "whoru"); (6, 2, "echo-hello70"); (0, 23, "whoru"); (2, 10, "whoru");
   (4, 5, "echo-hello73"); (2, 2, "whoru"); (9, 31, "whoru"); (4, 32, "whoru"); (3, 26, "hello"); (4, 21,
   "whoami"); (0, 4, "echo-hello79"); (2, 10, "whoru"); (1, 29, "whoami"); (4, 11, "whoami"); (4, 32, "whoru");
   (0, 26, "hello"); (6, 2, "whoru"); (6, 14, "whoami"); (3, 3, "whoru"); (3, 29, "echo-hello88"); (3, 32,
   "whoru"); (0, 21, "whoru"); (8, 27, "echo-hello91"); (7, 13, "whoami"); (5, 17, "echo-hello93"); (4, 22,
   "hello"); (6, 14, "echo-hello95"); (8, 14, "whoami"); (7, 24, "hello"); (1, 9, "whoru"); (5, 4, "hello");
   (1, 23, "hello"); (1, 16, "hello"); (1, 8, "whoru"); (6, 28, "hello"); (7, 0, "echo-hello104"); (9, 30,
   "whoru"); (4, 8, "echo-hello106"); (7, 11, "echo-hello107"); (6, 24, "echo-hello108"); (3, 6,
   "echo-hello109"); (4, 31, "whoami"); (8, 21, "hello"); (0, 8, "echo-hello112"); (8, 6, "hello"); (6, 1,
   "whoru"); (9, 21, "hello"); (5, 18, "hello"); (5, 19, "whoru"); (2, 15, "whoami"); (5, 17, "whoami"); (9,
   20, "hello"); (9, 28, "whoru"); (6, 28, "whoami"); (5, 13, "whoru"); (5, 23, "whoami"); (7, 11,
   "echo-hello125"); (4, 21, "whoami"); (1, 19, "hello"); (0, 9, "whoami"); (8, 32, "echo-hello129"); (3, 14,
   "echo-hello130"); (5, 0, "whoru"); (7, 7, "echo-hello132"); (9, 27, "whoami"); (0, 24, "echo-hello134"); (3,
   22, "hello"); (5, 29, "whoami"); (2, 5, "whoami"); (1, 25, "hello"); (5, 32, "hello"); (5, 18, "whoru"); (8,
   27, "hello"); (4, 24, "hello"); (0, 9, "whoami"); (1, 11, "hello"); (4, 15, "hello"); (8, 16, "hello"); (9,
   15, "whoami"); (6, 25, "echo-hello148"); (4, 25, "whoru"); (2, 4, "whoami"); (4, 13, "hello"); (7, 17,
   "hello"); (9, 31, "whoami"); (2, 26, "hello"); (7, 32, "whoami"); (7, 32, "whoru"); (1, 27, "whoami"); (2,
   12, "whoami"); (1, 4, "hello"); (0, 8, "whoru"); (4, 15, "whoami"); (4, 19, "hello"); (1, 12, "whoru"); (2,
   23, "whoami"); (4, 22, "hello"); (5, 22, "whoru"); (4, 29, "whoami"); (9, 18, "echo-hello168"); (8, 21,
   "echo-hello169"); (8, 5, "whoru"); (8, 17, "hello"); (6, 8, "whoami"); (8, 20, "echo-hello173"); (0, 5,
   "hello"); (1, 5, "whoru"); (6, 7, "whoami"); (2, 26, "echo-hello177"); (9, 28, "whoami"); (6, 3,
   "echo-hello179"); (0, 26, "whoami"); (4, 6, "echo-hello181"); (9, 20, "hello"); (7, 16, "whoru"); (4, 19,
   "hello"); (9, 7, "echo-hello185"); (2, 14, "hello"); (0, 8, "whoru"); (9, 28, "echo-hello188"); (4, 11,
   "echo-hello189"); (3, 32, "echo-hello190"); (4, 24, "hello"); (3, 1, "whoru"); (4, 23, "whoami"); (4, 3,
   "echo-hello194"); (0, 2, "hello"); (4, 3, "echo-hello196"); (2, 17, "hello"); (0, 8, "echo-hello198"); (1,
   21, "echo-hello199"); (9, 7, "echo-hello200"); (5, 12, "whoru"); (6, 15, "whoami"); (3, 18,
   "echo-hello203"); (8, 29, "whoru"); (3, 25, "whoru"); (3, 25, "whoami"); (2, 3, "whoami"); (2, 11, "whoru");
   (8, 13, "hello"); (9, 21, "whoru"); (2, 4, "whoru"); (1, 23, "hello"); (6, 29, "hello"); (4, 11, "whoami");
   (1, 5, "hello"); (5, 6, "whoami")]%string
  true.

Definition tests : list EchoTest :=
  [SingleEcho; SingleWhoRU; SingleWhoAmI; SingleHello; OnetoManyEcho; OnetoManyWhoRU; OnetoManyWhoAmI; OnetoManyHello;
   OnetoManyAll; ManytoOneEcho; ManytoOneWhoRU; ManytoOneWhoAmI; ManytoOneHello; ManytoOneAll; ManytoMany].

(** ** The reference protocol

    The usage text of EchoAssignment.cpp: a client sends its command as a line,
    the server answers with a line. *)

Definition newline : Ascii.ascii := Ascii.ascii_of_nat 10.
Definition send_line (s : string) : string := s +:+ String.String newline String.EmptyString.

Fixpoint read_line (s : string) : string :=
  match s with
  | String.EmptyString => String.EmptyString
  | String.String c s => if Ascii.eqb c newline then String.EmptyString else String.String c (read_line s)
  end.

Fixpoint one_line (s : string) : bool :=
  match s with
  | String.EmptyString => true
  | String.String c s => negb (Ascii.eqb c newline) && one_line s
  end.

Inductive Command := CmdHello | CmdWhoAmI | CmdWhoRU | CmdEcho (text : string).

Definition command_of (s : string) : Command :=
  match s with
  | "hello" => CmdHello
  | "whoami" => CmdWhoAmI
  | "whoru" => CmdWhoRU
  | _ => CmdEcho s
  end%string.

Definition reply (server_hello client_ip server_ip : string) (c : Command) : string :=
  match c with
  | CmdHello => server_hello
  | CmdWhoAmI => client_ip
  | CmdWhoRU => server_ip
  | CmdEcho text => text
  end.

(** What the two ends of a connection submit: the server the command it read,
    the client the answer it read. *)
Definition submissions (t : EchoTest) (c : Connection) : list ((nat * nat * string) * string) :=
  let hello := default String.EmptyString (servers t !! server_host c) in
  let asked := read_line (send_line (c_command c)) in
  let told := read_line (send_line (reply hello (client_ip t c) (server_ip c) (command_of asked))) in
  [((server_host c, 0%nat, client_ip t c), asked); ((client_host t c, c_app c, server_ip c), told)].

(** [submitAnswer] of the application the key names, in the order given. *)
Definition submit (kv : (nat * nat * string) * string) (ans : Answers) : Answers := <[fst kv := snd kv]> ans.
Definition submitted (subs : list ((nat * nat * string) * string)) : Answers :=
  foldl (fun ans kv => submit kv ans) ∅ subs.

(** No two connections between the same hosts with different commands. *)
Definition no_conflict (cs : list Connection) : Prop :=
  forall c c', c ∈ cs -> c' ∈ cs -> c_server c = c_server c' -> c_client c = c_client c' -> c_command c = c_command c'.

(** ** Correctness *)

(** The last value submitted under a key. *)
Lemma foldl_submit_lookup l (k : nat * nat * string) v ans :
  (forall v', (k, v') ∈ l -> v' = v) -> (k, v) ∈ l \/ ans !! k = Some v ->
  foldl (fun ans kv => submit kv ans) ans l !! k = Some v.
Proof.
  revert ans. induction l as [|[k' v'] l IH]; intros ans Hf Hin; cbn [foldl].
  - destruct Hin as [Hin|Hin]; [by apply not_elem_of_nil in Hin|done].
  - apply IH; [set_solver|]. unfold submit. cbn. destruct (decide (k' = k)) as [->|Hne].
    + right. rewrite lookup_insert_eq. f_equal. apply Hf. set_solver.
    + rewrite lookup_insert_ne by done. destruct Hin as [[Hin|Hin]%elem_of_cons|Hin]; [congruence|by left|by right].
Qed.

(** What [SetUp] guarantees of the connections it records. *)
Record conns_ok (t : EchoTest) (cs : list Connection) : Prop := {
  co_ids : forall c, c ∈ cs -> 0 <= c_server c < Z.of_nat (length (servers t)) /\ 0 <= c_client c;
  co_apps : forall c c', c ∈ cs -> c' ∈ cs -> c_client c = c_client c' -> c_app c = c_app c' -> c = c';
}.

(** An application is counted for every connection of its client. *)
Record setup_inv (t : EchoTest) (st : list (list (list string)) * list Connection) : Prop := {
  si_conns : conns_ok t (snd st);
  si_below : forall c, c ∈ snd st -> exists apps, fst st !! client_host t c = Some apps /\ (c_app c < length apps)%nat;
}.

Definition ids_ok (t : EchoTest) : Prop :=
  Z.of_nat (length (servers t)) < 50 /\ Forall (fun '(s, c, _) => 0 <= s /\ 0 <= c) (wanted t).

Lemma num_servers_small t : Z.of_nat (length (servers t)) < 50 -> num_servers t = Z.of_nat (length (servers t)).
Proof. intros H. unfold num_servers. apply wrap_small. unfold is_u. lia. Qed.

Lemma addConnection_inv t w st st' :
  Z.of_nat (length (servers t)) < 50 -> (let '(s, c, _) := w in 0 <= s /\ 0 <= c) ->
  setup_inv t st -> addConnection t w st = Ok st' -> setup_inv t st'.
Proof.
  intros Hl. destruct w as [[sid cid] cmd], st as [apps cs]. intros [Hs0 Hc0] [[Hids Happs] Hbelow] H. cbn in *.
  rewrite num_servers_small in H by done. unfold assert_that in H.
  destruct (Z.ltb_spec sid (Z.of_nat (length (servers t)))) as [Hs|]; [|discriminate].
  destruct (cid <? num_clients t); [|discriminate]. cbn [mbind Res_bind] in H.
  set (id := Z.to_nat (Z.of_nat (length (servers t)) + cid)) in *.
  destruct (apps !! id) as [client|] eqn:Ea; [|discriminate]. injection H as <-.
  assert (forall c, c ∈ cs -> c_client c = cid -> (c_app c < length client)%nat) as Hlt.
  { intros c Hc <-. destruct (Hbelow c Hc) as (a & Ha & Hca). unfold client_host in Ha. fold id in Ha. congruence. }
  constructor; [constructor|]; cbn.
  - intros c [Hc| ->%list_elem_of_singleton]%elem_of_app; [by apply Hids|]. cbn. lia.
  - intros c c' [Hc| ->%list_elem_of_singleton]%elem_of_app [Hc'| ->%list_elem_of_singleton]%elem_of_app; cbn.
    + by apply Happs.
    + intros E1 E2. specialize (Hlt c Hc E1). lia.
    + intros E1 E2. specialize (Hlt c' Hc' (eq_sym E1)). lia.
    + done.
  - assert (id < length apps)%nat as Hid by (apply lookup_lt_is_Some; by eexists).
    intros c [Hc| ->%list_elem_of_singleton]%elem_of_app.
    + destruct (Hbelow c Hc) as (a & Ha & Hca). destruct (decide (client_host t c = id)) as [E|E].
      * rewrite E in *. rewrite list_lookup_insert_eq by done. eexists. split; [done|]. rewrite length_app. rewrite Ea in Ha.
        injection Ha as <-. lia.
      * rewrite list_lookup_insert_ne by done. eauto.
    + cbn. unfold client_host. cbn. fold id. rewrite list_lookup_insert_eq by done. eexists. split; [done|].
      rewrite length_app. cbn. lia.
Qed.

Lemma setup_conns t apps cs : ids_ok t -> setup_apps t = Ok (apps, cs) -> conns_ok t cs.
Proof.
  intros [Hl Hw] H. unfold setup_apps, addApps in H. res_inv.
  match goal with E : foldM (addConnection t) _ (?a, []) = Ok _ |- _ =>
    assert (setup_inv t (apps, cs)) as [Hc _]; [|exact Hc]; revert E end.
  apply (foldM_inv (setup_inv t)).
  - intros w st st' Hin Hst Hf. rewrite Forall_forall in Hw. eapply addConnection_inv; [done| |done|exact Hf]. by apply Hw.
  - constructor; [constructor|]; cbn; set_solver.
Qed.

(** All expectations hold. *)
Definition passes (t : EchoTest) (cs : list Connection) (ans : Answers) : Prop :=
  exists bs, checkTest t cs ans = Ok bs /\ forallb (fun b => b) bs = true.

Definition right_answers (t : EchoTest) (ans : Answers) (c : Connection) : Prop :=
  (skip_server t = true \/ answer ans (server_host c) 0 (client_ip t c) = c_command c) /\
  answer ans (client_host t c) (c_app c) (server_ip c) =
    expected_client_ans (default String.EmptyString (servers t !! server_host c)) (client_ip t c) (server_ip c) (c_command c).

Lemma checkConnection_spec t ans c :
  0 <= c_server c < Z.of_nat (length (servers t)) ->
  exists bs, checkConnection t ans c = Ok bs /\ (forallb (fun b => b) bs = true <-> right_answers t ans c).
Proof.
  intros Hc. unfold checkConnection, right_answers. destruct (servers t !! server_host c) as [hello|] eqn:E.
  - cbn [of_option mbind Res_bind]. eexists. split; [reflexivity|]. rewrite forallb_app, andb_true_iff. cbn. rewrite andb_true_r, String.eqb_eq.
    destruct (skip_server t); cbn; [naive_solver|]. rewrite andb_true_r, String.eqb_eq. naive_solver.
  - apply lookup_ge_None in E. unfold server_host in E. lia.
Qed.

Lemma checkTest_spec t cs ans :
  conns_ok t cs -> passes t cs ans <-> forall c, c ∈ cs -> right_answers t ans c.
Proof.
  intros [Hids _]. unfold passes, checkTest.
  assert (forall bs0, (exists bs, foldM (fun c bs => new ← checkConnection t ans c; Ok (bs ++ new)) cs bs0 = Ok bs /\
    forallb (fun b => b) bs = true) <-> forallb (fun b => b) bs0 = true /\ forall c, c ∈ cs -> right_answers t ans c) as H.
  { induction cs as [|c cs IH]; intros bs0; cbn [foldM].
    - split; [intros (bs & [= <-] & H); split; [done|set_solver] | intros [H _]; by exists bs0].
    - destruct (checkConnection_spec t ans c) as (bs & -> & Hbs); [apply Hids; set_solver|]. cbn [mbind Res_bind].
      rewrite IH by (intros; apply Hids; set_solver). rewrite forallb_app, andb_true_iff, Hbs.
      setoid_rewrite elem_of_cons. naive_solver. }
  rewrite (H []). naive_solver.
Qed.

Lemma host_ip_inj a b : host_ip a = host_ip b -> a = b.
Proof. unfold host_ip. intros H. by simplify_eq. Qed.

(** The answers [checkTest] looks for. *)
Definition wanted_answers (t : EchoTest) (c : Connection) : list ((nat * nat * string) * string) :=
  [((server_host c, 0%nat, client_ip t c), c_command c);
   ((client_host t c, c_app c, server_ip c),
    expected_client_ans (default String.EmptyString (servers t !! server_host c)) (client_ip t c) (server_ip c) (c_command c))].

Lemma key_eq (h h' a a' : nat) (ip ip' : string) : (h, a, ip) = (h', a', ip') -> (h = h' /\ a = a') /\ ip = ip'.
Proof. intros H. by rewrite !pair_equal_spec in H. Qed.

(** The key of a wanted answer says which connection and which end it is of. *)
Lemma wanted_key t cs c c' k v v' :
  conns_ok t cs -> c ∈ cs -> c' ∈ cs -> (k, v) ∈ wanted_answers t c -> (k, v') ∈ wanted_answers t c' ->
  (c_server c = c_server c' /\ c_client c = c_client c' /\ v = c_command c /\ v' = c_command c') \/ v = v'.
Proof.
  intros [Hids Happs] Hc Hc'. pose proof (Hids c Hc). pose proof (Hids c' Hc'). unfold wanted_answers.
  rewrite !elem_of_cons, !elem_of_nil, !pair_equal_spec. unfold server_host, client_host.
  intros [[-> ->]|[[-> ->]|[]]] [[((E1 & E2) & E3)%key_eq ->]|[[((E1 & E2) & E3)%key_eq ->]|[]]]; try lia.
  - left. apply host_ip_inj in E3. split_and!; lia || done.
  - right. assert (c = c') as -> by (apply Happs; lia || done). done.
Qed.

(** Every order of the right submissions gives the right answers. *)
Lemma submitted_right t cs subs c :
  conns_ok t cs -> no_conflict cs -> subs ≡ₚ cs ≫= wanted_answers t -> c ∈ cs -> right_answers t (submitted subs) c.
Proof.
  intros Hok Hn Hperm Hc.
  assert (forall k v, (k, v) ∈ wanted_answers t c -> submitted subs !! k = Some v) as H.
  { intros k v Hkv. apply foldl_submit_lookup.
    - intros v' (c' & Hv' & Hc')%(elem_of_Permutation_proper _ _ _ Hperm)%list_elem_of_bind.
      destruct (wanted_key t cs c c' k v v' Hok Hc Hc' Hkv Hv') as [(E1 & E2 & -> & ->)|]; [|done].
      symmetry. by apply Hn.
    - left. rewrite Hperm. apply list_elem_of_bind. by exists c. }
  unfold right_answers, answer. split; [right|]; (erewrite H; [reflexivity|]); unfold wanted_answers; set_solver.
Qed.

(** With the servers' answers unchecked, the clients' keys are enough. *)
Lemma submitted_right_skip t cs subs c :
  conns_ok t cs -> skip_server t = true -> subs ≡ₚ cs ≫= wanted_answers t -> c ∈ cs -> right_answers t (submitted subs) c.
Proof.
  intros Hok Hs Hperm Hc. split; [by left|]. unfold answer, submitted. erewrite foldl_submit_lookup; [reflexivity| |].
  - intros v' (c' & Hv' & Hc')%(elem_of_Permutation_proper _ _ _ Hperm)%list_elem_of_bind.
    pose proof (co_ids t cs Hok c Hc). pose proof (co_ids t cs Hok c' Hc').
    revert Hv'. unfold wanted_answers. rewrite !elem_of_cons, elem_of_nil, !pair_equal_spec. unfold server_host, client_host.
    intros [[((E1 & E2) & E3) ->]|[[((E1 & E2) & E3) ->]|[]]].
    + lia.
    + assert (c = c') as -> by (apply (co_apps t cs Hok); lia || done). done.
  - left. rewrite Hperm. apply list_elem_of_bind. exists c. split; [|done]. unfold wanted_answers. set_solver.
Qed.

Lemma submitted_passes t cs subs :
  conns_ok t cs -> skip_server t = true \/ no_conflict cs -> subs ≡ₚ cs ≫= wanted_answers t -> passes t cs (submitted subs).
Proof.
  intros Hok Hs Hperm. apply checkTest_spec; [done|]. intros c Hc.
  destruct Hs; [by apply (submitted_right_skip t cs) | by apply (submitted_right t cs)].
Qed.

(** A line arrives as it was sent. *)
Lemma read_send_line s : one_line s = true -> read_line (send_line s) = s.
Proof.
  induction s as [|c s IH]; [done|]. change (send_line (String.String c s)) with (String.String c (send_line s)).
  cbn [one_line read_line]. destruct (Ascii.eqb c newline); [done|]. cbn. intros H. by rewrite IH.
Qed.

Lemma reply_expected hello cip sip s :
  reply hello cip sip (command_of s) = expected_client_ans hello cip sip s.
Proof.
  unfold expected_client_ans.
  destruct (String.eqb_spec s "hello"), (String.eqb_spec s "whoami"), (String.eqb_spec s "whoru"); subst; try reflexivity.
  unfold command_of. repeat case_match; subst; cbn; congruence.
Qed.

(** The texts of a connection fit on a line. *)
Definition lines_ok (t : EchoTest) (c : Connection) : bool :=
  one_line (c_command c) && one_line (default String.EmptyString (servers t !! server_host c)) &&
  one_line (client_ip t c) && one_line (server_ip c).

Lemma submissions_wanted t c : lines_ok t c = true -> submissions t c = wanted_answers t c.
Proof.
  unfold lines_ok, submissions, wanted_answers. rewrite !andb_true_iff. intros [[[H1 H2] H3] H4].
  rewrite (read_send_line (c_command c)) by done. rewrite reply_expected, read_send_line; [done|].
  unfold expected_client_ans. by repeat case_match.
Qed.

Definition no_conflictb (cs : list Connection) : bool :=
  forallb (fun c => forallb (fun c' =>
    negb ((c_server c =? c_server c') && (c_client c =? c_client c')) || String.eqb (c_command c) (c_command c')) cs) cs.

Lemma no_conflictb_spec cs : no_conflictb cs = true <-> no_conflict cs.
Proof.
  unfold no_conflictb, no_conflict. rewrite forallb_forall. setoid_rewrite forallb_forall. setoid_rewrite <-list_elem_of_In.
  setoid_rewrite orb_true_iff. setoid_rewrite negb_true_iff. setoid_rewrite andb_false_iff. setoid_rewrite Z.eqb_neq.
  setoid_rewrite String.eqb_eq. split.
  - intros H c c' Hc Hc' E1 E2. destruct (H c Hc c' Hc') as [[|]|]; done.
  - intros H c Hc c' Hc'. destruct (decide (c_server c = c_server c')), (decide (c_client c = c_client c')); auto.
Qed.

(** One computation per test. *)
Definition test_checked (t : EchoTest) : bool :=
  match setup_apps t with
  | Ok (_, cs) =>
      (Z.of_nat (length (servers t)) <? 50) && forallb (fun '(s, c, _) => (0 <=? s) && (0 <=? c)) (wanted t) &&
      (skip_server t || no_conflictb cs) && forallb (lines_ok t) cs &&
      match checkTest t cs ∅ with Ok bs => negb (forallb (fun b => b) bs) | Err _ => true end
  | Err _ => false
  end.

Lemma tests_checked : forallb test_checked tests = true.
Proof. vm_compute. reflexivity. Qed.

Lemma bind_submissions t cs : forallb (lines_ok t) cs = true -> cs ≫= submissions t = cs ≫= wanted_answers t.
Proof.
  induction cs as [|c cs IH]; [done|]. intros [H1 H2]%andb_true_iff. rewrite !bind_cons, submissions_wanted by done. by rewrite IH.
Qed.


(** C31: a test can be passed by some application exactly when it does not check
    the servers' answers or never has two connections between the same hosts
    with different commands: [answers] has one entry per peer address, so a
    server that is asked twice by a client keeps the last command only. *)
Theorem echo_test_passable (t : EchoTest) apps cs :
  ids_ok t -> setup_apps t = Ok (apps, cs) ->
  (exists ans, passes t cs ans) <-> skip_server t = true \/ no_conflict cs.
Proof.
  intros Hids Hset. pose proof (setup_conns t apps cs Hids Hset) as Hok. split.
  - intros [ans H]. rewrite checkTest_spec in H by done. destruct (skip_server t) eqn:Es; [by left|]. right.
    intros c c' Hc Hc' E1 E2. apply H in Hc as [[Hs|Hc] _], Hc' as [[Hs'|Hc'] _]; try congruence.
    unfold server_host, client_ip in *. rewrite <-Hc, <-Hc', E1, E2. done.
  - intros H. exists (submitted (cs ≫= wanted_answers t)). by apply submitted_passes.
Qed.

(** Two commands from one client to one server, the servers checked. *)
Definition TwiceAsked : EchoTest := mkEchoTest ["hi"]%string 1 [(0, 0, "whoru"); (0, 0, "hello")]%string false.

Lemma TwiceAsked_ids : ids_ok TwiceAsked.
Proof. split; [vm_compute; reflexivity|]. repeat constructor; vm_compute; discriminate. Qed.

Lemma echo_test_passable_witness :
  exists apps cs, setup_apps TwiceAsked = Ok (apps, cs) /\ ~ exists ans, passes TwiceAsked cs ans.
Proof.
  destruct (setup_apps TwiceAsked) as [[apps cs]|] eqn:E; [|vm_compute in E; discriminate].
  exists apps, cs. split; [reflexivity|]. intros H.
  destruct (proj1 (echo_test_passable TwiceAsked apps cs TwiceAsked_ids E) H) as [Hs|Hn]; [discriminate Hs|].
  apply no_conflictb_spec in Hn. vm_compute in E. injection E as <- <-. vm_compute in Hn. discriminate Hn.
Defined.

End EchoTest.
