(* ===== verification/EchoBed.v ===== *)
(** * EchoBed: the network of the echo tests

    Models the rest of app/echo/testecho.cpp: the network [EchoTesting::SetUp]
    builds (every host on one switch, each knowing the addresses of all the
    others) and [runTest].  [provider] is [TCPSolutionProvider::allocate], which
    the repository only has as a compiled library. *)

From S2P Require Import Prelude NetworkUtil Packet RoutingInfo TimeUtil RandomDistribution System.
From S2P Require Import ModuleBase Wire Link HostApi Ethernet Host Assignments Network TestEnv EchoTest.
From stdpp Require Import sorting relations.
Local Open Scope Z_scope.

Module EchoBed.
Import NetworkUtil System Network TestEnv EchoTest.

(** Lookups in a map with insertions at keys [lia] can tell apart. *)
Ltac look := repeat first [rewrite lookup_insert_eq | rewrite lookup_insert_ne by lia].

Definition host_mac (id : Z) : list Z := [0xBC; 0xBC; 0xBC; 0xBC; 0xBC; id].
Definition host_addr (id : Z) : list Z := [10; 0; 0; id].

Section EchoBed.
Context {RE : RandomEngine} {X : Type} {EX : ExternalModule X} {ES : ExternalStable X}.
Context {US : UnorderedSet Z} {UM : UnorderedMap}.
Abbreviation Obj := (HostObject X).
Abbreviation Sys := (System (NetMod (Obj := Obj)) Message Z Env).
Abbreviation HostT := (Host.Host Obj).

(** ** Set-up *)

Record EchoBed := mkEchoBed {
  echo_sys : Sys;
  echo_switch : Z;
  echo_hosts : list Z;
}.

(** The loop over the peers of the host [host_id], whose module is [r]. *)
Definition addPeer (r host_id peer_id : Z) (s : Sys) : Res Sys :=
  if peer_id =? host_id then Ok s
  else onHost r (setARPTable (host_mac peer_id) (host_addr peer_id)) s.

(** The body of the loop over the hosts; [n] is [num_hosts]. *)
Definition addHost (provider : Provider (X := X)) (n host_id : Z) (b : EchoBed) : Res EchoBed :=
  '(s, r) ← newHost (echo_sys b);
  '(s, (_, (host_port, switch_port))) ← addWire r (echo_switch b) (makeTime 1 MSEC) Wire.default_bps true s;
  s ← onHost r (setMACAddr (host_mac host_id) host_port) s;
  s ← foldM (addPeer r host_id) (seqZ 1 n) s;
  s ← onHost r (setIPAddr (host_addr host_id) host_port) s;
  s ← onHost r (setRoutingTable [10; 0; 0; 0] 16 host_port) s;
  s ← onSwitch (echo_switch b) (addMACEntry switch_port (host_mac host_id)) s;
  s ← onHost r (Host.addHostModule EthernetObject) s;
  s ← onHost r (Host.addHostModule (IPv4Object IPv4.IPv4_new)) s;
  s ← onHost r provider s;
  Ok (mkEchoBed s (echo_switch b) (echo_hosts b ++ [r])).

(** The switch and the hosts. *)
Definition addHosts (seed1 seed2 : Z) (provider : Provider (X := X)) (n : Z) (s : Sys) : Res EchoBed :=
  '(s, sw) ← newSwitch seed1 seed2 false s;
  foldM (addHost provider n) (seqZ 1 n) (mkEchoBed s sw []).

Definition SetUp (seed1 seed2 : Z) (provider : Provider (X := X)) (t : EchoTest) (s : Sys)
  : Res (EchoBed * list (list (list string)) * list Connection) :=
  _ ← checkSizes t;
  b ← addHosts seed1 seed2 provider (num_hosts t) s;
  s ← onSwitch (echo_switch b) (enablePCAPLogging 65535) (echo_sys b);
  s ← foldM (fun r => onHostSys r (Host.initializeHostModule r "TCP")) (echo_hosts b) s;
  '(apps, connections) ← addApps t;
  Ok (mkEchoBed s (echo_switch b) (echo_hosts b), apps, connections).

(** ** [runTest] *)

(** An application: [E_Main] of [EchoAssignment] with its arguments.  What it
    prints is left out. *)
Definition launchApp (r : Z) (args : list string) (s : Sys) : Res Sys :=
  '(_, main) ← Echo.E_Main args; launch r main s.

Definition launchApps (ha : Z * list (list string)) (s : Sys) : Res Sys :=
  foldM (launchApp (fst ha)) (snd ha) s.

Definition cleanUpHost (r : Z) (s : Sys) : Res Sys :=
  s ← cleanUp r s; finalizeHostModule r s.

Definition runTest (fuel : nat) (apps : list (list (list string))) (b : EchoBed)
  : Res (EchoBed * list (TimerContainer Message) * list (TimerContainer Message)) :=
  s ← foldM launchApps (zip (echo_hosts b) apps) (echo_sys b);
  '(s, log1) ← run fuel (makeTime 1000 SEC) s;
  s ← foldM cleanUpHost (echo_hosts b) s;
  '(s, log2) ← run fuel (makeTime 2000 SEC) s;
  Ok (mkEchoBed s (echo_switch b) (echo_hosts b), log1, log2).

(** ** The network that is built *)

(** What the loop over the hosts needs of the provider: it installs its module
    in a host that has Ethernet and IPv4, and leaves ports and tables alone. *)
Definition provider_installs (p : Provider (X := X)) : Prop :=
  forall ps r h0 h1 h2, Host.Host_new = Ok h0 ->
    Host.addHostModule EthernetObject (Host.set_routing r (Host.set_ports ps h0)) = Ok h1 ->
    Host.addHostModule (IPv4Object IPv4.IPv4_new) h1 = Ok h2 ->
    exists h3, p h2 = Ok h3 /\ Host.ports h3 = ps /\ Host.routing h3 = r.

Definition peers_of (n k : Z) : list Z := filter (fun j => j <> k) (seqZ 1 n).
Definition arp_of (j : Z) : arp_entry := mkArp (host_addr j) (host_mac j).

(** The tables of host [k] of [n]. *)
Definition echo_tables (n k : Z) : RoutingInfo :=
  mkRoutingInfo [mkMac (host_mac k) 0] [mkIp (host_addr k) 0] (arp_of <$> peers_of n k) [mkRoute [10; 0; 0; 0] 16 0].

Lemma addPeers_run r k l (s : Sys) h :
  registeredModule s !! r = Some (NHost h) ->
  exists s', foldM (addPeer r k) l s = Ok s' /\ nextModuleID s' = nextModuleID s /\
    registeredModule s' = <[r := NHost (Host.set_routing
      (mkRoutingInfo (mac_vector (Host.routing h)) (ip_vector (Host.routing h))
        (arp_vector (Host.routing h) ++ (arp_of <$> filter (fun j => j <> k) l)) (route_vector (Host.routing h))) h)]>
      (registeredModule s).
Proof.
  revert s h. induction l as [|j l IH]; intros s h Hr; cbn [foldM].
  - exists s. split; [done|]. split; [done|]. cbn. rewrite app_nil_r, insert_id; [done|]. rewrite Hr. by destruct h as [? []].
  - unfold addPeer at 1. destruct (Z.eqb_spec j k) as [->|Hne].
    + destruct (IH s h Hr) as (s' & E & N & M). exists s'. rewrite filter_cons_False by naive_solver. done.
    + erewrite onHost_run; [|exact Hr|reflexivity].
      match goal with |- context [foldM _ l (store r (NHost ?h1) s)] =>
        destruct (IH (store r (NHost h1) s) h1) as (s' & E & N & M); [cbn; apply lookup_insert_eq|] end. exists s'. split; [exact E|]. split; [exact N|].
      rewrite M, filter_cons_True by done. cbn. by rewrite insert_insert_eq, <- app_assoc.
Qed.

(** The modules after [k] of [n] hosts: the switch is 1, host [j] is [2 * j]
    and its wire [2 * j + 1]. *)
Record upto (n k : Z) (b : EchoBed) : Prop := {
  up_good : good (echo_sys b);
  up_switch : echo_switch b = 1;
  up_hosts : echo_hosts b = (fun j => 2 * j) <$> seqZ 1 k;
  up_next : nextModuleID (echo_sys b) = 2 * k + 2;
  up_fresh : forall id, 2 * k + 2 <= id -> registeredModule (echo_sys b) !! id = None;
  up_table : exists w, registeredModule (echo_sys b) !! 1 = Some (NSwitch w) /\
    Link.ports (Link.sw_link w) = (fun j => 2 * j + 1) <$> seqZ 1 k /\
    (forall j, 1 <= j <= k -> Link.mac_table w !! (2 * j + 1) = Some {[ arrayToUINT64 (host_mac j) ]}) /\
    (forall id, 2 * k + 2 <= id -> Link.mac_table w !! id = None);
  up_each : forall j, 1 <= j <= k -> exists h x,
    registeredModule (echo_sys b) !! (2 * j) = Some (NHost h) /\ Host.ports h = [2 * j + 1] /\
    Host.routing h = echo_tables n j /\ registeredModule (echo_sys b) !! (2 * j + 1) = Some (NWire x) /\
    Wire.connected x = (2 * j, 1) /\ Wire.propagationDelay x = makeTime 1 MSEC;
}.

Lemma addHost_good provider n k (b b' : EchoBed) :
  provider_ok provider -> addHost provider n k b = Ok b' -> good (echo_sys b) -> good (echo_sys b').
Proof.
  unfold addHost. intros Hp H G. res_inv. cbn [echo_sys]. do 3 good_next.
  match goal with E : foldM (addPeer _ _) _ ?s0 = Ok ?s1, G : good ?s0 |- _ =>
    assert (good s1); [revert E; apply (foldM_inv good); [|exact G]|] end.
  - intros j x y _ Gx Ej. unfold addPeer in Ej. destruct (j =? k); [by injection Ej as <-|]. by good_next.
  - repeat good_next. done.
Qed.

Lemma stack_installs provider ps r h0 :
  provider_installs provider -> Host.Host_new = Ok h0 ->
  exists h1 h2 h3, Host.addHostModule EthernetObject (Host.set_routing r (Host.set_ports ps h0)) = Ok h1 /\
    Host.addHostModule (IPv4Object IPv4.IPv4_new) h1 = Ok h2 /\ provider h2 = Ok h3 /\
    Host.ports h3 = ps /\ Host.routing h3 = r.
Proof.
  intros Hp E0.
  assert (exists h1 h2, Host.addHostModule EthernetObject (Host.set_routing r (Host.set_ports ps h0)) = Ok h1 /\
    Host.addHostModule (IPv4Object IPv4.IPv4_new) h1 = Ok h2) as (h1 & h2 & E1 & E2).
  { injection E0 as <-. eexists _, _. split; reflexivity. }
  destruct (Hp ps r h0 h1 h2 E0 E1 E2) as (h3 & H3). by exists h1, h2, h3.
Qed.

(** The address of the host at the port that was connected last. *)
Lemma last_port_entry (w : Link.Switch) wire mac :
  Link.mac_table w !! wire = None ->
  exists w', addMACEntry (Z.of_nat (length (Link.ports (Link.sw_link w)))) mac
      (Link.set_sw_link (fst (Link.connectWire wire (Link.sw_link w))) w) = Ok w' /\
    Link.ports (Link.sw_link w') = Link.ports (Link.sw_link w) ++ [wire] /\
    Link.mac_table w' = <[wire := {[ arrayToUINT64 mac ]}]> (Link.mac_table w).
Proof.
  intros Hn. unfold addMACEntry, Link.addMACEntry. rewrite Nat2Z.id. cbn. rewrite lookup_app_r, Nat.sub_diag by lia. cbn.
  eexists. split; [reflexivity|]. cbn. split; [reflexivity|]. rewrite Hn. cbn. by rewrite (right_id_L ∅ (∪)).
Qed.

(** The modules of one more host, as the other steps see them. *)
Lemma addHost_run provider n k (b : EchoBed) :
  provider_installs provider -> 0 <= k < 2 ^ 32 -> upto n k b ->
  exists s' h x w w', addHost provider n (k + 1) b = Ok (mkEchoBed s' 1 (echo_hosts b ++ [2 * k + 2])) /\
    nextModuleID s' = 2 * k + 4 /\ Host.ports h = [2 * k + 3] /\ Host.routing h = echo_tables n (k + 1) /\
    Wire.connected x = (2 * k + 2, 1) /\ Wire.propagationDelay x = makeTime 1 MSEC /\
    registeredModule (echo_sys b) !! 1 = Some (NSwitch w) /\
    Link.ports (Link.sw_link w') = Link.ports (Link.sw_link w) ++ [2 * k + 3] /\
    Link.mac_table w' = <[2 * k + 3 := {[ arrayToUINT64 (host_mac (k + 1)) ]}]> (Link.mac_table w) /\
    forall id, registeredModule s' !! id =
      (<[2 * k + 2 := NHost h]> (<[1 := NSwitch w']> (<[2 * k + 3 := NWire x]> (registeredModule (echo_sys b))))) !! id.
Proof.
  intros Hp Hk [G Sw Hh Nx Fr (w & Ew & Pw & Tw & Tn) Each]. destruct Host_new_run as (h0 & E0 & P0 & R0).
  assert (forall x, 0 <= x < 2 ^ 64 - 1 -> x ⊞ 1 = x + 1) as Hw by (intros; apply wrap_small; unfold is_u; lia).
  destruct (addModule_run (NHost h0) (echo_sys b)) as (s1 & E1 & M1 & N1); [rewrite Nx; apply Fr; lia|].
  rewrite Nx in E1, M1, N1. rewrite Hw in N1 by lia.
  destruct (addWire_run_host (2 * k + 2) 1 (makeTime 1 MSEC) Wire.default_bps s1 h0 w (2 * k + 3))
    as (s2 & x & E2 & M2 & _ & N2 & Cx & Dx).
  { rewrite M1. apply lookup_insert_eq. } { by rewrite M1, lookup_insert_ne by lia. } { lia. }
  { rewrite M1, lookup_insert_ne by lia. apply Fr. lia. }
  rewrite Hw in N2 by lia. rewrite P0 in E2. change (Z.of_nat (length [])) with 0 in E2.
  set (w1 := Link.set_sw_link _ w) in M2. set (h1 := fst _) in M2.
  assert (registeredModule s2 !! (2 * k + 2) = Some (NHost h1)) as Eh1 by (rewrite M2, lookup_insert_ne by lia; apply lookup_insert_eq).
  set (h2 := Host.set_routing (RoutingInfo.setMACAddr (host_mac (k + 1)) 0 (Host.routing h1)) h1).
  destruct (addPeers_run (2 * k + 2) (k + 1) (seqZ 1 n) (store (2 * k + 2) (NHost h2) s2) h2)
    as (s4 & E4 & N4 & M4); [cbn; apply lookup_insert_eq|].
  set (h4 := Host.set_routing _ h2) in M4.
  destruct (stack_installs provider [2 * k + 3] (echo_tables n (k + 1)) h0 Hp E0) as (h7 & h8 & h9 & E7 & E8 & E9 & P9 & R9).
  destruct (last_port_entry w (2 * k + 3) (host_mac (k + 1))) as (w' & Ew' & Pw' & Tw'); [apply Tn; lia|]. fold w1 in Ew'.
  eexists _, h9, x, w, w'. split.
  { unfold addHost. unfold newHost. rewrite E0. cbn [mbind Res_bind]. rewrite E1. cbn [mbind Res_bind].
    rewrite Sw, E2. cbn [mbind Res_bind].
    rewrite (onHost_run (2 * k + 2) (setMACAddr (host_mac (k + 1)) 0) s2 h1 h2 Eh1 eq_refl). cbn [mbind Res_bind].
    rewrite E4. cbn [mbind Res_bind].
    erewrite onHost_run; [|rewrite M4; apply lookup_insert_eq|reflexivity]. cbn [mbind Res_bind].
    erewrite onHost_run; [|cbn; apply lookup_insert_eq|reflexivity]. cbn [mbind Res_bind].
    erewrite (onSwitch_run 1); [|cbn; rewrite !lookup_insert_ne by lia; rewrite M4; cbn; rewrite !lookup_insert_ne by lia; rewrite M2; apply lookup_insert_eq|exact Ew'].
    cbn [mbind Res_bind].
    erewrite (onHost_run (2 * k + 2) (Host.addHostModule EthernetObject)); [|cbn; rewrite lookup_insert_ne by lia; apply lookup_insert_eq|].
    2: { replace (Host.set_routing (echo_tables n (k + 1)) (Host.set_ports [2 * k + 3] h0)) with
           (Host.set_routing (RoutingInfo.setRoutingTable [10; 0; 0; 0] 16 0 (RoutingInfo.setIPAddr (host_addr (k + 1)) 0 (Host.routing h4))) h4) in E7; [exact E7|].
         unfold h4, h2, h1. cbn. rewrite P0, R0. reflexivity. }
    cbn [mbind Res_bind].
    erewrite onHost_run; [|cbn; apply lookup_insert_eq|exact E8]. cbn [mbind Res_bind].
    erewrite onHost_run; [|cbn; apply lookup_insert_eq|exact E9]. cbn [mbind Res_bind]. reflexivity. }
  cbn [nextModuleID store set_modules]. split; [rewrite N4; cbn; lia|]. split; [exact P9|]. split; [exact R9|]. split; [exact Cx|]. split; [exact Dx|]. split; [exact Ew|]. split; [exact Pw'|]. split; [exact Tw'|].
  intros id. cbn [registeredModule store set_modules]. rewrite M4. cbn [registeredModule store set_modules].
  rewrite M2, M1. destruct (decide (id = 2 * k + 2)), (decide (id = 1)), (decide (id = 2 * k + 3)); try subst id; by look.
Qed.

Lemma seqZ_snoc k : 0 <= k -> seqZ 1 (k + 1) = seqZ 1 k ++ [k + 1].
Proof. intros Hk. rewrite seqZ_app by lia. f_equal. rewrite seqZ_cons, seqZ_nil by lia. f_equal. lia. Qed.

Lemma addHost_upto provider n k (b : EchoBed) :
  provider_ok provider -> provider_installs provider -> 0 <= k < 2 ^ 32 -> upto n k b ->
  exists b', addHost provider n (k + 1) b = Ok b' /\ upto n (k + 1) b'.
Proof.
  intros Hok Hp Hk Hup. pose proof Hup as [G Sw Hh Nx Fr (w0 & Ew0 & Pw & Tw & Tn) Each].
  destruct (addHost_run provider n k b Hp Hk Hup) as (s' & h & x & w & w' & E & N & Ph & Rh & Cx & Dx & Ew & Pw' & Tw' & M).
  rewrite Ew0 in Ew. injection Ew as <-. eexists. split; [exact E|].
  constructor; cbn [echo_sys echo_switch echo_hosts].
  - exact (addHost_good _ _ _ _ _ Hok E G).
  - reflexivity.
  - rewrite Hh, seqZ_snoc, fmap_app by lia. cbn. do 2 f_equal. lia.
  - lia.
  - intros id Hid. rewrite M. look. apply Fr. lia.
  - exists w'. rewrite M. look. split; [reflexivity|]. rewrite Pw', Tw', Pw, seqZ_snoc, fmap_app by lia. cbn.
    split; [do 2 f_equal; lia|]. split; intros j Hj.
    + destruct (decide (j = k + 1)) as [->|]; [|look; apply Tw; lia].
      replace (2 * (k + 1) + 1) with (2 * k + 3) by lia. by look.
    + look. apply Tn. lia.
  - intros j Hj. destruct (decide (j = k + 1)) as [->|].
    + replace (2 * (k + 1) + 1) with (2 * k + 3) by lia. replace (2 * (k + 1)) with (2 * k + 2) by lia.
      exists h, x. rewrite !M. look. done.
    + destruct (Each j) as (hj & xj & H1 & H2 & H3 & H4 & H5); [lia|]. exists hj, xj. rewrite !M. look. done.
Qed.

Lemma addHosts_upto provider n k (b : EchoBed) (m : nat) :
  provider_ok provider -> provider_installs provider -> 0 <= k -> k + Z.of_nat m < 2 ^ 32 -> upto n k b ->
  exists b', foldM (addHost provider n) (seqZ (k + 1) (Z.of_nat m)) b = Ok b' /\ upto n (k + Z.of_nat m) b'.
Proof.
  intros Hok Hp. revert k b. induction m as [|m IH]; intros k b Hk Hm Hup.
  - exists b. rewrite Z.add_0_r. by split.
  - rewrite seqZ_cons by lia. cbn [foldM].
    destruct (addHost_upto provider n k b Hok Hp) as (b1 & -> & H1); [lia|exact Hup|].
    destruct (IH (k + 1) b1) as (b2 & E2 & H2); [lia|lia|exact H1|]. exists b2.
    replace (Z.succ (k + 1)) with (k + 1 + 1) by lia. replace (Z.pred (Z.of_nat (S m))) with (Z.of_nat m) by lia.
    split; [exact E2|]. by replace (k + Z.of_nat (S m)) with (k + 1 + Z.of_nat m) by lia.
Qed.

Lemma arp_lookup n k j :
  1 <= j <= n -> j <> k -> 0 <= j < 256 ->
  RoutingInfo.getARPTable (host_addr j) (echo_tables n k) = Some (host_mac j).
Proof.
  intros Hj Hne Hb. unfold RoutingInfo.getARPTable. cbn [arp_vector echo_tables].
  assert (j ∈ peers_of n k) as Hin by (apply list_elem_of_filter; split; [done|]; apply elem_of_seqZ; lia).
  revert Hin. generalize (peers_of n k). induction l as [|i l IH]; [by intros ?%not_elem_of_nil|].
  intros Hin. cbn. case_bool_decide as E; [by injection E as ->|]. apply IH.
  apply elem_of_cons in Hin as [->|]; [done|done].
Qed.

Lemma host_mac_int j k : 0 <= j < 256 -> 0 <= k < 256 -> arrayToUINT64 (host_mac j) = arrayToUINT64 (host_mac k) -> j = k.
Proof.
  intros Hj Hk E. apply arrayToUINT64_inj in E; [by injection E| | | |]; try done; try (cbn; lia);
    repeat constructor; unfold is_u; lia.
Qed.

(** The switch alone. *)
Lemma start_upto seed1 seed2 n :
  exists s : Sys, newSwitch seed1 seed2 false (System_init initial_env) = Ok (s, 1) /\ upto n 0 (mkEchoBed s 1 []).
Proof.
  eexists. split; [reflexivity|]. constructor; cbn [echo_sys echo_switch echo_hosts]; try reflexivity.
  - eapply (newSwitch_good seed1 seed2 false (System_init initial_env)); [reflexivity | apply init_good].
  - intros id Hid. cbn. look. apply lookup_empty.
  - eexists. split; [apply lookup_insert_eq|]. split; [reflexivity|]. split; [lia|]. intros id _. apply lookup_empty.
  - lia.
Qed.

(** A wire whose only address is that of host [k]. *)
Lemma mac_match_own w wire j k :
  Link.mac_table w !! wire = Some {[ arrayToUINT64 (host_mac (1 + Z.of_nat k)) ]} -> (j < 255)%nat -> (k < 255)%nat ->
  Link.mac_match (arrayToUINT64 (host_mac (1 + Z.of_nat j))) wire w = bool_decide (j = k).
Proof.
  intros Hw Hj Hk. unfold Link.mac_match. rewrite Hw.
  replace (_ =? arrayToUINT64 Link.mac_broadcast) with false; [cbn|].
  - apply bool_decide_ext. rewrite elem_of_singleton. split; [intros E%host_mac_int; lia | by intros ->].
  - symmetry. apply Z.eqb_neq. intros E. apply arrayToUINT64_inj in E; [discriminate E|..]; try done; try (cbn; lia);
      repeat constructor; unfold is_u; lia.
Qed.

(** the network of the echo tests: for up to 254 hosts the loop of [SetUp]
    succeeds whatever TCP module the provider installs, the result is a
    well-formed network, and any host can reach any other: its only port has
    its own addresses and a wire of one millisecond to the switch, it routes
    every host address to that port and resolves every peer's address to the
    peer's MAC address, and among the wires of the switch exactly the peer's is
    the one a frame with that address goes to. *)
Theorem echo_network_connected seed1 seed2 provider (N : nat) :
  provider_ok provider -> provider_installs provider -> (N < 255)%nat ->
  exists (b : EchoBed) w, addHosts seed1 seed2 provider (Z.of_nat N) (System_init initial_env) = Ok b /\
    good (echo_sys b) /\ length (echo_hosts b) = N /\
    registeredModule (echo_sys b) !! echo_switch b = Some (NSwitch w) /\
    forall k r, echo_hosts b !! k = Some r -> exists h wire x,
      registeredModule (echo_sys b) !! r = Some (NHost h) /\ Host.ports h = [wire] /\
      registeredModule (echo_sys b) !! wire = Some (NWire x) /\ Wire.connected x = (r, echo_switch b) /\
      Wire.propagationDelay x = makeTime 1 MSEC /\ Link.ports (Link.sw_link w) !! k = Some wire /\
      RoutingInfo.getMACAddr 0 (Host.routing h) = Some (host_mac (1 + Z.of_nat k)) /\
      RoutingInfo.getIPAddr 0 (Host.routing h) = Some (host_addr (1 + Z.of_nat k)) /\
      forall j, (j < N)%nat ->
        RoutingInfo.getRoutingTable (host_addr (1 + Z.of_nat j)) (Host.routing h) = Ok 0 /\
        (j <> k -> RoutingInfo.getARPTable (host_addr (1 + Z.of_nat j)) (Host.routing h) = Some (host_mac (1 + Z.of_nat j))) /\
        Link.mac_match (arrayToUINT64 (host_mac (1 + Z.of_nat j))) wire w = bool_decide (j = k).
Proof.
  intros Hok Hp HN. destruct (start_upto seed1 seed2 (Z.of_nat N)) as (s1 & E & H1). unfold addHosts. rewrite E.
  destruct (addHosts_upto provider (Z.of_nat N) 0 _ N Hok Hp ltac:(lia) ltac:(lia) H1) as (b & Eb & Hb).
  pose proof Hb as [G Sw Hh Nx Fr (w & Ew & Pw & Tw & Tn) Each].
  exists b, w. split; [exact Eb|]. split; [exact G|]. rewrite Hh, Sw. split; [rewrite length_fmap, length_seqZ; lia|].
  split; [exact Ew|]. intros k r (j & -> & Hj)%list_lookup_fmap_Some. apply lookup_seqZ in Hj as [-> Hk].
  destruct (Each (1 + Z.of_nat k)) as (h & x & Eh & Ph & Rh & Ex & Cx & Dx); [lia|].
  exists h, (2 * (1 + Z.of_nat k) + 1), x. rewrite Rh. split; [exact Eh|]. split; [exact Ph|]. split; [exact Ex|].
  split; [exact Cx|]. split; [exact Dx|].
  split; [rewrite Pw, list_lookup_fmap, lookup_seqZ_lt by lia; reflexivity|].
  split; [reflexivity|]. split; [reflexivity|]. intros j Hj. split; [reflexivity|]. split; [intros; apply arp_lookup; lia|].
  apply mac_match_own; [apply Tw; lia|lia|lia].
Qed.

(** ** The invariants through a test *)

Lemma addHosts_good seed1 seed2 provider n (s : Sys) b :
  provider_ok provider -> addHosts seed1 seed2 provider n s = Ok b -> good s -> good (echo_sys b).
Proof.
  unfold addHosts. intros Hok H G. res_inv. good_next.
  revert H. apply (foldM_inv (fun b => good (echo_sys b))); [|done].
  intros k x y _ Gx Hy. exact (addHost_good _ _ _ _ _ Hok Hy Gx).
Qed.

Lemma echo_SetUp_good seed1 seed2 provider t (s : Sys) b apps cs :
  provider_ok provider -> SetUp seed1 seed2 provider t s = Ok (b, apps, cs) -> good s -> good (echo_sys b).
Proof.
  unfold SetUp. intros Hok H G. res_inv. cbn [echo_sys].
  match goal with E : addHosts _ _ _ _ _ = Ok _ |- _ => apply addHosts_good in E; [|exact Hok|exact G] end.
  good_next. match goal with E : foldM _ _ ?s0 = Ok ?s1, G0 : good ?s0 |- good ?s1 => revert E; apply (foldM_inv good); [|exact G0] end.
  intros r x y _ Gx Hy. good_next. done.
Qed.

(** the echo test beds are well-formed networks and stay so: whatever TCP
    module the provider installs, [SetUp] of any test from the empty system
    leaves the network and queue invariants true, and [runTest] keeps them
    while the applications are launched, through both runs and the clean-up,
    every delivered message being addressed to a registered module that
    understands it. *)
Theorem echo_test_safe seed1 seed2 provider t fuel b b' apps cs log1 log2 :
  provider_ok provider -> SetUp seed1 seed2 provider t (System_init initial_env) = Ok (b, apps, cs) ->
  runTest fuel apps b = Ok (b', log1, log2) ->
  good (echo_sys b) /\ good (echo_sys b') /\
  (exists s1 : Sys, good s1 /\ Forall (fun c => addressed (registeredModule s1) (tc_from c) (tc_to c) (message c)) log1) /\
  Forall (fun c => addressed (registeredModule (echo_sys b')) (tc_from c) (tc_to c) (message c)) log2.
Proof.
  intros Hok Hs Hr. pose proof (echo_SetUp_good _ _ _ _ _ _ _ _ Hok Hs init_good) as G. split; [exact G|].
  unfold runTest in Hr. res_inv. cbn [echo_sys].
  match goal with E : foldM launchApps _ _ = Ok ?s1 |- _ => assert (good s1) as G1; [revert E; apply (foldM_inv good)|] end.
  { intros [r args] x y _ Gx Hy. revert Hy. apply (foldM_inv good); [|exact Gx]. intros ap u v _ Gu Hv.
    unfold launchApp in Hv. res_inv. by eapply launch_good. }
  { exact G. }
  match goal with E : run _ (makeTime 1000 SEC) _ = Ok _ |- _ => apply run_good in E as [G2 L1]; [|exact G1] end.
  match goal with E : foldM cleanUpHost _ _ = Ok ?s1 |- _ => assert (good s1) as G3; [revert E; apply (foldM_inv good)|] end.
  { intros r x y _ Gx Hy. unfold cleanUpHost in Hy. res_inv. repeat good_next. done. }
  { exact G2. }
  match goal with E : run _ (makeTime 2000 SEC) _ = Ok _ |- _ => apply run_good in E as [G4 L2]; [|exact G3] end.
  split; [exact G4|]. split; [|exact L2]. eexists. split; [exact G2 | exact L1].
Qed.

End EchoBed.
End EchoBed.

(** ** A test *)
Module EchoExample.
Import NetworkUtil System Network TestEnv EchoTest EchoBed.

#[local] Instance low_engine : RandomEngine := {|
  engine := unit;
  engine_seed _ := tt;
  uniform_real a _ g := (a, g);
  libm_exp x := x;
  libm_log x := x;
|}.
#[local] Instance unordered : UnorderedSet Z := {| bucket_pos _ _ := 0%nat |}.
#[local] Instance unordered_map : UnorderedMap.
Proof. refine {| map_order m := elements (dom m) |}. done. Defined.

Lemma assignment_ok : provider_ok (TCPAssignmentProvider (X := Empty_set)).
Proof. intros h h'. apply addHostModule_grows. Qed.

Lemma addHostModule_keeps o (h h' : Host.Host (HostObject Empty_set)) :
  Host.addHostModule o h = Ok h' -> Host.ports h' = Host.ports h /\ Host.routing h' = Host.routing h.
Proof. unfold Host.addHostModule. intros H. res_inv. done. Qed.

Lemma assignment_installs : provider_installs (TCPAssignmentProvider (X := Empty_set)).
Proof.
  intros ps r h0 h1 h2 E0 E1 E2. pose proof (addHostModule_keeps _ _ _ E1) as [P1 R1].
  pose proof (addHostModule_keeps _ _ _ E2) as [P2 R2]. rewrite P1 in P2. rewrite R1 in R2.
  assert (exists h3, TCPAssignmentProvider (X := Empty_set) h2 = Ok h3) as [h3 E3].
  { vm_compute in E0. injection E0 as <-. vm_compute in E1. injection E1 as <-. vm_compute in E2. injection E2 as <-.
    vm_compute. eexists. reflexivity. }
  exists h3. split; [exact E3|]. apply addHostModule_keeps in E3 as [-> ->]. rewrite P2, R2. by destruct h0.
Qed.

(** Three hosts: the third asks the switch for the first. *)
Lemma echo_network_connected_witness :
  exists b w, addHosts (X := Empty_set) 0 0 TCPAssignmentProvider 3 (System_init initial_env) = Ok b /\
    registeredModule (echo_sys b) !! echo_switch b = Some (NSwitch w) /\ length (echo_hosts b) = 3%nat.
Proof.
  destruct (echo_network_connected (X := Empty_set) 0 0 TCPAssignmentProvider 3 assignment_ok assignment_installs)
    as (b & w & E & _ & L & W & _); [lia|]. exists b, w. split; [exact E|]. split; [exact W | exact L].
Defined.

Definition bed : EchoBed (X := Empty_set) * list (list (list string)) * list Connection :=
  match SetUp 0 0 TCPAssignmentProvider SingleEcho (System_init initial_env) with
  | Ok r => r
  | Err _ => (mkEchoBed (System_init initial_env) 0 [], [], [])
  end.

Lemma bed_ok : SetUp 0 0 TCPAssignmentProvider SingleEcho (System_init initial_env) = Ok bed.
Proof. vm_compute. reflexivity. Qed.

Definition ran : EchoBed (X := Empty_set) * list (TimerContainer Message) * list (TimerContainer Message) :=
  match runTest 1000 (snd (fst bed)) (fst (fst bed)) with Ok r => r | Err _ => (fst (fst bed), [], []) end.

Lemma ran_ok : runTest 1000 (snd (fst bed)) (fst (fst bed)) = Ok ran.
Proof. vm_compute. reflexivity. Qed.

Lemma echo_test_safe_witness : good (echo_sys (fst (fst bed))) /\ good (echo_sys (fst (fst ran))).
Proof.
  destruct bed as [[b apps] cs] eqn:Eb. destruct ran as [[b' log1] log2] eqn:Er.
  destruct (echo_test_safe (X := Empty_set) 0 0 TCPAssignmentProvider SingleEcho 1000 b b' apps cs log1 log2 assignment_ok)
    as (G & G' & _).
  - rewrite bed_ok. by rewrite Eb.
  - pose proof ran_ok as R. rewrite Er, Eb in R. exact R.
  - split; [exact G | exact G'].
Defined.

End EchoExample.
